(* ===== verification/_CoqProject ===== *)
-Q . S2P
Prelude.v
Layout.v
Kernel.v
World.v
Ledger.v
Desc.v
Engine.v
EngineFacts.v
Wz.v
WzRing.v
WzScan.v
WzFlow.v
WzConfirm.v
Sgm.v
Transfer.v
TransferFacts.v
UserDma.v
Service.v
ServiceFacts.v
RxRing.v
RxFacts.v
CharDev.v
Tester.v
CharCtrl.v
CharFacts.v
BadBuffer.v
TesterFacts.v
DataFacts.v
RunFacts.v
PolledDma.v
Setup.v
SetupFacts.v
BarFacts.v
Creation.v
CreationFacts.v
EnginesFacts.v
Interfaces.v
InterfacesFacts.v
Probe.v
ProbeFrames.v
ProbeFacts.v
Lifecycle.v
Axi4s2dmov.v
AxiFacts.v
Shell.v
Bitstream.v
ShellIoctl.v
BitFacts.v
DownloadFacts.v
IcapFacts.v
McapFacts.v
ShellEnds.v
ShellInv.v
ClockFacts.v
ResetFacts.v
ShellProbe.v
ShellProbeFacts.v
Demo.v
Witnesses.v
WitnessesCore.v
WitnessesProbe.v
WitnessesAxi.v
WitnessesShell.v
WitnessesTester.v
WitnessesDma.v
