(* ===== verification/Prelude.v ===== *)
(** * A verification of the XDMA driver with the WZ cyclic extensions

    The repository holds a Linux driver of the Xilinx DMA subsystem for PCI
    Express (src/v2_xdma/software: the reference driver xdma-core.c and
    xdma-sgm.c, the extension wz-xdma.c included at its end, headers), the
    firmware it talks to, test programs, and the driver of a first version of
    the hardware (src/v1_dmover/software/driver/axi4s2dmov.c).  This library
    models both drivers as functions on an explicit state and proves what their
    parts promise.  For SDAccel boards, with SD_ACCEL set, the driver also
    downloads bitstreams (xdma-bit.c) and resets and clocks the accelerator
    (xdma-ioctl.c).

    ** The program and its parts

    A [probe] maps the BARs of the device, sets interrupts up, looks for the
    engines (up to four channels in each direction, H2C and C2H) and creates
    the character devices.  A process reads or writes such a device: its
    buffer is pinned and mapped (xdma-sgm.c), a transfer with a list of
    descriptors is built and queued on the engine; the engine works through
    the descriptors in coherent memory and raises an interrupt, whose bottom
    half completes the transfers and wakes the process.  The WZ extension
    replaces this on a streaming C2H channel by a ring of 128 descriptors that
    runs for ever over 128 buffers of 4 MB which the process maps: the bottom
    half collects the results the device writes back into blocks that end at
    an end of packet and queues them, an ioctl hands a block to the process,
    another one gives its descriptors back to the device.  The older driver has
    the same scheme with other means: it gives a DataMover one command for each
    buffer, takes the statuses that come back in the interrupt handler, and
    hands the buffers to the process in order.

    On an SDAccel board the ioctls of the control device take a container with a
    bitstream: its header is parsed, a gate cuts the accelerator off, the
    clearing bitstream kept from the last download and then the new one go to
    the HWICAP in the user BAR or to the MCAP in the configuration space, and
    the container's second image is kept as the next clearing bitstream.  Other
    ioctls set the clock of the accelerator and reset it or the whole board.

    ** How the code is modelled

    [prog S A] (this file) is a state monad whose runs end in a value and a
    state, or abort: [BugOn] is a BUG_ON, [BadAccess] an access of a null or
    freed object or out of the bounds of an array, [Deadlock] a lock taken
    twice, [Blocked] a sleep nothing ends, [OutOfFuel] a loop that was given too
    few turns.  [wp m Q s] says
    that the run ends properly and in [Q], [wlp] that it is in [Q] if it ends,
    [keeps R m] that a run relates the states before and after by [R],
    [halts m] that no run is out of fuel.

    The state is the record [world] of World.v.  The records have the fields
    of the structs; transfers, blocks of descriptors, scatter-gather mappers,
    engines and character devices are heaps ([gmap]) indexed by pointers, so
    that aliasing and use after free are visible; integers are [Z] with the
    conversions [u32], [u64], [s32], [s64] where the code converts or may
    wrap.  The engine a handler works on is the field [eng] ([with_engine] of
    Creation.v loads one from the heap).

    What is not code of the repository, that is the functions of the kernel,
    the user memory and the registers of the device, is the class [Env] of
    Kernel.v: each call is an event appended to the history [trace], and its
    results are those of [answer], an arbitrary function of the history.  So
    "register x is written before register y", "the interrupt is freed as
    often as requested" are statements on the history; Ledger.v defines the
    balance [held] of interrupts, mappings, regions, buffers and nodes.  What
    happens to the state while a process sleeps is the class [Sched].
    [ByteOrder] (Desc.v) is the byte order of the host.

    ** The files

    - Prelude: integers, the program monad with its rules and tactics, lists.
    - Layout: the constants and register blocks of xdma-core.h; the byte
      offset of a register is computed from the layout.
    - Kernel, World, Ledger: the environment, the state, the resources.
    - Desc, Engine, EngineFacts: the functions xdma_desc_* and the control of
      an engine (xdma-core.c): engine_start, xdma_engine_stop, transfer_queue.
    - Wz: every function of wz-xdma.c.  WzRing, WzScan, WzFlow, WzConfirm: its
      theorems.
    - Sgm: every function of xdma-sgm.c, and their theorems.
    - Transfer, TransferFacts: from a mapped buffer to a list of descriptors
      (transfer_create, transfer_build, transfer_destroy).  UserDma: Sgm, Transfer
      and the engine that walks the list composed, for a buffer of a process.
      BadBuffer: a buffer that cannot be pinned.
    - Service, ServiceFacts: the handlers of interrupts, the bottom half,
      polling (engine_service and its parts, xdma_isr, xdma_channel_irq).
    - RxRing, RxFacts: the older cyclic mode of xdma-core.c.
    - CharDev, DataFacts, RunFacts: the character device of an engine: read,
      write, asynchronous requests, seek, ioctl, open and close.  PolledDma:
      UserDma, the service and the polling composed to a read or write in poll
      mode.
    - CharCtrl, CharFacts: the control, events and bypass character devices.
    - Setup, SetupFacts, BarFacts: MSI and MSI-X, interrupts, BARs.
    - Creation, CreationFacts, EnginesFacts: engine_create, engine_destroy,
      probe_engines, remove_engines.
    - Interfaces, InterfacesFacts: device numbers, create_sg_char,
      destroy_sg_char, create_interfaces, destroy_interfaces.
    - Probe, ProbeFrames, ProbeFacts, Lifecycle: probe and its error labels,
      remove, loading the module.
    - Axi4s2dmov, AxiFacts: the driver of the AXI DataMover, with a state of its
      own (the global variables of axi4s2dmov.c).
    - Shell: the state of an SDAccel board (the record [shell], which holds the
      [world] and the kernel buffers as blocks of bytes), its gate, the clock's
      arithmetic, and the functions of xdma-core.c under SD_ACCEL
      (find_feature_id, engine_initialize, engine_version, engine_reinit).
      Bitstream: every function of xdma-bit.c.  ShellIoctl: the rest of
      xdma-ioctl.c.  [lift] runs code of the driver on the [world] in a [shell].
    - BitFacts: the format of a bitstream header and its parser.
      DownloadFacts, IcapFacts, McapFacts: the words a download writes.
      ShellEnds: the ioctls end.  ShellInv: what they leave allocated.
      ClockFacts, ResetFacts: the clock and the hot reset.
      ShellProbe, ShellProbeFacts: probe and remove with SD_ACCEL ([probe_sd],
      [remove_sd] on the record [card]), which hand the clearing bitstream from
      one driver to the next.
    - Tester: the test programs tester2.c and tester3.c as processes that call
      the handlers of CharDev and Wz.  TesterFacts: what tester2 checks, and the
      loop of both on a ring of the driver.
    - Demo, Witnesses, WitnessesCore, WitnessesProbe, WitnessesAxi,
      WitnessesShell, WitnessesTester, WitnessesDma: concrete environments and states on
      which the theorems with hypotheses are applied.

    Functions and fields have the names of the sources.

    ** What the theorems show

    - The cyclic extension.  [WzRing.wz_start_builds_ring]: starting builds the
      closed ring, one descriptor for each buffer, and hands it to the engine;
      the theorem covers descriptors an earlier start left ([descs_left]), which
      are freed and whose buffers lose their bus address ([destination]).
      [WzScan.wz_scan_assembles_blocks]: the handler's scan refines the
      specification [assemble], which cuts a list of results into blocks.
      [WzFlow.wz_blocks_contiguous]: over every interleaving of services,
      readers, confirmations and writes of the device ([flow_step]) the blocks
      handed out and queued are contiguous on the ring.
      [WzConfirm.wz_confirm_restores_the_block]: a confirmation restores
      exactly the descriptors of the block, the control word last.
    - Transfers.  [Sgm.sgm_get_user_pages_describes_buffer] and
      [TransferFacts.transfer_describe_covers_list] together: the descriptors
      cover exactly the bytes of the user buffer, in order.  Their lengths are
      those of the hardware as long as no entry is longer than a page
      ([pieces_bounded]): a longer entry is not split.  [UserDma.transfer_moves_the_buffer] composes them with
      the mapping of the kernel ([dma_mapping]) and the walk of the engine
      ([engine_walk]): transfer_create makes a list whose execution moves the
      user buffer, each byte once and in order;
      [UserDma.transfer_create_destroy_gives_back]: transfer_destroy undoes all of
      it.  [PolledDma.transfer_data_covers_the_request]: in poll mode a read or
      write runs the engine once for each chunk of the request, on a transfer
      that moves it, believes the count the device writes back, and gives
      everything back; the relation [chunks_run] is its specification.  (In
      interrupt mode an engine without the ring of the extension cannot be
      served: [RunFacts.service_work_without_ring].)
    - Completion.  [ServiceFacts.engine_service_completes_transfers]: the queue
      after a service as a function of the queue before and the count of
      completed descriptors; [RxFacts.ring_process_takes_new_results] for the
      receive ring.
    - The life of a device.  [Lifecycle.probe_then_remove_gives_back]: probe
      and remove together are neutral on interrupts, mappings, write-back
      buffers and regions, and end; [EnginesFacts.probe_engines_ok]: the engines
      are those the identifier registers show; [CreationFacts.engine_create_ok]:
      each is set up by the listed register accesses;
      [BarFacts.map_bars_identifies],
      [SetupFacts.msix_irq_setup_all_or_nothing],
      [InterfacesFacts.create_destroy_sg_char]: the parts of it, on success and
      on every error; [ProbeFacts.probe_releases_regions]: a failing probe.
    - The DataMover.  [AxiFacts.buffers_have_one_owner]: over every interleaving
      of interrupts, readers and confirmations a buffer is ready for the reader,
      has a command in the DataMover, or is lost with a status that is not
      OKAY, and only one of the three;
      [AxiFacts.adm_start_submits_all] and [AxiFacts.tst1_irq_drains] for the
      start and the interrupt handler.
    - The SDAccel board.  [BitFacts.parse_header_accepts_exactly]: the parser
      accepts exactly what [print_header] prints.
      [IcapFacts.bitstream_ioctl_icap_downloads] and
      [McapFacts.bitstream_mcap_programs]: the device gets the words of the
      bitstream in order, whatever the byte order of the host and the room in
      its FIFO.  [ShellInv.char_ctrl_ioctl_gives_back]: every ioctl that returns
      leaves the gate open and no block but a valid clearing bitstream;
      [ShellEnds.shell_ioctls_end]: none runs for ever.
      [ShellProbeFacts.stash_survives_reload]: the clearing bitstream is kept over
      an unloading and loading of the driver.
      [ClockFacts.freqscaling_sets_the_clock],
      [ResetFacts.reset_hot_restores_configuration]: what is written to the
      clock wizard and to the configuration space, in order.
    - A program and the driver together.  [TesterFacts.reader_drains_the_queue]:
      the loop of the test programs takes the queued blocks in order through
      GETBUF and gives each back through CONFIRM; its account adds them up.
      [TesterFacts.tester2_accepts_exactly]: the blocks about which tester2
      prints nothing, and with it that it looks at a part of the data only.
    - Behaviour that is surely not meant, each as a theorem on the code as it
      is: [WzRing.wz_restart_targets_address_0],
      [WzScan.wz_scan_of_a_full_ring_diverges],
      [WzConfirm.wz_confirm_beyond_the_ring_diverges],
      [BadBuffer.bad_buffer_is_a_bug],
      [RunFacts.service_work_without_ring],
      [ServiceFacts.engine_service_of_an_empty_queue_is_a_bug],
      [ServiceFacts.engine_service_restarts_failed_transfer],
      [CharFacts.bridge_mmap_beyond_the_bar],
      [ProbeFacts.xdma_init_forgets_instances],
      [AxiFacts.tst1_probe_without_buffers],
      [IcapFacts.bitstream_icap_hides_failure],
      [McapFacts.mcap_request_timeout_ignored] and two of RunFacts on the
      performance ioctl.

    ** Bounds and fuel

    [for] loops take no fuel.  [while] loops run by [loop] with a number of
    turns: those that end by themselves carry one that is enough for every
    state (66 for the search of an instance number, [ring_fuel] = 258 for a
    ring of 256 pages, [pages_fuel], [data_fuel] for the pages and chunks of a
    request).  The loops of the extension that need not end take the number as
    an argument: 128 turns suffice where [WzScan.wz_scan_terminates] and
    [WzConfirm.wz_confirm_restores_the_block] apply, and no number does where
    the theorems on divergence apply.  The loops that wait for the device take
    a number of turns and, where the code compares jiffies, the tick rate
    [hz]; [RunFacts.wb_monitor_times_out] says when they end.  The handler of
    the DataMover needs one turn more than there are commands
    ([AxiFacts.tst1_irq_drains]).  The waits of the MCAP carry one turn more
    than the code's own bounds (MCAP_LOOP_COUNT + 1 and EMCAP_EOS_RETRY_COUNT +
    2), the pieces of a download [piece_fuel] turns and its words one turn each
    and one more: [ShellEnds.shell_ioctls_end] shows that these are enough.

    ** Assumptions

    Theorems name what they need of the kernel as hypotheses on [answer] (for
    instance that an allocation succeeds, or the class [KernelOk] of
    Lifecycle.v: interrupt lines and addresses are in range, a vector MSI-X
    grants is not line 0, and line 0 is not given to a driver).  [DataMover] of
    AxiFacts.v says that the DataMover answers its commands in order, with
    whatever status and length; [HeaderOk] what the header axi4s2dmov.h, which
    is not in the repository, is relied on for.  [user_image] (IcapFacts.v), [icap_ready] (DownloadFacts.v),
    [healthy] (McapFacts.v), [clock_locked] and [units_idle] (ClockFacts.v) say
    what user memory holds and how a working board answers; [UserBuffer]
    (UserDma.v) that the kernel pins all pages of a buffer of a process and
    maps them for the device, merged or not; [PolledEngine] (PolledDma.v) that
    the device flags no error in poll mode and the clock runs, [BadBuffer] (BadBuffer.v) that it pins fewer
    pages than the buffer has; [no_firmware] (ShellProbeFacts.v) that the
    kernel has no firmware for the board; [ProcessMemory]
    (TesterFacts.v) that the driver reads what a process stored and its copies
    do not fault; the contents of the mapped buffers are an argument of the
    checks.  [HostOrder] (Bitstream.v) is the byte order of the host.  A handler is modelled between two points at which other
    threads run: the locks are tracked ([lock], [events_lock]), and what others
    do meanwhile is in [Sched], in [flow_step] and in the answers; two handlers
    of the same engine that truly overlap outside the locks are not modelled.

    ** Not modelled

    - The statements under SD_ACCEL inside the file operations, which call the
      functions modelled in Shell and Bitstream, and the test of the length in
      xdma_desc_set; probe and remove are modelled
      with SD_ACCEL off, as it is in the sources (Probe.v), and with it on
      (ShellProbe.v).  The branch of reset_hot_ioctl for __PPC64__.
    - src/v1_dmover/software/driver/ax_dma1.c: a draft that does not compile.
    - Functions that only print (engine_reg_dump, transfer_dump, dump_desc,
      interrupt_status, show_device_numbers), and xdma_config, which is
      compiled out ([SD_ACCEL && 0]).
    - The branches for kernels without the typed kfifo (LINUX_VERSION_CODE).
    - The test programs xtest1.c and test_xdma.c, which only do input and output,
      and what the kernel does when a test program exits without closing.
    - Generated and vendored files, Verilog, VHDL and Tcl. *)
From Stdlib Require Export ZArith Lia.
From stdpp Require Export base tactics option strings list gmap.
From coqutil Require Export Datatypes.RecordSetters.
Export RecordSetters.TriangleBracketNotations.

#[global] Open Scope Z_scope.

#[global] Arguments Z.land : simpl never.
#[global] Arguments Z.lor : simpl never.
#[global] Arguments Z.lxor : simpl never.
#[global] Arguments Z.shiftl : simpl never.
#[global] Arguments Z.shiftr : simpl never.
#[global] Arguments Z.modulo : simpl never.
#[global] Arguments Z.div : simpl never.
#[global] Arguments Z.mul : simpl never.
#[global] Arguments Z.add : simpl never.
#[global] Arguments Z.sub : simpl never.
#[global] Arguments Z.eqb : simpl never.
#[global] Arguments Z.ltb : simpl never.
#[global] Arguments Z.leb : simpl never.

(** ** Integers of the C types *)

Definition u8 (v : Z) : Z := v mod 2 ^ 8.
Definition u16 (v : Z) : Z := v mod 2 ^ 16.
Definition u32 (v : Z) : Z := v mod 2 ^ 32.
Definition u64 (v : Z) : Z := v mod 2 ^ 64.
(** the value of an [int] whose bit pattern is that of [v] *)
Definition s32 (v : Z) : Z := (v + 2 ^ 31) mod 2 ^ 32 - 2 ^ 31.
Definition s64 (v : Z) : Z := (v + 2 ^ 63) mod 2 ^ 64 - 2 ^ 63.
(** the complement of a mask within 32 bits *)
Definition not32 (v : Z) : Z := Z.lxor (u32 v) (2 ^ 32 - 1).
(** a C value used as a condition *)
Definition nz (v : Z) : bool := negb (v =? 0).
(** the int a C comparison yields *)
Definition b2z (b : bool) : Z := if b then 1 else 0.

Definition is_u32 (v : Z) : Prop := 0 <= v < 2 ^ 32.
Definition is_u64 (v : Z) : Prop := 0 <= v < 2 ^ 64.

Lemma u32_range v : is_u32 (u32 v).
Proof. apply Z.mod_pos_bound; lia. Qed.

Lemma u64_range v : is_u64 (u64 v).
Proof. apply Z.mod_pos_bound; lia. Qed.

Lemma u32_id v : is_u32 v -> u32 v = v.
Proof. intros; apply Z.mod_small; assumption. Qed.

Lemma u64_id v : is_u64 v -> u64 v = v.
Proof. intros; apply Z.mod_small; assumption. Qed.

Lemma s32_id v : - 2 ^ 31 <= v < 2 ^ 31 -> s32 v = v.
Proof. intros; unfold s32; rewrite Z.mod_small; lia. Qed.

Lemma nz_true v : nz v = true <-> v <> 0.
Proof. unfold nz; destruct (Z.eqb_spec v 0); simpl; split; congruence. Qed.

Lemma nz_false v : nz v = false <-> v = 0.
Proof. unfold nz; destruct (Z.eqb_spec v 0); simpl; split; congruence. Qed.

(** ** Bit fields *)

Lemma land_shiftl_low e k n : 0 <= k <= n -> Z.land (Z.shiftl e n) (Z.ones k) = 0.
Proof.
  intros. apply Z.bits_inj'. intros i Hi.
  rewrite Z.land_spec, Z.bits_0, Z.shiftl_spec by lia.
  destruct (Z.ltb_spec i k).
  - rewrite Z.testbit_neg_r by lia. reflexivity.
  - rewrite Z.ones_spec_high by lia. apply andb_false_r.
Qed.

Lemma land_ones_small e k : 0 <= k -> 0 <= e < 2 ^ k -> Z.land e (Z.ones k) = e.
Proof. intros. rewrite Z.land_ones by lia. apply Z.mod_small. lia. Qed.

Lemma shiftr_small e k : 0 <= k -> 0 <= e < 2 ^ k -> Z.shiftr e k = 0.
Proof. intros. rewrite Z.shiftr_div_pow2 by lia. apply Z.div_small. lia. Qed.

(** a field above the bits of [x] adds to it *)
Lemma lor_shiftl_add x y n : 0 <= n -> 0 <= x < 2 ^ n -> Z.lor x (Z.shiftl y n) = x + y * 2 ^ n.
Proof.
  intros Hn Hx. rewrite <- Z.shiftl_mul_pow2 by lia.
  pose proof (land_shiftl_low y n n ltac:(lia)) as H.
  symmetry. apply Z.add_nocarry_lor.
  rewrite <- (land_ones_small x n) by lia.
  rewrite <- Z.land_assoc, (Z.land_comm (Z.ones n)), H. apply Z.land_0_r.
Qed.

(** compute the masks and shifts of literals *)
Ltac bits_const :=
  match goal with
  | |- context [Z.land (Zpos ?a) (Zpos ?b)] =>
      let v := eval vm_compute in (Z.land (Zpos a) (Zpos b)) in
      change (Z.land (Zpos a) (Zpos b)) with v
  | |- context [Z.shiftr (Zpos ?a) (Zpos ?b)] =>
      let v := eval vm_compute in (Z.shiftr (Zpos a) (Zpos b)) in
      change (Z.shiftr (Zpos a) (Zpos b)) with v
  | |- context [Z.lor (Zpos ?a) (Zpos ?b)] =>
      let v := eval vm_compute in (Z.lor (Zpos a) (Zpos b)) in
      change (Z.lor (Zpos a) (Zpos b)) with v
  | |- context [Z.sub (Zpos ?a) (Zpos ?b)] =>
      let v := eval vm_compute in (Z.sub (Zpos a) (Zpos b)) in
      change (Z.sub (Zpos a) (Zpos b)) with v
  end.
(** push shifts and masks to the fields of a word *)
Ltac bits :=
  repeat first
    [ bits_const
    | rewrite Z.shiftr_lor | rewrite Z.shiftr_land | rewrite Z.land_lor_distr_l
    | rewrite <- Z.land_assoc | rewrite Z.land_0_r | rewrite Z.land_0_l
    | rewrite Z.lor_0_r | rewrite Z.lor_0_l
    | rewrite Z.shiftr_shiftl_r by lia
    | rewrite Z.shiftr_0_r ].

(** ** Programs: state, a result, and the ways a kernel thread can be lost *)

(** Why a run of the code does not come to its return. *)
Inductive abort : Type :=
| BugOn          (** a [BUG_ON] fired *)
| BadAccess      (** a null, freed or out-of-bounds object was accessed *)
| Deadlock       (** a spinlock already held by this thread is taken again *)
| Blocked        (** a [wait_event] whose condition never becomes true *)
| OutOfFuel.     (** the loop was cut by the fuel of the definition *)

Inductive result (S A : Type) : Type :=
| Ok (a : A) (s : S)
| Abort (r : abort).
Arguments Ok {S A} a s.
Arguments Abort {S A} r.

Definition prog (S A : Type) : Type := S -> result S A.

Section Prog.
Context {S : Type}.

Definition ret {A} (a : A) : prog S A := fun s => Ok a s.
Definition bind {A B} (m : prog S A) (f : A -> prog S B) : prog S B :=
  fun s => match m s with Ok a s' => f a s' | Abort r => Abort r end.
Definition gets {A} (f : S -> A) : prog S A := fun s => Ok (f s) s.
Definition modify (f : S -> S) : prog S unit := fun s => Ok tt (f s).
Definition abort_with {A} (r : abort) : prog S A := fun _ => Abort r.
Definition BUG_ON (c : bool) : prog S unit :=
  if c then abort_with BugOn else ret tt.
(** [if (c) stmt;] *)
Definition when (c : bool) (m : prog S unit) : prog S unit :=
  if c then m else ret tt.
(** a pointer or index whose object must exist *)
Definition deref {A} (f : S -> option A) : prog S A :=
  fun s => match f s with Some a => Ok a s | None => Abort BadAccess end.

(** [for (i = i0; i < i0 + n; i++) body] *)
Fixpoint for_from (i : Z) (n : nat) (body : Z -> prog S unit) : prog S unit :=
  match n with
  | O => ret tt
  | Datatypes.S n' => bind (body i) (fun _ => for_from (i + 1) n' body)
  end.
(** [for (i = lo; i < hi; i++) body] *)
Definition for_ (lo hi : Z) (body : Z -> prog S unit) : prog S unit :=
  for_from lo (Z.to_nat (hi - lo)) body.

(** the same loop, where the body may leave the function (or jump to its
    error label) with a value *)
Fixpoint for_exit_from {R} (i : Z) (n : nat) (body : Z -> prog S (option R))
  : prog S (option R) :=
  match n with
  | O => ret None
  | Datatypes.S n' =>
      bind (body i) (fun r =>
        match r with
        | Some x => ret (Some x)
        | None => for_exit_from (i + 1) n' body
        end)
  end.
Definition for_exit {R} (lo hi : Z) (body : Z -> prog S (option R))
  : prog S (option R) := for_exit_from lo (Z.to_nat (hi - lo)) body.

(** [while] with loop variables of type [V]; the body gives the next value
    of the variables or leaves the loop *)
Fixpoint loop {V R} (fuel : nat) (body : V -> prog S (V + R)) (v : V)
  : prog S R :=
  match fuel with
  | O => abort_with OutOfFuel
  | Datatypes.S f =>
      bind (body v) (fun r =>
        match r with inl v' => loop f body v' | inr x => ret x end)
  end.
End Prog.

Lemma loop_S {S V R} f (body : V -> prog S (V + R)) v :
  loop (Datatypes.S f) body v
  = bind (body v) (fun r => match r with inl v' => loop f body v' | inr x => ret x end).
Proof. reflexivity. Qed.

Lemma for_first {S} lo hi (body : Z -> prog S unit) :
  lo < hi -> for_ lo hi body = bind (body lo) (fun _ => for_ (lo + 1) hi body).
Proof.
  intros H. unfold for_. replace (Z.to_nat (hi - lo)) with (Datatypes.S (Z.to_nat (hi - (lo + 1)))) by lia.
  reflexivity.
Qed.

Lemma for_exit_first {S R} lo hi (body : Z -> prog S (option R)) :
  lo < hi -> for_exit lo hi body
  = bind (body lo) (fun r => match r with Some x => ret (Some x) | None => for_exit (lo + 1) hi body end).
Proof.
  intros H. unfold for_exit.
  replace (Z.to_nat (hi - lo)) with (Datatypes.S (Z.to_nat (hi - (lo + 1)))) by lia. reflexivity.
Qed.

Lemma for_from_S {S} i n (body : Z -> prog S unit) :
  for_from i (Datatypes.S n) body = bind (body i) (fun _ => for_from (i + 1) n body).
Proof. reflexivity. Qed.

Lemma for_exit_from_S {S R} i n (body : Z -> prog S (option R)) :
  for_exit_from i (Datatypes.S n) body
  = bind (body i) (fun r => match r with Some x => ret (Some x) | None => for_exit_from (i + 1) n body end).
Proof. reflexivity. Qed.

Lemma bind_ok {S A B} (m : prog S A) (f : A -> prog S B) s a s' :
  m s = Ok a s' -> bind m f s = f a s'.
Proof. unfold bind. intros ->. reflexivity. Qed.

(** the outcome of a step that did not abort *)
Lemma bind_inv {S A B} (m : prog S A) (f : A -> prog S B) s b s' :
  bind m f s = Ok b s' -> exists a s1, m s = Ok a s1 /\ f a s1 = Ok b s'.
Proof. unfold bind. destruct (m s) as [a s1|]; [|discriminate]. eauto. Qed.

(** replace the first program of a run by its outcome *)
Ltac run_step E := refine (eq_trans (bind_ok _ _ _ _ _ E) _); cbv beta iota zeta.

Arguments for_ : simpl never.
Arguments for_exit : simpl never.
Arguments loop : simpl never.

Declare Scope prog_scope.
Delimit Scope prog_scope with prog.
Notation "x <- m ;; k" := (bind m (fun x => k%prog))
  (at level 100, m at next level, k at level 200, right associativity) : prog_scope.
Notation "m ;; k" := (bind m (fun _ => k%prog))
  (at level 100, k at level 200, right associativity) : prog_scope.
#[global] Open Scope prog_scope.

(** ** Weakest preconditions: the run ends, and its result satisfies [Q] *)
Section Wp.
Context {S : Type}.

Definition wp {A} (m : prog S A) (Q : A -> S -> Prop) (s : S) : Prop :=
  match m s with Ok a s' => Q a s' | Abort _ => False end.

Lemma wp_ok {A} (m : prog S A) Q s :
  wp m Q s <-> exists a s', m s = Ok a s' /\ Q a s'.
Proof.
  unfold wp; destruct (m s) as [a s'|r]; split; [intros H; eauto|intros (b & s1 & [= <- <-] & H); exact H|tauto|intros (b & s1 & [=] & _)].
Qed.

Lemma wp_conseq {A} (m : prog S A) (P Q : A -> S -> Prop) s :
  wp m P s -> (forall a s', P a s' -> Q a s') -> wp m Q s.
Proof. unfold wp; destruct (m s); auto. Qed.

Lemma wp_ret {A} (a : A) (Q : A -> S -> Prop) s : Q a s -> wp (ret a) Q s.
Proof. exact id. Qed.

Lemma wp_bind {A B} (m : prog S A) (f : A -> prog S B) Q s :
  wp m (fun a s' => wp (f a) Q s') s -> wp (bind m f) Q s.
Proof. unfold wp, bind; destruct (m s); auto. Qed.

Lemma wp_bind_inv {A B} (m : prog S A) (f : A -> prog S B) Q s :
  wp (bind m f) Q s -> wp m (fun a s' => wp (f a) Q s') s.
Proof. unfold wp, bind; destruct (m s); auto. Qed.

Lemma wp_gets {A} (f : S -> A) (Q : A -> S -> Prop) s :
  Q (f s) s -> wp (gets f) Q s.
Proof. exact id. Qed.

Lemma wp_modify f (Q : unit -> S -> Prop) s : Q tt (f s) -> wp (modify f) Q s.
Proof. exact id. Qed.

Lemma wp_deref {A} (f : S -> option A) (Q : A -> S -> Prop) s a :
  f s = Some a -> Q a s -> wp (deref f) Q s.
Proof. unfold wp, deref; intros ->; auto. Qed.

Lemma wp_BUG_ON c (Q : unit -> S -> Prop) s :
  c = false -> Q tt s -> wp (BUG_ON c) Q s.
Proof. intros ->; exact id. Qed.

Lemma wp_when c (m : prog S unit) (Q : unit -> S -> Prop) s :
  (c = true -> wp m Q s) -> (c = false -> Q tt s) -> wp (when c m) Q s.
Proof. destruct c; simpl; intros H1 H2; [apply H1|apply H2]; reflexivity. Qed.

(** The invariant rule of a [for] loop. *)
Lemma wp_for_from (I : Z -> S -> Prop) n : forall i (body : Z -> prog S unit) s,
  I i s ->
  (forall k s', i <= k < i + Z.of_nat n -> I k s' ->
    wp (body k) (fun _ s'' => I (k + 1) s'') s') ->
  wp (for_from i n body) (fun _ s' => I (i + Z.of_nat n) s') s.
Proof.
  induction n as [|n IH]; intros i body s HI Hb; simpl.
  - apply wp_ret. replace (i + Z.of_nat 0) with i by lia. exact HI.
  - apply wp_bind. eapply wp_conseq; [apply Hb; [lia|exact HI]|].
    intros [] s' HI'. simpl in HI'.
    replace (i + Z.of_nat (Datatypes.S n)) with (i + 1 + Z.of_nat n) by lia.
    apply IH; [exact HI'|]. intros k s'' Hk; apply Hb; lia.
Qed.

Lemma wp_for (I : Z -> S -> Prop) lo hi (body : Z -> prog S unit)
    (Q : unit -> S -> Prop) s :
  lo <= hi -> I lo s ->
  (forall k s', lo <= k < hi -> I k s' ->
    wp (body k) (fun _ s'' => I (k + 1) s'') s') ->
  (forall s', I hi s' -> Q tt s') ->
  wp (for_ lo hi body) Q s.
Proof.
  intros Hle HI Hb HQ. unfold for_.
  eapply wp_conseq; [apply (wp_for_from I); [exact HI|]|].
  - intros k s' Hk; apply Hb; lia.
  - intros [] s' H. apply HQ. replace hi with (lo + Z.of_nat (Z.to_nat (hi - lo))) by lia.
    exact H.
Qed.

(** The same rule for a loop that may leave early: [E] holds of the value
    and state at the exit. *)
Lemma wp_for_exit {R} (I : Z -> S -> Prop) (E : R -> S -> Prop) lo hi
    (body : Z -> prog S (option R)) (Q : option R -> S -> Prop) s :
  lo <= hi -> I lo s ->
  (forall k s', lo <= k < hi -> I k s' ->
    wp (body k) (fun r s'' =>
      match r with None => I (k + 1) s'' | Some x => E x s'' end) s') ->
  (forall s', I hi s' -> Q None s') ->
  (forall x s', E x s' -> Q (Some x) s') ->
  wp (for_exit lo hi body) Q s.
Proof.
  intros Hle HI Hb HQ HE. unfold for_exit.
  remember (Z.to_nat (hi - lo)) as n eqn:Hn.
  revert lo Hle s HI Hb Hn.
  induction n as [|n IH]; intros lo Hle s HI Hb Hn; simpl.
  - apply HQ. replace hi with lo by lia. exact HI.
  - apply wp_bind. eapply wp_conseq; [apply Hb; [lia|exact HI]|].
    intros [x|] s' H; simpl; [apply HE, H|].
    apply IH; [lia|exact H| |lia]. intros k s'' Hk; apply Hb; lia.
Qed.

(** A [while] loop with a measure that fits in the fuel. *)
Lemma wp_loop {V R} (I : V -> S -> Prop) (mu : V -> S -> nat)
    (body : V -> prog S (V + R)) (Q : R -> S -> Prop) :
  (forall v s, I v s ->
    wp (body v) (fun r s' =>
      match r with
      | inl v' => I v' s' /\ (mu v' s' < mu v s)%nat
      | inr x => Q x s'
      end) s) ->
  forall fuel v s, I v s -> (mu v s < fuel)%nat -> wp (loop fuel body v) Q s.
Proof.
  intros Hb. induction fuel as [|f IH]; intros v s HI Hf; [lia|]. cbn [loop].
  apply wp_bind. eapply wp_conseq; [apply Hb, HI|].
  intros [v'|x] s' H; simpl; [|exact H].
  apply IH; [apply H|lia].
Qed.
End Wp.

#[global] Arguments nz : simpl never.
#[global] Arguments wp : simpl never.
#[global] Arguments bind : simpl never.
#[global] Arguments ret : simpl never.
#[global] Arguments gets : simpl never.
#[global] Arguments modify : simpl never.
#[global] Arguments deref : simpl never.
#[global] Arguments for_from : simpl never.
#[global] Arguments for_exit_from : simpl never.

(** One step of symbolic execution on a [wp] goal; [wp_hook] is extended by
    the files that define more primitives. *)
Ltac wp_hook := fail.
Ltac wp_step :=
  lazymatch goal with
  | |- wp (bind _ _) _ _ => apply wp_bind
  | |- wp (ret _) _ _ => apply wp_ret
  | |- wp (gets _) _ _ => apply wp_gets
  | |- wp (modify _) _ _ => apply wp_modify
  | |- wp (BUG_ON _) _ _ => apply wp_BUG_ON; [try first [reflexivity | assumption]|]
  | |- wp (when _ _) _ _ => apply wp_when; intros ?
  | |- wp (if ?c then _ else _) _ _ => destruct c eqn:?
  | |- wp (match ?x with _ => _ end) _ _ => destruct x eqn:?
  | |- wp _ _ _ => wp_hook
  end; cbv beta.

(** ** Relations between the states around a run: frames

    [keeps R m] : whenever [m] returns, the state after is related by [R] to
    the state before.  With [R] an equality of projections it is the frame
    condition "m does not change these fields". *)
Section Keeps.
Context {S : Type}.

Definition keeps (R : S -> S -> Prop) {A} (m : prog S A) : Prop :=
  forall s a s', m s = Ok a s' -> R s s'.

Context (R : S -> S -> Prop) `{!PreOrder R}.

Lemma keeps_ret {A} (a : A) : keeps R (ret a).
Proof. intros s a' s' H; inversion H; subst; reflexivity. Qed.

Lemma keeps_bind {A B} (m : prog S A) (f : A -> prog S B) :
  keeps R m -> (forall a, keeps R (f a)) -> keeps R (bind m f).
Proof.
  intros Hm Hf s b s' H. unfold bind in H.
  destruct (m s) as [a s1|] eqn:E; [|discriminate].
  transitivity s1; [eapply Hm, E|eapply Hf, H].
Qed.

Lemma keeps_gets {A} (f : S -> A) : keeps R (gets f).
Proof. intros s a s' H; inversion H; subst; reflexivity. Qed.

Lemma keeps_modify f : (forall s, R s (f s)) -> keeps R (modify f).
Proof. intros Hf s a s' H; inversion H; subst; apply Hf. Qed.

Lemma keeps_deref {A} (f : S -> option A) : keeps R (deref f).
Proof.
  intros s a s'; unfold deref; destruct (f s); intros H; inversion H; subst.
  reflexivity.
Qed.

Lemma keeps_abort {A} r : keeps R (abort_with (A:=A) r).
Proof. intros s a s' H; discriminate H. Qed.

Lemma keeps_BUG_ON c : keeps R (BUG_ON c).
Proof. destruct c; [apply keeps_abort|apply keeps_ret]. Qed.

Lemma keeps_when c m : keeps R m -> keeps R (when c m).
Proof. destruct c; [exact id|intros _; apply keeps_ret]. Qed.

Lemma keeps_for_from n : forall i (body : Z -> prog S unit),
  (forall k, keeps R (body k)) -> keeps R (for_from i n body).
Proof.
  induction n; intros; simpl; [apply keeps_ret|].
  apply keeps_bind; auto.
Qed.

Lemma keeps_for lo hi (body : Z -> prog S unit) :
  (forall k, keeps R (body k)) -> keeps R (for_ lo hi body).
Proof. apply keeps_for_from. Qed.

Lemma keeps_for_exit {T} lo hi (body : Z -> prog S (option T)) :
  (forall k, keeps R (body k)) -> keeps R (for_exit lo hi body).
Proof.
  intros Hb. unfold for_exit. generalize (Z.to_nat (hi - lo)) as n.
  intros n; revert lo. induction n; intros; simpl; [apply keeps_ret|].
  apply keeps_bind; [apply Hb|]. intros [x|]; [apply keeps_ret|auto].
Qed.

Lemma keeps_loop {V T} fuel (body : V -> prog S (V + T)) :
  (forall v, keeps R (body v)) -> forall v, keeps R (loop fuel body v).
Proof.
  intros Hb. induction fuel; intros; cbn [loop]; [apply keeps_abort|].
  apply keeps_bind; [apply Hb|]. intros [v'|x]; [auto|apply keeps_ret].
Qed.
End Keeps.

Create HintDb keeps discriminated.
#[export] Hint Resolve keeps_ret keeps_gets keeps_deref keeps_abort keeps_BUG_ON : keeps.

(** Walk down a program, leaving the [modify]s and the calls that no hint of
    the [keeps] database settles. *)
Ltac keeps_step :=
  match goal with
  | |- keeps _ (bind _ _) => apply keeps_bind; [typeclasses eauto| |intros ?]
  | |- keeps _ (when _ _) => apply keeps_when; [typeclasses eauto|]
  | |- keeps _ (for_ _ _ _) => apply keeps_for; [typeclasses eauto|intros ?]
  | |- keeps _ (for_exit _ _ _) => apply keeps_for_exit; [typeclasses eauto|intros ?]
  | |- keeps _ (loop _ _ _) => apply keeps_loop; [typeclasses eauto|intros ?]
  | |- keeps _ (ret _) => apply keeps_ret; typeclasses eauto
  | |- keeps _ (gets _) => apply keeps_gets; typeclasses eauto
  | |- keeps _ (deref _) => apply keeps_deref; typeclasses eauto
  | |- keeps _ (abort_with _) => apply keeps_abort
  | |- keeps _ (BUG_ON _) => apply keeps_BUG_ON; typeclasses eauto
  | |- keeps _ (if ?c then _ else _) => destruct c
  | |- keeps _ (match ?x with _ => _ end) => destruct x
  | |- keeps _ _ => solve [eauto with keeps]
  end.
Ltac keeps_tac := repeat keeps_step.

(** ** Partial correctness: if the run ends, its result satisfies [Q] *)
Section Wlp.
Context {S : Type}.

Definition wlp {A} (m : prog S A) (Q : A -> S -> Prop) (s : S) : Prop :=
  match m s with Ok a s' => Q a s' | Abort _ => True end.

Lemma wlp_elim {A} (m : prog S A) Q s a s' : wlp m Q s -> m s = Ok a s' -> Q a s'.
Proof. unfold wlp. intros H E. rewrite E in H. exact H. Qed.

Lemma wlp_intro {A} (m : prog S A) (Q : A -> S -> Prop) s :
  (forall a s', m s = Ok a s' -> Q a s') -> wlp m Q s.
Proof. unfold wlp. destruct (m s); auto. Qed.

Lemma wp_wlp {A} (m : prog S A) Q s : wp m Q s -> wlp m Q s.
Proof. unfold wp, wlp. destruct (m s); tauto. Qed.

Lemma wlp_ret {A} (a : A) (Q : A -> S -> Prop) s : Q a s -> wlp (ret a) Q s.
Proof. exact id. Qed.

Lemma wlp_bind {A B} (m : prog S A) (f : A -> prog S B) Q s :
  wlp m (fun a s' => wlp (f a) Q s') s -> wlp (bind m f) Q s.
Proof. unfold wlp, bind; destruct (m s); auto. Qed.

Lemma wlp_gets {A} (f : S -> A) (Q : A -> S -> Prop) s : Q (f s) s -> wlp (gets f) Q s.
Proof. exact id. Qed.

Lemma wlp_modify f (Q : unit -> S -> Prop) s : Q tt (f s) -> wlp (modify f) Q s.
Proof. exact id. Qed.

Lemma wlp_deref {A} (f : S -> option A) (Q : A -> S -> Prop) s :
  (forall a, f s = Some a -> Q a s) -> wlp (deref f) Q s.
Proof. unfold wlp, deref; destruct (f s); auto. Qed.

Lemma wlp_abort {A} r (Q : A -> S -> Prop) s : wlp (abort_with r) Q s.
Proof. exact I. Qed.

Lemma wlp_BUG_ON c (Q : unit -> S -> Prop) s : (c = false -> Q tt s) -> wlp (BUG_ON c) Q s.
Proof. destruct c; [intros _; exact I|intros H; apply H; reflexivity]. Qed.

Lemma wlp_when c (m : prog S unit) (Q : unit -> S -> Prop) s :
  (c = true -> wlp m Q s) -> (c = false -> Q tt s) -> wlp (when c m) Q s.
Proof. destruct c; simpl; intros H1 H2; [apply H1|apply H2]; reflexivity. Qed.

Lemma wlp_keeps {A} R (m : prog S A) (Q : A -> S -> Prop) s :
  keeps R m -> (forall a s', R s s' -> Q a s') -> wlp m Q s.
Proof. intros H HQ. apply wlp_intro. intros a s' E. eapply HQ, H, E. Qed.

Lemma keeps_wlp {A} R (m : prog S A) :
  (forall s, wlp m (fun _ s' => R s s') s) -> keeps R m.
Proof. intros H s a s' E. exact (wlp_elim _ _ _ _ _ (H s) E). Qed.
(** The partial rule of a [while] loop. *)
Lemma wlp_loop {V R} (I : V -> S -> Prop) (body : V -> prog S (V + R)) (Q : R -> S -> Prop) :
  (forall v s, I v s ->
    wlp (body v) (fun r s' => match r with inl v' => I v' s' | inr x => Q x s' end) s) ->
  forall fuel v s, I v s -> wlp (loop fuel body v) Q s.
Proof.
  intros Hb. induction fuel as [|f IH]; intros v s HI; [exact Logic.I|].
  rewrite loop_S. apply wlp_bind. specialize (Hb v s HI). unfold wlp in Hb |- *.
  destruct (body v s) as [[v'|x] s'|r]; [apply IH, Hb|exact Hb|exact Logic.I].
Qed.

Lemma wlp_conseq {A} (m : prog S A) (P Q : A -> S -> Prop) s :
  wlp m P s -> (forall a s', P a s' -> Q a s') -> wlp m Q s.
Proof. unfold wlp. destruct (m s); auto. Qed.

(** two properties of the same run *)
Lemma wp_and_wlp {A} (m : prog S A) (Q1 Q2 : A -> S -> Prop) s :
  wp m Q1 s -> wlp m Q2 s -> wp m (fun a s' => Q1 a s' /\ Q2 a s') s.
Proof. unfold wp, wlp. destruct (m s); auto. Qed.

Lemma wlp_and {A} (m : prog S A) (Q1 Q2 : A -> S -> Prop) s :
  wlp m Q1 s -> wlp m Q2 s -> wlp m (fun a s' => Q1 a s' /\ Q2 a s') s.
Proof. unfold wlp. destruct (m s); auto. Qed.

Lemma wlp_and_keeps {A} R (m : prog S A) (Q : A -> S -> Prop) s :
  keeps R m -> wlp m Q s -> wlp m (fun a s' => Q a s' /\ R s s') s.
Proof.
  intros Hk. unfold wlp. destruct (m s) as [a s'|] eqn:E; [|auto].
  intros HQ. split; [exact HQ|exact (Hk s a s' E)].
Qed.

Lemma wp_keeps {A} R (m : prog S A) (Q : A -> S -> Prop) s :
  keeps R m -> wp m (fun a s' => R s s' -> Q a s') s -> wp m Q s.
Proof.
  intros Hk. unfold wp. destruct (m s) as [a s'|] eqn:E; [|exact id]. intros H. apply H, (Hk _ _ _ E).
Qed.

Lemma wlp_any {A} (m : prog S A) (Q : A -> S -> Prop) s :
  (forall a s', Q a s') -> wlp m Q s.
Proof. unfold wlp. destruct (m s); auto. Qed.
End Wlp.
#[global] Arguments wlp : simpl never.

Ltac wlp_hook := fail.
Ltac wlp_step :=
  lazymatch goal with
  | |- wlp (bind _ _) _ _ => apply wlp_bind
  | |- wlp (ret _) _ _ => apply wlp_ret
  | |- wlp (gets _) _ _ => apply wlp_gets
  | |- wlp (modify _) _ _ => apply wlp_modify
  | |- wlp (deref _) _ _ => apply wlp_deref; intros ? ?
  | |- wlp (abort_with _) _ _ => apply wlp_abort
  | |- wlp (BUG_ON _) _ _ => apply wlp_BUG_ON; intros ?
  | |- wlp (when _ _) _ _ => apply wlp_when; intros ?
  | |- wlp (if ?c then _ else _) _ _ => destruct c eqn:?
  | |- wlp (match ?x with _ => _ end) _ _ => destruct x eqn:?
  | |- wlp _ _ _ => wlp_hook
  end; cbv beta.

(** ** Runs that come to an end: the fuel of the loops is enough *)
Section Halts.
Context {S : Type}.

Definition halts {A} (m : prog S A) : Prop := forall s, m s <> Abort OutOfFuel.

Lemma halts_ret {A} (a : A) : halts (ret a).
Proof. intros s H; discriminate H. Qed.

Lemma halts_bind {A B} (m : prog S A) (f : A -> prog S B) :
  halts m -> (forall a, halts (f a)) -> halts (bind m f).
Proof.
  intros Hm Hf s. unfold bind. specialize (Hm s).
  destruct (m s) as [a s'|r]; [apply Hf|congruence].
Qed.

Lemma halts_gets {A} (f : S -> A) : halts (gets f).
Proof. intros s H; discriminate H. Qed.

Lemma halts_modify f : halts (modify (S := S) f).
Proof. intros s H; discriminate H. Qed.

Lemma halts_deref {A} (f : S -> option A) : halts (deref f).
Proof. intros s; unfold deref; destruct (f s); discriminate. Qed.

Lemma halts_abort {A} r : r <> OutOfFuel -> halts (abort_with (A := A) r).
Proof. intros Hr s H. injection H as ->. apply Hr. reflexivity. Qed.

Lemma halts_BUG_ON c : halts (BUG_ON c).
Proof. destruct c; [apply halts_abort; discriminate|apply halts_ret]. Qed.

Lemma halts_when c (m : prog S unit) : halts m -> halts (when c m).
Proof. destruct c; [exact id|intros _; apply halts_ret]. Qed.

Lemma halts_for lo hi (body : Z -> prog S unit) :
  (forall k, halts (body k)) -> halts (for_ lo hi body).
Proof.
  intros Hb. unfold for_. generalize (Z.to_nat (hi - lo)) as n.
  intros n; revert lo. induction n; intros; simpl; [apply halts_ret|].
  apply halts_bind; [apply Hb|auto].
Qed.

Lemma halts_for_exit {R} lo hi (body : Z -> prog S (option R)) :
  (forall k, halts (body k)) -> halts (for_exit lo hi body).
Proof.
  intros Hb. unfold for_exit. generalize (Z.to_nat (hi - lo)) as n.
  intros n; revert lo. induction n; intros; simpl; [apply halts_ret|].
  apply halts_bind; [apply Hb|]. intros [x|]; [apply halts_ret|auto].
Qed.

(** a [while] whose variables [mu] decrease *)
Lemma halts_loop {V R} (mu : V -> nat) (body : V -> prog S (V + R)) :
  (forall v, halts (body v)) ->
  (forall v s v' s', body v s = Ok (inl v') s' -> (mu v' < mu v)%nat) ->
  forall fuel v, (mu v < fuel)%nat -> halts (loop fuel body v).
Proof.
  intros Hb Hmu. induction fuel as [|f IH]; intros v Hv; [lia|].
  intros s. rewrite loop_S. unfold bind. pose proof (Hb v s) as Hs.
  destruct (body v s) as [[v'|x] s'|r] eqn:E; [|discriminate|congruence].
  apply IH. specialize (Hmu _ _ _ _ E). lia.
Qed.

(** the results of [m] satisfy [P] *)
Definition returns {A} (m : prog S A) (P : A -> Prop) : Prop :=
  forall s, wlp m (fun a _ => P a) s.

Lemma halts_bind_returns {A B} (P : A -> Prop) (m : prog S A) (f : A -> prog S B) :
  halts m -> returns m P -> (forall a, P a -> halts (f a)) -> halts (bind m f).
Proof.
  intros Hm Hr Hf s. unfold bind. specialize (Hm s). specialize (Hr s). unfold wlp in Hr.
  destruct (m s) as [a s'|r]; [apply Hf, Hr|congruence].
Qed.

(** a [while] whose variables stay in [I] *)
Lemma halts_loop_inv {V R} (I : V -> Prop) (mu : V -> nat) (body : V -> prog S (V + R)) :
  (forall v, I v -> halts (body v)) ->
  (forall v, I v -> returns (body v) (fun r =>
    match r with inl v' => I v' /\ (mu v' < mu v)%nat | inr _ => True end)) ->
  forall fuel v, I v -> (mu v < fuel)%nat -> halts (loop fuel body v).
Proof.
  intros Hb Hmu. induction fuel as [|f IH]; intros v Hi Hv; [lia|].
  intros s. rewrite loop_S. unfold bind. pose proof (Hb v Hi s) as Hs. pose proof (Hmu v Hi s) as Hr.
  unfold wlp in Hr. destruct (body v s) as [[v'|x] s'|r]; [|discriminate|congruence].
  destruct Hr as [Hi' Hlt]. apply IH; [exact Hi'|lia].
Qed.
End Halts.

Create HintDb halts discriminated.
#[export] Hint Resolve halts_ret halts_gets halts_modify halts_deref halts_BUG_ON : halts.

Ltac halts_step :=
  match goal with
  | |- halts (bind _ _) => apply halts_bind; [|intros ?]
  | |- halts (when _ _) => apply halts_when
  | |- halts (for_ _ _ _) => apply halts_for; intros ?
  | |- halts (for_exit _ _ _) => apply halts_for_exit; intros ?
  | |- halts (abort_with _) => apply halts_abort; discriminate
  | |- halts (if ?c then _ else _) => destruct c
  | |- halts (match ?x with _ => _ end) => destruct x
  | |- halts _ => solve [eauto with halts]
  end.
Ltac halts_tac := repeat halts_step.

(** ** Record updates

    coqutil's notation [r <| field := v |>], with setters that keep the other
    fields as projections of [r]: [Eta] gives the record rebuilt from its
    projections, and [make_setter] replaces one of them. *)
Class Eta (R : Type) : Type := eta_of : R -> R.

Ltac make_setter :=
  lazymatch goal with
  | |- @Setter ?R ?E ?proj =>
      let i := constr:(_ : Eta R) in
      let eta := eval hnf in i in
      lazymatch eval pattern proj in eta with
      | ?h _ =>
          let t := constr:(fun f : E -> E => h (fun r => f (proj r))) in
          let t := eval cbv beta in t in
          exact t
      end
  end.

Arguments constant {E} newValue _ /.

(** ** Lists indexed by C integers *)

Definition zlookup {A} (l : list A) (i : Z) : option A :=
  if i <? 0 then None else l !! Z.to_nat i.
Definition zinsert {A} (i : Z) (x : A) (l : list A) : list A :=
  if i <? 0 then l else <[Z.to_nat i := x]> l.

Lemma zlookup_Some {A} (l : list A) i x :
  zlookup l i = Some x -> 0 <= i < Z.of_nat (length l).
Proof.
  unfold zlookup. destruct (Z.ltb_spec i 0); [discriminate|].
  intros Hl%lookup_lt_Some. lia.
Qed.

Lemma zlookup_is_Some {A} (l : list A) i :
  0 <= i < Z.of_nat (length l) -> exists x, zlookup l i = Some x.
Proof.
  intros Hi. unfold zlookup. destruct (Z.ltb_spec i 0); [lia|].
  apply lookup_lt_is_Some_2. lia.
Qed.

Lemma zinsert_length {A} (l : list A) i x : length (zinsert i x l) = length l.
Proof. unfold zinsert. destruct (i <? 0); [reflexivity|apply length_insert]. Qed.

Lemma zlookup_zinsert_eq {A} (l : list A) i x :
  0 <= i < Z.of_nat (length l) -> zlookup (zinsert i x l) i = Some x.
Proof.
  intros Hi. unfold zlookup, zinsert. destruct (Z.ltb_spec i 0); [lia|].
  apply list_lookup_insert_eq. lia.
Qed.

Lemma zlookup_zinsert_ne {A} (l : list A) i j x :
  i <> j -> zlookup (zinsert i x l) j = zlookup l j.
Proof.
  intros Hne. unfold zlookup, zinsert.
  destruct (Z.ltb_spec i 0); [reflexivity|].
  destruct (Z.ltb_spec j 0); [reflexivity|].
  apply list_lookup_insert_ne. lia.
Qed.

Create Rewrite HintDb zlist.
#[export] Hint Rewrite @zinsert_length : zlist.

Lemma zlookup_zinsert {A} (l : list A) n i k x :
  Z.of_nat (length l) = n -> 0 <= i < n ->
  zlookup (zinsert i x l) k = if decide (k = i) then Some x else zlookup l k.
Proof.
  intros <- Hi. case_decide as E; [subst; apply zlookup_zinsert_eq, Hi|].
  apply zlookup_zinsert_ne. congruence.
Qed.

Lemma zinsert_len {A} (l : list A) n i x :
  Z.of_nat (length l) = n -> Z.of_nat (length (zinsert i x l)) = n.
Proof. rewrite zinsert_length. exact id. Qed.

Lemma list_all_eq {A} (l : list A) n x :
  length l = n -> (forall j, 0 <= j < Z.of_nat n -> zlookup l j = Some x) -> l = replicate n x.
Proof.
  intros Hl H. apply list_eq. intros j. destruct (decide (j < n)%nat) as [Hj|Hj].
  - rewrite lookup_replicate_2 by exact Hj. specialize (H (Z.of_nat j) ltac:(lia)).
    unfold zlookup in H. destruct (Z.ltb_spec (Z.of_nat j) 0); [lia|].
    rewrite Nat2Z.id in H. exact H.
  - rewrite !lookup_ge_None_2; [reflexivity|rewrite length_replicate; lia|lia].
Qed.

Lemma zlookup_replicate {A} n (x : A) s : 0 <= s < Z.of_nat n -> zlookup (replicate n x) s = Some x.
Proof.
  intros H. unfold zlookup. destruct (Z.ltb_spec s 0); [lia|]. apply lookup_replicate_2. lia.
Qed.
