(* ===== verification/Layout.v ===== *)
(** * Constants and register layouts of the XDMA core (xdma-core.h)

    The [#define]s the code computes with, and the packed register blocks as
    lists of members with their sizes in 32-bit words; the byte offset of a
    member is computed from the layout ([offset_of]), the way the C compiler
    computes [&regs->member]. *)
From S2P Require Import Prelude.
#[local] Open Scope string_scope.
#[local] Open Scope Z_scope.

(** ** Linux constants used by the sources *)
Definition PAGE_SIZE : Z := 4096.
Definition PAGE_SHIFT : Z := 12.
Definition INT_MAX : Z := 2147483647.
Definition EIO : Z := 5.
Definition ENOMEM : Z := 12.
Definition EFAULT : Z := 14.
Definition EBUSY : Z := 16.
Definition ENODEV : Z := 19.
Definition EINVAL : Z := 22.
Definition ENOTTY : Z := 25.
Definition ENOSYS : Z := 38.
Definition EPROTO : Z := 71.
Definition ERESTARTSYS : Z := 512.
Definition EIOCBQUEUED : Z := 529.

(** ** xdma-core.h *)
Definition XDMA_BAR_NUM : Z := 6.
Definition XDMA_BAR_SIZE : Z := 0x8000.
Definition XDMA_CHANNEL_NUM_MAX : Z := 4.
Definition XDMA_ENG_IRQ_NUM : Z := 1.
Definition MAX_EXTRA_ADJ : Z := 15.
Definition RX_STATUS_EOP : Z := 1.

Definition XDMA_OFS_INT_CTRL : Z := 0x2000.
Definition XDMA_OFS_CONFIG : Z := 0x3000.

Definition XDMA_TRANSFER_MAX_BYTES : Z := 2048 * 4096.
Definition XDMA_DESC_MAX_BYTES : Z := Z.shiftl 1 18 - 1.

(** bits of the SG DMA control register *)
Definition XDMA_CTRL_RUN_STOP : Z := Z.shiftl 1 0.
Definition XDMA_CTRL_IE_DESC_STOPPED : Z := Z.shiftl 1 1.
Definition XDMA_CTRL_IE_DESC_COMPLETED : Z := Z.shiftl 1 2.
Definition XDMA_CTRL_IE_DESC_ALIGN_MISMATCH : Z := Z.shiftl 1 3.
Definition XDMA_CTRL_IE_MAGIC_STOPPED : Z := Z.shiftl 1 4.
Definition XDMA_CTRL_IE_IDLE_STOPPED : Z := Z.shiftl 1 6.
Definition XDMA_CTRL_IE_READ_ERROR : Z := Z.shiftl 0x1F 9.
Definition XDMA_CTRL_IE_DESC_ERROR : Z := Z.shiftl 0x1F 19.
Definition XDMA_CTRL_NON_INCR_ADDR : Z := Z.shiftl 1 25.
Definition XDMA_CTRL_POLL_MODE_WB : Z := Z.shiftl 1 26.

(** bits of the SG DMA status register *)
Definition XDMA_STAT_BUSY : Z := Z.shiftl 1 0.
Definition XDMA_STAT_DESC_STOPPED : Z := Z.shiftl 1 1.
Definition XDMA_STAT_DESC_COMPLETED : Z := Z.shiftl 1 2.
Definition XDMA_STAT_ALIGN_MISMATCH : Z := Z.shiftl 1 3.
Definition XDMA_STAT_MAGIC_STOPPED : Z := Z.shiftl 1 4.
Definition XDMA_STAT_FETCH_STOPPED : Z := Z.shiftl 1 5.
Definition XDMA_STAT_IDLE_STOPPED : Z := Z.shiftl 1 6.
Definition XDMA_STAT_READ_ERROR : Z := Z.shiftl 0x1F 9.
Definition XDMA_STAT_DESC_ERROR : Z := Z.shiftl 0x1F 19.

(** bits of the SGDMA descriptor control field *)
Definition XDMA_DESC_STOPPED : Z := Z.shiftl 1 0.
Definition XDMA_DESC_COMPLETED : Z := Z.shiftl 1 1.
Definition XDMA_DESC_EOP : Z := Z.shiftl 1 4.

Definition XDMA_PERF_RUN : Z := Z.shiftl 1 0.
Definition XDMA_PERF_CLEAR : Z := Z.shiftl 1 1.
Definition XDMA_PERF_AUTO : Z := Z.shiftl 1 2.

Definition MAGIC_ENGINE : Z := 0xEEEEEEEE.
Definition MAGIC_DEVICE : Z := 0xDDDDDDDD.
Definition MAGIC_CHAR : Z := 0xCCCCCCCC.
Definition MAGIC_BITSTREAM : Z := 0xBBBBBBBB.

(** upper 16-bits of engine identifier register *)
Definition XDMA_ID_H2C : Z := 0x1fc0.
Definition XDMA_ID_C2H : Z := 0x1fc1.

(** the ring of the C2H AXI-ST mode *)
Definition RX_BUF_BLOCK : Z := 4096.
Definition RX_BUF_PAGES : Z := 256.
Definition RX_BUF_SIZE : Z := RX_BUF_PAGES * RX_BUF_BLOCK.

Definition LS_BYTE_MASK : Z := 0x000000FF.
Definition BLOCK_ID_MASK : Z := 0xFFF00000.
Definition BLOCK_ID_HEAD : Z := 0x1FC00000.
Definition IRQ_BLOCK_ID : Z := 0x1fc20000.
Definition CONFIG_BLOCK_ID : Z := 0x1fc30000.

Definition WB_COUNT_MASK : Z := 0x00ffffff.
Definition WB_ERR_MASK : Z := Z.shiftl 1 31.
Definition POLL_TIMEOUT_SECONDS : Z := 10.
Definition NUM_POLLS_PER_SCHED : Z := 100.

Definition MAX_USER_IRQ : Z := 16.
Definition DESC_MAGIC : Z := 0xAD4B0000.
Definition C2H_WB : Z := 0x52B4.

Definition MAX_NUM_ENGINES : Z := XDMA_CHANNEL_NUM_MAX * 2.
Definition H2C_CHANNEL_OFFSET : Z := 0x1000.
Definition SGDMA_OFFSET_FROM_CHANNEL : Z := 0x4000.
Definition CHANNEL_SPACING : Z := 0x100.
Definition TARGET_SPACING : Z := 0x1000.
Definition BYPASS_MODE_SPACING : Z := 0x0100.

(** wz-xdma-consts.h *)
Definition WZ_DMA_BUFLEN : Z := 4 * 1024 * 1024.
Definition WZ_DMA_NOFBUFS : Z := 128.

(** obtain the 32 most (least) significant bits of a 64-bit address *)
Definition PCI_DMA_H (addr : Z) : Z := Z.shiftr (Z.shiftr addr 16) 16.
Definition PCI_DMA_L (addr : Z) : Z := Z.land addr 0xffffffff.

(** [DESC_COUNTER] is 0 *)
Definition INSERT_DESC_COUNT (count : Z) : Z := 0.

(** build_u32(), build_u64() *)
Definition build_u32 (hi lo : Z) : Z :=
  Z.lor (Z.shiftl (Z.land hi 0xFFFF) 16) (Z.land lo 0xFFFF).
Definition build_u64 (hi lo : Z) : Z :=
  Z.lor (Z.shiftl (Z.land hi 0xFFFFFFF) 32) (Z.land lo 0xFFFFFFFF).

(** ** Register blocks *)

(** a packed struct of 32-bit words: its members and their numbers of words *)
Definition layout : Type := list (string * Z).

Fixpoint words_before (l : layout) (m : string) : option Z :=
  match l with
  | [] => None
  | (n, k) :: l' =>
      if String.eqb n m then Some 0
      else option_map (Z.add k) (words_before l' m)
  end.

(** [offsetof(struct, member)]; a member that does not exist has none, and
    -1 keeps a misspelt name from passing for the first member *)
Definition offset_of (l : layout) (m : string) : Z :=
  match words_before l m with Some k => 4 * k | None => -1 end.

Fixpoint size_of (l : layout) : Z :=
  match l with [] => 0 | (_, k) :: l' => 4 * k + size_of l' end.

Definition config_regs : layout :=
  [("identifier", 1); ("reserved_1", 4); ("msi_enable", 1)].

Definition engine_regs : layout :=
  [("identifier", 1); ("control", 1); ("control_w1s", 1); ("control_w1c", 1);
   ("reserved_1", 12);
   ("status", 1); ("status_rc", 1); ("completed_desc_count", 1);
   ("alignments", 1); ("reserved_2", 14);
   ("poll_mode_wb_lo", 1); ("poll_mode_wb_hi", 1);
   ("interrupt_enable_mask", 1); ("interrupt_enable_mask_w1s", 1);
   ("interrupt_enable_mask_w1c", 1); ("reserved_3", 9);
   ("perf_ctrl", 1); ("perf_cyc_lo", 1); ("perf_cyc_hi", 1);
   ("perf_dat_lo", 1); ("perf_dat_hi", 1); ("perf_pnd_lo", 1);
   ("perf_pnd_hi", 1)].

Definition engine_sgdma_regs : layout :=
  [("identifier", 1); ("reserved_1", 31);
   ("first_desc_lo", 1); ("first_desc_hi", 1);
   ("first_desc_adjacent", 1); ("credits", 1)].

Definition msix_vec_table_entry : layout :=
  [("msi_vec_addr_lo", 1); ("msi_vec_addr_hi", 1);
   ("msi_vec_data_lo", 1); ("msi_vec_data_hi", 1)].

Definition interrupt_regs : layout :=
  [("identifier", 1); ("user_int_enable", 1); ("user_int_enable_w1s", 1);
   ("user_int_enable_w1c", 1); ("channel_int_enable", 1);
   ("channel_int_enable_w1s", 1); ("channel_int_enable_w1c", 1);
   ("reserved_1", 9);
   ("user_int_request", 1); ("channel_int_request", 1);
   ("user_int_pending", 1); ("channel_int_pending", 1);
   ("reserved_2", 12);
   ("user_msi_vector", 8); ("channel_msi_vector", 8)].

Definition sgdma_common_regs : layout :=
  [("padding", 9); ("credit_feature_enable", 1)].

(** struct xdma_desc, struct xdma_result and struct xdma_poll_wb *)
Definition xdma_desc_layout : layout :=
  [("control", 1); ("bytes", 1); ("src_addr_lo", 1); ("src_addr_hi", 1);
   ("dst_addr_lo", 1); ("dst_addr_hi", 1); ("next_lo", 1); ("next_hi", 1)].
Definition xdma_result_layout : layout :=
  [("status", 1); ("length", 1); ("reserved_1", 6)].
Definition xdma_poll_wb_layout : layout :=
  [("completed_desc_count", 1); ("reserved_1", 7)].

Definition sizeof_xdma_desc : Z := Eval vm_compute in size_of xdma_desc_layout.
Definition sizeof_xdma_result : Z := Eval vm_compute in size_of xdma_result_layout.
Definition sizeof_xdma_poll_wb : Z := Eval vm_compute in size_of xdma_poll_wb_layout.
Definition RX_RESULT_BUF_SIZE : Z := RX_BUF_PAGES * sizeof_xdma_result.

(** [&engine->regs->m], [&engine->sgdma_regs->m], [&irq_regs->m] *)
Definition er_reg (m : string) (base : Z) : Z := base + offset_of engine_regs m.
Definition sg_reg (m : string) (base : Z) : Z := base + offset_of engine_sgdma_regs m.
Definition ir_reg (m : string) (bar : Z) : Z :=
  bar + XDMA_OFS_INT_CTRL + offset_of interrupt_regs m.

(** ** Facts *)

Lemma PCI_DMA_H_div addr : PCI_DMA_H addr = addr / 2 ^ 32.
Proof.
  unfold PCI_DMA_H. rewrite Z.shiftr_shiftr by lia.
  rewrite Z.shiftr_div_pow2 by lia. reflexivity.
Qed.

Lemma PCI_DMA_L_mod addr : PCI_DMA_L addr = addr mod 2 ^ 32.
Proof.
  unfold PCI_DMA_L. change 0xffffffff with (Z.ones 32).
  rewrite Z.land_ones by lia. reflexivity.
Qed.

Lemma PCI_DMA_join addr : PCI_DMA_H addr * 2 ^ 32 + PCI_DMA_L addr = addr.
Proof.
  rewrite PCI_DMA_H_div, PCI_DMA_L_mod. pose proof (Z.div_mod addr (2 ^ 32)). lia.
Qed.

Lemma PCI_DMA_L_range addr : is_u32 (PCI_DMA_L addr).
Proof. rewrite PCI_DMA_L_mod. apply u32_range. Qed.

Lemma PCI_DMA_H_range addr : is_u64 addr -> is_u32 (PCI_DMA_H addr).
Proof.
  rewrite PCI_DMA_H_div. unfold is_u64, is_u32. intros Ha. split.
  - apply Z.div_pos; lia.
  - apply Z.div_lt_upper_bound; lia.
Qed.
