(* ===== verification/Kernel.v ===== *)
(** * The boundary of the driver: what it calls and what it waits for

    The kernel services, the user buffers and the device registers are not
    code of the repository: a call of one of them is an event [Call f args
    ret], answered by the function [answer] of the environment, which may
    depend on the whole history of calls.  [ret] is the returned value
    followed by the values stored through pointer arguments. *)
From S2P Require Import Prelude Layout.

(** The functions of the kernel the sources call, with register reads and
    writes, the read of the write-back word the device updates, and the
    stores into coherent memory whose order the device observes
    ([store_word]); the last ones are what a process does: its loads and stores
    and the system calls the driver does not serve. *)
Inductive extern : Type :=
| ioread32
| iowrite32
| mmiowb
| mb
| jiffies
| schedule
| msleep
| wake_up
| wake_up_interruptible
| wait_event
| wait_event_interruptible
| schedule_work
| get_cpu
| put_cpu
| warn_on
| kzalloc
| kcalloc
| kmalloc
| kfree
| vmalloc
| vmalloc_32
| vfree
| SetPageReserved
| ClearPageReserved
| alloc_pages
| free_pages
| dma_map_page
| dma_unmap_page
| dma_sync_single_range_for_device
| dma_sync_single_range_for_cpu
| dma_alloc_coherent
| dma_free_coherent
| pci_alloc_consistent
| pci_free_consistent
| pci_map_sg
| pci_unmap_sg
| get_user_pages_fast
| put_page
| SetPageDirty
| flush_dcache_page
| vmalloc_to_page
| kfifo_alloc
| kfifo_free
| copy_to_user
| copy_from_user
| get_user
| put_user
| vm_insert_pfn
| io_remap_pfn_range
| dma_mmap_coherent
| poll_mode_wb
| aio_complete
| request_irq
| free_irq
| pci_enable_device
| pci_disable_device
| pci_set_master
| pci_enable_msix
| pci_disable_msix
| pci_enable_msi
| pci_disable_msi
| pci_no_msi
| pci_request_regions
| pci_release_regions
| pci_resource_start
| pci_resource_len
| pci_resource_end
| pci_iomap
| pci_iounmap
| pci_set_dma_mask
| pci_set_consistent_dma_mask
| pci_read_config_byte
| pci_irq
| pci_read_config_dword
| pci_write_config_dword
| pci_save_state
| pci_restore_state
| dev_set_drvdata
| device_create_file
| device_remove_file
| alloc_chrdev_region
| register_chrdev_region
| unregister_chrdev_region
| cdev_init
| cdev_alloc
| cdev_add
| cdev_del
| kobject_set_name
| device_create
| device_destroy
| class_create
| class_destroy
| pci_register_driver
| pci_unregister_driver
| request_firmware
| release_firmware
| platform_get_resource
| platform_get_irq
| devm_ioremap_resource
| devm_iounmap
| dma_zalloc_coherent
| ksgpio_check_status
| ksgpio_set_start
| ksgpio_set_reset
| mdelay
| page_to_pfn
| store_word
| PageHighMem
| pci_bus_flags
| pci_find_capability
| iowrite8
| ndelay
| udelay
| ssleep
| pci_write_config_byte
| access_ok
| interrupts_enable
| user_store
| user_load
| sys_open
| sys_close
| sys_mmap
| sys_munmap
| sys_write
| usleep
| clock_gettime.

Definition extern_idx (f : extern) : nat :=
  match f with
  | ioread32 => 0
  | iowrite32 => 1
  | mmiowb => 2
  | mb => 3
  | jiffies => 4
  | schedule => 5
  | msleep => 6
  | wake_up => 7
  | wake_up_interruptible => 8
  | wait_event => 9
  | wait_event_interruptible => 10
  | schedule_work => 11
  | get_cpu => 12
  | put_cpu => 13
  | warn_on => 14
  | kzalloc => 15
  | kcalloc => 16
  | kmalloc => 17
  | kfree => 18
  | vmalloc => 19
  | vmalloc_32 => 20
  | vfree => 21
  | SetPageReserved => 22
  | ClearPageReserved => 23
  | alloc_pages => 24
  | free_pages => 25
  | dma_map_page => 26
  | dma_unmap_page => 27
  | dma_sync_single_range_for_device => 28
  | dma_sync_single_range_for_cpu => 29
  | dma_alloc_coherent => 30
  | dma_free_coherent => 31
  | pci_alloc_consistent => 32
  | pci_free_consistent => 33
  | pci_map_sg => 34
  | pci_unmap_sg => 35
  | get_user_pages_fast => 36
  | put_page => 37
  | SetPageDirty => 38
  | flush_dcache_page => 39
  | vmalloc_to_page => 40
  | kfifo_alloc => 41
  | kfifo_free => 42
  | copy_to_user => 43
  | copy_from_user => 44
  | get_user => 45
  | put_user => 46
  | vm_insert_pfn => 47
  | io_remap_pfn_range => 48
  | dma_mmap_coherent => 49
  | poll_mode_wb => 50
  | aio_complete => 51
  | request_irq => 52
  | free_irq => 53
  | pci_enable_device => 54
  | pci_disable_device => 55
  | pci_set_master => 56
  | pci_enable_msix => 57
  | pci_disable_msix => 58
  | pci_enable_msi => 59
  | pci_disable_msi => 60
  | pci_no_msi => 61
  | pci_request_regions => 62
  | pci_release_regions => 63
  | pci_resource_start => 64
  | pci_resource_len => 65
  | pci_resource_end => 66
  | pci_iomap => 67
  | pci_iounmap => 68
  | pci_set_dma_mask => 69
  | pci_set_consistent_dma_mask => 70
  | pci_read_config_byte => 71
  | pci_irq => 72
  | pci_read_config_dword => 73
  | pci_write_config_dword => 74
  | pci_save_state => 75
  | pci_restore_state => 76
  | dev_set_drvdata => 77
  | device_create_file => 78
  | device_remove_file => 79
  | alloc_chrdev_region => 80
  | register_chrdev_region => 81
  | unregister_chrdev_region => 82
  | cdev_init => 83
  | cdev_alloc => 84
  | cdev_add => 85
  | cdev_del => 86
  | kobject_set_name => 87
  | device_create => 88
  | device_destroy => 89
  | class_create => 90
  | class_destroy => 91
  | pci_register_driver => 92
  | pci_unregister_driver => 93
  | request_firmware => 94
  | release_firmware => 95
  | platform_get_resource => 96
  | platform_get_irq => 97
  | devm_ioremap_resource => 98
  | devm_iounmap => 99
  | dma_zalloc_coherent => 100
  | ksgpio_check_status => 101
  | ksgpio_set_start => 102
  | ksgpio_set_reset => 103
  | mdelay => 104
  | page_to_pfn => 105
  | store_word => 106
  | PageHighMem => 107
  | pci_bus_flags => 108
  | pci_find_capability => 109
  | iowrite8 => 110
  | ndelay => 111
  | udelay => 112
  | ssleep => 113
  | pci_write_config_byte => 114
  | access_ok => 115
  | interrupts_enable => 116
  | user_store => 117
  | user_load => 118
  | sys_open => 119
  | sys_close => 120
  | sys_mmap => 121
  | sys_munmap => 122
  | sys_write => 123
  | usleep => 124
  | clock_gettime => 125
  end%nat.

Definition externs : list extern :=
  [ioread32; iowrite32; mmiowb; mb;
   jiffies; schedule; msleep; wake_up;
   wake_up_interruptible; wait_event; wait_event_interruptible; schedule_work;
   get_cpu; put_cpu; warn_on; kzalloc;
   kcalloc; kmalloc; kfree; vmalloc;
   vmalloc_32; vfree; SetPageReserved; ClearPageReserved;
   alloc_pages; free_pages; dma_map_page; dma_unmap_page;
   dma_sync_single_range_for_device; dma_sync_single_range_for_cpu; dma_alloc_coherent; dma_free_coherent;
   pci_alloc_consistent; pci_free_consistent; pci_map_sg; pci_unmap_sg;
   get_user_pages_fast; put_page; SetPageDirty; flush_dcache_page;
   vmalloc_to_page; kfifo_alloc; kfifo_free; copy_to_user;
   copy_from_user; get_user; put_user; vm_insert_pfn;
   io_remap_pfn_range; dma_mmap_coherent; poll_mode_wb; aio_complete;
   request_irq; free_irq; pci_enable_device; pci_disable_device;
   pci_set_master; pci_enable_msix; pci_disable_msix; pci_enable_msi;
   pci_disable_msi; pci_no_msi; pci_request_regions; pci_release_regions;
   pci_resource_start; pci_resource_len; pci_resource_end; pci_iomap;
   pci_iounmap; pci_set_dma_mask; pci_set_consistent_dma_mask; pci_read_config_byte;
   pci_irq; pci_read_config_dword; pci_write_config_dword; pci_save_state;
   pci_restore_state; dev_set_drvdata; device_create_file; device_remove_file;
   alloc_chrdev_region; register_chrdev_region; unregister_chrdev_region; cdev_init;
   cdev_alloc; cdev_add; cdev_del; kobject_set_name;
   device_create; device_destroy; class_create; class_destroy;
   pci_register_driver; pci_unregister_driver; request_firmware; release_firmware;
   platform_get_resource; platform_get_irq; devm_ioremap_resource; devm_iounmap;
   dma_zalloc_coherent; ksgpio_check_status; ksgpio_set_start; ksgpio_set_reset;
   mdelay; page_to_pfn; store_word; PageHighMem;
   pci_bus_flags; pci_find_capability; iowrite8; ndelay;
   udelay; ssleep; pci_write_config_byte; access_ok;
   interrupts_enable; user_store; user_load; sys_open;
   sys_close; sys_mmap; sys_munmap; sys_write;
   usleep; clock_gettime].

Lemma externs_idx f : externs !! extern_idx f = Some f.
Proof. destruct f; reflexivity. Qed.

#[global] Instance extern_eq_dec : EqDecision extern.
Proof.
  intros f g. destruct (decide (extern_idx f = extern_idx g)) as [E|E].
  - left. apply (inj Some). rewrite <- (externs_idx f), <- (externs_idx g), E.
    reflexivity.
  - right. intros ->. apply E. reflexivity.
Defined.

Definition extern_eqb (f g : extern) : bool :=
  Nat.eqb (extern_idx f) (extern_idx g).

Lemma extern_eqb_eq f g : extern_eqb f g = true <-> f = g.
Proof.
  unfold extern_eqb. rewrite Nat.eqb_eq. split; [|intros ->; reflexivity].
  intros E. apply (inj Some). rewrite <- (externs_idx f), <- (externs_idx g), E.
  reflexivity.
Qed.

Record ev : Type := Call { ev_fn : extern; ev_args : list Z; ev_ret : list Z }.

(** what an interrupt handler answers, and a flag of [request_irq] *)
Definition IRQ_NONE : Z := 0.
Definition IRQ_HANDLED : Z := 1.
Definition IRQF_SHARED : Z := 0x80.

(** The history, newest call first. *)
Definition history : Type := list ev.

Class Env : Type := {
  answer : history -> extern -> list Z -> list Z;
  (** the module parameters: whether [poll_mode] is set, and the value of
      [enable_credit_mp], which the code tests and masks *)
  poll_mode : bool;
  enable_credit_mp : Z
}.

(** A state that carries the history. *)
Class HasTrace (S : Type) : Type := {
  trace_of : S -> history;
  log : ev -> S -> S;
  trace_log : forall e s, trace_of (log e s) = e :: trace_of s
}.

Section Calls.
Context {S : Type} `{!HasTrace S} {env : Env}.

(** call [f] and get everything it gives back *)
Definition ext_all (f : extern) (args : list Z) : prog S (list Z) :=
  fun s =>
    let r := answer (trace_of s) f args in
    Ok r (log (Call f args r) s).
(** call [f] for its returned value *)
Definition ext (f : extern) (args : list Z) : prog S Z :=
  r <- ext_all f args ;; ret (nth 0 r 0).
(** call [f] for its effect *)
Definition ext_ (f : extern) (args : list Z) : prog S unit :=
  fun s => Ok tt (log (Call f args []) s).

(** write_register(), read_register() *)
Definition write_register (value iomem : Z) : prog S unit :=
  ext_ iowrite32 [iomem; value].
Definition read_register (iomem : Z) : prog S Z :=
  r <- ext ioread32 [iomem] ;; ret (u32 r).
End Calls.

(** ** Rules *)

Section CallRules.
Context {S : Type} `{!HasTrace S} {env : Env}.

Lemma wp_ext_all f args (Q : list Z -> S -> Prop) s :
  Q (answer (trace_of s) f args) (log (Call f args (answer (trace_of s) f args)) s) ->
  wp (ext_all f args) Q s.
Proof. exact id. Qed.

Lemma wp_ext f args (Q : Z -> S -> Prop) s :
  Q (nth 0 (answer (trace_of s) f args) 0)
    (log (Call f args (answer (trace_of s) f args)) s) ->
  wp (ext f args) Q s.
Proof. exact id. Qed.

Lemma wp_ext_ f args (Q : unit -> S -> Prop) s :
  Q tt (log (Call f args []) s) -> wp (ext_ f args) Q s.
Proof. exact id. Qed.

Lemma wp_write_register v a (Q : unit -> S -> Prop) s :
  Q tt (log (Call iowrite32 [a; v] []) s) -> wp (write_register v a) Q s.
Proof. exact id. Qed.

Lemma wp_read_register a (Q : Z -> S -> Prop) s :
  Q (u32 (nth 0 (answer (trace_of s) ioread32 [a]) 0))
    (log (Call ioread32 [a] (answer (trace_of s) ioread32 [a])) s) ->
  wp (read_register a) Q s.
Proof. exact id. Qed.

Context (R : S -> S -> Prop) `{!PreOrder R} (HR : forall e s, R s (log e s)).

Lemma keeps_ext_all f args : keeps R (ext_all f args).
Proof using HR. intros s a s' H. inversion H; subst. apply HR. Qed.

Lemma keeps_ext f args : keeps R (ext f args).
Proof using HR. intros s a s' H. inversion H; subst. apply HR. Qed.

Lemma keeps_ext_ f args : keeps R (ext_ f args).
Proof using HR. intros s a s' H. inversion H; subst. apply HR. Qed.
End CallRules.

(** ** Reading a history *)

(** the [(address, value)] pairs written to registers, newest first *)
Definition writes (h : history) : list (Z * Z) :=
  omap (fun e => match e with
    | Call iowrite32 [a; v] _ => Some (a, v)
    | _ => None end) h.

(** the arguments of the calls of [f], newest first *)
Definition calls (f : extern) (h : history) : list (list Z) :=
  omap (fun e => if extern_eqb (ev_fn e) f then Some (ev_args e) else None) h.

Lemma writes_app h1 h2 : writes (h1 ++ h2) = writes h1 ++ writes h2.
Proof. apply omap_app. Qed.

Lemma calls_app f h1 h2 : calls f (h1 ++ h2) = calls f h1 ++ calls f h2.
Proof. apply omap_app. Qed.

Lemma calls_cons_eq f args r h : calls f (Call f args r :: h) = args :: calls f h.
Proof.
  unfold calls; simpl. rewrite (proj2 (extern_eqb_eq f f) eq_refl). reflexivity.
Qed.

Lemma calls_none f h : Forall (fun e => ev_fn e <> f) h -> calls f h = [].
Proof.
  induction 1 as [|e h He _ IH]; [reflexivity|]. unfold calls in *; simpl.
  destruct (extern_eqb (ev_fn e) f) eqn:E; [|exact IH]. apply extern_eqb_eq in E. contradiction.
Qed.

Lemma calls_cons_ne f g args r h : g <> f -> calls f (Call g args r :: h) = calls f h.
Proof.
  intros Hne. unfold calls; simpl. destruct (extern_eqb g f) eqn:E; [|reflexivity].
  apply extern_eqb_eq in E. congruence.
Qed.

Ltac wp_kernel :=
  lazymatch goal with
  | |- wp (ext_all _ _) _ _ => apply wp_ext_all
  | |- wp (ext _ _) _ _ => apply wp_ext
  | |- wp (ext_ _ _) _ _ => apply wp_ext_
  | |- wp (write_register _ _) _ _ => apply wp_write_register
  | |- wp (read_register _) _ _ => apply wp_read_register
  end.
Ltac wp_hook ::= wp_kernel.
