(* ===== verification/World.v ===== *)
(** * The state of the driver (xdma-core.h, xdma-sgm.h, wz-xdma.h)

    The structs of the sources as records, and the memory the handlers share:
    transfers, coherent descriptor memory and scatter-gather mappers are heaps
    indexed by pointers, so that two pointers to one object alias and a freed
    object cannot be used. *)
From S2P Require Import Prelude Layout Kernel.

(** ** Descriptors and results in coherent memory *)

Record xdma_desc : Type := mk_desc {
  control : Z;
  bytes : Z;
  src_addr_lo : Z;
  src_addr_hi : Z;
  dst_addr_lo : Z;
  dst_addr_hi : Z;
  next_lo : Z;
  next_hi : Z
}.

#[global] Instance eta_xdma_desc : Eta xdma_desc := fun r =>
  mk_desc (control r) (bytes r) (src_addr_lo r) (src_addr_hi r) (dst_addr_lo r)
    (dst_addr_hi r) (next_lo r) (next_hi r).
#[global] Instance set_control : Setter control := ltac:(make_setter).
#[global] Instance set_bytes : Setter bytes := ltac:(make_setter).
#[global] Instance set_src_addr_lo : Setter src_addr_lo := ltac:(make_setter).
#[global] Instance set_src_addr_hi : Setter src_addr_hi := ltac:(make_setter).
#[global] Instance set_dst_addr_lo : Setter dst_addr_lo := ltac:(make_setter).
#[global] Instance set_dst_addr_hi : Setter dst_addr_hi := ltac:(make_setter).
#[global] Instance set_next_lo : Setter next_lo := ltac:(make_setter).
#[global] Instance set_next_hi : Setter next_hi := ltac:(make_setter).

(** struct xdma_result: the words [status] and [length] lie where a
    descriptor has [control] and [bytes] *)
Record xdma_result : Type := mk_result { r_status : Z; r_length : Z }.

#[global] Instance eta_xdma_result : Eta xdma_result := fun r =>
  mk_result (r_status r) (r_length r).
#[global] Instance set_r_status : Setter r_status := ltac:(make_setter).
#[global] Instance set_r_length : Setter r_length := ltac:(make_setter).

(** a pointer to a descriptor: the allocation and the index in it *)
Definition dptr : Type := Z * Z.
Definition dnull : dptr := (0, 0).
Definition dptr_is_null (p : dptr) : bool := fst p =? 0.
Definition dptr_add (p : dptr) (i : Z) : dptr := (fst p, snd p + i).

(** a block of [dma_alloc_coherent]: whole pages of descriptor slots *)
Record dblock : Type := mk_dblock { db_bus : Z; db_slots : list xdma_desc }.

#[global] Instance eta_dblock : Eta dblock := fun r =>
  mk_dblock (db_bus r) (db_slots r).
#[global] Instance set_db_bus : Setter db_bus := ltac:(make_setter).
#[global] Instance set_db_slots : Setter db_slots := ltac:(make_setter).

(** ** Scatter-gather mappers *)

Record sg_entry : Type := mk_sg {
  sg_page : Z;
  sg_length : Z;
  sg_offset : Z;
  sg_dma_address : Z;
  sg_dma_len : Z
}.

#[global] Instance eta_sg_entry : Eta sg_entry := fun r =>
  mk_sg (sg_page r) (sg_length r) (sg_offset r) (sg_dma_address r)
    (sg_dma_len r).
#[global] Instance set_sg_page : Setter sg_page := ltac:(make_setter).
#[global] Instance set_sg_length : Setter sg_length := ltac:(make_setter).
#[global] Instance set_sg_offset : Setter sg_offset := ltac:(make_setter).
#[global] Instance set_sg_dma_address : Setter sg_dma_address := ltac:(make_setter).
#[global] Instance set_sg_dma_len : Setter sg_dma_len := ltac:(make_setter).

Record sg_mapping_t : Type := mk_sgm {
  sgl : list sg_entry;
  pages : list Z;
  max_pages : Z;
  mapped_pages : Z;
  sgl_at : Z;
  pages_at : Z
}.

#[global] Instance eta_sg_mapping_t : Eta sg_mapping_t := fun r =>
  mk_sgm (sgl r) (pages r) (max_pages r) (mapped_pages r) (sgl_at r) (pages_at r).
#[global] Instance set_sgl : Setter sgl := ltac:(make_setter).
#[global] Instance set_pages : Setter pages := ltac:(make_setter).
#[global] Instance set_max_pages : Setter max_pages := ltac:(make_setter).
#[global] Instance set_mapped_pages : Setter mapped_pages := ltac:(make_setter).
#[global] Instance set_sgl_at : Setter sgl_at := ltac:(make_setter).
#[global] Instance set_pages_at : Setter pages_at := ltac:(make_setter).

(** ** Transfers *)

Inductive transfer_state : Type :=
| TRANSFER_STATE_NEW
| TRANSFER_STATE_SUBMITTED
| TRANSFER_STATE_COMPLETED
| TRANSFER_STATE_FAILED.

#[global] Instance transfer_state_eq_dec : EqDecision transfer_state.
Proof. solve_decision. Defined.

Record xdma_transfer : Type := mk_transfer {
  desc_virt : dptr;
  desc_bus : Z;
  desc_adjacent : Z;
  desc_num : Z;
  t_dir_to_dev : Z;
  iocb : Z;
  sgl_nents : Z;
  t_sgm : Z;
  userspace : Z;
  state : transfer_state;
  cyclic : Z;
  last_in_request : Z;
  size_of_request : Z
}.

#[global] Instance eta_xdma_transfer : Eta xdma_transfer := fun r =>
  mk_transfer (desc_virt r) (desc_bus r) (desc_adjacent r) (desc_num r)
    (t_dir_to_dev r) (iocb r) (sgl_nents r) (t_sgm r) (userspace r)
    (state r) (cyclic r) (last_in_request r) (size_of_request r).
#[global] Instance set_desc_virt : Setter desc_virt := ltac:(make_setter).
#[global] Instance set_desc_bus : Setter desc_bus := ltac:(make_setter).
#[global] Instance set_desc_adjacent : Setter desc_adjacent := ltac:(make_setter).
#[global] Instance set_desc_num : Setter desc_num := ltac:(make_setter).
#[global] Instance set_t_dir_to_dev : Setter t_dir_to_dev := ltac:(make_setter).
#[global] Instance set_iocb : Setter iocb := ltac:(make_setter).
#[global] Instance set_sgl_nents : Setter sgl_nents := ltac:(make_setter).
#[global] Instance set_t_sgm : Setter t_sgm := ltac:(make_setter).
#[global] Instance set_userspace : Setter userspace := ltac:(make_setter).
#[global] Instance set_state : Setter state := ltac:(make_setter).
#[global] Instance set_cyclic : Setter cyclic := ltac:(make_setter).
#[global] Instance set_last_in_request : Setter last_in_request := ltac:(make_setter).
#[global] Instance set_size_of_request : Setter size_of_request := ltac:(make_setter).

(** what [kzalloc] gives *)
Definition zero_transfer : xdma_transfer :=
  mk_transfer dnull 0 0 0 0 0 0 0 0 TRANSFER_STATE_NEW 0 0 0.

(** ** The cyclic extension of an engine (wz-xdma.h, wz-xdma-ioctl.h) *)

Record wz_xdma_data_block_desc : Type := mk_block {
  first_desc : Z;
  last_desc : Z;
  last_len : Z
}.

#[global] Instance eta_wz_xdma_data_block_desc : Eta wz_xdma_data_block_desc := fun r =>
  mk_block (first_desc r) (last_desc r) (last_len r).
#[global] Instance set_first_desc : Setter first_desc := ltac:(make_setter).
#[global] Instance set_last_desc : Setter last_desc := ltac:(make_setter).
#[global] Instance set_last_len : Setter last_len := ltac:(make_setter).

(** [kfifo] is the queue with its capacity, 0 when it is not allocated *)
Record wz_xdma_engine_ext : Type := mk_ext {
  buf_dma_t : list Z;
  buf_page : list Z;
  ext_transfer : Z;
  desc_copy : option (list xdma_desc);
  desc : list dptr;
  desc_dma : list Z;
  buf_ready : Z;
  block_first_desc : Z;
  block_scanned_desc : Z;
  kfifo : list wz_xdma_data_block_desc;
  kfifo_size : Z
}.

#[global] Instance eta_wz_xdma_engine_ext : Eta wz_xdma_engine_ext := fun r =>
  mk_ext (buf_dma_t r) (buf_page r) (ext_transfer r) (desc_copy r) (desc r)
    (desc_dma r) (buf_ready r) (block_first_desc r) (block_scanned_desc r)
    (kfifo r) (kfifo_size r).
#[global] Instance set_buf_dma_t : Setter buf_dma_t := ltac:(make_setter).
#[global] Instance set_buf_page : Setter buf_page := ltac:(make_setter).
#[global] Instance set_ext_transfer : Setter ext_transfer := ltac:(make_setter).
#[global] Instance set_desc_copy : Setter desc_copy := ltac:(make_setter).
#[global] Instance set_desc : Setter desc := ltac:(make_setter).
#[global] Instance set_desc_dma : Setter desc_dma := ltac:(make_setter).
#[global] Instance set_buf_ready : Setter buf_ready := ltac:(make_setter).
#[global] Instance set_block_first_desc : Setter block_first_desc := ltac:(make_setter).
#[global] Instance set_block_scanned_desc : Setter block_scanned_desc := ltac:(make_setter).
#[global] Instance set_kfifo : Setter kfifo := ltac:(make_setter).
#[global] Instance set_kfifo_size : Setter kfifo_size := ltac:(make_setter).

Definition zero_ext : wz_xdma_engine_ext :=
  mk_ext (replicate 128 0) (replicate 128 0) 0 None (replicate 128 dnull)
    (replicate 128 0) 0 0 0 [] 0.

(** ** Engines *)

Record xdma_performance_ioctl : Type := mk_perf {
  version : Z;
  transfer_size : Z;
  stopped : Z;
  iterations : Z;
  clock_cycle_count : Z;
  data_cycle_count : Z;
  pending_count : Z
}.

#[global] Instance eta_xdma_performance_ioctl : Eta xdma_performance_ioctl := fun r =>
  mk_perf (version r) (transfer_size r) (stopped r) (iterations r)
    (clock_cycle_count r) (data_cycle_count r) (pending_count r).
#[global] Instance set_version : Setter version := ltac:(make_setter).
#[global] Instance set_transfer_size : Setter transfer_size := ltac:(make_setter).
#[global] Instance set_stopped : Setter stopped := ltac:(make_setter).
#[global] Instance set_iterations : Setter iterations := ltac:(make_setter).
#[global] Instance set_clock_cycle_count : Setter clock_cycle_count := ltac:(make_setter).
#[global] Instance set_data_cycle_count : Setter data_cycle_count := ltac:(make_setter).
#[global] Instance set_pending_count : Setter pending_count := ltac:(make_setter).

Definition ENGINE_SHUTDOWN_NONE : Z := 0.
Definition ENGINE_SHUTDOWN_REQUEST : Z := 1.
Definition ENGINE_SHUTDOWN_IDLE : Z := 2.

Record xdma_engine : Type := mk_engine {
  magic : Z;
  regs : Z;
  sgdma_regs : Z;
  bypass_offset : Z;
  shutdown : Z;
  running : Z;
  streaming : Z;
  non_incr_addr : Z;
  dir_to_dev : Z;
  addr_align : Z;
  len_granularity : Z;
  addr_bits : Z;
  channel : Z;
  number_in_channel : Z;
  desc_dequeued : Z;
  status : Z;
  interrupt_enable_mask_value : Z;
  transfer_list : list Z;
  rx_tail : Z;
  rx_head : Z;
  rx_overrun : Z;
  rx_buffer : Z;
  rx_transfer_cyclic : Z;
  rx_result_buffer_virt : Z;
  rx_result_buffer_bus : Z;
  poll_mode_addr_virt : Z;
  poll_mode_bus : Z;
  lock : bool;
  prev_cpu : Z;
  msix_irq_line : Z;
  irq_bitmask : Z;
  xdma_perf : option xdma_performance_ioctl;
  eop_found : Z;
  user_buffer_index : Z;
  wz_ext : wz_xdma_engine_ext
}.

#[global] Instance eta_xdma_engine : Eta xdma_engine := fun r =>
  mk_engine (magic r) (regs r) (sgdma_regs r) (bypass_offset r) (shutdown r)
    (running r) (streaming r) (non_incr_addr r) (dir_to_dev r)
    (addr_align r) (len_granularity r) (addr_bits r) (channel r)
    (number_in_channel r) (desc_dequeued r) (status r)
    (interrupt_enable_mask_value r) (transfer_list r) (rx_tail r)
    (rx_head r) (rx_overrun r) (rx_buffer r) (rx_transfer_cyclic r)
    (rx_result_buffer_virt r) (rx_result_buffer_bus r)
    (poll_mode_addr_virt r) (poll_mode_bus r) (lock r) (prev_cpu r) (msix_irq_line r)
    (irq_bitmask r) (xdma_perf r) (eop_found r) (user_buffer_index r)
    (wz_ext r).
#[global] Instance set_magic : Setter magic := ltac:(make_setter).
#[global] Instance set_regs : Setter regs := ltac:(make_setter).
#[global] Instance set_sgdma_regs : Setter sgdma_regs := ltac:(make_setter).
#[global] Instance set_bypass_offset : Setter bypass_offset := ltac:(make_setter).
#[global] Instance set_shutdown : Setter shutdown := ltac:(make_setter).
#[global] Instance set_running : Setter running := ltac:(make_setter).
#[global] Instance set_streaming : Setter streaming := ltac:(make_setter).
#[global] Instance set_non_incr_addr : Setter non_incr_addr := ltac:(make_setter).
#[global] Instance set_dir_to_dev : Setter dir_to_dev := ltac:(make_setter).
#[global] Instance set_addr_align : Setter addr_align := ltac:(make_setter).
#[global] Instance set_len_granularity : Setter len_granularity := ltac:(make_setter).
#[global] Instance set_addr_bits : Setter addr_bits := ltac:(make_setter).
#[global] Instance set_channel : Setter channel := ltac:(make_setter).
#[global] Instance set_number_in_channel : Setter number_in_channel := ltac:(make_setter).
#[global] Instance set_desc_dequeued : Setter desc_dequeued := ltac:(make_setter).
#[global] Instance set_status : Setter status := ltac:(make_setter).
#[global] Instance set_interrupt_enable_mask_value : Setter interrupt_enable_mask_value := ltac:(make_setter).
#[global] Instance set_transfer_list : Setter transfer_list := ltac:(make_setter).
#[global] Instance set_rx_tail : Setter rx_tail := ltac:(make_setter).
#[global] Instance set_rx_head : Setter rx_head := ltac:(make_setter).
#[global] Instance set_rx_overrun : Setter rx_overrun := ltac:(make_setter).
#[global] Instance set_rx_buffer : Setter rx_buffer := ltac:(make_setter).
#[global] Instance set_rx_transfer_cyclic : Setter rx_transfer_cyclic := ltac:(make_setter).
#[global] Instance set_rx_result_buffer_virt : Setter rx_result_buffer_virt := ltac:(make_setter).
#[global] Instance set_rx_result_buffer_bus : Setter rx_result_buffer_bus := ltac:(make_setter).
#[global] Instance set_poll_mode_addr_virt : Setter poll_mode_addr_virt := ltac:(make_setter).
#[global] Instance set_poll_mode_bus : Setter poll_mode_bus := ltac:(make_setter).
#[global] Instance set_lock : Setter lock := ltac:(make_setter).
#[global] Instance set_prev_cpu : Setter prev_cpu := ltac:(make_setter).
#[global] Instance set_msix_irq_line : Setter msix_irq_line := ltac:(make_setter).
#[global] Instance set_irq_bitmask : Setter irq_bitmask := ltac:(make_setter).
#[global] Instance set_xdma_perf : Setter xdma_perf := ltac:(make_setter).
#[global] Instance set_eop_found : Setter eop_found := ltac:(make_setter).
#[global] Instance set_user_buffer_index : Setter user_buffer_index := ltac:(make_setter).
#[global] Instance set_wz_ext : Setter wz_ext := ltac:(make_setter).

Definition zero_engine : xdma_engine :=
  mk_engine 0 0 0 0 0 0 0 0 0 0 0 0 0 0 0 0 0 [] 0 0 0 0 0 0 0 0 0 false 0 0 0
    None 0 0 zero_ext.

(** ** Character devices, user interrupts and the device *)

Inductive chardev_type : Type :=
| CHAR_USER
| CHAR_CTRL
| CHAR_EVENTS
| CHAR_XDMA_H2C
| CHAR_XDMA_C2H
| CHAR_BYPASS_H2C
| CHAR_BYPASS_C2H
| CHAR_BYPASS.

#[global] Instance chardev_type_eq_dec : EqDecision chardev_type.
Proof. solve_decision. Defined.

(** [engine] is the pointer of the engine, [user_irq] the index of the entry
    of [lro->user_irq] (-1 is NULL) *)
Record xdma_char : Type := mk_char {
  c_magic : Z;
  c_lro : bool;
  c_cdevno : Z * Z;
  c_bar : Z;
  c_engine : Z;
  c_user_irq : Z;
  c_sys_device : Z
}.

#[global] Instance eta_xdma_char : Eta xdma_char := fun r =>
  mk_char (c_magic r) (c_lro r) (c_cdevno r) (c_bar r) (c_engine r)
    (c_user_irq r) (c_sys_device r).
#[global] Instance set_c_magic : Setter c_magic := ltac:(make_setter).
#[global] Instance set_c_lro : Setter c_lro := ltac:(make_setter).
#[global] Instance set_c_cdevno : Setter c_cdevno := ltac:(make_setter).
#[global] Instance set_c_bar : Setter c_bar := ltac:(make_setter).
#[global] Instance set_c_engine : Setter c_engine := ltac:(make_setter).
#[global] Instance set_c_user_irq : Setter c_user_irq := ltac:(make_setter).
#[global] Instance set_c_sys_device : Setter c_sys_device := ltac:(make_setter).

Definition zero_char : xdma_char := mk_char 0 false (0, 0) 0 0 (-1) 0.

Record xdma_irq : Type := mk_irq { events_irq : Z; events_lock : bool }.

#[global] Instance eta_xdma_irq : Eta xdma_irq := fun r =>
  mk_irq (events_irq r) (events_lock r).
#[global] Instance set_events_irq : Setter events_irq := ltac:(make_setter).
#[global] Instance set_events_lock : Setter events_lock := ltac:(make_setter).

Record xdma_dev : Type := mk_dev {
  lro_magic : Z;
  pci_dev : Z;
  major : Z;
  instance : Z;
  user_char_dev : Z;
  ctrl_char_dev : Z;
  bypass_char_dev : list Z;        (** [channel][dir] at 2 * channel + dir *)
  bypass_char_dev_base : Z;
  sgdma_char_dev : list Z;
  events_char_dev : list Z;
  bar : list Z;
  user_bar_idx : Z;
  config_bar_idx : Z;
  bypass_bar_idx : Z;
  regions_in_use : Z;
  got_regions : Z;
  irq_count : Z;
  irq_line : Z;
  msi_enabled : Z;
  msix_enabled : Z;
  entry_vector : list Z;
  user_irq : list xdma_irq;
  engines_num : Z;
  engine : list Z                  (** [channel][dir] at 2 * channel + dir *)
}.

#[global] Instance eta_xdma_dev : Eta xdma_dev := fun r =>
  mk_dev (lro_magic r) (pci_dev r) (major r) (instance r) (user_char_dev r)
    (ctrl_char_dev r) (bypass_char_dev r) (bypass_char_dev_base r)
    (sgdma_char_dev r) (events_char_dev r) (bar r) (user_bar_idx r)
    (config_bar_idx r) (bypass_bar_idx r) (regions_in_use r)
    (got_regions r) (irq_count r) (irq_line r) (msi_enabled r)
    (msix_enabled r) (entry_vector r) (user_irq r) (engines_num r)
    (engine r).
#[global] Instance set_lro_magic : Setter lro_magic := ltac:(make_setter).
#[global] Instance set_pci_dev : Setter pci_dev := ltac:(make_setter).
#[global] Instance set_major : Setter major := ltac:(make_setter).
#[global] Instance set_instance : Setter instance := ltac:(make_setter).
#[global] Instance set_user_char_dev : Setter user_char_dev := ltac:(make_setter).
#[global] Instance set_ctrl_char_dev : Setter ctrl_char_dev := ltac:(make_setter).
#[global] Instance set_bypass_char_dev : Setter bypass_char_dev := ltac:(make_setter).
#[global] Instance set_bypass_char_dev_base : Setter bypass_char_dev_base := ltac:(make_setter).
#[global] Instance set_sgdma_char_dev : Setter sgdma_char_dev := ltac:(make_setter).
#[global] Instance set_events_char_dev : Setter events_char_dev := ltac:(make_setter).
#[global] Instance set_bar : Setter bar := ltac:(make_setter).
#[global] Instance set_user_bar_idx : Setter user_bar_idx := ltac:(make_setter).
#[global] Instance set_config_bar_idx : Setter config_bar_idx := ltac:(make_setter).
#[global] Instance set_bypass_bar_idx : Setter bypass_bar_idx := ltac:(make_setter).
#[global] Instance set_regions_in_use : Setter regions_in_use := ltac:(make_setter).
#[global] Instance set_got_regions : Setter got_regions := ltac:(make_setter).
#[global] Instance set_irq_count : Setter irq_count := ltac:(make_setter).
#[global] Instance set_irq_line : Setter irq_line := ltac:(make_setter).
#[global] Instance set_msi_enabled : Setter msi_enabled := ltac:(make_setter).
#[global] Instance set_msix_enabled : Setter msix_enabled := ltac:(make_setter).
#[global] Instance set_entry_vector : Setter entry_vector := ltac:(make_setter).
#[global] Instance set_user_irq : Setter user_irq := ltac:(make_setter).
#[global] Instance set_engines_num : Setter engines_num := ltac:(make_setter).
#[global] Instance set_engine : Setter engine := ltac:(make_setter).

Definition zero_dev : xdma_dev :=
  mk_dev 0 0 0 0 0 0 (replicate 8 0) 0 (replicate 8 0) (replicate 16 0)
    (replicate 6 0) 0 0 0 0 0 0 0 0 0 (replicate 32 0)
    (replicate 16 (mk_irq 0 false)) 0 (replicate 8 0).

(** ** The world

    [eng] is the engine a handler works on; [engines] holds the others (see
    [with_engine] of Creation.v).  [fresh] names the next object of a heap. *)
Record world : Type := mk_world {
  trace : history;
  fresh : Z;
  eng : xdma_engine;
  lro : xdma_dev;
  transfers : gmap Z xdma_transfer;
  coherent : gmap Z dblock;
  sgms : gmap Z sg_mapping_t;
  rx_result : list xdma_result;
  engines : gmap Z xdma_engine;
  chars : gmap Z xdma_char;
  dev_present : list Z;
  drv_major : Z;
  g_xdma_class : Z
}.

#[global] Instance eta_world : Eta world := fun r =>
  mk_world (trace r) (fresh r) (eng r) (lro r) (transfers r) (coherent r) (sgms r)
    (rx_result r) (engines r) (chars r) (dev_present r) (drv_major r)
    (g_xdma_class r).
#[global] Instance set_trace : Setter trace := ltac:(make_setter).
#[global] Instance set_fresh : Setter fresh := ltac:(make_setter).
#[global] Instance set_eng : Setter eng := ltac:(make_setter).
#[global] Instance set_lro : Setter lro := ltac:(make_setter).
#[global] Instance set_transfers : Setter transfers := ltac:(make_setter).
#[global] Instance set_coherent : Setter coherent := ltac:(make_setter).
#[global] Instance set_sgms : Setter sgms := ltac:(make_setter).
#[global] Instance set_rx_result : Setter rx_result := ltac:(make_setter).
#[global] Instance set_engines : Setter engines := ltac:(make_setter).
#[global] Instance set_chars : Setter chars := ltac:(make_setter).
#[global] Instance set_dev_present : Setter dev_present := ltac:(make_setter).
#[global] Instance set_drv_major : Setter drv_major := ltac:(make_setter).
#[global] Instance set_g_xdma_class : Setter g_xdma_class := ltac:(make_setter).

#[global] Instance world_trace : HasTrace world := {
  trace_of := trace;
  log e w := w <| trace ::= cons e |>;
  trace_log e w := eq_refl
}.

(** what the device, interrupts and other threads do while a thread sleeps *)
Class Sched : Type := while_asleep : world -> world.

(** ** Descriptor memory *)

Definition lookup_mem (m : gmap Z dblock) (p : dptr) : option xdma_desc :=
  match m !! fst p with Some b => zlookup (db_slots b) (snd p) | None => None end.
Definition update_mem (p : dptr) (d : xdma_desc) (m : gmap Z dblock) : gmap Z dblock :=
  alter (fun b => b <| db_slots ::= zinsert (snd p) d |>) (fst p) m.

Lemma lookup_update_mem_eq m p d d0 :
  lookup_mem m p = Some d0 -> lookup_mem (update_mem p d m) p = Some d.
Proof.
  unfold lookup_mem, update_mem. rewrite lookup_alter_eq.
  destruct (m !! fst p) as [b|]; [simpl|discriminate].
  intros H%zlookup_Some. apply zlookup_zinsert_eq, H.
Qed.

Lemma lookup_update_mem_ne m p q d :
  p <> q -> lookup_mem (update_mem p d m) q = lookup_mem m q.
Proof.
  intros Hne. unfold lookup_mem, update_mem.
  destruct (decide (fst p = fst q)) as [E|E].
  - rewrite <- E, lookup_alter_eq. destruct (m !! fst p) as [b|]; [simpl|reflexivity].
    apply zlookup_zinsert_ne. intros E2. apply Hne, injective_projections; assumption.
  - rewrite lookup_alter_ne by exact E. reflexivity.
Qed.

Lemma update_mem_lookup_block p d m b :
  update_mem p d m !! b =
  (if decide (b = fst p) then (fun x => x <| db_slots ::= zinsert (snd p) d |>) <$> m !! b
   else m !! b).
Proof.
  unfold update_mem. case_decide as E; [subst; apply lookup_alter_eq|].
  apply lookup_alter_ne. congruence.
Qed.

Lemma update_mem_twice m p d d' : update_mem p d (update_mem p d' m) = update_mem p d m.
Proof.
  apply map_eq. intros b. rewrite !update_mem_lookup_block. case_decide; [|reflexivity].
  destruct (m !! b) as [[bus l]|]; [|reflexivity]. simpl.
  unfold set_db_slots; simpl. do 2 f_equal.
  unfold zinsert. destruct (snd p <? 0); [reflexivity|]. apply list_insert_insert_eq.
Qed.

(** the bus address of a block *)
Definition bus_of (m : gmap Z dblock) (b : Z) : option Z := db_bus <$> m !! b.

Lemma bus_of_update m p d b : bus_of (update_mem p d m) b = bus_of m b.
Proof.
  unfold bus_of. rewrite update_mem_lookup_block. case_decide; [|reflexivity].
  destruct (m !! b); reflexivity.
Qed.

(** ** Access to the world *)
Section Access.
Context {env : Env}.

(** [engine->field] *)
Definition getE {A} (f : xdma_engine -> A) : prog world A := gets (fun w => f (eng w)).
Definition setE (f : xdma_engine -> xdma_engine) : prog world unit :=
  modify (fun w => w <| eng ::= f |>).
(** [lro->field] *)
Definition getL {A} (f : xdma_dev -> A) : prog world A := gets (fun w => f (lro w)).
Definition setL (f : xdma_dev -> xdma_dev) : prog world unit :=
  modify (fun w => w <| lro ::= f |>).
(** [ext->field] *)
Definition getX {A} (f : wz_xdma_engine_ext -> A) : prog world A :=
  gets (fun w => f (wz_ext (eng w))).
Definition setX (f : wz_xdma_engine_ext -> wz_xdma_engine_ext) : prog world unit :=
  setE (fun e => e <| wz_ext ::= f |>).

(** [transfer->field] *)
Definition getT {A} (f : xdma_transfer -> A) (t : Z) : prog world A :=
  x <- deref (fun w => transfers w !! t) ;; ret (f x).
Definition setT (f : xdma_transfer -> xdma_transfer) (t : Z) : prog world unit :=
  x <- deref (fun w => transfers w !! t) ;;
  modify (fun w => w <| transfers ::= <[t := f x]> |>).

(** [*desc] *)
Definition getD (p : dptr) : prog world xdma_desc :=
  deref (fun w => lookup_mem (coherent w) p).
Definition setD (f : xdma_desc -> xdma_desc) (p : dptr) : prog world unit :=
  d <- getD p ;; modify (fun w => w <| coherent ::= update_mem p (f d) |>).

(** [a[i]] for an array in a struct *)
Definition index {A} (l : list A) (i : Z) : prog world A := deref (fun _ => zlookup l i).

(** [spin_lock(&engine->lock)], [spin_unlock(&engine->lock)] *)
Definition spin_lock : prog world unit :=
  l <- getE lock ;;
  if (l : bool) then abort_with Deadlock else setE (fun e => e <| lock := true |>).
Definition spin_unlock : prog world unit := setE (fun e => e <| lock := false |>).

(** [kzalloc(sizeof(struct xdma_transfer))]: null or a fresh object *)
Definition kzalloc_transfer : prog world Z :=
  r <- ext kzalloc [] ;;
  if r =? 0 then ret 0 else
    t <- gets fresh ;;
    modify (fun w => w <| fresh := t + 1 |> <| transfers ::= <[t := zero_transfer]> |>) ;;
    ret t.
Definition kfree_transfer (t : Z) : prog world unit :=
  ext_ kfree [t] ;;
  _ <- deref (fun w => transfers w !! t) ;;
  modify (fun w => w <| transfers ::= delete t |>).

(** [lro->bar[lro->config_bar_idx]] *)
Definition config_bar : prog world Z :=
  bars <- getL bar ;; i <- getL config_bar_idx ;; index bars i.

(** [wait_event(wq, condition)]: the thread sleeps while other threads run
    and goes on when the condition holds *)
Definition wait_event_ `{!Sched} (condition : world -> bool) : prog world unit :=
  ext_ wait_event [] ;;
  c <- gets condition ;;
  when (negb c) (modify while_asleep ;;
    c' <- gets condition ;;
    when (negb c') (abort_with Blocked)).
(** [wait_event_interruptible]: nonzero when a signal ended the sleep *)
Definition wait_event_interruptible_ `{!Sched} (condition : world -> bool) : prog world Z :=
  c <- gets condition ;;
  if (c : bool) then ret 0 else
    modify while_asleep ;;
    c' <- gets condition ;;
    if (c' : bool) then ret 0 else
      r <- ext wait_event_interruptible [] ;;
      if r =? 0 then abort_with Blocked else ret r.
End Access.

(** ** Rules *)

Lemma wp_getD p d (Q : xdma_desc -> world -> Prop) w :
  lookup_mem (coherent w) p = Some d -> Q d w -> wp (getD p) Q w.
Proof. intros H HQ. eapply wp_deref; [exact H|exact HQ]. Qed.

Lemma wp_setD f p d (Q : unit -> world -> Prop) w :
  lookup_mem (coherent w) p = Some d ->
  Q tt (w <| coherent ::= update_mem p (f d) |>) -> wp (setD f p) Q w.
Proof. intros H HQ. apply wp_bind, (wp_getD _ d); [exact H|exact HQ]. Qed.

Lemma wp_getT {A} (f : xdma_transfer -> A) t x (Q : A -> world -> Prop) w :
  transfers w !! t = Some x -> Q (f x) w -> wp (getT f t) Q w.
Proof. intros H HQ. apply wp_bind. eapply wp_deref; [exact H|apply wp_ret, HQ]. Qed.

Lemma wp_setT f t x (Q : unit -> world -> Prop) w :
  transfers w !! t = Some x ->
  Q tt (w <| transfers ::= <[t := f x]> |>) -> wp (setT f t) Q w.
Proof. intros H HQ. apply wp_bind. eapply wp_deref; [exact H|exact HQ]. Qed.

Lemma wp_kzalloc_transfer `{Env} (Q : Z -> world -> Prop) w :
  let r := answer (trace w) kzalloc [] in
  (nth 0 r 0 = 0 -> Q 0 (log (Call kzalloc [] r) w)) ->
  (nth 0 r 0 <> 0 -> Q (fresh w) (log (Call kzalloc [] r) w
     <| fresh := fresh w + 1 |> <| transfers ::= <[fresh w := zero_transfer]> |>)) ->
  wp kzalloc_transfer Q w.
Proof.
  intros r H0 H1. unfold kzalloc_transfer. apply wp_bind, wp_ext.
  fold r. change (trace_of w) with (trace w). fold r.
  destruct (Z.eqb_spec (nth 0 r 0) 0) as [E|E]; [apply wp_ret, H0, E|].
  apply wp_bind, wp_gets, wp_bind, wp_modify, wp_ret, H1, E.
Qed.

Lemma wp_index {A} (l : list A) i a (Q : A -> world -> Prop) w :
  zlookup l i = Some a -> Q a w -> wp (index l i) Q w.
Proof. intros H HQ. eapply wp_deref; [exact H|exact HQ]. Qed.

Lemma wp_spin_lock (Q : unit -> world -> Prop) w :
  lock (eng w) = false -> Q tt (w <| eng -> lock := true |>) -> wp spin_lock Q w.
Proof. intros H HQ. unfold spin_lock. apply wp_bind, wp_gets. rewrite H. exact HQ. Qed.

(** The states that differ in the contents of descriptors only. *)
Definition same_shape (m m' : gmap Z dblock) : Prop :=
  forall b, (fun x => (db_bus x, length (db_slots x))) <$> m' !! b
          = (fun x => (db_bus x, length (db_slots x))) <$> m !! b.

Definition desc_writes (w w' : world) : Prop :=
  w' = w <| coherent := coherent w' |> /\ same_shape (coherent w) (coherent w').

#[global] Instance desc_writes_preorder : PreOrder desc_writes.
Proof.
  split.
  - intros w. split; [destruct w; reflexivity|intros b; reflexivity].
  - intros w1 w2 w3 [E1 H1] [E2 H2]. split.
    + rewrite E2, E1. reflexivity.
    + intros b. rewrite H2. apply H1.
Qed.

Lemma same_shape_update m p d : same_shape m (update_mem p d m).
Proof.
  intros b. rewrite update_mem_lookup_block. case_decide; [|reflexivity].
  destruct (m !! b) as [x|]; [|reflexivity]. simpl. rewrite zinsert_length. reflexivity.
Qed.

Lemma desc_writes_update w p d : desc_writes w (w <| coherent ::= update_mem p d |>).
Proof. split; [reflexivity|apply same_shape_update]. Qed.

Lemma keeps_setD f p : keeps desc_writes (setD f p).
Proof.
  intros w a w' H. unfold setD, bind, getD, deref, modify in H.
  destruct (lookup_mem (coherent w) p) as [d|]; inversion H; subst.
  apply desc_writes_update.
Qed.
#[export] Hint Resolve keeps_setD : keeps.

Lemma same_shape_lookup m m' p :
  same_shape m m' -> is_Some (lookup_mem m p) -> is_Some (lookup_mem m' p).
Proof.
  intros Hs [d Hd]. unfold lookup_mem in *. specialize (Hs (fst p)).
  destruct (m !! fst p) as [x|]; [|discriminate].
  destruct (m' !! fst p) as [y|]; [|discriminate].
  apply zlookup_Some in Hd. injection Hs as _ Hl.
  apply zlookup_is_Some. lia.
Qed.

(** a block all of whose slots are unchanged is unchanged *)
Lemma same_shape_block m m' b :
  same_shape m m' -> (forall i, lookup_mem m' (b, i) = lookup_mem m (b, i)) ->
  m' !! b = m !! b.
Proof.
  intros Hs Hl. specialize (Hs b). unfold lookup_mem in Hl; simpl in Hl.
  destruct (m !! b) as [[bus l]|], (m' !! b) as [[bus' l']|]; try discriminate; [|reflexivity].
  injection Hs as -> Hlen. do 2 f_equal. apply list_eq. intros i.
  specialize (Hl (Z.of_nat i)). unfold zlookup in Hl.
  destruct (Z.ltb_spec (Z.of_nat i) 0); [lia|]. rewrite Nat2Z.id in Hl. exact Hl.
Qed.

Lemma wp_getE {A} (f : xdma_engine -> A) (Q : A -> world -> Prop) w :
  Q (f (eng w)) w -> wp (getE f) Q w.
Proof. exact id. Qed.

Lemma wp_setE f (Q : unit -> world -> Prop) w :
  Q tt (w <| eng ::= f |>) -> wp (setE f) Q w.
Proof. exact id. Qed.

Lemma wp_getL {A} (f : xdma_dev -> A) (Q : A -> world -> Prop) w :
  Q (f (lro w)) w -> wp (getL f) Q w.
Proof. exact id. Qed.

Lemma wp_setL f (Q : unit -> world -> Prop) w :
  Q tt (w <| lro ::= f |>) -> wp (setL f) Q w.
Proof. exact id. Qed.

Lemma wp_getX {A} (f : wz_xdma_engine_ext -> A) (Q : A -> world -> Prop) w :
  Q (f (wz_ext (eng w))) w -> wp (getX f) Q w.
Proof. exact id. Qed.

Lemma wp_setX f (Q : unit -> world -> Prop) w :
  Q tt (w <| eng -> wz_ext ::= f |>) -> wp (setX f) Q w.
Proof. exact id. Qed.

Lemma wp_spin_unlock (Q : unit -> world -> Prop) w :
  Q tt (w <| eng -> lock := false |>) -> wp spin_unlock Q w.
Proof. exact id. Qed.

Ltac wp_world :=
  lazymatch goal with
  | |- wp (getE _) _ _ => apply wp_getE
  | |- wp (setE _) _ _ => apply wp_setE
  | |- wp (getL _) _ _ => apply wp_getL
  | |- wp (setL _) _ _ => apply wp_setL
  | |- wp (getX _) _ _ => apply wp_getX
  | |- wp (setX _) _ _ => apply wp_setX
  | |- wp (getT _ _) _ _ => eapply wp_getT
  | |- wp (setT _ _) _ _ => eapply wp_setT
  | |- wp (getD _) _ _ => eapply wp_getD
  | |- wp (setD _ _) _ _ => eapply wp_setD
  | |- wp (index _ _) _ _ => eapply wp_index
  | |- wp spin_lock _ _ => apply wp_spin_lock
  | |- wp spin_unlock _ _ => apply wp_spin_unlock
  | |- _ => wp_kernel
  end.
Ltac wp_hook ::= wp_world.

(** Use the equations the context has on the state of a world. *)
Ltac use_state :=
  repeat match goal with
  | |- context [nz 0] => change (nz 0) with false
  | |- context [nz 1] => change (nz 1) with true
  | |- context [0 =? 0] => change (0 =? 0) with true
  | |- context [0 <? 0] => change (0 <? 0) with false
  | H : ?p (eng ?w) = _ |- context [?p (eng ?w)] => rewrite H
  | H : ?p (wz_ext (eng ?w)) = _ |- context [?p (wz_ext (eng ?w))] => rewrite H
  | H : ?p (lro ?w) = _ |- context [?p (lro ?w)] => rewrite H
  | H : @eq bool ?b _ |- context [?b] =>
      lazymatch b with true => fail | false => fail | _ => rewrite H end
  end.
(** Settle a side condition of a rule. *)
Ltac fact_ :=
  lazymatch goal with
  | |- ?l = Some _ =>
      first [ match goal with H : l = Some _ |- _ => exact H end
            | lazymatch l with Some _ => reflexivity end ]
  | |- _ = _ => solve [assumption | reflexivity]
  end.
(** Run a program as far as the context determines it. *)
Ltac wp_run :=
  let facts := try lazymatch goal with |- wp _ _ _ => idtac | |- _ => fact_ end in
  repeat (wp_step; cbn; facts; use_state; cbn; facts).

(** ** Equality of states, field by field *)

Lemma ext_eq (r1 r2 : wz_xdma_engine_ext) :
  buf_dma_t r1 = buf_dma_t r2 ->
  buf_page r1 = buf_page r2 ->
  ext_transfer r1 = ext_transfer r2 ->
  desc_copy r1 = desc_copy r2 ->
  desc r1 = desc r2 ->
  desc_dma r1 = desc_dma r2 ->
  buf_ready r1 = buf_ready r2 ->
  block_first_desc r1 = block_first_desc r2 ->
  block_scanned_desc r1 = block_scanned_desc r2 ->
  kfifo r1 = kfifo r2 ->
  kfifo_size r1 = kfifo_size r2 ->
  r1 = r2.
Proof. destruct r1, r2; simpl; intros; subst; reflexivity. Qed.

Lemma engine_eq (r1 r2 : xdma_engine) :
  magic r1 = magic r2 ->
  regs r1 = regs r2 ->
  sgdma_regs r1 = sgdma_regs r2 ->
  bypass_offset r1 = bypass_offset r2 ->
  shutdown r1 = shutdown r2 ->
  running r1 = running r2 ->
  streaming r1 = streaming r2 ->
  non_incr_addr r1 = non_incr_addr r2 ->
  dir_to_dev r1 = dir_to_dev r2 ->
  addr_align r1 = addr_align r2 ->
  len_granularity r1 = len_granularity r2 ->
  addr_bits r1 = addr_bits r2 ->
  channel r1 = channel r2 ->
  number_in_channel r1 = number_in_channel r2 ->
  desc_dequeued r1 = desc_dequeued r2 ->
  status r1 = status r2 ->
  interrupt_enable_mask_value r1 = interrupt_enable_mask_value r2 ->
  transfer_list r1 = transfer_list r2 ->
  rx_tail r1 = rx_tail r2 ->
  rx_head r1 = rx_head r2 ->
  rx_overrun r1 = rx_overrun r2 ->
  rx_buffer r1 = rx_buffer r2 ->
  rx_transfer_cyclic r1 = rx_transfer_cyclic r2 ->
  rx_result_buffer_virt r1 = rx_result_buffer_virt r2 ->
  rx_result_buffer_bus r1 = rx_result_buffer_bus r2 ->
  poll_mode_addr_virt r1 = poll_mode_addr_virt r2 ->
  poll_mode_bus r1 = poll_mode_bus r2 ->
  lock r1 = lock r2 ->
  prev_cpu r1 = prev_cpu r2 ->
  msix_irq_line r1 = msix_irq_line r2 ->
  irq_bitmask r1 = irq_bitmask r2 ->
  xdma_perf r1 = xdma_perf r2 ->
  eop_found r1 = eop_found r2 ->
  user_buffer_index r1 = user_buffer_index r2 ->
  wz_ext r1 = wz_ext r2 ->
  r1 = r2.
Proof. destruct r1, r2; simpl; intros; subst; reflexivity. Qed.

Lemma world_eq (r1 r2 : world) :
  trace r1 = trace r2 ->
  fresh r1 = fresh r2 ->
  eng r1 = eng r2 ->
  lro r1 = lro r2 ->
  transfers r1 = transfers r2 ->
  coherent r1 = coherent r2 ->
  sgms r1 = sgms r2 ->
  rx_result r1 = rx_result r2 ->
  engines r1 = engines r2 ->
  chars r1 = chars r2 ->
  dev_present r1 = dev_present r2 ->
  drv_major r1 = drv_major r2 ->
  g_xdma_class r1 = g_xdma_class r2 ->
  r1 = r2.
Proof. destruct r1, r2; simpl; intros; subst; reflexivity. Qed.

Ltac same_term := match goal with |- ?x = ?y => constr_eq x y; reflexivity end.
Ltac state_eq :=
  simpl;
  first
  [ same_term
  | lazymatch goal with
    | |- @eq world _ _ => apply world_eq; state_eq
    | |- @eq xdma_engine _ _ => apply engine_eq; state_eq
    | |- @eq wz_xdma_engine_ext _ _ => apply ext_eq; state_eq
    | |- _ => try reflexivity
    end ].

(** ** Frames: parts of the state a program does not change *)

Definition same {A} (f : world -> A) (w w' : world) : Prop := f w' = f w.

#[global] Instance same_preorder {A} (f : world -> A) : PreOrder (same f).
Proof. split; [intros w; reflexivity|intros w1 w2 w3 H1 H2; unfold same in *; congruence]. Qed.

Definition implies (I : world -> Prop) (w w' : world) : Prop := I w -> I w'.

#[global] Instance implies_preorder I : PreOrder (implies I).
Proof. split; [intros w; exact id|intros w1 w2 w3 H1 H2 H; apply H2, H1, H]. Qed.

(** an invariant on a part of the state survives what does not change it *)
Lemma keeps_same_implies {A B} (f : world -> A) (I : A -> Prop) (m : prog world B) :
  keeps (same f) m -> keeps (implies (fun w => I (f w))) m.
Proof. intros H s a s' E Hs. rewrite (H _ _ _ E). exact Hs. Qed.

(** One step of a frame proof; the calls with no hint are left. *)
Ltac frame_step :=
  lazymatch goal with
  | |- keeps _ (getE _) => apply keeps_gets; typeclasses eauto
  | |- keeps _ (getL _) => apply keeps_gets; typeclasses eauto
  | |- keeps _ (getX _) => apply keeps_gets; typeclasses eauto
  | |- keeps _ (getD _) => apply keeps_deref; typeclasses eauto
  | |- keeps _ (index _ _) => apply keeps_deref; typeclasses eauto
  | |- keeps _ (getT _ _) => unfold getT
  | |- keeps _ (setT _ _) => unfold setT
  | |- keeps _ (setD _ _) => unfold setD
  | |- keeps _ config_bar => unfold config_bar
  | |- keeps _ spin_lock => unfold spin_lock
  | |- keeps _ (ext_all _ _) => apply keeps_ext_all; intros; reflexivity
  | |- keeps _ (ext _ _) => apply keeps_ext; intros; reflexivity
  | |- keeps _ (ext_ _ _) => apply keeps_ext_; intros; reflexivity
  | |- keeps _ (write_register _ _) => apply keeps_ext_; intros; reflexivity
  | |- keeps _ (read_register _) => unfold read_register
  | |- keeps _ (setE _) => apply keeps_modify; intros; reflexivity
  | |- keeps _ (setL _) => apply keeps_modify; intros; reflexivity
  | |- keeps _ (setX _) => apply keeps_modify; intros; reflexivity
  | |- keeps _ spin_unlock => apply keeps_modify; intros; reflexivity
  | |- keeps _ (modify _) => apply keeps_modify; intros; reflexivity
  | |- keeps _ _ => keeps_step
  end.
Ltac frame := repeat frame_step.

(** The steps of a proof of partial correctness. *)
Ltac wlp_world :=
  lazymatch goal with
  | |- wlp (getE _) _ _ => apply wlp_gets
  | |- wlp (setE _) _ _ => apply wlp_modify
  | |- wlp (getL _) _ _ => apply wlp_gets
  | |- wlp (setL _) _ _ => apply wlp_modify
  | |- wlp (getX _) _ _ => apply wlp_gets
  | |- wlp (setX _) _ _ => apply wlp_modify
  | |- wlp (getD _) _ _ => apply wlp_deref; intros ? ?
  | |- wlp (index _ _) _ _ => apply wlp_deref; intros ? ?
  | |- wlp (getT _ _) _ _ => unfold getT; apply wlp_bind
  | |- wlp (setT _ _) _ _ => unfold setT; apply wlp_bind
  | |- wlp (setD _ _) _ _ => unfold setD; apply wlp_bind
  | |- wlp spin_lock _ _ => unfold spin_lock; apply wlp_bind
  | |- wlp spin_unlock _ _ => apply wlp_modify
  | |- wlp (ext_all _ _) _ _ => apply wp_wlp, wp_ext_all
  | |- wlp (ext _ _) _ _ => apply wp_wlp, wp_ext
  | |- wlp (ext_ _ _) _ _ => apply wp_wlp, wp_ext_
  | |- wlp (write_register _ _) _ _ => apply wp_wlp, wp_write_register
  | |- wlp (read_register _) _ _ => apply wp_wlp, wp_read_register
  end.
Ltac wlp_hook ::= wlp_world.
Ltac wlp_run := repeat (wlp_step; cbn).

(** ** The accesses end *)
Section HaltsWorld.
Context {env : Env}.

Lemma halts_ext_all f args : halts (S := world) (ext_all f args).
Proof. intros s H; discriminate H. Qed.
Lemma halts_ext f args : halts (S := world) (ext f args).
Proof. intros s H; discriminate H. Qed.
Lemma halts_ext_ f args : halts (S := world) (ext_ f args).
Proof. intros s H; discriminate H. Qed.
Lemma halts_write_register v a : halts (S := world) (write_register v a).
Proof. intros s H; discriminate H. Qed.
Lemma halts_read_register a : halts (S := world) (read_register a).
Proof. intros s H; discriminate H. Qed.
Lemma halts_getE {A} (f : xdma_engine -> A) : halts (getE f).
Proof. intros s H; discriminate H. Qed.
Lemma halts_setE f : halts (setE f).
Proof. intros s H; discriminate H. Qed.
Lemma halts_getL {A} (f : xdma_dev -> A) : halts (getL f).
Proof. intros s H; discriminate H. Qed.
Lemma halts_setL f : halts (setL f).
Proof. intros s H; discriminate H. Qed.
Lemma halts_getX {A} (f : wz_xdma_engine_ext -> A) : halts (getX f).
Proof. intros s H; discriminate H. Qed.
Lemma halts_setX f : halts (setX f).
Proof. intros s H; discriminate H. Qed.
Lemma halts_spin_unlock : halts spin_unlock.
Proof. intros s H; discriminate H. Qed.
#[local] Hint Resolve halts_ext_all halts_ext halts_ext_ halts_getE halts_setE halts_getL : halts.

Lemma halts_getT {A} (f : xdma_transfer -> A) t : halts (getT f t).
Proof. unfold getT. halts_tac. Qed.
Lemma halts_setT f t : halts (setT f t).
Proof. unfold setT. halts_tac. Qed.
Lemma halts_getD p : halts (getD p).
Proof. apply halts_deref. Qed.
Lemma halts_setD f p : halts (setD f p).
Proof. unfold setD, getD. halts_tac. Qed.
Lemma halts_index {A} (l : list A) i : halts (index l i).
Proof. apply halts_deref. Qed.
#[local] Hint Resolve halts_index : halts.
Lemma halts_spin_lock : halts spin_lock.
Proof. unfold spin_lock. halts_tac. Qed.
Lemma halts_kzalloc_transfer : halts kzalloc_transfer.
Proof. unfold kzalloc_transfer. halts_tac. Qed.
Lemma halts_kfree_transfer t : halts (kfree_transfer t).
Proof. unfold kfree_transfer. halts_tac. Qed.
Lemma halts_config_bar : halts config_bar.
Proof. unfold config_bar. halts_tac. Qed.
Lemma halts_wait_event_interruptible_ `{!Sched} c : halts (wait_event_interruptible_ c).
Proof. unfold wait_event_interruptible_. halts_tac. Qed.
Lemma halts_wait_event_ `{!Sched} c : halts (wait_event_ c).
Proof. unfold wait_event_. halts_tac. Qed.
End HaltsWorld.
#[export] Hint Resolve halts_ext_all halts_ext halts_ext_ halts_write_register
  halts_read_register halts_getE halts_setE halts_getL halts_setL halts_getX halts_setX
  halts_spin_unlock halts_getT halts_setT halts_getD halts_setD halts_index halts_spin_lock
  halts_kzalloc_transfer halts_kfree_transfer halts_config_bar
  halts_wait_event_interruptible_ halts_wait_event_ : halts.
