(* ===== verification/Ledger.v ===== *)
(** * Accounting for the resources of the kernel

    What the driver holds is a function of the history of its calls: for each
    kind of resource, the calls that take one and the calls that give one
    back, and the balance of the two for each key. *)
From S2P Require Import Prelude Layout Kernel World.

(** the key a call takes or gives back *)
Record resource : Type := mk_resource {
  taken_by : ev -> option (list Z);
  given_by : ev -> option (list Z)
}.

Definition is_key (o : option (list Z)) (k : list Z) : Z := b2z (bool_decide (o = Some k)).

(** how often [k] is held *)
Fixpoint held (r : resource) (h : history) (k : list Z) : Z :=
  match h with
  | [] => 0
  | e :: h' => is_key (taken_by r e) k - is_key (given_by r e) k + held r h' k
  end.

(** ** The resources *)

(** interrupts: the line and the [dev_id] *)
Definition irqs : resource := mk_resource
  (fun e => match e with
   | Call request_irq (irq :: flags :: id) r => if nth 0 r 0 =? 0 then Some (irq :: id) else None
   | _ => None end)
  (fun e => match e with Call free_irq args _ => Some args | _ => None end).

(** mappings of BARs: the device and the address *)
Definition maps : resource := mk_resource
  (fun e => match e with
   | Call pci_iomap (dev :: _) r =>
       if nth 0 r 0 =? 0 then None else Some [dev; nth 0 r 0]
   | _ => None end)
  (fun e => match e with Call pci_iounmap args _ => Some args | _ => None end).

(** the regions of a device *)
Definition regions : resource := mk_resource
  (fun e => match e with
   | Call pci_request_regions args r => if nth 0 r 0 =? 0 then Some args else None
   | _ => None end)
  (fun e => match e with Call pci_release_regions args _ => Some args | _ => None end).

(** live character devices *)
Definition cdevs : resource := mk_resource
  (fun e => match e with
   | Call cdev_add (c :: _) r => if nth 0 r 0 <? 0 then None else Some [c]
   | _ => None end)
  (fun e => match e with Call cdev_del args _ => Some args | _ => None end).

(** ranges of device numbers: major, first minor and count *)
Definition numbers : resource := mk_resource
  (fun e => match e with
   | Call register_chrdev_region args r => if nth 0 r 0 <? 0 then None else Some args
   | _ => None end)
  (fun e => match e with Call unregister_chrdev_region args _ => Some args | _ => None end).

(** buffers for the write-back of a descriptor count: size, address, bus *)
Definition buffers : resource := mk_resource
  (fun e => match e with
   | Call pci_alloc_consistent args r =>
       if nth 0 r 0 =? 0 then None else Some (args ++ [nth 0 r 0; nth 1 r 0])
   | _ => None end)
  (fun e => match e with Call pci_free_consistent args _ => Some args | _ => None end).

(** ** Facts *)

Lemma held_cons r e h k :
  held r (e :: h) k = is_key (taken_by r e) k - is_key (given_by r e) k + held r h k.
Proof. reflexivity. Qed.

Lemma is_key_none k : is_key None k = 0.
Proof. reflexivity. Qed.

Lemma held_log r e w k :
  held r (trace (log e w)) k
  = is_key (taken_by r e) k - is_key (given_by r e) k + held r (trace w) k.
Proof. reflexivity. Qed.

(** the balance of [r] is the same *)
Definition same_held (r : resource) (w w' : world) : Prop :=
  forall k, held r (trace w') k = held r (trace w) k.

#[global] Instance same_held_preorder r : PreOrder (same_held r).
Proof. split; [intros w k; reflexivity|intros w1 w2 w3 H1 H2 k; rewrite H2; apply H1]. Qed.

(** a call that is neither taken nor given *)
Definition neutral (r : resource) (f : extern) : Prop :=
  forall args ret, taken_by r (Call f args ret) = None /\ given_by r (Call f args ret) = None.

Lemma same_held_log r f args ret w :
  neutral r f -> same_held r w (log (Call f args ret) w).
Proof.
  intros H k. destruct (H args ret) as [E1 E2]. rewrite held_log, E1, E2, is_key_none. lia.
Qed.

(** two relations at once *)
Definition both (R1 R2 : world -> world -> Prop) (w w' : world) : Prop := R1 w w' /\ R2 w w'.

#[global] Instance both_preorder R1 R2 `{!PreOrder R1, !PreOrder R2} : PreOrder (both R1 R2).
Proof.
  split; [intros w; split; reflexivity|].
  intros w1 w2 w3 [H1 H2] [H3 H4]. split; etransitivity; eassumption.
Qed.

(** the heaps only name new objects *)
Definition grows (w w' : world) : Prop := fresh w <= fresh w'.

#[global] Instance grows_preorder : PreOrder grows.
Proof. split; [intros w; apply Z.le_refl|intros w1 w2 w3; apply Z.le_trans]. Qed.

Lemma keeps_first {A} R1 R2 (m : prog world A) : keeps (both R1 R2) m -> keeps R1 m.
Proof. intros H s a s' E. apply (H s a s' E). Qed.

Lemma keeps_second {A} R1 R2 (m : prog world A) : keeps (both R1 R2) m -> keeps R2 m.
Proof. intros H s a s' E. apply (H s a s' E). Qed.

(** ** Frames where the calls are looked at *)
Section Frames.
Context {env : Env} (R : world -> world -> Prop) `{!PreOrder R}.

Lemma keeps_call_all f args :
  (forall r w, R w (log (Call f args r) w)) -> keeps R (ext_all f args).
Proof. intros HR s a s' H. inversion H; subst. apply HR. Qed.

Lemma keeps_call f args :
  (forall r w, R w (log (Call f args r) w)) -> keeps R (ext f args).
Proof. intros HR s a s' H. inversion H; subst. apply HR. Qed.

Lemma keeps_call_ f args :
  (forall w, R w (log (Call f args []) w)) -> keeps R (ext_ f args).
Proof. intros HR s a s' H. inversion H; subst. apply HR. Qed.
End Frames.

(** Settle [R w w'] for a call or an update the relation does not look at. *)
Ltac same_world :=
  lazymatch goal with
  | |- both _ _ _ _ => split; same_world
  | |- same_held _ _ _ => solve [intros ?; reflexivity]
  | |- grows _ _ => first [exact (Z.le_refl _) | exact (Z.le_succ_diag_r _)]
  | |- same _ _ _ => reflexivity
  end.
(** One step of such a frame proof. *)
Ltac ledger_step :=
  lazymatch goal with
  | |- keeps _ (ext_all _ _) => apply keeps_call_all; intros; same_world
  | |- keeps _ (ext _ _) => apply keeps_call; intros; same_world
  | |- keeps _ (ext_ _ _) => apply keeps_call_; intros; same_world
  | |- keeps _ (write_register _ _) => apply keeps_call_; intros; same_world
  | |- keeps _ (setE _) => apply keeps_modify; intros; same_world
  | |- keeps _ (setL _) => apply keeps_modify; intros; same_world
  | |- keeps _ (setX _) => apply keeps_modify; intros; same_world
  | |- keeps _ (modify _) => apply keeps_modify; intros; same_world
  | |- keeps _ spin_unlock => apply keeps_modify; intros; same_world
  | |- _ => frame_step
  end.
Ltac ledger := repeat ledger_step.
