(* ===== verification/Desc.v ===== *)
(** * Descriptors (xdma-core.c, "xdma_desc_*" and "transfer_set_*")

    The operations on one descriptor are functions of the descriptor, lifted
    to pointers by [setD]; [xdma_desc_alloc] allocates a block of coherent
    memory and chains its descriptors. *)
From S2P Require Import Prelude Layout Kernel World.

(** Byte order of the host, as far as the driver relies on it. *)
Class ByteOrder : Type := {
  cpu_to_le32 : Z -> Z;
  le32_to_cpu : Z -> Z;
  le32_cpu_le32 : forall v, le32_to_cpu (cpu_to_le32 v) = v;
  cpu_to_le32_0 : cpu_to_le32 0 = 0
}.

(** the hosts the driver is built for *)
Definition little_endian : ByteOrder :=
  {| cpu_to_le32 v := v; le32_to_cpu v := v;
     le32_cpu_le32 v := eq_refl; cpu_to_le32_0 := eq_refl |}.

Create Rewrite HintDb desc.
#[export] Hint Rewrite @le32_cpu_le32 : desc.

Section Ops.
Context {bo : ByteOrder}.

(** The words of one descriptor. *)

Definition desc_link (second : bool) (second_bus : Z) (first : xdma_desc) : xdma_desc :=
  let ctl := Z.land (le32_to_cpu (control first)) 0x0000f0ff in
  let first :=
    if second then
      first <| next_lo := cpu_to_le32 (PCI_DMA_L second_bus) |>
            <| next_hi := cpu_to_le32 (PCI_DMA_H second_bus) |>
    else first <| next_lo := 0 |> <| next_hi := 0 |> in
  first <| control := cpu_to_le32 (Z.lor ctl DESC_MAGIC) |>.

(** the number of extra adjacent descriptors [xdma_desc_adjacent] stores *)
Definition extra_adjacent (next_adjacent next_lo : Z) : Z :=
  if 0 <? next_adjacent then
    let extra_adj := next_adjacent - 1 in
    let extra_adj := if MAX_EXTRA_ADJ <? extra_adj then MAX_EXTRA_ADJ else extra_adj in
    let max_adj_4k := u32 ((0x1000 - Z.land next_lo 0xFFF) / 32 - 1) in
    let extra_adj := if max_adj_4k <? u32 extra_adj then s32 max_adj_4k else extra_adj in
    if extra_adj <? 0 then 0 else extra_adj
  else 0.

Definition desc_adjacent_set (next_adjacent : Z) (d : xdma_desc) : xdma_desc :=
  let ctl := Z.land (le32_to_cpu (control d)) 0x0000f0ff in
  let extra_adj := extra_adjacent next_adjacent (le32_to_cpu (next_lo d)) in
  d <| control := cpu_to_le32 (Z.lor ctl (Z.lor 0xAD4B0000 (Z.shiftl extra_adj 8))) |>.

Definition desc_control_write (control_field : Z) (d : xdma_desc) : xdma_desc :=
  d <| control := cpu_to_le32
    (Z.lor (Z.land (le32_to_cpu (control d)) (not32 LS_BYTE_MASK)) control_field) |>.

Definition desc_control_clear (clear_mask : Z) (d : xdma_desc) : xdma_desc :=
  d <| control := cpu_to_le32 (Z.land (le32_to_cpu (control d)) (not32 clear_mask)) |>.

Definition desc_control_set (set_mask : Z) (d : xdma_desc) : xdma_desc :=
  d <| control := cpu_to_le32 (Z.lor (le32_to_cpu (control d)) set_mask) |>.

Definition desc_set (rc_bus_addr ep_addr len dir_to_dev : Z) (d : xdma_desc) : xdma_desc :=
  let d := d <| bytes := cpu_to_le32 (u32 len) |> in
  if nz dir_to_dev then
    d <| src_addr_lo := cpu_to_le32 (PCI_DMA_L rc_bus_addr) |>
      <| src_addr_hi := cpu_to_le32 (PCI_DMA_H rc_bus_addr) |>
      <| dst_addr_lo := cpu_to_le32 (PCI_DMA_L ep_addr) |>
      <| dst_addr_hi := cpu_to_le32 (PCI_DMA_H ep_addr) |>
  else
    d <| src_addr_lo := cpu_to_le32 (PCI_DMA_L ep_addr) |>
      <| src_addr_hi := cpu_to_le32 (PCI_DMA_H ep_addr) |>
      <| dst_addr_lo := cpu_to_le32 (PCI_DMA_L rc_bus_addr) |>
      <| dst_addr_hi := cpu_to_le32 (PCI_DMA_H rc_bus_addr) |>.

Definition desc_set_source (source : Z) (d : xdma_desc) : xdma_desc :=
  d <| src_addr_lo := cpu_to_le32 (PCI_DMA_L source) |>
    <| src_addr_hi := cpu_to_le32 (PCI_DMA_H source) |>.

(** The same on pointers. *)

Definition xdma_desc_link (first second : dptr) (second_bus : Z) : prog world unit :=
  setD (desc_link (negb (dptr_is_null second)) second_bus) first.

Definition xdma_desc_adjacent (p : dptr) (next_adjacent : Z) : prog world unit :=
  setD (desc_adjacent_set next_adjacent) p.

Definition xdma_desc_control (first : dptr) (control_field : Z) : prog world unit :=
  _ <- getD first ;;
  BUG_ON (nz (Z.land control_field (Z.lnot LS_BYTE_MASK))) ;;
  setD (desc_control_write control_field) first.

Definition xdma_desc_control_clear (first : dptr) (clear_mask : Z) : prog world unit :=
  _ <- getD first ;;
  BUG_ON (nz (Z.land clear_mask (Z.lnot LS_BYTE_MASK))) ;;
  setD (desc_control_clear clear_mask) first.

Definition xdma_desc_control_set (first : dptr) (set_mask : Z) : prog world unit :=
  _ <- getD first ;;
  BUG_ON (nz (Z.land set_mask (Z.lnot LS_BYTE_MASK))) ;;
  setD (desc_control_set set_mask) first.

Definition xdma_desc_set (p : dptr) (rc_bus_addr ep_addr len dir_to_dev : Z)
  : prog world unit := setD (desc_set rc_bus_addr ep_addr len dir_to_dev) p.

Definition xdma_desc_set_source (p : dptr) (source : Z) : prog world unit :=
  setD (desc_set_source source) p.

(** [FORCE_IR_DESC_COMPLETED] is 0 *)
Definition xdma_desc_force_complete (p : dptr) : prog world unit := ret tt.

Definition xdma_transfer_cyclic (t : Z) : prog world unit :=
  v <- getT desc_virt t ;; n <- getT desc_num t ;; b <- getT desc_bus t ;;
  xdma_desc_link (dptr_add v (n - 1)) v b ;;
  setT (fun x => x <| cyclic := 1 |>) t.

Definition transfer_set_result_addresses (t result_bus : Z) : prog world unit :=
  v <- getT desc_virt t ;; n <- getT desc_num t ;;
  for_ 0 n (fun i =>
    xdma_desc_set_source (dptr_add v i) (u64 (result_bus + i * sizeof_xdma_result))).

Definition transfer_set_all_control (t ctl : Z) : prog world unit :=
  v <- getT desc_virt t ;; n <- getT desc_num t ;;
  for_ 0 n (fun i =>
    xdma_desc_control_clear (dptr_add v i) LS_BYTE_MASK ;;
    xdma_desc_control_set (dptr_add v i) ctl).

(** ** Allocation *)

Section Alloc.
Context {env : Env}.

(** the descriptor slots of the whole pages that hold [number] of them *)
Definition coherent_slots (number : Z) : Z :=
  (number * sizeof_xdma_desc + (PAGE_SIZE - 1)) / PAGE_SIZE
    * (PAGE_SIZE / sizeof_xdma_desc).

(** what fresh memory holds: the words the environment left in it *)
Definition junk_desc (words : list Z) (i : Z) : xdma_desc :=
  let word k := nth (Z.to_nat (8 * i + k)) words 0 in
  mk_desc (word 0) (word 1) (word 2) (word 3) (word 4) (word 5) (word 6) (word 7).

Definition new_block (bus number : Z) (words : list Z) : dblock :=
  mk_dblock bus
    (map (fun i => junk_desc words (Z.of_nat i)) (seq 0 (Z.to_nat (coherent_slots number)))).

(** [dma_alloc_coherent(number * sizeof(struct xdma_desc), &bus)]: the
    virtual address (null on failure) and the bus address *)
Definition alloc_descs (number : Z) : prog world (dptr * Z) :=
  r <- ext_all dma_alloc_coherent [number * sizeof_xdma_desc] ;;
  if nth 0 r 0 =? 0 then ret (dnull, nth 1 r 0) else
    b <- gets fresh ;;
    modify (fun w => w <| fresh := b + 1 |>
      <| coherent ::= <[b := new_block (nth 1 r 0) number (drop 2 r)]> |>) ;;
    ret ((b, 0), nth 1 r 0).

(** the loop that chains the descriptors *)
Fixpoint desc_chain (n : nat) (desc_virt : dptr) (i adj desc_bus : Z) : prog world unit :=
  match n with
  | O => ret tt
  | S n' =>
      let desc_bus := u64 (desc_bus + sizeof_xdma_desc) in
      let '(extra_adj, adj) :=
        if 0 <? adj then
          (if MAX_EXTRA_ADJ <? adj - 1 then MAX_EXTRA_ADJ else adj - 1, adj - 1)
        else (0, adj) in
      let temp_control :=
        Z.lor (Z.lor DESC_MAGIC (Z.shiftl extra_adj 8)) (INSERT_DESC_COUNT i) in
      setD (fun d =>
        d <| next_lo := cpu_to_le32 (PCI_DMA_L desc_bus) |>
          <| next_hi := cpu_to_le32 (PCI_DMA_H desc_bus) |>
          <| bytes := cpu_to_le32 0 |>
          <| control := cpu_to_le32 temp_control |>) (dptr_add desc_virt i) ;;
      desc_chain n' desc_virt (i + 1) adj desc_bus
  end.

(** the first descriptor, its bus address ([*desc_bus_p]) and the last
    descriptor ([*desc_last_p]) *)
Definition xdma_desc_alloc (number : Z) : prog world (dptr * Z * dptr) :=
  BUG_ON (number <? 1) ;;
  r <- alloc_descs number ;;
  let '(desc_virt, desc_bus) := r in
  if dptr_is_null desc_virt then ret (dnull, desc_bus, dnull) else
    desc_chain (Z.to_nat (number - 1)) desc_virt 0 (number - 1) desc_bus ;;
    let i := number - 1 in
    let temp_control := Z.lor DESC_MAGIC (INSERT_DESC_COUNT i) in
    setD (fun d =>
      d <| next_lo := cpu_to_le32 0 |>
        <| next_hi := cpu_to_le32 0 |>
        <| bytes := cpu_to_le32 0 |>
        <| control := cpu_to_le32 temp_control |>) (dptr_add desc_virt i) ;;
    ret (desc_virt, desc_bus, dptr_add desc_virt i).

(** freeing a block that is not allocated is a [BadAccess] *)
Definition xdma_desc_free (number : Z) (desc_virt : dptr) (desc_bus : Z) : prog world unit :=
  BUG_ON (dptr_is_null desc_virt) ;;
  BUG_ON (number <? 0) ;;
  ext_ dma_free_coherent [number * sizeof_xdma_desc; fst desc_virt; desc_bus] ;;
  _ <- deref (fun w => coherent w !! fst desc_virt) ;;
  modify (fun w => w <| coherent ::= delete (fst desc_virt) |>).
End Alloc.
End Ops.

(** ** The addresses in a descriptor *)

Section Addresses.
Context {bo : ByteOrder}.

Definition addr_of (lo hi : Z) : Z := le32_to_cpu hi * 2 ^ 32 + le32_to_cpu lo.
Definition d_src (d : xdma_desc) : Z := addr_of (src_addr_lo d) (src_addr_hi d).
Definition d_dst (d : xdma_desc) : Z := addr_of (dst_addr_lo d) (dst_addr_hi d).
Definition d_next (d : xdma_desc) : Z := addr_of (next_lo d) (next_hi d).

Lemma addr_of_split a : addr_of (cpu_to_le32 (PCI_DMA_L a)) (cpu_to_le32 (PCI_DMA_H a)) = a.
Proof. unfold addr_of. rewrite !le32_cpu_le32. apply PCI_DMA_join. Qed.

Lemma d_next_link b d : d_next (desc_link true b d) = b.
Proof. apply addr_of_split. Qed.
Lemma d_next_set r e l dir d : d_next (desc_set r e l dir d) = d_next d.
Proof. unfold desc_set. destruct (nz dir); reflexivity. Qed.
Lemma d_src_set r e l dir d :
  d_src (desc_set r e l dir d) = if nz dir then r else e.
Proof. unfold desc_set. destruct (nz dir); apply addr_of_split. Qed.
Lemma d_dst_set r e l dir d :
  d_dst (desc_set r e l dir d) = if nz dir then e else r.
Proof. unfold desc_set. destruct (nz dir); apply addr_of_split. Qed.
Lemma bytes_set r e l dir d :
  le32_to_cpu (bytes (desc_set r e l dir d)) = u32 l.
Proof. unfold desc_set. destruct (nz dir); apply le32_cpu_le32. Qed.
Lemma control_set r e l dir d : control (desc_set r e l dir d) = control d.
Proof. unfold desc_set. destruct (nz dir); reflexivity. Qed.
Lemma control_write_word f d :
  le32_to_cpu (control (desc_control_write f d))
  = Z.lor (Z.land (le32_to_cpu (control d)) (not32 LS_BYTE_MASK)) f.
Proof. apply le32_cpu_le32. Qed.
(** [desc_control_write] changes the control word only *)
Lemma control_write_frame f d :
  let d' := desc_control_write f d in
  bytes d' = bytes d /\ d_src d' = d_src d /\ d_dst d' = d_dst d /\ d_next d' = d_next d.
Proof. repeat split. Qed.
End Addresses.

(** ** The fields of the control word *)

Definition ctl_magic (c : Z) : Z := Z.shiftr c 16.
Definition ctl_reserved (c : Z) : Z := Z.land (Z.shiftr c 12) 0xf.
Definition ctl_extra (c : Z) : Z := Z.land (Z.shiftr c 8) 0xf.
Definition ctl_flags (c : Z) : Z := Z.land c 0xff.

Section Facts.
Context {bo : ByteOrder}.

Lemma flags_guard f : 0 <= f < 256 -> nz (Z.land f (Z.lnot LS_BYTE_MASK)) = false.
Proof.
  intros Hf. apply nz_false. change LS_BYTE_MASK with (Z.ones 8).
  apply Z.bits_inj'. intros i Hi. rewrite Z.land_spec, Z.lnot_spec, Z.bits_0 by lia.
  destruct (Z.ltb_spec i 8).
  - rewrite Z.ones_spec_low by lia. apply andb_false_r.
  - assert (E : Z.testbit f i = false); [|rewrite E; reflexivity].
    destruct (decide (f = 0)) as [->|]; [apply Z.bits_0|].
    apply Z.bits_above_log2; [lia|]. apply Z.log2_lt_pow2; [lia|].
    eapply Z.lt_le_trans; [apply (proj2 Hf)|]. change 256 with (2 ^ 8).
    apply Z.pow_le_mono_r; lia.
Qed.

Lemma extra_adjacent_range n lo : 0 <= lo -> 0 <= extra_adjacent n lo <= MAX_EXTRA_ADJ.
Proof.
  intros Hlo. unfold extra_adjacent, MAX_EXTRA_ADJ. destruct (Z.ltb_spec 0 n); [|lia].
  set (e := if 15 <? n - 1 then 15 else n - 1).
  assert (0 <= e <= 15) by (subst e; destruct (Z.ltb_spec 15 (n - 1)); lia).
  set (m := u32 _).
  assert (0 <= m) by apply u32_range.
  rewrite (u32_id e) by (unfold is_u32; lia).
  destruct (Z.ltb_spec m e).
  - rewrite s32_id by lia. destruct (Z.ltb_spec m 0); lia.
  - destruct (Z.ltb_spec e 0); lia.
Qed.

(** For a next descriptor at a multiple of its size, the count is the least
    of what the caller has, the 15 of the field, and what is left of the
    page of the next descriptor. *)
Lemma extra_adjacent_min n lo :
  0 < n -> lo mod 32 = 0 -> 0 <= lo ->
  extra_adjacent n lo
  = Z.min (n - 1) (Z.min 15 ((4096 - lo mod 4096) / 32 - 1)).
Proof.
  intros Hn Ha Hlo. unfold extra_adjacent, MAX_EXTRA_ADJ.
  destruct (Z.ltb_spec 0 n); [|lia].
  change 0xFFF with (Z.ones 12). rewrite Z.land_ones by lia. change (2 ^ 12) with 4096.
  assert (Hm : (lo mod 4096) mod 32 = 0).
  { rewrite Z.mod_mod_divide; [exact Ha|exists 128; reflexivity]. }
  pose proof (Z.mod_pos_bound lo 4096 ltac:(lia)) as Hb.
  pose proof (Z.div_mod (lo mod 4096) 32 ltac:(lia)) as Hd.
  set (p := lo mod 4096) in *. set (q := p / 32) in *.
  assert (Hq : (4096 - p) / 32 = 128 - q).
  { replace (4096 - p) with ((128 - q) * 32) by lia. apply Z.div_mul. lia. }
  change 0x1000 with 4096. rewrite Hq.
  rewrite (u32_id (128 - q - 1)) by (unfold is_u32; lia).
  set (e := if 15 <? n - 1 then 15 else n - 1).
  assert (He : e = Z.min (n - 1) 15) by (subst e; destruct (Z.ltb_spec 15 (n - 1)); lia).
  rewrite (u32_id e) by (unfold is_u32; lia).
  destruct (Z.ltb_spec (128 - q - 1) e).
  - rewrite s32_id by lia. destruct (Z.ltb_spec (128 - q - 1) 0); lia.
  - destruct (Z.ltb_spec e 0); lia.
Qed.

(** Each operation on the control word writes its own fields: [link] keeps
    flags and reserved bits and clears the count, [adjacent] keeps flags and
    reserved bits, [control] keeps the rest of the word. *)
Lemma link_word s b d :
  let c := le32_to_cpu (control d) in
  let c' := le32_to_cpu (control (desc_link s b d)) in
  ctl_magic c' = 0xAD4B /\ ctl_reserved c' = ctl_reserved c /\
  ctl_extra c' = 0 /\ ctl_flags c' = ctl_flags c.
Proof.
  unfold desc_link. destruct s; simpl; rewrite le32_cpu_le32;
    unfold ctl_magic, ctl_reserved, ctl_extra, ctl_flags, DESC_MAGIC; bits;
    rewrite ?Z.shiftr_land; bits; repeat split; reflexivity.
Qed.

Lemma adjacent_word n d :
  0 <= le32_to_cpu (next_lo d) ->
  let c := le32_to_cpu (control d) in
  let c' := le32_to_cpu (control (desc_adjacent_set n d)) in
  ctl_magic c' = 0xAD4B /\ ctl_reserved c' = ctl_reserved c /\
  ctl_extra c' = extra_adjacent n (le32_to_cpu (next_lo d)) /\
  ctl_flags c' = ctl_flags c.
Proof.
  intros Hlo. unfold desc_adjacent_set. simpl. rewrite le32_cpu_le32.
  pose proof (extra_adjacent_range n _ Hlo) as Hr.
  set (e := extra_adjacent n (le32_to_cpu (next_lo d))) in *.
  unfold MAX_EXTRA_ADJ in Hr.
  unfold ctl_magic, ctl_reserved, ctl_extra, ctl_flags. bits.
  clearbody e.
  rewrite (shiftr_small e 8), (shiftr_small e 4) by lia.
  rewrite (land_shiftl_low e 8 8 : _ -> Z.land (Z.shiftl e 8) 255 = 0) by lia.
  rewrite (land_ones_small e 4 : _ -> _ -> Z.land e 15 = e) by lia.
  bits. repeat split; reflexivity.
Qed.

Lemma control_word f d :
  0 <= f < 256 -> is_u32 (le32_to_cpu (control d)) ->
  let c := le32_to_cpu (control d) in
  let c' := le32_to_cpu (control (desc_control_write f d)) in
  ctl_magic c' = ctl_magic c /\ ctl_reserved c' = ctl_reserved c /\
  ctl_extra c' = ctl_extra c /\ ctl_flags c' = f.
Proof.
  intros Hf Hc. unfold desc_control_write. simpl. rewrite le32_cpu_le32.
  change (not32 LS_BYTE_MASK) with 0xffffff00.
  unfold ctl_magic, ctl_reserved, ctl_extra, ctl_flags.
  assert (Hm : Z.land (Z.shiftr (le32_to_cpu (control d)) 16) 65535
    = Z.shiftr (le32_to_cpu (control d)) 16).
  { change 65535 with (Z.ones 16). apply land_ones_small; [lia|].
    rewrite Z.shiftr_div_pow2 by lia. unfold is_u32 in Hc.
    split; [apply Z.div_pos; lia|apply Z.div_lt_upper_bound; lia]. }
  bits. rewrite (shiftr_small f 16), (shiftr_small f 12), (shiftr_small f 8) by lia.
  rewrite (land_ones_small f 8 : _ -> _ -> Z.land f 255 = f) by lia.
  bits. rewrite ?Hm. repeat split; reflexivity.
Qed.
End Facts.

(** ** What [xdma_desc_alloc] builds *)

Section AllocFacts.
Context {bo : ByteOrder} {env : Env}.

(** the words of a chained descriptor *)
Definition chained (ctl next : Z) (d : xdma_desc) : xdma_desc :=
  d <| next_lo := cpu_to_le32 (PCI_DMA_L next) |>
    <| next_hi := cpu_to_le32 (PCI_DMA_H next) |>
    <| bytes := cpu_to_le32 0 |>
    <| control := cpu_to_le32 ctl |>.

(** the control word of a descriptor with [k] descriptors after the next *)
Definition chain_control (k : Z) : Z := Z.lor DESC_MAGIC (Z.shiftl (Z.min k MAX_EXTRA_ADJ) 8).

Lemma desc_chain_spec n : forall w b i bus,
  (forall k, i <= k < i + Z.of_nat n -> is_Some (lookup_mem (coherent w) (b, k))) ->
  wp (desc_chain n (b, 0) i (Z.of_nat n) bus) (fun _ w' =>
    desc_writes w w' /\
    (forall k, i <= k < i + Z.of_nat n ->
      exists d, lookup_mem (coherent w') (b, k)
        = Some (chained (chain_control (Z.of_nat n - 1 - (k - i)))
                  (u64 (bus + sizeof_xdma_desc * (k - i + 1))) d)) /\
    (forall p, fst p <> b \/ snd p < i \/ i + Z.of_nat n <= snd p ->
      lookup_mem (coherent w') p = lookup_mem (coherent w) p)) w.
Proof.
  induction n as [|n IH]; intros w b i bus Hs.
  - simpl. apply wp_ret. split; [reflexivity|].
    split; [intros k Hk; lia|reflexivity].
  - cbn [desc_chain].
    destruct (Z.ltb_spec 0 (Z.of_nat (S n))); [|lia].
    replace (Z.of_nat (S n) - 1) with (Z.of_nat n) in * by lia.
    destruct (Hs i ltac:(lia)) as [d0 Hd0].
    apply wp_bind. eapply wp_setD; [exact Hd0|].
    set (w1 := w <| coherent ::= _ |>).
    assert (Hstep : desc_writes w w1) by apply desc_writes_update.
    eapply wp_conseq; [apply IH|].
    + intros k Hk. eapply same_shape_lookup; [apply Hstep|]. apply Hs. lia.
    + intros [] w' (Hw & Hin & Hout). split; [transitivity w1; assumption|]. split.
      * intros k Hk. destruct (decide (k = i)) as [->|Hne].
        -- exists d0. rewrite Hout by (simpl; lia). subst w1. simpl.
           erewrite lookup_update_mem_eq by exact Hd0.
           unfold chained, chain_control, INSERT_DESC_COUNT.
           rewrite Z.lor_0_r.
           replace (Z.of_nat n - (i - i)) with (Z.of_nat n) by lia.
           replace (Z.min (Z.of_nat n) MAX_EXTRA_ADJ)
             with (if MAX_EXTRA_ADJ <? Z.of_nat n then MAX_EXTRA_ADJ else Z.of_nat n)
             by (unfold MAX_EXTRA_ADJ; destruct (Z.ltb_spec 15 (Z.of_nat n)); lia).
           replace (bus + sizeof_xdma_desc * (i - i + 1)) with (bus + sizeof_xdma_desc)
             by lia.
           reflexivity.
        -- destruct (Hin k ltac:(lia)) as [d Hd]. exists d. rewrite Hd.
           replace (Z.of_nat n - 1 - (k - (i + 1))) with (Z.of_nat n - (k - i)) by lia.
           do 2 f_equal. unfold u64. rewrite Zplus_mod_idemp_l. f_equal. lia.
      * intros p Hp. rewrite Hout by lia. subst w1. simpl.
        apply lookup_update_mem_ne. intros <-. simpl in Hp. lia.
Qed.

Lemma coherent_slots_enough n : 0 <= n -> n <= coherent_slots n.
Proof.
  intros. unfold coherent_slots, sizeof_xdma_desc, PAGE_SIZE.
  change (4096 / 32) with 128.
  pose proof (Z.div_mod (n * 32 + (4096 - 1)) 4096 ltac:(lia)).
  pose proof (Z.mod_pos_bound (n * 32 + (4096 - 1)) 4096 ltac:(lia)). lia.
Qed.

Lemma new_block_slots bus n words i :
  0 <= i < coherent_slots n -> zlookup (db_slots (new_block bus n words)) i
    = Some (junk_desc words i).
Proof.
  intros Hi. unfold zlookup, new_block. simpl.
  destruct (Z.ltb_spec i 0); [lia|].
  rewrite list_lookup_fmap, lookup_seq_lt by lia. simpl. do 2 f_equal. lia.
Qed.

(** what the environment answers to the allocation *)
Definition alloc_answer (number : Z) (w : world) : list Z :=
  answer (trace w) dma_alloc_coherent [number * sizeof_xdma_desc].
Definition alloc_ok (number : Z) (w : world) : Prop := nth 0 (alloc_answer number w) 0 <> 0.
Definition alloc_bus (number : Z) (w : world) : Z := nth 1 (alloc_answer number w) 0.
Definition alloc_ev (number : Z) (w : world) : ev :=
  Call dma_alloc_coherent [number * sizeof_xdma_desc] (alloc_answer number w).

(** descriptor [i] of a fresh chain of [number] at bus address [bus] *)
Definition in_chain (number bus i : Z) (d : xdma_desc) : Prop :=
  le32_to_cpu (bytes d) = 0 /\
  if i =? number - 1 then
    le32_to_cpu (control d) = DESC_MAGIC /\
    le32_to_cpu (next_lo d) = 0 /\ le32_to_cpu (next_hi d) = 0
  else
    let next := u64 (bus + sizeof_xdma_desc * (i + 1)) in
    le32_to_cpu (control d) = chain_control (number - 2 - i) /\
    le32_to_cpu (next_lo d) = PCI_DMA_L next /\ le32_to_cpu (next_hi d) = PCI_DMA_H next.

Lemma xdma_desc_alloc_fail number w :
  1 <= number -> nth 0 (alloc_answer number w) 0 = 0 ->
  wp (xdma_desc_alloc number) (fun r w' =>
    r = (dnull, alloc_bus number w, dnull) /\ w' = log (alloc_ev number w) w) w.
Proof.
  intros Hn H0. unfold xdma_desc_alloc, alloc_descs, wp, bind, ext_all.
  destruct (Z.ltb_spec number 1); [lia|]. simpl.
  change (answer (trace w) dma_alloc_coherent [number * sizeof_xdma_desc])
    with (alloc_answer number w).
  rewrite H0. simpl. split; reflexivity.
Qed.

Lemma alloc_descs_ok number w :
  alloc_ok number w ->
  wp (alloc_descs number) (fun r w1 =>
    r = ((fresh w, 0), alloc_bus number w) /\
    w1 = log (alloc_ev number w) w <| fresh := fresh w + 1 |>
      <| coherent := <[fresh w := new_block (alloc_bus number w) number
           (drop 2 (alloc_answer number w))]> (coherent w) |>) w.
Proof.
  intros Hok. unfold alloc_descs. wp_step. wp_step.
  change (answer (trace_of w) dma_alloc_coherent [number * sizeof_xdma_desc])
    with (alloc_answer number w).
  destruct (Z.eqb_spec (nth 0 (alloc_answer number w) 0) 0) as [E|_]; [elim (Hok E)|].
  do 5 wp_step. split; reflexivity.
Qed.

Lemma xdma_desc_alloc_ok number w :
  1 <= number -> alloc_ok number w -> 0 < fresh w ->
  wp (xdma_desc_alloc number) (fun r w' =>
    let b := fresh w in
    r = ((b, 0), alloc_bus number w, (b, number - 1)) /\
    exists mem, w' = log (alloc_ev number w) w <| fresh := b + 1 |> <| coherent := mem |> /\
    (forall i, 0 <= i < number ->
      exists d, lookup_mem mem (b, i) = Some d /\ in_chain number (alloc_bus number w) i d) /\
    (exists slots, mem !! b = Some (mk_dblock (alloc_bus number w) slots) /\
      Z.of_nat (length slots) = coherent_slots number) /\
    (forall b', b' <> b -> mem !! b' = coherent w !! b')) w.
Proof.
  intros Hn Hok Hf. unfold xdma_desc_alloc, alloc_descs.
  destruct (Z.ltb_spec number 1); [lia|].
  wp_step. wp_step. wp_step. eapply wp_conseq; [apply alloc_descs_ok, Hok|].
  intros r w1 [-> Ew1]. cbn beta iota. cbn [fst snd].
  set (bus := alloc_bus number w) in *.
  unfold dptr_is_null. cbn [fst]. destruct (Z.eqb_spec (fresh w) 0); [lia|].
  pose proof (coherent_slots_enough number ltac:(lia)) as Hslots.
  assert (Hin : forall k, 0 <= k < coherent_slots number ->
      lookup_mem (coherent w1) (fresh w, k) = Some (junk_desc (drop 2 (alloc_answer number w)) k)).
  { intros k Hk. unfold lookup_mem. rewrite Ew1. simpl. rewrite lookup_insert_eq.
    apply new_block_slots, Hk. }
  apply wp_bind. replace (number - 1) with (Z.of_nat (Z.to_nat (number - 1))) at 2 by lia.
  eapply wp_conseq; [apply desc_chain_spec; intros k Hk; rewrite Hin by lia; eauto|].
  intros [] w2 ((E2 & Hshape) & Hset & Hrest). cbn beta.
  assert (Hlast : is_Some (lookup_mem (coherent w2) (fresh w, number - 1))).
  { eapply same_shape_lookup; [exact Hshape|]. rewrite Hin by lia. eauto. }
  destruct Hlast as [dl Hdl].
  apply wp_bind. eapply wp_setD; [exact Hdl|]. apply wp_ret.
  set (w3 := w2 <| coherent ::= _ |>).
  assert (Hw3 : desc_writes w1 w3).
  { transitivity w2; [split; assumption|apply desc_writes_update]. }
  split; [reflexivity|]. exists (coherent w3).
  split; [destruct Hw3 as [E3 _]; rewrite E3, Ew1 at 1; reflexivity|]. split; [|split].
  - intros i Hi. destruct (decide (i = number - 1)) as [->|Hne].
    + eexists. split; [eapply lookup_update_mem_eq, Hdl|].
      unfold in_chain. simpl. rewrite Z.eqb_refl, !le32_cpu_le32. repeat split; reflexivity.
    + destruct (Hset i ltac:(lia)) as [d Hd]. eexists. split.
      * unfold w3. simpl. rewrite lookup_update_mem_ne by (intros [=]; lia). exact Hd.
      * unfold in_chain, chained. simpl. rewrite !le32_cpu_le32.
        destruct (Z.eqb_spec i (number - 1)); [lia|].
        replace (Z.of_nat (Z.to_nat (number - 1)) - 1 - (i - 0)) with (number - 2 - i) by lia.
        replace (i - 0 + 1) with (i + 1) by lia. repeat split; reflexivity.
  - destruct Hw3 as [_ Hs]. specialize (Hs (fresh w)).
    assert (Hc1 : coherent w1 !! fresh w = Some (new_block bus number (drop 2 (alloc_answer number w)))).
    { rewrite Ew1. apply lookup_insert_eq. }
    rewrite Hc1 in Hs. destruct (coherent w3 !! fresh w) as [[bus' slots]|]; [|discriminate].
    injection Hs as -> Hl. exists slots. split; [reflexivity|].
    rewrite length_map, length_seq in Hl. lia.
  - intros b' Hb'. rewrite (same_shape_block (coherent w1) (coherent w3) b' (proj2 Hw3)).
    + rewrite Ew1. simpl. apply lookup_insert_ne. congruence.
    + intros i. unfold w3. simpl. rewrite lookup_update_mem_ne by (intros [=]; lia).
      apply Hrest. simpl. lia.
Qed.
End AllocFacts.
