(* ===== verification/Engine.v ===== *)
(** * The SG DMA engine: registers, start, stop and the transfer queue
    (xdma-core.c) *)
From S2P Require Import Prelude Layout Kernel World Desc.
#[local] Open Scope string_scope.
#[local] Open Scope Z_scope.

Section Engine.
Context {bo : ByteOrder} {env : Env}.

(** [write_register(v, &engine->regs->m)] and its siblings *)
Definition write_er (m : string) (v : Z) : prog world unit :=
  r <- getE regs ;; write_register v (er_reg m r).
Definition read_er (m : string) : prog world Z :=
  r <- getE regs ;; read_register (er_reg m r).
Definition write_sg (m : string) (v : Z) : prog world unit :=
  r <- getE sgdma_regs ;; write_register v (sg_reg m r).
Definition write_ir (m : string) (v : Z) : prog world unit :=
  b <- config_bar ;; write_register v (ir_reg m b).
Definition read_ir (m : string) : prog world Z :=
  b <- config_bar ;; read_register (ir_reg m b).

(** ** Interrupt controller *)

Definition channel_interrupts_enable (mask : Z) : prog world unit :=
  write_ir "channel_int_enable_w1s" mask.
Definition channel_interrupts_disable (mask : Z) : prog world unit :=
  write_ir "channel_int_enable_w1c" mask.
Definition user_interrupts_enable (mask : Z) : prog world unit :=
  write_ir "user_int_enable_w1s" mask.
Definition user_interrupts_disable (mask : Z) : prog world unit :=
  write_ir "user_int_enable_w1c" mask.

Definition read_interrupts : prog world Z :=
  hi <- read_ir "user_int_request" ;;
  lo <- read_ir "channel_int_request" ;;
  ret (build_u32 hi lo).

(** ** Status, start and stop *)

(** the engine exists ([BUG_ON(!engine)]): it is [eng] of the world *)
Definition engine_status_read (clear : bool) : prog world Z :=
  value <- (if clear then read_er "status_rc" else read_er "status") ;;
  setE (fun e => e <| status := value |>) ;;
  ret value.

(** the value [xdma_engine_stop] writes to the control register *)
Definition stop_word (e : xdma_engine) : Z :=
  let w := 0 in
  let w := Z.lor w XDMA_CTRL_IE_DESC_ALIGN_MISMATCH in
  let w := Z.lor w XDMA_CTRL_IE_MAGIC_STOPPED in
  let w := Z.lor w XDMA_CTRL_IE_READ_ERROR in
  let w := Z.lor w XDMA_CTRL_IE_DESC_ERROR in
  if poll_mode then Z.lor w XDMA_CTRL_POLL_MODE_WB
  else
    let w := Z.lor w XDMA_CTRL_IE_DESC_STOPPED in
    let w := Z.lor w XDMA_CTRL_IE_DESC_COMPLETED in
    if (nz (streaming e) && (dir_to_dev e =? 0)) || bool_decide (is_Some (xdma_perf e))
    then Z.lor w XDMA_CTRL_IE_IDLE_STOPPED else w.

Definition xdma_engine_stop : prog world unit :=
  w <- getE stop_word ;; write_er "control" w.

(** the first transfer of the queue; null when the queue is empty *)
Definition first_transfer : prog world Z :=
  l <- getE transfer_list ;; ret (match l with t :: _ => t | [] => 0 end).
Definition list_empty_ (l : list Z) : bool := match l with [] => true | _ => false end.
(** [list_del(engine->transfer_list.next)] *)
Definition list_del_first : prog world unit :=
  l <- getE transfer_list ;;
  match l with
  | [] => abort_with BadAccess
  | _ :: l' => setE (fun e => e <| transfer_list := l' |>)
  end.

Definition engine_cyclic_stop : prog world Z :=
  l <- getE transfer_list ;;
  if list_empty_ l then ret 0 else
    transfer <- first_transfer ;;
    BUG_ON (transfer =? 0) ;;
    xdma_engine_stop ;;
    c <- getT cyclic transfer ;;
    when (nz c)
      (setT (fun t => t <| cyclic := 1 |>) transfer ;;
       v <- getT desc_virt transfer ;;
       n <- getT desc_num transfer ;;
       xdma_desc_control (dptr_add v (n - 1)) (Z.lor XDMA_DESC_COMPLETED XDMA_DESC_STOPPED)) ;;
    ret transfer.

(** the value [engine_start_mode_config] writes to the control register *)
Definition start_word (e : xdma_engine) : Z :=
  let w := XDMA_CTRL_RUN_STOP in
  let w := Z.lor w XDMA_CTRL_IE_READ_ERROR in
  let w := Z.lor w XDMA_CTRL_IE_DESC_ERROR in
  let w := Z.lor w XDMA_CTRL_IE_DESC_ALIGN_MISMATCH in
  let w := Z.lor w XDMA_CTRL_IE_MAGIC_STOPPED in
  if poll_mode then Z.lor w XDMA_CTRL_POLL_MODE_WB
  else
    let w := Z.lor w XDMA_CTRL_IE_DESC_STOPPED in
    let w := Z.lor w XDMA_CTRL_IE_DESC_COMPLETED in
    let w := if nz (streaming e) && negb (nz (dir_to_dev e))
             then Z.lor w XDMA_CTRL_IE_IDLE_STOPPED else w in
    let w := if bool_decide (is_Some (xdma_perf e))
             then Z.lor w XDMA_CTRL_IE_IDLE_STOPPED else w in
    if nz (non_incr_addr e) then Z.lor w XDMA_CTRL_NON_INCR_ADDR else w.

(** the interrupts a performance run enables *)
Definition perf_interrupts : Z :=
  let w := XDMA_CTRL_IE_DESC_STOPPED in
  let w := Z.lor w XDMA_CTRL_IE_DESC_COMPLETED in
  let w := Z.lor w XDMA_CTRL_IE_DESC_ALIGN_MISMATCH in
  let w := Z.lor w XDMA_CTRL_IE_MAGIC_STOPPED in
  let w := Z.lor w XDMA_CTRL_IE_IDLE_STOPPED in
  let w := Z.lor w XDMA_CTRL_IE_READ_ERROR in
  Z.lor w XDMA_CTRL_IE_DESC_ERROR.

Definition engine_start_mode_config : prog world unit :=
  perf <- getE xdma_perf ;;
  when (bool_decide (is_Some perf)) (write_er "interrupt_enable_mask" perf_interrupts) ;;
  w <- getE start_word ;;
  write_er "control" w ;;
  _ <- read_er "status" ;;
  ret tt.

(** the count of extra adjacent descriptors of the first fetch *)
Definition start_adjacent (desc_adjacent : Z) : Z :=
  if 0 <? desc_adjacent then
    if MAX_EXTRA_ADJ <? desc_adjacent - 1 then MAX_EXTRA_ADJ else desc_adjacent - 1
  else 0.

Definition engine_start : prog world Z :=
  r <- getE running ;;
  BUG_ON (nz r) ;;
  l <- getE transfer_list ;;
  BUG_ON (list_empty_ l) ;;
  transfer <- first_transfer ;;
  BUG_ON (transfer =? 0) ;;
  setE (fun e => e <| shutdown := ENGINE_SHUTDOWN_NONE |>) ;;
  setE (fun e => e <| desc_dequeued := 0 |>) ;;
  bus <- getT desc_bus transfer ;;
  write_sg "first_desc_lo" (cpu_to_le32 (PCI_DMA_L bus)) ;;
  write_sg "first_desc_hi" (cpu_to_le32 (PCI_DMA_H bus)) ;;
  adj <- getT desc_adjacent transfer ;;
  write_sg "first_desc_adjacent" (start_adjacent adj) ;;
  ext_ mmiowb [] ;;
  engine_start_mode_config ;;
  setE (fun e => e <| running := 1 |>) ;;
  ret transfer.

(** ** The queue *)

(** [chain_transfers()] is empty: [CHAIN_MULTIPLE_TRANSFERS] is 0 *)
Definition chain_transfers (transfer : Z) : prog world unit := ret tt.

Definition transfer_queue (transfer : Z) : prog world Z :=
  BUG_ON (transfer =? 0) ;;
  n <- getT desc_num transfer ;;
  BUG_ON (n =? 0) ;;
  spin_lock ;;
  cpu <- ext get_cpu [] ;;
  setE (fun e => e <| prev_cpu := cpu |>) ;;
  ext_ put_cpu [] ;;
  sh <- getE shutdown ;;
  rc <- (if nz (Z.land sh ENGINE_SHUTDOWN_REQUEST) then ret (-1) else
    chain_transfers transfer ;;
    setT (fun t => t <| state := TRANSFER_STATE_SUBMITTED |>) transfer ;;
    setE (fun e => e <| transfer_list ::= (fun l => l ++ [transfer])%list |>) ;;
    r <- getE running ;;
    (if nz r then ret 0 else
      _ <- engine_start ;; ret 0)) ;;
  spin_unlock ;;
  ret rc.

(** ** Shutdown of a run *)

Definition engine_service_shutdown : prog world unit :=
  xdma_engine_stop ;;
  setE (fun e => e <| running := 0 |>) ;;
  ext_ wake_up [].

(** ** Capabilities *)

Definition engine_alignments : prog world unit :=
  w <- read_er "alignments" ;;
  let align_bytes := Z.shiftr (Z.land w 0x00ff0000) 16 in
  let granularity_bytes := Z.shiftr (Z.land w 0x0000ff00) 8 in
  let address_bits := Z.land w 0x000000ff in
  if nz w then
    setE (fun e => e <| addr_align := align_bytes |>
      <| len_granularity := granularity_bytes |> <| addr_bits := address_bits |>)
  else
    setE (fun e => e <| addr_align := 1 |>
      <| len_granularity := 1 |> <| addr_bits := 64 |>).
End Engine.

(** ** Rules *)

Section Rules.
Context {bo : ByteOrder} {env : Env}.

Lemma wp_write_er m v (Q : unit -> world -> Prop) w :
  Q tt (log (Call iowrite32 [er_reg m (regs (eng w)); v] []) w) -> wp (write_er m v) Q w.
Proof. exact id. Qed.

Lemma wp_write_sg m v (Q : unit -> world -> Prop) w :
  Q tt (log (Call iowrite32 [sg_reg m (sgdma_regs (eng w)); v] []) w) -> wp (write_sg m v) Q w.
Proof. exact id. Qed.

Lemma wp_read_er m (Q : Z -> world -> Prop) w :
  (let r := answer (trace w) ioread32 [er_reg m (regs (eng w))] in
   Q (u32 (nth 0 r 0)) (log (Call ioread32 [er_reg m (regs (eng w))] r) w)) ->
  wp (read_er m) Q w.
Proof. exact id. Qed.

Lemma wp_write_ir m v b (Q : unit -> world -> Prop) w :
  zlookup (bar (lro w)) (config_bar_idx (lro w)) = Some b ->
  Q tt (log (Call iowrite32 [ir_reg m b; v] []) w) -> wp (write_ir m v) Q w.
Proof.
  intros Hb HQ. unfold write_ir, config_bar. do 5 wp_step. eapply wp_index; [exact Hb|exact HQ].
Qed.

Lemma wp_read_ir m b (Q : Z -> world -> Prop) w :
  zlookup (bar (lro w)) (config_bar_idx (lro w)) = Some b ->
  (let r := answer (trace w) ioread32 [ir_reg m b] in
   Q (u32 (nth 0 r 0)) (log (Call ioread32 [ir_reg m b] r) w)) ->
  wp (read_ir m) Q w.
Proof.
  intros Hb HQ. unfold read_ir, config_bar. do 5 wp_step. eapply wp_index; [exact Hb|exact HQ].
Qed.
End Rules.

Ltac wp_engine :=
  lazymatch goal with
  | |- wp (write_er _ _) _ _ => apply wp_write_er
  | |- wp (write_sg _ _) _ _ => apply wp_write_sg
  | |- wp (read_er _) _ _ => apply wp_read_er; cbv zeta
  | |- wp (write_ir _ _) _ _ => eapply wp_write_ir
  | |- wp (read_ir _) _ _ => eapply wp_read_ir
  | |- _ => wp_world
  end.
Ltac wp_hook ::= wp_engine.
