(* ===== verification/EngineFacts.v ===== *)
(** * What starting, stopping and queueing do to the engine *)
From S2P Require Import Prelude Layout Kernel World Desc Engine.
#[local] Open Scope string_scope.
#[local] Open Scope list_scope.
#[local] Open Scope Z_scope.

Section Facts.
Context {bo : ByteOrder} {env : Env}.

Lemma start_stop_words e :
  start_word e
  = Z.lor (Z.lor (stop_word e) XDMA_CTRL_RUN_STOP)
      (if negb poll_mode && nz (non_incr_addr e) then XDMA_CTRL_NON_INCR_ADDR else 0).
Proof.
  unfold start_word, stop_word, nz.
  destruct poll_mode, (streaming e =? 0), (dir_to_dev e =? 0),
    (bool_decide (is_Some (xdma_perf e))), (non_incr_addr e =? 0); reflexivity.
Qed.

(** the register writes of [engine_start], newest first *)
Definition start_writes (e : xdma_engine) (x : xdma_transfer) : list (Z * Z) :=
  (er_reg "control" (regs e), start_word e) ::
  (if bool_decide (is_Some (xdma_perf e))
   then [(er_reg "interrupt_enable_mask" (regs e), perf_interrupts)] else []) ++
  [(sg_reg "first_desc_adjacent" (sgdma_regs e), start_adjacent (desc_adjacent x));
   (sg_reg "first_desc_hi" (sgdma_regs e), cpu_to_le32 (PCI_DMA_H (desc_bus x)));
   (sg_reg "first_desc_lo" (sgdma_regs e), cpu_to_le32 (PCI_DMA_L (desc_bus x)))].

Definition started (e : xdma_engine) : xdma_engine :=
  e <| shutdown := ENGINE_SHUTDOWN_NONE |> <| desc_dequeued := 0 |> <| running := 1 |>.

Lemma engine_start_ok w t l x :
  running (eng w) = 0 -> transfer_list (eng w) = t :: l -> t <> 0 ->
  transfers w !! t = Some x ->
  wp engine_start (fun r w' => r = t /\ exists tr,
    w' = w <| trace := tr |> <| eng := started (eng w) |> /\
    writes tr = start_writes (eng w) x ++ writes (trace w)) w.
Proof.
  intros Hr Hl Ht Hx.
  assert (Ht' : (t =? 0) = false) by (apply Z.eqb_neq, Ht).
  unfold engine_start, first_transfer, engine_start_mode_config.
  wp_run.
  all: split; [reflexivity|eexists; split; [state_eq|]].
  all: unfold start_writes; use_state; reflexivity.
Qed.

(** the state of a transfer list with its transfers in the heap *)
Definition queue_ok (w : world) : Prop :=
  Forall (fun t => t <> 0 /\ is_Some (transfers w !! t)) (transfer_list (eng w)).

Definition submitted (x : xdma_transfer) : xdma_transfer :=
  x <| state := TRANSFER_STATE_SUBMITTED |>.
Definition queued (t : Z) (e : xdma_engine) : xdma_engine :=
  e <| transfer_list ::= (fun l => l ++ [t]) |>.

(** the engine after [transfer_queue] has taken and released the lock *)
Definition locked_once (cpu : Z) (e : xdma_engine) : xdma_engine :=
  e <| lock := true |> <| prev_cpu := cpu |>.
Definition unlocked (e : xdma_engine) : xdma_engine := e <| lock := false |>.

Definition cpu_answer (w : world) : Z := nth 0 (answer (trace w) get_cpu []) 0.

Lemma transfer_queue_shutdown w t x :
  t <> 0 -> transfers w !! t = Some x -> desc_num x <> 0 ->
  lock (eng w) = false -> Z.land (shutdown (eng w)) ENGINE_SHUTDOWN_REQUEST <> 0 ->
  wp (transfer_queue t) (fun rc w' => rc = -1 /\ exists tr,
    w' = w <| trace := tr |> <| eng := unlocked (locked_once (cpu_answer w) (eng w)) |> /\
    writes tr = writes (trace w)) w.
Proof.
  intros Ht Hx Hn Hl Hs. unfold transfer_queue.
  apply Z.eqb_neq in Ht, Hn. apply nz_true in Hs.
  wp_run. split; [reflexivity|]. eexists. split; [state_eq|reflexivity].
Qed.

Lemma transfer_queue_running w t x :
  t <> 0 -> transfers w !! t = Some x -> desc_num x <> 0 ->
  lock (eng w) = false -> Z.land (shutdown (eng w)) ENGINE_SHUTDOWN_REQUEST = 0 ->
  running (eng w) <> 0 ->
  wp (transfer_queue t) (fun rc w' => rc = 0 /\ exists tr,
    w' = w <| trace := tr |>
           <| transfers ::= <[t := submitted x]> |>
           <| eng := unlocked (queued t (locked_once (cpu_answer w) (eng w))) |> /\
    writes tr = writes (trace w)) w.
Proof.
  intros Ht Hx Hn Hl Hs Hr. unfold transfer_queue, chain_transfers.
  apply Z.eqb_neq in Ht, Hn. apply nz_false in Hs. apply nz_true in Hr.
  wp_run. split; [reflexivity|]. eexists. split; [state_eq|reflexivity].
Qed.

Lemma transfer_queue_idle w t x :
  t <> 0 -> transfers w !! t = Some x -> desc_num x <> 0 ->
  lock (eng w) = false -> Z.land (shutdown (eng w)) ENGINE_SHUTDOWN_REQUEST = 0 ->
  running (eng w) = 0 -> queue_ok w ->
  let head := hd t (transfer_list (eng w)) in
  wp (transfer_queue t) (fun rc w' => rc = 0 /\ exists tr,
    w' = w <| trace := tr |>
           <| transfers ::= <[t := submitted x]> |>
           <| eng := unlocked (started (queued t (locked_once (cpu_answer w) (eng w)))) |> /\
    exists h, (<[t := submitted x]> (transfers w)) !! head = Some h /\
    writes tr = start_writes (eng w) h ++ writes (trace w)) w.
Proof.
  intros Ht Hx Hn Hl Hs Hr Hq. unfold transfer_queue, chain_transfers.
  assert (Ht0 := Ht). apply Z.eqb_neq in Ht, Hn. apply nz_false in Hs.
  assert (Hr' : nz 0 = false) by reflexivity.
  wp_run.
  destruct (transfer_list (eng w)) as [|h l] eqn:El; simpl.
  - eapply wp_conseq; [apply (engine_start_ok _ t [] (submitted x)); simpl; use_state;
      first [reflexivity | assumption | apply lookup_insert_eq]|].
    intros r w' (-> & tr & -> & Hw). do 3 wp_step. split; [reflexivity|].
    exists tr. split; [state_eq|].
    exists (submitted x). split; [apply lookup_insert_eq|exact Hw].
  - unfold queue_ok in Hq. rewrite El in Hq. apply Forall_inv in Hq as [Hh [y Hy]].
    assert (Hy' : exists z, (<[t:=submitted x]> (transfers w)) !! h = Some z).
    { destruct (decide (t = h)) as [->|Hne]; [eexists; apply lookup_insert_eq|].
      exists y. rewrite (lookup_insert_ne _ t h _ Hne). exact Hy. }
    destruct Hy' as [z Hz].
    eapply wp_conseq; [apply (engine_start_ok _ h (l ++ [t]) z); simpl; use_state;
      first [reflexivity | assumption]|].
    intros r w' (-> & tr & -> & Hw). do 3 wp_step. split; [reflexivity|].
    exists tr. split; [state_eq|].
    exists z. split; [exact Hz|exact Hw].
Qed.
End Facts.
