(* ===== verification/Wz.v ===== *)
(** * The cyclic extension: buffers, descriptor ring, blocks (wz-xdma.c)

    The branches for kernels before the kfifo rewrite are the
    [LINUX_VERSION_CODE < KERNEL_VER_KFIFO1] ones and are not modelled. *)
From S2P Require Import Prelude Layout Kernel World Desc Engine.

(** an entry of an array of the extension *)
Definition set_at {A} (i : Z) (x : A) (l : list A) : list A := zinsert i x l.

(** [get_order(WZ_DMA_BUFLEN)] *)
Definition wz_order : Z := 10.
Definition VM_FAULT_NOPAGE : Z := 0x100.

Section Wz.
Context {bo : ByteOrder} {env : Env} {sched : Sched}.

(** ** mmap *)

Definition swz_mmap_fault (address vm_start : Z) : prog world Z :=
  let offset := s64 (address - vm_start) in
  let buf_num := Z.quot offset WZ_DMA_BUFLEN in
  if WZ_DMA_NOFBUFS <? buf_num then ret (- EFAULT) else
    let offset := offset - buf_num * WZ_DMA_BUFLEN in
    bp <- getX buf_page ;;
    buffer <- index bp buf_num ;;
    pfn <- ext page_to_pfn [buffer] ;;
    ext_ vm_insert_pfn [address; pfn + Z.shiftr offset PAGE_SHIFT] ;;
    ret VM_FAULT_NOPAGE.

(** the rest of the function sets up the vma for [swz_mmap_fault] *)
Definition char_sgdma_wz_mmap : prog world Z :=
  r <- getX buf_ready ;;
  if negb (nz r) then ret (- EINVAL) else ret 0.

(** ** Buffers *)

Definition wz_alloc_one (i : Z) : prog world (option Z) :=
  page <- ext alloc_pages [wz_order] ;;
  setX (fun x => x <| buf_page ::= set_at i page |>) ;;
  if page =? 0 then ret (Some (- ENOMEM)) else
    dma <- ext dma_map_page [page; 0; WZ_DMA_BUFLEN] ;;
    setX (fun x => x <| buf_dma_t ::= set_at i dma |>) ;;
    if dma =? 0 then ret (Some (- ENOMEM)) else
      ext_ dma_sync_single_range_for_device [dma; 0; WZ_DMA_BUFLEN] ;;
      ret None.

Definition wz_release_one (i : Z) : prog world unit :=
  dmas <- getX buf_dma_t ;;
  dma <- index dmas i ;;
  when (nz dma)
    (ext_ dma_unmap_page [dma; WZ_DMA_BUFLEN] ;;
     setX (fun x => x <| buf_dma_t ::= set_at i 0 |>)) ;;
  pgs <- getX buf_page ;;
  page <- index pgs i ;;
  when (nz page)
    (ext_ free_pages [page; wz_order] ;;
     setX (fun x => x <| buf_page ::= set_at i 0 |>)).

Definition wz_free_copy : prog world unit :=
  c <- getX desc_copy ;;
  when (bool_decide (is_Some c))
    (ext_ vfree [] ;; setX (fun x => x <| desc_copy := None |>)).

(** the label [err1] *)
Definition wz_alloc_err (res : Z) : prog world Z :=
  for_ 0 WZ_DMA_NOFBUFS wz_release_one ;;
  wz_free_copy ;;
  setX (fun x => x <| buf_ready := 0 |>) ;;
  ret res.

Definition ioctl_do_wz_alloc_buffers : prog world Z :=
  e <- for_exit 0 WZ_DMA_NOFBUFS wz_alloc_one ;;
  match e with
  | Some res => wz_alloc_err res
  | None =>
      r <- ext_all vmalloc [WZ_DMA_NOFBUFS * sizeof_xdma_desc] ;;
      setX (fun x => x <| desc_copy :=
        if nth 0 r 0 =? 0 then None
        else Some (map (fun i => junk_desc (tail r) (Z.of_nat i)) (seq 0 128)) |>) ;;
      if nth 0 r 0 =? 0 then wz_alloc_err (- ENOMEM) else
        rc <- ext kfifo_alloc [WZ_DMA_NOFBUFS] ;;
        if rc <? 0 then wz_alloc_err (- ENOMEM) else
          setX (fun x => x <| kfifo := [] |> <| kfifo_size := WZ_DMA_NOFBUFS |>) ;;
          setX (fun x => x <| buf_ready := 1 |>) ;;
          ret 0
  end.

Definition ioctl_do_wz_free_buffers : prog world Z :=
  rdy <- getX buf_ready ;;
  when (nz rdy) (for_ 0 WZ_DMA_NOFBUFS wz_release_one) ;;
  ext_ kfifo_free [] ;;
  setX (fun x => x <| kfifo := [] |> <| kfifo_size := 0 |>) ;;
  setX (fun x => x <| buf_ready := 0 |>) ;;
  wz_free_copy ;;
  ret 0.

(** ** Start *)

(** one turn of the loop that builds the descriptors *)
Definition wz_build_one (i : Z) : prog world (option Z) :=
  ds <- getX desc ;;
  d <- index ds i ;;
  when (negb (dptr_is_null d))
    (dmas <- getX buf_dma_t ;;
     dma <- index dmas i ;;
     xdma_desc_free 1 d dma ;;
     setX (fun x => x <| desc ::= set_at i dnull |>) ;;
     setX (fun x => x <| buf_dma_t ::= set_at i 0 |>)) ;;
  r <- xdma_desc_alloc 1 ;;
  let '(v, b, _) := r in
  setX (fun x => x <| desc ::= set_at i v |> <| desc_dma ::= set_at i b |>) ;;
  if dptr_is_null v then ret (Some (- ENOMEM)) else
    when (0 <? i)
      (ds <- getX desc ;;
       prev <- index ds (i - 1) ;;
       cur <- index ds i ;;
       dm <- getX desc_dma ;;
       bus <- index dm i ;;
       xdma_desc_link prev cur bus) ;;
    ret None.

(** the control word of every descriptor of the ring *)
Definition wz_control : Z := Z.lor 0 XDMA_DESC_COMPLETED.

(** one turn of the loop that fills the descriptors *)
Definition wz_fill_one (i : Z) : prog world unit :=
  ds <- getX desc ;;
  d <- index ds i ;;
  dmas <- getX buf_dma_t ;;
  dma <- index dmas i ;;
  dm <- getX desc_dma ;;
  bus <- index dm i ;;
  xdma_desc_set d dma bus WZ_DMA_BUFLEN 0 ;;
  xdma_desc_control d wz_control ;;
  v <- getD d ;;
  c <- getX desc_copy ;;
  _ <- deref (fun _ => c) ;;
  setX (fun x => x <| desc_copy ::= fmap (M := option) (set_at i v) |>).

Definition wz_free_desc (i : Z) : prog world unit :=
  ds <- getX desc ;;
  d <- index ds i ;;
  dm <- getX desc_dma ;;
  bus <- index dm i ;;
  xdma_desc_free 1 d bus ;;
  setX (fun x => x <| desc ::= set_at i dnull |>) ;;
  setX (fun x => x <| desc_dma ::= set_at i 0 |>).

(** the transfer that stands for the ring *)
Definition wz_make_transfer (d : dptr) (bus : Z) (t : xdma_transfer) : xdma_transfer :=
  t <| desc_virt := d |> <| desc_bus := bus |> <| desc_adjacent := 0 |>
    <| desc_num := WZ_DMA_NOFBUFS |> <| t_dir_to_dev := 0 |> <| sgl_nents := 1 |>
    <| cyclic := 1 |>.

(** the last descriptor is linked to the first ([WZ_TRANSFER_CYCLIC]) *)
Definition wz_close_ring : prog world unit :=
  ds <- getX desc ;;
  dm <- getX desc_dma ;;
  last <- index ds (WZ_DMA_NOFBUFS - 1) ;;
  first <- index ds 0 ;;
  bus <- index dm 0 ;;
  xdma_desc_link last first bus.

(** "We simply imitate the transfer building" *)
Definition wz_submit : prog world Z :=
  t <- kzalloc_transfer ;;
  setX (fun x => x <| ext_transfer := t |>) ;;
  if t =? 0 then
    for_ 0 WZ_DMA_NOFBUFS wz_free_desc ;;
    ret (- ENOMEM)
  else
    ds <- getX desc ;;
    first <- index ds 0 ;;
    dm <- getX desc_dma ;;
    bus <- index dm 0 ;;
    setT (wz_make_transfer first bus) t ;;
    _ <- transfer_queue t ;;
    ret 0.

Definition ioctl_do_wz_start : prog world Z :=
  rdy <- getX buf_ready ;;
  if negb (nz rdy) then ret (- EINVAL) else
    setX (fun x => x <| block_first_desc := 0 |> <| block_scanned_desc := 0 |>) ;;
    e <- for_exit 0 WZ_DMA_NOFBUFS wz_build_one ;;
    match e with
    | Some rc => ret rc
    | None =>
        wz_close_ring ;;
        for_ 0 WZ_DMA_NOFBUFS wz_fill_one ;;
        wz_submit
    end.

(** ** Confirm *)

(** a 32-bit store to word [k] of a descriptor, visible to the device *)
Definition set_word (k v : Z) (d : xdma_desc) : xdma_desc :=
  match k with
  | 0 => d <| control := v |>
  | 1 => d <| bytes := v |>
  | 2 => d <| src_addr_lo := v |>
  | 3 => d <| src_addr_hi := v |>
  | 4 => d <| dst_addr_lo := v |>
  | 5 => d <| dst_addr_hi := v |>
  | 6 => d <| next_lo := v |>
  | _ => d <| next_hi := v |>
  end.
Definition store (p : dptr) (k v : Z) : prog world unit :=
  ext_ store_word [fst p; snd p; k; v] ;; setD (set_word k v) p.

(** the control word, with the magic, is written as the last *)
Definition wz_restore (p : dptr) (c : xdma_desc) : prog world unit :=
  store p 1 (bytes c) ;;
  store p 2 (src_addr_lo c) ;;
  store p 3 (src_addr_hi c) ;;
  store p 4 (dst_addr_lo c) ;;
  store p 5 (dst_addr_hi c) ;;
  store p 6 (next_lo c) ;;
  store p 7 (next_hi c) ;;
  ext_ mb [] ;;
  store p 0 (control c) ;;
  ext_ mb [].

Definition wz_confirm_one (last i : Z) : prog world (Z + Z) :=
  dmas <- getX buf_dma_t ;;
  dma <- index dmas i ;;
  ext_ dma_sync_single_range_for_device [dma; 0; WZ_DMA_BUFLEN] ;;
  ds <- getX desc ;;
  d <- index ds i ;;
  c <- getX desc_copy ;;
  copies <- deref (fun _ => c) ;;
  cp <- index copies i ;;
  wz_restore d cp ;;
  if u32 i =? last then ret (inr 0)
  else ret (inl (Z.land (i + 1) (WZ_DMA_NOFBUFS - 1))).

Definition ioctl_do_wz_confirm (fuel : nat) (arg : Z) : prog world Z :=
  r <- ext_all copy_from_user [arg; 8] ;;
  if nz (nth 0 r 0) then ret (- EINVAL) else
    (* out-of-range numbers are printed and not rejected *)
    loop fuel (wz_confirm_one (u32 (nth 2 r 0))) (s32 (u32 (nth 1 r 0))).

(** ** Stop *)

Definition wz_transfer_destroy (transfer : Z) : prog world unit :=
  when (nz transfer) (kfree_transfer transfer).

Definition wz_stop_one (i : Z) : prog world unit :=
  ds <- getX desc ;;
  d <- index ds i ;;
  when (negb (dptr_is_null d))
    (dm <- getX desc_dma ;;
     bus <- index dm i ;;
     xdma_desc_free 1 d bus ;;
     setX (fun x => x <| desc ::= set_at i dnull |>) ;;
     setX (fun x => x <| buf_dma_t ::= set_at i 0 |>)).

Definition ioctl_do_wz_stop : prog world Z :=
  spin_lock ;;
  _ <- engine_cyclic_stop ;;
  spin_unlock ;;
  wait_event_ (fun w => negb (nz (running (eng w)))) ;;
  r <- getE running ;;
  if nz r then ret (- EINVAL) else
    spin_lock ;;
    t <- getX ext_transfer ;;
    when (nz t) (wz_transfer_destroy t) ;;
    setX (fun x => x <| ext_transfer := 0 |>) ;;
    spin_unlock ;;
    for_ 0 WZ_DMA_NOFBUFS wz_stop_one ;;
    ret 0.

(** ** Getbuf *)

(** [kfifo_get] takes the oldest element; on an empty fifo it leaves the
    destination uninitialised *)
Definition kfifo_get : prog world wz_xdma_data_block_desc :=
  f <- getX kfifo ;;
  match f with
  | [] => abort_with BadAccess
  | b :: f' => setX (fun x => x <| kfifo := f' |>) ;; ret b
  end.

Definition ioctl_do_wz_getbuf (arg : Z) : prog world Z :=
  res <- wait_event_interruptible_ (fun w =>
    (1 <=? Z.of_nat (length (kfifo (wz_ext (eng w))))) || negb (nz (running (eng w)))) ;;
  if res <? 0 then ret res else
    r <- getE running ;;
    if negb (nz r) then ret (- EIO) else
      db_desc <- kfifo_get ;;
      res <- ext copy_to_user [arg; first_desc db_desc; last_desc db_desc; last_len db_desc] ;;
      if nz res then ret (- EINVAL) else ret 0.

(** ** The service of the interrupt *)

Definition wz_engine_transfer_dequeue : prog world unit :=
  transfer <- first_transfer ;;
  BUG_ON (transfer =? 0) ;;
  t <- getX ext_transfer ;;
  BUG_ON (negb (transfer =? t)) ;;
  list_del_first.

(** [kfifo_put]: 0 when there is no room *)
Definition kfifo_put (b : wz_xdma_data_block_desc) : prog world bool :=
  f <- getX kfifo ;;
  n <- getX kfifo_size ;;
  if n =? 0 then abort_with BadAccess else
    if Z.of_nat (length f) <? n then
      setX (fun x => x <| kfifo ::= (fun l => l ++ [b])%list |>) ;; ret true
    else ret false.

(** a descriptor the device has overwritten with a result *)
Definition desc_result (d : xdma_desc) : xdma_result := mk_result (control d) (bytes d).
Definition is_writeback (r : xdma_result) : bool :=
  Z.land (Z.shiftr (r_status r) 16) 0xffff =? C2H_WB.

(** one turn of the scan: the next descriptor to check, or the end *)
Definition wz_scan_one (check_desc : Z) : prog world (Z + unit) :=
  ds <- getX desc ;;
  cur_desc <- index ds check_desc ;;
  d <- getD cur_desc ;;
  let cur_res := desc_result d in
  if negb (is_writeback cur_res) then
    setX (fun x => x <| block_scanned_desc := check_desc |>) ;; ret (inr tt)
  else
    dmas <- getX buf_dma_t ;;
    dma <- index dmas check_desc ;;
    ext_ dma_sync_single_range_for_cpu [dma; 0; WZ_DMA_BUFLEN] ;;
    if nz (Z.land (r_status cur_res) 1) then
      first <- getX block_first_desc ;;
      ok <- kfifo_put (mk_block (u32 first) (u32 check_desc) (r_length cur_res)) ;;
      if (ok : bool) then
        let check_desc := Z.land (check_desc + 1) (WZ_DMA_NOFBUFS - 1) in
        setX (fun x => x <| block_first_desc := check_desc |>) ;;
        setX (fun x => x <| block_scanned_desc := check_desc |>) ;;
        ext_ wake_up_interruptible [] ;;
        ret (inl check_desc)
      else ret (inr tt)
    else ret (inl (Z.land (check_desc + 1) (WZ_DMA_NOFBUFS - 1))).

Definition wz_scan (fuel : nat) : prog world unit :=
  check_desc <- getX block_scanned_desc ;;
  loop fuel wz_scan_one check_desc.

(** the end of the service: the engine has stopped *)
Definition wz_idle : prog world unit :=
  r <- getE running ;;
  s <- getE status ;;
  when (nz r && negb (nz (Z.land s XDMA_STAT_BUSY)))
    (l <- getE transfer_list ;;
     when (negb (list_empty_ l)) wz_engine_transfer_dequeue ;;
     engine_service_shutdown ;;
     ext_ wake_up_interruptible []).

Definition wz_engine_service_cyclic_interrupt (fuel : nat) : prog world Z :=
  m <- getE magic ;;
  BUG_ON (negb (m =? MAGIC_ENGINE)) ;;
  _ <- engine_status_read true ;;
  wz_scan fuel ;;
  wz_idle ;;
  ret 0.

Definition wz_engine_cleanup : prog world unit :=
  _ <- ioctl_do_wz_stop ;;
  _ <- ioctl_do_wz_free_buffers ;;
  ret tt.
End Wz.

#[global] Arguments is_writeback : simpl never.
#[global] Arguments desc_result : simpl never.
