(* ===== verification/WzRing.v ===== *)
(** * The ring [ioctl_do_wz_start] builds *)
From S2P Require Import Prelude Layout Kernel World Desc Engine EngineFacts Wz.

(** what [ioctl_do_wz_alloc_buffers] leaves: arrays of the declared sizes and
    the copies allocated *)
Record wz_ready (x : wz_xdma_engine_ext) : Prop := {
  ready_flag : buf_ready x <> 0;
  len_buf_dma_t : Z.of_nat (length (buf_dma_t x)) = WZ_DMA_NOFBUFS;
  len_buf_page : Z.of_nat (length (buf_page x)) = WZ_DMA_NOFBUFS;
  len_desc : Z.of_nat (length (desc x)) = WZ_DMA_NOFBUFS;
  len_desc_dma : Z.of_nat (length (desc_dma x)) = WZ_DMA_NOFBUFS;
  ready_copy : exists cp, desc_copy x = Some cp /\ Z.of_nat (length cp) = WZ_DMA_NOFBUFS
}.

(** no descriptor of the ring is allocated *)
Definition no_descs (x : wz_xdma_engine_ext) : Prop :=
  forall k, 0 <= k < WZ_DMA_NOFBUFS -> zlookup (desc x) k = Some dnull.

(** The descriptors an earlier start may have left, for [ioctl_do_wz_start] to
    free: each pointer is null or to a block of its own that was allocated
    before block [f]. *)
Record descs_left (x : wz_xdma_engine_ext) (f : Z) (mem : gmap Z dblock) : Prop := {
  dl_block k p : 0 <= k < WZ_DMA_NOFBUFS -> zlookup (desc x) k = Some p -> fst p <> 0 ->
    fst p < f /\ is_Some (mem !! fst p);
  dl_inj j k p q : 0 <= j < WZ_DMA_NOFBUFS -> 0 <= k < WZ_DMA_NOFBUFS ->
    zlookup (desc x) j = Some p -> zlookup (desc x) k = Some q ->
    fst p <> 0 -> fst p = fst q -> j = k
}.

(** the block of one of the first [j] descriptors left *)
Definition left_block (x : wz_xdma_engine_ext) (j b : Z) : Prop :=
  exists k p, 0 <= k < j /\ zlookup (desc x) k = Some p /\ fst p <> 0 /\ fst p = b.

(** The bus address descriptor [k] receives into: that of buffer [k], but 0
    where a descriptor was left, since the branch that frees it zeroes
    [buf_dma_t[k]] and not [desc_dma[k]]. *)
Definition destination (x : wz_xdma_engine_ext) (k : Z) : option Z :=
  zlookup (desc x) k ≫= fun p =>
  if dptr_is_null p then zlookup (buf_dma_t x) k else Some 0.

Lemma no_descs_left x f mem : no_descs x -> descs_left x f mem.
Proof.
  intros H. split.
  - intros k p Hk E. rewrite (H k Hk) in E. injection E as <-. intros []. reflexivity.
  - intros j k p q Hj _ E _. rewrite (H j Hj) in E. injection E as <-. intros []. reflexivity.
Qed.

Lemma no_descs_destination x k : no_descs x -> 0 <= k < WZ_DMA_NOFBUFS ->
  destination x k = zlookup (buf_dma_t x) k.
Proof. intros H Hk. unfold destination. rewrite (H k Hk). reflexivity. Qed.

(** The ring as a data structure: every entry points to a descriptor in
    memory, entries are distinct, and every descriptor has a copy. *)
Record ring_shape (x : wz_xdma_engine_ext) (mem : gmap Z dblock) : Prop := {
  rs_ready : wz_ready x;
  rs_desc k : 0 <= k < WZ_DMA_NOFBUFS -> exists p d,
    zlookup (desc x) k = Some p /\ fst p <> 0 /\ lookup_mem mem p = Some d;
  rs_inj j k p q : zlookup (desc x) j = Some p -> zlookup (desc x) k = Some q ->
    0 <= j < WZ_DMA_NOFBUFS -> 0 <= k < WZ_DMA_NOFBUFS -> fst p = fst q -> j = k
}.

Section Ring.
Context {bo : ByteOrder} {env : Env} {sched : Sched}.

(** descriptor memory and transfers can always be allocated *)
Definition descs_available : Prop :=
  forall h, nth 0 (answer h dma_alloc_coherent [sizeof_xdma_desc]) 0 <> 0.
Definition memory_available : Prop := forall h, nth 0 (answer h kzalloc []) 0 <> 0.

Lemma descs_available_ok : descs_available -> forall w, alloc_ok 1 w.
Proof. intros H w. apply H. Qed.

(** ** Building *)

(** After [i] turns of the first loop, with the descriptors left before [j]
    freed: descriptor [k < i] is slot 0 of block [f0 + k], [desc_dma] holds the
    bus addresses, and all but the last descriptor are linked. *)
Record built_mem (x0 : wz_xdma_engine_ext) (f0 i j : Z) (mem0 mem : gmap Z dblock)
    (ds : list dptr) (dm bs : list Z) : Prop := {
  bm_len_desc : Z.of_nat (length ds) = WZ_DMA_NOFBUFS;
  bm_len_dma : Z.of_nat (length dm) = WZ_DMA_NOFBUFS;
  bm_len_bufs : Z.of_nat (length bs) = WZ_DMA_NOFBUFS;
  bm_left k : j <= k < WZ_DMA_NOFBUFS ->
    zlookup ds k = zlookup (desc x0) k /\ zlookup bs k = zlookup (buf_dma_t x0) k;
  bm_dest k : 0 <= k < j -> zlookup bs k = destination x0 k;
  bm_desc k : 0 <= k < i -> zlookup ds k = Some (f0 + k, 0);
  bm_bus k : 0 <= k < i -> is_Some (bus_of mem (f0 + k)) /\ zlookup dm k = bus_of mem (f0 + k);
  bm_slot k : 0 <= k < i -> exists d, lookup_mem mem (f0 + k, 0) = Some d /\
    le32_to_cpu (control d) = DESC_MAGIC /\
    (k + 1 < i -> Some (d_next d) = bus_of mem (f0 + (k + 1)));
  bm_old b : b < f0 -> (left_block x0 j b -> mem !! b = None) /\
    (~ left_block x0 j b -> mem !! b = mem0 !! b)
}.

Definition building_ring (j : Z) (w0 : world) (i : Z) (w : world) : Prop :=
  exists tr mem ds dm bs,
    w = w0 <| trace := tr |> <| fresh := fresh w0 + i |> <| coherent := mem |>
          <| eng -> wz_ext := (wz_ext (eng w0)) <| desc := ds |> <| desc_dma := dm |> <| buf_dma_t := bs |> |> /\
    writes tr = writes (trace w0) /\
    built_mem (wz_ext (eng w0)) (fresh w0) i j (coherent w0) mem ds dm bs.
Definition built (w0 : world) (i : Z) : world -> Prop := building_ring i w0 i.

(** the next block is added, and the previous descriptor linked to it *)
Lemma built_mem_step x0 f0 i j mem0 mem ds dm bs mem' b d :
  built_mem x0 f0 i j mem0 mem ds dm bs -> 0 <= i < WZ_DMA_NOFBUFS -> i < j ->
  bus_of mem' (f0 + i) = Some b ->
  lookup_mem mem' (f0 + i, 0) = Some d -> le32_to_cpu (control d) = DESC_MAGIC ->
  (forall k, k <> f0 + i -> bus_of mem' k = bus_of mem k) ->
  (forall k, 0 <= k < i - 1 -> lookup_mem mem' (f0 + k, 0) = lookup_mem mem (f0 + k, 0)) ->
  (0 < i -> exists d', lookup_mem mem' (f0 + (i - 1), 0) = Some d' /\
    le32_to_cpu (control d') = DESC_MAGIC /\ d_next d' = b) ->
  (forall k, k < f0 -> mem' !! k = mem !! k) ->
  built_mem x0 f0 (i + 1) j mem0 mem' (set_at i (f0 + i, 0) ds) (set_at i b dm) bs.
Proof.
  intros [Hlds Hldm Hlbs Hleft Hdest Hdesc Hbus Hslot Hold] Hi Hij Hb Hd Hc Hbo Hlk Hprev Hmem.
  assert (Hds : forall k, zlookup (set_at i (f0 + i, 0) ds) k
      = if decide (k = i) then Some (f0 + i, 0) else zlookup ds k).
  { intros k. apply (zlookup_zinsert _ _ _ _ _ Hlds), Hi. }
  assert (Hdm : forall k, zlookup (set_at i b dm) k
      = if decide (k = i) then Some b else zlookup dm k).
  { intros k. apply (zlookup_zinsert _ _ _ _ _ Hldm), Hi. }
  split.
  - apply zinsert_len, Hlds.
  - apply zinsert_len, Hldm.
  - exact Hlbs.
  - intros k Hk. rewrite Hds, decide_False by lia. apply Hleft, Hk.
  - exact Hdest.
  - intros k Hk. rewrite Hds. case_decide as E; [subst; reflexivity|apply Hdesc; lia].
  - intros k Hk. rewrite Hdm. case_decide as E.
    + subst. rewrite Hb. eauto.
    + rewrite Hbo by lia. apply Hbus. lia.
  - intros k Hk. destruct (decide (k = i)) as [->|Hne]; [|destruct (decide (k = i - 1)) as [->|Hne2]].
    + exists d. split; [assumption|split; [assumption|lia]].
    + destruct (Hprev ltac:(lia)) as (d' & H1 & H2 & H3). exists d'.
      split; [assumption|split; [assumption|]]. intros _. rewrite H3.
      replace (f0 + (i - 1 + 1)) with (f0 + i) by lia. congruence.
    + destruct (Hslot k ltac:(lia)) as (d' & H1 & H2 & H3). exists d'.
      rewrite Hlk by lia. split; [assumption|split; [assumption|]]. intros _.
      rewrite Hbo by lia. apply H3. lia.
  - intros k Hk. rewrite Hmem by exact Hk. apply Hold, Hk.
Qed.

Lemma link_magic b d :
  le32_to_cpu (control d) = DESC_MAGIC ->
  le32_to_cpu (control (desc_link true b d)) = DESC_MAGIC.
Proof. intros Hc. unfold desc_link. simpl. rewrite le32_cpu_le32, Hc. reflexivity. Qed.

Lemma wp_xdma_desc_free n v bus blk (Q : unit -> world -> Prop) w :
  fst v <> 0 -> 0 <= n -> coherent w !! fst v = Some blk ->
  Q tt (log (Call dma_free_coherent [n * sizeof_xdma_desc; fst v; bus] []) w
          <| coherent ::= delete (fst v) |>) ->
  wp (xdma_desc_free n v bus) Q w.
Proof.
  intros Hv Hn Hb HQ. unfold xdma_desc_free.
  wp_step. wp_step; [apply Z.eqb_neq, Hv|]. wp_step. wp_step; [apply Z.ltb_ge, Hn|].
  wp_step. wp_step. wp_step. eapply wp_deref; [exact Hb|]. exact HQ.
Qed.

(** entry [i] had no descriptor: nothing to free *)
Lemma built_mem_null x0 f0 i mem0 mem ds dm bs p :
  built_mem x0 f0 i i mem0 mem ds dm bs -> 0 <= i < WZ_DMA_NOFBUFS ->
  zlookup (desc x0) i = Some p -> fst p = 0 ->
  built_mem x0 f0 i (i + 1) mem0 mem ds dm bs.
Proof.
  intros [Hlds Hldm Hlbs Hleft Hdest Hdesc Hbus Hslot Hold] Hi Hp Hp0.
  assert (forall b, left_block x0 (i + 1) b <-> left_block x0 i b) as Hlb.
  { intros b. split; intros (k & q & Hk & Hq & H); exists k, q; (split; [|split; [exact Hq|exact H]]); [|lia].
    assert (k <> i) by (intros ->; assert (q = p) as -> by congruence; tauto). lia. }
  split; try assumption.
  - intros k Hk. apply Hleft. lia.
  - intros k Hk. destruct (decide (k = i)) as [->|]; [|apply Hdest; lia].
    unfold destination. rewrite Hp. cbn. unfold dptr_is_null. rewrite Hp0. apply Hleft. lia.
  - intros b Hb. rewrite Hlb. apply Hold, Hb.
Qed.

(** its descriptor is freed, and the bus address of its buffer lost *)
Lemma built_mem_free x0 f0 i mem0 mem ds dm bs p :
  descs_left x0 f0 mem0 -> built_mem x0 f0 i i mem0 mem ds dm bs -> 0 <= i < WZ_DMA_NOFBUFS ->
  zlookup (desc x0) i = Some p -> fst p <> 0 ->
  built_mem x0 f0 i (i + 1) mem0 (delete (fst p) mem) (set_at i dnull ds) dm (set_at i 0 bs).
Proof.
  intros Hleft0 [Hlds Hldm Hlbs Hleft Hdest Hdesc Hbus Hslot Hold] Hi Hp Hp0.
  destruct (dl_block _ _ _ Hleft0 i p Hi Hp Hp0) as [Hpf _].
  assert (Hds : forall k, zlookup (set_at i dnull ds) k = if decide (k = i) then Some dnull else zlookup ds k)
    by (intros k; apply (zlookup_zinsert _ _ _ _ _ Hlds), Hi).
  assert (Hbs : forall k, zlookup (set_at i 0 bs) k = if decide (k = i) then Some 0 else zlookup bs k)
    by (intros k; apply (zlookup_zinsert _ _ _ _ _ Hlbs), Hi).
  assert (Hlk : forall k, 0 <= k -> delete (fst p) mem !! (f0 + k) = mem !! (f0 + k))
    by (intros k Hk; apply lookup_delete_ne; lia).
  split.
  - apply zinsert_len, Hlds.
  - exact Hldm.
  - apply zinsert_len, Hlbs.
  - intros k Hk. rewrite Hds, Hbs, !decide_False by lia. apply Hleft. lia.
  - intros k Hk. rewrite Hbs. case_decide as E; [|apply Hdest; lia].
    subst k. unfold destination. rewrite Hp. cbn. unfold dptr_is_null.
    rewrite (proj2 (Z.eqb_neq _ _) Hp0). reflexivity.
  - intros k Hk. rewrite Hds, decide_False by lia. apply Hdesc, Hk.
  - intros k Hk. unfold bus_of. rewrite Hlk by lia. apply Hbus, Hk.
  - intros k Hk. destruct (Hslot k Hk) as (d & H1 & H2 & H3). exists d.
    unfold lookup_mem, bus_of in *. cbn [fst snd] in *. rewrite !Hlk by lia. auto.
  - intros b Hb. split.
    + intros (k & q & Hk & Hq & Hq0 & <-). destruct (decide (k = i)) as [->|].
      * assert (q = p) as -> by congruence. apply lookup_delete_eq.
      * apply lookup_delete_None. right. apply Hold; [exact Hb|]. exists k, q. split; [lia|auto].
    + intros H. rewrite lookup_delete_ne; [apply Hold; [exact Hb|]|].
      * intros (k & q & Hk & Hq). apply H. exists k, q. split; [lia|exact Hq].
      * intros E. apply H. exists i, p. split; [lia|auto].
Qed.

(** what the branch for a descriptor that was left does *)
Lemma wz_free_left_ok w0 i w d :
  0 <= i < WZ_DMA_NOFBUFS -> descs_left (wz_ext (eng w0)) (fresh w0) (coherent w0) ->
  built w0 i w -> zlookup (desc (wz_ext (eng w))) i = Some d ->
  wp (when (negb (dptr_is_null d))
    (dmas <- getX buf_dma_t ;;
     dma <- index dmas i ;;
     xdma_desc_free 1 d dma ;;
     setX (fun x => x <| desc ::= set_at i dnull |>) ;;
     setX (fun x => x <| buf_dma_t ::= set_at i 0 |>)))
    (fun _ => building_ring (i + 1) w0 i) w.
Proof.
  intros Hi Hleft (tr & mem & ds & dm & bs & -> & Htr & Hm) Hd. simpl in Hd.
  pose proof (bm_left _ _ _ _ _ _ _ _ _ Hm i ltac:(lia)) as [Hdi _].
  assert (zlookup (desc (wz_ext (eng w0))) i = Some d) as Hd0 by congruence.
  unfold dptr_is_null. apply wp_when.
  - intros Hz%negb_true_iff%Z.eqb_neq.
    destruct (dl_block _ _ _ Hleft i d Hi Hd0 Hz) as [Hlt [blk Hblk]].
    wp_step. wp_step. simpl. destruct (zlookup_is_Some bs i) as [dma Hdma].
    { rewrite (bm_len_bufs _ _ _ _ _ _ _ _ _ Hm). exact Hi. }
    wp_step. eapply wp_index; [exact Hdma|]. wp_step. apply (wp_xdma_desc_free _ _ _ blk); [exact Hz|lia| |].
    { simpl. destruct (bm_old _ _ _ _ _ _ _ _ _ Hm (fst d) Hlt) as [_ ->]; [exact Hblk|].
      intros (k & q & Hk & Hq & Hq0 & E). symmetry in E.
      assert (i = k) by (eapply (dl_inj _ _ _ Hleft i k d q); eauto; lia). lia. }
    wp_run. eexists _, (delete (fst d) mem), (set_at i dnull ds), dm, (set_at i 0 bs).
    split; [state_eq|]. split; [exact Htr|]. eapply built_mem_free; eassumption.
  - intros Hz%negb_false_iff%Z.eqb_eq. exists tr, mem, ds, dm, bs.
    split; [reflexivity|]. split; [exact Htr|]. eapply built_mem_null; eassumption.
Qed.

Lemma wz_build_one_ok w0 i w :
  descs_available -> 0 < fresh w0 -> 0 <= i < WZ_DMA_NOFBUFS ->
  wz_ready (wz_ext (eng w0)) -> descs_left (wz_ext (eng w0)) (fresh w0) (coherent w0) -> built w0 i w ->
  wp (wz_build_one i) (fun r w' => r = None /\ built w0 (i + 1) w') w.
Proof.
  intros Hav Hf Hi Hr Hleft Hbuilt. unfold wz_build_one. wp_step. wp_step.
  destruct (zlookup_is_Some (desc (wz_ext (eng w))) i) as [d0 Hd0].
  { destruct Hbuilt as (? & ? & ? & ? & ? & -> & _ & Hm). simpl. rewrite (bm_len_desc _ _ _ _ _ _ _ _ _ Hm). exact Hi. }
  wp_step. eapply wp_index; [exact Hd0|]. wp_step.
  eapply wp_conseq; [apply (wz_free_left_ok w0 i w d0); assumption|]. clear w d0 Hd0 Hbuilt.
  intros [] w (tr & mem & ds & dm & bs & -> & Htr & Hm).
  pose proof Hm as [Hlds Hldm _ _ _ Hdesc _ Hslot _].
  wp_step.
  eapply wp_conseq; [apply xdma_desc_alloc_ok; [lia|apply Hav|simpl; lia]|].
  set (b := alloc_bus 1 _).
  simpl. intros r w2 (-> & mem2 & -> & Hin & (slots & Hblk & Hsl) & Hoth).
  cbn [fst snd]. destruct (Hin 0 ltac:(lia)) as (d & Hld & Hd0). clear Hin.
  assert (Hbus : bus_of mem2 (fresh w0 + i) = Some b) by (unfold bus_of; rewrite Hblk; reflexivity).
  assert (Hctl : le32_to_cpu (control d) = DESC_MAGIC) by (destruct Hd0 as (_ & H1 & _); exact H1).
  assert (Hlk : forall p, fst p <> fresh w0 + i -> lookup_mem mem2 p = lookup_mem mem p).
  { intros p Hp. unfold lookup_mem. rewrite Hoth by exact Hp. reflexivity. }
  assert (Hbo : forall k, k <> fresh w0 + i -> bus_of mem2 k = bus_of mem k).
  { intros k Hk. unfold bus_of. rewrite Hoth by exact Hk. reflexivity. }
  wp_step. wp_step. simpl. unfold dptr_is_null at 1. cbn [fst].
  destruct (Z.eqb_spec (fresh w0 + i) 0); [lia|].
  destruct (Z.ltb_spec 0 i) as [Hpos|Hpos].
  - destruct (Hslot (i - 1) ltac:(lia)) as (dp & Hlp & Hcp & _).
    wp_run.
    { unfold set_at. rewrite zlookup_zinsert_ne by lia. apply Hdesc. lia. }
    { apply zlookup_zinsert_eq. rewrite Hlds. exact Hi. }
    { apply zlookup_zinsert_eq. rewrite Hldm. exact Hi. }
    unfold xdma_desc_link. wp_run; [rewrite Hlk by (simpl; lia); exact Hlp|].
    unfold dptr_is_null. cbn [fst]. destruct (Z.eqb_spec (fresh w0 + i) 0); [lia|].
    split; [reflexivity|].
    eexists _, (update_mem (fresh w0 + (i - 1), 0) (desc_link true b dp) mem2), _, _, _.
    split; [state_eq; lia|]. split; [exact Htr|].
    eapply built_mem_step; [exact Hm|exact Hi|lia|..|].
    + rewrite bus_of_update. exact Hbus.
    + rewrite lookup_update_mem_ne by (intros [=]; lia). exact Hld.
    + exact Hctl.
    + intros k Hk. rewrite bus_of_update. apply Hbo, Hk.
    + intros k Hk. rewrite lookup_update_mem_ne by (intros [=]; lia). apply Hlk. simpl. lia.
    + intros _. eexists. split; [eapply lookup_update_mem_eq|].
      * rewrite Hlk by (simpl; lia). exact Hlp.
      * split; [apply link_magic, Hcp|apply d_next_link].
    + intros k Hk. rewrite update_mem_lookup_block. cbn [fst].
      rewrite decide_False by lia. apply Hoth. lia.
  - wp_run. split; [reflexivity|]. eexists _, mem2, _, _, _. split; [state_eq; lia|]. split; [exact Htr|].
    eapply built_mem_step; [exact Hm|exact Hi|lia|eassumption..|intros; apply Hlk; simpl; lia|lia|].
    intros k Hk. apply Hoth. lia.
Qed.

Lemma built_init w0 : wz_ready (wz_ext (eng w0)) -> built w0 0 w0.
Proof.
  intros Hr. exists (trace w0), (coherent w0), (desc (wz_ext (eng w0))),
    (desc_dma (wz_ext (eng w0))), (buf_dma_t (wz_ext (eng w0))).
  split; [state_eq; lia|]. split; [reflexivity|]. split; try (intros; lia); try apply Hr.
  - split; reflexivity.
  - intros b _. split; [|reflexivity]. intros (k & p & Hk & _). lia.
Qed.

Lemma wz_build_loop w0 :
  descs_available -> 0 < fresh w0 ->
  wz_ready (wz_ext (eng w0)) -> descs_left (wz_ext (eng w0)) (fresh w0) (coherent w0) ->
  wp (for_exit 0 WZ_DMA_NOFBUFS wz_build_one)
    (fun r w' => r = None /\ built w0 WZ_DMA_NOFBUFS w') w0.
Proof.
  intros Hav Hf Hr Hn.
  eapply (wp_for_exit (built w0) (fun _ _ => False)); [unfold WZ_DMA_NOFBUFS; lia| | | |].
  - apply built_init; assumption.
  - intros k w Hk Hb. eapply wp_conseq; [apply wz_build_one_ok; eassumption|].
    intros r w' [-> H]. exact H.
  - intros w' H. split; [reflexivity|exact H].
  - intros x w' [].
Qed.

(** ** Filling *)

(** the words of descriptor [k]: the buffer as destination, the descriptor
    itself as the place of the write-back *)
Definition wz_filled (dma bus : Z) (d : xdma_desc) : xdma_desc :=
  desc_control_write wz_control (desc_set dma bus WZ_DMA_BUFLEN 0 d).

Definition filled (f0 : Z) (w1 : world) (i : Z) (w : world) : Prop :=
  let x := wz_ext (eng w1) in
  exists mem cp,
    w = w1 <| coherent := mem |> <| eng -> wz_ext := x <| desc_copy := Some cp |> |> /\
    Z.of_nat (length cp) = WZ_DMA_NOFBUFS /\
    (forall b, bus_of mem b = bus_of (coherent w1) b) /\
    (forall b, b < f0 -> mem !! b = coherent w1 !! b) /\
    (forall k, i <= k < WZ_DMA_NOFBUFS ->
      lookup_mem mem (f0 + k, 0) = lookup_mem (coherent w1) (f0 + k, 0)) /\
    (forall k, 0 <= k < i -> exists dma bus d1,
      zlookup (buf_dma_t x) k = Some dma /\ zlookup (desc_dma x) k = Some bus /\
      lookup_mem (coherent w1) (f0 + k, 0) = Some d1 /\
      lookup_mem mem (f0 + k, 0) = Some (wz_filled dma bus d1) /\
      zlookup cp k = Some (wz_filled dma bus d1)).

Lemma wz_fill_one_ok f0 w1 i w :
  let x := wz_ext (eng w1) in
  0 <= i < WZ_DMA_NOFBUFS ->
  (forall k, 0 <= k < WZ_DMA_NOFBUFS -> zlookup (desc x) k = Some (f0 + k, 0) /\
    is_Some (zlookup (buf_dma_t x) k) /\ is_Some (zlookup (desc_dma x) k) /\
    is_Some (lookup_mem (coherent w1) (f0 + k, 0))) ->
  filled f0 w1 i w -> wp (wz_fill_one i) (fun _ => filled f0 w1 (i + 1)) w.
Proof.
  intros x Hi Hx (mem & cp & -> & Hcp & Hbus & Hold & Hrest & Hdone). subst x.
  destruct (Hx i Hi) as (Hd & [dma Hdma] & [bus Hdb] & [d1 Hd1]).
  assert (Hl : lookup_mem mem (f0 + i, 0) = Some d1) by (rewrite Hrest by lia; exact Hd1).
  unfold wz_fill_one, xdma_desc_set, xdma_desc_control.
  wp_run; try eassumption.
  { eapply lookup_update_mem_eq, Hl. }
  { eapply lookup_update_mem_eq, Hl. }
  { eapply lookup_update_mem_eq, lookup_update_mem_eq, Hl. }
  fold (wz_filled dma bus d1). set (m' := wz_filled dma bus d1).
  eapply wp_deref; [reflexivity|]. wp_run.
  exists (update_mem (f0 + i, 0) m' mem), (set_at i m' cp).
  split; [state_eq; apply update_mem_twice|].
  split; [apply zinsert_len, Hcp|]. split; [intros b; rewrite bus_of_update; apply Hbus|].
  split; [|split].
  - intros b Hb. rewrite update_mem_lookup_block. cbn [fst].
    rewrite decide_False by lia. apply Hold, Hb.
  - intros k Hk. rewrite lookup_update_mem_ne by (intros [=]; lia). apply Hrest. lia.
  - intros k Hk. destruct (decide (k = i)) as [->|Hne].
    + exists dma, bus, d1. do 3 (split; [assumption|]). split.
      * eapply lookup_update_mem_eq, Hl.
      * apply zlookup_zinsert_eq. rewrite Hcp. exact Hi.
    + destruct (Hdone k ltac:(lia)) as (a & u & e & H1 & H2 & H3 & H4 & H5).
      exists a, u, e. do 3 (split; [assumption|]). split.
      * rewrite lookup_update_mem_ne by (intros [=]; lia). exact H4.
      * unfold set_at. rewrite zlookup_zinsert_ne by lia. exact H5.
Qed.

(** ** The ring *)

(** entry [k]: the descriptor lies at the bus address [desc_dma] has for
    it, receives into buffer [k], is followed by entry [k + 1 mod 128], and
    its copy is the same *)
Record ring_entry (x : wz_xdma_engine_ext) (mem : gmap Z dblock) (k : Z)
    (bus dma next : Z) (d : xdma_desc) : Prop := {
  re_ptr : exists b, zlookup (desc x) k = Some (b, 0) /\ bus_of mem b = Some bus /\
    lookup_mem mem (b, 0) = Some d;
  re_bus : zlookup (desc_dma x) k = Some bus;
  re_dma : zlookup (buf_dma_t x) k = Some dma;
  re_next : zlookup (desc_dma x) ((k + 1) mod WZ_DMA_NOFBUFS) = Some next;
  re_control : le32_to_cpu (control d) = Z.lor DESC_MAGIC XDMA_DESC_COMPLETED;
  re_bytes : le32_to_cpu (bytes d) = WZ_DMA_BUFLEN;
  re_d_src : d_src d = bus;
  re_d_dst : d_dst d = dma;
  re_d_next : d_next d = next;
  re_copy : exists cp, desc_copy x = Some cp /\ zlookup cp k = Some d
}.

Definition ring_linked (x : wz_xdma_engine_ext) (mem : gmap Z dblock) : Prop :=
  ring_shape x mem /\
  forall k, 0 <= k < WZ_DMA_NOFBUFS -> exists bus dma next d, ring_entry x mem k bus dma next d.

Lemma wz_filled_words dma bus d :
  le32_to_cpu (control d) = DESC_MAGIC ->
  let d' := wz_filled dma bus d in
  le32_to_cpu (control d') = Z.lor DESC_MAGIC XDMA_DESC_COMPLETED /\
  le32_to_cpu (bytes d') = WZ_DMA_BUFLEN /\
  d_src d' = bus /\ d_dst d' = dma /\ d_next d' = d_next d.
Proof.
  intros Hc d'. subst d'. unfold wz_filled.
  destruct (control_write_frame wz_control (desc_set dma bus WZ_DMA_BUFLEN 0 d))
    as (E1 & E2 & E3 & E4).
  rewrite E1, E2, E3, E4, bytes_set, d_src_set, d_dst_set, d_next_set.
  split; [|repeat split].
  rewrite control_write_word, control_set, Hc. reflexivity.
Qed.

(** the first loop and the link that closes the cycle *)
Definition closed (w0 : world) (w : world) : Prop :=
  let f0 := fresh w0 in
  exists tr mem ds dm bs,
    w = w0 <| trace := tr |> <| fresh := f0 + WZ_DMA_NOFBUFS |> <| coherent := mem |>
          <| eng -> wz_ext := (wz_ext (eng w0)) <| desc := ds |> <| desc_dma := dm |> <| buf_dma_t := bs |> |> /\
    writes tr = writes (trace w0) /\
    Z.of_nat (length bs) = WZ_DMA_NOFBUFS /\
    (forall k, 0 <= k < WZ_DMA_NOFBUFS -> zlookup bs k = destination (wz_ext (eng w0)) k) /\
    Z.of_nat (length ds) = WZ_DMA_NOFBUFS /\ Z.of_nat (length dm) = WZ_DMA_NOFBUFS /\
    (forall k, 0 <= k < WZ_DMA_NOFBUFS -> zlookup ds k = Some (f0 + k, 0) /\
      is_Some (zlookup dm k) /\ zlookup dm k = bus_of mem (f0 + k) /\
      exists d, lookup_mem mem (f0 + k, 0) = Some d /\
        le32_to_cpu (control d) = DESC_MAGIC /\
        Some (d_next d) = zlookup dm ((k + 1) mod WZ_DMA_NOFBUFS)) /\
    (forall b, b < f0 -> left_block (wz_ext (eng w0)) WZ_DMA_NOFBUFS b -> mem !! b = None).

Lemma close_ring w0 w (Q : unit -> world -> Prop) :
  0 < fresh w0 -> built w0 WZ_DMA_NOFBUFS w -> 
  (forall w', closed w0 w' -> Q tt w') ->
  wp wz_close_ring Q w.
Proof.
  intros Hf (tr & mem & ds & dm & bs & -> & Htr & [Hlds Hldm Hlbs _ Hdest Hdesc Hbus Hslot Hold]) HQ.
  unfold WZ_DMA_NOFBUFS in *.
  destruct (Hbus 0 ltac:(lia)) as [[b0 Hb0] Hd0].
  destruct (Hslot 127 ltac:(lia)) as (dl & Hdl & Hcl & _).
  unfold wz_close_ring, xdma_desc_link. wp_run.
  { apply (Hdesc 127); lia. }
  { apply (Hdesc 0); lia. }
  { rewrite Hd0. exact Hb0. }
  { exact Hdl. }
  unfold dptr_is_null. cbn [fst]. destruct (Z.eqb_spec (fresh w0 + 0) 0); [lia|]. apply HQ.
  exists tr, (update_mem (fresh w0 + 127, 0) (desc_link true b0 dl) mem), ds, dm, bs. split; [state_eq|].
  split; [exact Htr|]. split; [exact Hlbs|]. split; [exact Hdest|]. split; [exact Hlds|]. split; [exact Hldm|]. split.
  - intros k Hk. unfold WZ_DMA_NOFBUFS in Hk.
    split; [apply Hdesc; lia|]. rewrite bus_of_update.
    destruct (Hbus k Hk) as [Hs Hbk]. rewrite Hbk. split; [exact Hs|]. split; [reflexivity|].
    destruct (decide (k = 127)) as [->|Hne].
    + eexists. split; [eapply lookup_update_mem_eq, Hdl|].
      split; [apply link_magic, Hcl|]. rewrite d_next_link, <- Hb0, <- Hd0. reflexivity.
    + destruct (Hslot k Hk) as (d & H1 & H2 & H3). exists d.
      split; [rewrite lookup_update_mem_ne by (intros [=]; lia); exact H1|].
      split; [exact H2|]. rewrite Z.mod_small by (unfold WZ_DMA_NOFBUFS; lia).
      rewrite H3 by lia. symmetry. apply Hbus. lia.
  - intros b Hb Hl. rewrite update_mem_lookup_block. cbn [fst].
    rewrite decide_False by lia. apply Hold; assumption.
Qed.

(** the second loop *)
Definition ring_filled (w0 w : world) : Prop :=
  exists tr mem fr x,
    w = w0 <| trace := tr |> <| fresh := fr |> <| coherent := mem |> <| eng -> wz_ext := x |> /\
    writes tr = writes (trace w0) /\ fresh w0 < fr /\
    x = (wz_ext (eng w0)) <| desc := desc x |> <| desc_dma := desc_dma x |>
          <| buf_dma_t := buf_dma_t x |> <| desc_copy := desc_copy x |> /\
    (forall k, 0 <= k < WZ_DMA_NOFBUFS -> zlookup (buf_dma_t x) k = destination (wz_ext (eng w0)) k) /\
    ring_linked x mem /\
    (forall b, b < fresh w0 -> left_block (wz_ext (eng w0)) WZ_DMA_NOFBUFS b -> mem !! b = None).

Lemma filled_ring w0 w w' :
  wz_ready (wz_ext (eng w0)) -> 0 < fresh w0 -> closed w0 w ->
  filled (fresh w0) w WZ_DMA_NOFBUFS w' -> ring_filled w0 w'.
Proof.
  intros Hr Hf (tr & mem & ds & dm & bs & -> & Htr & Hlbs & Hdest & Hlds & Hldm & Hk & Hold)
    (mem' & cp & -> & Hcp & Hbus & Hold' & _ & Hdone).
  simpl in *. exists tr, mem', (fresh w0 + WZ_DMA_NOFBUFS),
    ((wz_ext (eng w0)) <| desc := ds |> <| desc_dma := dm |> <| buf_dma_t := bs |> <| desc_copy := Some cp |>).
  split; [state_eq|]. split; [exact Htr|]. split; [unfold WZ_DMA_NOFBUFS; lia|].
  split; [state_eq|]. split; [exact Hdest|]. split; [split; [split|]|].
  - split; simpl; try apply Hr; try assumption. eauto.
  - intros k Hk'. destruct (Hk k Hk') as (H1 & _).
    destruct (Hdone k Hk') as (dma & bus & d1 & _ & _ & _ & H4 & _).
    do 2 eexists. split; [exact H1|]. split; [simpl; lia|exact H4].
  - intros j k p q Hj Hk' Hj' Hk'' Hpq. destruct (Hk j Hj') as (E1 & _).
    destruct (Hk k Hk'') as (E2 & _). simpl in Hj, Hk'.
    assert (p = (fresh w0 + j, 0)) as -> by congruence.
    assert (q = (fresh w0 + k, 0)) as -> by congruence. simpl in Hpq. lia.
  - intros k Hk'. destruct (Hk k Hk') as (H1 & [bus Hb] & H2 & d & H3 & H4 & H5).
    destruct (Hdone k Hk') as (dma & bus' & d1 & E1 & E2 & E3 & E4 & E5).
    assert (d1 = d) as -> by congruence. assert (bus' = bus) as -> by congruence.
    destruct (wz_filled_words dma bus d H4) as (F1 & F2 & F3 & F4 & F5).
    exists bus, dma, (d_next d), (wz_filled dma bus d).
    split; try assumption; simpl.
    + exists (fresh w0 + k). split; [exact H1|]. split; [|exact E4]. rewrite Hbus. congruence.
    + congruence.
    + eauto.
  - intros b Hb Hl. rewrite Hold' by exact Hb. apply Hold; assumption.
Qed.

Lemma wz_fill_loop w0 w :
  wz_ready (wz_ext (eng w0)) -> 0 < fresh w0 -> closed w0 w ->
  wp (for_ 0 WZ_DMA_NOFBUFS wz_fill_one) (fun _ => ring_filled w0) w.
Proof.
  intros Hr Hf Hc.
  eapply (wp_for (filled (fresh w0) w)); [unfold WZ_DMA_NOFBUFS; lia| | |].
  - destruct Hc as (tr & mem & ds & dm & bs & -> & _).
    destruct (ready_copy _ Hr) as (cp & Hcp & Hl).
    exists mem, cp. split; [state_eq; exact Hcp|]. split; [exact Hl|].
    repeat split; intros; [reflexivity..|lia].
  - intros k w' Hk. apply wz_fill_one_ok; [exact Hk|]. clear w'.
    destruct Hc as (tr & mem & ds & dm & bs & -> & _ & Hlbs & _ & _ & _ & Hc & _). simpl.
    intros j Hj. destruct (Hc j Hj) as (H1 & H2 & _ & d & H3 & _).
    split; [exact H1|]. split; [|eauto].
    apply zlookup_is_Some. rewrite Hlbs. exact Hj.
  - intros w' H. eapply filled_ring; eassumption.
Qed.

(** ** Start *)

(** the engine runs on the ring: its only transfer points to entry 0 *)
Record ring_started (w w' : world) : Prop := {
  st_ring : ring_linked (wz_ext (eng w')) (coherent w');
  st_buffers k : 0 <= k < WZ_DMA_NOFBUFS ->
    zlookup (buf_dma_t (wz_ext (eng w'))) k = destination (wz_ext (eng w)) k;
  st_freed b : left_block (wz_ext (eng w)) WZ_DMA_NOFBUFS b -> coherent w' !! b = None;
  st_first : block_first_desc (wz_ext (eng w')) = 0;
  st_scanned : block_scanned_desc (wz_ext (eng w')) = 0;
  st_running : running (eng w') = 1;
  st_unlocked : lock (eng w') = false;
  st_queue : transfer_list (eng w') = [ext_transfer (wz_ext (eng w'))];
  st_transfer : exists x bus, transfers w' !! ext_transfer (wz_ext (eng w')) = Some x /\
    zlookup (desc_dma (wz_ext (eng w'))) 0 = Some bus /\
    desc_bus x = bus /\ cyclic x = 1 /\ desc_num x = WZ_DMA_NOFBUFS /\
    state x = TRANSFER_STATE_SUBMITTED /\
    writes (trace w') = start_writes (eng w) x ++ writes (trace w)
}.

Lemma wz_submit_ring w0 w :
  memory_available -> 0 < fresh w0 -> ring_filled w0 w ->
  descs_left (wz_ext (eng w0)) (fresh w0) (coherent w0) ->
  lock (eng w0) = false -> Z.land (shutdown (eng w0)) ENGINE_SHUTDOWN_REQUEST = 0 ->
  running (eng w0) = 0 -> transfer_list (eng w0) = [] ->
  block_first_desc (wz_ext (eng w0)) = 0 -> block_scanned_desc (wz_ext (eng w0)) = 0 ->
  wp wz_submit (fun rc w' => rc = 0 /\ ring_started w0 w') w.
Proof.
  intros Hmem Hf (tr & mem & fr & x & -> & Htr & Hfr & Hx & Hdest & Hring & Hold)
    Hleft Hl Hsh Hrun Hq Hb1 Hb2.
  destruct (proj2 Hring 0) as (bus & dma & next & d & [(b & Hp & _) Hbus _ _ _ _ _ _ _ _]);
    [unfold WZ_DMA_NOFBUFS; lia|].
  unfold wz_submit. apply wp_bind, wp_kzalloc_transfer; intros Hz; [elim (Hmem _ Hz)|]. clear Hz. simpl.
  wp_step. wp_step. simpl. destruct (Z.eqb_spec fr 0); [lia|].
  wp_step. wp_step. wp_step. wp_step; [exact Hp|]. wp_step. wp_step. wp_step. wp_step; [exact Hbus|].
  wp_step. wp_step; [apply lookup_insert_eq|]. simpl. wp_step.
  eapply wp_conseq; [apply (transfer_queue_idle _ fr (wz_make_transfer (b, 0) bus zero_transfer))|].
  all: simpl; use_state; try assumption; try reflexivity; try discriminate; try lia.
  { apply lookup_insert_eq. }
  { unfold queue_ok. simpl. rewrite Hq. constructor. }
  intros rc w' (-> & tr' & -> & h & Hh & Hw). wp_step. split; [reflexivity|].
  simpl in Hh. rewrite lookup_insert_eq in Hh. injection Hh as <-.
  split; simpl; try reflexivity.
  - destruct Hring as [[Hr Hd Hi] He]. split; [split|].
    + destruct Hr. split; assumption.
    + exact Hd.
    + exact Hi.
    + intros k Hk. destruct (He k Hk) as (bus' & dma' & next' & d' & He').
      exists bus', dma', next', d'. destruct He'. split; assumption.
  - exact Hdest.
  - intros b' Hb. apply Hold; [|exact Hb]. destruct Hb as (k & p & Hk & Hp' & Hp0 & <-).
    apply (dl_block _ _ _ Hleft k p Hk Hp' Hp0).
  - rewrite Hx. exact Hb1.
  - rewrite Hx. exact Hb2.
  - rewrite Hq. reflexivity.
  - do 2 eexists. split; [apply lookup_insert_eq|]. split; [exact Hbus|].
    repeat (split; [reflexivity|]). rewrite Hw. simpl. rewrite <- Htr. reflexivity.
Qed.

Lemma wz_start_ring w :
  descs_available -> memory_available -> 0 < fresh w ->
  wz_ready (wz_ext (eng w)) -> descs_left (wz_ext (eng w)) (fresh w) (coherent w) ->
  lock (eng w) = false -> Z.land (shutdown (eng w)) ENGINE_SHUTDOWN_REQUEST = 0 ->
  running (eng w) = 0 -> transfer_list (eng w) = [] ->
  wp ioctl_do_wz_start (fun rc w' => rc = 0 /\ ring_started w w') w.
Proof.
  intros Hav Hmem Hf Hr Hn Hl Hsh Hrun Hq. unfold ioctl_do_wz_start.
  wp_step. wp_step. rewrite (proj2 (nz_true _) (ready_flag _ Hr)). simpl.
  wp_step. wp_step. simpl. set (w0 := set_eng _ w).
  assert (Hr0 : wz_ready (wz_ext (eng w0))) by (destruct Hr; split; assumption).
  assert (Hn0 : descs_left (wz_ext (eng w0)) (fresh w0) (coherent w0)) by (destruct Hn; split; assumption).
  wp_step. eapply wp_conseq; [apply (wz_build_loop w0); assumption|].
  intros r w1 [-> Hb]. cbn beta iota.
  wp_step. apply (close_ring w0 w1); [assumption..|]. intros w2 Hc.
  wp_step. eapply wp_conseq; [apply (wz_fill_loop w0); assumption|].
  intros [] w3 Hfl.
  eapply wp_conseq; [apply (wz_submit_ring w0); try assumption; reflexivity|].
  intros rc w4 [-> [? ? ? ? ? ? ? ? ?]]. split; [reflexivity|]. split; assumption.
Qed.

(** ** Stop *)

(** the freeing loop of [ioctl_do_wz_stop] after [i] turns *)
Definition stopped_upto (w0 : world) (i : Z) (w : world) : Prop :=
  let x0 := wz_ext (eng w0) in
  exists tr mem ds dmas,
    w = w0 <| trace := tr |> <| coherent := mem |>
          <| eng -> wz_ext := x0 <| desc := ds |> <| buf_dma_t := dmas |> |> /\
    writes tr = writes (trace w0) /\
    Z.of_nat (length ds) = WZ_DMA_NOFBUFS /\ Z.of_nat (length dmas) = WZ_DMA_NOFBUFS /\
    (forall k, 0 <= k < i -> zlookup ds k = Some dnull /\ zlookup dmas k = Some 0 /\
      forall p, zlookup (desc x0) k = Some p -> mem !! fst p = None) /\
    (forall k, i <= k < WZ_DMA_NOFBUFS -> zlookup ds k = zlookup (desc x0) k /\
      forall p, zlookup (desc x0) k = Some p -> mem !! fst p = coherent w0 !! fst p) /\
    (forall b, (forall k p, 0 <= k < WZ_DMA_NOFBUFS -> zlookup (desc x0) k = Some p -> fst p <> b) ->
      mem !! b = coherent w0 !! b).

Lemma wz_stop_one_ok w0 i w :
  ring_shape (wz_ext (eng w0)) (coherent w0) -> 0 <= i < WZ_DMA_NOFBUFS ->
  stopped_upto w0 i w -> wp (wz_stop_one i) (fun _ => stopped_upto w0 (i + 1)) w.
Proof.
  intros [Hr Hdesc Hinj] Hi (tr & mem & ds & dmas & -> & Htr & Hlds & Hldm & Hdone & Hrest & Hoth).
  destruct (Hdesc i Hi) as (p & d & Hp & Hp0 & Hd).
  destruct (Hrest i ltac:(lia)) as (Hdi & Hbi). specialize (Hbi p Hp).
  assert (Hblk : exists blk, mem !! fst p = Some blk).
  { rewrite Hbi. unfold lookup_mem in Hd. destruct (coherent w0 !! fst p); [eauto|discriminate]. }
  destruct Hblk as [blk Hblk].
  destruct (zlookup_is_Some (desc_dma (wz_ext (eng w0))) i) as [bus Hbus].
  { rewrite (len_desc_dma _ Hr). exact Hi. }
  unfold wz_stop_one. wp_step. wp_step. simpl. wp_step. eapply wp_index; [rewrite Hdi; exact Hp|].
  unfold dptr_is_null. destruct (Z.eqb_spec (fst p) 0); [lia|]. wp_step; [|discriminate].
  wp_step. wp_step. simpl. wp_step. wp_step; [exact Hbus|].
  wp_step. apply (wp_xdma_desc_free _ _ _ blk); [exact Hp0|lia|exact Hblk|]. simpl.
  wp_run. eexists _, (delete (fst p) mem), (set_at i dnull ds), (set_at i 0 dmas).
  split; [state_eq|]. split; [exact Htr|].
  split; [apply zinsert_len, Hlds|]. split; [apply zinsert_len, Hldm|].
  assert (Hds : forall k, zlookup (set_at i dnull ds) k = if decide (k = i) then Some dnull else zlookup ds k)
    by (intros k; apply (zlookup_zinsert _ _ _ _ _ Hlds), Hi).
  assert (Hdm : forall k, zlookup (set_at i 0 dmas) k = if decide (k = i) then Some 0 else zlookup dmas k)
    by (intros k; apply (zlookup_zinsert _ _ _ _ _ Hldm), Hi).
  split; [|split].
  - intros k Hk. rewrite Hds, Hdm. case_decide as E.
    + subst. split; [reflexivity|]. split; [reflexivity|]. intros q Hq.
      assert (q = p) as -> by congruence. apply lookup_delete_eq.
    + destruct (Hdone k ltac:(lia)) as (H1 & H2 & H3). split; [exact H1|]. split; [exact H2|].
      intros q Hq. destruct (decide (fst p = fst q)) as [->|]; [apply lookup_delete_eq|].
      rewrite lookup_delete_ne by congruence. apply H3, Hq.
  - intros k Hk. rewrite Hds, decide_False by lia. destruct (Hrest k ltac:(lia)) as (H1 & H2).
    split; [exact H1|]. intros q Hq. rewrite lookup_delete_ne; [apply H2, Hq|].
    intros E. assert (i = k) by (eapply Hinj; try eassumption; lia). lia.
  - intros b Hb. rewrite lookup_delete_ne; [apply Hoth, Hb|]. apply (Hb i p Hi Hp).
Qed.

Lemma wz_stop_loop w0 :
  ring_shape (wz_ext (eng w0)) (coherent w0) ->
  wp (for_ 0 WZ_DMA_NOFBUFS wz_stop_one) (fun _ => stopped_upto w0 WZ_DMA_NOFBUFS) w0.
Proof.
  intros Hs. pose proof (rs_ready _ _ Hs) as Hr.
  eapply (wp_for (stopped_upto w0)); [unfold WZ_DMA_NOFBUFS; lia| | |auto].
  - exists (trace w0), (coherent w0), (desc (wz_ext (eng w0))), (buf_dma_t (wz_ext (eng w0))).
    split; [state_eq|]. split; [reflexivity|]. split; [apply Hr|]. split; [apply Hr|].
    split; [intros; lia|]. split; [intros; split; reflexivity|reflexivity].
  - intros k w Hk. apply wz_stop_one_ok; assumption.
Qed.

(** what [ioctl_do_wz_stop] leaves when nothing runs: the descriptors are
    freed and every bus address of a buffer is lost *)
Record ring_stopped (w w' : world) : Prop := {
  sp_no_descs : no_descs (wz_ext (eng w'));
  sp_buffers k : 0 <= k < WZ_DMA_NOFBUFS -> zlookup (buf_dma_t (wz_ext (eng w'))) k = Some 0;
  sp_ready : wz_ready (wz_ext (eng w'));
  sp_transfer : ext_transfer (wz_ext (eng w')) = 0;
  sp_engine : exists x, eng w' = (eng w) <| wz_ext := x |>;
  sp_fresh : fresh w' = fresh w;
  sp_freed k p : 0 <= k < WZ_DMA_NOFBUFS -> zlookup (desc (wz_ext (eng w))) k = Some p ->
    coherent w' !! fst p = None
}.

Lemma wz_stop_tail w w1 :
  ring_shape (wz_ext (eng w)) (coherent w) ->
  eng w1 = (eng w) <| wz_ext := (wz_ext (eng w)) <| ext_transfer := 0 |> |> ->
  coherent w1 = coherent w -> fresh w1 = fresh w ->
  wp (for_ 0 WZ_DMA_NOFBUFS wz_stop_one) (fun _ => ring_stopped w) w1.
Proof.
  intros Hs He Hc Hf.
  assert (Hs1 : ring_shape (wz_ext (eng w1)) (coherent w1)).
  { rewrite He, Hc. destruct Hs as [[] H2 H3]. split; [split; assumption|exact H2|exact H3]. }
  eapply wp_conseq; [apply wz_stop_loop, Hs1|].
  intros [] w' (tr & mem & ds & dmas & -> & _ & Hlds & Hldm & Hdone & _ & _).
  rewrite He in Hdone. simpl in Hdone.
  split; simpl; rewrite ?He; simpl.
  - intros k Hk. apply Hdone, Hk.
  - intros k Hk. apply Hdone, Hk.
  - destruct (rs_ready _ _ Hs). split; assumption.
  - reflexivity.
  - exists ((wz_ext (eng w)) <| ext_transfer := 0 |> <| desc := ds |> <| buf_dma_t := dmas |>).
    state_eq.
  - exact Hf.
  - intros k p Hk Hp. destruct (Hdone k Hk) as (_ & _ & H). apply H, Hp.
Qed.

Lemma wz_stop_idle w :
  ring_shape (wz_ext (eng w)) (coherent w) ->
  lock (eng w) = false -> running (eng w) = 0 -> transfer_list (eng w) = [] ->
  (ext_transfer (wz_ext (eng w)) <> 0 ->
    is_Some (transfers w !! ext_transfer (wz_ext (eng w)))) ->
  wp ioctl_do_wz_stop (fun rc w' => rc = 0 /\ ring_stopped w w') w.
Proof.
  intros Hs Hl Hr Hq Ht.
  unfold ioctl_do_wz_stop, engine_cyclic_stop, wait_event_, wz_transfer_destroy, kfree_transfer.
  wp_run; [destruct (Ht (proj1 (nz_true _) H)) as [x Hx]; eapply wp_deref; [exact Hx|]; wp_run|].
  all: eapply wp_conseq;
    [apply (wz_stop_tail w); [exact Hs|state_eq; rewrite Hl; reflexivity|reflexivity|reflexivity]|].
  all: intros [] w' H'; wp_step; split; [reflexivity|exact H'].
Qed.

(** ** The claims *)

(** C1: [ioctl_do_wz_start], with the buffers allocated, the engine idle
    and memory available, frees the descriptors an earlier start left and
    builds a ring of 128 distinct descriptors, each at the bus address its
    predecessor points to, with its own bus address for the write-back and an
    exact copy for the later restore. Descriptor [k] receives into buffer [k],
    or at bus address 0 where a descriptor had been left for it. It programs
    the engine with the first descriptor and starts it, and returns 0 with the
    lock free. *)
Theorem wz_start_builds_ring w :
  descs_available -> memory_available -> 0 < fresh w ->
  wz_ready (wz_ext (eng w)) -> descs_left (wz_ext (eng w)) (fresh w) (coherent w) ->
  lock (eng w) = false -> Z.land (shutdown (eng w)) ENGINE_SHUTDOWN_REQUEST = 0 ->
  running (eng w) = 0 -> transfer_list (eng w) = [] ->
  wp ioctl_do_wz_start (fun rc w' => rc = 0 /\ ring_started w w') w.
Proof. exact (wz_start_ring w). Qed.

(** C30: a ring that is stopped, on an engine at rest, and started again, as the
    driver allows without allocating buffers anew, has bus address 0 as the
    destination of every descriptor, the allocations succeeding:
    [ioctl_do_wz_stop] zeroes [buf_dma_t] where it means [desc_dma]. *)
Theorem wz_restart_targets_address_0 w :
  descs_available -> memory_available -> 0 < fresh w ->
  ring_shape (wz_ext (eng w)) (coherent w) ->
  lock (eng w) = false -> Z.land (shutdown (eng w)) ENGINE_SHUTDOWN_REQUEST = 0 ->
  running (eng w) = 0 -> transfer_list (eng w) = [] ->
  (ext_transfer (wz_ext (eng w)) <> 0 ->
    is_Some (transfers w !! ext_transfer (wz_ext (eng w)))) ->
  wp (ioctl_do_wz_stop ;; ioctl_do_wz_start) (fun rc w' => rc = 0 /\
    running (eng w') = 1 /\
    forall k, 0 <= k < WZ_DMA_NOFBUFS -> exists p d,
      zlookup (desc (wz_ext (eng w'))) k = Some p /\
      lookup_mem (coherent w') p = Some d /\
      le32_to_cpu (bytes d) = WZ_DMA_BUFLEN /\ d_dst d = 0) w.
Proof.
  intros Hav Hmem Hf Hs Hl Hsh Hr Hq Ht. apply wp_bind.
  eapply wp_conseq; [apply wz_stop_idle; assumption|].
  intros rc w1 [-> [Hn Hb Hrd _ [x He] Hfr _]].
  pose proof (no_descs_left _ (fresh w1) (coherent w1) Hn) as Hleft.
  eapply wp_conseq; [apply wz_start_ring; try assumption; rewrite ?Hfr, ?He; assumption|].
  intros rc w2 [-> St]. split; [reflexivity|]. split; [apply St|]. intros k Hk.
  destruct (proj2 (st_ring _ _ St) k Hk) as (bus & dma & next & d & [(b & Hp & _ & Hd) _ Hdma _ _ Hby _ Hdst _ _]).
  exists (b, 0), d. split; [exact Hp|]. split; [exact Hd|]. split; [exact Hby|].
  rewrite (st_buffers _ _ St k Hk), (no_descs_destination _ k Hn Hk), Hb in Hdma by exact Hk. congruence.
Qed.
End Ring.
