(* ===== verification/WzScan.v ===== *)
(** * The scan for completed blocks and its specification *)
From S2P Require Import Prelude Layout Kernel World Desc Engine Wz WzRing.

(** ** The specification: assembling blocks from results *)

(** the entry after [p] of the ring *)
Definition ring_next (p : Z) : Z := Z.land (p + 1) (WZ_DMA_NOFBUFS - 1).

Definition is_eop (r : xdma_result) : bool := nz (Z.land (r_status r) 1).

(** [blocks first pos l]: the results [l], of the entries from [pos] on, cut
    after every end of packet; [first] is the first entry of the block that is
    being assembled *)
Fixpoint blocks (first pos : Z) (l : list xdma_result) : list wz_xdma_data_block_desc :=
  match l with
  | [] => []
  | r :: l' =>
      if is_eop r then mk_block first pos (r_length r) :: blocks (ring_next pos) (ring_next pos) l'
      else blocks first (ring_next pos) l'
  end.

(** [assemble room first scanned pos l]: the same with a queue that has room
    for [room] blocks; gives the blocks queued and the entries where the next
    block begins and where the next scan goes on *)
Fixpoint assemble (room : nat) (first scanned pos : Z) (l : list xdma_result)
  : list wz_xdma_data_block_desc * Z * Z :=
  match l with
  | [] => ([], first, pos)
  | r :: l' =>
      if is_eop r then
        match room with
        | O => ([], first, scanned)
        | S room' =>
            let p := ring_next pos in
            let '(bs, f, s) := assemble room' p p p l' in
            (mk_block first pos (r_length r) :: bs, f, s)
        end
      else assemble room first scanned (ring_next pos) l'
  end.

(** the entry [n] places after [p] *)
Fixpoint ring_skip (n : nat) (p : Z) : Z :=
  match n with O => p | S n' => ring_skip n' (ring_next p) end.

Definition on_ring (p : Z) : Prop := 0 <= p < WZ_DMA_NOFBUFS.

Lemma ring_next_mod p : ring_next p = (p + 1) mod WZ_DMA_NOFBUFS.
Proof.
  unfold ring_next. change (WZ_DMA_NOFBUFS - 1) with (Z.ones 7).
  rewrite Z.land_ones by lia. reflexivity.
Qed.

Lemma ring_next_on p : on_ring (ring_next p).
Proof. rewrite ring_next_mod. apply Z.mod_pos_bound. reflexivity. Qed.

Lemma ring_skip_mod n : forall p, on_ring p -> ring_skip n p = (p + Z.of_nat n) mod WZ_DMA_NOFBUFS.
Proof.
  induction n as [|n IH]; intros p Hp; simpl ring_skip.
  - rewrite Z.mod_small; [lia|]. unfold on_ring in Hp. lia.
  - rewrite IH by apply ring_next_on. rewrite ring_next_mod, Zplus_mod_idemp_l.
    f_equal. lia.
Qed.

(** blocks that follow one another on the ring, from entry [f] up to entry [f'] *)
Fixpoint chain (f : Z) (bs : list wz_xdma_data_block_desc) (f' : Z) : Prop :=
  match bs with
  | [] => f = f'
  | b :: bs' => first_desc b = f /\ on_ring (last_desc b) /\ chain (ring_next (last_desc b)) bs' f'
  end.

Lemma chain_app f bs1 f1 bs2 f2 :
  chain f bs1 f1 -> chain f1 bs2 f2 -> chain f (bs1 ++ bs2)%list f2.
Proof.
  revert f. induction bs1 as [|b bs1 IH]; intros f H1 H2; simpl in *; [subst; exact H2|].
  destruct H1 as (? & ? & ?). auto.
Qed.

(** What [assemble] queues are blocks of the specification, as many as there
    is room for, and they are contiguous. *)
Lemma assemble_blocks l : forall room first scanned pos,
  fst (fst (assemble room first scanned pos l)) = take room (blocks first pos l).
Proof.
  induction l as [|r l IH]; intros room first scanned pos; simpl.
  - rewrite take_nil. reflexivity.
  - destruct (is_eop r); [|apply IH]. destruct room as [|room]; [reflexivity|].
    specialize (IH room (ring_next pos) (ring_next pos) (ring_next pos)).
    destruct (assemble room _ _ _ l) as [[bs f] s]. simpl in *. rewrite IH. reflexivity.
Qed.

Lemma assemble_chain l : forall room first scanned pos,
  on_ring pos ->
  let '(bs, f, _) := assemble room first scanned pos l in chain first bs f.
Proof.
  induction l as [|r l IH]; intros room first scanned pos Hp; simpl; [reflexivity|].
  destruct (is_eop r); [|apply IH, ring_next_on]. destruct room as [|room]; [reflexivity|].
  specialize (IH room (ring_next pos) (ring_next pos) (ring_next pos) (ring_next_on pos)).
  destruct (assemble room _ _ _ l) as [[bs f] s]. split; [reflexivity|].
  split; [exact Hp|exact IH].
Qed.

Lemma assemble_on_ring l : forall room first scanned pos,
  on_ring first -> on_ring scanned -> on_ring pos ->
  let '(_, f, s) := assemble room first scanned pos l in on_ring f /\ on_ring s.
Proof.
  induction l as [|r l IH]; intros room first scanned pos Hf Hs Hp; simpl; [auto|].
  destruct (is_eop r); [|apply IH; auto using ring_next_on]. destruct room as [|room]; [auto|].
  specialize (IH room _ _ _ (ring_next_on pos) (ring_next_on pos) (ring_next_on pos)).
  destruct (assemble room _ _ _ l) as [[bs f] s]. exact IH.
Qed.

(** Nothing is lost when the queue fills up: the scan goes on at [s] with
    block [f], and the blocks it has not queued are exactly those the
    specification gives from there on.  [pre] are the results between the last
    place the scan can resume from and [pos]; they complete no block. *)
Lemma assemble_resume l : forall room first scanned pos pre,
  on_ring scanned -> pos = ring_skip (length pre) scanned ->
  Forall (fun r => is_eop r = false) pre ->
  let '(bs, f, s) := assemble room first scanned pos l in
  exists n, s = ring_skip n scanned /\ (n <= length (pre ++ l))%nat /\
    blocks first scanned (pre ++ l) = (bs ++ blocks f s (drop n (pre ++ l)))%list.
Proof.
  assert (Hpre : forall pre l first p, Forall (fun r => is_eop r = false) pre ->
    blocks first p (pre ++ l) = blocks first (ring_skip (length pre) p) l).
  { induction pre as [|r pre IH]; intros l' first p Hf; [reflexivity|].
    inversion Hf as [|? ? Hr Hf']; subst. simpl. rewrite Hr. apply IH, Hf'. }
  induction l as [|r l IH]; intros room first scanned pos pre Hsc -> Hf; cbn [assemble].
  - exists (length pre). split; [reflexivity|]. rewrite app_nil_r. split; [lia|].
    rewrite drop_all. simpl. rewrite <- (app_nil_r pre) at 1. rewrite Hpre by exact Hf. reflexivity.
  - destruct (is_eop r) eqn:Er.
    + destruct room as [|room].
      * exists 0%nat. split; [reflexivity|]. split; [lia|]. reflexivity.
      * set (p := ring_next (ring_skip (length pre) scanned)).
        specialize (IH room p p p [] (ring_next_on _) eq_refl (Forall_nil_2 _)).
        destruct (assemble room p p p l) as [[bs f] s].
        destruct IH as (n & -> & Hn & Hb). simpl in Hn, Hb.
        exists (length pre + S n)%nat.
        assert (Hsk : forall a p', ring_skip (a + S n) p' = ring_skip n (ring_next (ring_skip a p'))).
        { induction a as [|a IHa]; intros p'; [reflexivity|]. apply (IHa (ring_next p')). }
        split; [symmetry; apply Hsk|]. split; [rewrite length_app; simpl; lia|].
        rewrite Hpre by exact Hf. simpl blocks. rewrite Er. simpl. f_equal. fold p. rewrite Hb.
        do 2 f_equal. rewrite drop_app_ge by lia. replace (length pre + S n - length pre)%nat with (S n) by lia.
        reflexivity.
    + replace (pre ++ r :: l) with ((pre ++ [r]) ++ l) by (rewrite <- app_assoc; reflexivity).
      specialize (IH room first scanned (ring_next (ring_skip (length pre) scanned)) (pre ++ [r]) Hsc).
      apply IH.
      * rewrite length_app. simpl.
        assert (Hsk : forall a p', ring_skip (a + 1) p' = ring_next (ring_skip a p')).
        { induction a as [|a IHa]; intros p'; [reflexivity|]. apply (IHa (ring_next p')). }
        symmetry. apply Hsk.
      * apply Forall_app. split; [exact Hf|]. constructor; [exact Er|constructor].
Qed.

(** ** The scan of the driver implements the specification *)

(** the result in entry [k] *)
Definition entry_result (x : wz_xdma_engine_ext) (mem : gmap Z dblock) (k : Z) : option xdma_result :=
  match zlookup (desc x) k with
  | Some p => desc_result <$> lookup_mem mem p
  | None => None
  end.

(** the results of the entries from [p] on are [l] *)
Fixpoint ring_reads (rd : Z -> option xdma_result) (p : Z) (l : list xdma_result) : Prop :=
  match l with
  | [] => True
  | r :: l' => rd p = Some r /\ ring_reads rd (ring_next p) l'
  end.

Section Scan.
Context {bo : ByteOrder} {env : Env} {sched : Sched}.

(** what a scan changes: the queue and the two positions, and the trace *)
Definition scan_state (w : world) (tr : history) (q : list wz_xdma_data_block_desc) (f s : Z) : world :=
  w <| trace := tr |> <| eng -> wz_ext := (wz_ext (eng w))
         <| kfifo := q |> <| block_first_desc := f |> <| block_scanned_desc := s |> |>.

(** the entries can be read and their buffers exist *)
Definition ring_readable (w : world) : Prop :=
  (forall k, on_ring k -> is_Some (entry_result (wz_ext (eng w)) (coherent w) k)) /\
  (forall k, on_ring k -> is_Some (zlookup (buf_dma_t (wz_ext (eng w))) k)) /\
  kfifo_size (wz_ext (eng w)) <> 0.

Definition rd (w : world) : Z -> option xdma_result := entry_result (wz_ext (eng w)) (coherent w).

Lemma ring_shape_readable w :
  ring_shape (wz_ext (eng w)) (coherent w) -> kfifo_size (wz_ext (eng w)) <> 0 -> ring_readable w.
Proof.
  intros [Hr Hd _] Hk. split; [|split; [|exact Hk]].
  - intros k Hr'. destruct (Hd k Hr') as (p & d & H1 & _ & H2).
    unfold entry_result. rewrite H1, H2. simpl. eauto.
  - intros k Hr'. apply zlookup_is_Some. rewrite (len_buf_dma_t _ Hr). exact Hr'.
Qed.

Lemma entry_result_inv x mem k r :
  entry_result x mem k = Some r ->
  exists p d, zlookup (desc x) k = Some p /\ lookup_mem mem p = Some d /\ r = desc_result d.
Proof.
  unfold entry_result. destruct (zlookup (desc x) k) as [p|]; [|discriminate].
  destruct (lookup_mem mem p) as [d|] eqn:E; [|discriminate]. intros [= <-]. eauto.
Qed.

(** the four outcomes of a turn *)

Lemma scan_one_stop w tr q f s p r :
  rd w p = Some r -> is_writeback r = false ->
  wp (wz_scan_one p) (fun v w' => v = inr tt /\ w' = scan_state w tr q f p) (scan_state w tr q f s).
Proof.
  intros (d & x & Hd & Hx & ->)%entry_result_inv Hw. unfold wz_scan_one.
  wp_run. split; [reflexivity|state_eq].
Qed.

Lemma scan_one_skip w tr q f s p r :
  ring_readable w -> on_ring p -> rd w p = Some r -> is_writeback r = true -> is_eop r = false ->
  wp (wz_scan_one p) (fun v w' => v = inl (ring_next p) /\
    exists tr', w' = scan_state w tr' q f s) (scan_state w tr q f s).
Proof.
  intros (_ & Hdma & _) Hp (d & x & Hd & Hx & ->)%entry_result_inv Hw He. unfold wz_scan_one.
  destruct (Hdma p Hp) as [dma Hdm]. unfold is_eop in He.
  wp_run. split; [reflexivity|]. eexists. state_eq.
Qed.

Lemma scan_one_report w tr q f s p r :
  ring_readable w -> on_ring p -> on_ring f ->
  rd w p = Some r -> is_writeback r = true -> is_eop r = true ->
  Z.of_nat (length q) < kfifo_size (wz_ext (eng w)) ->
  wp (wz_scan_one p) (fun v w' => v = inl (ring_next p) /\
    exists tr', w' = scan_state w tr' (q ++ [mk_block f p (r_length r)])%list
                       (ring_next p) (ring_next p)) (scan_state w tr q f s).
Proof.
  intros (_ & Hdma & Hsz) Hp Hf (d & x & Hd & Hx & ->)%entry_result_inv Hw He Hroom.
  unfold wz_scan_one, kfifo_put. destruct (Hdma p Hp) as [dma Hdm]. unfold is_eop in He.
  apply Z.eqb_neq in Hsz. apply Z.ltb_lt in Hroom.
  assert (Hu : forall v, on_ring v -> u32 v = v)
    by (intros v Hv; apply u32_id; unfold on_ring, is_u32, WZ_DMA_NOFBUFS in *; lia).
  wp_run.
  split; [reflexivity|]. eexists. state_eq. rewrite !Hu by assumption. reflexivity.
Qed.

Lemma scan_one_full w tr q f s p r :
  ring_readable w -> on_ring p ->
  rd w p = Some r -> is_writeback r = true -> is_eop r = true ->
  kfifo_size (wz_ext (eng w)) <= Z.of_nat (length q) ->
  wp (wz_scan_one p) (fun v w' => v = inr tt /\
    exists tr', w' = scan_state w tr' q f s) (scan_state w tr q f s).
Proof.
  intros (_ & Hdma & Hsz) Hp (d & x & Hd & Hx & ->)%entry_result_inv Hw He Hroom.
  unfold wz_scan_one, kfifo_put. destruct (Hdma p Hp) as [dma Hdm]. unfold is_eop in He.
  apply Z.eqb_neq in Hsz. apply Z.ltb_ge in Hroom.
  wp_run.
  split; [reflexivity|]. eexists. state_eq.
Qed.

(** the scan of written-back results [l] followed by a descriptor that is not *)
Lemma scan_loop w l : forall fuel tr q f s p r,
  ring_readable w -> on_ring p -> on_ring f ->
  ring_reads (rd w) p l -> Forall (fun r => is_writeback r = true) l ->
  rd w (ring_skip (length l) p) = Some r -> is_writeback r = false ->
  (length l < fuel)%nat ->
  let room := Z.to_nat (kfifo_size (wz_ext (eng w)) - Z.of_nat (length q)) in
  wp (loop fuel wz_scan_one p) (fun _ w' =>
    let '(bs, f', s') := assemble room f s p l in
    exists tr', w' = scan_state w tr' (q ++ bs)%list f' s') (scan_state w tr q f s).
Proof.
  induction l as [|r0 l IH]; intros fuel tr q f s p r Hrd Hp Hf Hl Hall Hr Hw Hfuel;
    (destruct fuel as [|fuel]; [simpl in Hfuel; lia|]); cbn [loop]; apply wp_bind.
  - eapply wp_conseq; [eapply scan_one_stop; eassumption|].
    intros v w' [-> ->]. exists tr. rewrite app_nil_r. reflexivity.
  - destruct Hl as [Hr0 Hl]. inversion Hall as [|? ? Hw0 Hall']; subst.
    simpl in Hfuel. cbn [assemble]. destruct (is_eop r0) eqn:He.
    + destruct (Z.lt_ge_cases (Z.of_nat (length q)) (kfifo_size (wz_ext (eng w)))) as [Hroom|Hroom].
      * eapply wp_conseq; [eapply scan_one_report; eassumption|].
        intros v w' (-> & tr' & ->). cbv beta iota.
        eapply wp_conseq; [eapply (IH fuel); try eassumption; try apply ring_next_on; lia|].
        intros [] w'. rewrite length_app. cbn [length].
        replace (Z.to_nat (kfifo_size (wz_ext (eng w)) - Z.of_nat (length q)))
          with (S (Z.to_nat (kfifo_size (wz_ext (eng w)) - Z.of_nat (length q + 1)))) by lia.
        destruct (assemble _ (ring_next p) (ring_next p) (ring_next p) l) as [[bs f'] s'].
        intros [tr2 ->]. exists tr2. rewrite <- app_assoc. reflexivity.
      * eapply wp_conseq; [eapply scan_one_full; eassumption|].
        intros v w' (-> & tr' & ->).
        replace (Z.to_nat (kfifo_size (wz_ext (eng w)) - Z.of_nat (length q))) with 0%nat by lia.
        exists tr'. rewrite app_nil_r. reflexivity.
    + eapply wp_conseq; [eapply scan_one_skip; eassumption|].
      intros v w' (-> & tr' & ->). cbv beta iota.
      eapply IH; try eassumption; [apply ring_next_on|lia].
Qed.

(** the scan from any state, as a list of results decides it *)
Lemma wz_scan_ok w l r fuel :
  ring_readable w -> on_ring (block_scanned_desc (wz_ext (eng w))) ->
  on_ring (block_first_desc (wz_ext (eng w))) ->
  ring_reads (rd w) (block_scanned_desc (wz_ext (eng w))) l ->
  Forall (fun r => is_writeback r = true) l ->
  rd w (ring_skip (length l) (block_scanned_desc (wz_ext (eng w)))) = Some r ->
  is_writeback r = false -> (length l < fuel)%nat ->
  let x := wz_ext (eng w) in
  let room := Z.to_nat (kfifo_size x - Z.of_nat (length (kfifo x))) in
  wp (wz_scan fuel) (fun _ w' =>
    let '(bs, f, s) :=
      assemble room (block_first_desc x) (block_scanned_desc x) (block_scanned_desc x) l in
    exists tr, w' = scan_state w tr (kfifo x ++ bs)%list f s) w.
Proof.
  intros Hrd Hs Hf Hl Hall Hr Hw Hfuel x room. unfold wz_scan. apply wp_bind, wp_getX.
  assert (E : w = scan_state w (trace w) (kfifo x) (block_first_desc x) (block_scanned_desc x))
    by state_eq.
  pose proof (scan_loop w l fuel (trace w) (kfifo x) (block_first_desc x) (block_scanned_desc x)
    (block_scanned_desc x) r Hrd Hs Hf Hl Hall Hr Hw Hfuel) as H.
  subst x. rewrite <- E in H. exact H.
Qed.

(** ** Termination *)

(** the results of [n] entries from [p] on *)
Lemma reads_exist w n : ring_readable w -> forall p, on_ring p ->
  exists l, length l = n /\ ring_reads (rd w) p l.
Proof.
  intros (Hr & _ & _). induction n as [|n IH]; intros p Hp; [exists []; split; [reflexivity|exact I]|].
  destruct (Hr p Hp) as [r Hr']. destruct (IH (ring_next p) (ring_next_on p)) as (l & Hl & Hll).
  exists (r :: l). split; [simpl; lia|]. split; assumption.
Qed.

(** up to the first entry the device has not written back *)
Lemma writeback_prefix w n : ring_readable w -> forall p r, on_ring p ->
  rd w (ring_skip n p) = Some r -> is_writeback r = false ->
  exists l r', (length l <= n)%nat /\ ring_reads (rd w) p l /\
    Forall (fun r => is_writeback r = true) l /\
    rd w (ring_skip (length l) p) = Some r' /\ is_writeback r' = false.
Proof.
  intros Hrd. induction n as [|n IH]; intros p r Hp Hr Hw.
  - exists [], r. split; [simpl; lia|]. split; [exact I|]. split; [constructor|]. split; assumption.
  - destruct (proj1 Hrd p Hp) as [r0 Hr0]. destruct (is_writeback r0) eqn:E.
    + destruct (IH (ring_next p) r (ring_next_on p) Hr Hw) as (l & r' & H1 & H2 & H3 & H4 & H5).
      exists (r0 :: l), r'. split; [simpl; lia|]. split; [split; assumption|].
      split; [constructor; assumption|]. split; assumption.
    + exists [], r0. split; [simpl; lia|]. split; [exact I|]. split; [constructor|]. split; assumption.
Qed.

Lemma ring_skip_reach p q : on_ring p -> on_ring q ->
  exists n, (n < 128)%nat /\ ring_skip n p = q.
Proof.
  intros Hp Hq. unfold on_ring, WZ_DMA_NOFBUFS in *.
  exists (Z.to_nat ((q - p) mod 128)). pose proof (Z.mod_pos_bound (q - p) 128 ltac:(lia)).
  split; [lia|]. rewrite ring_skip_mod by exact Hp. rewrite Z2Nat.id by lia.
  unfold WZ_DMA_NOFBUFS. rewrite Zplus_mod_idemp_r. replace (p + (q - p)) with q by lia.
  apply Z.mod_small. lia.
Qed.

(** one turn never ends the scan when every entry is written back and no
    packet ends *)
Lemma scan_diverges w fuel : forall tr q f s p,
  ring_readable w -> on_ring p ->
  (forall k r, on_ring k -> rd w k = Some r -> is_writeback r = true /\ is_eop r = false) ->
  loop fuel wz_scan_one p (scan_state w tr q f s) = Abort OutOfFuel.
Proof.
  induction fuel as [|fuel IH]; intros tr q f s p Hrd Hp Hall; [reflexivity|]. rewrite loop_S.
  destruct (proj1 Hrd p Hp) as [r Hr]. destruct (Hall p r Hp Hr) as [Hw He].
  pose proof (scan_one_skip w tr q f s p r Hrd Hp Hr Hw He) as H.
  apply wp_ok in H as (v & w' & E & -> & tr' & ->). rewrite (bind_ok _ _ _ _ _ E).
  apply IH; [exact Hrd|apply ring_next_on|exact Hall].
Qed.

(** ** The theorems *)

(** C3: the scan of the service handler cuts the written-back results [l], up
    to the first descriptor that is not written back, into the blocks of the
    specification: it queues as many of them, in order, as the queue has room
    for; the queued blocks are contiguous on the ring; and the place where
    the next scan resumes is such that the specification gives there exactly
    the blocks that were not queued.  Nothing but the queue and the two
    positions changes. *)
Theorem wz_scan_assembles_blocks w l r fuel :
  ring_shape (wz_ext (eng w)) (coherent w) -> kfifo_size (wz_ext (eng w)) <> 0 ->
  on_ring (block_scanned_desc (wz_ext (eng w))) ->
  on_ring (block_first_desc (wz_ext (eng w))) ->
  ring_reads (rd w) (block_scanned_desc (wz_ext (eng w))) l ->
  Forall (fun r => is_writeback r = true) l ->
  rd w (ring_skip (length l) (block_scanned_desc (wz_ext (eng w)))) = Some r ->
  is_writeback r = false -> (length l < fuel)%nat ->
  let x := wz_ext (eng w) in
  let room := Z.to_nat (kfifo_size x - Z.of_nat (length (kfifo x))) in
  let specified := blocks (block_first_desc x) (block_scanned_desc x) l in
  wp (wz_scan fuel) (fun _ w' => exists tr f n,
    w' = scan_state w tr (kfifo x ++ take room specified)%list f
           (ring_skip n (block_scanned_desc x)) /\
    chain (block_first_desc x) (take room specified) f /\
    (n <= length l)%nat /\
    specified = (take room specified ++
      blocks f (ring_skip n (block_scanned_desc x)) (drop n l))%list) w.
Proof.
  intros Hsh Hk Hs Hf Hl Hall Hr Hw Hfuel x room specified.
  eapply wp_conseq; [eapply (wz_scan_ok w l r fuel); try eassumption; apply ring_shape_readable; assumption|].
  intros [] w'. cbv beta zeta. fold x room.
  pose proof (assemble_blocks l room (block_first_desc x) (block_scanned_desc x) (block_scanned_desc x)) as Hb.
  pose proof (assemble_chain l room (block_first_desc x) (block_scanned_desc x) (block_scanned_desc x) Hs) as Hc.
  pose proof (assemble_resume l room (block_first_desc x) (block_scanned_desc x) (block_scanned_desc x) [] Hs eq_refl (Forall_nil_2 _)) as Hres.
  destruct (assemble _ _ _ _ l) as [[bs f] s]. simpl in Hb. subst bs.
  destruct Hres as (n & -> & Hn & Hspec). intros [tr ->].
  exists tr, f, n. split; [reflexivity|]. split; [exact Hc|]. split; [exact Hn|exact Hspec].
Qed.

(** the scan ends, within 128 turns, as soon as one descriptor of the
    ring is not written back. *)
Lemma wz_scan_terminates w k r :
  ring_shape (wz_ext (eng w)) (coherent w) -> kfifo_size (wz_ext (eng w)) <> 0 ->
  on_ring (block_scanned_desc (wz_ext (eng w))) ->
  on_ring (block_first_desc (wz_ext (eng w))) ->
  on_ring k -> rd w k = Some r -> is_writeback r = false ->
  exists w', wz_scan 128 w = Ok tt w'.
Proof.
  intros Hsh Hk Hs Hf Hok Hr Hw.
  pose proof (ring_shape_readable _ Hsh Hk) as Hrd.
  destruct (ring_skip_reach _ k Hs Hok) as (n & Hn & <-).
  destruct (writeback_prefix w n Hrd _ r Hs Hr Hw) as (l & r' & H1 & H2 & H3 & H4 & H5).
  assert (Hlt : (length l < 128)%nat) by lia.
  pose proof (wz_scan_ok w l r' 128 Hrd Hs Hf H2 H3 H4 H5 Hlt) as H.
  apply wp_ok in H as ([] & w' & E & _). exists w'. exact E.
Qed.

(** C29: when the device has written back all the descriptors of the ring and
    no packet ends in them (a packet longer than the ring), the interrupt
    handler never returns: no amount of fuel is enough. *)
Theorem wz_scan_of_a_full_ring_diverges w fuel :
  ring_shape (wz_ext (eng w)) (coherent w) -> kfifo_size (wz_ext (eng w)) <> 0 ->
  on_ring (block_scanned_desc (wz_ext (eng w))) ->
  (forall k r, on_ring k -> rd w k = Some r -> is_writeback r = true /\ is_eop r = false) ->
  wz_scan fuel w = Abort OutOfFuel.
Proof.
  intros Hsh Hk Hs Hall.
  pose proof (scan_diverges w fuel (trace w) (kfifo (wz_ext (eng w))) (block_first_desc (wz_ext (eng w)))
    (block_scanned_desc (wz_ext (eng w))) (block_scanned_desc (wz_ext (eng w)))
    (ring_shape_readable _ Hsh Hk) Hs Hall) as H.
  replace (scan_state _ _ _ _ _) with w in H by (unfold scan_state; state_eq).
  exact H.
Qed.
End Scan.
