(* ===== verification/WzFlow.v ===== *)
(** * The flow of blocks from the device to the reader

    The interrupt handler, the readers, the confirmations and the device run
    in any order; the blocks handed out stay contiguous on the ring. *)
From S2P Require Import Prelude Layout Kernel World Desc Engine Wz WzRing WzScan.

Section Flow.
Context {bo : ByteOrder} {env : Env} {sched : Sched}.

(** ** The invariant *)

(** [d] are the blocks handed out since the start, oldest first *)
Definition flow_ext (f0 : Z) (d : list wz_xdma_data_block_desc) (x : wz_xdma_engine_ext) : Prop :=
  Z.of_nat (length (desc x)) = WZ_DMA_NOFBUFS /\
  on_ring (block_first_desc x) /\
  chain f0 (d ++ kfifo x)%list (block_first_desc x) /\
  Z.of_nat (length (kfifo x)) <= kfifo_size x.
Definition flow (f0 : Z) (d : list wz_xdma_data_block_desc) (w : world) : Prop :=
  flow_ext f0 d (wz_ext (eng w)).

Lemma scan_one_flow f0 d p : keeps (implies (flow f0 d)) (wz_scan_one p).
Proof.
  apply keeps_wlp. intros w. unfold wz_scan_one, kfifo_put. wlp_run; intros Hf; try exact Hf.
  all: destruct Hf as (Hlen & Hon & Hch & Hsz). unfold flow, flow_ext; cbn.
  assert (Hp : on_ring p) by (unfold on_ring; rewrite <- Hlen; eapply zlookup_Some; eassumption).
  assert (Hu : forall v, on_ring v -> u32 v = v)
    by (intros v Hv; apply u32_id; unfold on_ring, is_u32, WZ_DMA_NOFBUFS in *; lia).
  rewrite !Hu by assumption. split; [exact Hlen|]. split; [apply (ring_next_on p)|].
  apply Z.ltb_lt in Heqb2. split; [|rewrite length_app; cbn; lia].
  rewrite app_assoc. eapply chain_app; [exact Hch|].
  split; [reflexivity|]. split; [exact Hp|]. reflexivity.
Qed.

(** the end of the service and the confirmations leave the extension alone *)
Lemma wz_idle_ext : keeps (same (fun w => wz_ext (eng w))) wz_idle.
Proof.
  unfold wz_idle, wz_engine_transfer_dequeue, first_transfer, list_del_first,
    engine_service_shutdown, xdma_engine_stop, write_er.
  frame.
Qed.

Lemma engine_status_read_ext c :
  keeps (same (fun w => wz_ext (eng w))) (engine_status_read c).
Proof. unfold engine_status_read, read_er. frame. Qed.

Lemma confirm_one_ext last i : keeps (same (fun w => wz_ext (eng w))) (wz_confirm_one last i).
Proof. unfold wz_confirm_one, wz_restore, store. frame. Qed.

Lemma confirm_ext fuel arg : keeps (same (fun w => wz_ext (eng w))) (ioctl_do_wz_confirm fuel arg).
Proof.
  unfold ioctl_do_wz_confirm. frame_step; [frame|]. frame_step; [frame|].
  apply keeps_loop; [typeclasses eauto|]. intros; apply confirm_one_ext.
Qed.

Lemma service_flow f0 d fuel :
  keeps (implies (flow f0 d)) (wz_engine_service_cyclic_interrupt fuel).
Proof.
  pose proof (keeps_same_implies _ (flow_ext f0 d) _ wz_idle_ext) as H1.
  pose proof (keeps_same_implies _ (flow_ext f0 d) _ (engine_status_read_ext true)) as H2.
  pose proof (scan_one_flow f0 d) as H3.
  unfold wz_engine_service_cyclic_interrupt, wz_scan.
  do 3 (frame_step; [first [apply H2 | frame]|]).
  frame_step; [frame_step; [frame|]; apply keeps_loop; [typeclasses eauto|exact H3]|].
  frame_step; [apply H1|frame].
Qed.

(** ** The reader *)

(** a reader that is awake: there is a block or the engine has stopped *)
Lemma getbuf_ok arg w b q :
  running (eng w) <> 0 -> kfifo (wz_ext (eng w)) = b :: q ->
  wp (ioctl_do_wz_getbuf arg) (fun rc w' => exists r,
    r = answer (trace w) copy_to_user [arg; first_desc b; last_desc b; last_len b] /\
    rc = (if nz (nth 0 r 0) then - EINVAL else 0) /\
    w' = w <| trace := Call copy_to_user [arg; first_desc b; last_desc b; last_len b] r :: trace w |>
           <| eng -> wz_ext := (wz_ext (eng w)) <| kfifo := q |> |>) w.
Proof.
  intros Hr%nz_true Hk.
  assert (Hlen : (1 <=? Z.of_nat (length (b :: q))) = true) by (apply Z.leb_le; cbn; lia).
  unfold ioctl_do_wz_getbuf, wait_event_interruptible_, kfifo_get.
  wp_run; eexists; (split; [reflexivity|]); (split; [use_state; reflexivity|state_eq]).
Qed.

Lemma getbuf_stopped arg w :
  running (eng w) = 0 -> wp (ioctl_do_wz_getbuf arg) (fun rc w' => rc = - EIO /\ w' = w) w.
Proof.
  intros Hr. unfold ioctl_do_wz_getbuf, wait_event_interruptible_.
  apply wp_bind, wp_bind, wp_gets. rewrite Hr, orb_true_r. wp_run. split; reflexivity.
Qed.

(** ** Interleavings *)

(** One step of one of the threads or of the device.  [d] collects the
    blocks the readers were handed. *)
Inductive flow_step : list wz_xdma_data_block_desc * world ->
                      list wz_xdma_data_block_desc * world -> Prop :=
| flow_service fuel rc d w w' :
    wz_engine_service_cyclic_interrupt fuel w = Ok rc w' -> flow_step (d, w) (d, w')
| flow_getbuf arg rc d w w' b q :
    running (eng w) <> 0 -> kfifo (wz_ext (eng w)) = b :: q ->
    ioctl_do_wz_getbuf arg w = Ok rc w' -> flow_step (d, w) (d ++ [b], w')%list
| flow_getbuf_stopped arg rc d w w' :
    running (eng w) = 0 -> ioctl_do_wz_getbuf arg w = Ok rc w' -> flow_step (d, w) (d, w')
| flow_confirm fuel arg rc d w w' :
    ioctl_do_wz_confirm fuel arg w = Ok rc w' -> flow_step (d, w) (d, w')
| flow_device mem d w :
    same_shape (coherent w) mem -> flow_step (d, w) (d, w <| coherent := mem |>).

Lemma flow_step_inv f0 c c' :
  flow_step c c' -> flow f0 (fst c) (snd c) -> flow f0 (fst c') (snd c').
Proof.
  intros [fuel rc d w w' E|arg rc d w w' b q Hr Hk E|arg rc d w w' Hr E|fuel arg rc d w w' E|mem d w Hm];
    cbn; intros Hf.
  - exact (service_flow f0 d fuel _ _ _ E Hf).
  - pose proof (wlp_elim _ _ _ _ _ (wp_wlp _ _ _ (getbuf_ok arg w b q Hr Hk)) E) as (r & _ & _ & ->).
    destruct Hf as (H1 & H2 & H3 & H4). unfold flow, flow_ext. cbn. rewrite Hk in H3, H4.
    split; [exact H1|]. split; [exact H2|]. split; [|cbn in H4; lia].
    rewrite <- app_assoc. exact H3.
  - pose proof (wlp_elim _ _ _ _ _ (wp_wlp _ _ _ (getbuf_stopped arg w Hr)) E) as (_ & ->). exact Hf.
  - exact (keeps_same_implies _ (flow_ext f0 d) _ (confirm_ext fuel arg) _ _ _ E Hf).
  - exact Hf.
Qed.

Lemma flow_reachable f0 c c' :
  rtc flow_step c c' -> flow f0 (fst c) (snd c) -> flow f0 (fst c') (snd c').
Proof. induction 1; [exact id|]. intros H1. eapply IHrtc, flow_step_inv; eassumption. Qed.

Lemma chain_neighbours f bs f' i b b' :
  chain f bs f' -> bs !! i = Some b -> bs !! S i = Some b' ->
  first_desc b' = ring_next (last_desc b).
Proof.
  revert f i. induction bs as [|b0 bs IH]; intros f i Hc Hb Hb'; [discriminate|].
  destruct Hc as (_ & _ & Hc). destruct i as [|i]; [|eapply IH; eassumption].
  injection Hb as ->. destruct bs as [|b1 bs]; [discriminate|]. injection Hb' as ->. apply Hc.
Qed.

(** ** The claims *)

(** C2: in every interleaving of interrupt services, readers, confirmations
    and writes of the device, from the state [ioctl_do_wz_start] leaves with
    an empty queue, the blocks handed to the readers, followed by those still
    in the queue, are contiguous: the first begins at descriptor 0, each
    other one right after the last descriptor of its predecessor, and the
    block being assembled right after them.  The queue never exceeds its
    capacity. *)
Theorem wz_blocks_contiguous w d w' :
  Z.of_nat (length (desc (wz_ext (eng w)))) = WZ_DMA_NOFBUFS ->
  block_first_desc (wz_ext (eng w)) = 0 -> kfifo (wz_ext (eng w)) = [] ->
  0 <= kfifo_size (wz_ext (eng w)) ->
  rtc flow_step ([], w) (d, w') ->
  let seq := (d ++ kfifo (wz_ext (eng w')))%list in
  chain 0 seq (block_first_desc (wz_ext (eng w'))) /\
  (forall i b b', seq !! i = Some b -> seq !! S i = Some b' ->
    first_desc b' = ring_next (last_desc b)) /\
  Z.of_nat (length (kfifo (wz_ext (eng w')))) <= kfifo_size (wz_ext (eng w')).
Proof.
  intros Hl Hb Hk Hsz Hr seq.
  assert (Hf : flow 0 [] w).
  { unfold flow, flow_ext. rewrite Hb, Hk. cbn. split; [exact Hl|].
    split; [unfold on_ring, WZ_DMA_NOFBUFS; lia|]. split; [reflexivity|lia]. }
  apply (flow_reachable 0) in Hr as (_ & _ & Hc & Hq); [|exact Hf].
  split; [exact Hc|]. split; [|exact Hq]. intros i b b'. apply (chain_neighbours _ _ _ _ _ _ Hc).
Qed.

(** With a block in the queue and the engine running, a reader gets the
    oldest block, and it leaves the queue; when the copy to the reader fails
    the call returns [-EINVAL] and the block is gone as well. *)
Theorem wz_getbuf_takes_oldest arg w b q :
  running (eng w) <> 0 -> kfifo (wz_ext (eng w)) = b :: q ->
  exists w', let r := answer (trace w) copy_to_user [arg; first_desc b; last_desc b; last_len b] in
    ioctl_do_wz_getbuf arg w = Ok (if nz (nth 0 r 0) then - EINVAL else 0) w' /\
    trace w' = Call copy_to_user [arg; first_desc b; last_desc b; last_len b] r :: trace w /\
    kfifo (wz_ext (eng w')) = q.
Proof.
  intros Hr Hk. pose proof (getbuf_ok arg w b q Hr Hk) as H.
  apply wp_ok in H as (rc & w' & E & r & -> & -> & ->).
  eexists. cbv zeta. split; [exact E|]. split; reflexivity.
Qed.
End Flow.
