(* ===== verification/WzConfirm.v ===== *)
(** * Confirming a block: the descriptors are given back to the device *)
From Stdlib Require Import List.
From S2P Require Import Prelude Layout Kernel World Desc Engine Wz WzRing WzScan.
#[local] Open Scope list_scope.
#[local] Open Scope Z_scope.
Ltac wp_hook ::= wp_engine.

Section Confirm.
Context {bo : ByteOrder} {env : Env} {sched : Sched}.

(** the stores that restore a descriptor, newest first: the control word is
    the last, behind a barrier *)
Definition restore_events (p : dptr) (c : xdma_desc) : history :=
  let st k v := Call store_word [fst p; snd p; k; v] [] in
  [Call mb [] []; st 0 (control c); Call mb [] [];
   st 7 (next_hi c); st 6 (next_lo c); st 5 (dst_addr_hi c); st 4 (dst_addr_lo c);
   st 3 (src_addr_hi c); st 2 (src_addr_lo c); st 1 (bytes c)].

Lemma wp_store p k v d (Q : unit -> world -> Prop) w :
  lookup_mem (coherent w) p = Some d ->
  Q tt (log (Call store_word [fst p; snd p; k; v] []) w
    <| coherent ::= update_mem p (set_word k v d) |>) -> wp (store p k v) Q w.
Proof. intros H HQ. unfold store. wp_step. wp_step. eapply wp_setD; [exact H|exact HQ]. Qed.

Lemma wz_restore_ok p c d w :
  lookup_mem (coherent w) p = Some d ->
  wp (wz_restore p c) (fun _ w' =>
    w' = w <| trace ::= app (restore_events p c) |> <| coherent ::= update_mem p c |>) w.
Proof.
  intros Hd. unfold wz_restore.
  do 7 (wp_step; eapply wp_store; [repeat eapply lookup_update_mem_eq; exact Hd|]).
  wp_step. wp_step. wp_step. eapply wp_store; [repeat eapply lookup_update_mem_eq; exact Hd|]. wp_step.
  apply world_eq; try reflexivity. cbn. rewrite !update_mem_twice. destruct c. reflexivity.
Qed.

(** ** The ring in memory *)

Definition ring_mapped (x : wz_xdma_engine_ext) (mem : gmap Z dblock) : Prop :=
  forall k, on_ring k -> exists p, zlookup (desc x) k = Some p /\ is_Some (lookup_mem mem p).

Lemma ring_mapped_update x mem p d : ring_mapped x mem -> ring_mapped x (update_mem p d mem).
Proof.
  intros H k Hk. destruct (H k Hk) as (q & Hq & Hs). exists q. split; [exact Hq|].
  eapply same_shape_lookup; [apply same_shape_update|exact Hs].
Qed.

(** what the confirmation of [n] entries from [i] on does to memory and to
    the history *)
Definition confirmed (x : wz_xdma_engine_ext) (i : Z) (n : nat) (mem mem' : gmap Z dblock) : Prop :=
  forall k p, on_ring k -> zlookup (desc x) k = Some p ->
    lookup_mem mem' p = if (k - i) mod WZ_DMA_NOFBUFS <? Z.of_nat n
                        then desc_copy x ≫= (fun cs => zlookup cs k) else lookup_mem mem p.

Definition entry_events (x : wz_xdma_engine_ext) (i : Z) : history :=
  match zlookup (desc x) i, desc_copy x ≫= (fun cs => zlookup cs i), zlookup (buf_dma_t x) i with
  | Some p, Some c, Some dma =>
      restore_events p c ++ [Call dma_sync_single_range_for_device [dma; 0; WZ_DMA_BUFLEN] []]
  | _, _, _ => []
  end.
Fixpoint confirm_events (x : wz_xdma_engine_ext) (i : Z) (n : nat) : history :=
  match n with
  | O => []
  | S n' => confirm_events x (ring_next i) n' ++ entry_events x i
  end.

Lemma on_ring_eq i m last : on_ring i -> (i + Z.of_nat m) mod WZ_DMA_NOFBUFS = last ->
  Z.of_nat m < WZ_DMA_NOFBUFS -> (u32 i =? last) = (Nat.eqb m 0).
Proof.
  unfold on_ring, WZ_DMA_NOFBUFS, u32. intros Hi <- Hm. rewrite Z.mod_small by lia.
  pose proof (Z.div_mod (i + Z.of_nat m) 128). pose proof (Z.mod_pos_bound (i + Z.of_nat m) 128).
  destruct (Z.eqb_spec i ((i + Z.of_nat m) mod 128)), (Nat.eqb_spec m 0); lia.
Qed.

Lemma arc_step i k n : on_ring i -> on_ring k -> k <> i -> Z.of_nat (S n) <= WZ_DMA_NOFBUFS ->
  ((k - ring_next i) mod WZ_DMA_NOFBUFS <? Z.of_nat n)
  = ((k - i) mod WZ_DMA_NOFBUFS <? Z.of_nat (S n)).
Proof.
  unfold on_ring. intros Hi Hk Hne Hn. rewrite ring_next_mod. unfold WZ_DMA_NOFBUFS in *.
  rewrite Zminus_mod_idemp_r. pose proof (Z.div_mod (k - (i + 1)) 128). pose proof (Z.div_mod (k - i) 128).
  pose proof (Z.mod_pos_bound (k - (i + 1)) 128). pose proof (Z.mod_pos_bound (k - i) 128).
  destruct (Z.ltb_spec ((k - (i + 1)) mod 128) (Z.of_nat n)),
    (Z.ltb_spec ((k - i) mod 128) (Z.of_nat (S n))); lia.
Qed.

Lemma arc_last i n : on_ring i -> Z.of_nat (S n) <= WZ_DMA_NOFBUFS ->
  ((i - ring_next i) mod WZ_DMA_NOFBUFS <? Z.of_nat n) = false.
Proof.
  unfold on_ring. intros Hi Hn. rewrite ring_next_mod. unfold WZ_DMA_NOFBUFS in *.
  rewrite Zminus_mod_idemp_r. replace (i - (i + 1)) with (-1) by lia. apply Z.ltb_ge.
  change ((-1) mod 128) with 127. lia.
Qed.

(** one entry is restored *)
Lemma confirm_one_ok last i w :
  wz_ready (wz_ext (eng w)) -> ring_mapped (wz_ext (eng w)) (coherent w) -> on_ring i ->
  wp (wz_confirm_one last i) (fun r w' =>
    r = (if u32 i =? last then inr 0 else inl (ring_next i)) /\
    exists p c, zlookup (desc (wz_ext (eng w))) i = Some p /\
      desc_copy (wz_ext (eng w)) ≫= (fun cs => zlookup cs i) = Some c /\
      w' = w <| trace ::= app (entry_events (wz_ext (eng w)) i) |> <| coherent ::= update_mem p c |>) w.
Proof.
  intros Hrdy Hmap Hi. destruct Hrdy as [_ Hlb _ _ _ (cs & Hcs & Hlc)].
  destruct (Hmap i Hi) as (p & Hp & d & Hd).
  destruct (zlookup_is_Some (buf_dma_t (wz_ext (eng w))) i) as [dma Hdma];
    [unfold on_ring in Hi; lia|].
  destruct (zlookup_is_Some cs i) as [c Hc]; [unfold on_ring in Hi; lia|].
  unfold wz_confirm_one. wp_step. wp_step. wp_step. eapply wp_index; [exact Hdma|].
  wp_step. wp_step. wp_step. wp_step. wp_step. eapply wp_index; [exact Hp|].
  wp_step. wp_step. wp_step. eapply wp_deref; [exact Hcs|]. wp_step. eapply wp_index; [exact Hc|].
  wp_step. eapply wp_conseq; [eapply wz_restore_ok; exact Hd|]. intros [] w1 ->.
  eapply (wp_conseq _ (fun r w' => r = (if u32 i =? last then inr 0 else inl (ring_next i)) /\ w' = _)).
  - destruct (u32 i =? last); wp_step; split; reflexivity.
  - intros r w2 [-> ->]. split; [reflexivity|]. exists p, c.
    split; [exact Hp|]. split; [rewrite Hcs; exact Hc|].
    unfold entry_events. rewrite Hp, Hcs. cbn [mbind option_bind]. rewrite Hc, Hdma.
    apply world_eq; reflexivity.
Qed.

Lemma confirm_loop last m : forall i w fuel,
  wz_ready (wz_ext (eng w)) -> ring_mapped (wz_ext (eng w)) (coherent w) ->
  (forall j k p q, zlookup (desc (wz_ext (eng w))) j = Some p ->
     zlookup (desc (wz_ext (eng w))) k = Some q -> on_ring j -> on_ring k -> fst p = fst q -> j = k) ->
  on_ring i -> (i + Z.of_nat m) mod WZ_DMA_NOFBUFS = last -> Z.of_nat m < WZ_DMA_NOFBUFS ->
  (m < fuel)%nat ->
  wp (loop fuel (wz_confirm_one last) i) (fun rc w' => rc = 0 /\ exists mem',
    w' = w <| trace ::= app (confirm_events (wz_ext (eng w)) i (S m)) |> <| coherent := mem' |> /\
    confirmed (wz_ext (eng w)) i (S m) (coherent w) mem') w.
Proof.
  induction m as [|m IH]; intros i w fuel Hrdy Hmap Hinj Hi Hl Hm Hf;
    (destruct fuel as [|fuel]; [lia|]); rewrite loop_S; wp_step;
    (eapply wp_conseq; [apply confirm_one_ok; assumption|]);
    intros r w1 (-> & p & c & Hp & Hc & ->); rewrite (on_ring_eq i _ last Hi Hl) by lia; cbn [Nat.eqb].
  - wp_step. split; [reflexivity|]. eexists. split.
    + apply world_eq; reflexivity.
    + intros k q Hk Hq. destruct (Z.eq_dec k i) as [->|Hne].
      * rewrite Z.sub_diag. change (0 mod WZ_DMA_NOFBUFS <? Z.of_nat 1) with true. cbv iota.
        assert (q = p) as -> by congruence. rewrite Hc.
        destruct (Hmap i Hi) as (p' & Hp' & d & Hd). assert (p' = p) as -> by congruence.
        eapply lookup_update_mem_eq, Hd.
      * rewrite <- (arc_step i k 0) by (assumption || (unfold WZ_DMA_NOFBUFS; lia)).
        rewrite (proj2 (Z.ltb_ge _ _)) by (apply Z.mod_pos_bound; reflexivity).
        apply lookup_update_mem_ne. intros <-. apply Hne. eapply Hinj; eauto.
  - match goal with |- wp _ _ ?st => set (w1 := st) end.
    eapply wp_conseq.
    + apply (IH (ring_next i) w1 fuel);
        [exact Hrdy|apply ring_mapped_update, Hmap|exact Hinj|apply ring_next_on| |lia|lia].
      rewrite ring_next_mod, Zplus_mod_idemp_l, <- Hl. f_equal. lia.
    + intros rc w2 (-> & mem' & -> & Hmem). split; [reflexivity|]. exists mem'. split.
      * apply world_eq; try reflexivity. cbn. rewrite <- !app_assoc. reflexivity.
      * intros k q Hk Hq. rewrite (Hmem k q Hk Hq). destruct (Z.eq_dec k i) as [->|Hne].
        -- rewrite (arc_last i (S m) Hi) by lia. rewrite Z.sub_diag.
           change (0 mod WZ_DMA_NOFBUFS <? Z.of_nat (S (S m))) with true. cbv iota.
           assert (q = p) as -> by congruence. rewrite Hc.
           destruct (Hmap i Hi) as (p' & Hp' & d & Hd). assert (p' = p) as -> by congruence.
           eapply lookup_update_mem_eq, Hd.
        -- rewrite (arc_step i k (S m) Hi Hk Hne) by lia.
           destruct (_ <? _); [reflexivity|]. apply lookup_update_mem_ne. intros <-.
           apply Hne. eapply Hinj; eauto.
Qed.

Lemma u32_small v : 0 <= v < 2 ^ 32 -> u32 v = v.
Proof. exact (Z.mod_small v (2 ^ 32)). Qed.
Lemma s32_u32_small v : 0 <= v < 2 ^ 31 -> s32 (u32 v) = v.
Proof. intros H. rewrite u32_small by lia. unfold s32. rewrite Z.mod_small; lia. Qed.

(** the loop of a confirmation, on entries of the ring *)
Lemma confirm_entries w first last fuel :
  ring_shape (wz_ext (eng w)) (coherent w) -> on_ring first -> on_ring last -> (128 <= fuel)%nat ->
  let x := wz_ext (eng w) in
  let n := S (Z.to_nat ((last - first) mod WZ_DMA_NOFBUFS)) in
  wp (loop fuel (wz_confirm_one last) first) (fun rc w' => rc = 0 /\ exists mem',
    w' = w <| trace ::= app (confirm_events x first n) |> <| coherent := mem' |> /\
    confirmed x first n (coherent w) mem') w.
Proof.
  intros Hsh Hf Hl Hfu x n. pose proof Hl as Hl'. unfold on_ring, WZ_DMA_NOFBUFS in Hl'.
  pose proof (Z.mod_pos_bound (last - first) WZ_DMA_NOFBUFS eq_refl) as Hm.
  apply (confirm_loop last (Z.to_nat ((last - first) mod WZ_DMA_NOFBUFS)) first w fuel).
  - apply (rs_ready _ _ Hsh).
  - intros k Hk. destruct (rs_desc _ _ Hsh k Hk) as (p & d & Hp & _ & Hd).
    exists p. split; [exact Hp|]. exists d. exact Hd.
  - intros j k p q Hp Hq Hj Hk. apply (rs_inj _ _ Hsh j k p q Hp Hq Hj Hk).
  - exact Hf.
  - rewrite Z2Nat.id by lia. rewrite Zplus_mod_idemp_r. replace (first + (last - first)) with last by lia.
    apply Z.mod_small, Hl.
  - rewrite Z2Nat.id by lia. lia.
  - apply Nat.lt_le_trans with 128%nat; [|exact Hfu].
    change 128%nat with (Z.to_nat WZ_DMA_NOFBUFS). apply Z2Nat.inj_lt; lia.
Qed.

(** C4: confirming the entries from [first] up to [last], around the end of
    the ring too, gives exactly these entries back to the device: each gets
    the descriptor the ring was built with, its control word stored last and
    behind a barrier, and no other descriptor changes.  The loop ends after at
    most 128 turns. *)
Theorem wz_confirm_restores_the_block w arg first last rest fuel :
  ring_shape (wz_ext (eng w)) (coherent w) ->
  answer (trace w) copy_from_user [arg; 8] = 0 :: first :: last :: rest ->
  on_ring first -> on_ring last -> (128 <= fuel)%nat ->
  let x := wz_ext (eng w) in
  let n := S (Z.to_nat ((last - first) mod WZ_DMA_NOFBUFS)) in
  wp (ioctl_do_wz_confirm fuel arg) (fun rc w' => rc = 0 /\ exists mem',
    w' = w <| trace := confirm_events x first n
                ++ Call copy_from_user [arg; 8] (0 :: first :: last :: rest) :: trace w |>
           <| coherent := mem' |> /\
    confirmed x first n (coherent w) mem') w.
Proof.
  intros Hsh Hu Hf Hl Hfu x n. unfold ioctl_do_wz_confirm. wp_step. wp_step.
  change (trace_of w) with (trace w). rewrite Hu. change (nz (nth 0 _ 0)) with false. cbv iota.
  cbn [nth]. pose proof Hf as Hf'. pose proof Hl as Hl'. unfold on_ring, WZ_DMA_NOFBUFS in Hf', Hl'.
  rewrite (s32_u32_small first), (u32_small last) by lia.
  eapply wp_conseq; [apply confirm_entries; assumption|].
  intros rc w2 (-> & mem' & -> & Hmem). split; [reflexivity|]. exists mem'. split; [|exact Hmem].
  apply world_eq; reflexivity.
Qed.

(** a [last] that is not on the ring is never met *)
Lemma confirm_never_ends last : ~ on_ring last -> is_u32 last -> forall fuel i w,
  wz_ready (wz_ext (eng w)) -> ring_mapped (wz_ext (eng w)) (coherent w) -> on_ring i ->
  loop fuel (wz_confirm_one last) i w = Abort OutOfFuel.
Proof.
  intros Hl Hu. induction fuel as [|fuel IH]; intros i w Hrdy Hmap Hi; [reflexivity|].
  rewrite loop_S. pose proof (confirm_one_ok last i w Hrdy Hmap Hi) as H.
  apply wp_ok in H as (r & w1 & E & -> & p & c & _ & _ & ->). rewrite (bind_ok _ _ _ _ _ E).
  replace (u32 i =? last) with false.
  - apply IH; [exact Hrdy|apply ring_mapped_update, Hmap|apply ring_next_on].
  - symmetry. apply Z.eqb_neq. unfold u32. rewrite Z.mod_small by (unfold on_ring, WZ_DMA_NOFBUFS in Hi; lia).
    intros <-. exact (Hl Hi).
Qed.

(** C31: a confirmation whose last entry is not a number of the ring is only
    reported, and then never comes to an end. *)
Theorem wz_confirm_beyond_the_ring_diverges w arg first last rest fuel :
  ring_shape (wz_ext (eng w)) (coherent w) ->
  answer (trace w) copy_from_user [arg; 8] = 0 :: first :: last :: rest ->
  on_ring first -> WZ_DMA_NOFBUFS <= last < 2 ^ 32 ->
  ioctl_do_wz_confirm fuel arg w = Abort OutOfFuel.
Proof.
  intros Hsh Hu Hf Hl. unfold ioctl_do_wz_confirm.
  rewrite (bind_ok (ext_all copy_from_user [arg; 8]) _ w _ _ eq_refl).
  change (trace_of w) with (trace w). rewrite Hu. change (nz (nth 0 _ 0)) with false. cbv iota. cbn [nth].
  pose proof Hf as Hf'. unfold on_ring, WZ_DMA_NOFBUFS in Hf', Hl.
  rewrite (s32_u32_small first), (u32_small last) by lia.
  apply confirm_never_ends.
  - unfold on_ring, WZ_DMA_NOFBUFS. lia.
  - exact (conj (Z.le_trans 0 128 last ltac:(lia) (proj1 Hl)) (proj2 Hl)).
  - apply (rs_ready _ _ Hsh).
  - intros k Hk. destruct (rs_desc _ _ Hsh k Hk) as (p & d & Hp & _ & Hd).
    exists p. split; [exact Hp|]. exists d. exact Hd.
  - exact Hf.
Qed.
End Confirm.
