(* ===== verification/Sgm.v ===== *)
(** * The scatter-gather mapper (xdma-sgm.c)

    [pages] and [sgl] are arrays of [max_pages] entries, at the addresses
    [pages_at] and [sgl_at]; [mapped_pages] of them are in use. *)
From S2P Require Import Prelude Layout Kernel World.

(** [sgm->field] and stores to it *)
Definition getS {A} (f : sg_mapping_t -> A) (p : Z) : prog world A :=
  s <- deref (fun w => sgms w !! p) ;; ret (f s).
Definition setS (f : sg_mapping_t -> sg_mapping_t) (p : Z) : prog world unit :=
  s <- deref (fun w => sgms w !! p) ;;
  modify (fun w => w <| sgms ::= <[p := f s]> |>).

Definition zero_sg : sg_entry := mk_sg 0 0 0 0 0.

(** the first [n] entries are reset ([sg_init_table]) *)
Definition sg_init_table (n : Z) (l : list sg_entry) : list sg_entry :=
  (replicate (Nat.min (Z.to_nat n) (length l)) zero_sg ++ drop (Z.to_nat n) l)%list.
(** [sg_set_page(&sgl[i], page, length, offset)]; the DMA fields stay *)
Definition sg_set_page (page length offset : Z) (e : sg_entry) : sg_entry :=
  e <| sg_page := page |> <| sg_length := length |> <| sg_offset := offset |>.
Definition on_entry (i : Z) (f : sg_entry -> sg_entry) (l : list sg_entry) : list sg_entry :=
  match zlookup l i with Some e => zinsert i (f e) l | None => l end.

Definition page_of (addr : Z) : Z := Z.shiftr (u64 addr) PAGE_SHIFT.
Definition offset_in_page (addr : Z) : Z := Z.land addr (PAGE_SIZE - 1).
(** the number of pages a buffer touches, as the C [int] *)
Definition nr_pages_of (start count : Z) : Z :=
  s32 (u32 (u64 (page_of (u64 (start + count - 1)) - page_of start + 1))).

Section Sgm.
Context {env : Env}.

(** [kcalloc] of a structure: null or a fresh object *)
Definition sg_create_mapper (max_len : Z) : prog world Z :=
  if max_len =? 0 then ret 0 else
    s <- ext kcalloc [1; 32] ;;
    if s =? 0 then ret 0 else
      p <- gets fresh ;;
      let mx := s32 (u32 (max_len / PAGE_SIZE + 2)) in
      pgs <- ext kcalloc [mx; 8] ;;
      if pgs =? 0 then ext_ kfree [p] ;; ret 0 else
        l <- ext kcalloc [mx; 32] ;;
        if l =? 0 then ext_ kfree [pgs] ;; ext_ kfree [p] ;; ret 0 else
          modify (fun w => w <| fresh := p + 1 |> <| sgms ::= <[p :=
            mk_sgm (replicate (Z.to_nat mx) zero_sg) (replicate (Z.to_nat mx) 0) mx 0 l pgs]> |>) ;;
          ret p.

Definition sg_destroy_mapper (sgm : Z) : prog world unit :=
  m <- getS mapped_pages sgm ;;
  BUG_ON (0 <? m) ;;
  l <- getS sgl_at sgm ;;
  ext_ kfree [l] ;;
  pgs <- getS pages_at sgm ;;
  ext_ kfree [pgs] ;;
  ext_ kfree [sgm] ;;
  modify (fun w => w <| sgms ::= delete sgm |>).

(** The entries 1 to [nr_pages - 2], a page each; gives what remains. *)
Fixpoint sgm_full_pages (sgm : Z) (n : nat) (i count : Z) : prog world Z :=
  match n with
  | O => ret count
  | S n' =>
      BUG_ON (count <? PAGE_SIZE) ;;
      pgs <- getS pages sgm ;;
      page <- index pgs i ;;
      setS (fun s => s <| sgl ::= on_entry i (sg_set_page page PAGE_SIZE 0) |>) sgm ;;
      sgm_full_pages sgm n' (i + 1) (u64 (count - PAGE_SIZE))
  end.

(** "populate the scatter/gather list", for both kinds of memory *)
Definition sgm_populate (sgm start count nr_pages : Z) : prog world Z :=
  pgs <- getS pages sgm ;;
  for_ 0 nr_pages (fun i => page <- index pgs i ;; ext_ flush_dcache_page [page]) ;;
  page0 <- index pgs 0 ;;
  let offset := offset_in_page start in
  setS (fun s => s <| sgl ::= on_entry 0 (sg_set_page page0 0 offset) |>) sgm ;;
  (if 1 <? nr_pages then
     setS (fun s => s <| sgl ::=
       on_entry 0 (fun e => e <| sg_length := PAGE_SIZE - offset |>) |>) sgm ;;
     count <- sgm_full_pages sgm (Z.to_nat (nr_pages - 2)) 1 (u64 (count - (PAGE_SIZE - offset))) ;;
     BUG_ON (PAGE_SIZE <? count) ;;
     page <- index pgs (nr_pages - 1) ;;
     setS (fun s => s <| sgl ::= on_entry (nr_pages - 1) (sg_set_page page (u32 count) 0) |>) sgm
   else
     setS (fun s => s <| sgl ::= on_entry 0 (fun e => e <| sg_length := u32 count |>) |>) sgm) ;;
  ret nr_pages.

(** the page pointers [get_user_pages_fast] stores *)
Definition store_pages (l : list Z) (pgs : list Z) : list Z :=
  (take (length pgs) l ++ drop (length l) pgs)%list.

(** the label [out_unmap] *)
Definition sgm_out_unmap (sgm : Z) : prog world Z :=
  m <- getS mapped_pages sgm ;;
  pgs <- getS pages sgm ;;
  for_ 0 m (fun i => page <- index pgs i ;; ext_ put_page [page]) ;;
  setS (fun s => s <| mapped_pages := 0 |>) sgm ;;
  ret (- ENOMEM).

Definition sgm_get_user_pages (sgm start count to_user : Z) : prog world Z :=
  let nr_pages := nr_pages_of start count in
  m <- getS mapped_pages sgm ;;
  BUG_ON (0 <? m) ;;
  mx <- getS max_pages sgm ;;
  if u64 (start + count) <? start then ret (- EINVAL) else
  if mx <? nr_pages then ret (- EINVAL) else
  if count =? 0 then ret 0 else
    (* the table is reset as an unsigned number of entries *)
    when (nr_pages <? 0) (abort_with BadAccess) ;;
    setS (fun s => s <| sgl ::= sg_init_table nr_pages |>) sgm ;;
    setS (fun s => s <| pages ::= store_pages (replicate (Z.to_nat (nr_pages - 1)) 0) |>) sgm ;;
    r <- ext_all get_user_pages_fast [start; nr_pages; to_user] ;;
    let rc := nth 0 r 0 in
    setS (fun s => s <| pages ::= store_pages (take (Z.to_nat rc) (tail r)) |>) sgm ;;
    if rc <? nr_pages then
      when (0 <? rc) (setS (fun s => s <| mapped_pages := rc |>) sgm) ;;
      sgm_out_unmap sgm
    else
      BUG_ON (negb (rc =? nr_pages)) ;;
      setS (fun s => s <| mapped_pages := rc |>) sgm ;;
      sgm_populate sgm start count nr_pages.

Definition sgm_dirty_pages (sgm : Z) : prog world unit :=
  m <- getS mapped_pages sgm ;;
  pgs <- getS pages sgm ;;
  for_ 0 m (fun i => page <- index pgs i ;; ext_ SetPageDirty [page]).

Definition sgm_put_user_pages (sgm dirtied : Z) : prog world Z :=
  when (nz dirtied) (sgm_dirty_pages sgm) ;;
  m <- getS mapped_pages sgm ;;
  pgs <- getS pages sgm ;;
  for_ 0 m (fun i => page <- index pgs i ;; ext_ put_page [page]) ;;
  setS (fun s => s <| mapped_pages := 0 |>) sgm ;;
  ret 0.

Definition sgm_kernel_page (sgm start i : Z) : prog world (option Z) :=
  page <- ext vmalloc_to_page [start + i * PAGE_SIZE] ;;
  setS (fun s => s <| pages ::= zinsert i page |>) sgm ;;
  if page =? 0 then
    setS (fun s => s <| mapped_pages := 0 |>) sgm ;; ret (Some (- ENOMEM))
  else
    h <- ext PageHighMem [page] ;;
    BUG_ON (nz h) ;;
    ret None.

Definition sgm_kernel_pages (sgm start count to_user : Z) : prog world Z :=
  let nr_pages := nr_pages_of start count in
  m <- getS mapped_pages sgm ;;
  BUG_ON (0 <? m) ;;
  mx <- getS max_pages sgm ;;
  if u64 (start + count) <? start then ret (- EINVAL) else
  if mx <? nr_pages then ret (- EINVAL) else
  if count =? 0 then ret 0 else
    (* the table is reset as an unsigned number of entries *)
    when (nr_pages <? 0) (abort_with BadAccess) ;;
    setS (fun s => s <| sgl ::= sg_init_table nr_pages |>) sgm ;;
    e <- for_exit 0 nr_pages (sgm_kernel_page sgm start) ;;
    match e with
    | Some rc => ret rc
    | None =>
        setS (fun s => s <| mapped_pages := nr_pages |>) sgm ;;
        sgm_populate sgm start count nr_pages
    end.
End Sgm.

(** ** Rules *)

Lemma wp_getS {A} (f : sg_mapping_t -> A) p s (Q : A -> world -> Prop) w :
  sgms w !! p = Some s -> Q (f s) w -> wp (getS f p) Q w.
Proof. intros H HQ. apply wp_bind. eapply wp_deref; [exact H|apply wp_ret, HQ]. Qed.

Lemma wp_setS f p s (Q : unit -> world -> Prop) w :
  sgms w !! p = Some s ->
  Q tt (w <| sgms ::= <[p := f s]> |>) -> wp (setS f p) Q w.
Proof. intros H HQ. apply wp_bind. eapply wp_deref; [exact H|exact HQ]. Qed.

Ltac wp_sgm :=
  lazymatch goal with
  | |- wp (getS _ _) _ _ => eapply wp_getS
  | |- wp (setS _ _) _ _ => eapply wp_setS
  | |- _ => wp_world
  end.
Ltac wp_hook ::= wp_sgm.

(** ** Pages of a buffer *)

Lemma page_of_div a : is_u64 a -> page_of a = a / PAGE_SIZE.
Proof. intros H. unfold page_of. rewrite u64_id by exact H. apply Z.shiftr_div_pow2. unfold PAGE_SHIFT; lia. Qed.

Lemma offset_in_page_mod a : offset_in_page a = a mod PAGE_SIZE.
Proof. apply (Z.land_ones a 12). lia. Qed.

(** the buffer [start, start + count) lies within the address space *)
Definition buffer_ok (start count : Z) : Prop :=
  0 <= start /\ 0 < count /\ start + count < 2 ^ 64 /\ count < 2 ^ 42.

(** the number of pages, without the wrap-around *)
Definition buffer_pages (start count : Z) : Z :=
  (start + count - 1) / PAGE_SIZE - start / PAGE_SIZE + 1.

Lemma buffer_pages_bounds start count :
  buffer_ok start count ->
  let n := buffer_pages start count in
  1 <= n /\ (n - 1) * PAGE_SIZE < start mod PAGE_SIZE + count <= n * PAGE_SIZE.
Proof.
  intros (Hs & Hc & _ & _) n. subst n. unfold buffer_pages, PAGE_SIZE.
  pose proof (Z.div_mod start 4096). pose proof (Z.div_mod (start + count - 1) 4096).
  pose proof (Z.mod_pos_bound start 4096 eq_refl). pose proof (Z.mod_pos_bound (start + count - 1) 4096 eq_refl).
  lia.
Qed.

Lemma nr_pages_ok start count :
  buffer_ok start count -> nr_pages_of start count = buffer_pages start count.
Proof.
  intros H. pose proof (buffer_pages_bounds start count H) as Hb. destruct H as (Hs & Hc & He & Hm).
  cbv zeta in Hb. unfold nr_pages_of. rewrite (u64_id (start + count - 1)) by (unfold is_u64; lia).
  rewrite !page_of_div by (unfold is_u64; lia). fold (buffer_pages start count).
  assert (buffer_pages start count < 2 ^ 31).
  { unfold PAGE_SIZE in *. pose proof (Z.mod_pos_bound start 4096 eq_refl). lia. }
  rewrite u64_id by (unfold is_u64; lia). rewrite u32_id by (unfold is_u32; lia).
  apply s32_id. lia.
Qed.

(** ** What the list describes *)

(** entry [k] of the list of a buffer of [count] bytes at [start] *)
Definition buffer_offset (start k : Z) : Z := if k =? 0 then start mod PAGE_SIZE else 0.
Definition buffer_length (start count k : Z) : Z :=
  let n := buffer_pages start count in
  (if k =? n - 1 then start mod PAGE_SIZE + count - k * PAGE_SIZE else PAGE_SIZE)
  - buffer_offset start k.

Lemma buffer_entry_in_page start count k :
  buffer_ok start count -> 0 <= k < buffer_pages start count ->
  0 <= buffer_offset start k /\ 0 < buffer_length start count k /\
  buffer_offset start k + buffer_length start count k <= PAGE_SIZE.
Proof.
  intros Hb Hk. destruct (buffer_pages_bounds _ _ Hb) as (_ & H2).
  destruct Hb as (Hs & Hc & _). unfold buffer_length, buffer_offset, PAGE_SIZE in *.
  pose proof (Z.mod_pos_bound start 4096 eq_refl).
  destruct (Z.eqb_spec k 0), (Z.eqb_spec k (buffer_pages start count - 1)); lia.
Qed.

(** the bytes of the first [k] entries *)
Fixpoint buffer_bytes (start count : Z) (k : nat) : Z :=
  match k with
  | O => 0
  | S k' => buffer_bytes start count k' + buffer_length start count (Z.of_nat k')
  end.

(** entry [k] begins where the entries before it end, and all of them are the
    whole buffer *)
Lemma buffer_bytes_at start count k :
  buffer_ok start count -> (0 < k)%nat -> Z.of_nat k < buffer_pages start count ->
  start mod PAGE_SIZE + buffer_bytes start count k = Z.of_nat k * PAGE_SIZE.
Proof.
  intros Hb. induction k as [|k IH]; [lia|]. intros _ Hk. cbn [buffer_bytes].
  destruct k as [|k].
  - cbn [buffer_bytes]. unfold buffer_length, buffer_offset, PAGE_SIZE.
    change (Z.of_nat 0) with 0. change (Z.of_nat 1) with 1 in *.
    destruct (Z.eqb_spec 0 (buffer_pages start count - 1)); [lia|]. rewrite Z.eqb_refl. lia.
  - specialize (IH ltac:(lia) ltac:(lia)). unfold buffer_length, buffer_offset, PAGE_SIZE in *.
    destruct (Z.eqb_spec (Z.of_nat (S k)) (buffer_pages start count - 1)); [lia|].
    destruct (Z.eqb_spec (Z.of_nat (S k)) 0); lia.
Qed.

Lemma buffer_bytes_all start count :
  buffer_ok start count ->
  buffer_bytes start count (Z.to_nat (buffer_pages start count)) = count.
Proof.
  intros Hb. destruct (buffer_pages_bounds _ _ Hb) as (H1 & H2).
  replace (Z.to_nat (buffer_pages start count)) with (S (Z.to_nat (buffer_pages start count - 1))) by lia.
  cbn [buffer_bytes]. set (k := Z.to_nat (buffer_pages start count - 1)).
  assert (Hk : Z.of_nat k = buffer_pages start count - 1) by (subst k; lia).
  unfold buffer_length, buffer_offset. rewrite Hk, Z.eqb_refl.
  destruct (Z.eqb_spec (buffer_pages start count - 1) 0) as [E|E].
  - assert (k = 0%nat) by lia. rewrite H. cbn [buffer_bytes]. unfold PAGE_SIZE. lia.
  - pose proof (buffer_bytes_at start count k Hb ltac:(lia) ltac:(lia)). lia.
Qed.

(** ** The list is populated *)

Lemma zlookup_on_entry i f l k :
  zlookup (on_entry i f l) k = if decide (k = i) then f <$> zlookup l k else zlookup l k.
Proof.
  unfold on_entry. case_decide as E.
  - subst k. destruct (zlookup l i) as [e|] eqn:El; cbn; [|exact El].
    apply zlookup_zinsert_eq, (zlookup_Some _ _ _ El).
  - destruct (zlookup l i); [|reflexivity]. apply zlookup_zinsert_ne. congruence.
Qed.

Lemma on_entry_length i f l : length (on_entry i f l) = length l.
Proof. unfold on_entry. destruct (zlookup l i); [apply zinsert_length|reflexivity]. Qed.

Section SgmFacts.
Context {env : Env}.

(** the state with the list [l] in mapper [p], and the pages as in [s] *)
Definition with_sgl (w : world) (p : Z) (s : sg_mapping_t) (tr : history) (l : list sg_entry) : world :=
  w <| trace := tr |> <| sgms := <[p := s <| sgl := l |>]> (sgms w) |>.

Lemma setS_with_sgl f (Q : unit -> world -> Prop) w p s tr l :
  Q tt (with_sgl w p s tr (f l)) ->
  wp (setS (fun s => s <| sgl ::= f |>) p) Q (with_sgl w p s tr l).
Proof.
  intros HQ. eapply wp_setS; [apply lookup_insert_eq|].
  match goal with |- Q tt ?w' => replace w' with (with_sgl w p s tr (f l)); [exact HQ|] end.
  unfold with_sgl. apply world_eq; try reflexivity. cbn. rewrite insert_insert_eq. reflexivity.
Qed.

Lemma getS_with_sgl {A} (f : sg_mapping_t -> A) (Q : A -> world -> Prop) w p s tr l :
  Q (f (s <| sgl := l |>)) (with_sgl w p s tr l) -> wp (getS f p) Q (with_sgl w p s tr l).
Proof. intros HQ. eapply wp_getS; [apply lookup_insert_eq|exact HQ]. Qed.

(** entry [k] set from its page *)
Definition entry_set (l : list sg_entry) (pgs : list Z) (k length offset : Z) : option sg_entry :=
  match zlookup l k, zlookup pgs k with
  | Some e, Some page => Some (sg_set_page page length offset e)
  | _, _ => None
  end.

Lemma sgm_full_pages_ok w p s tr n : forall i count l,
  1 <= i -> i + Z.of_nat n <= Z.of_nat (length (pages s)) ->
  Z.of_nat n * PAGE_SIZE <= count < 2 ^ 64 ->
  wp (sgm_full_pages p n i count) (fun c w' => c = count - Z.of_nat n * PAGE_SIZE /\
    exists l', w' = with_sgl w p s tr l' /\ length l' = length l /\
      forall k, zlookup l' k =
        if decide (i <= k < i + Z.of_nat n) then entry_set l (pages s) k PAGE_SIZE 0
        else zlookup l k) (with_sgl w p s tr l).
Proof.
  induction n as [|n IH]; intros i count l Hi Hn Hc; cbn [sgm_full_pages].
  - apply wp_ret. split; [lia|]. exists l. split; [reflexivity|]. split; [reflexivity|].
    intros k. rewrite decide_False by lia. reflexivity.
  - unfold PAGE_SIZE in *.
    wp_step. wp_step; [apply Z.ltb_ge; lia|]. wp_step. apply getS_with_sgl.
    change (pages (s <| sgl := l |>)) with (pages s). wp_step.
    destruct (zlookup_is_Some (pages s) i) as [page Hp]; [lia|].
    eapply wp_index; [exact Hp|]. wp_step. apply setS_with_sgl.
    rewrite u64_id by (unfold is_u64; lia).
    eapply wp_conseq; [apply IH; lia|].
    intros c w' (-> & l' & -> & Hl & Hk). split; [lia|]. exists l'. split; [reflexivity|].
    split; [rewrite Hl; apply on_entry_length|].
    intros k. rewrite Hk. unfold entry_set. rewrite zlookup_on_entry.
    destruct (decide (k = i)) as [->|Hne].
    + rewrite decide_False by lia. rewrite decide_True by lia. rewrite Hp.
      destruct (zlookup l i); reflexivity.
    + destruct (decide (i + 1 <= k < i + 1 + Z.of_nat n)).
      * rewrite decide_True by lia. reflexivity.
      * rewrite decide_False by lia. reflexivity.
Qed.

(** [flush_dcache_page] and [put_page] on every page *)
Lemma wp_each_page f (pgs : list Z) n w :
  0 <= n <= Z.of_nat (length pgs) ->
  wp (for_ 0 n (fun i => page <- index pgs i ;; ext_ f [page]))
    (fun _ w' => w' = w <| trace := (reverse (map (fun pg => Call f [pg] []) (take (Z.to_nat n) pgs))
                                       ++ trace w)%list |>) w.
Proof.
  intros Hn.
  apply (wp_for (fun i w' => w' = w <| trace :=
    (reverse (map (fun pg => Call f [pg] []) (take (Z.to_nat i) pgs)) ++ trace w)%list |>)); [lia| | |auto].
  - state_eq.
  - intros k w' Hk ->. destruct (zlookup_is_Some pgs k) as [pg Hpg]; [lia|].
    wp_step. eapply wp_index; [exact Hpg|]. wp_step. state_eq.
    replace (Z.to_nat (k + 1)) with (S (Z.to_nat k)) by lia.
    unfold zlookup in Hpg. destruct (Z.ltb_spec k 0); [lia|].
    rewrite (take_S_r _ _ _ Hpg), map_app, reverse_app. reflexivity.
Qed.

Lemma with_sgl_log w p s tr l tr' :
  (with_sgl w p s tr l) <| trace := tr' |> = with_sgl w p s tr' l.
Proof. reflexivity. Qed.

(** the entries of the list after [sgm_populate] *)
Definition populated (start count : Z) (pgs : list Z) (l l' : list sg_entry) : Prop :=
  length l' = length l /\
  forall k, 0 <= k < buffer_pages start count ->
    zlookup l' k = entry_set l pgs k (buffer_length start count k) (buffer_offset start k).

(** the pages flushed *)
Definition flushes (pgs : list Z) : history :=
  reverse (map (fun pg => Call flush_dcache_page [pg] []) pgs).

Lemma sgm_populate_ok w p s tr l start count :
  buffer_ok start count -> count < 2 ^ 32 ->
  buffer_pages start count <= Z.of_nat (length (pages s)) ->
  wp (sgm_populate p start count (buffer_pages start count)) (fun rc w' =>
    rc = buffer_pages start count /\
    exists l', w' = with_sgl w p s (flushes (take (Z.to_nat (buffer_pages start count)) (pages s)) ++ tr) l' /\
      populated start count (pages s) l l')
  (with_sgl w p s tr l).
Proof.
  intros Hb Hc32 Hn. destruct (buffer_pages_bounds _ _ Hb) as (H1 & H2). cbv zeta in H1, H2.
  set (n := buffer_pages start count) in *.
  pose proof (Z.mod_pos_bound start 4096 eq_refl) as Hoff. destruct Hb as (Hs & Hc & _).
  destruct (zlookup_is_Some (pages s) 0) as [page0 Hp0]; [lia|].
  destruct (zlookup_is_Some (pages s) (n - 1)) as [pagen Hpn]; [lia|].
  unfold sgm_populate. wp_step. apply getS_with_sgl.
  change (pages (s <| sgl := l |>)) with (pages s).
  wp_step. eapply wp_conseq; [apply wp_each_page; lia|]. intros [] w1 ->. rewrite with_sgl_log.
  wp_step. eapply wp_index; [exact Hp0|]. wp_step. apply setS_with_sgl.
  rewrite offset_in_page_mod. wp_step. unfold PAGE_SIZE in *.
  destruct (Z.ltb_spec 1 n).
  - wp_step. apply setS_with_sgl. wp_step. rewrite u64_id by (unfold is_u64; lia).
    eapply wp_conseq; [apply sgm_full_pages_ok; unfold PAGE_SIZE; lia|].
    intros c w' (-> & l' & -> & Hl & Hk). unfold PAGE_SIZE in *.
    wp_step. wp_step; [apply Z.ltb_ge; lia|]. wp_step. eapply wp_index; [exact Hpn|].
    apply setS_with_sgl. wp_step. split; [reflexivity|].
    eexists. split; [reflexivity|]. split; [rewrite !on_entry_length, Hl, !on_entry_length; reflexivity|].
    intros k Hk'. rewrite zlookup_on_entry. unfold entry_set, buffer_length, buffer_offset in *. fold n.
    rewrite Hk, !zlookup_on_entry. unfold PAGE_SIZE in *.
    destruct (decide (k = n - 1)) as [->|Hne].
    + rewrite decide_False by lia. rewrite !decide_False by lia. rewrite Z.eqb_refl, Hpn.
      destruct (Z.eqb_spec (n - 1) 0); [lia|]. rewrite u32_id by (unfold is_u32; lia).
      replace (start mod 4096 + count - (n - 1) * 4096 - 0)
        with (count - (4096 - start mod 4096) - Z.of_nat (Z.to_nat (n - 2)) * 4096) by lia.
      destruct (zlookup l (n - 1)); reflexivity.
    + destruct (Z.eqb_spec k (n - 1)); [lia|]. destruct (Z.eqb_spec k 0) as [->|].
      * rewrite decide_False by lia. rewrite !decide_True by reflexivity. rewrite Hp0.
        destruct (zlookup l 0); reflexivity.
      * rewrite decide_True by lia. rewrite !decide_False by lia.
        destruct (zlookup l k); [|reflexivity]. destruct (zlookup (pages s) k); reflexivity.
  - apply setS_with_sgl. wp_step. split; [reflexivity|].
    eexists. split; [reflexivity|]. split; [rewrite !on_entry_length; reflexivity|].
    intros k Hk. assert (k = 0) as -> by lia. rewrite !zlookup_on_entry, !decide_True by reflexivity.
    unfold entry_set, buffer_length, buffer_offset. fold n. rewrite Hp0, Z.eqb_refl.
    destruct (Z.eqb_spec 0 (n - 1)); [|lia]. rewrite u32_id by (unfold is_u32; lia).
    unfold PAGE_SIZE. replace (start mod 4096 + count - 0 * 4096 - start mod 4096) with count by lia.
    destruct (zlookup l 0); reflexivity.
Qed.
(** the state with mapper [p] replaced *)
Definition with_s (w : world) (p : Z) (tr : history) (s : sg_mapping_t) : world :=
  w <| trace := tr |> <| sgms := <[p := s]> (sgms w) |>.

Lemma with_s_id w p s : sgms w !! p = Some s -> w = with_s w p (trace w) s.
Proof. intros H. unfold with_s. state_eq. symmetry. apply insert_id, H. Qed.

Lemma with_s_sgl w p tr s : with_s w p tr s = with_sgl w p s tr (sgl s).
Proof. unfold with_sgl, with_s. destruct s; reflexivity. Qed.

Lemma setS_with_s f (Q : unit -> world -> Prop) w p tr s :
  Q tt (with_s w p tr (f s)) -> wp (setS f p) Q (with_s w p tr s).
Proof.
  intros HQ. eapply wp_setS; [apply lookup_insert_eq|].
  match goal with |- Q tt ?w' => replace w' with (with_s w p tr (f s)); [exact HQ|] end.
  unfold with_s. apply world_eq; try reflexivity. cbn. rewrite insert_insert_eq. reflexivity.
Qed.

Lemma getS_with_s {A} (f : sg_mapping_t -> A) (Q : A -> world -> Prop) w p tr s :
  Q (f s) (with_s w p tr s) -> wp (getS f p) Q (with_s w p tr s).
Proof. intros HQ. eapply wp_getS; [apply lookup_insert_eq|exact HQ]. Qed.

Lemma with_s_log w p tr s tr' : (with_s w p tr s) <| trace := tr' |> = with_s w p tr' s.
Proof. reflexivity. Qed.

Lemma store_pages_length l pgs : length (store_pages l pgs) = length pgs.
Proof. unfold store_pages. rewrite length_app, length_take, length_drop. lia. Qed.

Lemma store_pages_take l pgs :
  (length l <= length pgs)%nat -> take (length l) (store_pages l pgs) = l.
Proof.
  intros H. unfold store_pages. rewrite (take_ge l) by lia. rewrite take_app_length. reflexivity.
Qed.

(** the call of [get_user_pages_fast] *)
Definition gup_args (start count to_user : Z) : list Z := [start; buffer_pages start count; to_user].
Definition gup_answer (w : world) (start count to_user : Z) : list Z :=
  answer (trace w) get_user_pages_fast (gup_args start count to_user).

(** what [get_user_pages_fast] documents: at most the pages asked for, and one
    pointer for each page it pinned *)
Definition gup_documented (n : Z) (r : list Z) : Prop :=
  nth 0 r 0 <= n /\ Z.to_nat (nth 0 r 0) = length (tail r).

(** the arrays of a mapper have [max_pages] entries, and nothing is mapped *)
Definition mapper_idle (s : sg_mapping_t) : Prop :=
  mapped_pages s = 0 /\ Z.of_nat (length (pages s)) = max_pages s /\
  Z.of_nat (length (sgl s)) = max_pages s.

(** up to the call of [get_user_pages_fast] *)
Lemma sgm_gup w p s start count to_user (Q : Z -> world -> Prop) :
  sgms w !! p = Some s -> mapper_idle s -> buffer_ok start count ->
  buffer_pages start count <= max_pages s ->
  let n := buffer_pages start count in
  let r := gup_answer w start count to_user in
  gup_documented n r ->
  (forall l pgs, length l = length (sgl s) -> length pgs = length (pages s) ->
    take (Z.to_nat (nth 0 r 0)) pgs = tail r ->
    let s' := s <| sgl := l |> <| pages := pgs |> in
    let w' := with_s w p (Call get_user_pages_fast (gup_args start count to_user) r :: trace w) in
    (nth 0 r 0 = n -> wp (sgm_populate p start count n) Q (w' (s' <| mapped_pages := n |>))) /\
    (nth 0 r 0 < n -> wp (sgm_out_unmap p) Q
      (w' (s' <| mapped_pages := Z.max 0 (nth 0 r 0) |>)))) ->
  wp (sgm_get_user_pages p start count to_user) Q w.
Proof.
  intros Hs (Hm & Hlp & Hls) Hb Hmax n r [Hrn Hrl] HQ.
  pose proof (nr_pages_ok _ _ Hb) as Hn. destruct (buffer_pages_bounds _ _ Hb) as (H1 & _).
  fold n in Hn, H1, Hmax. destruct Hb as (Hst & Hc & He & _).
  rewrite (with_s_id _ _ _ Hs). unfold sgm_get_user_pages. rewrite Hn.
  wp_step. apply getS_with_s. rewrite Hm. wp_step. wp_step. wp_step. apply getS_with_s.
  rewrite u64_id by (unfold is_u64; lia).
  destruct (Z.ltb_spec (start + count) start); [lia|].
  destruct (Z.ltb_spec (max_pages s) n); [lia|]. destruct (Z.eqb_spec count 0); [lia|].
  wp_step. wp_step; [match goal with H : (_ <? 0) = true |- _ => apply Z.ltb_lt in H; lia end|]. wp_step. apply setS_with_s. wp_step. apply setS_with_s.
  wp_step. wp_step. change (trace_of _) with (trace w). fold (gup_args start count to_user).
  change (answer _ _ _) with r.
  match goal with |- context [with_s w p (trace w) ?x] => set (s0 := x) end.
  change (log ?e (with_s w p (trace w) s0)) with (with_s w p (e :: trace w) s0).
  wp_step. apply setS_with_s. rewrite take_ge by (rewrite <- Hrl; lia).
  set (pgs := store_pages (tail r) (pages s0)). set (l0 := sg_init_table n (sgl s)).
  match goal with |- context [with_s w p ?tr ?x] =>
    change x with (s <| sgl := l0 |> <| pages := pgs |>) end.
  assert (Hpl : length pgs = length (pages s))
    by (subst pgs; rewrite store_pages_length; apply store_pages_length).
  assert (Hll : length l0 = length (sgl s)).
  { subst l0. unfold sg_init_table. rewrite length_app, length_replicate, length_drop. lia. }
  destruct (HQ l0 pgs Hll Hpl) as [HQ1 HQ2].
  { rewrite Hrl. subst pgs. apply store_pages_take. rewrite <- Hrl.
    change (pages s0) with (store_pages (replicate (Z.to_nat (n - 1)) 0) (pages s)).
    rewrite store_pages_length. lia. }
  destruct (Z.ltb_spec (nth 0 r 0) n) as [Hlt|Hge].
  - specialize (HQ2 Hlt). wp_step.
    destruct (Z.ltb_spec 0 (nth 0 r 0)) as [Hp|Hp]; cbn [when].
    + apply setS_with_s. rewrite Z.max_r in HQ2 by lia. exact HQ2.
    + wp_step. rewrite Z.max_l in HQ2 by lia. rewrite <- Hm in HQ2 at 1.
      replace (s <| sgl := l0 |> <| pages := pgs |> <| mapped_pages := mapped_pages s |>)
        with (s <| sgl := l0 |> <| pages := pgs |>) in HQ2 by reflexivity. exact HQ2.
  - specialize (HQ1 ltac:(lia)). wp_step. wp_step; [apply negb_false_iff, Z.eqb_eq; lia|].
    wp_step. apply setS_with_s. replace (nth 0 r 0) with n by lia. exact HQ1.
Qed.
(** ** The lists handed to the DMA mapping *)

Definition total_length (l : list sg_entry) : Z := foldr (fun e a => sg_length e + a) 0 l.

Lemma total_length_snoc l e : total_length (l ++ [e])%list = total_length l + sg_length e.
Proof. unfold total_length. induction l as [|x l IH]; cbn in *; lia. Qed.

Lemma total_length_bytes start count l k :
  (forall j, 0 <= j < Z.of_nat k -> exists e,
    zlookup l j = Some e /\ sg_length e = buffer_length start count j) ->
  total_length (take k l) = buffer_bytes start count k.
Proof.
  induction k as [|k IH]; intros H; [reflexivity|]. cbn [buffer_bytes].
  destruct (H (Z.of_nat k) ltac:(lia)) as (e & He & Hl).
  unfold zlookup in He. destruct (Z.ltb_spec (Z.of_nat k) 0); [lia|]. rewrite Nat2Z.id in He.
  rewrite (take_S_r _ _ _ He), total_length_snoc, Hl, IH; [reflexivity|].
  intros j Hj. apply H. lia.
Qed.

(** entry [k] of the list of a buffer, on page [page] *)
Record describes (start count k page : Z) (e : sg_entry) : Prop := {
  ds_page : sg_page e = page;
  ds_offset : sg_offset e = buffer_offset start k;
  ds_length : sg_length e = buffer_length start count k;
  ds_within : 0 <= sg_offset e /\ 0 < sg_length e /\ sg_offset e + sg_length e <= PAGE_SIZE
}.

Lemma populated_describes start count pgs l l' k :
  buffer_ok start count -> populated start count pgs l l' ->
  buffer_pages start count <= Z.of_nat (length pgs) ->
  buffer_pages start count <= Z.of_nat (length l) ->
  0 <= k < buffer_pages start count ->
  exists e page, zlookup l' k = Some e /\ zlookup pgs k = Some page /\ describes start count k page e.
Proof.
  intros Hb [_ Hp] Hn Hl Hk. rewrite (Hp k Hk). unfold entry_set.
  destruct (zlookup_is_Some l k) as [e ->]; [lia|].
  destruct (zlookup_is_Some pgs k) as [page Hpg]; [lia|]. rewrite Hpg.
  do 2 eexists. split; [reflexivity|]. split; [reflexivity|].
  split; try reflexivity. apply (buffer_entry_in_page _ _ _ Hb Hk).
Qed.

Lemma zlookup_take {A} (l : list A) n k : 0 <= k < Z.of_nat n -> zlookup (take n l) k = zlookup l k.
Proof. intros H. unfold zlookup. destruct (k <? 0); [reflexivity|]. apply lookup_take_lt. lia. Qed.

Lemma calls_each f (l : list Z) :
  calls f (reverse (map (fun pg => Call f [pg] []) l)) = reverse (map (fun pg => [pg]) l).
Proof.
  induction l as [|x l IH]; [reflexivity|]. cbn [map].
  rewrite !reverse_cons, calls_app, IH. f_equal. apply calls_cons_eq.
Qed.

(** the outcome of mapping: the list and the pages it holds *)
Record mapped (s' : sg_mapping_t) (start count : Z) (pinned : list Z) : Prop := {
  mp_count : mapped_pages s' = buffer_pages start count;
  mp_pages : take (Z.to_nat (mapped_pages s')) (pages s') = pinned;
  mp_entry k : 0 <= k < mapped_pages s' -> exists e page,
    zlookup (sgl s') k = Some e /\ zlookup pinned k = Some page /\ describes start count k page e;
  mp_total : total_length (take (Z.to_nat (mapped_pages s')) (sgl s')) = count
}.

(** a buffer whose pages can all be pinned: nothing but the mapper changes *)
Lemma sgm_get_user_pages_pins w p s start count to_user :
  sgms w !! p = Some s -> mapper_idle s -> buffer_ok start count -> count < 2 ^ 32 ->
  buffer_pages start count <= max_pages s ->
  let r := gup_answer w start count to_user in
  gup_documented (buffer_pages start count) r -> nth 0 r 0 = buffer_pages start count ->
  wp (sgm_get_user_pages p start count to_user) (fun rc w' =>
    rc = buffer_pages start count /\
    exists s', w' = with_s w p (flushes (tail r) ++ Call get_user_pages_fast (gup_args start count to_user) r :: trace w) s' /\
      sgl_at s' = sgl_at s /\ pages_at s' = pages_at s /\
      Z.of_nat (length (sgl s')) = max_pages s /\ mapped s' start count (tail r)) w.
Proof.
  intros Hs Hi Hb Hc Hmax r Hd Hr. destruct (buffer_pages_bounds _ _ Hb) as (Hn1 & _).
  eapply sgm_gup; try eassumption. intros l pgs Hl Hp Ht. cbv zeta. split; [intros _|fold r; lia].
  fold r in Ht. rewrite Hr in Ht.
  destruct Hi as (_ & Hip & Hil). rewrite with_s_sgl.
  eapply wp_conseq; [apply sgm_populate_ok; [exact Hb|exact Hc|cbn; lia]|].
  intros rc w' (-> & l' & -> & Hpop). split; [reflexivity|].
  change (take _ (pages _)) with (take (Z.to_nat (buffer_pages start count)) pgs). rewrite Ht.
  eexists. split.
  { unfold with_s, with_sgl. apply world_eq; reflexivity. }
  split; [reflexivity|]. split; [reflexivity|]. split; [cbn; rewrite (proj1 Hpop); cbn; lia|].
  assert (He : forall k, 0 <= k < buffer_pages start count -> exists e page,
    zlookup l' k = Some e /\ zlookup (tail r) k = Some page /\ describes start count k page e).
  { intros k Hk. destruct (populated_describes _ _ _ _ _ k Hb Hpop) as (e & page & H1 & H2 & H3);
      [cbn; lia|cbn; lia|exact Hk|].
    exists e, page. split; [exact H1|]. split; [|exact H3].
    rewrite <- Ht, zlookup_take by lia. exact H2. }
  split; cbn; [reflexivity|exact Ht|exact He|].
  rewrite (total_length_bytes start count).
  - apply buffer_bytes_all, Hb.
  - intros j Hj. destruct (He j ltac:(lia)) as (e & page & H1 & _ & H3).
    exists e. split; [exact H1|apply H3].
Qed.

(** [sgm_get_user_pages] on a buffer whose pages can all be pinned returns
    the number of pages the buffer touches; entry [k] of the scatter list is
    the part of the buffer on page [k], inside that page, and the entries
    together are exactly the [count] bytes of the buffer. *)
Theorem sgm_get_user_pages_describes_buffer w p s start count to_user :
  sgms w !! p = Some s -> mapper_idle s -> buffer_ok start count -> count < 2 ^ 32 ->
  buffer_pages start count <= max_pages s ->
  let r := gup_answer w start count to_user in
  gup_documented (buffer_pages start count) r -> nth 0 r 0 = buffer_pages start count ->
  wp (sgm_get_user_pages p start count to_user) (fun rc w' =>
    rc = buffer_pages start count /\
    exists s', sgms w' !! p = Some s' /\ mapped s' start count (tail r)) w.
Proof.
  intros Hs Hi Hb Hc Hmax r Hd Hr.
  eapply wp_conseq; [eapply sgm_get_user_pages_pins; eassumption|].
  intros rc w' (-> & s' & -> & _ & _ & _ & Hm). split; [reflexivity|].
  exists s'. split; [apply lookup_insert_eq|exact Hm].
Qed.

(** the label [out_unmap] puts the pages back *)
Lemma sgm_out_unmap_ok w p tr s :
  0 <= mapped_pages s <= Z.of_nat (length (pages s)) ->
  wp (sgm_out_unmap p) (fun rc w' => rc = - ENOMEM /\
    w' = with_s w p (reverse (map (fun pg => Call put_page [pg] []) (take (Z.to_nat (mapped_pages s)) (pages s))) ++ tr)
           (s <| mapped_pages := 0 |>)) (with_s w p tr s).
Proof.
  intros Hm. unfold sgm_out_unmap. wp_step. apply getS_with_s. wp_step. apply getS_with_s. wp_step.
  eapply wp_conseq; [apply wp_each_page; exact Hm|]. intros [] w1 ->. rewrite with_s_log.
  wp_step. apply setS_with_s. wp_step. split; reflexivity.
Qed.

(** a buffer that cannot be pinned as a whole *)
Lemma sgm_get_user_pages_short w p s start count to_user :
  sgms w !! p = Some s -> mapper_idle s -> buffer_ok start count ->
  buffer_pages start count <= max_pages s ->
  let r := gup_answer w start count to_user in
  gup_documented (buffer_pages start count) r -> nth 0 r 0 < buffer_pages start count ->
  wp (sgm_get_user_pages p start count to_user) (fun rc w' => rc = - ENOMEM /\
    exists s', mapped_pages s' = 0 /\
      w' = with_s w p (reverse (map (fun pg => Call put_page [pg] []) (tail r)) ++
             Call get_user_pages_fast (gup_args start count to_user) r :: trace w) s') w.
Proof.
  intros Hs Hi Hb Hmax r Hd Hr.
  eapply sgm_gup; try eassumption. intros l pgs Hl Hp Ht. cbv zeta. fold r in Ht |- *.
  split; [lia|intros _]. destruct Hd as [_ Hrl]. destruct Hi as (_ & Hip & _).
  eapply wp_conseq; [apply sgm_out_unmap_ok; cbn; lia|]. intros rc w' (-> & ->). split; [reflexivity|].
  exists (s <| sgl := l |> <| pages := pgs |> <| mapped_pages := Z.max 0 (nth 0 r 0) |> <| mapped_pages := 0 |>).
  split; [reflexivity|]. cbn. replace (Z.to_nat (Z.max 0 (nth 0 r 0))) with (Z.to_nat (nth 0 r 0)) by lia.
  rewrite Ht. reflexivity.
Qed.

(** C35: when fewer pages than the buffer has can be pinned,
    [sgm_get_user_pages] returns [-ENOMEM], releases every page it got exactly
    once, and leaves nothing mapped. *)
Theorem sgm_get_user_pages_releases_on_failure w p s start count to_user :
  sgms w !! p = Some s -> mapper_idle s -> buffer_ok start count ->
  buffer_pages start count <= max_pages s ->
  let r := gup_answer w start count to_user in
  gup_documented (buffer_pages start count) r -> nth 0 r 0 < buffer_pages start count ->
  wp (sgm_get_user_pages p start count to_user) (fun rc w' =>
    rc = - ENOMEM /\
    (exists s', sgms w' !! p = Some s' /\ mapped_pages s' = 0) /\
    calls put_page (trace w') = (reverse (map (fun pg => [pg]) (tail r)) ++ calls put_page (trace w))%list) w.
Proof.
  intros Hs Hi Hb Hmax r Hd Hr. eapply wp_conseq; [eapply sgm_get_user_pages_short; eassumption|].
  intros rc w' (-> & s' & Hm & ->). split; [reflexivity|]. split.
  - exists s'. split; [apply lookup_insert_eq|exact Hm].
  - transitivity (calls put_page (reverse (map (fun pg => Call put_page [pg] []) (tail r)) ++
      Call get_user_pages_fast (gup_args start count to_user) r :: trace w)%list); [reflexivity|].
    rewrite calls_app, calls_each, calls_cons_ne by discriminate. reflexivity.
Qed.
End SgmFacts.
