(* ===== verification/Transfer.v ===== *)
(** * Building and destroying transfers (xdma-core.c, "transfer_*") *)
From S2P Require Import Prelude Layout Kernel World Desc Engine Sgm.

(** ** From the scatter list to descriptors *)

(** the variables of the loop of [transfer_build] *)
Record building : Type := mk_building {
  b_addr : Z;
  b_cont_addr : Z;
  b_cont_len : Z;
  b_ep_addr : Z;
  b_j : Z
}.

#[global] Instance eta_building : Eta building := fun r =>
  mk_building (b_addr r) (b_cont_addr r) (b_cont_len r) (b_ep_addr r) (b_j r).
#[global] Instance set_b_addr : Setter b_addr := ltac:(make_setter).
#[global] Instance set_b_cont_addr : Setter b_cont_addr := ltac:(make_setter).
#[global] Instance set_b_cont_len : Setter b_cont_len := ltac:(make_setter).
#[global] Instance set_b_ep_addr : Setter b_ep_addr := ltac:(make_setter).
#[global] Instance set_b_j : Setter b_j := ltac:(make_setter).

(** a descriptor to be filled: bus address, device address, length *)
Definition filling : Type := Z * Z * Z.

Section Build.
Context (non_incr_addr force_new_desc userspace : Z).

(** does a new descriptor begin after an entry of [len] bytes at [addr]? *)
Definition new_desc (next addr len cont_len : Z) : bool :=
  (if negb (next =? u64 (addr + len)) then true
   else XDMA_DESC_MAX_BYTES - PAGE_SIZE <? cont_len)
  || (nz force_new_desc && negb (nz userspace)).

(** the device address after a descriptor of [cont_len] bytes *)
Definition next_ep (ep_addr cont_len : Z) : Z :=
  if nz userspace then
    if non_incr_addr =? 0 then u64 (ep_addr + cont_len) else ep_addr
  else u64 (ep_addr + cont_len).

(** one turn of the loop: entry of [len] bytes, followed by one at [next] *)
Definition build_one (len next : Z) (b : building) : building * option filling :=
  let cont_len := u32 (b_cont_len b + len) in
  if new_desc next (b_addr b) len cont_len then
    (mk_building next next 0 (next_ep (b_ep_addr b) cont_len) (b_j b + 1),
     Some (b_cont_addr b, b_ep_addr b, cont_len))
  else (b <| b_addr := next |> <| b_cont_len := cont_len |>, None).
End Build.

(** [pci_map_sg] stores the bus address and the length of each mapped entry *)
Fixpoint store_dma (words : list Z) (l : list sg_entry) : list sg_entry :=
  match words, l with
  | a :: n :: words', e :: l' =>
      (e <| sg_dma_address := u64 a |> <| sg_dma_len := u32 n |>) :: store_dma words' l'
  | _, _ => l
  end.

Section Transfer.
Context {bo : ByteOrder} {env : Env}.

Definition fill_desc (v : dptr) (dir_to_dev j : Z) (d : option filling) : prog world unit :=
  match d with
  | None => ret tt
  | Some (addr, ep, len) =>
      xdma_desc_set (dptr_add v j) addr ep len dir_to_dev ;;
      xdma_desc_force_complete (dptr_add v j)
  end.

(** the loop over all entries but the last: [n] turns from entry [i] *)
Fixpoint build_entries (non_incr_addr force_new_desc userspace dir_to_dev : Z)
  (v : dptr) (l : list sg_entry) (n : nat) (i : Z) (b : building) : prog world building :=
  match n with
  | O => ret b
  | S n' =>
      e <- index l i ;;
      e' <- index l (i + 1) ;;
      let '(b', d) := build_one non_incr_addr force_new_desc userspace
                        (sg_dma_len e) (sg_dma_address e') b in
      fill_desc v dir_to_dev (b_j b) d ;;
      build_entries non_incr_addr force_new_desc userspace dir_to_dev v l n' (i + 1) b'
  end.

Definition transfer_build (t ep_addr dir_to_dev non_incr_addr force_new_desc userspace : Z)
  : prog world Z :=
  sgm <- getT t_sgm t ;;
  l <- getS sgl sgm ;;
  v <- getT desc_virt t ;;
  nents <- getT sgl_nents t ;;
  e0 <- index l 0 ;;
  let a0 := sg_dma_address e0 in
  b <- build_entries non_incr_addr force_new_desc userspace dir_to_dev v l
         (Z.to_nat (nents - 1)) 0 (mk_building a0 a0 0 ep_addr 0) ;;
  e <- index l (Z.max 0 (nents - 1)) ;;
  let cont_len := u32 (b_cont_len b + sg_dma_len e) in
  BUG_ON (nents <? b_j b) ;;
  xdma_desc_set (dptr_add v (b_j b)) (b_cont_addr b) (b_ep_addr b) cont_len dir_to_dev ;;
  ret (b_j b).

(** ** The last descriptor *)

Definition last_control : Z :=
  Z.lor (Z.lor XDMA_DESC_STOPPED XDMA_DESC_EOP) XDMA_DESC_COMPLETED.

(** terminate the list, stop the engine and ask for an interrupt *)
Definition terminate_desc (p : dptr) : prog world unit :=
  xdma_desc_link p dnull 0 ;;
  xdma_desc_control p last_control.

(** [XDMA_PERFORMANCE_TEST] is not defined *)
Definition transfer_perf (t last : Z) : prog world unit :=
  v <- getT desc_virt t ;; terminate_desc (dptr_add v last).

(** ** Creation *)

(** "allocate descriptor list" and what follows *)
Definition transfer_describe (t nents ep_addr dir_to_dev non_incr_addr force_new_desc userspace : Z)
  : prog world unit :=
  d <- xdma_desc_alloc nents ;;
  let '(v, bus, _) := d in
  setT (fun x => x <| desc_virt := v |> <| desc_bus := bus |>) t ;;
  last <- transfer_build t ep_addr dir_to_dev non_incr_addr force_new_desc userspace ;;
  (if nz userspace then transfer_perf t last
   else terminate_desc (dptr_add v last)) ;;
  let num := last + 1 in
  setT (fun x => x <| desc_adjacent := num |> <| desc_num := num |>) t ;;
  for_ 0 num (fun i => xdma_desc_adjacent (dptr_add v i) (num - i - 1)).

(** "map sg list", and the descriptors for the mapped entries *)
Definition transfer_map (t sgm ep_addr dir_to_dev non_incr_addr force_new_desc userspace : Z)
  : prog world unit :=
  pd <- getL pci_dev ;;
  BUG_ON (pd =? 0) ;;
  l <- getS sgl_at sgm ;;
  BUG_ON (l =? 0) ;;
  m <- getS mapped_pages sgm ;;
  BUG_ON (m =? 0) ;;
  r <- ext_all pci_map_sg [sgm; m; dir_to_dev] ;;
  setS (fun s => s <| sgl ::= store_dma (tail r) |>) sgm ;;
  let nents := nth 0 r 0 in
  setT (fun x => x <| sgl_nents := nents |>) t ;;
  transfer_describe t nents ep_addr dir_to_dev non_incr_addr force_new_desc userspace.

Definition transfer_create (start cnt ep_addr dir_to_dev non_incr_addr force_new_desc userspace : Z)
  : prog world Z :=
  t <- kzalloc_transfer ;;
  if t =? 0 then ret 0 else
    setT (fun x => x <| t_dir_to_dev := dir_to_dev |>) t ;;
    sgm <- sg_create_mapper cnt ;;
    setT (fun x => x <| t_sgm := sgm |>) t ;;
    BUG_ON (sgm =? 0) ;;
    setT (fun x => x <| World.userspace := userspace |>) t ;;
    rc <- (if nz userspace
           then sgm_get_user_pages sgm start cnt (b2z (negb (nz dir_to_dev)))
           else sgm_kernel_pages sgm start cnt (b2z (negb (nz dir_to_dev)))) ;;
    BUG_ON (rc <? 0) ;;
    transfer_map t sgm ep_addr dir_to_dev non_incr_addr force_new_desc userspace ;;
    ret t.

(** ** Destruction *)

Definition transfer_destroy (t : Z) : prog world unit :=
  sgm <- getT t_sgm t ;;
  dir <- getT t_dir_to_dev t ;;
  when (nz sgm)
    (m <- getS mapped_pages sgm ;;
     ext_ pci_unmap_sg [sgm; m; dir] ;;
     u <- getT userspace t ;;
     when (nz u) (_ <- sgm_put_user_pages sgm (if nz dir then 0 else 1) ;; ret tt) ;;
     setS (fun s => s <| mapped_pages := 0 |>) sgm ;;
     sg_destroy_mapper sgm) ;;
  n <- getT sgl_nents t ;;
  v <- getT desc_virt t ;;
  bus <- getT desc_bus t ;;
  xdma_desc_free n v bus ;;
  kfree_transfer t.

(** ** Alignment of requests *)

Definition check_transfer_align (buf count pos sync : Z) : prog world Z :=
  st <- getE streaming ;;
  ni <- getE non_incr_addr ;;
  al <- getE addr_align ;;
  gr <- getE len_granularity ;;
  let buf_lsb := Z.land (s32 (u32 buf)) (al - 1) in
  let pos_lsb := Z.land (s32 (u32 pos)) (al - 1) in
  if nz st || nz ni then
    let len_lsb := Z.land count (u64 (gr - 1)) in
    if nz buf_lsb then ret (- EINVAL) else
    if negb (nz st) && nz pos_lsb && nz sync then ret (- EINVAL) else
    if nz len_lsb then ret (- EINVAL) else ret 0
  else
    if negb (buf_lsb =? pos_lsb) then ret (- EINVAL) else ret 0.
End Transfer.
