(* ===== verification/TransferFacts.v ===== *)
(** * What a built transfer describes

    The descriptor list of a transfer covers the bytes of its scatter list, in
    order, in pieces the hardware accepts. *)
From Stdlib Require Import List.
From S2P Require Import Prelude Layout Kernel World Desc Engine Sgm Transfer.

(** ** Ranges of bytes *)

Definition entry_bytes (e : sg_entry) : list Z := seqZ (sg_dma_address e) (sg_dma_len e).
Definition filling_bytes (f : filling) : list Z := let '(a, _, n) := f in seqZ a n.

(** an entry as the DMA layer maps it: not empty, shorter than 2 GB, below 2^64.
    It may be longer than a page: the layer may merge the pages of a buffer. *)
Definition entry_ok (e : sg_entry) : Prop :=
  0 <= sg_dma_address e /\ 0 < sg_dma_len e < 2 ^ 31 /\
  sg_dma_address e + sg_dma_len e < 2 ^ 64.

(** The lengths of the pieces of entries of at most [m] bytes. The driver looks
    at the length of a piece before it adds the next entry, with room for a page:
    with [m] a page, no piece is longer than [XDMA_DESC_MAX_BYTES]; a longer
    entry is never split, and goes beyond it. *)
Definition pieces_bounded (l : list sg_entry) (plan : list filling) : Prop :=
  forall m, Forall (fun e => sg_dma_len e <= m) l ->
    Forall (fun '(_, _, n) => 0 < n <= XDMA_DESC_MAX_BYTES - PAGE_SIZE + m) plan.

(** no entry is longer than this *)
Lemma entries_short l : Forall entry_ok l -> Forall (fun e => sg_dma_len e <= 2 ^ 31) l.
Proof. intros H. eapply Forall_impl; [exact H|]. intros e (_ & ? & _). lia. Qed.

Lemma pieces_short l plan : Forall entry_ok l -> pieces_bounded l plan ->
  Forall (fun '(_, _, n) => 0 < n < 2 ^ 32) plan.
Proof.
  intros Hl H. eapply Forall_impl; [exact (H _ (entries_short _ Hl))|]. intros [[a e] n].
  change (XDMA_DESC_MAX_BYTES - PAGE_SIZE) with 258047. lia.
Qed.

Section Plan.
Context (non_incr_addr force_new_desc userspace : Z).

(** the descriptors of the entries [e :: rest], as values *)
Fixpoint build_plan (e : sg_entry) (rest : list sg_entry) (b : building) : list filling :=
  match rest with
  | [] => [(b_cont_addr b, b_ep_addr b, u32 (b_cont_len b + sg_dma_len e))]
  | e' :: rest' =>
      let '(b', d) := build_one non_incr_addr force_new_desc userspace
                        (sg_dma_len e) (sg_dma_address e') b in
      match d with
      | Some f => f :: build_plan e' rest' b'
      | None => build_plan e' rest' b'
      end
  end.

(** what the loop maintains before entry [e] *)
Definition building_ok (e : sg_entry) (b : building) : Prop :=
  b_addr b = sg_dma_address e /\ b_cont_addr b + b_cont_len b = b_addr b /\
  0 <= b_cont_len b <= XDMA_DESC_MAX_BYTES - PAGE_SIZE.

Lemma cont_len_ok e b : entry_ok e -> building_ok e b ->
  u32 (b_cont_len b + sg_dma_len e) = b_cont_len b + sg_dma_len e.
Proof.
  intros (_ & Hl & _) (_ & _ & Hc). apply u32_id.
  unfold is_u32, XDMA_DESC_MAX_BYTES, PAGE_SIZE in *.
  change (Z.shiftl 1 18) with 262144 in *. lia.
Qed.

(** one turn emits a finished piece or adds the entry to the current one *)
Lemma build_one_ok e e' b : entry_ok e -> building_ok e b ->
  match build_one non_incr_addr force_new_desc userspace (sg_dma_len e) (sg_dma_address e') b with
  | (b', Some (a, ep, n)) => building_ok e' b' /\ a = b_cont_addr b /\ ep = b_ep_addr b /\
      n = b_cont_len b + sg_dma_len e /\ b_cont_len b' = 0 /\ b_j b' = b_j b + 1 /\
      b_ep_addr b' = next_ep non_incr_addr userspace ep n
  | (b', None) => building_ok e' b' /\ b_cont_addr b' = b_cont_addr b /\
      b_cont_len b' = b_cont_len b + sg_dma_len e /\ b_j b' = b_j b /\ b_ep_addr b' = b_ep_addr b
  end.
Proof.
  intros He Hb. pose proof (cont_len_ok e b He Hb) as Hu. unfold build_one. rewrite Hu.
  destruct Hb as (H1 & H2 & H3), He as (H4 & H5 & H6).
  destruct (new_desc _ _ _ _ _ _) eqn:En; cbn.
  - unfold building_ok; cbn. repeat split; try lia.
  - unfold new_desc in En. rewrite u64_id in En by (unfold is_u64; lia).
    apply orb_false_iff in En as [En _].
    destruct (Z.eqb_spec (sg_dma_address e') (b_addr b + sg_dma_len e)) as [E|]; [|discriminate].
    cbn in En. apply Z.ltb_ge in En. unfold building_ok; cbn. repeat split; lia.
Qed.

(** The pieces are exactly the bytes of the entries, in order. *)
Lemma plan_bytes rest : forall e b, building_ok e b -> Forall entry_ok (e :: rest) ->
  flat_map filling_bytes (build_plan e rest b)
  = (seqZ (b_cont_addr b) (b_cont_len b) ++ flat_map entry_bytes (e :: rest))%list.
Proof.
  induction rest as [|e' rest IH]; intros e b Hb Hall;
    inversion Hall as [|? ? He Hall']; subst; cbn [build_plan].
  - rewrite (cont_len_ok e b He Hb). destruct Hb as (H1 & H2 & H3), He as (H4 & H5 & H6).
    cbn. rewrite !app_nil_r. rewrite seqZ_app by lia. rewrite H2, H1. reflexivity.
  - pose proof (build_one_ok e e' b He Hb) as H1.
    destruct (build_one _ _ _ _ _ b) as [b' [[[a ep] n]|]].
    + destruct H1 as (Hb' & -> & -> & -> & Hc & _). cbn [flat_map filling_bytes].
      rewrite (IH e' b' Hb' Hall'), Hc. change (seqZ (b_cont_addr b') 0) with (@nil Z).
      destruct Hb as (E1 & E2 & E3), He as (H4 & H5 & H6).
      rewrite seqZ_app by lia. rewrite E2, E1, <- app_assoc. reflexivity.
    + destruct H1 as (Hb' & Hca & Hcl & _). rewrite (IH e' b' Hb' Hall'), Hca, Hcl.
      destruct Hb as (E1 & E2 & E3), He as (H4 & H5 & H6).
      rewrite seqZ_app by lia. rewrite E2, E1, <- app_assoc. reflexivity.
Qed.

(** Every piece has a length that its entries account for. *)
Lemma plan_lengths rest : forall e b, building_ok e b -> Forall entry_ok (e :: rest) ->
  pieces_bounded (e :: rest) (build_plan e rest b).
Proof.
  induction rest as [|e' rest IH]; intros e b Hb Hall m Hm;
    inversion Hall as [|? ? He Hall']; inversion Hm as [|? ? Hem Hm']; subst; cbn [build_plan].
  - rewrite (cont_len_ok e b He Hb). destruct Hb as (_ & _ & H3), He as (_ & H5 & _).
    constructor; [lia|constructor].
  - pose proof (build_one_ok e e' b He Hb) as H1.
    destruct (build_one _ _ _ _ _ b) as [b' [[[a ep] n]|]]; [|apply IH; tauto].
    destruct H1 as (Hb' & -> & -> & -> & _), Hb as (_ & _ & H3), He as (_ & H5 & _).
    constructor; [lia|]. apply (IH e' b' Hb' Hall' m Hm').
Qed.

(** the device addresses of the pieces *)
Fixpoint ep_chain (ep : Z) (l : list filling) : Prop :=
  match l with
  | [] => True
  | (_, ep', n) :: l' => ep' = ep /\ ep_chain (next_ep non_incr_addr userspace ep n) l'
  end.

Lemma plan_ep rest : forall e b, building_ok e b -> Forall entry_ok (e :: rest) ->
  ep_chain (b_ep_addr b) (build_plan e rest b).
Proof.
  induction rest as [|e' rest IH]; intros e b Hb Hall;
    inversion Hall as [|? ? He Hall']; subst; cbn [build_plan].
  - split; [reflexivity|exact I].
  - pose proof (build_one_ok e e' b He Hb) as H1.
    destruct (build_one _ _ _ _ _ b) as [b' [[[a ep] n]|]].
    + destruct H1 as (Hb' & -> & -> & -> & _ & _ & Hep). split; [reflexivity|].
      rewrite <- Hep. apply IH; assumption.
    + destruct H1 as (Hb' & _ & _ & _ & <-). apply IH; assumption.
Qed.

Lemma plan_length rest : forall e b, (1 <= length (build_plan e rest b) <= S (length rest))%nat.
Proof.
  induction rest as [|e' rest IH]; intros e b; cbn [build_plan]; [cbn; lia|].
  destruct (build_one _ _ _ _ _ b) as [b' [f|]]; specialize (IH e' b'); cbn [length]; lia.
Qed.
End Plan.

(** ** Changes to the descriptors of one block *)

(** every descriptor [v + k] is changed by [f k], the others stay *)
Definition desc_map (v : dptr) (f : Z -> xdma_desc -> xdma_desc) (mem mem' : gmap Z dblock) : Prop :=
  same_shape mem mem' /\
  forall q, lookup_mem mem' q
    = (if decide (fst q = fst v) then f (snd q - snd v) else id) <$> lookup_mem mem q.

Definition desc_step (v : dptr) (f : Z -> xdma_desc -> xdma_desc) (w w' : world) : Prop :=
  exists mem, w' = w <| coherent := mem |> /\ desc_map v f (coherent w) mem.

(** change descriptor [j] only *)
Definition at_desc (j : Z) (u : xdma_desc -> xdma_desc) (k : Z) : xdma_desc -> xdma_desc :=
  if decide (k = j) then u else id.

Lemma desc_step_refl v f w : (forall k d, f k d = d) -> desc_step v f w w.
Proof.
  intros Hf. exists (coherent w). split; [destruct w; reflexivity|]. split; [intros b; reflexivity|].
  intros q. destruct (lookup_mem (coherent w) q) as [d|]; [|reflexivity]. cbn.
  case_decide; [rewrite Hf|]; reflexivity.
Qed.

Lemma desc_step_trans v f g w1 w2 w3 :
  desc_step v f w1 w2 -> desc_step v g w2 w3 -> desc_step v (fun k d => g k (f k d)) w1 w3.
Proof.
  intros (m2 & -> & H1 & H2) (m3 & -> & H3 & H4). exists m3. split; [reflexivity|]. split.
  - intros b. rewrite H3. apply H1.
  - intros q. rewrite H4. cbn. rewrite H2. destruct (lookup_mem (coherent w1) q); [|reflexivity].
    cbn. case_decide; reflexivity.
Qed.

Lemma desc_step_ext v f g w w' :
  (forall k d, f k d = g k d) -> desc_step v f w w' -> desc_step v g w w'.
Proof.
  intros E (m & -> & H1 & H2). exists m. split; [reflexivity|]. split; [exact H1|].
  intros q. rewrite H2. destruct (lookup_mem (coherent w) q); [|reflexivity]. cbn.
  case_decide; [rewrite E|]; reflexivity.
Qed.

Lemma desc_step_lookup v f w w' k d :
  desc_step v f w w' -> lookup_mem (coherent w) (dptr_add v k) = Some d ->
  lookup_mem (coherent w') (dptr_add v k) = Some (f k d).
Proof.
  intros (m & -> & _ & H) Hd. cbn [coherent]. change (coherent (w <| coherent := m |>)) with m.
  rewrite H, Hd. cbn. rewrite decide_True by reflexivity. do 2 f_equal. lia.
Qed.

Lemma desc_step_slot v f w w' k :
  desc_step v f w w' -> is_Some (lookup_mem (coherent w) (dptr_add v k)) ->
  is_Some (lookup_mem (coherent w') (dptr_add v k)).
Proof. intros H [d Hd]. eexists. eapply desc_step_lookup; eassumption. Qed.

Lemma wp_setD_step u v j (Q : unit -> world -> Prop) w :
  is_Some (lookup_mem (coherent w) (dptr_add v j)) ->
  (forall w', desc_step v (at_desc j u) w w' -> Q tt w') ->
  wp (setD u (dptr_add v j)) Q w.
Proof.
  intros [d Hd] HQ. eapply wp_setD; [exact Hd|]. apply HQ.
  exists (update_mem (dptr_add v j) (u d) (coherent w)).
  split; [reflexivity|]. split; [apply same_shape_update|].
  intros q. destruct (decide (q = dptr_add v j)) as [->|Hne].
  - rewrite Hd. cbn. rewrite decide_True by reflexivity. unfold at_desc.
    rewrite decide_True by lia. apply (lookup_update_mem_eq _ _ _ _ Hd).
  - rewrite lookup_update_mem_ne by congruence.
    destruct (lookup_mem (coherent w) q); [|reflexivity]. cbn. case_decide as E; [|reflexivity].
    unfold at_desc. rewrite decide_False; [reflexivity|].
    intros Ej. apply Hne. apply injective_projections; cbn; lia.
Qed.

(** ** [transfer_build] writes the plan *)

Section Fill.
Context {bo : ByteOrder}.

Definition fill (dir : Z) (f : filling) (d : xdma_desc) : xdma_desc :=
  let '(a, ep, n) := f in desc_set a ep n dir d.

(** descriptors [j], [j + 1], ... are filled from the list *)
Definition fill_all (dir j : Z) (l : list filling) (k : Z) (d : xdma_desc) : xdma_desc :=
  match zlookup l (k - j) with Some f => fill dir f d | None => d end.

Lemma fill_all_cons dir j f l k d :
  fill_all dir (j + 1) l k (at_desc j (fill dir f) k d) = fill_all dir j (f :: l) k d.
Proof.
  unfold fill_all, at_desc, zlookup. case_decide as E.
  - subst k. replace (j - (j + 1)) with (-1) by lia. replace (j - j) with 0 by lia. reflexivity.
  - destruct (Z.ltb_spec (k - j) 0).
    + destruct (Z.ltb_spec (k - (j + 1)) 0); [reflexivity|lia].
    + destruct (Z.ltb_spec (k - (j + 1)) 0); [lia|].
      replace (Z.to_nat (k - j)) with (S (Z.to_nat (k - (j + 1)))) by lia. reflexivity.
Qed.

End Fill.

Section BuildFacts.
Context {bo : ByteOrder} {env : Env}.
Context (non_incr_addr force_new_desc userspace dir : Z) (v : dptr) (l : list sg_entry).

(** the slots the pieces go to exist *)
Definition slots (w : world) (j n : Z) : Prop :=
  forall k, j <= k < j + n -> is_Some (lookup_mem (coherent w) (dptr_add v k)).

Lemma slots_step f w w' j n : desc_step v f w w' -> slots w j n -> slots w' j n.
Proof. intros H Hs k Hk. eapply desc_step_slot; [exact H|apply Hs, Hk]. Qed.

(** the loop and the last entry *)
Definition build_rest (n : nat) (i nents : Z) (b : building) : prog world Z :=
  b <- build_entries non_incr_addr force_new_desc userspace dir v l n i b ;;
  e <- index l (Z.max 0 (nents - 1)) ;;
  let cont_len := u32 (b_cont_len b + sg_dma_len e) in
  BUG_ON (nents <? b_j b) ;;
  xdma_desc_set (dptr_add v (b_j b)) (b_cont_addr b) (b_ep_addr b) cont_len dir ;;
  ret (b_j b).

Lemma build_rest_ok rest : forall e b w (i : nat) nents,
  drop i l = (e :: rest ++ drop (i + S (length rest)) l)%list ->
  nents = Z.of_nat i + 1 + Z.of_nat (length rest) ->
  0 <= b_j b <= Z.of_nat i ->
  let plan := build_plan non_incr_addr force_new_desc userspace e rest b in
  slots w (b_j b) (Z.of_nat (length plan)) ->
  wp (build_rest (length rest) (Z.of_nat i) nents b) (fun j w' =>
    j = b_j b + Z.of_nat (length plan) - 1 /\ desc_step v (fill_all dir (b_j b) plan) w w') w.
Proof.
  induction rest as [|e' rest IH]; intros e b w i nents Hl Hn Hj plan Hs;
    unfold build_rest; cbn [length build_entries].
  - wp_step. wp_step. wp_step. eapply wp_index.
    { unfold zlookup. destruct (Z.ltb_spec (Z.max 0 (nents - 1)) 0); [lia|].
      replace (Z.to_nat (Z.max 0 (nents - 1))) with (i + 0)%nat by (cbn in Hn; lia).
      rewrite <- lookup_drop, Hl. reflexivity. }
    wp_step. wp_step; [apply Z.ltb_ge; cbn in Hn; lia|]. wp_step.
    apply wp_setD_step; [apply Hs; cbn; lia|]. intros w' Hw'. wp_step.
    split; [cbn; lia|]. eapply desc_step_ext; [|exact Hw'].
    intros k d. subst plan. cbn [build_plan]. rewrite <- fill_all_cons.
    unfold fill_all. replace (zlookup [] _) with (@None filling); [reflexivity|].
    unfold zlookup. destruct (_ <? 0); [reflexivity|]. symmetry. apply lookup_nil.
  - assert (He : zlookup l (Z.of_nat i) = Some e).
    { unfold zlookup. destruct (Z.ltb_spec (Z.of_nat i) 0); [lia|]. rewrite Nat2Z.id.
      replace i with (i + 0)%nat by lia. rewrite <- lookup_drop, Hl. reflexivity. }
    assert (He' : zlookup l (Z.of_nat i + 1) = Some e').
    { unfold zlookup. destruct (Z.ltb_spec (Z.of_nat i + 1) 0); [lia|].
      replace (Z.to_nat (Z.of_nat i + 1)) with (i + 1)%nat by lia.
      rewrite <- lookup_drop, Hl. reflexivity. }
    assert (Hl' : drop (S i) l = (e' :: rest ++ drop (S i + S (length rest)) l)%list).
    { replace (S i) with (i + 1)%nat by lia. rewrite <- drop_drop, Hl.
      replace (i + S (length (e' :: rest)))%nat with (i + 1 + S (length rest))%nat by (cbn; lia).
      reflexivity. }
    apply wp_bind, wp_bind. eapply wp_index; [exact He|]. apply wp_bind.
    eapply wp_index; [exact He'|].
    subst plan. cbn [build_plan] in *.
    destruct (build_one _ _ _ _ _ b) as [b' d] eqn:Eb.
    assert (Hbj : b_j b' = match d with Some _ => b_j b + 1 | None => b_j b end).
    { unfold build_one in Eb. destruct (new_desc _ _ _ _ _ _); injection Eb as <- <-; reflexivity. }
    specialize (IH e' b').
    replace (Z.of_nat i + 1) with (Z.of_nat (S i)) by lia.
    destruct d as [f|]; cbn [fill_desc length] in *.
    + destruct f as [[a ep] n]. apply wp_bind, wp_bind.
      apply wp_setD_step; [apply Hs; cbn; lia|]. intros w1 Hw1.
      apply wp_ret.
      apply wp_bind_inv. eapply wp_conseq; [apply (IH w1 (S i) nents Hl'); [lia|lia|]|].
      * rewrite Hbj. intros k Hk. eapply slots_step; [exact Hw1|exact Hs|cbn; lia].
      * intros j w' [-> Hw']. split; [cbn; lia|]. rewrite Hbj in Hw'.
        eapply desc_step_ext; [|eapply desc_step_trans; eassumption].
        intros k d. apply (fill_all_cons dir (b_j b) (a, ep, n)).
    + apply wp_ret. apply wp_bind_inv.
      eapply wp_conseq; [apply (IH w (S i) nents Hl'); [lia|lia|]|].
      * rewrite Hbj. exact Hs.
      * intros j w' [-> Hw']. rewrite Hbj in *. split; [lia|exact Hw'].
Qed.
End BuildFacts.

(** ** The whole descriptor list *)

Section DescribeFacts.
Context {bo : ByteOrder} {env : Env}.

(** a loop that changes descriptors [0 .. num - 1] *)
Definition upto (num : Z) (u : Z -> xdma_desc -> xdma_desc) (k : Z) (d : xdma_desc) : xdma_desc :=
  if decide (0 <= k < num) then u k d else d.

Lemma wp_for_desc (v : dptr) num u w :
  0 <= num -> slots v w 0 num ->
  wp (for_ 0 num (fun i => setD (u i) (dptr_add v i))) (fun _ => desc_step v (upto num u) w) w.
Proof.
  intros Hn Hs. eapply (wp_for (fun i => desc_step v (upto i u) w)); [exact Hn| | |auto].
  - apply desc_step_refl. intros k d. unfold upto. rewrite decide_False by lia. reflexivity.
  - intros i w' Hi Hw. apply wp_setD_step.
    + eapply desc_step_slot; [exact Hw|]. apply Hs. lia.
    + intros w'' Hw''. eapply desc_step_ext; [|eapply desc_step_trans; eassumption].
      intros k d. unfold upto, at_desc. destruct (decide (k = i)) as [->|Hne].
      * rewrite decide_False by lia. rewrite decide_True by lia. reflexivity.
      * destruct (decide (0 <= k < i)); [rewrite decide_True by lia|rewrite decide_False by lia]; reflexivity.
Qed.

(** terminating a list at descriptor [j] *)
Definition terminated (j : Z) : Z -> xdma_desc -> xdma_desc :=
  at_desc j (fun d => desc_control_write last_control (desc_link false 0 d)).

Lemma terminate_desc_ok v j w :
  is_Some (lookup_mem (coherent w) (dptr_add v j)) ->
  wp (terminate_desc (dptr_add v j)) (fun _ => desc_step v (terminated j) w) w.
Proof.
  intros Hs. unfold terminate_desc. wp_step. apply wp_setD_step; [exact Hs|]. intros w1 H1.
  destruct (desc_step_slot _ _ _ _ _ H1 Hs) as [d Hd].
  unfold xdma_desc_control. wp_step. eapply wp_getD; [exact Hd|].
  wp_step. wp_step.
  apply wp_setD_step; [eauto|]. intros w2 H2.
  eapply desc_step_ext; [|eapply desc_step_trans; eassumption].
  intros k d'. unfold terminated, at_desc. case_decide; reflexivity.
Qed.

(** descriptor [k] of a transfer of [num] descriptors at [bus] *)
Record transfer_desc (bus num dir k : Z) (f : filling) (d : xdma_desc) : Prop := {
  td_bytes : le32_to_cpu (bytes d) = snd f;
  td_src : d_src d = if nz dir then fst (fst f) else snd (fst f);
  td_dst : d_dst d = if nz dir then snd (fst f) else fst (fst f);
  td_next : d_next d = if k =? num - 1 then 0 else bus + sizeof_xdma_desc * (k + 1);
  td_magic : ctl_magic (le32_to_cpu (control d)) = 0xAD4B;
  td_flags : ctl_flags (le32_to_cpu (control d)) = if k =? num - 1 then last_control else 0;
  td_extra : ctl_extra (le32_to_cpu (control d))
             = extra_adjacent (num - k - 1) (le32_to_cpu (next_lo d))
}.

Lemma chain_control_flags k : ctl_flags (chain_control k) = 0.
Proof.
  unfold ctl_flags, chain_control, DESC_MAGIC. rewrite Z.land_lor_distr_l.
  change (Z.land 0xAD4B0000 0xff) with 0. rewrite Z.lor_0_l.
  apply (land_shiftl_low _ 8 8). lia.
Qed.

Lemma link_is_u32 s b d : is_u32 (le32_to_cpu (control (desc_link s b d))).
Proof.
  assert (H : forall c, is_u32 (Z.lor (Z.land c 0xf0ff) DESC_MAGIC)).
  { intros c. assert (E : Z.land (Z.lor (Z.land c 0xf0ff) DESC_MAGIC) (Z.ones 32)
      = Z.lor (Z.land c 0xf0ff) DESC_MAGIC).
    { rewrite Z.land_lor_distr_l, <- Z.land_assoc. reflexivity. }
    rewrite <- E, Z.land_ones by lia. apply u32_range. }
  unfold desc_link. destruct s; cbn; rewrite le32_cpu_le32; apply H.
Qed.

Lemma fill_control dir f d : control (fill dir f d) = control d.
Proof. destruct f as [[a ep] n]. apply control_set. Qed.

Lemma fill_next dir f d : next_lo (fill dir f d) = next_lo d /\ next_hi (fill dir f d) = next_hi d.
Proof. destruct f as [[a ep] n]. unfold fill, desc_set. destruct (nz dir); split; reflexivity. Qed.

Lemma fill_words dir f d : 0 <= snd f < 2 ^ 32 ->
  le32_to_cpu (bytes (fill dir f d)) = snd f /\
  d_src (fill dir f d) = (if nz dir then fst (fst f) else snd (fst f)) /\
  d_dst (fill dir f d) = (if nz dir then snd (fst f) else fst (fst f)).
Proof.
  destruct f as [[a ep] n]. cbn [fst snd fill]. intros Hn.
  rewrite bytes_set, d_src_set, d_dst_set, u32_id by exact Hn. repeat split.
Qed.

Lemma in_chain_flags nents bus k d : in_chain nents bus k d ->
  ctl_flags (le32_to_cpu (control d)) = 0.
Proof.
  intros [_ H]. destruct (k =? nents - 1); destruct H as [-> _]; [reflexivity|].
  apply chain_control_flags.
Qed.

(** the words of descriptor [k] after filling, terminating and counting *)
Lemma finished_desc nents bus num dir k f d :
  0 <= k < num -> num <= nents -> 0 <= bus -> bus + sizeof_xdma_desc * nents < 2 ^ 64 ->
  0 <= snd f < 2 ^ 32 -> in_chain nents bus k d ->
  transfer_desc bus num dir k f
    (desc_adjacent_set (num - k - 1) (terminated (num - 1) k (fill dir f d))).
Proof.
  intros Hk Hn Hbus Hend Hf Hd. unfold sizeof_xdma_desc in Hend.
  destruct (fill_words dir f d Hf) as (W1 & W2 & W3).
  pose proof (in_chain_flags _ _ _ _ Hd) as Hfl. destruct (fill_next dir f d) as [N1 N2].
  pose proof (fill_control dir f d) as C1.
  unfold terminated, at_desc. case_decide as E.
  - set (d1 := fill dir f d) in *. set (d2 := desc_link false 0 d1).
    set (d3 := desc_control_write last_control d2).
    assert (L : le32_to_cpu (next_lo d3) = 0).
    { change (le32_to_cpu 0 = 0). rewrite <- cpu_to_le32_0 at 1. apply le32_cpu_le32. }
    destruct (adjacent_word (num - k - 1) d3) as (A1 & _ & A3 & A4); [lia|].
    destruct (control_word last_control d2) as (_ & _ & _ & F4);
      [vm_compute; split; congruence|apply link_is_u32|].
    destruct (Z.eqb_spec k (num - 1)); [|lia].
    split; rewrite ?(proj2 (Z.eqb_eq k (num - 1))) by lia.
    + exact W1.
    + exact W2.
    + exact W3.
    + unfold d_next, addr_of. change (le32_to_cpu 0 * 2 ^ 32 + le32_to_cpu 0 = 0).
      assert (le32_to_cpu 0 = 0) as -> by exact L. reflexivity.
    + exact A1.
    + rewrite A4. exact F4.
    + exact A3.
  - unfold id. destruct Hd as (_ & Hd). destruct (Z.eqb_spec k (nents - 1)); [lia|].
    destruct Hd as (Hc & Hlo & Hhi). unfold sizeof_xdma_desc in *.
    rewrite u64_id in Hlo, Hhi by (unfold is_u64; lia).
    set (d1 := fill dir f d) in *.
    destruct (adjacent_word (num - k - 1) d1) as (A1 & _ & A3 & A4).
    { rewrite N1, Hlo. apply PCI_DMA_L_range. }
    destruct (Z.eqb_spec k (num - 1)); [lia|].
    split; rewrite ?(proj2 (Z.eqb_neq k (num - 1))) by lia.
    + exact W1.
    + exact W2.
    + exact W3.
    + change (d_next d1 = bus + 32 * (k + 1)). unfold d_next, addr_of.
      rewrite N1, N2, Hlo, Hhi. apply PCI_DMA_join.
    + exact A1.
    + rewrite A4, C1. exact Hfl.
    + exact A3.
Qed.
(** A transfer whose descriptors describe the entries [l], moved between the
    bus addresses of the entries and the device addresses from [ep] on. *)
Record described (ni us dir ep : Z) (l : list sg_entry) (plan : list filling)
    (x : xdma_transfer) (mem : gmap Z dblock) : Prop := {
  de_num : desc_num x = Z.of_nat (length plan);
  de_count : (1 <= length plan <= length l)%nat;
  de_adjacent : desc_adjacent x = desc_num x;
  de_bytes : flat_map filling_bytes plan = flat_map entry_bytes l;
  de_lengths : pieces_bounded l plan;
  de_ep : ep_chain ni us ep plan;
  de_desc k f : zlookup plan k = Some f -> exists d,
    lookup_mem mem (dptr_add (desc_virt x) k) = Some d /\
    transfer_desc (desc_bus x) (desc_num x) dir k f d
}.

Lemma transfer_build_ok w t x m s e rest extra ni force us dir ep :
  transfers w !! t = Some x -> t_sgm x = m -> sgms w !! m = Some s ->
  sgl s = (e :: rest ++ extra)%list -> sgl_nents x = Z.of_nat (S (length rest)) ->
  let plan := build_plan ni force us e rest
    (mk_building (sg_dma_address e) (sg_dma_address e) 0 ep 0) in
  slots (desc_virt x) w 0 (Z.of_nat (length plan)) ->
  wp (transfer_build t ep dir ni force us) (fun j w' =>
    j = Z.of_nat (length plan) - 1 /\ desc_step (desc_virt x) (fill_all dir 0 plan) w w') w.
Proof.
  intros Hx Hm Hs Hl Hn plan Hsl. unfold transfer_build.
  wp_step. eapply wp_getT; [exact Hx|]. rewrite Hm. wp_step. eapply wp_getS; [exact Hs|].
  wp_step. eapply wp_getT; [exact Hx|]. wp_step. eapply wp_getT; [exact Hx|].
  wp_step. eapply wp_index; [rewrite Hl; reflexivity|]. cbv zeta. rewrite Hn.
  replace (Z.to_nat (Z.of_nat (S (length rest)) - 1)) with (length rest) by lia.
  assert (Hd : drop 0 (sgl s) = (e :: rest ++ drop (0 + S (length rest)) (sgl s))%list).
  { rewrite Hl. cbn. rewrite drop_app_length. reflexivity. }
  eapply wp_conseq; [eapply (build_rest_ok ni force us dir (desc_virt x) (sgl s) rest e _ w 0%nat _ Hd);
    [lia|cbn; lia|exact Hsl]|].
  intros j w' [-> Hw']. split; [|exact Hw'].
  change (0 + Z.of_nat (length plan) - 1 = Z.of_nat (length plan) - 1). lia.
Qed.

(** the blocks other than that of [v] stay, and this one stays allocated *)
Lemma desc_step_blocks v f w w' : desc_step v f w w' ->
  (forall b, b <> fst v -> coherent w' !! b = coherent w !! b) /\
  (is_Some (coherent w !! fst v) -> is_Some (coherent w' !! fst v)).
Proof.
  intros (m & -> & Hs & Hl). cbn [coherent]. split.
  - intros b Hb. apply same_shape_block; [exact Hs|]. intros i. change (coherent (w <| coherent := m |>)) with m. rewrite Hl. cbn [fst].
    rewrite decide_False by exact Hb. apply option_fmap_id.
  - intros [d Hd]. specialize (Hs (fst v)). rewrite Hd in Hs. change (coherent (w <| coherent := m |>)) with m.
    destruct (m !! fst v); [eauto|discriminate].
Qed.

(** describing a transfer: a block of descriptors is allocated, and nothing but
    it and the transfer changes *)
Definition describes_in (w : world) (t nents : Z) (x' : xdma_transfer) (w' : world) : Prop :=
  exists mem, w' = w <| trace := alloc_ev nents w :: trace w |> <| fresh := fresh w + 1 |>
      <| transfers := <[t := x']> (transfers w) |> <| coherent := mem |> /\
    is_Some (mem !! fresh w) /\ forall b, b <> fresh w -> mem !! b = coherent w !! b.

Lemma describes_in_steps {f g h} w t nents x1 x' v mem w3 w4 w6 :
  fst v = fresh w -> is_Some (mem !! fst v) -> (forall b, b <> fresh w -> mem !! b = coherent w !! b) ->
  desc_step v f (w <| trace := alloc_ev nents w :: trace w |> <| fresh := fresh w + 1 |> <| coherent := mem |>
    <| transfers ::= <[t := x1]> |>) w3 ->
  desc_step v g w3 w4 -> desc_step v h (w4 <| transfers ::= <[t := x']> |>) w6 ->
  describes_in w t nents x' w6.
Proof.
  intros Ev Hm Ho H3 H4 H6.
  destruct (desc_step_blocks _ _ _ _ H3) as [B3 S3], (desc_step_blocks _ _ _ _ H4) as [B4 S4],
    (desc_step_blocks _ _ _ _ H6) as [B6 S6].
  destruct H3 as (m3 & -> & _), H4 as (m4 & -> & _), H6 as (m6 & -> & _).
  cbn [coherent] in *. rewrite Ev in *. exists m6. split; [|split].
  - apply world_eq; try reflexivity. cbn. apply insert_insert_eq.
  - apply S6, S4, S3, Hm.
  - intros b Hb. specialize (B3 b Hb). specialize (B4 b Hb). specialize (B6 b Hb).
    etransitivity; [exact B6|]. etransitivity; [exact B4|]. etransitivity; [exact B3|]. apply Ho, Hb.
Qed.

Lemma transfer_describe_ok w t x m s e rest extra ni force us dir ep :
  transfers w !! t = Some x -> t_sgm x = m -> sgms w !! m = Some s ->
  sgl s = (e :: rest ++ extra)%list ->
  let nents := Z.of_nat (S (length rest)) in
  sgl_nents x = nents -> Forall entry_ok (e :: rest) ->
  alloc_ok nents w -> 0 < fresh w ->
  let bus := alloc_bus nents w in
  0 <= bus -> bus + sizeof_xdma_desc * nents < 2 ^ 64 ->
  wp (transfer_describe t nents ep dir ni force us) (fun _ w' => exists x' plan,
    transfers w' !! t = Some x' /\
    x' = x <| desc_virt := (fresh w, 0) |> <| desc_bus := bus |>
           <| desc_adjacent := Z.of_nat (length plan) |> <| desc_num := Z.of_nat (length plan) |> /\
    described ni us dir ep (e :: rest) plan x' (coherent w') /\
    describes_in w t nents x' w') w.
Proof.
  intros Hx Hm Hs Hl nents Hn Hall Hok Hf bus Hbus Hend.
  set (b0 := mk_building (sg_dma_address e) (sg_dma_address e) 0 ep 0).
  set (plan := build_plan ni force us e rest b0).
  assert (Hb0 : building_ok e b0).
  { unfold building_ok, b0, XDMA_DESC_MAX_BYTES, PAGE_SIZE. change (Z.shiftl 1 18) with 262144.
    cbn. repeat split; lia. }
  pose proof (plan_length ni force us rest e b0) as Hlen. fold plan in Hlen.
  set (num := Z.of_nat (length plan)). set (v := (fresh w, 0) : dptr).
  unfold transfer_describe. wp_step. eapply wp_conseq; [apply (xdma_desc_alloc_ok nents); [lia|assumption..]|].
  intros r w1 (-> & mem & -> & Hin & (blk & Hblk & _) & Hother). cbv beta iota. fold bus v in Hin |- *.
  wp_step. eapply wp_setT; [exact Hx|].
  match goal with |- wp _ _ ?st => set (w2 := st) end.
  set (x1 := x <| desc_virt := v |> <| desc_bus := bus |>).
  assert (Hx1 : transfers w2 !! t = Some x1) by apply lookup_insert_eq.
  assert (Hin2 : forall k, 0 <= k < nents -> exists d,
    lookup_mem (coherent w2) (dptr_add v k) = Some d /\ in_chain nents bus k d) by exact Hin.
  assert (Hs0 : slots v w2 0 num).
  { intros k Hk. destruct (Hin2 k ltac:(lia)) as (d & Hd & _). eauto. }
  wp_step. eapply wp_conseq; [eapply (transfer_build_ok w2 t x1 m s e rest extra); try eassumption|].
  intros last w3 [-> H3]. fold b0 in H3 |- *. fold plan in H3 |- *. fold num in H3 |- *.
  change (desc_virt x1) with v in H3.
  assert (Hs3 : slots v w3 0 num) by (eapply slots_step; eassumption).
  assert (Hterm : wp (if nz us then transfer_perf t (num - 1) else terminate_desc (dptr_add v (num - 1)))
    (fun _ => desc_step v (terminated (num - 1)) w3) w3).
  { assert (H : wp (terminate_desc (dptr_add v (num - 1))) (fun _ => desc_step v (terminated (num - 1)) w3) w3).
    { apply terminate_desc_ok, Hs3. lia. }
    destruct (nz us); [|exact H]. unfold transfer_perf. wp_step. apply (wp_getT _ _ x1); [|exact H].
    destruct H3 as (m3 & -> & _). exact Hx1. }
  wp_step. eapply wp_conseq; [exact Hterm|]. intros [] w4 H4.
  assert (Hs4 : slots v w4 0 num) by (eapply slots_step; eassumption).
  replace (num - 1 + 1) with num by lia.
  wp_step. apply (wp_setT _ _ x1).
  { destruct H3 as (m3 & -> & _), H4 as (m4 & -> & _). exact Hx1. }
  match goal with |- wp _ _ ?st => set (w5 := st) end.
  eapply wp_conseq; [apply (wp_for_desc v num (fun i => desc_adjacent_set (num - i - 1))); [lia|exact Hs4]|].
  intros [] w6 H6. eexists _, plan. fold num.
  split; [|split; [reflexivity|]].
  { destruct H6 as (m6 & -> & _). apply lookup_insert_eq. }
  split; [|exact (describes_in_steps w t nents x1 _ v mem _ _ _ eq_refl (ex_intro _ _ Hblk) Hother H3 H4 H6)].
  split; cbn.
  - reflexivity.
  - exact Hlen.
  - reflexivity.
  - subst plan. rewrite plan_bytes by assumption. reflexivity.
  - apply plan_lengths; assumption.
  - apply (plan_ep ni force us rest e b0); assumption.
  - intros k f Hkf. pose proof (zlookup_Some _ _ _ Hkf) as Hk.
    destruct (Hin2 k ltac:(lia)) as (d & Hd & Hc).
    eapply (desc_step_lookup _ _ _ _ k d H3) in Hd.
    eapply (desc_step_lookup _ _ _ _ k _ H4) in Hd.
    eapply (desc_step_lookup _ _ _ _ k _ H6) in Hd.
    eexists. split; [exact Hd|]. unfold upto, fill_all. rewrite decide_True by lia.
    replace (k - 0) with k by lia. rewrite Hkf. fold num.
    eapply (finished_desc nents); try assumption; try lia.
    pose proof (pieces_short _ _ Hall (plan_lengths ni force us rest e b0 Hb0 Hall)) as Hpl.
    fold plan in Hpl.
    unfold zlookup in Hkf. destruct (k <? 0); [discriminate|].
    rewrite Forall_lookup in Hpl. specialize (Hpl _ _ Hkf). destruct f as [[a ep'] n]. cbn. lia.
Qed.

(** C5: the descriptor list of a transfer, as the engine walks it, covers
    exactly the bytes of the mapped scatter list, in order: each descriptor
    points to the next one (the last to none, with the stop, end-of-packet and
    completion flags set), carries the magic number and the count of adjacent
    descriptors of [xdma_desc_adjacent], and the device addresses follow one
    another as the addressing mode asks. The length of a descriptor is at most
    the hardware limit less a page, plus the longest entry: it is within the
    limit of 2^18 - 1 bytes when no entry is longer than a page. *)
Theorem transfer_describe_covers_list w t x m s e rest extra ni force us dir ep :
  transfers w !! t = Some x -> t_sgm x = m -> sgms w !! m = Some s ->
  sgl s = (e :: rest ++ extra)%list ->
  let nents := Z.of_nat (S (length rest)) in
  sgl_nents x = nents -> Forall entry_ok (e :: rest) ->
  alloc_ok nents w -> 0 < fresh w ->
  0 <= alloc_bus nents w -> alloc_bus nents w + sizeof_xdma_desc * nents < 2 ^ 64 ->
  wp (transfer_describe t nents ep dir ni force us) (fun _ w' => exists x' plan,
    transfers w' !! t = Some x' /\ desc_bus x' = alloc_bus nents w /\
    described ni us dir ep (e :: rest) plan x' (coherent w')) w.
Proof.
  intros Hx Hm Hs Hl nents Hn Hall Hok Hf Hbus Hend.
  eapply wp_conseq; [eapply (transfer_describe_ok w t x m s e rest extra); eassumption|].
  intros [] w' (x' & plan & H1 & -> & H3 & _). do 2 eexists. split; [exact H1|]. split; [reflexivity|exact H3].
Qed.
End DescribeFacts.
