(* ===== verification/UserDma.v ===== *)
(** * A transfer of a user buffer, from its pages to the walk of the engine

    The scatter-gather mapper, the DMA mapping of the kernel and the building
    of descriptors composed: what the engine does that follows the descriptors
    in memory is compared with the bytes of the buffer. *)
From Stdlib Require Import List.
From S2P Require Import Prelude Layout Kernel World Desc Engine Sgm Transfer TransferFacts.

(** ** The bytes of a buffer *)

(** the bytes of a buffer of the process, as offsets into its pinned pages *)
Definition user_bytes (pinned : list Z) (start count : Z) : list (Z * Z) :=
  map (fun a => (default 0 (zlookup pinned (a / PAGE_SIZE - start / PAGE_SIZE)), a mod PAGE_SIZE))
    (seqZ start count).

(** the bytes of an entry of the scatter list *)
Definition page_bytes (e : sg_entry) : list (Z * Z) :=
  map (pair (sg_page e)) (seqZ (sg_offset e) (sg_length e)).

Lemma map_seqZ_shift {A} (f g : Z -> A) m m' n :
  (forall i, 0 <= i < n -> f (m + i) = g (m' + i)) -> map f (seqZ m n) = map g (seqZ m' n).
Proof.
  intros H. replace m with (m + 0) by lia. replace m' with (m' + 0) by lia.
  rewrite <- !fmap_add_seqZ.
  change (map f (map (Z.add m) (seqZ 0 n)) = map g (map (Z.add m') (seqZ 0 n))).
  rewrite !map_map. apply map_ext_in. intros i Hi%list_elem_of_In%elem_of_seqZ. apply H. lia.
Qed.

(** the address at which entry [k] begins *)
Lemma buffer_entry_address start count k :
  buffer_ok start count -> Z.of_nat k < buffer_pages start count ->
  start + buffer_bytes start count k
  = (start / PAGE_SIZE + Z.of_nat k) * PAGE_SIZE + buffer_offset start (Z.of_nat k).
Proof.
  intros Hb Hk. assert (start = start / PAGE_SIZE * PAGE_SIZE + start mod PAGE_SIZE) as Hd.
  { rewrite (Z.mul_comm _ PAGE_SIZE). apply Z.div_mod. discriminate. }
  unfold buffer_offset. destruct k as [|k].
  - change (Z.of_nat 0) with 0. cbn [buffer_bytes]. rewrite !Z.add_0_r. exact Hd.
  - pose proof (buffer_bytes_at start count (S k) Hb ltac:(lia) Hk).
    destruct (Z.eqb_spec (Z.of_nat (S k)) 0); [lia|].
    rewrite Z.mul_add_distr_r. lia.
Qed.

Lemma entry_of_buffer start count k pinned page e :
  buffer_ok start count -> 0 <= k < buffer_pages start count ->
  zlookup pinned k = Some page -> describes start count k page e ->
  page_bytes e = map (fun a => (default 0 (zlookup pinned (a / PAGE_SIZE - start / PAGE_SIZE)), a mod PAGE_SIZE))
    (seqZ (start + buffer_bytes start count (Z.to_nat k)) (buffer_length start count k)).
Proof.
  intros Hb Hk Hp [He1 He2 He3 He4]. unfold page_bytes. rewrite He1, He3.
  rewrite buffer_entry_address, Z2Nat.id by (assumption || lia). rewrite He2 in *. rewrite He3 in He4.
  apply map_seqZ_shift. intros i Hi.
  set (o := buffer_offset start k + i).
  assert (0 <= o < PAGE_SIZE) as Ho by (subst o; lia).
  replace ((start / PAGE_SIZE + k) * PAGE_SIZE + buffer_offset start k + i)
    with (o + (start / PAGE_SIZE + k) * PAGE_SIZE) by (subst o; lia).
  rewrite Z.div_add, Z_mod_plus_full, Z.div_small, Z.mod_small by (lia || discriminate).
  replace (0 + (start / PAGE_SIZE + k) - start / PAGE_SIZE) with k by lia. rewrite Hp. reflexivity.
Qed.

(** the entries of a mapped buffer hold its bytes in order *)
Lemma mapped_bytes s start count pinned :
  buffer_ok start count -> mapped s start count pinned ->
  flat_map page_bytes (take (Z.to_nat (mapped_pages s)) (sgl s)) = user_bytes pinned start count.
Proof.
  intros Hb [Hc _ He _]. rewrite Hc in *.
  assert (forall k, (k <= Z.to_nat (buffer_pages start count))%nat ->
    0 <= buffer_bytes start count k /\
    flat_map page_bytes (take k (sgl s)) = user_bytes pinned start (buffer_bytes start count k)) as H.
  { induction k as [|k IH]; intros Hk; [split; reflexivity|].
    destruct (IH ltac:(lia)) as [IH0 IH1]. destruct (He (Z.of_nat k) ltac:(lia)) as (e & page & E1 & E2 & E3).
    pose proof (buffer_entry_in_page start count (Z.of_nat k) Hb ltac:(lia)) as (_ & Hl & _).
    unfold zlookup in E1. destruct (Z.ltb_spec (Z.of_nat k) 0); [lia|]. rewrite Nat2Z.id in E1.
    cbn [buffer_bytes]. split; [lia|]. rewrite (take_S_r _ _ _ E1), flat_map_app, IH1. cbn [flat_map].
    rewrite app_nil_r, (entry_of_buffer start count (Z.of_nat k) pinned page e Hb ltac:(lia) E2 E3), Nat2Z.id.
    unfold user_bytes. rewrite seqZ_app, map_app by lia. reflexivity. }
  destruct (H _ (le_n _)) as [_ E]. rewrite E, (buffer_bytes_all _ _ Hb). reflexivity.
Qed.

(** ** The DMA mapping *)

(** the words [pci_map_sg] gives for segments of bus addresses *)
Definition segment_words (segs : list (Z * Z)) : list Z := flat_map (fun '(a, n) => [a; n]) segs.
Definition segment_bytes (segs : list (Z * Z)) : list Z := flat_map (fun '(a, n) => seqZ a n) segs.
Definition segment_ok (s : Z * Z) : Prop :=
  0 <= fst s /\ 0 < snd s < 2 ^ 31 /\ fst s + snd s < 2 ^ 64.

(** The mapping of a scatter list of [entries] entries that holds [bytes]: at
    most as many segments (neighbours may be merged into a longer one), and
    behind their bus addresses ([iommu]) are the bytes of the list, in order. *)
Definition dma_mapping (iommu : Z -> Z * Z) (bytes : list (Z * Z)) (entries : Z) (r : list Z) : Prop :=
  exists segs, segs <> [] /\ Z.of_nat (length segs) <= entries /\
    r = Z.of_nat (length segs) :: segment_words segs /\
    Forall segment_ok segs /\ map iommu (segment_bytes segs) = bytes.

Lemma store_dma_segments segs : forall l,
  (length segs <= length l)%nat -> Forall segment_ok segs ->
  exists es, store_dma (segment_words segs) l = (es ++ drop (length segs) l)%list /\
    length es = length segs /\ Forall entry_ok es /\ flat_map entry_bytes es = segment_bytes segs.
Proof.
  induction segs as [|[a n] segs IH]; intros l Hl Hs.
  - exists []. destruct l; repeat split; constructor.
  - destruct l as [|e l]; [cbn in Hl; lia|]. apply Forall_cons in Hs as [(H1 & H2 & H3) Hs].
    cbn [fst snd] in H1, H2, H3. destruct (IH l ltac:(cbn in Hl; lia) Hs) as (es & E1 & E2 & E3 & E4).
    assert (u64 a = a /\ u32 n = n) as [Ea En].
    { split; [apply u64_id; unfold is_u64|apply u32_id; unfold is_u32]; lia. }
    exists (e <| sg_dma_address := a |> <| sg_dma_len := n |> :: es).
    cbn [segment_words flat_map app store_dma]. fold (segment_words segs). rewrite E1, Ea, En.
    split; [reflexivity|]. split; [cbn; rewrite E2; reflexivity|]. split.
    + constructor; [|exact E3]. split; [exact H1|]. split; [exact H2|exact H3].
    + cbn [flat_map segment_bytes]. fold (segment_bytes segs). rewrite <- E4. reflexivity.
Qed.

(** ** The engine *)

Section Walk.
Context {bo : ByteOrder}.

(** The engine reads the descriptor at bus address [a] of the block of the
    transfer; it stops with an error at one without the magic number. *)
Definition engine_fetch (x : xdma_transfer) (mem : gmap Z dblock) (a : Z) : option xdma_desc :=
  let off := a - desc_bus x in
  if negb (off mod sizeof_xdma_desc =? 0) then None else
  lookup_mem mem (dptr_add (desc_virt x) (off / sizeof_xdma_desc)) ≫= fun d =>
  if ctl_magic (le32_to_cpu (control d)) =? 0xAD4B then Some d else None.

(** what a descriptor asks for: host address, card address, length *)
Definition engine_piece (dir : Z) (d : xdma_desc) : filling :=
  (if nz dir then d_src d else d_dst d, if nz dir then d_dst d else d_src d, le32_to_cpu (bytes d)).

(** the pieces of work of the engine that begins at [a] and ends with the
    descriptor that has the stop flag *)
Fixpoint engine_walk (n : nat) (dir : Z) (x : xdma_transfer) (mem : gmap Z dblock) (a : Z)
  : option (list filling) :=
  match n with
  | O => None
  | S n' =>
      engine_fetch x mem a ≫= fun d =>
      if nz (Z.land (ctl_flags (le32_to_cpu (control d))) XDMA_DESC_STOPPED) then Some [engine_piece dir d]
      else cons (engine_piece dir d) <$> engine_walk n' dir x mem (d_next d)
  end.

Lemma fetch_described ni us dir ep l plan x mem k f :
  described ni us dir ep l plan x mem -> zlookup plan k = Some f ->
  exists d, engine_fetch x mem (desc_bus x + sizeof_xdma_desc * k) = Some d /\
    transfer_desc (desc_bus x) (desc_num x) dir k f d.
Proof.
  intros H Hf. destruct (de_desc _ _ _ _ _ _ _ _ H k f Hf) as (d & Hd & Ht). exists d. split; [|exact Ht].
  unfold engine_fetch. replace (desc_bus x + sizeof_xdma_desc * k - desc_bus x) with (k * sizeof_xdma_desc) by lia.
  rewrite Z.mod_mul, Z.div_mul by discriminate. cbn [Z.eqb negb]. rewrite Hd. cbn [mbind option_bind].
  rewrite (td_magic _ _ _ _ _ _ Ht). reflexivity.
Qed.

Lemma piece_described bus num dir k f d : transfer_desc bus num dir k f d -> engine_piece dir d = f.
Proof.
  intros [H1 H2 H3 _ _ _ _]. unfold engine_piece. rewrite H1, H2, H3. destruct f as [[a e] n].
  destruct (nz dir); reflexivity.
Qed.

(** the engine that follows the descriptors of a transfer does its plan *)
Lemma walk_described ni us dir ep l plan x mem :
  described ni us dir ep l plan x mem -> plan <> [] ->
  engine_walk (length plan) dir x mem (desc_bus x) = Some plan.
Proof.
  intros H Hne. pose proof (de_num _ _ _ _ _ _ _ _ H) as Hn.
  assert (forall rest k, 0 <= k -> drop (Z.to_nat k) plan = rest -> rest <> [] ->
    engine_walk (length rest) dir x mem (desc_bus x + sizeof_xdma_desc * k) = Some rest) as Hw.
  { induction rest as [|f rest IH]; intros k Hk Hd Hr; [contradiction|].
    assert (zlookup plan k = Some f) as Hf.
    { unfold zlookup. destruct (Z.ltb_spec k 0); [lia|].
      rewrite <- (Nat.add_0_r (Z.to_nat k)), <- lookup_drop, Hd. reflexivity. }
    assert (length rest = length plan - S (Z.to_nat k))%nat as Hlen.
    { apply (f_equal length) in Hd. rewrite length_drop in Hd. cbn in Hd. lia. }
    destruct (fetch_described _ _ _ _ _ _ _ _ k f H Hf) as (d & Ef & Ht).
    pose proof (zlookup_Some _ _ _ Hf) as Hkr.
    cbn [length engine_walk]. rewrite Ef. cbn [mbind option_bind].
    rewrite (td_flags _ _ _ _ _ _ Ht), (piece_described _ _ _ _ _ _ Ht).
    destruct (Z.eqb_spec k (desc_num x - 1)) as [E|E].
    - destruct rest; [reflexivity|cbn in Hlen; lia].
    - cbn [Z.land nz Z.eqb negb]. rewrite (td_next _ _ _ _ _ _ Ht), (proj2 (Z.eqb_neq _ _) E).
      rewrite IH; [reflexivity|lia| |].
      + replace (Z.to_nat (k + 1)) with (Z.to_nat k + 1)%nat by lia. rewrite <- drop_drop, Hd. reflexivity.
      + intros ->. cbn in Hlen. lia. }
  specialize (Hw plan 0 ltac:(lia) eq_refl Hne). rewrite Z.mul_0_r, Z.add_0_r in Hw. exact Hw.
Qed.

(** the addresses on the card, when they are incremented *)
Definition card_bytes (plan : list filling) : list Z := flat_map (fun '(_, ep, n) => seqZ ep n) plan.
Definition plan_size (plan : list filling) : Z := foldr (fun '(_, _, n) t => n + t) 0 plan.

Lemma card_addresses us plan : forall ep,
  ep_chain 0 us ep plan -> Forall (fun '(_, _, n) => 0 < n < 2 ^ 32) plan ->
  0 <= ep -> ep + plan_size plan < 2 ^ 64 ->
  card_bytes plan = seqZ ep (plan_size plan) /\ 0 <= plan_size plan.
Proof.
  induction plan as [|[[a e] n] plan IH]; intros ep Hc Hl Hep Hs; [split; reflexivity|].
  apply Forall_cons in Hl as [Hn Hl]. destruct Hc as [-> Hc]. cbn [plan_size foldr card_bytes flat_map] in *.
  fold (plan_size plan) in *. fold (card_bytes plan).
  assert (0 <= plan_size plan) as Hp.
  { clear - Hl. induction Hl as [|[[? ?] m] ? Hm _ IHl]; cbn; [lia|]. fold (plan_size l). lia. }
  replace (next_ep 0 us ep n) with (ep + n) in Hc.
  - destruct (IH (ep + n) Hc Hl ltac:(lia) ltac:(lia)) as [-> _]. split; [|lia].
    rewrite seqZ_app by lia. reflexivity.
  - unfold next_ep. cbn [Z.eqb]. rewrite u64_id by (unfold is_u64; lia). destruct (nz us); reflexivity.
Qed.
End Walk.

(** ** The creation of a transfer *)

Section UserTransfer.
Context {bo : ByteOrder} {env : Env}.
Context (start count : Z) (pinned : list Z) (iommu : Z -> Z * Z).

(** the mapper has room for the pages of the buffer *)
Lemma create_mapper_ok w :
  buffer_ok start count -> count < 2 ^ 32 -> (forall h n size, nth 0 (answer h kcalloc [n; size]) 0 <> 0) ->
  wp (sg_create_mapper count) (fun p w' => p = fresh w /\
    exists h s, w' = w <| trace := (h ++ trace w)%list |> <| fresh := p + 1 |> <| sgms ::= <[p := s]> |> /\
      Forall (fun e => ev_fn e = kcalloc) h /\
      mapper_idle s /\ sgl_at s <> 0 /\ buffer_pages start count <= max_pages s) w.
Proof.
  intros Hbuf Hsz Hkc. pose proof (buffer_pages_bounds start count Hbuf) as (Hn1 & Hn2).
  destruct Hbuf as (Hs & Hc & _). pose proof (Z.mod_pos_bound start PAGE_SIZE eq_refl) as Hm.
  assert (buffer_pages start count <= count / PAGE_SIZE + 2) as Hmax.
  { pose proof (Z.div_mod count PAGE_SIZE ltac:(discriminate)).
    pose proof (Z.mod_pos_bound count PAGE_SIZE eq_refl). unfold PAGE_SIZE in *. lia. }
  assert (s32 (u32 (count / PAGE_SIZE + 2)) = count / PAGE_SIZE + 2) as Emx.
  { assert (0 <= count / PAGE_SIZE < 2 ^ 20) by (unfold PAGE_SIZE; split; [apply Z.div_pos|apply Z.div_lt_upper_bound]; lia).
    rewrite u32_id by (unfold is_u32; lia). apply s32_id. lia. }
  unfold sg_create_mapper. destruct (Z.eqb_spec count 0); [lia|].
  apply wp_bind, wp_ext. rewrite (proj2 (Z.eqb_neq _ 0)) by apply Hkc. apply wp_bind, wp_gets. cbv zeta.
  apply wp_bind, wp_ext. rewrite (proj2 (Z.eqb_neq _ 0)) by apply Hkc.
  apply wp_bind, wp_ext. rewrite (proj2 (Z.eqb_neq _ 0)) by apply Hkc.
  apply wp_bind, wp_modify, wp_ret. split; [reflexivity|].
  eexists [_; _; _], _. split; [reflexivity|]. rewrite Emx.
  split; [repeat constructor|]. split; [|split; [apply Hkc|cbn; lia]].
  split; [reflexivity|]. cbn. rewrite !length_replicate. lia.
Qed.

(** A kernel with memory to give, and a buffer of the process on the pages
    [pinned]: they can be pinned, and a scatter list of an entry for each page that
    holds the bytes of the buffer can be mapped. *)
Class UserBuffer : Prop := {
  ub_buffer : buffer_ok start count;
  ub_size : count < 2 ^ 32;
  ub_kzalloc : forall h, nth 0 (answer h kzalloc []) 0 <> 0;
  ub_kcalloc : forall h n size, nth 0 (answer h kcalloc [n; size]) 0 <> 0;
  ub_coherent : forall h n, 1 <= n <= buffer_pages start count ->
    let r := answer h dma_alloc_coherent [n * sizeof_xdma_desc] in
    nth 0 r 0 <> 0 /\ 0 <= nth 1 r 0 /\ nth 1 r 0 + sizeof_xdma_desc * n < 2 ^ 64;
  ub_pages : Z.of_nat (length pinned) = buffer_pages start count;
  ub_pins : forall h u, answer h get_user_pages_fast (gup_args start count u)
    = buffer_pages start count :: pinned;
  ub_maps : forall h sgm dir l, let n := Z.of_nat (length l) in
    n = buffer_pages start count -> flat_map page_bytes l = user_bytes pinned start count ->
    dma_mapping iommu (flat_map page_bytes l) n (answer h pci_map_sg [sgm; n; dir])
}.
Context {ub : UserBuffer}.

(** the bytes of the plan of a transfer of mapped segments *)
Lemma plan_size_bytes plan :
  Forall (fun '(_, _, n) => 0 < n < 2 ^ 32) plan ->
  Z.of_nat (length (flat_map filling_bytes plan)) = plan_size plan.
Proof.
  induction 1 as [|[[a e] n] plan Hn _ IH]; [reflexivity|].
  cbn [flat_map filling_bytes plan_size foldr]. fold (plan_size plan).
  rewrite length_app, length_seqZ, Nat2Z.inj_add, IH. lia.
Qed.

(** the transfer [t] does the bytes of the buffer, and [ep] on on the card, in
    pieces bounded by the entries its list was mapped to *)
Definition moves_buffer (t ep dir ni : Z) (w : world) : Prop :=
  exists x s plan, transfers w !! t = Some x /\ sgms w !! t_sgm x = Some s /\
    desc_num x = Z.of_nat (length plan) /\ 1 <= desc_num x <= buffer_pages start count /\
    engine_walk (length plan) dir x (coherent w) (desc_bus x) = Some plan /\
    pieces_bounded (take (Z.to_nat (sgl_nents x)) (sgl s)) plan /\
    map iommu (flat_map filling_bytes plan) = user_bytes pinned start count /\
    (ni = 0 -> 0 <= ep -> ep + count < 2 ^ 64 -> card_bytes plan = seqZ ep count).

(** the calls that take something, or make memory coherent *)
Definition takes (f : extern) : bool :=
  match f with
  | kzalloc | kcalloc | get_user_pages_fast | flush_dcache_page | pci_map_sg | dma_alloc_coherent => true
  | _ => false
  end.

(** what the creation of a transfer calls: one mapping, one block of
    descriptors, and nothing that gives something back *)
Record create_log (sgm dir nents : Z) (h : history) : Prop := {
  cl_maps : calls pci_map_sg h = [[sgm; buffer_pages start count; dir]];
  cl_blocks : calls dma_alloc_coherent h = [[nents * sizeof_xdma_desc]];
  cl_else f : takes f = false -> calls f h = []
}.

(** [w'] is [w] with the transfer [t]: its mapper is behind it, its descriptors
    behind the mapper *)
Record has_transfer (w : world) (t dir : Z) (x : xdma_transfer) (s : sg_mapping_t) (w' : world) : Prop := {
  ht_world : exists mem, w' = w <| trace := trace w' |> <| eng := eng w' |> <| fresh := t + 3 |>
      <| transfers := <[t := x]> (transfers w) |> <| sgms := <[t + 1 := s]> (sgms w) |> <| coherent := mem |> /\
    is_Some (mem !! (t + 2)) /\ forall b, b <> t + 2 -> mem !! b = coherent w !! b;
  ht_sgm : t_sgm x = t + 1;
  ht_dir : t_dir_to_dev x = dir;
  ht_user : userspace x = 1;
  ht_nents : 0 <= sgl_nents x;
  ht_virt : desc_virt x = (t + 2, 0);
  ht_plain : cyclic x = 0 /\ iocb x = 0;
  ht_mapped : mapped_pages s = buffer_pages start count;
  ht_pages : take (Z.to_nat (mapped_pages s)) (pages s) = pinned
}.

(** the state after the creation of [t] *)
Definition created (w : world) (t dir : Z) (w' : world) : Prop :=
  exists x s h, trace w' = (h ++ trace w)%list /\ eng w' = eng w /\
    create_log (t + 1) dir (sgl_nents x) h /\ has_transfer w t dir x s w'.

(** describing a list whose first entries are the segments of the buffer *)
Lemma describe_moves w t x m s l segs ep dir ni force :
  transfers w !! t = Some x -> t_sgm x = m -> sgms w !! m = Some s ->
  sgl s = store_dma (segment_words segs) l -> sgl_nents x = Z.of_nat (length segs) -> 0 < fresh w ->
  segs <> [] -> (length segs <= length l)%nat -> Z.of_nat (length segs) <= buffer_pages start count ->
  Forall segment_ok segs -> map iommu (segment_bytes segs) = user_bytes pinned start count ->
  let nents := Z.of_nat (length segs) in
  wp (transfer_describe t nents ep dir ni force 1) (fun _ w' => moves_buffer t ep dir ni w' /\
    exists bus num, describes_in w t nents (x <| desc_virt := (fresh w, 0) |> <| desc_bus := bus |>
      <| desc_adjacent := num |> <| desc_num := num |>) w') w.
Proof using ub.
  intros Hx Hm Hs Hl Hn Hf Hne Hle Hpg Hsegs Hio nents. subst nents.
  destruct (store_dma_segments segs l Hle Hsegs) as (es & Es & Hles & Hes & Hb). rewrite <- Hles in *.
  assert (take (length es) (sgl s) = es) as Htake by (rewrite Hl, Es; apply take_app_length).
  destruct es as [|e rest]; [destruct segs; [contradiction|discriminate]|].
  destruct (ub_coherent (trace w) (Z.of_nat (length (e :: rest)))) as (C1 & C2 & C3); [cbn [length] in *; lia|].
  eapply wp_conseq.
  { eapply (transfer_describe_ok w); [exact Hx|exact Hm|exact Hs|rewrite Hl; exact Es|exact Hn
      |exact Hes|exact C1|exact Hf|exact C2|exact C3]. }
  intros [] w' (x' & plan & Hx' & Ex' & Hd & Hin). pose proof Hin as (mem & Ew & _).
  split; [|rewrite Ex' in Hin; eauto]. clear Hin.
  pose proof (de_lengths _ _ _ _ _ _ _ _ Hd) as Hpb. pose proof (pieces_short _ _ Hes Hpb) as Hlen.
  assert (map iommu (flat_map filling_bytes plan) = user_bytes pinned start count) as Hbytes
    by (rewrite (de_bytes _ _ _ _ _ _ _ _ Hd), Hb; exact Hio).
  assert (plan_size plan = count) as Hsize.
  { rewrite <- (plan_size_bytes plan Hlen), <- (length_map iommu), Hbytes.
    unfold user_bytes. rewrite length_map, length_seqZ. destruct ub_buffer. lia. }
  exists x', s, plan. split; [exact Hx'|].
  split; [rewrite Ew, Ex'; change (sgms w !! t_sgm x = Some s); rewrite Hm; exact Hs|].
  pose proof (de_num _ _ _ _ _ _ _ _ Hd) as Hnum. pose proof (de_count _ _ _ _ _ _ _ _ Hd) as Hcnt.
  split; [exact Hnum|]. split; [rewrite Hnum; lia|]. split; [apply (walk_described _ _ _ _ _ _ _ _ Hd)|].
  { intros ->. cbn in Hsize. destruct ub_buffer as (_ & Hc & _). lia. }
  split; [rewrite Ex'; change (sgl_nents _) with (sgl_nents x); rewrite Hn, Nat2Z.id, Htake; exact Hpb|].
  split; [exact Hbytes|]. intros -> Hep Hend. rewrite <- Hsize in Hend |- *.
  apply (card_addresses 1 plan ep (de_ep _ _ _ _ _ _ _ _ Hd) Hlen Hep Hend).
Qed.

(** the mapping of the pinned pages and the descriptors *)
Lemma map_moves w t x sg s ep dir ni force :
  0 < fresh w -> pci_dev (lro w) <> 0 ->
  transfers w !! t = Some x -> t_sgm x = sg -> sgms w !! sg = Some s -> sgl_at s <> 0 ->
  mapped s start count pinned -> buffer_pages start count <= Z.of_nat (length (sgl s)) ->
  wp (transfer_map t sg ep dir ni force 1) (fun _ w' => moves_buffer t ep dir ni w' /\
    exists nents r mem v bus num l, 0 <= nents /\ v = (fresh w, 0) /\
      w' = w <| trace := Call dma_alloc_coherent [nents * sizeof_xdma_desc] r
                 :: Call pci_map_sg [sg; buffer_pages start count; dir] l :: trace w |>
        <| fresh := fresh w + 1 |>
        <| transfers := <[t := x <| sgl_nents := nents |> <| desc_virt := v |> <| desc_bus := bus |>
             <| desc_adjacent := num |> <| desc_num := num |>]> (transfers w) |>
        <| sgms := <[sg := s <| sgl ::= store_dma (tail l) |>]> (sgms w) |> <| coherent := mem |> /\
      is_Some (mem !! fresh w) /\ forall b, b <> fresh w -> mem !! b = coherent w !! b) w.
Proof using ub.
  intros Hf Hpd Hx Hsg Hs Hat Hm Hl. unfold transfer_map.
  pose proof (buffer_pages_bounds start count ub_buffer) as (Hn1 & _).
  apply wp_bind, wp_getL, wp_bind, wp_BUG_ON; [apply Z.eqb_neq, Hpd|].
  apply wp_bind. eapply wp_getS; [exact Hs|]. apply wp_bind, wp_BUG_ON; [apply Z.eqb_neq, Hat|].
  apply wp_bind. eapply wp_getS; [exact Hs|]. rewrite (mp_count _ _ _ _ Hm).
  apply wp_bind, wp_BUG_ON; [apply Z.eqb_neq; lia|]. apply wp_bind, wp_ext_all.
  pose proof (mapped_bytes _ _ _ _ ub_buffer Hm) as Hbytes. rewrite (mp_count _ _ _ _ Hm) in Hbytes.
  set (l := take _ (sgl s)) in Hbytes.
  assert (Z.of_nat (length l) = buffer_pages start count) as Hll by (subst l; rewrite length_take; lia).
  match goal with |- context [answer ?h pci_map_sg ?a] => set (r := answer h pci_map_sg a) end.
  destruct (ub_maps (trace w) sg dir l Hll Hbytes) as (segs & Hne & Hle & Er & Hsegs & Hio).
  rewrite Hll in Er, Hle. change (r = Z.of_nat (length segs) :: segment_words segs) in Er.
  rewrite Hbytes in Hio. assert (nth 0 r 0 = Z.of_nat (length segs)) as -> by (rewrite Er; reflexivity).
  apply wp_bind. eapply wp_setS; [exact Hs|]. apply wp_bind. eapply wp_setT; [exact Hx|].
  eapply wp_conseq.
  { eapply (describe_moves _ t _ sg _ (sgl s) segs); [apply lookup_insert_eq|exact Hsg|apply lookup_insert_eq
      |cbn; rewrite Er; reflexivity|reflexivity|exact Hf|exact Hne|lia|exact Hle|exact Hsegs|exact Hio]. }
  intros [] w' (Hmove & bus & num & mem & -> & Hb & Ho). split; [exact Hmove|].
  eexists (Z.of_nat (length segs)), (alloc_answer _ _), mem, (fresh w, 0), bus, num, r. split; [lia|]. split; [reflexivity|].
  split; [|split; [exact Hb|exact Ho]].
  apply world_eq; try reflexivity. cbn. apply insert_insert_eq.
Qed.

(** the calls up to the mapping *)
Definition pin_log (u : Z) (h r : history) : history :=
  flushes pinned ++ Call get_user_pages_fast (gup_args start count u) (buffer_pages start count :: pinned) :: h ++ r.

Lemma calls_pin_log f u h r :
  Forall (fun e => ev_fn e = kcalloc) h -> Forall (fun e => ev_fn e = kzalloc) r ->
  f <> flush_dcache_page -> f <> get_user_pages_fast -> f <> kcalloc -> f <> kzalloc ->
  calls f (pin_log u h r) = [].
Proof.
  intros Hh Hr H1 H2 H3 H4. apply calls_none. unfold pin_log. apply Forall_app; split; [|constructor; [|apply Forall_app; split]].
  - unfold flushes. rewrite Forall_reverse, Forall_map. apply Forall_true. intros pg. cbn. congruence.
  - cbn. congruence.
  - eapply Forall_impl; [exact Hh|]. intros e ->. congruence.
  - eapply Forall_impl; [exact Hr|]. intros e ->. congruence.
Qed.

Lemma create_log_ok u h r nents sgm dir rd l :
  Forall (fun e => ev_fn e = kcalloc) h -> Forall (fun e => ev_fn e = kzalloc) r ->
  create_log sgm dir nents (Call dma_alloc_coherent [nents * sizeof_xdma_desc] rd
    :: Call pci_map_sg [sgm; buffer_pages start count; dir] l :: pin_log u h r).
Proof.
  intros Hh Hr. split.
  - rewrite calls_cons_ne, calls_cons_eq, (calls_pin_log _ _ _ _ Hh Hr) by discriminate. reflexivity.
  - rewrite calls_cons_eq, calls_cons_ne, (calls_pin_log _ _ _ _ Hh Hr) by discriminate. reflexivity.
  - intros f Hf. rewrite !calls_cons_ne by (intros <-; discriminate).
    apply (calls_pin_log _ _ _ _ Hh Hr); intros ->; discriminate.
Qed.

Lemma transfer_create_ok w ep dir ni force :
  0 < fresh w -> pci_dev (lro w) <> 0 ->
  wp (transfer_create start count ep dir ni force 1) (fun t w' =>
    t = fresh w /\ moves_buffer t ep dir ni w' /\ created w t dir w') w.
Proof using ub.
  intros Hf Hpd. unfold transfer_create. apply wp_bind, wp_kzalloc_transfer; [intros E; elim (ub_kzalloc _ E)|].
  intros _. rewrite (proj2 (Z.eqb_neq (fresh w) 0)) by lia.
  apply wp_bind. eapply wp_setT; [apply lookup_insert_eq|].
  apply wp_bind. eapply wp_conseq; [apply create_mapper_ok; [apply ub_buffer|apply ub_size|apply ub_kcalloc]|]. intros p w1 (-> & h & s & -> & Hh & Hi & Hat & Hmax).
  apply wp_bind. eapply wp_setT; [apply lookup_insert_eq|].
  apply wp_bind, wp_BUG_ON; [apply Z.eqb_neq; cbn; lia|].
  apply wp_bind. eapply wp_setT; [apply lookup_insert_eq|].
  apply wp_bind. change (nz 1) with true. cbv iota.
  match goal with |- wp (sgm_get_user_pages ?p _ _ ?u) _ ?w => set (w2 := w); set (sg := p); set (tu := u) end.
  assert (gup_answer w2 start count tu = buffer_pages start count :: pinned) as Eg by apply ub_pins.
  pose proof (buffer_pages_bounds start count ub_buffer) as (Hn1 & _). pose proof ub_pages as Hpg.
  eapply wp_conseq.
  { apply (sgm_get_user_pages_pins w2 sg s); [apply lookup_insert_eq|exact Hi|apply ub_buffer|apply ub_size|exact Hmax| |];
      rewrite Eg; [split; cbn; lia|reflexivity]. }
  intros rc w3 (-> & s3 & -> & Hat3 & _ & Hl3 & Hm3). rewrite Eg in Hm3 |- *. cbn [tail] in Hm3 |- *.
  apply wp_bind, wp_BUG_ON; [apply Z.ltb_ge; lia|]. apply wp_bind. eapply wp_conseq.
  { eapply (map_moves _ _ _ sg s3); [cbn; lia|exact Hpd|apply lookup_insert_eq|reflexivity|apply lookup_insert_eq|rewrite Hat3; exact Hat|exact Hm3|lia]. }
  intros [] w5 (Hmove & nents & r & mem & v & bus & num & l & Hn & -> & -> & Hb & Ho).
  apply wp_ret. split; [reflexivity|]. split; [exact Hmove|].
  assert (sg = fresh w + 1) as Esg by reflexivity. clearbody sg.
  exists (zero_transfer <| t_dir_to_dev := dir |> <| t_sgm := sg |> <| userspace := 1 |> <| sgl_nents := nents |>
    <| desc_virt := (fresh w + 1 + 1, 0) |> <| desc_bus := bus |> <| desc_adjacent := num |> <| desc_num := num |>),
    (s3 <| sgl ::= store_dma (tail l) |>),
    (Call dma_alloc_coherent [nents * sizeof_xdma_desc] r :: Call pci_map_sg [sg; buffer_pages start count; dir] l
      :: pin_log tu h [Call kzalloc [] (answer (trace w) kzalloc [])]).
  subst sg. split; [|split; [reflexivity|split]].
  - unfold pin_log. cbn. rewrite <- !app_assoc. cbn. rewrite <- app_assoc. reflexivity.
  - apply create_log_ok; [exact Hh|repeat constructor].
  - split; [|reflexivity|reflexivity|reflexivity|exact Hn|cbn; f_equal; lia|split; reflexivity
      |exact (mp_count _ _ _ _ Hm3)|exact (mp_pages _ _ _ _ Hm3)].
    exists mem. split; [|split].
    + apply world_eq; try reflexivity; cbn; [lia|rewrite !insert_insert_eq; reflexivity..].
    + replace (fresh w + 2) with (fresh w + 1 + 1) by lia. exact Hb.
    + intros b Hbn. apply Ho. change (b <> fresh w + 1 + 1). lia.
Qed.

(** C6: A transfer made for a buffer of the process moves this buffer: the
    engine that begins at the first descriptor and follows the list to the stop
    flag does pieces behind whose host addresses are the bytes of the buffer,
    each once and in order, and on the card the addresses from [ep] on (where
    they are incremented). A piece is no longer than the hardware limit less a
    page, plus the longest of the mapped entries: within the limit of 2^18 - 1
    bytes when the mapping merged no pages. *)
Theorem transfer_moves_the_buffer w ep dir ni force :
  0 < fresh w -> pci_dev (lro w) <> 0 ->
  wp (transfer_create start count ep dir ni force 1) (fun t w' => t = fresh w /\ moves_buffer t ep dir ni w') w.
Proof using ub.
  intros Hf Hpd. eapply wp_conseq; [apply transfer_create_ok; assumption|].
  intros t w' (-> & Hm & _). split; [reflexivity|exact Hm].
Qed.

(** ** Destroying it again *)

(** a call for each pinned page, the last one first *)
Definition each_page (f : extern) : history := reverse (map (fun pg => Call f [pg] []) pinned).

(** the calls of the destruction, the last one first *)
Definition give_log (t dir size bus a b : Z) : history :=
  [Call kfree [t] []; Call dma_free_coherent [size; t + 2; bus] [];
   Call kfree [t + 1] []; Call kfree [b] []; Call kfree [a] []]
  ++ each_page put_page ++ (if nz dir then [] else each_page SetPageDirty)
  ++ [Call pci_unmap_sg [t + 1; buffer_pages start count; dir] []].

Lemma put_user_pages_ok w sg s d :
  sgms w !! sg = Some s -> 0 <= mapped_pages s <= Z.of_nat (length (pages s)) ->
  take (Z.to_nat (mapped_pages s)) (pages s) = pinned ->
  wp (sgm_put_user_pages sg (if nz d then 0 else 1)) (fun _ w' =>
    w' = w <| trace := (each_page put_page ++ (if nz d then [] else each_page SetPageDirty) ++ trace w)%list |>
           <| sgms := <[sg := s <| mapped_pages := 0 |>]> (sgms w) |>) w.
Proof.
  intros Hs Hm Ht. unfold sgm_put_user_pages, each_page. rewrite <- Ht.
  assert (forall (Q : unit -> world -> Prop),
    Q tt (w <| trace := ((if nz d then [] else reverse (map (fun pg => Call SetPageDirty [pg] [])
            (take (Z.to_nat (mapped_pages s)) (pages s)))) ++ trace w)%list |>) ->
    wp (when (nz (if nz d then 0 else 1)) (sgm_dirty_pages sg)) Q w) as Hd.
  { intros Q HQ. destruct (nz d); [apply wp_ret; destruct w; exact HQ|]. unfold sgm_dirty_pages. cbn [when nz Z.eqb negb].
    apply wp_bind. eapply wp_getS; [exact Hs|]. apply wp_bind. eapply wp_getS; [exact Hs|].
    eapply wp_conseq; [apply wp_each_page; exact Hm|]. intros [] w' ->. exact HQ. }
  apply wp_bind, Hd. apply wp_bind. eapply wp_getS; [exact Hs|]. apply wp_bind. eapply wp_getS; [exact Hs|].
  apply wp_bind. eapply wp_conseq; [apply wp_each_page; exact Hm|]. intros [] w' ->.
  apply wp_bind. eapply wp_setS; [exact Hs|]. apply wp_ret. reflexivity.
Qed.

Lemma transfer_destroy_ok w t dir x s w' :
  has_transfer w t dir x s w' ->
  transfers w !! t = None -> sgms w !! (t + 1) = None -> coherent w !! (t + 2) = None ->
  0 <= t -> buffer_pages start count = Z.of_nat (length pinned) ->
  wp (transfer_destroy t) (fun _ w'' => exists bus a b,
    w'' = w <| trace := (give_log t dir (sgl_nents x * sizeof_xdma_desc) bus a b ++ trace w')%list |>
            <| eng := eng w' |> <| fresh := t + 3 |>) w'.
Proof.
  intros [(mem & -> & Hb & Ho) Hsg Hdir Hu Hn Hv _ Hmp Ht] Hxt Hst Hct Htp Hpg.
  unfold transfer_destroy. apply wp_bind. eapply wp_getT; [apply lookup_insert_eq|]. rewrite Hsg.
  apply wp_bind. eapply wp_getT; [apply lookup_insert_eq|]. rewrite Hdir. apply wp_bind, wp_when.
  2: { intros E. unfold nz in E. apply negb_false_iff, Z.eqb_eq in E. lia. }
  intros _. apply wp_bind. eapply wp_getS; [apply lookup_insert_eq|]. rewrite Hmp. apply wp_bind, wp_ext_.
  apply wp_bind. eapply wp_getT; [apply lookup_insert_eq|]. rewrite Hu. change (nz 1) with true. cbn [when].
  apply wp_bind, wp_bind. eapply wp_conseq.
  { apply put_user_pages_ok; [apply lookup_insert_eq|rewrite Hmp|exact Ht].
    apply (f_equal length) in Ht. rewrite length_take in Ht. lia. }
  intros rc w1 ->. apply wp_ret, wp_bind. eapply wp_setS; [apply lookup_insert_eq|].
  unfold sg_destroy_mapper. apply wp_bind. eapply wp_getS; [apply lookup_insert_eq|]. apply wp_bind, wp_BUG_ON; [reflexivity|].
  apply wp_bind. eapply wp_getS; [apply lookup_insert_eq|]. apply wp_bind, wp_ext_.
  apply wp_bind. eapply wp_getS; [apply lookup_insert_eq|]. apply wp_bind, wp_ext_, wp_bind, wp_ext_, wp_modify.
  apply wp_bind. eapply wp_getT; [apply lookup_insert_eq|]. apply wp_bind. eapply wp_getT; [apply lookup_insert_eq|].
  apply wp_bind. eapply wp_getT; [apply lookup_insert_eq|]. rewrite Hv.
  apply wp_bind. unfold xdma_desc_free, dptr_is_null. cbn [fst]. apply wp_bind, wp_BUG_ON; [apply Z.eqb_neq; lia|].
  apply wp_bind, wp_BUG_ON; [apply Z.ltb_ge, Hn|]. apply wp_bind, wp_ext_. destruct Hb as [blk Hb].
  apply wp_bind. eapply wp_deref; [exact Hb|]. apply wp_modify.
  unfold kfree_transfer. apply wp_bind, wp_ext_, wp_bind. eapply wp_deref; [apply lookup_insert_eq|]. apply wp_modify.
  exists (desc_bus x), (sgl_at s), (pages_at s).
  apply world_eq; try reflexivity; cbn.
  - rewrite <- !app_assoc. reflexivity.
  - apply delete_insert_id, Hxt.
  - apply map_eq. intros k. destruct (decide (k = t + 2)) as [->|Hk].
    + rewrite lookup_delete_eq. symmetry. exact Hct.
    + rewrite lookup_delete_ne by congruence. apply Ho, Hk.
  - rewrite !insert_insert_eq. apply delete_insert_id, Hst.
Qed.

(** what the calls of the destruction are *)
Lemma calls_each_page f g : calls f (each_page g) = if extern_eqb g f then reverse (map (fun pg => [pg]) pinned) else [].
Proof.
  destruct (extern_eqb g f) eqn:E.
  - apply extern_eqb_eq in E as ->. apply calls_each.
  - apply calls_none. unfold each_page. rewrite Forall_reverse, Forall_map. apply Forall_true.
    intros pg H. cbn in H. rewrite H, (proj2 (extern_eqb_eq f f) eq_refl) in E. discriminate.
Qed.

End UserTransfer.
