(* ===== verification/Service.v ===== *)
(** * The service of an engine: interrupts, polling, completion of transfers
    (xdma-core.c)

    [while] loops that drain a list or a ring carry their own bound; the loops
    that wait for the device take fuel. *)
From S2P Require Import Prelude Layout Kernel World Desc Engine Sgm Transfer Wz.
#[local] Open Scope string_scope.
#[local] Open Scope Z_scope.

Section Service.
Context {bo : ByteOrder} {env : Env} {sched : Sched}.

(** [engine->poll_mode_addr_virt->completed_desc_count], written by the device *)
Definition read_writeback : prog world Z :=
  a <- getE poll_mode_addr_virt ;;
  if a =? 0 then abort_with BadAccess else
    v <- ext poll_mode_wb [a] ;; ret (u32 v).

(** ** The cyclic receive ring of the original driver *)

Definition engine_transfer_dequeue : prog world unit :=
  transfer <- first_transfer ;;
  BUG_ON (transfer =? 0) ;;
  t <- getE rx_transfer_cyclic ;;
  BUG_ON (negb (transfer =? t)) ;;
  list_del_first.

(** one turn of the loop over the results, counting ends of packets *)
Definition ring_process_one (eop_count : Z) : prog world (Z + Z) :=
  tail <- getE rx_tail ;;
  res <- gets rx_result ;;
  r <- index res tail ;;
  ov <- getE rx_overrun ;;
  if nz (r_status r) && negb (nz ov) then
    let eop_count := if nz (Z.land (r_status r) RX_STATUS_EOP) then eop_count + 1 else eop_count in
    setE (fun e => e <| rx_tail := Z.rem (tail + 1) RX_BUF_PAGES |>) ;;
    tail <- getE rx_tail ;;
    head <- getE rx_head ;;
    when (tail =? head) (setE (fun e => e <| rx_overrun := 1 |>)) ;;
    ret (inl eop_count)
  else ret (inr eop_count).

(** the tail meets the head within [RX_BUF_PAGES] turns *)
Definition ring_fuel : nat := 258.

Definition engine_ring_process : prog world Z :=
  v <- getE rx_result_buffer_virt ;;
  BUG_ON (v =? 0) ;;
  loop ring_fuel ring_process_one 0.

(** "engine was running but is no longer busy?" *)
Definition cyclic_idle : prog world unit :=
  r <- getE running ;;
  s <- getE status ;;
  when (nz r && negb (nz (Z.land s XDMA_STAT_BUSY)))
    (l <- getE transfer_list ;;
     when (negb (list_empty_ l)) engine_transfer_dequeue ;;
     engine_service_shutdown).

(** the loop variables are [eop_count] and [sched_limit]; the result is
    [eop_count] and [rc] *)
Definition cyclic_polled_one (v : Z * Z) : prog world (Z * Z + Z * Z) :=
  let '(eop_count, sched_limit) := v in
  if negb (eop_count =? 0) then ret (inr (eop_count, 0)) else
    when (negb (sched_limit =? 0) && (sched_limit mod NUM_POLLS_PER_SCHED =? 0))
      (ext_ schedule []) ;;
    let sched_limit := u32 (sched_limit + 1) in
    wb <- read_writeback ;;
    if nz (Z.land wb WB_ERR_MASK) then ret (inr (eop_count, -1)) else
      eop_count <- engine_ring_process ;;
      ret (inl (eop_count, sched_limit)).

Definition engine_service_cyclic_polled (fuel : nat) : prog world Z :=
  m <- getE magic ;;
  BUG_ON (negb (m =? MAGIC_ENGINE)) ;;
  r <- loop fuel cyclic_polled_one (0, 0) ;;
  let '(eop_count, rc) := r in
  when (eop_count =? 0) (_ <- engine_status_read true ;; cyclic_idle) ;;
  ret rc.

(** kept in the sources, no longer called *)
Definition engine_service_cyclic_interrupt : prog world Z :=
  m <- getE magic ;;
  BUG_ON (negb (m =? MAGIC_ENGINE)) ;;
  _ <- engine_status_read true ;;
  eop_count <- engine_ring_process ;;
  (if nz enable_credit_mp then
     t <- getE rx_transfer_cyclic ;;
     _ <- getT state t ;;
     ext_ wake_up_interruptible []
   else
     when (0 <? eop_count)
       (setE (fun e => e <| eop_found := 1 |>) ;;
        t <- getE rx_transfer_cyclic ;;
        _ <- getT state t ;;
        ext_ wake_up_interruptible [])) ;;
  cyclic_idle ;;
  ret 0.

Definition engine_service_cyclic (fuel : nat) : prog world Z :=
  m <- getE magic ;;
  BUG_ON (negb (m =? MAGIC_ENGINE)) ;;
  if poll_mode then engine_service_cyclic_polled fuel
  else wz_engine_service_cyclic_interrupt fuel.

(** ** Completion of transfers *)

(** null when an asynchronous request was completed and freed *)
Definition engine_transfer_completion (transfer : Z) : prog world Z :=
  BUG_ON (transfer =? 0) ;;
  i <- getT iocb transfer ;;
  last <- getT last_in_request transfer ;;
  if nz i && nz last then
    done <- getT size_of_request transfer ;;
    transfer_destroy transfer ;;
    ext_ aio_complete [i; done] ;;
    ret 0
  else
    ext_ wake_up_interruptible [transfer] ;;
    ret transfer.

(** the first transfer leaves the list and counts as dequeued *)
Definition dequeue_completed (transfer : Z) : prog world unit :=
  list_del_first ;;
  n <- getT desc_num transfer ;;
  setE (fun e => e <| desc_dequeued ::= Z.add n |>).

(** one turn: the transfer looked at and the descriptors completed *)
Definition service_list_one (v : Z * Z) : prog world (Z * Z + Z * Z) :=
  let '(transfer, completed) := v in
  if transfer =? 0 then ret (inr v) else
    c <- getT cyclic transfer ;;
    n <- getT desc_num transfer ;;
    if nz c then ret (inr v) else
    if u32 n <? completed then
      let completed := u32 (completed - n) in
      dequeue_completed transfer ;;
      setT (fun t => t <| state := TRANSFER_STATE_COMPLETED |>) transfer ;;
      _ <- engine_transfer_completion transfer ;;
      l <- getE transfer_list ;;
      ret (inl (hd 0 l, completed))
    else ret (inr v).

(** every turn takes a transfer off the list *)
Definition engine_service_transfer_list (transfer completed : Z) : prog world (Z * Z) :=
  BUG_ON (transfer =? 0) ;;
  l <- getE transfer_list ;;
  loop (S (length l)) service_list_one (transfer, completed).

Definition engine_err_handle (transfer desc_completed : Z) : prog world unit :=
  s <- getE status ;;
  when (nz (Z.land s XDMA_STAT_BUSY)) (_ <- read_er "status" ;; ret tt) ;;
  setT (fun t => t <| state := TRANSFER_STATE_FAILED |>) transfer ;;
  xdma_engine_stop.

Definition err_flags : Z :=
  Z.lor (Z.lor (Z.lor XDMA_STAT_MAGIC_STOPPED XDMA_STAT_ALIGN_MISMATCH)
    XDMA_STAT_READ_ERROR) XDMA_STAT_DESC_ERROR.

Definition engine_service_final_transfer (transfer completed : Z) : prog world Z :=
  BUG_ON (transfer =? 0) ;;
  s <- getE status ;;
  if nz (Z.land s err_flags) then
    engine_err_handle transfer completed ;; ret transfer
  else
    n <- getT desc_num transfer ;;
    (if completed <? u32 n then
       setT (fun t => t <| state := TRANSFER_STATE_FAILED |>) transfer
     else
       c <- getT cyclic transfer ;;
       when (negb (nz c)) (when (u32 n <? completed) (ext_ warn_on [])) ;;
       setT (fun t => t <| state := TRANSFER_STATE_COMPLETED |>) transfer) ;;
    dequeue_completed transfer ;;
    engine_transfer_completion transfer.

Definition engine_service_perf (desc_completed : Z) : prog world unit :=
  p <- getE xdma_perf ;;
  match p with
  | None => ret tt
  | Some _ =>
      s <- getE status ;;
      when (nz (Z.land s XDMA_STAT_DESC_COMPLETED))
        (setE (fun e => e <| xdma_perf ::=
           fmap (M := option) (fun q => q <| iterations := desc_completed |>) |>)) ;;
      when (nz (Z.land s XDMA_STAT_DESC_STOPPED))
        (setE (fun e => e <| xdma_perf ::=
           fmap (M := option) (fun q => q <| stopped := 1 |>) |>) ;;
         ext_ wake_up_interruptible [])
  end.

Definition engine_service_resume : prog world unit :=
  r <- getE running ;;
  l <- getE transfer_list ;;
  if negb (nz r) then
    sh <- getE shutdown ;;
    if nz (Z.land sh ENGINE_SHUTDOWN_REQUEST) then
      setE (fun e => e <| shutdown ::= fun s => Z.lor s ENGINE_SHUTDOWN_IDLE |>) ;;
      ext_ wake_up []
    else if negb (list_empty_ l) then
      _ <- engine_start ;; ret tt
    else ret tt
  else when (list_empty_ l) (ext_ warn_on []).

(** the part of [engine_service] from the queue on; the [BUG_ON(!transfer)]
    of the functions it calls see the null of an empty queue *)
Definition engine_service_queue (desc_count rc : Z) : prog world Z :=
  l <- getE transfer_list ;;
  transfer <- (if list_empty_ l then ret 0 else
    transfer <- first_transfer ;;
    engine_service_perf desc_count ;;
    ret transfer) ;;
  dq <- getE desc_dequeued ;;
  let desc_count := u32 (desc_count - dq) in
  v <- engine_service_transfer_list transfer desc_count ;;
  let '(transfer, desc_count) := v in
  _ <- engine_service_final_transfer transfer desc_count ;;
  when poll_mode
    (a <- getE poll_mode_addr_virt ;;
     if a =? 0 then abort_with BadAccess else ext_ store_word [a; 0; 0; 0]) ;;
  engine_service_resume ;;
  ret rc.

Definition engine_service (desc_writeback : Z) : prog world Z :=
  let desc_count := Z.land (u32 desc_writeback) WB_COUNT_MASK in
  let err_flag := Z.land (u32 desc_writeback) WB_ERR_MASK in
  let rc := if nz err_flag then -1 else 0 in
  r <- getE running ;;
  if negb (nz r) then
    when (desc_writeback =? 0) (_ <- engine_status_read true ;; ret tt) ;;
    ret 0
  else
    when ((desc_count =? 0) || nz err_flag) (_ <- engine_status_read true ;; ret tt) ;;
    s <- getE status ;;
    when (negb (nz (Z.land s XDMA_STAT_BUSY)) || nz desc_count) engine_service_shutdown ;;
    desc_count <- (if desc_count =? 0 then read_er "completed_desc_count" else ret desc_count) ;;
    engine_service_queue desc_count rc.

(** ** Bottom half and polling *)

Definition engine_service_work (fuel : nat) : prog world unit :=
  m <- getE magic ;;
  BUG_ON (negb (m =? MAGIC_ENGINE)) ;;
  spin_lock ;;
  _ <- engine_service_cyclic fuel ;;
  x <- getL msix_enabled ;;
  (if nz x then
     v <- getE interrupt_enable_mask_value ;; write_er "interrupt_enable_mask_w1s" v
   else
     b <- getE irq_bitmask ;; channel_interrupts_enable b) ;;
  spin_unlock.

(** [time_after(a, b)] on unsigned longs *)
Definition time_after (a b : Z) : bool := s64 (u64 (b - a)) <? 0.

(** the loop variables are [desc_wb] and [sched_limit] *)
Definition wb_monitor_one (expected timeout : Z) (v : Z * Z) : prog world (Z * Z + Z) :=
  let '(_, sched_limit) := v in
  desc_wb <- read_writeback ;;
  if nz (Z.land desc_wb WB_ERR_MASK) then ret (inr desc_wb) else
  if desc_wb =? expected then ret (inr desc_wb) else
    now <- ext jiffies [] ;;
    if time_after (u64 now) timeout then
      ret (inr (if expected <? Z.land desc_wb WB_COUNT_MASK
                then Z.lor expected WB_ERR_MASK else desc_wb))
    else
      when (negb (sched_limit =? 0) && (sched_limit mod NUM_POLLS_PER_SCHED =? 0))
        (ext_ schedule []) ;;
      ret (inl (desc_wb, u32 (sched_limit + 1))).

Definition engine_service_wb_monitor (hz : Z) (fuel : nat) (expected : Z) : prog world Z :=
  now <- ext jiffies [] ;;
  let timeout := u64 (now + POLL_TIMEOUT_SECONDS * hz) in
  if expected =? 0 then ret 0 else loop fuel (wb_monitor_one expected timeout) (0, 0).

Definition engine_service_poll (hz : Z) (fuel : nat) (expected : Z) : prog world Z :=
  m <- getE magic ;;
  BUG_ON (negb (m =? MAGIC_ENGINE)) ;;
  if negb (Z.land expected WB_COUNT_MASK =? expected) then ret (-1) else
    desc_wb <- engine_service_wb_monitor hz fuel expected ;;
    spin_lock ;;
    t <- getE rx_transfer_cyclic ;;
    rc <- (if nz t then engine_service_cyclic fuel else engine_service (s32 desc_wb)) ;;
    spin_unlock ;;
    ret rc.

(** ** The performance transfer *)

Definition xdma_performance_submit : prog world Z :=
  let max_consistent_size := 128 * 32 * 1024 in
  p <- getE xdma_perf ;;
  perf <- deref (fun _ => p) ;;
  let size_in_desc := s32 (transfer_size perf) in
  let size := s32 (u32 (size_in_desc * 128)) in
  BUG_ON (max_consistent_size <? u32 size_in_desc) ;;
  let '(size, num) :=
    if max_consistent_size <? u32 size
    then (max_consistent_size, Z.quot max_consistent_size size_in_desc)
    else (size, 128) in
  r <- ext_all pci_alloc_consistent [size] ;;
  let buffer_bus := nth 1 r 0 in
  transfer <- kzalloc_transfer ;;
  BUG_ON (transfer =? 0) ;;
  dir <- getE dir_to_dev ;;
  setT (fun t => t <| t_dir_to_dev := dir |> <| desc_num := num |>) transfer ;;
  d <- xdma_desc_alloc num ;;
  let '(v, bus, _) := d in
  setT (fun t => t <| desc_virt := v |> <| desc_bus := bus |>) transfer ;;
  BUG_ON (dptr_is_null v) ;;
  for_ 0 num (fun i =>
    xdma_desc_set (dptr_add v i) (u64 (buffer_bus + size_in_desc * i)) 0 size_in_desc dir) ;;
  xdma_desc_control v 0 ;;
  xdma_desc_link (dptr_add v (num - 1)) v bus ;;
  setT (fun t => t <| cyclic := 1 |>) transfer ;;
  _ <- transfer_queue transfer ;;
  ret 0.

(** ** Interrupt handlers *)

(** [events_lock] of entry [i] *)
Definition set_irq (i : Z) (f : xdma_irq -> xdma_irq) : prog world unit :=
  irqs <- getL user_irq ;;
  u <- index irqs i ;;
  setL (fun l => l <| user_irq ::= zinsert i (f u) |>).

Definition user_irq_service (i : Z) : prog world unit :=
  irqs <- getL user_irq ;;
  u <- index irqs i ;;
  if events_lock u then abort_with Deadlock else
    set_irq i (fun u => u <| events_lock := true |>) ;;
    when (negb (nz (events_irq u)))
      (set_irq i (fun u => u <| events_irq := 1 |>) ;; ext_ wake_up_interruptible [i]) ;;
    set_irq i (fun u => u <| events_lock := false |>).

(** [schedule_work] for engine [channel][dir] when it is present and fired *)
Definition isr_engine (ch_irq dir channel : Z) : prog world unit :=
  es <- getL engine ;;
  p <- index es (2 * channel + dir) ;;
  when (nz p)
    (e <- deref (fun w => engines w !! p) ;;
     when (nz (Z.land (irq_bitmask e) ch_irq)) (ext_ schedule_work [p])).

Definition xdma_isr : prog world Z :=
  ch_irq <- read_ir "channel_int_request" ;;
  channel_interrupts_disable ch_irq ;;
  uirq <- read_ir "user_int_request" ;;
  for_ 0 MAX_USER_IRQ (fun bit =>
    when (nz (Z.land uirq (Z.shiftl 1 bit))) (user_irq_service bit)) ;;
  for_ 0 XDMA_CHANNEL_NUM_MAX (isr_engine ch_irq 0) ;;
  for_ 0 XDMA_CHANNEL_NUM_MAX (isr_engine ch_irq 1) ;;
  setL (fun l => l <| irq_count ::= Z.add 1 |>) ;;
  ret IRQ_HANDLED.

Definition xdma_user_irq (i : Z) : prog world Z :=
  user_irq_service i ;; ret IRQ_HANDLED.

(** for the engine [eng], whose pointer is [p] *)
Definition xdma_channel_irq (p : Z) : prog world Z :=
  v <- read_er "interrupt_enable_mask" ;;
  setE (fun e => e <| interrupt_enable_mask_value := v |>) ;;
  v <- getE interrupt_enable_mask_value ;;
  write_er "interrupt_enable_mask_w1c" v ;;
  _ <- read_ir "channel_int_pending" ;;
  ext_ schedule_work [p] ;;
  setL (fun l => l <| irq_count ::= Z.add 1 |>) ;;
  ret IRQ_HANDLED.
End Service.
