(* ===== verification/ServiceFacts.v ===== *)
(** * What a service does to the queue of transfers *)
From Stdlib Require Import List.
From S2P Require Import Prelude Layout Kernel World Desc Engine EngineFacts Sgm Transfer Wz Service.
#[local] Open Scope string_scope.
#[local] Open Scope list_scope.
#[local] Open Scope Z_scope.

Ltac wp_hook ::= wp_engine.

Section Facts.
Context {bo : ByteOrder} {env : Env} {sched : Sched}.

(** ** The queue as a specification *)

(** a synchronous transfer of [n] descriptors that is not cyclic *)
Definition plain (m : gmap Z xdma_transfer) (n t : Z) : Prop :=
  t <> 0 /\ exists x, m !! t = Some x /\ desc_num x = n /\ 0 < n < 2 ^ 31 /\
    cyclic x = 0 /\ iocb x = 0.

(** [marked s ts m]: the transfers [ts] have state [s] *)
Definition with_state (s : transfer_state) (x : xdma_transfer) : xdma_transfer := x <| state := s |>.
Definition marked (s : transfer_state) (ts : list Z) (m : gmap Z xdma_transfer) : gmap Z xdma_transfer :=
  foldl (fun m t => alter (with_state s) t m) m ts.

Definition total (l : list (Z * Z)) : Z := foldr (fun p a => snd p + a) 0 l.

Lemma total_cons t n l : total ((t, n) :: l) = n + total l.
Proof. reflexivity. Qed.

Lemma total_nonneg m l : Forall (fun p => plain m (snd p) (fst p)) l -> 0 <= total l.
Proof.
  induction 1 as [|[t n] l (_ & x & _ & _ & Hn & _) _ IH]; [cbn; lia|].
  rewrite total_cons. cbn in Hn. lia.
Qed.

Lemma plain_alter s t' m n t : plain m n t -> plain (alter (with_state s) t' m) n t.
Proof.
  intros (H0 & x & Hx & H1 & H2 & H3 & H4). split; [exact H0|].
  destruct (decide (t = t')) as [->|Hne].
  - exists (with_state s x). rewrite lookup_alter_eq, Hx. repeat split; assumption || lia.
  - exists x. rewrite lookup_alter_ne by congruence. repeat split; assumption || lia.
Qed.

Lemma Forall_plain_alter s t' m l :
  Forall (fun p => plain m (snd p) (fst p)) l ->
  Forall (fun p => plain (alter (with_state s) t' m) (snd p) (fst p)) l.
Proof. intros H. eapply Forall_impl; [exact H|]. intros [t n]. apply plain_alter. Qed.

(** ** One turn *)

Definition dequeued (n : Z) (l : list Z) (e : xdma_engine) : xdma_engine :=
  e <| transfer_list := l |> <| desc_dequeued ::= Z.add n |>.

(** the effect of completing the first transfer of the queue *)
Definition completed_first (t n : Z) (l : list Z) (w : world) : world :=
  w <| trace ::= cons (Call wake_up_interruptible [t] []) |>
    <| transfers ::= alter (with_state TRANSFER_STATE_COMPLETED) t |>
    <| eng ::= dequeued n l |>.

Lemma alter_insert (m : gmap Z xdma_transfer) t x s :
  m !! t = Some x -> alter (with_state s) t m = <[t := with_state s x]> m.
Proof.
  intros Hx. apply map_eq. intros i. destruct (decide (i = t)) as [->|Hne].
  - rewrite lookup_alter_eq, lookup_insert_eq, Hx. reflexivity.
  - rewrite lookup_alter_ne, lookup_insert_ne by congruence. reflexivity.
Qed.

Lemma service_list_turn w t n l completed :
  plain (transfers w) n t -> transfer_list (eng w) = t :: l ->
  n < completed < 2 ^ 32 ->
  wp (service_list_one (t, completed)) (fun v w' =>
    v = inl (hd 0 l, completed - n) /\ w' = completed_first t n l w) w.
Proof.
  intros (Ht & x & Hx & Hn & Hb & Hc & Hi) Hl Hlt.
  assert (Hu : u32 n = n) by (apply u32_id; unfold is_u32; lia).
  assert (Hx' : (<[t := with_state TRANSFER_STATE_COMPLETED x]> (transfers w)) !! t
    = Some (with_state TRANSFER_STATE_COMPLETED x)) by apply lookup_insert_eq.
  unfold service_list_one. rewrite (proj2 (Z.eqb_neq t 0) Ht).
  wp_step. eapply wp_getT; [exact Hx|]. rewrite Hc. wp_step. eapply wp_getT; [exact Hx|]. rewrite Hn, Hu.
  change (nz 0) with false. cbv iota. rewrite (proj2 (Z.ltb_lt n completed)) by lia.
  rewrite u32_id by (unfold is_u32; lia).
  unfold dequeue_completed, list_del_first, engine_transfer_completion.
  wp_step. wp_step. wp_step. wp_step. rewrite Hl. wp_step. wp_step. eapply wp_getT; [exact Hx|]. rewrite Hn.
  wp_step. wp_step. eapply wp_setT; [exact Hx|]. wp_step. wp_step.
  wp_step; [apply Z.eqb_neq, Ht|]. wp_step. eapply wp_getT; [exact Hx'|].
  wp_step. eapply wp_getT; [exact Hx'|]. cbn. rewrite Hi. change (nz 0) with false. cbn.
  wp_step. wp_step. wp_step. wp_step. wp_step. wp_step. split; [reflexivity|].
  unfold completed_first. state_eq. symmetry. apply alter_insert, Hx.
Qed.

(** ** The drain of the queue *)

(** after completing all of [l] *)
Fixpoint drained (l : list (Z * Z)) (rest : list Z) (w : world) : world :=
  match l with
  | [] => w
  | (t, n) :: l' => drained l' rest (completed_first t n (map fst l' ++ rest) w)
  end.

Lemma service_list_loop l : forall w t n rest c fuel,
  Forall (fun p => plain (transfers w) (snd p) (fst p)) l ->
  plain (transfers w) n t ->
  transfer_list (eng w) = map fst l ++ t :: rest ->
  0 < c <= n -> total l + c < 2 ^ 32 -> (length l < fuel)%nat ->
  wp (loop fuel service_list_one (hd 0 (map fst l ++ t :: rest), total l + c)) (fun v w' =>
    v = (t, c) /\ w' = drained l (t :: rest) w) w.
Proof.
  induction l as [|[t0 n0] l IH]; intros w t n rest c fuel Hall Ht Hq Hc Hb Hf;
    (destruct fuel as [|fuel]; [cbn in Hf; lia|]); rewrite loop_S; apply wp_bind.
  - destruct Ht as (H0 & x & Hx & Hn & Hbn & Hcy & _). cbn [map app hd].
    change (total []) with 0. unfold service_list_one. rewrite (proj2 (Z.eqb_neq t 0) H0).
    wp_step. eapply wp_getT; [exact Hx|]. rewrite Hcy. wp_step. eapply wp_getT; [exact Hx|]. rewrite Hn.
    change (nz 0) with false. cbv iota. rewrite u32_id by (unfold is_u32; lia).
    rewrite (proj2 (Z.ltb_ge n (0 + c))) by lia. wp_step. wp_step. split; reflexivity.
  - inversion Hall as [|? ? Ht0 Hall']; subst. cbn in Ht0, Hq, Hf. rewrite total_cons in *.
    pose proof (total_nonneg _ _ Hall') as Hpos.
    assert (Hn0 : 0 < n0) by (destruct Ht0 as (_ & x0 & _ & _ & H & _); lia). cbn [map app hd fst].
    eapply wp_conseq; [apply (service_list_turn w t0 n0 (map fst l ++ t :: rest)); [exact Ht0|exact Hq|lia]|].
    intros v w' [-> ->]. cbv beta iota. cbn [drained].
    replace (n0 + total l + c - n0) with (total l + c) by lia.
    apply (IH _ t n rest c fuel).
    + apply Forall_plain_alter, Hall'.
    + apply plain_alter, Ht.
    + reflexivity.
    + exact Hc.
    + lia.
    + lia.
Qed.

Lemma drained_state l rest : forall w, transfer_list (eng w) = map fst l ++ rest ->
  exists tr, drained l rest w = w <| trace := tr |>
    <| transfers ::= marked TRANSFER_STATE_COMPLETED (map fst l) |>
    <| eng ::= dequeued (total l) rest |> /\ writes tr = writes (trace w).
Proof.
  induction l as [|[t n] l IH]; intros w Hq; cbn [drained map].
  - exists (trace w). split; [|reflexivity]. unfold dequeued. cbn in Hq. rewrite <- Hq. state_eq.
  - destruct (IH (completed_first t n (map fst l ++ rest) w) eq_refl) as (tr & -> & Hw).
    exists tr. split; [|rewrite Hw; reflexivity].
    unfold completed_first, dequeued. rewrite total_cons. state_eq. lia.
Qed.
(** ** The transfer the engine stopped on *)

Definition outcome (c n : Z) : transfer_state :=
  if c <? n then TRANSFER_STATE_FAILED else TRANSFER_STATE_COMPLETED.

Lemma final_transfer_ok w t n rest c :
  plain (transfers w) n t -> transfer_list (eng w) = t :: rest -> c <= n ->
  Z.land (status (eng w)) err_flags = 0 ->
  wp (engine_service_final_transfer t c) (fun _ w' =>
    w' = w <| trace ::= cons (Call wake_up_interruptible [t] []) |>
           <| transfers ::= alter (with_state (outcome c n)) t |>
           <| eng ::= dequeued n rest |>) w.
Proof.
  intros (Ht & x & Hx & Hn & Hb & Hc & Hi) Hl Hlt He.
  assert (Hu : u32 n = n) by (apply u32_id; unfold is_u32; lia).
  apply Z.eqb_neq in Ht. assert (Hcn : (n <? c) = false) by (apply Z.ltb_ge; lia).
  assert (Hw : wp (dequeue_completed t ;; engine_transfer_completion t)
    (fun _ w' => w' = w <| trace ::= cons (Call wake_up_interruptible [t] []) |>
           <| transfers ::= alter (with_state (outcome c n)) t |>
           <| eng ::= dequeued n rest |>)
    (w <| transfers ::= <[t := with_state (outcome c n) x]> |>)).
  { assert (Hx' : (<[t := with_state (outcome c n) x]> (transfers w)) !! t
      = Some (with_state (outcome c n) x)) by apply lookup_insert_eq.
    unfold dequeue_completed, list_del_first, engine_transfer_completion.
    wp_step. wp_step. wp_step. wp_step. cbn. rewrite Hl. wp_step. wp_step.
    eapply wp_getT; [exact Hx'|]. wp_step. wp_step. wp_step.
    wp_step. eapply wp_getT; [exact Hx'|]. wp_step. eapply wp_getT; [exact Hx'|]. cbn. rewrite Hi.
    change (nz 0) with false. cbn. wp_step. wp_step. wp_step. state_eq.
    - rewrite Hn. reflexivity.
    - symmetry. apply alter_insert, Hx. }
  unfold engine_service_final_transfer. wp_step. wp_step. wp_step. wp_step. rewrite He.
  change (nz 0) with false. cbv iota. wp_step. eapply wp_getT; [exact Hx|]. rewrite Hn, Hu.
  wp_step. unfold outcome in Hw |- *. destruct (c <? n).
  - eapply wp_setT; [exact Hx|]. exact Hw.
  - wp_step. eapply wp_getT; [exact Hx|]. rewrite Hc, Hcn. change (nz 0) with false. cbn [negb when].
    wp_step. wp_step. eapply wp_setT; [exact Hx|]. exact Hw.
Qed.

(** ** The restart *)

Lemma resume_ok w :
  running (eng w) = 0 -> Z.land (shutdown (eng w)) ENGINE_SHUTDOWN_REQUEST = 0 ->
  queue_ok w ->
  wp engine_service_resume (fun _ w' => exists tr,
    w' = w <| trace := tr |>
           <| eng ::= fun e => if list_empty_ (transfer_list e) then e else started e |>) w.
Proof.
  intros Hr Hs Hq. unfold engine_service_resume.
  wp_step. wp_step. wp_step. wp_step. rewrite Hr. change (nz 0) with false. cbn [negb]. cbv iota.
  wp_step. wp_step. rewrite Hs. change (nz 0) with false. cbv iota.
  destruct (transfer_list (eng w)) as [|h l] eqn:El; cbn [list_empty_ negb].
  - wp_step. exists (trace w). apply world_eq; try reflexivity. cbn. rewrite El. reflexivity.
  - unfold queue_ok in Hq. rewrite El in Hq. apply Forall_inv in Hq as [Hh [y Hy]].
    wp_step. eapply wp_conseq; [apply (engine_start_ok _ h l y); assumption|].
    intros r w' (_ & tr & -> & _). wp_step. exists tr.
    apply world_eq; try reflexivity. cbn. rewrite El. reflexivity.
Qed.

(** the transfers left in the queue are still there *)
Definition still_there (m : gmap Z xdma_transfer) (ts : list Z) : Prop :=
  Forall (fun t => t <> 0 /\ is_Some (m !! t)) ts.

Lemma still_there_alter s t m ts :
  still_there m ts -> still_there (alter (with_state s) t m) ts.
Proof.
  intros H. eapply Forall_impl; [exact H|]. intros t' [H0 [x Hx]]. split; [exact H0|].
  destruct (decide (t = t')) as [->|Hne].
  - rewrite lookup_alter_eq, Hx. eexists; reflexivity.
  - rewrite lookup_alter_ne by exact Hne. eauto.
Qed.

Lemma still_there_marked s l : forall m ts, still_there m ts -> still_there (marked s l m) ts.
Proof. induction l as [|t l IH]; intros m ts H; [exact H|]. apply IH, still_there_alter, H. Qed.

Lemma plain_marked s l : forall m n t, plain m n t -> plain (marked s l m) n t.
Proof. induction l as [|t' l IH]; intros m n t H; [exact H|]. apply IH, plain_alter, H. Qed.
(** ** The whole service *)

Lemma shutdown_ok w :
  wp engine_service_shutdown (fun _ w' => exists tr, w' = w <| trace := tr |> <| eng -> running := 0 |>) w.
Proof. unfold engine_service_shutdown, xdma_engine_stop. wp_run. eexists. state_eq. Qed.

(** clearing the write-back word *)
Lemma clear_writeback_ok w :
  (poll_mode = true -> poll_mode_addr_virt (eng w) <> 0) ->
  wp (when poll_mode
      (a <- getE poll_mode_addr_virt ;;
       if a =? 0 then abort_with BadAccess else ext_ store_word [a; 0; 0; 0]))
    (fun _ w' => exists tr, w' = w <| trace := tr |>) w.
Proof.
  intros H. wp_step.
  - wp_step. wp_step. rewrite (proj2 (Z.eqb_neq _ 0) (H ltac:(assumption))). wp_step. eexists. state_eq.
  - exists (trace w). state_eq.
Qed.

Lemma service_queue_ok w1 w l t n rest c wb rc :
  Forall (fun p => plain (transfers w1) (snd p) (fst p)) l -> plain (transfers w1) n t ->
  still_there (transfers w1) rest ->
  transfer_list (eng w1) = map fst l ++ t :: rest ->
  running (eng w1) = 0 -> xdma_perf (eng w1) = None ->
  (poll_mode = true -> poll_mode_addr_virt (eng w1) <> 0) ->
  Z.land (status (eng w1)) err_flags = 0 ->
  Z.land (shutdown (eng w1)) ENGINE_SHUTDOWN_REQUEST = 0 ->
  desc_dequeued (eng w1) = desc_dequeued (eng w) -> transfers w1 = transfers w ->
  0 < wb < 2 ^ 24 -> 0 <= desc_dequeued (eng w) ->
  wb = desc_dequeued (eng w) + total l + c -> 0 < c <= n ->
  wp (engine_service_queue wb rc) (fun rc' w' => rc' = rc /\
    transfers w' = alter (with_state (outcome c n)) t
                     (marked TRANSFER_STATE_COMPLETED (map fst l) (transfers w)) /\
    transfer_list (eng w') = rest /\
    running (eng w') = (if list_empty_ rest then 0 else 1) /\
    desc_dequeued (eng w') = (if list_empty_ rest then desc_dequeued (eng w) + total l + n else 0)) w1.
Proof.
  intros Hl Ht Hrest Hq1 Hr1 Hp Ha He Hs Hdq1 Htr Hwb Hdq Hsum Hc.
  pose proof (total_nonneg _ _ Hl) as Hpos.
  assert (Hne1 : list_empty_ (transfer_list (eng w1)) = false) by (rewrite Hq1; destruct l; reflexivity).
  unfold engine_service_queue. wp_step. wp_step. rewrite Hne1.
  wp_step. wp_step. unfold first_transfer. wp_step. wp_step. wp_step.
  unfold engine_service_perf. wp_step. wp_step. wp_step. rewrite Hp. wp_step. wp_step.
  wp_step. wp_step. rewrite Hdq1.
  replace (u32 (wb - desc_dequeued (eng w))) with (total l + c)
    by (rewrite u32_id by (unfold is_u32; lia); lia).
  assert (Hhead : match transfer_list (eng w1) with [] => 0 | x :: _ => x end
    = hd 0 (map fst l ++ t :: rest)) by (rewrite Hq1; destruct (map fst l); reflexivity).
  rewrite Hhead. wp_step. unfold engine_service_transfer_list. wp_step. wp_step.
  { apply Z.eqb_neq. destruct l as [|p l']; [apply Ht|]. apply Forall_inv in Hl. apply Hl. }
  wp_step. wp_step. rewrite Hq1.
  eapply wp_conseq; [apply (service_list_loop l w1 t n rest c); try assumption; [lia|]|].
  { rewrite length_app, length_map. cbn. lia. }
  intros v w2 [-> ->]. cbv beta iota.
  destruct (drained_state l (t :: rest) w1 Hq1) as (tr2 & -> & _).
  match goal with |- wp _ _ ?st => set (w2 := st) end.
  wp_step. eapply wp_conseq; [apply (final_transfer_ok w2 t n rest c); [|reflexivity|lia|exact He]|].
  { apply plain_marked, Ht. }
  intros r w3 ->. cbv beta.
  match goal with |- wp _ _ ?st => set (w3 := st) end.
  wp_step. eapply wp_conseq; [apply (clear_writeback_ok w3); exact Ha|]. intros [] w4 (tr4 & ->).
  match goal with |- wp _ _ ?st => set (w4 := st) end.
  wp_step. eapply wp_conseq; [apply (resume_ok w4); [exact Hr1|exact Hs|]|].
  { apply still_there_alter, still_there_marked, Hrest. }
  intros [] w5 (tr5 & ->). wp_step. split; [reflexivity|].
  split; [rewrite <- Htr; reflexivity|]. cbn.
  destruct (list_empty_ rest) eqn:Er; cbn; (split; [reflexivity|]).
  - split; [exact Hr1|]. lia.
  - split; reflexivity.
Qed.

(** C8: the service of the write-back of a polled engine.  With the transfers
    [l] and then [t] at the head of the queue, and [c] descriptors of [t]
    completed after all of [l], every transfer of [l] is completed, [t] is
    completed when [c] is all of it and failed when the engine stopped half
    way, all of them leave the queue, the ones behind stay, and the engine is
    restarted exactly when one is left. *)
Theorem engine_service_completes_transfers w l t n rest c wb :
  Forall (fun p => plain (transfers w) (snd p) (fst p)) l -> plain (transfers w) n t ->
  still_there (transfers w) rest ->
  transfer_list (eng w) = map fst l ++ t :: rest ->
  running (eng w) <> 0 -> xdma_perf (eng w) = None ->
  (poll_mode = true -> poll_mode_addr_virt (eng w) <> 0) ->
  Z.land (status (eng w)) err_flags = 0 ->
  Z.land (shutdown (eng w)) ENGINE_SHUTDOWN_REQUEST = 0 ->
  0 < wb < 2 ^ 24 -> 0 <= desc_dequeued (eng w) ->
  wb = desc_dequeued (eng w) + total l + c -> 0 < c <= n ->
  wp (engine_service wb) (fun rc w' => rc = 0 /\
    transfers w' = alter (with_state (outcome c n)) t
                     (marked TRANSFER_STATE_COMPLETED (map fst l) (transfers w)) /\
    transfer_list (eng w') = rest /\
    running (eng w') = (if list_empty_ rest then 0 else 1) /\
    desc_dequeued (eng w') = (if list_empty_ rest then desc_dequeued (eng w) + total l + n else 0)) w.
Proof.
  intros Hl Ht Hrest Hq Hr Hp Ha He Hs Hwb Hdq Hsum Hc.
  assert (Hcount : Z.land (u32 wb) WB_COUNT_MASK = wb).
  { rewrite u32_id by (unfold is_u32; lia). apply (land_ones_small wb 24); lia. }
  assert (Herr : Z.land (u32 wb) WB_ERR_MASK = 0).
  { rewrite u32_id by (unfold is_u32; lia). unfold WB_ERR_MASK.
    rewrite Z.land_comm, <- (land_ones_small wb 31) by lia.
    rewrite (Z.land_comm wb), Z.land_assoc, (land_shiftl_low 1 31 31) by lia. apply Z.land_0_l. }
  pose proof (total_nonneg _ _ Hl) as Hpos.
  assert (Hz : (wb =? 0) = false) by (apply Z.eqb_neq; lia).
  assert (Hnz : nz wb = true) by (apply nz_true; lia).
  unfold engine_service. cbv zeta. rewrite Hcount, Herr. change (nz 0) with false.
  wp_step. wp_step. rewrite (proj2 (nz_true _) Hr), Hz. cbn [negb orb when].
  wp_step. wp_step. wp_step. wp_step. rewrite Hnz, orb_true_r. cbn [when].
  wp_step. eapply wp_conseq; [apply shutdown_ok|]. intros [] w1 (tr1 & ->).
  wp_step. wp_step.
  match goal with |- wp _ _ ?st => set (w1 := st) end.
  apply (service_queue_ok w1 w l t n rest c wb 0); try assumption; reflexivity.
Qed.
(** ** Errors *)

(** a service that finds the queue empty while the engine is marked
    running runs into [BUG_ON(!transfer)]: the code checks that the queue is
    not empty before it reads its head, and then passes the null on. *)
Lemma engine_service_of_an_empty_queue_is_a_bug w wb :
  running (eng w) <> 0 -> transfer_list (eng w) = [] ->
  engine_service wb w = Abort BugOn.
Proof.
  intros Hr Hq. unfold engine_service. cbv zeta.
  assert (Hend : forall w' c rc, transfer_list (eng w') = [] ->
    engine_service_queue c rc w' = Abort BugOn).
  { intros w' c rc Hq'. unfold engine_service_queue, bind at 1. unfold getE, gets.
    rewrite Hq'. reflexivity. }
  assert (Hstatus : forall b, exists w',
    when b (_ <- engine_status_read true ;; ret tt) w = Ok tt w' /\ transfer_list (eng w') = []).
  { intros [|]; eexists; (split; [reflexivity|exact Hq]). }
  rewrite (bind_ok (getE running) _ w (running (eng w)) w eq_refl), (proj2 (nz_true _) Hr). cbn [negb].
  destruct (Hstatus ((Z.land (u32 wb) WB_COUNT_MASK =? 0) || nz (Z.land (u32 wb) WB_ERR_MASK)))
    as (w1 & E1 & Hq1).
  rewrite (bind_ok _ _ _ _ _ E1), (bind_ok (getE status) _ w1 (status (eng w1)) w1 eq_refl).
  assert (Hshut : forall b, exists w', when b engine_service_shutdown w1 = Ok tt w' /\
    transfer_list (eng w') = []).
  { intros [|]; [|eexists; split; [reflexivity|exact Hq1]].
    pose proof (shutdown_ok w1) as H. apply wp_ok in H as ([] & w' & E & tr & ->).
    eexists. split; [exact E|exact Hq1]. }
  match goal with |- bind (when ?b _) _ _ = _ => destruct (Hshut b) as (w2 & E2 & Hq2) end.
  rewrite (bind_ok _ _ _ _ _ E2).
  destruct (Z.land (u32 wb) WB_COUNT_MASK =? 0).
  - unfold bind at 1. apply Hend. exact Hq2.
  - rewrite (bind_ok (ret _) _ _ _ _ eq_refl). apply Hend. exact Hq2.
Qed.

(** C34: when the engine stopped with an error, the transfer at the head of
    the queue is marked failed and stays there, and the engine is started
    again on that same transfer. *)
Theorem engine_service_restarts_failed_transfer w t x rest :
  t <> 0 -> transfers w !! t = Some x -> transfer_list (eng w) = t :: rest ->
  nz (Z.land (status (eng w)) err_flags) = true ->
  running (eng w) = 0 -> Z.land (shutdown (eng w)) ENGINE_SHUTDOWN_REQUEST = 0 ->
  wp (_ <- engine_service_final_transfer t (desc_num x) ;; engine_service_resume) (fun _ w' =>
    transfers w' = <[t := with_state TRANSFER_STATE_FAILED x]> (transfers w) /\
    transfer_list (eng w') = t :: rest /\ running (eng w') = 1 /\
    In (sg_reg "first_desc_lo" (sgdma_regs (eng w)), cpu_to_le32 (PCI_DMA_L (desc_bus x)))
       (writes (trace w'))) w.
Proof.
  intros Ht Hx Hl He Hr Hs. assert (Ht0 := Ht). apply Z.eqb_neq in Ht.
  assert (Herr : wp (engine_service_final_transfer t (desc_num x)) (fun _ w' => exists tr,
    w' = w <| trace := tr |> <| transfers ::= <[t := with_state TRANSFER_STATE_FAILED x]> |>) w).
  { unfold engine_service_final_transfer, engine_err_handle, xdma_engine_stop.
    wp_step. wp_step. wp_step. wp_step. rewrite He. wp_step. wp_step. wp_step. wp_step. wp_step.
    - wp_step. wp_step. wp_step. wp_step. eapply wp_setT; [exact Hx|]. wp_step. wp_step. wp_step.
      wp_step. eexists. state_eq.
    - wp_step. eapply wp_setT; [exact Hx|]. wp_step. wp_step. wp_step. wp_step. eexists. state_eq. }
  apply wp_bind. eapply wp_conseq; [exact Herr|]. intros r w1 (tr & ->).
  unfold engine_service_resume.
  match goal with |- wp _ _ ?st => set (w1 := st) end.
  assert (Hx1 : transfers w1 !! t = Some (with_state TRANSFER_STATE_FAILED x)) by apply lookup_insert_eq.
  wp_step. wp_step. wp_step. wp_step. change (running (eng w1)) with (running (eng w)). rewrite Hr.
  change (nz 0) with false. cbn [negb]. cbv iota. wp_step. wp_step.
  change (shutdown (eng w1)) with (shutdown (eng w)). rewrite Hs. change (nz 0) with false. cbv iota.
  change (transfer_list (eng w1)) with (transfer_list (eng w)). rewrite Hl. cbn [list_empty_ negb]. wp_step.
  eapply wp_conseq; [apply (engine_start_ok w1 t rest _ Hr Hl Ht0 Hx1)|].
  intros r' w2 (_ & tr2 & -> & Hw). wp_step.
  split; [reflexivity|]. split; [exact Hl|]. split; [reflexivity|].
  match goal with |- In _ (writes ?h) => change h with tr2 end. rewrite Hw. apply in_or_app. left.
  unfold start_writes. right. apply in_or_app. right. right. right. left. reflexivity.
Qed.
End Facts.
