(* ===== verification/RxRing.v ===== *)
(** * The receive ring of the streaming C2H engines (xdma-core.c, "cyclic")

    The device writes a result for each page of the ring; the service counts
    them in and moves [rx_tail] (Service.v), a reader takes a packet out and
    moves [rx_head].  The sources keep this mode next to the one of wz-xdma.c. *)
From Stdlib Require Import List.
From S2P Require Import Prelude Layout Kernel World Desc Engine Sgm Transfer Wz Service.
#[local] Open Scope string_scope.
#[local] Open Scope Z_scope.

(** a result as the code clears it *)
Definition no_result : xdma_result := mk_result 0 0.

Section RxRing.
Context {bo : ByteOrder} {env : Env} {sched : Sched}.

(** ** Reserved pages *)

Definition PAGE_ALIGN (size : Z) : Z := Z.land (u64 (size + (PAGE_SIZE - 1))) (- PAGE_SIZE).

Definition reserve_one (v : Z * Z) : prog world (Z * Z + unit) :=
  let '(adr, size) := v in
  if 0 <? size then
    page <- ext vmalloc_to_page [adr] ;;
    ext_ SetPageReserved [page] ;;
    ret (inl (u64 (adr + PAGE_SIZE), u64 (size - PAGE_SIZE)))
  else ret (inr tt).

(** the loops end after as many turns as there are pages *)
Definition pages_fuel (size : Z) : nat := Z.to_nat (size / PAGE_SIZE + 2).

Definition rvmalloc (size : Z) : prog world Z :=
  let size := PAGE_ALIGN size in
  mem <- ext vmalloc_32 [size] ;;
  if mem =? 0 then ret 0 else
    loop (pages_fuel size) reserve_one (mem, size) ;;
    ret mem.

Definition unreserve_one (v : Z * Z) : prog world (Z * Z + unit) :=
  let '(adr, size) := v in
  if 0 <? s64 size then
    page <- ext vmalloc_to_page [adr] ;;
    ext_ ClearPageReserved [page] ;;
    ret (inl (u64 (adr + PAGE_SIZE), u64 (size - PAGE_SIZE)))
  else ret (inr tt).

Definition rvfree (mem size : Z) : prog world unit :=
  if mem =? 0 then ret tt else
    loop (pages_fuel size) unreserve_one (mem, size) ;;
    ext_ vfree [mem].

(** ** Waiting for a packet *)

(** one turn, from the value of [rc] before it *)
Definition monitor_cyclic_one (hz : Z) (fuel : nat) (rc : Z) : prog world (Z + Z) :=
  let rc := rc + 1 in
  if rc =? 100 then ret (inr rc) else
    rc <- (if poll_mode then
             rc <- engine_service_poll hz fuel 0 ;;
             ret (if nz rc then - ERESTARTSYS else rc)
           else if nz enable_credit_mp then
             wait_event_interruptible_ (fun w =>
               negb (rx_head (eng w) =? rx_tail (eng w)) || nz (rx_overrun (eng w)))
           else
             wait_event_interruptible_ (fun w => nz (eop_found (eng w)))) ;;
    head <- getE rx_head ;;
    res <- gets rx_result ;;
    r <- index res head ;;
    if r_status r =? 0 then ret (inl rc) else ret (inr rc).

Definition transfer_monitor_cyclic (hz : Z) (fuel : nat) (transfer : Z) : prog world Z :=
  BUG_ON (transfer =? 0) ;;
  v <- getE rx_result_buffer_virt ;;
  BUG_ON (v =? 0) ;;
  loop fuel (monitor_cyclic_one hz fuel) 0.

(** ** Taking a packet out *)

(** one turn: the bytes that remain and the page they are in *)
Definition copy_cyclic_one (pkt_length buf : Z) (v : Z * Z) : prog world (Z * Z + Z) :=
  let '(remaining, head) := v in
  if remaining =? 0 then ret (inr pkt_length) else
    let copy := if RX_BUF_BLOCK <? remaining then RX_BUF_BLOCK else remaining in
    rxb <- getE rx_buffer ;;
    idx <- getE user_buffer_index ;;
    rc <- ext copy_to_user [buf + idx; rxb + head * RX_BUF_BLOCK; copy] ;;
    if nz rc then ret (inr (s32 (u32 rc))) else
      setE (fun e => e <| user_buffer_index ::= fun i => u32 (i + copy) |>) ;;
      ret (inl (remaining - copy, Z.rem (head + 1) RX_BUF_PAGES)).

(** a packet is at most the ring *)
Definition copy_cyclic_to_user (pkt_length head buf : Z) : prog world Z :=
  BUG_ON (buf =? 0) ;;
  loop ring_fuel (copy_cyclic_one pkt_length buf) (pkt_length, head).

(** the checks of one result *)
Definition result_faulty (r : xdma_result) : bool :=
  negb (Z.shiftr (r_status r) 16 =? C2H_WB) || (RX_BUF_BLOCK <? r_length r)
  || (r_length r =? 0).

(** one turn: [pkt_length] and [num_credit]; at the end [fault] too *)
Definition complete_cyclic_one (v : Z * Z) : prog world (Z * Z + bool * Z * Z) :=
  let '(pkt_length, num_credit) := v in
  head <- getE rx_head ;;
  tail <- getE rx_tail ;;
  ov <- getE rx_overrun ;;
  if negb (head =? tail) || nz ov then
    res <- gets rx_result ;;
    r <- index res head ;;
    when (r_status r =? 0) (ext_ warn_on []) ;;
    let fault := result_faulty r in
    let eop := negb fault && nz (Z.land (r_status r) RX_STATUS_EOP) in
    let pkt_length := if fault then pkt_length else s32 (u32 (pkt_length + r_length r)) in
    let num_credit := if fault then num_credit else num_credit + 1 in
    when eop (setE (fun e => e <| eop_found := 1 |>)) ;;
    modify (fun w => w <| rx_result ::= zinsert head no_result |>) ;;
    setE (fun e => e <| rx_head := Z.rem (head + 1) RX_BUF_PAGES |>) ;;
    if fault || eop then ret (inr (fault, pkt_length, num_credit))
    else ret (inl (pkt_length, num_credit))
  else ret (inr (false, pkt_length, num_credit)).

Definition complete_cyclic (buf : Z) : prog world Z :=
  v <- getE rx_result_buffer_virt ;;
  BUG_ON (v =? 0) ;;
  spin_lock ;;
  head <- getE rx_head ;;
  x <- loop ring_fuel complete_cyclic_one (0, 0) ;;
  let '(fault, pkt_length, num_credit) := x in
  spin_unlock ;;
  if (fault : bool) then ret (- EIO) else
    rc <- copy_cyclic_to_user pkt_length head buf ;;
    setE (fun e => e <| rx_overrun := 0 |>) ;;
    when (0 <? rc) (write_sg "credits" num_credit) ;;
    ret rc.

(** the loop of [char_sgdma_read_cyclic]; [inr] is the return *)
Definition read_cyclic_one (hz : Z) (fuel : nat) (transfer buf rc_len : Z) : prog world (Z + Z) :=
  rc <- transfer_monitor_cyclic hz fuel transfer ;;
  if nz rc then ret (inr rc) else
    n <- complete_cyclic buf ;;
    let rc_len := rc_len + n in
    eop <- getE eop_found ;;
    if negb (nz eop) then ret (inl rc_len) else
      when (nz enable_credit_mp) (setE (fun e => e <| eop_found := 0 |>)) ;;
      ret (inr rc_len).

(** ** Setting the ring up and tearing it down *)

(** the results a fresh buffer happens to hold: it is not cleared *)
Definition fresh_results (r : list Z) : list xdma_result :=
  map (fun i => mk_result (u32 (nth (2 + 2 * i) r 0)) (u32 (nth (3 + 2 * i) r 0)))
    (seq 0 (Z.to_nat RX_BUF_PAGES)).

(** the error returns before the first allocation keep the lock *)
Definition cyclic_transfer_setup : prog world Z :=
  let w := Z.lor XDMA_DESC_EOP XDMA_DESC_COMPLETED in
  spin_lock ;;
  setE (fun e => e <| rx_tail := 0 |> <| rx_head := 0 |> <| rx_overrun := 0 |>
    <| eop_found := 0 |> <| user_buffer_index := 0 |>) ;;
  b <- getE rx_buffer ;;
  if nz b then ret (- EBUSY) else
  m <- rvmalloc RX_BUF_SIZE ;;
  setE (fun e => e <| rx_buffer := m |>) ;;
  if m =? 0 then ret (- ENOMEM) else
    d <- getE dir_to_dev ;;
    t <- transfer_create m RX_BUF_SIZE 0 d 0 1 0 ;;
    setE (fun e => e <| rx_transfer_cyclic := t |>) ;;
    (* the buffer, not the transfer, is tested again *)
    r <- ext_all pci_alloc_consistent [RX_RESULT_BUF_SIZE] ;;
    let v := nth 0 r 0 in
    let bus := nth 1 r 0 in
    setE (fun e => e <| rx_result_buffer_virt := v |>) ;;
    if v =? 0 then
      transfer_destroy t ;;
      setE (fun e => e <| rx_transfer_cyclic := 0 |>) ;;
      rvfree m RX_BUF_SIZE ;;
      setE (fun e => e <| rx_buffer := 0 |>) ;;
      spin_unlock ;;
      ret (- ENOMEM)
    else
      setE (fun e => e <| rx_result_buffer_bus := bus |>) ;;
      modify (fun w => w <| rx_result := fresh_results r |>) ;;
      transfer_set_result_addresses t bus ;;
      transfer_set_all_control t w ;;
      xdma_transfer_cyclic t ;;
      spin_unlock ;;
      when (nz enable_credit_mp) (write_sg "credits" 128) ;;
      t <- getE rx_transfer_cyclic ;;
      when (nz t) (_ <- transfer_queue t ;; ret tt) ;;
      ret 0.

Definition shutdown_polled_one (v : unit) : prog world (unit + unit) :=
  s <- engine_status_read true ;;
  ext_ schedule [] ;;
  if nz (Z.land s XDMA_STAT_BUSY) then ret (inl tt) else ret (inr tt).

Definition cyclic_shutdown_polled (fuel : nat) : prog world Z :=
  spin_lock ;;
  loop fuel shutdown_polled_one tt ;;
  cyclic_idle ;;
  spin_unlock ;;
  ret 0.

(** [rc] is the local the code returns without having assigned it *)
Definition cyclic_shutdown_interrupt (rc : Z) : prog world Z :=
  wait_event_ (fun w => negb (nz (running (eng w)))) ;;
  r <- getE running ;;
  if nz r then ret (- EINVAL) else ret rc.

Definition cyclic_transfer_teardown (fuel : nat) (rc : Z) : prog world Z :=
  _ <- engine_cyclic_stop ;;
  spin_lock ;;
  spin_unlock ;;
  rc <- (if poll_mode then cyclic_shutdown_polled fuel else cyclic_shutdown_interrupt rc) ;;
  spin_lock ;;
  t <- getE rx_transfer_cyclic ;;
  when (nz t)
    (transfer_destroy t ;; setE (fun e => e <| rx_transfer_cyclic := 0 |>)) ;;
  b <- getE rx_buffer ;;
  when (nz b) (rvfree b RX_BUF_SIZE ;; setE (fun e => e <| rx_buffer := 0 |>)) ;;
  v <- getE rx_result_buffer_virt ;;
  bus <- getE rx_result_buffer_bus ;;
  when (nz v)
    (ext_ pci_free_consistent [RX_RESULT_BUF_SIZE; v; bus] ;;
     setE (fun e => e <| rx_result_buffer_virt := 0 |>)) ;;
  spin_unlock ;;
  ret rc.
End RxRing.
