(* ===== verification/RxFacts.v ===== *)
(** * The receive ring: what the service takes in, what a reader takes out *)
From Stdlib Require Import List.
From S2P Require Import Prelude Layout Kernel World Desc Engine Sgm Transfer Wz Service RxRing.
#[local] Open Scope list_scope.
#[local] Open Scope Z_scope.
Ltac wp_hook ::= wp_engine.

Section Rx.
Context {bo : ByteOrder} {env : Env} {sched : Sched}.

(** the page [n] places after [i] *)
Definition page_after (i n : Z) : Z := (i + n) mod RX_BUF_PAGES.

Lemma page_after_range i n : 0 <= page_after i n < RX_BUF_PAGES.
Proof. apply Z.mod_pos_bound. reflexivity. Qed.

Lemma page_after_S i n : Z.rem (page_after i n + 1) RX_BUF_PAGES = page_after i (n + 1).
Proof.
  pose proof (page_after_range i n). rewrite Z.rem_mod_nonneg by (unfold RX_BUF_PAGES in *; lia).
  unfold page_after. rewrite Zplus_mod_idemp_l, Z.add_assoc. reflexivity.
Qed.

(** how far the head is ahead of the tail: a ring is full when they meet *)
Definition room (tail head : Z) : Z := (head - tail - 1) mod RX_BUF_PAGES + 1.

Lemma room_range tail head : 1 <= room tail head <= RX_BUF_PAGES.
Proof. unfold room. pose proof (Z.mod_pos_bound (head - tail - 1) RX_BUF_PAGES eq_refl). lia. Qed.

Lemma page_after_head tail head n :
  0 <= head < RX_BUF_PAGES -> 0 < n <= room tail head ->
  (page_after tail n =? head) = (n =? room tail head).
Proof.
  intros Hh Hn. unfold page_after, room in *. unfold RX_BUF_PAGES in *.
  pose proof (Z.mod_pos_bound (head - tail - 1) 256 eq_refl).
  pose proof (Z.mod_pos_bound (tail + n) 256 eq_refl).
  pose proof (Z.div_mod (head - tail - 1) 256). pose proof (Z.div_mod (tail + n) 256).
  destruct (Z.eqb_spec ((tail + n) mod 256) head), (Z.eqb_spec n ((head - tail - 1) mod 256 + 1)); lia.
Qed.

(** ** The service *)

Definition new_at (res : list xdma_result) (tail n : Z) : Prop :=
  forall j, 0 <= j < n -> exists r, zlookup res (page_after tail j) = Some r /\ r_status r <> 0.

(** the ends of packets among the first [n] results after [tail] *)
Fixpoint eops (res : list xdma_result) (tail : Z) (n : nat) : Z :=
  match n with
  | O => 0
  | S n' => eops res tail n' +
      match zlookup res (page_after tail (Z.of_nat n')) with
      | Some r => if nz (Z.land (r_status r) RX_STATUS_EOP) then 1 else 0
      | None => 0
      end
  end.

(** the engine after [n] results were taken in *)
Definition taken (w : world) (tail n full : Z) : world :=
  w <| eng -> rx_tail := page_after tail n |> <| eng -> rx_overrun := (if n =? full then 1 else 0) |>.

Lemma ring_process_from w head tail m : forall n fuel,
  length (rx_result w) = Z.to_nat RX_BUF_PAGES -> 0 <= head < RX_BUF_PAGES -> rx_head (eng w) = head ->
  Z.of_nat n + Z.of_nat m = room tail head -> (m < fuel)%nat ->
  new_at (rx_result w) tail (Z.of_nat n) ->
  wp (loop fuel ring_process_one (eops (rx_result w) tail n)) (fun c w' =>
    exists k, Z.of_nat k <= room tail head /\ new_at (rx_result w) tail (Z.of_nat k) /\
      (Z.of_nat k = room tail head \/
       exists r, zlookup (rx_result w) (page_after tail (Z.of_nat k)) = Some r /\ r_status r = 0) /\
      c = eops (rx_result w) tail k /\ w' = taken w tail (Z.of_nat k) (room tail head))
    (taken w tail (Z.of_nat n) (room tail head)).
Proof.
  induction m as [|m IH]; intros n fuel Hlen Hh Hhd Hnm Hf Hnew;
    (destruct fuel as [|fuel]; [lia|]); rewrite loop_S; wp_step; unfold ring_process_one;
    wp_step; wp_step; wp_step; wp_step;
    (destruct (zlookup_is_Some (rx_result w) (page_after tail (Z.of_nat n))) as [r Hr];
     [rewrite Hlen; apply page_after_range|]);
    wp_step; (eapply wp_index; [exact Hr|]); wp_step; wp_step.
  - change (rx_overrun _) with (if Z.of_nat n =? room tail head then 1 else 0).
    rewrite (proj2 (Z.eqb_eq (Z.of_nat n) _)) by lia. change (nz 1) with true. rewrite andb_false_r.
    wp_step. wp_step. exists n. split; [lia|]. split; [exact Hnew|]. split; [left; lia|].
    split; reflexivity.
  - change (rx_overrun _) with (if Z.of_nat n =? room tail head then 1 else 0).
    rewrite (proj2 (Z.eqb_neq (Z.of_nat n) (room tail head))) by lia. change (nz 0) with false.
    rewrite andb_true_r. change (rx_tail (eng _)) with (page_after tail (Z.of_nat n)).
    destruct (Z.eqb_spec (r_status r) 0) as [E|E].
    + rewrite E. change (nz 0) with false. cbv iota. wp_step. wp_step. exists n.
      split; [lia|]. split; [exact Hnew|]. split; [right; exists r; auto|].
      split; [reflexivity|]. reflexivity.
    + rewrite (proj2 (nz_true _) E). rewrite page_after_S.
      replace (Z.of_nat n + 1) with (Z.of_nat (S n)) by lia.
      wp_step. wp_step. wp_step. wp_step. wp_step. wp_step.
      match goal with |- wp _ _ ?st => set (w2 := st) end.
      change (rx_head (eng w2)) with (rx_head (eng w)). rewrite Hhd.
      change (rx_tail (eng w2)) with (page_after tail (Z.of_nat (S n))).
      rewrite (page_after_head tail head (Z.of_nat (S n))) by lia.
      wp_step. eapply (wp_conseq _ (fun _ w' => w' = taken w tail (Z.of_nat (S n)) (room tail head))).
      { apply wp_when; intros E2; unfold taken; rewrite E2; [wp_step; reflexivity|].
        subst w2. unfold taken. rewrite (proj2 (Z.eqb_neq (Z.of_nat n) (room tail head))) by lia.
        reflexivity. }
      intros _ w3 ->. wp_step.
      assert (Hc : (if nz (Z.land (r_status r) RX_STATUS_EOP) then eops (rx_result w) tail n + 1
                    else eops (rx_result w) tail n) = eops (rx_result w) tail (S n)).
      { cbn [eops]. rewrite Hr. destruct (nz _); lia. }
      rewrite Hc. apply IH; try assumption; try lia.
      intros j Hj. destruct (Z.eq_dec j (Z.of_nat n)) as [->|]; [exists r; auto|apply Hnew; lia].
Qed.

(** C39: the service takes in the results that follow the tail, up to the
    first page without one or up to the head: the tail moves past them, the
    overrun flag is set exactly when the tail has met the head, and the ends
    of packets among them are counted.  The loop needs no more turns than the
    ring has pages. *)
Theorem ring_process_takes_new_results w :
  rx_result_buffer_virt (eng w) <> 0 -> length (rx_result w) = Z.to_nat RX_BUF_PAGES ->
  0 <= rx_head (eng w) < RX_BUF_PAGES -> 0 <= rx_tail (eng w) < RX_BUF_PAGES ->
  rx_overrun (eng w) = 0 ->
  let tail := rx_tail (eng w) in
  let full := room tail (rx_head (eng w)) in
  wp engine_ring_process (fun c w' =>
    exists k, Z.of_nat k <= full /\ new_at (rx_result w) tail (Z.of_nat k) /\
      (Z.of_nat k = full \/
       exists r, zlookup (rx_result w) (page_after tail (Z.of_nat k)) = Some r /\ r_status r = 0) /\
      c = eops (rx_result w) tail k /\ w' = taken w tail (Z.of_nat k) full) w.
Proof.
  intros Hv Hlen Hh Ht Ho tail full. unfold engine_ring_process. wp_step. wp_step.
  wp_step. wp_step; [apply Z.eqb_neq, Hv|].
  pose proof (room_range tail (rx_head (eng w))) as Hr. fold full in Hr.
  assert (E : taken w tail (Z.of_nat 0) full = w).
  { unfold taken. rewrite (proj2 (Z.eqb_neq (Z.of_nat 0) full)) by lia.
    unfold page_after. change (Z.of_nat 0) with 0. rewrite Z.add_0_r, Z.mod_small by exact Ht.
    rewrite <- Ho. unfold tail. destruct w as [? ? [] ? ? ? ? ? ? ? ? ? ?]. reflexivity. }
  pose proof (ring_process_from w (rx_head (eng w)) tail (Z.to_nat full) 0 ring_fuel) as H.
  fold full in H. rewrite E in H. apply H; try assumption.
  - reflexivity.
  - rewrite Z2Nat.id by lia. reflexivity.
  - unfold ring_fuel. unfold RX_BUF_PAGES in Hr. lia.
  - intros j Hj. lia.
Qed.
End Rx.
