(* ===== verification/CharDev.v ===== *)
(** * The character device of an engine: read, write, ioctl (xdma-core.c)

    A handler gets the pointer of its [struct xdma_char] from the file; [eng]
    is the engine the character device belongs to.  A file position is passed
    in and out. *)
From S2P Require Import Prelude Layout Kernel World Desc Engine Sgm Transfer Wz Service RxRing.
#[local] Open Scope string_scope.
#[local] Open Scope Z_scope.

(** ** ioctl numbers ([_IOC]) *)
Definition IOC (dir size type nr : Z) : Z :=
  Z.lor (Z.lor (Z.shiftl dir 30) (Z.shiftl size 16)) (Z.lor (Z.shiftl type 8) nr).
Definition IO (nr : Z) : Z := IOC 0 0 0x71 nr.
Definition IOW (nr size : Z) : Z := IOC 1 size 0x71 nr.
Definition IOR (nr size : Z) : Z := IOC 2 size 0x71 nr.

Definition IOCTL_XDMA_PERF_V1 : Z := 1.
Definition IOCTL_XDMA_PERF_START : Z := IOW 1 8.
Definition IOCTL_XDMA_PERF_STOP : Z := IOW 2 8.
Definition IOCTL_XDMA_PERF_GET : Z := IOR 3 8.
Definition IOCTL_XDMA_ADDRMODE_SET : Z := IOW 4 4.
Definition IOCTL_XDMA_ADDRMODE_GET : Z := IOR 5 4.
Definition IOCTL_XDMA_ALIGN_GET : Z := IOR 6 4.
Definition IOCTL_XDMA_WZ_ALLOC_BUFFERS : Z := IO 7.
Definition IOCTL_XDMA_WZ_START : Z := IO 8.
Definition IOCTL_XDMA_WZ_STOP : Z := IO 9.
Definition IOCTL_XDMA_WZ_FREE_BUFFERS : Z := IO 10.
Definition IOCTL_XDMA_WZ_GETBUF : Z := IOR 11 12.
Definition IOCTL_XDMA_WZ_CONFIRM : Z := IOW 12 8.

(** ** llseek: the result and the file position after it *)
Definition char_sgdma_llseek (f_pos off whence : Z) : Z * Z :=
  let newpos := match whence with
    | 0 => Some off
    | 1 => Some (s64 (f_pos + off))
    | 2 => Some (s64 (2 ^ 32 - 1 + off))
    | _ => None
    end in
  match newpos with
  | None => (- EINVAL, f_pos)
  | Some p => if p <? 0 then (- EINVAL, f_pos) else (p, p)
  end.

Section CharDev.
Context {bo : ByteOrder} {env : Env} {sched : Sched}.

(** ** The checks at the head of the handlers *)

Definition check_char (c : Z) : prog world xdma_char :=
  BUG_ON (c =? 0) ;;
  ch <- deref (fun w => chars w !! c) ;;
  BUG_ON (negb (c_magic ch =? MAGIC_CHAR)) ;;
  ret ch.
Definition check_lro (ch : xdma_char) : prog world unit :=
  BUG_ON (negb (c_lro ch)) ;;
  m <- getL lro_magic ;;
  BUG_ON (negb (m =? MAGIC_DEVICE)).
Definition check_engine (ch : xdma_char) : prog world unit :=
  BUG_ON (c_engine ch =? 0) ;;
  m <- getE magic ;;
  BUG_ON (negb (m =? MAGIC_ENGINE)).

(** ** Transfers on behalf of read and write *)

(** the size of the next transfer *)
Definition chunk (remaining : Z) : Z :=
  if XDMA_TRANSFER_MAX_BYTES <? remaining then XDMA_TRANSFER_MAX_BYTES else remaining.

(** a transfer that was freed in the meantime ends the wait *)
Definition not_submitted (t : Z) (w : world) : bool :=
  match transfers w !! t with
  | Some x => negb (bool_decide (state x = TRANSFER_STATE_SUBMITTED))
  | None => true
  end.

Definition transfer_monitor (hz : Z) (fuel : nat) (transfer : Z) : prog world Z :=
  if poll_mode then
    spin_lock ;;
    desc_count <- getT desc_num transfer ;;
    spin_unlock ;;
    engine_service_poll hz fuel (u32 desc_count)
  else wait_event_interruptible_ (not_submitted transfer).

(** "last transfer for the given request?": the comparison is unsigned *)
Definition mark_last (transfer transfer_len remaining done : Z) : prog world unit :=
  when (u64 remaining <=? transfer_len)
    (setT (fun t => t <| last_in_request := 1 |>
       <| size_of_request := done + transfer_len |>) transfer).

(** one turn: remaining bytes, buffer, bytes done, file position; at the end
    the value of [res] (or of [done]) and the file position *)
Definition transfer_data_one (hz : Z) (fuel : nat) (v : Z * Z * Z * Z)
  : prog world (Z * Z * Z * Z + Z * Z) :=
  let '(remaining, transfer_addr, done, pos) := v in
  if negb (0 <? remaining) then ret (inr (done, pos)) else
    let transfer_len := chunk remaining in
    dir <- getE dir_to_dev ;;
    non_incr <- getE non_incr_addr ;;
    transfer <- transfer_create transfer_addr transfer_len (u64 pos) dir non_incr 0 1 ;;
    if transfer =? 0 then ret (inr (- EIO, pos)) else
      mark_last transfer transfer_len remaining done ;;
      _ <- transfer_queue transfer ;;
      rc <- transfer_monitor hz fuel transfer ;;
      s <- getT state transfer ;;
      let next := (remaining - transfer_len, u64 (transfer_addr + transfer_len),
                   done + transfer_len, s64 (pos + transfer_len)) in
      match s with
      | TRANSFER_STATE_SUBMITTED =>
          if nz rc then
            _ <- engine_status_read false ;;
            _ <- read_interrupts ;;
            ret (inr (- ERESTARTSYS, pos))
          else ret (inl next)
      | TRANSFER_STATE_COMPLETED => transfer_destroy transfer ;; ret (inl next)
      | _ => transfer_destroy transfer ;; ret (inr (- EIO, pos))
      end.

(** a turn for each chunk and one to leave *)
Definition data_fuel (count : Z) : nat := Z.to_nat (Z.max 0 count / XDMA_TRANSFER_MAX_BYTES + 2).

Definition transfer_data (hz : Z) (fuel : nat) (transfer_addr remaining pos : Z)
  : prog world (Z * Z) :=
  loop (data_fuel remaining) (transfer_data_one hz fuel) (remaining, transfer_addr, 0, pos).

Definition char_sgdma_read_write (hz : Z) (fuel : nat) (c buf count pos dir : Z)
  : prog world (Z * Z) :=
  ch <- check_char c ;;
  check_lro ch ;;
  check_engine ch ;;
  d <- getE dir_to_dev ;;
  if negb (dir =? d) then ret (- EINVAL, pos) else
    rc <- check_transfer_align buf count pos 1 ;;
    if nz rc then ret (rc, pos) else
      transfer_data hz fuel buf (s64 count) pos.

(** the value returned goes through an [int] *)
Definition char_sgdma_read_cyclic (hz : Z) (fuel : nat) (c buf : Z) : prog world Z :=
  ch <- check_char c ;;
  check_lro ch ;;
  check_engine ch ;;
  t <- getE rx_transfer_cyclic ;;
  BUG_ON (t =? 0) ;;
  loop fuel (read_cyclic_one hz fuel t buf) 0.

Definition char_sgdma_write (hz : Z) (fuel : nat) (c buf count pos : Z) : prog world (Z * Z) :=
  char_sgdma_read_write hz fuel c buf count pos 1.

Definition char_sgdma_read (hz : Z) (fuel : nat) (c buf count pos : Z) : prog world (Z * Z) :=
  ch <- check_char c ;;
  check_lro ch ;;
  check_engine ch ;;
  d <- getE dir_to_dev ;;
  b <- getE rx_buffer ;;
  t <- getE rx_transfer_cyclic ;;
  if negb (nz d) && nz b && nz t then
    n <- char_sgdma_read_cyclic hz fuel c buf ;; ret (n, pos)
  else char_sgdma_read_write hz fuel c buf count pos 0.

(** ** Asynchronous requests *)

(** one chunk of a segment: remaining bytes, buffer, bytes done.  The device
    address is that of the request for every chunk *)
Definition aio_chunk_one (iocb_ pos dir : Z) (v : Z * Z * Z) : prog world (Z * Z * Z + unit) :=
  let '(remaining, transfer_addr, done) := v in
  if remaining =? 0 then ret (inr tt) else
    let transfer_len := chunk remaining in
    transfer <- transfer_create transfer_addr transfer_len (u64 pos) dir 0 0 1 ;;
    BUG_ON (transfer =? 0) ;;
    setT (fun t => t <| iocb := iocb_ |>) transfer ;;
    when (remaining <=? transfer_len)
      (setT (fun t => t <| last_in_request := 1 |>
         <| size_of_request := done + transfer_len |>) transfer) ;;
    _ <- transfer_queue transfer ;;
    ret (inl (remaining - transfer_len, u64 (transfer_addr + transfer_len),
              done + transfer_len)).

Fixpoint aio_segments (iocb_ pos dir : Z) (iov : list (Z * Z)) : prog world Z :=
  match iov with
  | nil => ret (- EIOCBQUEUED)
  | cons (iov_base, iov_len) iov' =>
      rc <- check_transfer_align iov_base iov_len pos 0 ;;
      if nz rc then ret rc else
        loop (data_fuel iov_len) (aio_chunk_one iocb_ pos dir) (iov_len, iov_base, 0) ;;
        aio_segments iocb_ pos dir iov'
  end.

Definition sg_aio_read_write (c iocb_ : Z) (iov : list (Z * Z)) (pos dir : Z) : prog world Z :=
  ch <- check_char c ;;
  check_lro ch ;;
  check_engine ch ;;
  aio_segments iocb_ pos dir iov.
Definition sg_aio_read (c iocb_ : Z) (iov : list (Z * Z)) (pos : Z) : prog world Z :=
  sg_aio_read_write c iocb_ iov pos 0.
Definition sg_aio_write (c iocb_ : Z) (iov : list (Z * Z)) (pos : Z) : prog world Z :=
  sg_aio_read_write c iocb_ iov pos 1.

(** ** Performance measurement *)

Definition set_perf (f : xdma_performance_ioctl -> xdma_performance_ioctl) : prog world unit :=
  p <- getE xdma_perf ;;
  q <- deref (fun _ => p) ;;
  setE (fun e => e <| xdma_perf := Some (f q) |>).

Definition get_perf_stats : prog world unit :=
  p <- getE xdma_perf ;;
  BUG_ON (negb (bool_decide (is_Some p))) ;;
  lo <- read_er "completed_desc_count" ;;
  set_perf (fun q => q <| iterations := u32 (build_u64 0 lo) |>) ;;
  hi <- read_er "perf_cyc_hi" ;;
  lo <- read_er "perf_cyc_lo" ;;
  set_perf (fun q => q <| clock_cycle_count := build_u64 hi lo |>) ;;
  hi <- read_er "perf_dat_hi" ;;
  lo <- read_er "perf_dat_lo" ;;
  set_perf (fun q => q <| data_cycle_count := build_u64 hi lo |>) ;;
  hi <- read_er "perf_pnd_hi" ;;
  lo <- read_er "perf_pnd_lo" ;;
  set_perf (fun q => q <| pending_count := build_u64 hi lo |>).

(** the structure [copy_from_user] leaves behind the bytes it returns *)
Definition perf_from_user (r : list Z) : xdma_performance_ioctl :=
  mk_perf (u32 (nth 1 r 0)) (u32 (nth 2 r 0)) (u32 (nth 3 r 0)) (u32 (nth 4 r 0))
    (u64 (nth 5 r 0)) (u64 (nth 6 r 0)) (u64 (nth 7 r 0)).

Definition sizeof_perf : Z := 40.

(** [copy_from_user] gives the number of bytes not copied: never negative *)
Definition ioctl_do_perf_start (arg : Z) : prog world Z :=
  p <- getE xdma_perf ;;
  if bool_decide (is_Some p) then ret (- EBUSY) else
    a <- ext kzalloc [] ;;
    if a =? 0 then ret (- ENOMEM) else
      r <- ext_all copy_from_user [arg; sizeof_perf] ;;
      let q := perf_from_user r in
      setE (fun e => e <| xdma_perf := Some q |>) ;;
      if s32 (u32 (nth 0 r 0)) <? 0 then ret (- EINVAL) else
      if negb (version q =? IOCTL_XDMA_PERF_V1) then ret (- EINVAL) else
        write_er "perf_ctrl" XDMA_PERF_CLEAR ;;
        _ <- read_er "identifier" ;;
        write_er "perf_ctrl" (Z.lor XDMA_PERF_AUTO XDMA_PERF_RUN) ;;
        _ <- read_er "identifier" ;;
        _ <- xdma_performance_submit ;;
        ret 0.

(** the words of the structure, as copied to the user *)
Definition perf_words (q : xdma_performance_ioctl) : list Z :=
  [version q; transfer_size q; stopped q; iterations q; clock_cycle_count q;
   data_cycle_count q; pending_count q].

(** get the statistics and copy the structure to the user *)
Definition perf_report (arg : Z) : prog world bool :=
  get_perf_stats ;;
  p <- getE xdma_perf ;;
  q <- deref (fun _ => p) ;;
  rc <- ext copy_to_user (arg :: perf_words q) ;;
  ret (nz rc).

Definition ioctl_do_perf_stop (arg : Z) : prog world Z :=
  p <- getE xdma_perf ;;
  if negb (bool_decide (is_Some p)) then ret (- EINVAL) else
    _ <- engine_cyclic_stop ;;
    failed <- perf_report arg ;;
    if (failed : bool) then ret (- EINVAL) else
      ext_ kfree [] ;;
      setE (fun e => e <| xdma_perf := None |>) ;;
      ret 0.

Definition ioctl_do_perf_get (arg : Z) : prog world Z :=
  p <- getE xdma_perf ;;
  if bool_decide (is_Some p) then
    failed <- perf_report arg ;;
    if (failed : bool) then ret (- EINVAL) else ret 0
  else ret (- EPROTO).

(** ** Address mode and alignment *)

Definition ioctl_do_addrmode_set (arg : Z) : prog world Z :=
  r <- ext_all get_user [arg] ;;
  let rc := nth 0 r 0 in
  when (rc =? 0)
    (setE (fun e => e <| non_incr_addr := b2z (nz (u32 (nth 1 r 0))) |>) ;;
     n <- getE non_incr_addr ;;
     if nz n then write_er "control_w1s" XDMA_CTRL_NON_INCR_ADDR
     else write_er "control_w1c" XDMA_CTRL_NON_INCR_ADDR) ;;
  engine_alignments ;;
  ret rc.

Definition ioctl_do_addrmode_get (arg : Z) : prog world Z :=
  n <- getE non_incr_addr ;;
  ext put_user [arg; b2z (nz n)].

Definition ioctl_do_align_get (arg : Z) : prog world Z :=
  a <- getE addr_align ;;
  ext put_user [arg; a].

Definition char_sgdma_ioctl (fuel : nat) (c cmd arg : Z) : prog world Z :=
  ch <- check_char c ;;
  check_lro ch ;;
  if cmd =? IOCTL_XDMA_PERF_START then ioctl_do_perf_start arg else
  if cmd =? IOCTL_XDMA_PERF_STOP then ioctl_do_perf_stop arg else
  if cmd =? IOCTL_XDMA_PERF_GET then ioctl_do_perf_get arg else
  if cmd =? IOCTL_XDMA_ADDRMODE_SET then ioctl_do_addrmode_set arg else
  if cmd =? IOCTL_XDMA_ADDRMODE_GET then ioctl_do_addrmode_get arg else
  if cmd =? IOCTL_XDMA_ALIGN_GET then ioctl_do_align_get arg else
  if cmd =? IOCTL_XDMA_WZ_ALLOC_BUFFERS then ioctl_do_wz_alloc_buffers else
  if cmd =? IOCTL_XDMA_WZ_START then ioctl_do_wz_start else
  if cmd =? IOCTL_XDMA_WZ_STOP then ioctl_do_wz_stop else
  if cmd =? IOCTL_XDMA_WZ_GETBUF then ioctl_do_wz_getbuf arg else
  if cmd =? IOCTL_XDMA_WZ_FREE_BUFFERS then ioctl_do_wz_free_buffers else
  if cmd =? IOCTL_XDMA_WZ_CONFIRM then ioctl_do_wz_confirm fuel arg else
    ret (- EINVAL).

(** ** Open and close *)

(** the pointer the file gets as its private data is [c] *)
Definition char_open (c : Z) : prog world Z :=
  ch <- deref (fun w => chars w !! c) ;;
  BUG_ON (negb (c_magic ch =? MAGIC_CHAR)) ;;
  ret 0.

Definition char_close (c : Z) : prog world Z :=
  ch <- check_char c ;;
  check_lro ch ;;
  ret 0.

Definition char_sgdma_open (c : Z) : prog world Z :=
  ch <- deref (fun w => chars w !! c) ;;
  BUG_ON (negb (c_magic ch =? MAGIC_CHAR)) ;;
  check_engine ch ;;
  ret 0.

Definition char_sgdma_close (c : Z) : prog world Z :=
  ch <- check_char c ;;
  check_engine ch ;;
  wz_engine_cleanup ;;
  ret 0.
End CharDev.
