(* ===== verification/Tester.v ===== *)
(** * The test programs of the cyclic extension (tester2.c, tester3.c)

    A process that starts the ring, takes blocks, checks or prints them, and
    gives them back.  Its ioctls, its mmap and its close run the handlers of the
    driver on the state of the kernel; what it reads in its mapping is a
    function from offsets to words.  Of its memory the two structures matter
    that the ioctls exchange: the process stores [bconf] with [user_store], and
    [bdesc] holds what the driver copied to it last.  The code of tester2 behind
    its endless loop is never reached. *)
From S2P Require Import Prelude Layout Kernel World Desc Engine Wz CharDev.
#[local] Open Scope Z_scope.

Definition TOT_BUF_LEN : Z := WZ_DMA_BUFLEN * WZ_DMA_NOFBUFS.
Definition PACKET_LEN : Z := 0x4000.
(** offsets of the registers of the data source in the user BAR *)
Definition source_control2 : Z := 0x10000.
Definition source_control3 : Z := 4 * 0x0F.

(** what the process prints about a block *)
Inductive report : Type :=
| LengthError (first_desc dlen dinit dstep exp_len cur_len : Z)
| DataError (first_desc dta_index position expected received : Z)
| BlockInfo (first_desc last_len dlen dinit exp_len cur_len : Z).

(** the process: the kernel it runs on, its global variables, what it printed *)
Record process : Type := mk_process {
  krn : world;
  first : Z;
  tot_len : Z;
  old_tot_len : Z;
  reports : list report
}.
#[global] Instance eta_process : Eta process := fun r =>
  mk_process (krn r) (first r) (tot_len r) (old_tot_len r) (reports r).
#[global] Instance set_krn : Setter krn := ltac:(make_setter).
#[global] Instance set_first : Setter first := ltac:(make_setter).
#[global] Instance set_tot_len : Setter tot_len := ltac:(make_setter).
#[global] Instance set_old_tot_len : Setter old_tot_len := ltac:(make_setter).
#[global] Instance set_reports : Setter reports := ltac:(make_setter).

#[global] Instance process_trace : HasTrace process := {
  trace_of p := trace (krn p);
  log e p := p <| krn ::= log e |>;
  trace_log e p := eq_refl
}.

(** the globals of a program that starts *)
Definition process0 (w : world) : process := mk_process w 1 0 0 [].

(** ** The checks *)
Section Check.
(** the word at an offset of the mapping of the buffers *)
Context (data_buf : Z -> Z).

Definition get_step (dh : Z) : Z := Z.land (Z.shiftr (data_buf dh) 8) 0xf.
Definition get_init (dh : Z) : Z := Z.land (data_buf dh) 0xff.
Definition get_len (dh : Z) : Z := data_buf (dh + 4).

(** [cur_len]: the bytes of a block, around the end of the ring too *)
Definition block_len (b : wz_xdma_data_block_desc) : Z :=
  WZ_DMA_BUFLEN * (u32 (last_desc b - first_desc b) mod WZ_DMA_NOFBUFS) + last_len b.

(** the words of one row against the counter *)
Definition check_row (b : wz_xdma_data_block_desc) (dta_index dinit : Z) : list report :=
  omap (fun j => let j := Z.of_nat j in
    let dta := data_buf (dta_index + 4 * j) in
    if dta =? u32 (dinit + j) then None
    else Some (DataError (first_desc b) dta_index j (dinit + j) dta)) (seq 0 8).

(** [for (i = 0; i < dlen; i += 32)], with the number of turns; a [dlen] within
    32 of the largest integer would overflow [i], which C leaves undefined *)
Fixpoint check_rows (n : nat) (b : wz_xdma_data_block_desc) (dta_index dinit dstep : Z) : list report :=
  match n with
  | O => []
  | S n' =>
      let dta_index := Z.land (dta_index + 32) (TOT_BUF_LEN - 1) in
      check_row b dta_index dinit ++ check_rows n' b dta_index (dinit + dstep) dstep
  end.
Definition row_turns (dlen : Z) : nat := Z.to_nat ((dlen + 31) / 32).

(** the else branch of tester2: the length of the block, and what is printed *)
Definition check_block2 (b : wz_xdma_data_block_desc) : Z * list report :=
  let dta_index := WZ_DMA_BUFLEN * first_desc b in
  let dlen := s32 (get_len dta_index) in
  let dinit := get_init dta_index in
  let dstep := get_step dta_index in
  let exp_len := s32 (dlen * 32) in
  let cur_len := block_len b in
  (cur_len,
   (if negb (cur_len =? exp_len) then [LengthError (first_desc b) dlen dinit dstep exp_len cur_len] else [])
   ++ check_rows (row_turns dlen) b dta_index dinit dstep).

(** tester3 only prints *)
Definition check_block3 (b : wz_xdma_data_block_desc) : Z * list report :=
  let dta_index := WZ_DMA_BUFLEN * first_desc b in
  let dlen := s32 (get_len dta_index) in
  let dinit := get_init dta_index in
  let exp_len := s32 (dlen * 32) in
  let cur_len := block_len b in
  (cur_len, [BlockInfo (first_desc b) (last_len b) dlen dinit exp_len cur_len]).
End Check.

(** ** System calls *)
Section Tester.
Context {bo : ByteOrder} {env : Env} {sched : Sched}.
(** the addresses of [bdesc] and [bconf], the node behind [fm], the turns a
    confirmation may take, and the contents of the mapping *)
Context (bdesc_at bconf_at node : Z) (fuel : nat) (data_buf : Z -> Z).

Definition driver {A} (m : prog world A) : prog process A := fun p =>
  match m (krn p) with
  | Ok a w => Ok a (p <| krn := w |>)
  | Abort r => Abort r
  end.

(** the library turns the negative result of a call into -1 *)
Definition sys_result (rc : Z) : Z := if rc <? 0 then -1 else s32 rc.
Definition ioctl_fm (cmd arg : Z) : prog process Z :=
  rc <- driver (char_sgdma_ioctl fuel node cmd arg) ;; ret (sys_result rc).

(** [bdesc]: what the driver copied there last *)
Fixpoint copied (h : history) : wz_xdma_data_block_desc :=
  match h with
  | [] => mk_block 0 0 0
  | Call copy_to_user [a; f; l; n] r :: h' =>
      if (a =? bdesc_at) && negb (nz (nth 0 r 0)) then mk_block f l n else copied h'
  | _ :: h' => copied h'
  end.
Definition bdesc : prog process wz_xdma_data_block_desc := gets (fun p => copied (trace (krn p))).

Definition store_user (a v : Z) : prog process unit := ext_ user_store [a; v].

(** ** One turn of the loop *)

(** the first block is not looked at; [cur_len] *)
Definition look_at (check_block : wz_xdma_data_block_desc -> Z * list report) (b : wz_xdma_data_block_desc)
  : prog process Z :=
  f <- gets first ;;
  if f =? 1 then modify (fun p => p <| first := 0 |>) ;; ret 0
  else
    let '(cur_len, rs) := check_block b in
    modify (fun p => p <| reports ::= (fun l => l ++ rs)%list |>) ;; ret cur_len.

(** the body of the loop: [Some] is the status the process exits with *)
Definition turn (check_block : wz_xdma_data_block_desc -> Z * list report) : prog process (option Z) :=
  res <- ioctl_fm IOCTL_XDMA_WZ_GETBUF bdesc_at ;;
  if res <? 0 then ret (Some 4) else
  b <- bdesc ;;
  cur_len <- look_at check_block b ;;
  store_user bconf_at (first_desc b) ;;
  store_user (bconf_at + 4) (last_desc b) ;;
  modify (fun p => p <| tot_len ::= (fun t => s64 (t + cur_len)) |>) ;;
  res <- ioctl_fm IOCTL_XDMA_WZ_CONFIRM bconf_at ;;
  if res <? 0 then ret (Some 4) else
  t <- gets tot_len ;;
  o <- gets old_tot_len ;;
  when (o + 100000000 <? t)
    (ext_ clock_gettime [] ;; modify (fun p => p <| old_tot_len := t |>)) ;;
  ret None.
Definition turn2 : prog process (option Z) := turn (check_block2 data_buf).
Definition turn3 : prog process (option Z) := turn (check_block3 data_buf).

(** ** The data source *)

Definition start_source2 (usr_regs : Z) : prog process unit := store_user (usr_regs + source_control2) 1.
Definition stop_source2 (usr_regs : Z) : prog process unit := store_user (usr_regs + source_control2) 0.
Definition start_source3 (usr_regs : Z) : prog process unit :=
  store_user (usr_regs + source_control3) 0x0F ;;
  ext_ user_load [usr_regs + source_control3].
Definition stop_source3 (usr_regs : Z) : prog process unit := store_user (usr_regs + source_control3) 0.
Definition reset_fifo (usr_regs : Z) : prog process unit :=
  store_user (usr_regs + source_control3) 0xF0 ;;
  ext_ usleep [500] ;;
  store_user (usr_regs + source_control3) 0x0 ;;
  ext_ usleep [500].

(** ** The programs *)

(** what [mmap] returns when it fails *)
Definition MAP_FAILED : Z := -1.

(** the three devices, the buffers and the registers: the descriptors of the
    files and the address of the registers, or the status the process exits with *)
Definition open_devices : prog process (Z * Z * Z * Z + Z) :=
  fu <- ext sys_open [0] ;;
  if fu <? 0 then ret (inr 1) else
  fc <- ext sys_open [1] ;;
  if fc <? 0 then ret (inr 1) else
  rc <- driver (char_sgdma_open node) ;;
  fm <- ext sys_open [2] ;;
  if (rc <? 0) || (fm <? 0) then ret (inr 1) else
  res <- ioctl_fm IOCTL_XDMA_WZ_ALLOC_BUFFERS 0 ;;
  if res <? 0 then ret (inr 3) else
  usr_regs <- ext sys_mmap [fu; 1024 * 1024] ;;
  if usr_regs =? MAP_FAILED then ret (inr 2) else
  ret (inl (fu, fc, fm, usr_regs)).

(** the mapping of the buffers, and a read of its first eighth *)
Definition map_data (fm : Z) : prog process (Z + Z) :=
  rc <- driver char_sgdma_wz_mmap ;;
  mapping <- ext sys_mmap [fm; TOT_BUF_LEN] ;;
  if (rc <? 0) || (mapping =? MAP_FAILED) then ret (inr 2) else
  for_ 0 (TOT_BUF_LEN / 8) (fun i => ext_ user_load [mapping + i]) ;;
  ret (inl mapping).

(** tester2, with a bound on the turns of its loop, which has no end but an exit *)
Definition main2 (turns : nat) : prog process Z :=
  o <- open_devices ;;
  match o with
  | inr status => ret status
  | inl (_, fm, usr_regs) =>
      m <- map_data fm ;;
      match m with
      | inr status => ret status
      | inl _ =>
          stop_source2 usr_regs ;;
          res <- ioctl_fm IOCTL_XDMA_WZ_START 0 ;;
          if res <? 0 then ret 3 else
          ext_ clock_gettime [] ;;
          start_source2 usr_regs ;;
          loop turns (fun _ : unit =>
            r <- turn2 ;; ret (match r with None => inl tt | Some status => inr status end)) tt
      end
  end.

(** tester3 behind its loop *)
Definition save_packet (mapping fd_file i : Z) : prog process unit :=
  let pData := mapping + i * WZ_DMA_BUFLEN in
  for_ 0 4 (fun j => ext_ user_load [pData + 4 * j]) ;;
  ext_ sys_write [fd_file; pData; PACKET_LEN].
Definition finish3 (fu fc usr_regs mapping fd_file : Z) : prog process Z :=
  ext_ clock_gettime [] ;;
  stop_source3 usr_regs ;;
  _ <- ioctl_fm IOCTL_XDMA_WZ_STOP 0 ;;
  ext_ usleep [5000] ;;
  for_ 0 2 (save_packet mapping fd_file) ;;
  ext_ sys_munmap [mapping; TOT_BUF_LEN] ;;
  _ <- ioctl_fm IOCTL_XDMA_WZ_FREE_BUFFERS 0 ;;
  ext_ sys_close [fd_file] ;;
  _ <- driver (char_sgdma_close node) ;;
  ext_ sys_close [fc] ;;
  ext_ sys_close [fu] ;;
  ret 0.

(** [assert(fd_file >= 0)] ends the process with a signal *)
Definition SIGABRT_status : Z := 134.
Definition main3 : prog process Z :=
  fd_file <- ext sys_open [3] ;;
  if fd_file <? 0 then ret SIGABRT_status else
  o <- open_devices ;;
  match o with
  | inr status => ret status
  | inl (fu, fc, fm, usr_regs) =>
      ext_ user_load [usr_regs] ;;
      ext_ user_load [usr_regs + 8] ;;
      m <- map_data fm ;;
      match m with
      | inr status => ret status
      | inl mapping =>
          stop_source3 usr_regs ;;
          reset_fifo usr_regs ;;
          res <- ioctl_fm IOCTL_XDMA_WZ_START 0 ;;
          if res <? 0 then ret 3 else
          ext_ clock_gettime [] ;;
          start_source3 usr_regs ;;
          r <- for_exit 0 4000 (fun _ => turn3) ;;
          match r with
          | Some status => ret status
          | None => finish3 fu fc usr_regs mapping fd_file
          end
      end
  end.
End Tester.
