(* ===== verification/CharCtrl.v ===== *)
(** * The control, events and bypass character devices, and the mapping of a
    BAR into a process (xdma-core.c) *)
From Stdlib Require Import List.
From S2P Require Import Prelude Layout Kernel World Desc Engine Sgm Transfer Wz Service RxRing CharDev.
#[local] Open Scope list_scope.
#[local] Open Scope Z_scope.

Definition POLLIN : Z := 1.
Definition POLLRDNORM : Z := 0x40.
Definition EAGAIN : Z := 11.

Section CharCtrl.
Context {bo : ByteOrder} {env : Env} {sched : Sched}.

(** ** Registers: the result and the file position after it *)

Definition char_ctrl_read (c buf count pos : Z) : prog world (Z * Z) :=
  ch <- check_char c ;;
  check_lro ch ;;
  if nz (Z.land pos 3) then ret (- EPROTO, pos) else
    bars <- getL bar ;;
    b <- index bars (c_bar ch) ;;
    w <- read_register (b + pos) ;;
    _ <- ext copy_to_user [buf; w] ;;
    ret (4, s64 (pos + 4)).

(** the word is written even when the copy from the user failed *)
Definition char_ctrl_write (c buf count pos : Z) : prog world (Z * Z) :=
  ch <- check_char c ;;
  check_lro ch ;;
  if nz (Z.land pos 3) then ret (- EPROTO, pos) else
    bars <- getL bar ;;
    b <- index bars (c_bar ch) ;;
    r <- ext_all copy_from_user [buf; 4] ;;
    write_register (u32 (nth 1 r 0)) (b + pos) ;;
    ret (4, s64 (pos + 4)).

(** [io_remap_pfn_range] maps [vsize] bytes of physical memory at [phys] *)
Definition bridge_mmap (c vm_start vm_end vm_pgoff : Z) : prog world Z :=
  ch <- check_char c ;;
  check_lro ch ;;
  start <- ext pci_resource_start [c_bar ch] ;;
  last <- ext pci_resource_end [c_bar ch] ;;
  let off := u64 (Z.shiftl vm_pgoff PAGE_SHIFT) in
  let phys := u64 (start + off) in
  let vsize := u64 (vm_end - vm_start) in
  let psize := u64 (last - start + 1 - off) in
  if psize <? vsize then ret (- EINVAL) else
    rc <- ext io_remap_pfn_range [vm_start; Z.shiftr phys PAGE_SHIFT; vsize] ;;
    if nz rc then ret (- EAGAIN) else ret 0.

(** ** User interrupts *)

Definition get_irq (i : Z) : prog world xdma_irq :=
  irqs <- getL user_irq ;; index irqs i.

(** [spin_lock_irqsave(&user_irq->events_lock)] around [m] *)
Definition with_events_lock {A} (i : Z) (m : prog world A) : prog world A :=
  u <- get_irq i ;;
  if events_lock u then abort_with Deadlock else
    set_irq i (fun u => u <| events_lock := true |>) ;;
    a <- m ;;
    set_irq i (fun u => u <| events_lock := false |>) ;;
    ret a.

(** the event is taken and cleared under the lock *)
Definition take_event (i : Z) : prog world Z :=
  with_events_lock i (
    u <- get_irq i ;;
    set_irq i (fun u => u <| events_irq := 0 |>) ;;
    ret (events_irq u)).

Definition event_pending (i : Z) (w : world) : bool :=
  match zlookup (user_irq (lro w)) i with
  | Some u => nz (events_irq u)
  | None => false
  end.

Definition char_events_read (c buf count pos : Z) : prog world Z :=
  ch <- check_char c ;;
  let i := c_user_irq ch in
  BUG_ON (i <? 0) ;;
  if negb (count =? 4) then ret (- EPROTO) else
  if nz (Z.land pos 3) then ret (- EPROTO) else
    rc <- wait_event_interruptible_ (event_pending i) ;;
    if rc =? - ERESTARTSYS then ret (- ERESTARTSYS) else
      events_user <- take_event i ;;
      _ <- ext copy_to_user [buf; events_user] ;;
      ret 4.

Definition char_events_poll (c : Z) : prog world Z :=
  ch <- check_char c ;;
  let i := c_user_irq ch in
  BUG_ON (i <? 0) ;;
  with_events_lock i (
    u <- get_irq i ;;
    ret (if nz (events_irq u) then Z.lor POLLIN POLLRDNORM else 0)).

(** ** Bypass *)

Definition desc_words (d : xdma_desc) : list Z :=
  [control d; bytes d; src_addr_lo d; src_addr_hi d; dst_addr_lo d; dst_addr_hi d;
   next_lo d; next_hi d].

(** one descriptor: the offset in the buffer and [rc] *)
Definition copy_desc_one (v : dptr) (buf buf_size i : Z) (s : Z * Z) : prog world (Z * Z) :=
  let '(buf_offset, rc) := s in
  if u64 (buf_offset + sizeof_xdma_desc) <=? buf_size then
    d <- getD (dptr_add v i) ;;
    copy_err <- ext copy_to_user ((buf + buf_offset) :: desc_words d) ;;
    if nz copy_err then ret (buf_size, - EINVAL)
    else ret (buf_offset + sizeof_xdma_desc, rc)
  else ret (buf_offset, - ENOMEM).

Fixpoint copy_descs (v : dptr) (buf buf_size : Z) (n : nat) (i : Z) (s : Z * Z)
  : prog world (Z * Z) :=
  match n with
  | O => ret s
  | S n' =>
      s <- copy_desc_one v buf buf_size i s ;;
      copy_descs v buf buf_size n' (i + 1) s
  end.

(** the offset after the transfer's descriptors, and [rc] *)
Definition copy_desc_data (transfer buf buf_offset buf_size : Z) : prog world (Z * Z) :=
  BUG_ON (buf =? 0) ;;
  n <- getT desc_num transfer ;;
  v <- getT desc_virt transfer ;;
  copy_descs v buf buf_size (Z.to_nat n) 0 (buf_offset, 0).

(** the [rc] of the last transfer of the queue remains *)
Fixpoint copy_queue (l : list Z) (buf buf_size : Z) (s : Z * Z) : prog world (Z * Z) :=
  match l with
  | [] => ret s
  | t :: l' =>
      s <- copy_desc_data t buf (fst s) buf_size ;;
      copy_queue l' buf buf_size s
  end.

Definition char_bypass_read (c buf count : Z) : prog world Z :=
  ch <- check_char c ;;
  check_lro ch ;;
  check_engine ch ;;
  if nz (Z.land count 3) then ret (- EINVAL) else
  if buf =? 0 then ret (- EINVAL) else
  b <- getL bypass_bar_idx ;;
  if b <? 0 then ret (- ENODEV) else
    spin_lock ;;
    l <- getE transfer_list ;;
    r <- copy_queue l buf count (0, 0) ;;
    let '(buf_offset, rc) := r in
    spin_unlock ;;
    if rc <? 0 then ret rc else ret buf_offset.

(** one word: the offset in the buffer and [rc]; every word goes to the same
    address *)
Definition bypass_write_one (bypass_addr buf count : Z) (s : Z * Z)
  : prog world (Z * Z + Z) :=
  let '(buf_offset, rc) := s in
  if buf_offset <? count then
    r <- ext_all copy_from_user [buf + buf_offset; 4] ;;
    if nz (nth 0 r 0) then ret (inr (- EINVAL)) else
      write_register (u32 (nth 1 r 0)) bypass_addr ;;
      let buf_offset := buf_offset + 4 in
      ret (inl (buf_offset, s32 buf_offset))
  else ret (inr rc).

(** [bypass_addr] is a pointer to words *)
Definition char_bypass_write (c buf count : Z) : prog world Z :=
  ch <- check_char c ;;
  check_lro ch ;;
  check_engine ch ;;
  if nz (Z.land count 3) then ret (- EINVAL) else
  if buf =? 0 then ret (- EINVAL) else
  b <- getL bypass_bar_idx ;;
  if b <? 0 then ret (- ENODEV) else
    spin_lock ;;
    bars <- getL bar ;;
    a <- index bars b ;;
    o <- getE bypass_offset ;;
    rc <- loop (Z.to_nat (count / 4 + 1)) (bypass_write_one (a + 4 * o) buf count) (0, 0) ;;
    spin_unlock ;;
    ret rc.
End CharCtrl.
