(* ===== verification/CharFacts.v ===== *)
(** * What the control, events and bypass devices do, and the BAR mapping *)
From Stdlib Require Import List.
From S2P Require Import Prelude Layout Kernel World Desc Engine Sgm Transfer Wz Service RxRing CharDev CharCtrl.
#[local] Open Scope list_scope.
#[local] Open Scope Z_scope.
Ltac wp_hook ::= wp_engine.

Section Facts.
Context {bo : ByteOrder} {env : Env} {sched : Sched}.

(** ** A character device that is set up *)

Definition char_ready (w : world) (c : Z) (ch : xdma_char) : Prop :=
  c <> 0 /\ chars w !! c = Some ch /\ c_magic ch = MAGIC_CHAR.
Definition lro_ready (w : world) (ch : xdma_char) : Prop :=
  c_lro ch = true /\ lro_magic (lro w) = MAGIC_DEVICE.
Definition engine_ready (w : world) (ch : xdma_char) : Prop :=
  c_engine ch <> 0 /\ magic (eng w) = MAGIC_ENGINE.

Lemma wp_check_char w c ch (Q : xdma_char -> world -> Prop) :
  char_ready w c ch -> Q ch w -> wp (check_char c) Q w.
Proof.
  intros (Hc & Hl & Hm) HQ. unfold check_char.
  wp_step. wp_step; [apply Z.eqb_neq, Hc|]. wp_step. eapply wp_deref; [exact Hl|].
  wp_step. wp_step; [rewrite Hm; reflexivity|]. wp_step. exact HQ.
Qed.

Lemma wp_check_lro w ch (Q : unit -> world -> Prop) :
  lro_ready w ch -> Q tt w -> wp (check_lro ch) Q w.
Proof.
  intros [Hl Hm] HQ. unfold check_lro.
  wp_step. wp_step; [rewrite Hl; reflexivity|]. wp_step. wp_step.
  wp_step; [rewrite Hm; reflexivity|]. exact HQ.
Qed.

Lemma wp_check_engine w ch (Q : unit -> world -> Prop) :
  engine_ready w ch -> Q tt w -> wp (check_engine ch) Q w.
Proof.
  intros [Hl Hm] HQ. unfold check_engine.
  wp_step. wp_step; [apply Z.eqb_neq, Hl|]. wp_step. wp_step.
  wp_step; [rewrite Hm; reflexivity|]. exact HQ.
Qed.

(** ** Mapping a BAR *)

Lemma page_offset_small pgoff : 0 <= pgoff * PAGE_SIZE < 2 ^ 64 ->
  u64 (Z.shiftl pgoff PAGE_SHIFT) = pgoff * PAGE_SIZE.
Proof.
  intros H. rewrite Z.shiftl_mul_pow2 by (unfold PAGE_SHIFT; lia).
  change (2 ^ PAGE_SHIFT) with PAGE_SIZE. apply Z.mod_small, H.
Qed.

Lemma page_of_aligned a : Z.shiftr a PAGE_SHIFT = a / PAGE_SIZE.
Proof. apply Z.shiftr_div_pow2. unfold PAGE_SHIFT; lia. Qed.

Lemma aligned_pfn start pgoff : start mod PAGE_SIZE = 0 ->
  (start + pgoff * PAGE_SIZE) / PAGE_SIZE * PAGE_SIZE = start + pgoff * PAGE_SIZE.
Proof.
  intros Ha. rewrite Z.mul_comm. symmetry. apply Z_div_exact_2; [unfold PAGE_SIZE; lia|].
  rewrite Z.mod_add by (unfold PAGE_SIZE; lia). exact Ha.
Qed.

(** the call [bridge_mmap] ends with, for a BAR at [start, last] *)
Lemma bridge_mmap_run w c ch start last vm_start vm_end pgoff :
  char_ready w c ch -> lro_ready w ch ->
  (forall h, nth 0 (answer h pci_resource_start [c_bar ch]) 0 = start) ->
  (forall h, nth 0 (answer h pci_resource_end [c_bar ch]) 0 = last) ->
  0 <= start <= last -> last < 2 ^ 63 ->
  0 <= pgoff * PAGE_SIZE < 2 ^ 63 -> 0 <= vm_start <= vm_end -> vm_end < 2 ^ 63 ->
  let off := pgoff * PAGE_SIZE in
  wp (bridge_mmap c vm_start vm_end pgoff) (fun rc w' =>
    if u64 (last - start + 1 - off) <? vm_end - vm_start then
      rc = - EINVAL /\ calls io_remap_pfn_range (trace w') = calls io_remap_pfn_range (trace w)
    else
      calls io_remap_pfn_range (trace w')
      = [vm_start; (start + off) / PAGE_SIZE; vm_end - vm_start]
        :: calls io_remap_pfn_range (trace w)) w.
Proof.
  intros Hc Hl Hs He Hb Hb' Ho Hv Hv' off. unfold bridge_mmap.
  wp_step. apply (wp_check_char w c ch); [exact Hc|].
  wp_step. apply (wp_check_lro w ch); [exact Hl|].
  wp_step. wp_step. wp_step. wp_step. rewrite Hs, He.
  rewrite page_offset_small by lia. fold off. cbv zeta.
  rewrite page_of_aligned. unfold u64 at 2 4. rewrite !(Z.mod_small (vm_end - vm_start)) by lia.
  destruct (u64 (last - start + 1 - off) <? vm_end - vm_start).
  - wp_step. split; reflexivity.
  - unfold u64. rewrite (Z.mod_small (start + off)) by (subst off; lia).
    wp_step. wp_step. wp_step; wp_step; reflexivity.
Qed.

(** C36: within the offsets of a page-aligned BAR, [bridge_mmap] maps
    nothing outside the BAR, and refuses exactly the requests that do not
    fit. *)
Theorem bridge_mmap_stays_in_the_bar w c ch start last vm_start vm_end pgoff :
  char_ready w c ch -> lro_ready w ch ->
  (forall h, nth 0 (answer h pci_resource_start [c_bar ch]) 0 = start) ->
  (forall h, nth 0 (answer h pci_resource_end [c_bar ch]) 0 = last) ->
  0 <= start <= last -> last < 2 ^ 62 -> start mod PAGE_SIZE = 0 ->
  0 <= pgoff * PAGE_SIZE <= last + 1 - start -> 0 <= vm_start <= vm_end -> vm_end < 2 ^ 62 ->
  wp (bridge_mmap c vm_start vm_end pgoff) (fun rc w' =>
    if last + 1 <? start + pgoff * PAGE_SIZE + (vm_end - vm_start) then
      rc = - EINVAL /\ calls io_remap_pfn_range (trace w') = calls io_remap_pfn_range (trace w)
    else exists pfn, calls io_remap_pfn_range (trace w')
        = [vm_start; pfn; vm_end - vm_start] :: calls io_remap_pfn_range (trace w) /\
      start <= pfn * PAGE_SIZE /\ pfn * PAGE_SIZE + (vm_end - vm_start) <= last + 1) w.
Proof.
  intros Hc Hl Hs He Hb Hb' Ha Ho Hv Hv'.
  eapply wp_conseq; [eapply (bridge_mmap_run w c ch start last); try eassumption; lia|].
  intros rc w'. cbv beta zeta. unfold u64. rewrite Z.mod_small by lia.
  destruct (Z.ltb_spec (last - start + 1 - pgoff * PAGE_SIZE) (vm_end - vm_start)),
    (Z.ltb_spec (last + 1) (start + pgoff * PAGE_SIZE + (vm_end - vm_start))); try lia; [trivial|].
  intros E. exists ((start + pgoff * PAGE_SIZE) / PAGE_SIZE). split; [exact E|].
  rewrite aligned_pfn by exact Ha. lia.
Qed.

(** C37: an offset beyond the end of the BAR makes the size that is left wrap
    around, so the request passes the test and physical memory behind the BAR
    is mapped into the process. *)
Theorem bridge_mmap_beyond_the_bar w c ch start last vm_start vm_end pgoff :
  char_ready w c ch -> lro_ready w ch ->
  (forall h, nth 0 (answer h pci_resource_start [c_bar ch]) 0 = start) ->
  (forall h, nth 0 (answer h pci_resource_end [c_bar ch]) 0 = last) ->
  0 <= start <= last -> last < 2 ^ 62 -> start mod PAGE_SIZE = 0 ->
  last + 1 - start < pgoff * PAGE_SIZE < 2 ^ 62 -> 0 <= vm_start <= vm_end -> vm_end < 2 ^ 62 ->
  wp (bridge_mmap c vm_start vm_end pgoff) (fun rc w' =>
    exists pfn, calls io_remap_pfn_range (trace w')
        = [vm_start; pfn; vm_end - vm_start] :: calls io_remap_pfn_range (trace w) /\
      last < pfn * PAGE_SIZE) w.
Proof.
  intros Hc Hl Hs He Hb Hb' Ha Ho Hv Hv'.
  eapply wp_conseq; [eapply (bridge_mmap_run w c ch start last); try eassumption; lia|].
  intros rc w'. cbv beta zeta. unfold u64.
  rewrite <- (Z.mod_add _ 1) by lia. rewrite Z.mod_small by lia.
  destruct (Z.ltb_spec (last - start + 1 - pgoff * PAGE_SIZE + 1 * 2 ^ 64) (vm_end - vm_start)); [lia|].
  intros E. exists ((start + pgoff * PAGE_SIZE) / PAGE_SIZE). split; [exact E|].
  rewrite aligned_pfn by exact Ha. lia.
Qed.
(** ** Events *)

Definition irq_at (w : world) (i : Z) (u : xdma_irq) : Prop :=
  zlookup (user_irq (lro w)) i = Some u.

Lemma irq_at_set w i u v : irq_at w i u -> irq_at (w <| lro -> user_irq ::= zinsert i v |>) i v.
Proof. intros H. apply zlookup_zinsert_eq, (zlookup_Some _ _ _ H). Qed.

Lemma wp_set_irq w i u f (Q : unit -> world -> Prop) :
  irq_at w i u -> Q tt (w <| lro -> user_irq ::= zinsert i (f u) |>) -> wp (set_irq i f) Q w.
Proof.
  intros H HQ. unfold set_irq. do 3 wp_step. eapply wp_index; [exact H|]. exact HQ.
Qed.

Lemma wp_get_irq w i u (Q : xdma_irq -> world -> Prop) :
  irq_at w i u -> Q u w -> wp (get_irq i) Q w.
Proof. intros H HQ. unfold get_irq. do 2 wp_step. eapply wp_index; [exact H|exact HQ]. Qed.

(** the rest of the world, with entry [i] of the interrupts changed *)
Definition irq_world (w : world) (i : Z) (u : xdma_irq) (w' : world) : Prop :=
  irq_at w' i u /\ exists tr l, w' = w <| trace := tr |> <| lro -> user_irq := l |> /\
    calls copy_to_user tr = calls copy_to_user (trace w).

Lemma irq_world_refl w i u : irq_at w i u -> irq_world w i u w.
Proof.
  intros H. split; [exact H|]. exists (trace w), (user_irq (lro w)). split; [|reflexivity].
  destruct w as [? ? ? [] ? ? ? ? ? ? ? ? ?]; reflexivity.
Qed.

Lemma irq_world_set w i u w1 f :
  irq_world w i u w1 -> irq_world w i (f u) (w1 <| lro -> user_irq ::= zinsert i (f u) |>).
Proof.
  intros (H & tr & l & -> & E). split; [eapply irq_at_set, H|].
  exists tr, (zinsert i (f u) l). split; [reflexivity|exact E].
Qed.

Lemma irq_world_log w i u w1 f args r :
  f <> copy_to_user -> irq_world w i u w1 -> irq_world w i u (log (Call f args r) w1).
Proof.
  intros Hf (H & tr & l & -> & E). split; [exact H|].
  exists (Call f args r :: tr), l. split; [reflexivity|].
  rewrite calls_cons_ne by exact Hf. exact E.
Qed.

(** the service marks the event; a mark that is there stays *)
Lemma user_irq_service_marks w i u w1 :
  events_lock u = false -> irq_world w i u w1 ->
  wp (user_irq_service i) (fun _ w' =>
    irq_world w i (u <| events_irq := if nz (events_irq u) then events_irq u else 1 |>) w') w1.
Proof.
  intros Hl HW. pose proof HW as (H & _). unfold user_irq_service.
  wp_step. wp_step. wp_step. eapply wp_index; [exact H|]. rewrite Hl.
  wp_step. eapply wp_set_irq; [exact H|]. apply irq_world_set with (f := fun u => u <| events_lock := true |>) in HW.
  revert HW. match goal with |- irq_world _ _ _ ?st -> _ => set (w2 := st) end. intros HW.
  pose proof HW as (H2 & _).
  wp_step. apply wp_when; intros E.
  - wp_step. eapply wp_set_irq; [exact H2|].
    apply irq_world_set with (f := fun u => u <| events_irq := 1 |>) in HW. revert HW.
    match goal with |- irq_world _ _ _ ?st -> _ => set (w3 := st) end. intros HW.
    wp_step. apply (irq_world_log w i _ _ wake_up_interruptible [i] []) in HW;
      [|discriminate]. pose proof HW as (H3 & _).
    eapply wp_set_irq; [exact H3|]. apply negb_true_iff in E. rewrite E.
    apply irq_world_set with (f := fun u => u <| events_lock := false |>) in HW.
    destruct u; cbn in Hl; subst; exact HW.
  - eapply wp_set_irq; [exact H2|]. apply negb_false_iff in E. rewrite E.
    apply irq_world_set with (f := fun u => u <| events_lock := false |>) in HW.
    destruct u; cbn in Hl; subst; exact HW.
Qed.
(** [take_event] reads and clears entry [i] *)
Lemma take_event_ok w i u w1 (Q : Z -> world -> Prop) :
  events_lock u = false -> irq_world w i u w1 ->
  (forall w', irq_world w i (u <| events_irq := 0 |>) w' -> Q (events_irq u) w') ->
  wp (take_event i) Q w1.
Proof.
  intros Hl HW HQ. unfold take_event, with_events_lock. pose proof HW as (H & _).
  wp_step. apply (wp_get_irq _ _ u); [exact H|]. rewrite Hl.
  wp_step. eapply wp_set_irq; [exact H|].
  apply (irq_world_set w i u _ (fun u => u <| events_lock := true |>)) in HW. revert HW.
  match goal with |- irq_world _ _ _ ?st -> _ => set (w2 := st) end. intros HW. pose proof HW as (H2 & _).
  wp_step. wp_step. eapply wp_get_irq; [exact H2|]. wp_step. eapply wp_set_irq; [exact H2|].
  apply (irq_world_set w i _ _ (fun u => u <| events_irq := 0 |>)) in HW. revert HW.
  match goal with |- irq_world _ _ _ ?st -> _ => set (w3 := st) end. intros HW. pose proof HW as (H3 & _).
  wp_step. wp_step. eapply wp_set_irq; [exact H3|]. wp_step.
  apply (irq_world_set w i _ _ (fun u => u <| events_lock := false |>)) in HW.
  apply HQ. destruct u; cbn in Hl; subst; exact HW.
Qed.

Lemma irq_world_pending w i u w1 : irq_world w i u w1 -> event_pending i w1 = nz (events_irq u).
Proof. intros (H & _). unfold event_pending. unfold irq_at in H. rewrite H. reflexivity. Qed.

(** C38: user interrupts that arrive before a read, one or many, are
    delivered to it as one event: the read returns at once, hands the user the
    value 1, and leaves no event behind. *)
Theorem events_are_delivered_once w c ch buf pos n :
  char_ready w c ch -> 0 <= c_user_irq ch -> irq_at w (c_user_irq ch) (mk_irq 0 false) ->
  Z.land pos 3 = 0 -> 0 < n ->
  wp (for_ 0 n (fun _ => user_irq_service (c_user_irq ch)) ;; char_events_read c buf 4 pos)
    (fun rc w' => rc = 4 /\ irq_at w' (c_user_irq ch) (mk_irq 0 false) /\
      event_pending (c_user_irq ch) w' = false /\
      calls copy_to_user (trace w') = [buf; 1] :: calls copy_to_user (trace w)) w.
Proof.
  intros Hc Hi Hu Hp Hn. set (i := c_user_irq ch) in *. wp_step.
  apply (wp_for (fun k w' => irq_world w i (mk_irq (if k =? 0 then 0 else 1) false) w'));
    [lia|apply irq_world_refl, Hu| |].
  - intros k w1 Hk HW. eapply wp_conseq; [apply (user_irq_service_marks w i (mk_irq _ false) w1 eq_refl HW)|].
    cbv beta. intros _ w2 HW2. replace (k + 1 =? 0) with false by (symmetry; apply Z.eqb_neq; lia).
    destruct (k =? 0); exact HW2.
  - intros w1 HW. replace (n =? 0) with false in HW by (symmetry; apply Z.eqb_neq; lia).
    assert (Hc1 : char_ready w1 c ch) by (destruct HW as (_ & tr & l & -> & _); exact Hc).
    unfold char_events_read. wp_step. apply (wp_check_char _ _ ch); [exact Hc1|].
    wp_step. wp_step; [apply Z.ltb_ge, Hi|]. rewrite Hp. change (negb (4 =? 4)) with false.
    change (nz 0) with false. cbv iota. fold i. wp_step. unfold wait_event_interruptible_.
    wp_step. wp_step. rewrite (irq_world_pending _ _ _ _ HW). change (nz (events_irq (mk_irq 1 false))) with true.
    cbv iota. wp_step. change (0 =? - ERESTARTSYS) with false. cbv iota.
    wp_step. apply (take_event_ok w i (mk_irq 1 false) w1); [reflexivity|exact HW|].
    intros w2 HW2. wp_step. wp_step. wp_step. split; [reflexivity|].
    split; [apply HW2|]. split; [apply (irq_world_pending _ _ _ _ HW2)|].
    destruct HW2 as (_ & tr & l & -> & <-). apply calls_cons_eq.
Qed.

(** ** The bypass BAR *)

(** a bypass write whose user buffer can be read sends each word of the
    buffer, in order and to the same address, and returns the size; a word
    that cannot be read ends it with [-EINVAL] after the words before it. *)
Lemma bypass_write_sends_words w c ch buf count a :
  char_ready w c ch -> lro_ready w ch -> engine_ready w ch ->
  Z.land count 3 = 0 -> 0 <= count < 2 ^ 31 -> buf <> 0 ->
  0 <= bypass_bar_idx (lro w) -> zlookup (bar (lro w)) (bypass_bar_idx (lro w)) = Some a ->
  lock (eng w) = false ->
  wp (char_bypass_write c buf count) (fun rc w' => exists ws,
    writes (trace w') = rev (map (fun x => (a + 4 * bypass_offset (eng w), x)) ws) ++ writes (trace w) /\
    4 * Z.of_nat (length ws) <= count /\
    (rc = count /\ 4 * Z.of_nat (length ws) = count \/ rc = - EINVAL) /\
    lock (eng w') = false) w.
Proof.
  intros Hc Hl He Hm Hn Hb Hi Ha Hk. unfold char_bypass_write.
  wp_step. apply (wp_check_char _ _ ch); [exact Hc|].
  wp_step. apply wp_check_lro; [exact Hl|]. wp_step. apply wp_check_engine; [exact He|].
  rewrite Hm. change (nz 0) with false. cbv iota. rewrite (proj2 (Z.eqb_neq _ _) Hb).
  wp_step. wp_step. rewrite (proj2 (Z.ltb_ge _ _) Hi).
  wp_step. wp_step; [exact Hk|]. wp_step. wp_step. wp_step. eapply wp_index; [exact Ha|].
  wp_step. wp_step. match goal with |- wp _ _ ?st => set (w1 := st) end.
  change (bypass_offset (eng w1)) with (bypass_offset (eng w)).
  set (A := a + 4 * bypass_offset (eng w)). wp_step.
  apply (wp_loop (fun v w' => exists ws tr, w' = w1 <| trace := tr |> /\
     writes tr = rev (map (fun x => (A, x)) ws) ++ writes (trace w) /\
     v = (4 * Z.of_nat (length ws), 4 * Z.of_nat (length ws)) /\ fst v <= count)
     (fun v _ => Z.to_nat ((count - fst v) / 4))).
  - intros v w2 (ws & tr & -> & Hw & -> & Hle). cbn [fst] in Hle. unfold bypass_write_one.
    assert (H4 : count mod 4 = 0).
    { change 3 with (Z.ones 2) in Hm. rewrite Z.land_ones in Hm by lia. exact Hm. }
    pose proof (Z.div_mod count 4). destruct (Z.ltb_spec (4 * Z.of_nat (length ws)) count).
    + wp_step. wp_step. wp_step.
      * wp_step. wp_step. wp_step. exists ws. split; [exact Hw|]. split; [exact Hle|].
        split; [right; reflexivity|reflexivity].
      * wp_step. wp_step. wp_step. split.
        -- do 2 eexists. split; [reflexivity|]. split; [|].
           ++ instantiate (1 := ws ++ [u32 (nth 1 (answer tr copy_from_user [buf + 4 * Z.of_nat (length ws); 4]) 0)]).
              rewrite map_app, rev_app_distr. cbn. unfold writes at 1; cbn. f_equal. exact Hw.
           ++ rewrite length_app. cbn [length]. unfold s32. rewrite Z.mod_small by lia.
              split; [f_equal; lia|cbn [fst]; lia].
        -- cbn [fst]. apply Z2Nat.inj_lt; [apply Z.div_pos; lia..|].
           replace (count - 4 * Z.of_nat (length ws)) with (count - (4 * Z.of_nat (length ws) + 4) + 1 * 4) by lia.
           rewrite Z.div_add by lia. lia.
    + wp_step. wp_step. wp_step. exists ws. split; [exact Hw|]. split; [exact Hle|].
      split; [left; lia|reflexivity].
  - exists [], (trace w). split; [reflexivity|]. split; [reflexivity|]. split; [reflexivity|]. cbn; lia.
  - cbn [fst]. rewrite Z.sub_0_r. apply Z2Nat.inj_lt; [apply Z.div_pos; lia| |lia].
    pose proof (Z.div_pos count 4). lia.
Qed.
(** the descriptors of transfer [t] in memory *)
Definition transfer_descs (w : world) (t : Z) (ds : list xdma_desc) : Prop :=
  exists x, transfers w !! t = Some x /\ desc_num x = Z.of_nat (length ds) /\ ds <> [] /\
    forall k d, ds !! k = Some d ->
      lookup_mem (coherent w) (dptr_add (desc_virt x) (Z.of_nat k)) = Some d.

(** the copies to the user of the descriptors [ds], newest first *)
Definition sent (buf : Z) (ds : list xdma_desc) : list (list Z) :=
  rev (imap (fun k d => (buf + 32 * Z.of_nat k) :: desc_words d) ds).

Lemma sent_snoc buf ds d :
  sent buf (ds ++ [d]) = ((buf + 32 * Z.of_nat (length ds)) :: desc_words d) :: sent buf ds.
Proof.
  unfold sent. rewrite imap_app, rev_app_distr. cbn. rewrite Nat.add_0_r. reflexivity.
Qed.

Section BypassRead.
Context (w : world) (buf count : Z) (Hbuf : buf <> 0) (Hcount : 0 <= count < 2 ^ 63).
Context (Hcopy : forall h args, nth 0 (answer h copy_to_user args) 0 = 0).

(** how many descriptors the buffer holds *)
Definition capacity : nat := Z.to_nat (count / 32).
Definition copied_to (done : list xdma_desc) (w' : world) : Prop :=
  exists tr, w' = w <| trace := tr |> /\
    calls copy_to_user tr = sent buf (take capacity done) ++ calls copy_to_user (trace w).
Definition offset_after (done : list xdma_desc) : Z :=
  32 * Z.of_nat (Nat.min (length done) capacity).
Definition rc_after (rc : Z) (done : list xdma_desc) : Z :=
  if decide (length done <= capacity)%nat then rc else - ENOMEM.

Lemma fits_iff done :
  (u64 (offset_after done + sizeof_xdma_desc) <=? count) = bool_decide (length done < capacity)%nat.
Proof using Hcount.
  unfold offset_after, capacity. change sizeof_xdma_desc with 32.
  pose proof (Z.div_mod count 32). pose proof (Z.mod_pos_bound count 32).
  assert (0 <= count / 32) by (apply Z.div_pos; lia).
  unfold u64. rewrite Z.mod_small by lia.
  case_bool_decide; [apply Z.leb_le|apply Z.leb_gt]; lia.
Qed.

Lemma copy_desc_one_ok v i d rc done w' :
  copied_to done w' -> lookup_mem (coherent w) (dptr_add v i) = Some d ->
  wp (copy_desc_one v buf count i (offset_after done, rc)) (fun s w'' =>
    s = (offset_after (done ++ [d]), rc_after rc (done ++ [d])) /\ copied_to (done ++ [d]) w'') w'.
Proof using Hcount Hcopy.
  intros (tr & -> & Ht) Hd. unfold copy_desc_one. rewrite fits_iff.
  unfold rc_after.
  case_bool_decide as Hc.
  - wp_step. eapply wp_getD; [exact Hd|]. wp_step. wp_step. rewrite Hcopy.
    change (nz 0) with false. cbv iota. wp_step.
    rewrite decide_True by (rewrite length_app; cbn [length]; lia). split.
    + f_equal. unfold offset_after. change sizeof_xdma_desc with 32.
      rewrite length_app. cbn [length]. lia.
    + eexists. split; [reflexivity|]. rewrite calls_cons_eq. etransitivity; [apply (f_equal (cons _)), Ht|].
      rewrite (take_ge (done ++ [d])), (take_ge done) by (rewrite ?length_app; cbn [length]; lia). rewrite sent_snoc.
      unfold offset_after. rewrite Nat.min_l by lia. reflexivity.
  - wp_step. rewrite decide_False by (rewrite length_app; cbn [length]; lia). split.
    + f_equal. unfold offset_after. rewrite length_app. cbn [length]. lia.
    + exists tr. split; [reflexivity|]. rewrite Ht, (take_app_le done [d]) by lia. reflexivity.
Qed.

Lemma copy_descs_ok v ds : forall i rc done w',
  copied_to done w' ->
  (forall k d, ds !! k = Some d ->
     lookup_mem (coherent w) (dptr_add v (i + Z.of_nat k)) = Some d) ->
  wp (copy_descs v buf count (length ds) i (offset_after done, rc)) (fun s w'' =>
    s = (offset_after (done ++ ds),
         if decide (ds = []) then rc else rc_after rc (done ++ ds)) /\
    copied_to (done ++ ds) w'') w'.
Proof using Hcount Hcopy.
  induction ds as [|d ds IH]; intros i rc done w' HC Hd; cbn [length copy_descs].
  - wp_step. rewrite app_nil_r. split; [reflexivity|exact HC].
  - wp_step. eapply wp_conseq.
    + apply (copy_desc_one_ok v i d rc done); [exact HC|].
      replace i with (i + Z.of_nat 0) by lia. apply Hd. reflexivity.
    + intros ? w1 (-> & HC1). eapply wp_conseq; [apply IH; [exact HC1|]|].
      * intros k e Hk. replace (i + 1 + Z.of_nat k) with (i + Z.of_nat (S k)) by lia.
        apply Hd. exact Hk.
      * intros ? w2 (-> & HC2). rewrite <- app_assoc in *. split; [|exact HC2].
        f_equal. unfold rc_after. rewrite !length_app. cbn [length].
        destruct (decide (ds = [])) as [->|]; [cbn; reflexivity|].
        destruct ds; [congruence|]. cbn [length]. repeat case_decide; solve [reflexivity | congruence | cbn [length] in *; lia].
Qed.

Lemma copy_desc_data_ok t ds done w' :
  copied_to done w' -> transfer_descs w t ds ->
  wp (copy_desc_data t buf (offset_after done) count) (fun s w'' =>
    s = (offset_after (done ++ ds), rc_after 0 (done ++ ds)) /\ copied_to (done ++ ds) w'') w'.
Proof using Hbuf Hcount Hcopy.
  intros HC (x & Hx & Hn & Hne & Hd). pose proof HC as (tr & E & _). unfold copy_desc_data.
  wp_step. wp_step; [apply Z.eqb_neq, Hbuf|].
  wp_step. eapply wp_getT; [rewrite E; exact Hx|]. wp_step. eapply wp_getT; [rewrite E; exact Hx|].
  rewrite Hn, Nat2Z.id. eapply wp_conseq; [apply copy_descs_ok; [exact HC|exact Hd]|].
  intros ? w1 (-> & HC1). rewrite decide_False by exact Hne. split; [reflexivity|exact HC1].
Qed.

Lemma copy_queue_ok l dss : Forall2 (transfer_descs w) l dss -> forall done rc w',
  copied_to done w' -> rc = rc_after 0 done ->
  wp (copy_queue l buf count (offset_after done, rc)) (fun s w'' =>
    s = (offset_after (done ++ concat dss), rc_after 0 (done ++ concat dss)) /\
    copied_to (done ++ concat dss) w'') w'.
Proof using Hbuf Hcount Hcopy.
  induction 1 as [|t ds l dss Ht _ IH]; intros done rc w' HC ->; cbn [copy_queue concat].
  - wp_step. rewrite app_nil_r. split; [reflexivity|exact HC].
  - wp_step. cbn [fst]. eapply wp_conseq; [apply copy_desc_data_ok; [exact HC|exact Ht]|].
    intros ? w1 (-> & HC1). eapply wp_conseq; [apply IH; [exact HC1|reflexivity]|].
    intros ? w2 (-> & HC2). rewrite <- app_assoc in *. split; [reflexivity|exact HC2].
Qed.
End BypassRead.

(** a read of the bypass device hands the user the descriptors of the
    queued transfers in queue order, as many as the buffer holds, and returns
    their size, or [-ENOMEM] when the buffer does not hold them all. *)
Lemma bypass_read_dumps_the_queue w c ch buf count dss :
  char_ready w c ch -> lro_ready w ch -> engine_ready w ch ->
  Z.land count 3 = 0 -> 0 <= count < 2 ^ 63 -> buf <> 0 -> 0 <= bypass_bar_idx (lro w) ->
  lock (eng w) = false ->
  (forall h args, nth 0 (answer h copy_to_user args) 0 = 0) ->
  Forall2 (transfer_descs w) (transfer_list (eng w)) dss ->
  wp (char_bypass_read c buf count) (fun rc w' =>
    rc = (if decide (32 * Z.of_nat (length (concat dss)) <= count)
          then 32 * Z.of_nat (length (concat dss)) else - ENOMEM) /\
    calls copy_to_user (trace w')
    = sent buf (take (Z.to_nat (count / 32)) (concat dss)) ++ calls copy_to_user (trace w) /\
    lock (eng w') = false) w.
Proof.
  intros Hc Hl He Hm Hn Hb Hi Hk Hcopy Hq. unfold char_bypass_read.
  wp_step. apply (wp_check_char _ _ ch); [exact Hc|].
  wp_step. apply wp_check_lro; [exact Hl|]. wp_step. apply wp_check_engine; [exact He|].
  rewrite Hm. change (nz 0) with false. cbv iota. rewrite (proj2 (Z.eqb_neq _ _) Hb).
  wp_step. wp_step. rewrite (proj2 (Z.ltb_ge _ _) Hi).
  wp_step. wp_step; [exact Hk|]. match goal with |- wp _ _ ?st => set (w1 := st) end.
  wp_step. wp_step. wp_step.
  eapply wp_conseq.
  - apply (copy_queue_ok w1 buf count Hb Hn Hcopy (transfer_list (eng w)) dss Hq [] 0).
    + exists (trace w). split; [reflexivity|]. rewrite take_nil. reflexivity.
    + unfold rc_after. rewrite decide_True by (cbn; lia). reflexivity.
  - intros ? w2 (-> & tr & -> & Ht). cbn [app] in *. cbv beta iota. wp_step. wp_step.
    assert (Hcap : Z.of_nat (capacity count) = count / 32)
      by (apply Z2Nat.id, Z.div_pos; lia).
    pose proof (Z.div_mod count 32). pose proof (Z.mod_pos_bound count 32).
    unfold rc_after, offset_after.
    case_decide as E1; case_decide as E2; try lia.
    + change (0 <? 0) with false. cbv iota. wp_step. rewrite Nat.min_l by lia.
      split; [reflexivity|]. split; [exact Ht|reflexivity].
    + change (- ENOMEM <? 0) with true. cbv iota. wp_step.
      split; [reflexivity|]. split; [exact Ht|reflexivity].
Qed.
End Facts.
