(* ===== verification/BadBuffer.v ===== *)
(** * A request for a buffer that cannot be pinned *)
From S2P Require Import Prelude Layout Kernel World Desc Engine Sgm Transfer CharDev CharFacts UserDma.
#[local] Open Scope Z_scope.

(** a run that a BUG_ON ends, behind one that returns *)
Lemma bind_bug {A B} (m : prog world A) (f : A -> prog world B) (Q : A -> world -> Prop) w :
  wp m Q w -> (forall a w', Q a w' -> f a w' = Abort BugOn) -> bind m f w = Abort BugOn.
Proof. unfold wp, bind. destruct (m w); [auto|contradiction]. Qed.
Lemma bug_bind {A B} (m : prog world A) (f : A -> prog world B) w :
  m w = Abort BugOn -> bind m f w = Abort BugOn.
Proof. unfold bind. intros ->. reflexivity. Qed.

Section BadBuffer.
Context {bo : ByteOrder} {env : Env} {sched : Sched}.

(** a buffer of the process of which some page cannot be pinned, in a kernel
    with memory to give *)
Class BadBuffer (start count : Z) : Prop := {
  bb_buffer : buffer_ok start count;
  bb_size : count < 2 ^ 32;
  bb_kzalloc : forall h, nth 0 (answer h kzalloc []) 0 <> 0;
  bb_kcalloc : forall h n size, nth 0 (answer h kcalloc [n; size]) 0 <> 0;
  bb_pins : forall h u, let r := answer h get_user_pages_fast (gup_args start count u) in
    gup_documented (buffer_pages start count) r /\ nth 0 r 0 < buffer_pages start count
}.

Lemma run_setT {B} f t x (g : unit -> prog world B) w :
  transfers w !! t = Some x -> bind (setT f t) g w = g tt (w <| transfers ::= <[t := f x]> |>).
Proof.
  intros H. assert (wp (setT f t) (fun _ w' => w' = w <| transfers ::= <[t := f x]> |>) w) as Hs
    by (eapply wp_setT; [exact H|reflexivity]).
  unfold wp in Hs. unfold bind. destruct (setT f t w) as [[] w'|]; [rewrite Hs; reflexivity|contradiction].
Qed.

Lemma transfer_create_bug start count ep dir ni force w :
  BadBuffer start count -> 0 < fresh w ->
  transfer_create start count ep dir ni force 1 w = Abort BugOn.
Proof.
  intros [Hb Hc Hkz Hkc Hpin] Hf. unfold transfer_create.
  eapply bind_bug with (Q := fun t w' => t = fresh w /\ transfers w' !! t = Some zero_transfer /\ fresh w' = t + 1).
  { apply wp_kzalloc_transfer; [intros E; elim (Hkz _ E)|]. intros _.
    split; [reflexivity|]. split; [apply lookup_insert_eq|reflexivity]. }
  intros t w1 (-> & Ht & Hf1). rewrite (proj2 (Z.eqb_neq (fresh w) 0)) by lia.
  rewrite (run_setT _ _ _ _ _ Ht). eapply bind_bug; [apply (create_mapper_ok start count); assumption|].
  intros sg w2 (-> & h & s & -> & _ & Hi & _ & Hmax).
  erewrite run_setT by apply lookup_insert_eq.
  eapply bind_bug with (Q := fun _ w' => w' = _); [apply wp_BUG_ON; [apply Z.eqb_neq; cbn; lia|reflexivity]|].
  intros [] w3 ->. erewrite run_setT by apply lookup_insert_eq. change (nz 1) with true. cbv iota.
  eapply bind_bug.
  { eapply sgm_get_user_pages_short; [apply lookup_insert_eq|exact Hi|exact Hb|exact Hmax|apply Hpin|apply Hpin]. }
  intros rc w4 (-> & _). reflexivity.
Qed.

Lemma run_getE {A B} (f : xdma_engine -> A) (g : A -> prog world B) w : bind (getE f) g w = g (f (eng w)) w.
Proof. reflexivity. Qed.
Lemma run_ok {A B} (m : prog world A) (g : A -> prog world B) a w w' : m w = Ok a w' -> bind m g w = g a w'.
Proof. unfold bind. intros ->. reflexivity. Qed.
Lemma loop_bug {V R} n (body : V -> prog world (V + R)) v w :
  (0 < n)%nat -> body v w = Abort BugOn -> loop n body v w = Abort BugOn.
Proof. intros Hn Hb. destruct n as [|n]; [lia|]. cbn [loop]. apply bug_bind, Hb. Qed.

Lemma data_fuel_positive count : (0 < data_fuel count)%nat.
Proof.
  unfold data_fuel. assert (0 <= Z.max 0 count / XDMA_TRANSFER_MAX_BYTES); [|lia].
  apply Z.div_pos; [lia|reflexivity].
Qed.

Lemma transfer_data_bug hz fuel addr remaining pos w :
  0 < remaining -> BadBuffer addr (chunk remaining) -> 0 < fresh w ->
  transfer_data hz fuel addr remaining pos w = Abort BugOn.
Proof.
  intros Hr Hb Hf. unfold transfer_data. apply loop_bug; [apply data_fuel_positive|].
  unfold transfer_data_one. rewrite (proj2 (Z.ltb_lt _ _) Hr). cbn [negb]. rewrite !run_getE.
  apply bug_bind, transfer_create_bug; assumption.
Qed.

(** C32: A process that reads into, or writes from, an address that is not all
    mapped stops the kernel: [sgm_get_user_pages] reports the pages that cannot
    be pinned, and [transfer_create] takes its error for a bug. *)
Theorem bad_buffer_is_a_bug hz fuel c ch buf count pos dir w :
  char_ready w c ch -> lro_ready w ch -> engine_ready w ch ->
  dir = dir_to_dev (eng w) -> check_transfer_align buf count pos 1 w = Ok 0 w ->
  0 < s64 count -> BadBuffer buf (chunk (s64 count)) -> 0 < fresh w ->
  char_sgdma_read_write hz fuel c buf count pos dir w = Abort BugOn.
Proof.
  intros Hch Hlro Heng -> Hal Hcount Hbb Hf. unfold char_sgdma_read_write.
  eapply bind_bug with (Q := fun r w' => r = ch /\ w' = w);
    [apply (wp_check_char _ _ ch); [exact Hch|split; reflexivity]|]. intros ? ? [-> ->].
  eapply bind_bug with (Q := fun _ w' => w' = w); [apply wp_check_lro; [exact Hlro|reflexivity]|]. intros ? ? ->.
  eapply bind_bug with (Q := fun _ w' => w' = w); [apply wp_check_engine; [exact Heng|reflexivity]|]. intros ? ? ->.
  rewrite run_getE, Z.eqb_refl. cbn [negb]. rewrite (run_ok _ _ _ _ _ Hal). change (nz 0) with false. cbv iota.
  apply transfer_data_bug; assumption.
Qed.
End BadBuffer.
