(* ===== verification/TesterFacts.v ===== *)
(** * The test programs and the driver together (tester2.c, tester3.c) *)
From S2P Require Import Prelude Layout Kernel World Desc Engine Wz WzRing WzScan WzFlow WzConfirm CharDev.
From S2P Require Import CharFacts Tester.
#[local] Open Scope Z_scope.

(** ** What tester2 checks *)
Section Check.
Context (data_buf : Z -> Z).

Lemma total_mask x : Z.land x (TOT_BUF_LEN - 1) = x mod TOT_BUF_LEN.
Proof. change (TOT_BUF_LEN - 1) with (Z.ones 29). rewrite Z.land_ones by lia. reflexivity. Qed.

(** the offset of row [k] of the data, behind the header and around the end of
    the mapping *)
Definition row_at (start k : Z) : Z := (start + 32 * (k + 1)) mod TOT_BUF_LEN.

Lemma row_at_next start k : row_at ((start + 32) mod TOT_BUF_LEN) k = row_at start (k + 1).
Proof. unfold row_at. rewrite Zplus_mod_idemp_l. f_equal. lia. Qed.

Lemma omap_nil {A B} (f : A -> option B) l : omap f l = [] <-> forall x, In x l -> f x = None.
Proof.
  induction l as [|a l IH]; cbn; [split; [intros _ x []|reflexivity]|].
  destruct (f a) eqn:E; split.
  - discriminate.
  - intros H. specialize (H a (or_introl eq_refl)). congruence.
  - intros H x [<-|Hx]; [exact E|]. apply IH; assumption.
  - intros H. apply IH. intros x Hx. apply H. right. exact Hx.
Qed.

Lemma check_row_ok b a init :
  check_row data_buf b a init = [] <-> forall j, 0 <= j < 8 -> data_buf (a + 4 * j) = u32 (init + j).
Proof.
  unfold check_row. rewrite omap_nil. split.
  - intros H j Hj. specialize (H (Z.to_nat j)). cbv beta zeta in H. rewrite Z2Nat.id in H by lia.
    destruct (Z.eqb_spec (data_buf (a + 4 * j)) (u32 (init + j))) as [E|E]; [exact E|].
    discriminate H. apply in_seq. lia.
  - intros H j Hj%in_seq. rewrite H by lia. rewrite Z.eqb_refl. reflexivity.
Qed.

Lemma check_rows_ok n b step : forall start init,
  check_rows data_buf n b start init step = [] <->
  forall k j, 0 <= k < Z.of_nat n -> 0 <= j < 8 ->
    data_buf (row_at start k + 4 * j) = u32 (init + step * k + j).
Proof.
  induction n as [|n IH]; intros start init; cbn [check_rows]; [split; [intros _ k j Hk; lia|reflexivity]|].
  rewrite total_mask. split.
  - intros [H1 H2]%app_eq_nil k j Hk Hj. destruct (Z.eq_dec k 0) as [->|Hne].
    + rewrite check_row_ok in H1. rewrite Z.mul_0_r, Z.add_0_r. apply (H1 j Hj).
    + rewrite IH in H2. specialize (H2 (k - 1) j ltac:(lia) Hj). rewrite row_at_next in H2.
      replace (k - 1 + 1) with k in H2 by lia. rewrite H2. f_equal. lia.
  - intros H. rewrite (proj2 (check_row_ok _ _ _)), (proj2 (IH _ _)); [reflexivity| |].
    + intros k j Hk Hj. rewrite row_at_next, H by lia. f_equal. lia.
    + intros j Hj. specialize (H 0 j ltac:(lia) Hj). rewrite Z.mul_0_r, Z.add_0_r in H. exact H.
Qed.

(** C18: tester2 prints nothing about a block exactly when the length in its
    header is that of the block and the rows it looks at hold the counter.  But
    its loop counts rows in steps of 32: it looks at the first of 32 parts of
    the data only, and errors in the rest are not found. *)
Theorem tester2_accepts_exactly b :
  let start := WZ_DMA_BUFLEN * first_desc b in
  let dlen := s32 (get_len data_buf start) in
  snd (check_block2 data_buf b) = [] <->
  block_len b = s32 (dlen * 32) /\
  forall k j, 0 <= k < (dlen + 31) / 32 -> 0 <= j < 8 ->
    data_buf (row_at start k + 4 * j) = u32 (get_init data_buf start + get_step data_buf start * k + j).
Proof.
  intros start dlen. unfold check_block2. fold start. fold dlen. cbn [snd].
  assert (forall k, 0 <= k < Z.of_nat (row_turns dlen) <-> 0 <= k < (dlen + 31) / 32) as Hn.
  { intros k. unfold row_turns. lia. }
  split.
  - intros [H1 H2]%app_eq_nil. split.
    + destruct (Z.eqb_spec (block_len b) (s32 (dlen * 32))); [assumption|discriminate].
    + intros k j Hk. apply (proj1 (check_rows_ok _ _ _ _ _) H2). apply Hn, Hk.
  - intros [H1 H2]. rewrite H1, Z.eqb_refl. apply check_rows_ok. intros k j Hk. apply H2, Hn, Hk.
Qed.
End Check.

(** ** A process and the ring *)

(** what the process stored at an address last *)
Fixpoint stored (h : history) (a : Z) : Z :=
  match h with
  | [] => 0
  | Call user_store [a'; v] _ :: h' => if a' =? a then v else stored h' a
  | _ :: h' => stored h' a
  end.

(** is [k] an entry of the block? *)
Definition in_block (k : Z) (b : wz_xdma_data_block_desc) : bool :=
  (k - first_desc b) mod WZ_DMA_NOFBUFS <=? (last_desc b - first_desc b) mod WZ_DMA_NOFBUFS.
Definition block_on_ring (b : wz_xdma_data_block_desc) : Prop :=
  on_ring (first_desc b) /\ on_ring (last_desc b).

(** the descriptors of the blocks [bs] are those the ring was built with again,
    and no other changed *)
Definition given_back (x : wz_xdma_engine_ext) (bs : list wz_xdma_data_block_desc) (mem mem' : gmap Z dblock) : Prop :=
  forall k p, on_ring k -> zlookup (desc x) k = Some p ->
    lookup_mem mem' p = if existsb (in_block k) bs
                        then desc_copy x ≫= (fun cs => zlookup cs k) else lookup_mem mem p.

(** the state of the cyclic extension but for its queue *)
Definition with_queue (x : wz_xdma_engine_ext) (q : list wz_xdma_data_block_desc) : wz_xdma_engine_ext :=
  x <| kfifo := q |>.

Lemma confirmed_given_back x b mem mem' :
  confirmed x (first_desc b) (S (Z.to_nat ((last_desc b - first_desc b) mod WZ_DMA_NOFBUFS))) mem mem' ->
  given_back x [b] mem mem'.
Proof.
  intros H k p Hk Hp. rewrite (H k p Hk Hp). cbn [existsb]. rewrite orb_false_r. unfold in_block.
  pose proof (Z.mod_pos_bound (last_desc b - first_desc b) WZ_DMA_NOFBUFS eq_refl).
  replace (_ <? _) with ((k - first_desc b) mod WZ_DMA_NOFBUFS <=? (last_desc b - first_desc b) mod WZ_DMA_NOFBUFS);
    [reflexivity|].
  destruct (Z.leb_spec ((k - first_desc b) mod WZ_DMA_NOFBUFS) ((last_desc b - first_desc b) mod WZ_DMA_NOFBUFS));
    symmetry; [apply Z.ltb_lt|apply Z.ltb_ge]; lia.
Qed.

Lemma given_back_trans x b bs m1 m2 m3 :
  given_back x [b] m1 m2 -> given_back x bs m2 m3 -> given_back x (b :: bs) m1 m3.
Proof.
  intros H1 H2 k p Hk Hp. rewrite (H2 k p Hk Hp), (H1 k p Hk Hp). cbn [existsb].
  rewrite orb_false_r. destruct (in_block k b), (existsb (in_block k) bs); reflexivity.
Qed.

Lemma ring_shape_queue x q mem : ring_shape x mem -> ring_shape (with_queue x q) mem.
Proof. intros [[H1 H2 H3 H4 H5 H6] Hd Hi]. split; [split|exact Hd|exact Hi]; assumption. Qed.

Lemma ring_shape_given_back x bs mem mem' : ring_shape x mem -> given_back x bs mem mem' -> ring_shape x mem'.
Proof.
  intros [Hr Hd Hi] H. split; [exact Hr| |exact Hi]. intros k Hk.
  destruct (Hd k Hk) as (p & d & Hp & Hp0 & Hl). pose proof (H k p Hk Hp) as E.
  pose proof (ready_copy _ Hr) as (cs & Ecs & Hlc). destruct (existsb (in_block k) bs).
  - destruct (zlookup_is_Some cs k) as [c Hc]; [lia|]. exists p, c.
    split; [exact Hp|]. split; [exact Hp0|]. rewrite E, Ecs. exact Hc.
  - exists p, d. split; [exact Hp|]. split; [exact Hp0|]. rewrite E. exact Hl.
Qed.

Section Reader.
Context {bo : ByteOrder} {env : Env} {sched : Sched}.
Context (bdesc_at bconf_at node : Z) (fuel : nat).

(** the memory of the process as the driver sees it: copies to [bdesc] succeed,
    and [bconf] is what was stored there last *)
Class ProcessMemory : Prop := {
  pm_bdesc : forall h f l n, nth 0 (answer h copy_to_user [bdesc_at; f; l; n]) 0 = 0;
  pm_bconf : forall h, exists rest,
    answer h copy_from_user [bconf_at; 8] = 0 :: stored h bconf_at :: stored h (bconf_at + 4) :: rest
}.
Context {pm : ProcessMemory} (Hfuel : (128 <= fuel)%nat).

Lemma wp_driver {A} (m : prog world A) (Q : A -> process -> Prop) p :
  wp m (fun a w => Q a (p <| krn := w |>)) (krn p) -> wp (driver m) Q p.
Proof. unfold wp, driver. destruct (m (krn p)); exact id. Qed.

(** the node of the data stream, with a ring and an engine that runs *)
Record attached (w : world) : Prop := {
  att_node : exists ch, char_ready w node ch /\ lro_ready w ch;
  att_ring : ring_shape (wz_ext (eng w)) (coherent w);
  att_running : running (eng w) <> 0
}.

Lemma wp_ioctl_fm cmd arg (m : prog world Z) p (Q : Z -> process -> Prop) :
  attached (krn p) ->
  (forall ch, char_ready (krn p) node ch -> lro_ready (krn p) ch ->
     char_sgdma_ioctl fuel node cmd arg
     = (ch <- check_char node ;; check_lro ch ;; m)) ->
  wp m (fun rc w => Q (sys_result rc) (p <| krn := w |>)) (krn p) ->
  wp (ioctl_fm node fuel cmd arg) Q p.
Proof.
  intros [(ch & Hc & Hl) _ _] Em HQ. unfold ioctl_fm. apply wp_bind, wp_driver. rewrite (Em ch Hc Hl).
  apply wp_bind, (wp_check_char _ _ ch); [exact Hc|]. apply wp_bind, (wp_check_lro _ ch); [exact Hl|].
  eapply wp_conseq; [exact HQ|]. intros rc w H. apply wp_ret, H.
Qed.

(** the process after it has taken and given back [b] *)
Definition took (check : wz_xdma_data_block_desc -> Z * list report) (b : wz_xdma_data_block_desc)
    (q : list wz_xdma_data_block_desc) (p p' : process) : Prop :=
  (exists tr mem, krn p' = (krn p) <| trace := tr |> <| coherent := mem |>
      <| eng -> wz_ext := with_queue (wz_ext (eng (krn p))) q |> /\
    given_back (wz_ext (eng (krn p))) [b] (coherent (krn p)) mem) /\
  first p' = (if first p =? 1 then 0 else first p) /\
  tot_len p' = s64 (tot_len p + if first p =? 1 then 0 else fst (check b)) /\
  reports p' = (reports p ++ if first p =? 1 then [] else snd (check b))%list.

Lemma wp_getbuf p b q (Q : Z -> process -> Prop) :
  attached (krn p) -> kfifo (wz_ext (eng (krn p))) = b :: q ->
  (forall p' tr, p' = p <| krn := (krn p) <| trace := tr |> <| eng -> wz_ext := with_queue (wz_ext (eng (krn p))) q |> |> ->
     copied bdesc_at tr = b -> attached (krn p') -> Q 0 p') ->
  wp (ioctl_fm node fuel IOCTL_XDMA_WZ_GETBUF bdesc_at) Q p.
Proof using pm.
  intros Ha Hk HQ. apply (wp_ioctl_fm _ _ (ioctl_do_wz_getbuf bdesc_at)); [exact Ha|reflexivity|].
  eapply wp_conseq; [apply (getbuf_ok bdesc_at _ b q (att_running _ Ha) Hk)|].
  intros rc w (r & Er & -> & ->).
  assert (nz (nth 0 r 0) = false) as E0 by (rewrite Er, pm_bdesc; reflexivity). rewrite E0.
  eapply HQ; [reflexivity| |].
  - cbn [copied]. rewrite Z.eqb_refl, E0. destruct b; reflexivity.
  - destruct Ha as [(ch & H1 & H2) H3 H4]. split; [exists ch; split; [exact H1|exact H2]| |exact H4].
    apply ring_shape_queue, H3.
Qed.

Lemma wp_confirm p b (Q : Z -> process -> Prop) :
  attached (krn p) -> block_on_ring b ->
  stored (trace (krn p)) bconf_at = first_desc b -> stored (trace (krn p)) (bconf_at + 4) = last_desc b ->
  (forall p' tr mem, p' = p <| krn := (krn p) <| trace := tr |> <| coherent := mem |> |> ->
     given_back (wz_ext (eng (krn p))) [b] (coherent (krn p)) mem -> attached (krn p') -> Q 0 p') ->
  wp (ioctl_fm node fuel IOCTL_XDMA_WZ_CONFIRM bconf_at) Q p.
Proof using pm Hfuel.
  intros Ha [Hf Hl] Ef El HQ. apply (wp_ioctl_fm _ _ (ioctl_do_wz_confirm fuel bconf_at)); [exact Ha|reflexivity|].
  unfold ioctl_do_wz_confirm. apply wp_bind, wp_ext_all. change (trace_of (krn p)) with (trace (krn p)).
  destruct (pm_bconf (trace (krn p))) as [rest ->]. rewrite Ef, El. cbn [nth]. change (nz 0) with false. cbv iota.
  pose proof Hf as Hf'. pose proof Hl as Hl'. unfold on_ring, WZ_DMA_NOFBUFS in Hf', Hl'.
  rewrite (s32_u32_small (first_desc b)), (u32_small (last_desc b)) by lia.
  destruct Ha as [(ch & H1 & H2) H3 H4].
  eapply wp_conseq; [apply confirm_entries; assumption|]. intros rc w (-> & mem & -> & Hm).
  apply confirmed_given_back in Hm.
  eapply (HQ _ _ mem); [reflexivity|exact Hm|]. split; [exists ch; split; [exact H1|exact H2]| |exact H4].
  exact (ring_shape_given_back _ _ _ _ H3 Hm).
Qed.

Lemma wp_look_at check b p (Q : Z -> process -> Prop) :
  (forall p', p' = p <| first := if first p =? 1 then 0 else first p |>
       <| reports := (reports p ++ if first p =? 1 then [] else snd (check b))%list |> ->
     Q (if first p =? 1 then 0 else fst (check b)) p') ->
  wp (look_at check b) Q p.
Proof.
  intros HQ. unfold look_at. apply wp_bind, wp_gets. destruct (first p =? 1) eqn:E.
  - apply wp_bind, wp_modify, wp_ret, HQ. rewrite app_nil_r. destruct p; reflexivity.
  - destruct (check b) as [c l]. apply wp_bind, wp_modify, wp_ret, HQ. destruct p; reflexivity.
Qed.

Lemma wp_turn check p b q :
  attached (krn p) -> kfifo (wz_ext (eng (krn p))) = b :: q -> block_on_ring b ->
  wp (turn bdesc_at bconf_at node fuel check) (fun r p' =>
    r = None /\ took check b q p p' /\ attached (krn p')) p.
Proof using pm Hfuel.
  intros Ha Hk Hb. unfold turn. apply wp_bind, (wp_getbuf p b q); [exact Ha|exact Hk|].
  intros p1 tr E1 Eb Ha1. change (0 <? 0) with false. cbv iota. apply wp_bind, wp_gets.
  assert (copied bdesc_at (trace (krn p1)) = b) as -> by (rewrite E1; exact Eb).
  apply wp_bind, wp_look_at. intros p2 E2.
  apply wp_bind, wp_ext_, wp_bind, wp_ext_, wp_bind, wp_modify, wp_bind.
  set (cur_len := if first p1 =? 1 then 0 else fst (check b)). set (p3 := _ <| tot_len ::= _ |>).
  assert (attached (krn p3)) as Ha3.
  { destruct Ha1 as [(ch & H1 & H2) H3 H4]. unfold p3. rewrite E2.
    split; [exists ch; split; [exact H1|exact H2]|exact H3|exact H4]. }
  apply (wp_confirm p3 b); [exact Ha3|exact Hb| | |].
  { cbn. destruct (Z.eqb_spec (bconf_at + 4) bconf_at); [lia|]. rewrite Z.eqb_refl. reflexivity. }
  { cbn. rewrite Z.eqb_refl. reflexivity. }
  intros p4 tr4 mem E4 Hg Ha4. change (0 <? 0) with false. cbv iota.
  apply wp_bind, wp_gets, wp_bind, wp_gets, wp_bind.
  assert (krn p3 = (krn p) <| trace := trace (krn p3) |> <| eng -> wz_ext := with_queue (wz_ext (eng (krn p))) q |>) as Ek3.
  { unfold p3. rewrite E2, E1. reflexivity. }
  rewrite Ek3 in Hg. change (given_back (with_queue (wz_ext (eng (krn p))) q) [b] (coherent (krn p)) mem) in Hg.
  assert (first p1 = first p /\ reports p1 = reports p /\ tot_len p1 = tot_len p) as (F1 & F2 & F3)
    by (rewrite E1; repeat split).
  assert (took check b q p p4) as Ht.
  { split; [exists tr4, mem; split; [rewrite E4; cbn [krn]; rewrite Ek3; reflexivity|exact Hg]|].
    rewrite E4. unfold p3. rewrite E2, <- F1, <- F2, <- F3. repeat split. }
  apply wp_when; intros _; [apply wp_bind, wp_ext_, wp_modify|]; apply wp_ret; (split; [reflexivity|]).
  - split; [|destruct Ha4 as [(ch & H1 & H2) H3 H4]; split; [exists ch; split; [exact H1|exact H2]|exact H3|exact H4]].
    destruct Ht as ((t & m & Ek & Hm) & Ht). split; [|exact Ht]. exists (Call clock_gettime [] [] :: t), m.
    split; [|exact Hm]. cbn. rewrite Ek. reflexivity.
  - split; [exact Ht|exact Ha4].
Qed.

(** what the turns add to the account: the first block may be left out *)
Definition account (check : wz_xdma_data_block_desc -> Z * list report) (f : Z)
    (bs : list wz_xdma_data_block_desc) : list (Z * list report) :=
  match bs with
  | [] => []
  | b :: bs' => (if f =? 1 then (0, []) else check b) :: map check bs'
  end.

Lemma account_later check f bs : f <> 1 -> account check f bs = map check bs.
Proof. intros H. destruct bs as [|b bs]; [reflexivity|]. cbn. destruct (Z.eqb_spec f 1); [contradiction|reflexivity]. Qed.

(** the process after it has taken and given back all of [bs] *)
Definition took_all (check : wz_xdma_data_block_desc -> Z * list report)
    (bs q : list wz_xdma_data_block_desc) (p p' : process) : Prop :=
  wz_ext (eng (krn p')) = with_queue (wz_ext (eng (krn p))) q /\
  given_back (wz_ext (eng (krn p))) bs (coherent (krn p)) (coherent (krn p')) /\
  tot_len p' = foldl (fun t c => s64 (t + fst c)) (tot_len p) (account check (first p) bs) /\
  reports p' = (reports p ++ mjoin (map snd (account check (first p) bs)))%list.

Lemma took_all_cons check b bs q p p1 p2 :
  took check b (bs ++ q) p p1 -> took_all check bs q p1 p2 -> took_all check (b :: bs) q p p2.
Proof.
  intros ((tr & mem & Ek & Hg) & Ef & Et & Er) (Hx & Hg2 & Ht2 & Hr2). unfold took_all.
  assert (first p1 <> 1) as Hf1 by (rewrite Ef; destruct (Z.eqb_spec (first p) 1); lia).
  rewrite (account_later _ _ _ Hf1) in Ht2, Hr2.
  assert (wz_ext (eng (krn p1)) = with_queue (wz_ext (eng (krn p))) (bs ++ q)) as Ex by (rewrite Ek; reflexivity).
  assert (coherent (krn p1) = mem) as Em by (rewrite Ek; reflexivity).
  rewrite Ex in Hx, Hg2. rewrite Em in Hg2. split; [rewrite Hx; reflexivity|].
  split; [eapply given_back_trans; [exact Hg|exact Hg2]|]. rewrite Ht2, Hr2, Et, Er. cbn [account foldl map concat].
  destruct (first p =? 1); cbn [fst snd]; (split; [reflexivity|rewrite <- app_assoc; reflexivity]).
Qed.

(** C17: A test program that runs as many turns of its loop as blocks are queued
    takes them in order and gives each back: no call fails, the queue holds what
    was behind them, exactly the descriptors of these blocks are those the ring
    was built with again, and the bytes and the reports of all blocks but the
    first one of the process are added up. *)
Theorem reader_drains_the_queue check bs : forall q p,
  attached (krn p) -> kfifo (wz_ext (eng (krn p))) = (bs ++ q)%list -> Forall block_on_ring bs ->
  wp (for_exit 0 (Z.of_nat (length bs)) (fun _ => turn bdesc_at bconf_at node fuel check)) (fun r p' =>
    r = None /\ took_all check bs q p p' /\ attached (krn p')) p.
Proof using pm Hfuel.
  unfold for_exit. rewrite Z.sub_0_r, Nat2Z.id. generalize 0 as i.
  induction bs as [|b bs IH]; intros i q p Ha Hk Hb.
  - apply wp_ret. split; [reflexivity|]. split; [|exact Ha]. unfold took_all. cbn [account foldl map].
    split; [rewrite <- (app_nil_l q), <- Hk; destruct (wz_ext (eng (krn p))); reflexivity|].
    split; [|split; [reflexivity|symmetry; apply app_nil_r]].
    intros k d _ _. reflexivity.
  - apply Forall_cons in Hb as [Hb Hbs]. cbn [length]. rewrite for_exit_from_S. apply wp_bind.
    eapply wp_conseq; [exact (wp_turn check p b (bs ++ q) Ha Hk Hb)|]. intros r p1 (-> & Ht & Ha1).
    eapply wp_conseq; [apply (IH (i + 1) q p1 Ha1); [|exact Hbs]|].
    + destruct Ht as ((tr & mem & -> & _) & _). reflexivity.
    + intros r p2 (-> & Ht2 & Ha2). split; [reflexivity|]. split; [exact (took_all_cons _ _ _ _ _ _ _ Ht Ht2)|exact Ha2].
Qed.
End Reader.
