(* ===== verification/DataFacts.v ===== *)
(** * Reading and writing data: chunks, the file position, alignment *)
From Stdlib Require Import List.
From S2P Require Import Prelude Layout Kernel World Desc Engine Sgm Transfer Wz Service RxRing CharDev CharCtrl.
#[local] Open Scope list_scope.
#[local] Open Scope Z_scope.
Ltac wp_hook ::= wp_engine.

(** ** Register accesses and the queue end *)
Section Halting.
Context {bo : ByteOrder} {env : Env} {sched : Sched}.

Lemma halts_write_er m v : halts (write_er m v).
Proof. unfold write_er. halts_tac. Qed.
Lemma halts_read_er m : halts (read_er m).
Proof. unfold read_er. halts_tac. Qed.
Lemma halts_write_sg m v : halts (write_sg m v).
Proof. unfold write_sg. halts_tac. Qed.
Lemma halts_read_ir m : halts (read_ir m).
Proof. unfold read_ir. halts_tac. Qed.
#[local] Hint Resolve halts_write_er halts_read_er halts_write_sg halts_read_ir : halts.

Lemma halts_engine_start : halts engine_start.
Proof. unfold engine_start, first_transfer, engine_start_mode_config. halts_tac. Qed.
#[local] Hint Resolve halts_engine_start : halts.
Lemma halts_transfer_queue t : halts (transfer_queue t).
Proof. unfold transfer_queue, chain_transfers. halts_tac. Qed.

Lemma halts_engine_status_read c : halts (engine_status_read c).
Proof. unfold engine_status_read. halts_tac. Qed.
Lemma halts_read_interrupts : halts read_interrupts.
Proof. unfold read_interrupts. halts_tac. Qed.
End Halting.
#[export] Hint Resolve halts_write_er halts_read_er halts_write_sg halts_read_ir
  halts_transfer_queue halts_engine_status_read
  halts_read_interrupts : halts.

(** ** A request in chunks *)
Section Data.
Context {bo : ByteOrder} {env : Env} {sched : Sched}.

Definition request : Type := Z * Z * Z * Z.
Definition rq_remaining (v : request) : Z := fst (fst (fst v)).

Lemma chunk_range remaining : 0 < remaining -> 0 < chunk remaining <= remaining.
Proof. unfold chunk, XDMA_TRANSFER_MAX_BYTES. destruct (Z.ltb_spec (2048 * 4096) remaining); lia. Qed.

(** the turns that are left *)
Definition turns (remaining : Z) : nat :=
  if 0 <? remaining then S (Z.to_nat (remaining / XDMA_TRANSFER_MAX_BYTES)) else O.

Lemma turns_chunk remaining : 0 < remaining ->
  (turns (remaining - chunk remaining) < turns remaining)%nat.
Proof.
  intros H. unfold turns, chunk. rewrite (proj2 (Z.ltb_lt _ _) H).
  set (M := XDMA_TRANSFER_MAX_BYTES). assert (HM : 0 < M) by reflexivity.
  destruct (Z.ltb_spec M remaining).
  - replace (remaining / M) with ((remaining - M) / M + 1).
    + rewrite (proj2 (Z.ltb_lt 0 (remaining - M))) by lia.
      pose proof (Z.div_pos (remaining - M) M). lia.
    + rewrite <- (Z.div_add (remaining - M) 1 M) by lia. f_equal. lia.
  - rewrite Z.sub_diag. change (0 <? 0) with false. cbv iota. apply Nat.lt_0_succ.
Qed.

Lemma turns_fuel remaining : (turns remaining < data_fuel remaining)%nat.
Proof.
  unfold turns, data_fuel. assert (HM : 0 < XDMA_TRANSFER_MAX_BYTES) by reflexivity.
  pose proof (Z.div_pos (Z.max 0 remaining) XDMA_TRANSFER_MAX_BYTES).
  destruct (Z.ltb_spec 0 remaining); [rewrite Z.max_r in * by lia|]; lia.
Qed.

(** ** Alignment *)

Lemma land_pred a v : 0 <= a -> Z.land v (2 ^ a - 1) = v mod 2 ^ a.
Proof.
  intros Ha. rewrite <- Z.land_ones by lia. rewrite Z.ones_equiv, Z.sub_1_r. reflexivity.
Qed.

Lemma mod_pow_pow a b v : 0 <= a <= b -> (v mod 2 ^ b) mod 2 ^ a = v mod 2 ^ a.
Proof.
  intros H. apply Z.mod_mod_divide.
  exists (2 ^ (b - a)). rewrite <- Z.pow_add_r by lia. f_equal. lia.
Qed.

Lemma s32_u32_low a v : 0 <= a <= 31 -> s32 (u32 v) mod 2 ^ a = v mod 2 ^ a.
Proof.
  intros Ha. unfold s32, u32.
  assert (H0 : 2 ^ 31 mod 2 ^ a = 0)
    by (rewrite <- (mod_pow_pow a 31), Z.mod_same by lia; apply Z.mod_0_l; lia).
  rewrite Zminus_mod, H0, Z.sub_0_r, Z.mod_mod, mod_pow_pow, Zplus_mod, H0, Z.add_0_r, Z.mod_mod,
    mod_pow_pow by lia. reflexivity.
Qed.

(** on an engine whose alignment and granularity are powers of two, a
    request is accepted exactly when it is aligned: for a streaming or
    fixed-address engine the buffer, the length and (fixed address, not
    asynchronous) the position are multiples, otherwise the buffer and the
    position have the same offset; every other request is [-EINVAL]. *)
Lemma check_transfer_align_spec a g buf count pos sync w :
  addr_align (eng w) = 2 ^ a -> len_granularity (eng w) = 2 ^ g ->
  0 <= a <= 31 -> 0 <= g <= 31 ->
  let aligned :=
    if nz (streaming (eng w)) || nz (non_incr_addr (eng w)) then
      buf mod 2 ^ a = 0 /\ count mod 2 ^ g = 0 /\
      (streaming (eng w) <> 0 \/ sync = 0 \/ pos mod 2 ^ a = 0)
    else buf mod 2 ^ a = pos mod 2 ^ a in
  exists rc, check_transfer_align buf count pos sync w = Ok rc w /\
    (aligned /\ rc = 0 \/ ~ aligned /\ rc = - EINVAL).
Proof.
  intros Ha Hg Ra Rg aligned. subst aligned.
  assert (H : wp (check_transfer_align buf count pos sync) (fun rc w' => w' = w /\
    ((if nz (streaming (eng w)) || nz (non_incr_addr (eng w)) then
      buf mod 2 ^ a = 0 /\ count mod 2 ^ g = 0 /\
      (streaming (eng w) <> 0 \/ sync = 0 \/ pos mod 2 ^ a = 0)
      else buf mod 2 ^ a = pos mod 2 ^ a) /\ rc = 0 \/
     ~ (if nz (streaming (eng w)) || nz (non_incr_addr (eng w)) then
      buf mod 2 ^ a = 0 /\ count mod 2 ^ g = 0 /\
      (streaming (eng w) <> 0 \/ sync = 0 \/ pos mod 2 ^ a = 0)
      else buf mod 2 ^ a = pos mod 2 ^ a) /\ rc = - EINVAL)) w).
  { unfold check_transfer_align. do 8 wp_step. rewrite Ha, Hg. cbv zeta.
    rewrite !land_pred, !s32_u32_low by lia.
    assert (0 < 2 ^ g <= 2 ^ 31) by (split; [apply Z.pow_pos_nonneg; lia|apply Z.pow_le_mono_r; lia]).
    unfold u64. rewrite (Z.mod_small (2 ^ g - 1)) by lia. rewrite land_pred by lia.
    destruct (nz (streaming (eng w)) || nz (non_incr_addr (eng w))).
    - unfold nz. repeat (match goal with |- context [Z.eqb ?x 0] => destruct (Z.eqb_spec x 0) end; cbn [negb andb]);
        apply wp_ret; split; try reflexivity; intuition congruence.
    - destruct (Z.eqb_spec (buf mod 2 ^ a) (pos mod 2 ^ a)); cbn [negb]; apply wp_ret; auto. }
  apply wp_ok in H as (rc & w' & E & -> & HR). exists rc. split; [exact E|exact HR].
Qed.
End Data.
