(* ===== verification/RunFacts.v ===== *)
(** * Polling to an end, and requests that crash or lock up an engine *)
From Stdlib Require Import List.
From S2P Require Import Prelude Layout Kernel World Desc Engine Sgm Transfer Wz Service RxRing CharDev.
#[local] Open Scope list_scope.
#[local] Open Scope Z_scope.
Ltac wp_hook ::= wp_engine.

Section Run.
Context {bo : ByteOrder} {env : Env} {sched : Sched}.

(** ** Runs that abort *)

Lemma bind_abort {S A B} (m : prog S A) (f : A -> prog S B) s r :
  m s = Abort r -> bind m f s = Abort r.
Proof. unfold bind. intros ->. reflexivity. Qed.

Lemma spin_lock_ok w : lock (eng w) = false -> spin_lock w = Ok tt (w <| eng -> lock := true |>).
Proof. intros H. unfold spin_lock, bind, getE, gets. rewrite H. reflexivity. Qed.

Ltac ok_step m a w := rewrite (bind_ok (S := world) m _ w a w eq_refl).

Ltac step_ok := match goal with |- bind ?m ?f ?w = _ => rewrite (bind_ok m f w _ _ eq_refl) end.

(** ** The write-back monitor *)

(** the value a poll ends with is final for [expected] *)
Definition wb_final (expected wb : Z) : Prop :=
  wb = expected \/ nz (Z.land wb WB_ERR_MASK) = true \/ Z.land wb WB_COUNT_MASK <= expected.

(** the word that was read last *)
Fixpoint last_word (h : history) : Z :=
  match h with
  | [] => 0
  | e :: h' => if extern_eqb (ev_fn e) poll_mode_wb then u32 (nth 0 (ev_ret e) 0) else last_word h'
  end.

(** it is a word the device wrote at [a] *)
Definition polled_word (a word : Z) : Prop :=
  exists h, word = u32 (nth 0 (answer h poll_mode_wb [a]) 0).

(** what the poll makes of the last word *)
Definition wb_verdict (expected word wb : Z) : Prop :=
  (nz (Z.land word WB_ERR_MASK) = true \/ word = expected) /\ wb = word \/
  wb = (if expected <? Z.land word WB_COUNT_MASK then Z.lor expected WB_ERR_MASK else word).

Lemma expected_err expected : nz (Z.land (Z.lor expected WB_ERR_MASK) WB_ERR_MASK) = true.
Proof.
  apply nz_true. intros H. assert (Hb : Z.testbit (Z.land (Z.lor expected WB_ERR_MASK) WB_ERR_MASK) 31 = true).
  { rewrite Z.land_spec, Z.lor_spec. change (Z.testbit WB_ERR_MASK 31) with true.
    rewrite orb_true_r. reflexivity. }
  rewrite H in Hb. discriminate Hb.
Qed.

Lemma verdict_final expected word wb : wb_verdict expected word wb -> wb_final expected wb.
Proof.
  intros [[[H|H] ->]| ->]; [right; left; exact H|left; exact H|].
  destruct (Z.ltb_spec expected (Z.land word WB_COUNT_MASK)); [right; left; apply expected_err|right; right; assumption].
Qed.

Section Monitor.
Context (expected timeout : Z) (n0 B : nat) (a : Z).
Context (Hclock : forall h, (n0 + B <= length h <= n0 + 4 * B + 4)%nat ->
  time_after (u64 (nth 0 (answer h jiffies []) 0)) timeout = true).

Lemma wb_monitor_ends m : forall v w fuel,
  poll_mode_addr_virt (eng w) = a -> a <> 0 ->
  (n0 + B <= length (trace w) + 2 * m)%nat -> (length (trace w) + 3 * m < n0 + 4 * B + 4)%nat -> (m < fuel)%nat ->
  wp (loop fuel (wb_monitor_one expected timeout) v) (fun wb w' => exists h,
    w' = w <| trace := (h ++ trace w)%list |> /\
      polled_word a (last_word (trace w')) /\ wb_verdict expected (last_word (trace w')) wb) w.
Proof using Hclock.
  induction m as [|m IH]; intros [v sched_limit] w fuel Ha Hn Hm Hm' Hf;
    (destruct fuel as [|fuel]; [lia|]); rewrite loop_S; wp_step; unfold wb_monitor_one, read_writeback;
    wp_step; wp_step; wp_step; rewrite Ha, (proj2 (Z.eqb_neq _ _) Hn);
    wp_step; wp_step; wp_step;
    (destruct (nz (Z.land _ WB_ERR_MASK)) eqn:Ee;
     [wp_step; wp_step; eexists [_]; split; [reflexivity|]; split; [eexists; reflexivity|left; split; [left; exact Ee|reflexivity]]|]);
    (match goal with |- context [?x =? expected] => destruct (Z.eqb_spec x expected) as [E|E] end;
     [wp_step; wp_step; eexists [_]; split; [reflexivity|]; split; [eexists; reflexivity|left; split; [right; exact E|reflexivity]]|]);
    wp_step; wp_step;
    match goal with |- wp (if time_after (u64 (nth 0 (answer ?h _ _) 0)) _ then _ else _) _ _ =>
      pose proof (Hclock h) as Ht end.
  - rewrite Ht by (cbn; lia). wp_step. wp_step.
    eexists [_; _]. split; [reflexivity|]; split; [eexists; reflexivity|right; reflexivity].
  - destruct (time_after _ _).
    + wp_step. wp_step. eexists [_; _]. split; [reflexivity|]; split; [eexists; reflexivity|right; reflexivity].
    + wp_step. match goal with |- wp _ _ ?st => set (w2 := st) end.
      assert (Hrun : forall w3, (exists g, w3 = w2 <| trace := (g ++ trace w2)%list |> /\ (length g <= 1)%nat) ->
        wp (loop fuel (wb_monitor_one expected timeout)
             (u32 (nth 0 (answer (trace w) poll_mode_wb [a]) 0), u32 (sched_limit + 1)))
          (fun wb w' => exists h, w' = w <| trace := (h ++ trace w)%list |> /\
            polled_word a (last_word (trace w')) /\ wb_verdict expected (last_word (trace w')) wb) w3).
      { intros w3 (g & -> & Hl). eapply wp_conseq.
        - apply IH; [exact Ha|exact Hn|cbn; rewrite length_app; cbn; lia..|lia].
        - intros wb w4 (h & -> & Hv). exists (h ++ g ++ [Call jiffies [] (answer (Call poll_mode_wb [a] (answer (trace w) poll_mode_wb [a]) :: trace w) jiffies []);
              Call poll_mode_wb [a] (answer (trace w) poll_mode_wb [a])])%list.
          split; [|exact Hv]. cbn. rewrite <- !app_assoc. reflexivity. }
      wp_step; wp_step; try wp_step; apply Hrun; [eexists [_]|eexists []]; (split; [reflexivity|cbn; lia]).
Qed.
End Monitor.

(** the polling with a clock that moves past the time limit within [B] calls,
    as long as it is looked at *)
Lemma wb_monitor_run hz expected B w fuel :
  poll_mode_addr_virt (eng w) <> 0 -> expected <> 0 -> (B < fuel)%nat ->
  (forall h, (length (trace w) + B <= length h <= length (trace w) + 4 * B + 4)%nat ->
     time_after (u64 (nth 0 (answer h jiffies []) 0))
       (u64 (nth 0 (answer (trace w) jiffies []) 0 + POLL_TIMEOUT_SECONDS * hz)) = true) ->
  wp (engine_service_wb_monitor hz fuel expected) (fun wb w' => exists h,
    w' = w <| trace := (h ++ trace w)%list |> /\
    polled_word (poll_mode_addr_virt (eng w)) (last_word (trace w')) /\
    wb_verdict expected (last_word (trace w')) wb) w.
Proof.
  intros Ha He Hf Hclock. unfold engine_service_wb_monitor.
  wp_step. wp_step. cbv zeta. rewrite (proj2 (Z.eqb_neq _ _) He).
  eapply wp_conseq.
  - apply (wb_monitor_ends expected _ (length (trace w)) B (poll_mode_addr_virt (eng w)) Hclock B);
      [reflexivity|exact Ha|cbn; lia|cbn; lia|exact Hf].
  - intros wb w' (h & -> & Hv). exists (h ++ [Call jiffies [] (answer (trace w) jiffies [])])%list.
    split; [|exact Hv]. cbn. rewrite <- app_assoc. reflexivity.
Qed.

(** C40: when the clock moves past the time limit within [B] calls, the
    polling of the write-back word ends, whatever the device writes: with the
    expected count, an error, or, after the time limit, a count that is not
    beyond the expected one. *)
Theorem wb_monitor_times_out hz expected B w :
  poll_mode_addr_virt (eng w) <> 0 -> expected <> 0 ->
  (forall h, (length (trace w) + B <= length h)%nat ->
     time_after (u64 (nth 0 (answer h jiffies []) 0))
       (u64 (nth 0 (answer (trace w) jiffies []) 0 + POLL_TIMEOUT_SECONDS * hz)) = true) ->
  forall fuel, (B < fuel)%nat ->
  wp (engine_service_wb_monitor hz fuel expected) (fun wb w' =>
    wb_final expected wb /\ exists tr, w' = w <| trace := tr |>) w.
Proof.
  intros Ha He Hclock fuel Hf. eapply wp_conseq.
  - apply (wb_monitor_run hz expected B); [exact Ha|exact He|exact Hf|]. intros h Hh. apply Hclock. lia.
  - intros wb w' (h & -> & Hv). split; [eapply verdict_final, (proj2 Hv)|]. eexists. reflexivity.
Qed.

(** ** The service of an engine without a ring *)

(** the interrupt handler of an engine always looks at the ring of the
    cyclic extension: an interrupt of an engine on which that was not started,
    as one that serves plain reads and writes, accesses a null pointer. *)
Lemma service_work_without_ring w fuel :
  poll_mode = false -> magic (eng w) = MAGIC_ENGINE -> lock (eng w) = false ->
  block_scanned_desc (wz_ext (eng w)) = 0 -> zlookup (desc (wz_ext (eng w))) 0 = Some dnull ->
  coherent w !! 0 = None -> (0 < fuel)%nat ->
  engine_service_work fuel w = Abort BadAccess.
Proof.
  intros Hp Hm Hl Hb Hd Hc Hf. unfold engine_service_work.
  ok_step (getE magic) (magic (eng w)) w. rewrite Hm.
  ok_step (@BUG_ON world (negb (MAGIC_ENGINE =? MAGIC_ENGINE))) tt w.
  rewrite (bind_ok _ _ _ _ _ (spin_lock_ok w Hl)).
  set (w1 := w <| eng -> lock := true |>). apply bind_abort.
  unfold engine_service_cyclic. ok_step (getE magic) (magic (eng w)) w1. rewrite Hm.
  ok_step (@BUG_ON world (negb (MAGIC_ENGINE =? MAGIC_ENGINE))) tt w1. rewrite Hp.
  unfold wz_engine_service_cyclic_interrupt. ok_step (getE magic) (magic (eng w)) w1. rewrite Hm.
  ok_step (@BUG_ON world (negb (MAGIC_ENGINE =? MAGIC_ENGINE))) tt w1.
  destruct (engine_status_read true w1) as [v w2|] eqn:E2; [|discriminate E2].
  rewrite (bind_ok _ _ _ _ _ E2). injection E2 as _ <-. apply bind_abort. unfold wz_scan.
  match goal with |- _ ?st = _ => set (w2 := st) end.
  ok_step (getX block_scanned_desc) (block_scanned_desc (wz_ext (eng w))) w2. rewrite Hb.
  destruct fuel as [|fuel]; [lia|]. rewrite loop_S. apply bind_abort. unfold wz_scan_one.
  ok_step (getX desc) (desc (wz_ext (eng w))) w2.
  rewrite (bind_ok (index (desc (wz_ext (eng w))) 0) _ w2 dnull w2)
    by (unfold index, deref; rewrite Hd; reflexivity).
  apply bind_abort. unfold getD, deref, lookup_mem. cbn [fst dnull].
  change (coherent w2) with (coherent w). rewrite Hc. reflexivity.
Qed.

(** ** Performance measurement *)

(** a measurement whose transfer size is more than 4 MB, a number that
    comes straight from the user, runs into a [BUG_ON]. *)
Lemma perf_start_with_a_large_size_is_a_bug w arg size rest :
  xdma_perf (eng w) = None ->
  (forall h, nth 0 (answer h kzalloc []) 0 <> 0) ->
  (forall h, answer h copy_from_user [arg; sizeof_perf] = 0 :: IOCTL_XDMA_PERF_V1 :: size :: rest) ->
  128 * 32 * 1024 < size < 2 ^ 32 ->
  ioctl_do_perf_start arg w = Abort BugOn.
Proof.
  intros Hx Hk Hu Hs. unfold ioctl_do_perf_start.
  ok_step (getE xdma_perf) (xdma_perf (eng w)) w. rewrite Hx.
  change (bool_decide (is_Some None)) with false. cbv iota.
  step_ok. rewrite (proj2 (Z.eqb_neq _ _) (Hk _)). step_ok. rewrite Hu. cbv zeta.
  set (q := perf_from_user _). step_ok. change (s32 (u32 (nth 0 _ 0)) <? 0) with false.
  change (negb (version q =? IOCTL_XDMA_PERF_V1)) with false. cbv iota.
  do 4 step_ok. apply bind_abort. unfold xdma_performance_submit. cbv zeta. step_ok.
  match goal with |- bind _ _ ?st = _ => set (w1 := st) end. change (xdma_perf (eng w1)) with (Some q).
  ok_step (@deref world _ (fun _ => Some q)) q w1.
  apply bind_abort. unfold BUG_ON.
  assert (E : u32 (s32 (transfer_size q)) = size).
  { unfold q, perf_from_user, s32, u32. cbn [nth transfer_size]. rewrite (Z.mod_small size) by lia.
    rewrite Zminus_mod_idemp_l. rewrite Z.add_simpl_r. apply Z.mod_small. lia. }
  rewrite E, (proj2 (Z.ltb_lt _ _)) by lia. reflexivity.
Qed.

(** a measurement started with a version the driver does not know is
    refused with [-EINVAL], but the engine keeps its record: every later start
    is refused with [-EBUSY]. *)
Lemma perf_start_with_a_bad_version_blocks_the_engine w arg arg' v rest :
  xdma_perf (eng w) = None ->
  (forall h, nth 0 (answer h kzalloc []) 0 <> 0) ->
  (forall h, answer h copy_from_user [arg; sizeof_perf] = 0 :: v :: rest) ->
  is_u32 v -> v <> IOCTL_XDMA_PERF_V1 ->
  wp (ioctl_do_perf_start arg) (fun rc w' => rc = - EINVAL /\
    ioctl_do_perf_start arg' w' = Ok (- EBUSY) w') w.
Proof.
  intros Hx Hk Hu Hv Hne. unfold ioctl_do_perf_start at 1.
  wp_step. wp_step. rewrite Hx. change (bool_decide (is_Some None)) with false. cbv iota.
  wp_step. wp_step. rewrite (proj2 (Z.eqb_neq _ _) (Hk _)). wp_step. wp_step. rewrite Hu.
  wp_step. wp_step. change (s32 (u32 (nth 0 _ 0)) <? 0) with false. cbv iota.
  replace (version _ =? IOCTL_XDMA_PERF_V1) with false.
  - cbn [negb]. wp_step. split; reflexivity.
  - symmetry. apply Z.eqb_neq. unfold perf_from_user, u32. cbn [nth version].
    rewrite Z.mod_small by exact Hv. exact Hne.
Qed.
End Run.
