(* ===== verification/PolledDma.v ===== *)
(** * Reads and writes of a polled engine

    A request is cut into chunks, each of them a transfer that the engine is
    started on and whose write-back word the driver polls: the parts of
    [UserDma], [ServiceFacts] and [RunFacts] composed to the call of the
    process, with the device and the clock as the class [PolledEngine]. *)
From Stdlib Require Import List.
From S2P Require Import Prelude Layout Kernel World Desc Engine EngineFacts Sgm Transfer TransferFacts UserDma.
From S2P Require Import Wz Service ServiceFacts RxRing CharDev RunFacts DataFacts.
#[local] Open Scope list_scope.
#[local] Open Scope Z_scope.
Ltac wp_hook ::= wp_engine.

(** ** Calls that do not poll *)

Definition quiet (h : history) : Prop := Forall (fun e => ev_fn e <> poll_mode_wb) h.

Lemma last_word_quiet h tr : quiet h -> last_word (h ++ tr) = last_word tr.
Proof.
  induction 1 as [|e h He _ IH]; [reflexivity|]. cbn [app last_word].
  destruct (extern_eqb (ev_fn e) poll_mode_wb) eqn:E; [|exact IH].
  apply extern_eqb_eq in E. contradiction.
Qed.

Section Polled.
Context {bo : ByteOrder} {env : Env} {sched : Sched}.
Context (hz : Z) (fuel B : nat) (er a dir ni : Z).

(** The device in poll mode, its engine's registers at [er], its write-back at
    [a].  The word it writes back has no error flag, its status register none
    either, and an engine that wrote back no descriptor counts none in its
    register.  The clock moves past the time limit of a poll within [B] calls. *)
Class PolledEngine : Prop := {
  pe_poll : poll_mode = true;
  pe_address : a <> 0;
  pe_fuel : (B < fuel)%nat;
  pe_clock h0 h : (length h0 + B <= length h <= length h0 + 4 * B + 4)%nat ->
    time_after (u64 (nth 0 (answer h jiffies []) 0))
      (u64 (nth 0 (answer h0 jiffies []) 0 + POLL_TIMEOUT_SECONDS * hz)) = true;
  pe_word h : Z.land (u32 (nth 0 (answer h poll_mode_wb [a]) 0)) WB_ERR_MASK = 0;
  pe_status h : Z.land (u32 (nth 0 (answer h ioread32 [er_reg "status_rc" er]) 0)) err_flags = 0;
  pe_count h : Z.land (last_word h) WB_COUNT_MASK = 0 ->
    u32 (nth 0 (answer h ioread32 [er_reg "completed_desc_count" er]) 0) = 0
}.
Context {pe : PolledEngine}.

(** what does not change while the engine serves requests *)
Record engine_fit (e : xdma_engine) : Prop := {
  ef_magic : magic e = MAGIC_ENGINE;
  ef_regs : regs e = er;
  ef_address : poll_mode_addr_virt e = a;
  ef_dir : dir_to_dev e = dir;
  ef_addressing : non_incr_addr e = ni;
  ef_no_ring : rx_transfer_cyclic e = 0;
  ef_no_perf : xdma_perf e = None;
  ef_status : Z.land (status e) err_flags = 0;
  ef_shutdown : Z.land (shutdown e) ENGINE_SHUTDOWN_REQUEST = 0
}.

(** ** The service of the one transfer in the queue *)

(** the engine after the service *)
Definition served (st run n : Z) (e : xdma_engine) : xdma_engine :=
  e <| status := st |> <| running := run |> <| transfer_list := [] |> <| desc_dequeued ::= Z.add n |>.

Ltac quiet_cons := first [apply Forall_nil_2|apply Forall_cons_2; [discriminate|quiet_cons]].

Lemma clear_word_ok w : engine_fit (eng w) ->
  wp (when poll_mode
      (p <- getE poll_mode_addr_virt ;;
       if p =? 0 then abort_with BadAccess else ext_ store_word [p; 0; 0; 0]))
    (fun _ w' => exists r, w' = w <| trace ::= cons (Call store_word [a; 0; 0; 0] r) |>) w.
Proof using pe.
  intros [_ _ Ha _ _ _ _ _ _]. rewrite pe_poll. cbn [when]. wp_step. wp_step. rewrite Ha.
  rewrite (proj2 (Z.eqb_neq _ _) pe_address). wp_step. eexists. state_eq.
Qed.

Lemma resume_single w : transfer_list (eng w) = [] ->
  Z.land (shutdown (eng w)) ENGINE_SHUTDOWN_REQUEST = 0 ->
  wp engine_service_resume (fun _ w' => exists h, w' = w <| trace := (h ++ trace w) |> /\ quiet h) w.
Proof.
  intros Hq Hs. unfold engine_service_resume. wp_step. wp_step. wp_step. wp_step. rewrite Hq.
  destruct (nz (running (eng w))); cbn [negb list_empty_ when].
  - wp_step. eexists [_]. split; [state_eq|quiet_cons].
  - wp_step. wp_step. rewrite Hs. change (nz 0) with false. cbv iota. wp_step.
    exists []. split; [state_eq|quiet_cons].
Qed.

Lemma service_queue_single w t n x c rc :
  engine_fit (eng w) -> transfers w !! t = Some x -> plain (transfers w) n t ->
  transfer_list (eng w) = [t] -> desc_dequeued (eng w) = 0 -> 0 <= c <= n -> n < 2 ^ 24 ->
  wp (engine_service_queue c rc) (fun _ w' => exists h,
    w' = w <| trace := (h ++ trace w) |>
           <| transfers := <[t := with_state (outcome c n) x]> (transfers w) |>
           <| eng ::= served (status (eng w)) (running (eng w)) n |> /\ quiet h) w.
Proof using pe.
  intros Hfit Hx Hpl Hq Hdq Hc Hn. pose proof Hfit as [_ _ Ha _ _ _ Hp Hst Hsh].
  pose proof Hpl as (Ht & y & Hy & Hyn & Hb & Hcy & Hio). assert (y = x) as -> by congruence.
  unfold engine_service_queue. wp_step. wp_step. rewrite Hq. cbn [list_empty_].
  wp_step. wp_step. unfold first_transfer. wp_step. wp_step. rewrite Hq. wp_step.
  unfold engine_service_perf. wp_step. wp_step. wp_step. rewrite Hp. wp_step. wp_step.
  wp_step. wp_step. rewrite Hdq, Z.sub_0_r, u32_id by (unfold is_u32; lia).
  wp_step. unfold engine_service_transfer_list. wp_step. wp_step; [apply Z.eqb_neq, Ht|].
  wp_step. wp_step. rewrite Hq. cbn [length]. rewrite loop_S. wp_step.
  unfold service_list_one. rewrite (proj2 (Z.eqb_neq _ _) Ht). wp_step. eapply wp_getT; [exact Hx|].
  wp_step. eapply wp_getT; [exact Hx|]. rewrite Hcy, Hyn. change (nz 0) with false. cbv iota.
  rewrite u32_id by (unfold is_u32; lia). rewrite (proj2 (Z.ltb_ge n c)) by lia. wp_step. wp_step.
  wp_step. eapply wp_conseq; [apply (final_transfer_ok w t n []); [exact Hpl|exact Hq|lia|exact Hst]|].
  intros r w1 ->. wp_step. eapply wp_conseq; [apply clear_word_ok|].
  { destruct Hfit. split; assumption. }
  intros [] w2 (r2 & ->). wp_step. eapply wp_conseq; [apply resume_single; [reflexivity|exact Hsh]|].
  intros [] w3 (h & -> & Hh). wp_step.
  exists (h ++ [Call store_word [a; 0; 0; 0] r2; Call wake_up_interruptible [t] []]).
  split; [|apply Forall_app_2; [exact Hh|quiet_cons]].
  apply world_eq; try reflexivity; cbn.
  - rewrite <- app_assoc. reflexivity.
  - apply alter_insert, Hx.
Qed.

(** ** The count of a poll *)

Definition word_count (word : Z) : Z := Z.land word WB_COUNT_MASK.

Lemma word_count_range word : 0 <= word_count word < 2 ^ 24.
Proof. unfold word_count. change WB_COUNT_MASK with (Z.ones 24). rewrite Z.land_ones by lia. apply Z.mod_pos_bound. lia. Qed.

(** the service gets the count of the word, but no more than was asked for *)
Lemma verdict_count n word wb : 0 < n < 2 ^ 24 -> polled_word a word -> wb_verdict n word wb ->
  Z.land (u32 (s32 wb)) WB_COUNT_MASK = Z.min n (word_count word).
Proof using pe.
  intros Hn (h & Hw) Hv.
  assert (Z.land word WB_ERR_MASK = 0) as He by (rewrite Hw; apply pe_word).
  assert (is_u32 word) as Hr by (rewrite Hw; apply u32_range). clear h Hw.
  assert (forall v, is_u32 v -> u32 (s32 v) = v) as Hid.
  { intros v Hv'. unfold u32, s32. rewrite Zminus_mod_idemp_l, Z.add_simpl_r. apply Z.mod_small, Hv'. }
  assert (Z.land n WB_COUNT_MASK = n) as Hnn by (apply (land_ones_small n 24); lia).
  pose proof (word_count_range word) as Hc. destruct Hv as [[[E|E] ->]| ->].
  - rewrite He in E. discriminate E.
  - subst word. rewrite Hid by exact Hr. unfold word_count. rewrite Hnn. lia.
  - fold (word_count word). destruct (Z.ltb_spec n (word_count word)).
    + rewrite Hid; [|unfold is_u32 in *].
      * rewrite Z.land_lor_distr_l, Hnn. change (Z.land WB_ERR_MASK WB_COUNT_MASK) with 0. rewrite Z.lor_0_r. lia.
      * assert (Z.land (Z.lor n WB_ERR_MASK) (Z.ones 32) = Z.lor n WB_ERR_MASK) as E.
        { rewrite Z.land_lor_distr_l. f_equal. apply land_ones_small; lia. }
        rewrite <- E, Z.land_ones by lia. apply Z.mod_pos_bound. lia.
    + rewrite Hid by exact Hr. fold (word_count word). lia.
Qed.

Lemma outcome_min n c : outcome (Z.min n c) n = outcome c n.
Proof. unfold outcome. destruct (Z.ltb_spec (Z.min n c) n), (Z.ltb_spec c n); (reflexivity || lia). Qed.

(** ** The service of a poll *)

Lemma engine_service_single w t n x word wb :
  engine_fit (eng w) -> running (eng w) = 1 -> transfers w !! t = Some x -> plain (transfers w) n t ->
  transfer_list (eng w) = [t] -> desc_dequeued (eng w) = 0 -> n < 2 ^ 24 ->
  last_word (trace w) = word -> polled_word a word -> wb_verdict n word wb ->
  wp (engine_service (s32 wb)) (fun _ w' => exists h st run,
    w' = w <| trace := (h ++ trace w) |>
           <| transfers := <[t := with_state (outcome (word_count word) n) x]> (transfers w) |>
           <| eng ::= served st run n |> /\
    quiet h /\ Z.land st err_flags = 0 /\ (n <= word_count word -> run = 0)) w.
Proof using pe.
  intros Hfit Hrun Hx Hpl Hq Hdq Hn Hlast Hpw Hv.
  pose proof Hpl as (_ & _ & _ & _ & Hn0 & _). pose proof (word_count_range word) as Hcr.
  pose proof (verdict_count n word wb ltac:(lia) Hpw Hv) as Hc. rewrite <- outcome_min, <- Hc.
  set (c := Z.land (u32 (s32 wb)) WB_COUNT_MASK) in *.
  unfold engine_service. cbv zeta. fold c. set (err := Z.land (u32 (s32 wb)) WB_ERR_MASK).
  wp_step. wp_step. rewrite Hrun. change (negb (nz 1)) with false. cbv iota.
  wp_step. eapply (wp_conseq _ (fun _ w' => exists h st, w' = w <| trace := (h ++ trace w) |>
    <| eng ::= (fun e => e <| status := st |>) |> /\ quiet h /\ Z.land st err_flags = 0)).
  { destruct ((c =? 0) || nz err); cbn [when].
    - unfold engine_status_read. wp_step. wp_step. wp_step. wp_step. wp_step. wp_step. wp_step.
      eexists [_], _. split; [state_eq|]. split; [quiet_cons|]. rewrite (ef_regs _ Hfit). apply pe_status.
    - wp_step. exists [], (status (eng w)). split; [state_eq|]. split; [quiet_cons|apply Hfit]. }
  intros [] w1 (h1 & st & -> & Hq1 & Hst). wp_step. wp_step. cbn.
  set (w1 := set_eng _ _ : world).
  wp_step. eapply (wp_conseq _ (fun _ w' => exists h run, w' = w1 <| trace := (h ++ trace w1) |>
    <| eng ::= (fun e => e <| running := run |>) |> /\ quiet h /\ (n <= word_count word -> run = 0))).
  { wp_step.
    - unfold engine_service_shutdown, xdma_engine_stop. wp_run. eexists [_; _], 0. split; [state_eq|].
      split; [quiet_cons|]. reflexivity.
    - exists [], (running (eng w1)). split; [state_eq|]. split; [quiet_cons|]. intros Hle. exfalso.
      match goal with E : _ || nz c = false |- _ => apply orb_false_iff in E as [_ E]; unfold nz in E;
        apply negb_false_iff, Z.eqb_eq in E end. lia. }
  intros [] w2 (h2 & run & -> & Hq2 & Hr2).
  match goal with |- wp _ _ ?st => set (w2 := st) end.
  assert (Hfit2 : engine_fit (eng w2)) by (destruct Hfit; split; assumption).
  wp_step. eapply (wp_conseq _ (fun d w' => d = c /\ exists h, w' = w2 <| trace := (h ++ trace w2) |> /\ quiet h)).
  { destruct (Z.eqb_spec c 0) as [E|E]; [|wp_step; split; [reflexivity|]; exists []; split; [state_eq|quiet_cons]].
    wp_step. rewrite (ef_regs _ Hfit2). split; [|eexists [_]; split; [state_eq|quiet_cons]].
    rewrite E. apply pe_count. unfold w2, w1. cbn.
    rewrite !last_word_quiet, Hlast by assumption. fold (word_count word). lia. }
  intros d w3 (-> & h3 & -> & Hq3).
  eapply wp_conseq; [apply (service_queue_single _ t n x c); [exact Hfit2|exact Hx|exact Hpl|exact Hq|exact Hdq|lia|exact Hn]|].
  intros r w4 (h4 & -> & Hq4). exists (h4 ++ h3 ++ h2 ++ h1), st, run. split; [|split; [|split; assumption]].
  - apply world_eq; try reflexivity. cbn. rewrite <- !app_assoc. reflexivity.
  - unfold quiet. rewrite !Forall_app. auto.
Qed.

(** ** A turn of the wait *)

(** the engine has been started on [t] and nothing else is queued *)
Record serving (t : Z) (w : world) : Prop := {
  sv_fit : engine_fit (eng w);
  sv_unlocked : lock (eng w) = false;
  sv_running : running (eng w) = 1;
  sv_queue : transfer_list (eng w) = [t];
  sv_dequeued : desc_dequeued (eng w) = 0
}.

Lemma transfer_monitor_single w t n x :
  serving t w -> transfers w !! t = Some x -> plain (transfers w) n t -> n < 2 ^ 24 ->
  wp (transfer_monitor hz fuel t) (fun _ w' => exists h st run,
    let c := word_count (last_word (trace w')) in
    w' = w <| trace := (h ++ trace w) |>
           <| transfers := <[t := with_state (outcome c n) x]> (transfers w) |>
           <| eng ::= served st run n |> /\
    Z.land st err_flags = 0 /\ (n <= c -> run = 0)) w.
Proof using pe.
  intros [Hfit Hl Hrun Hq Hdq] Hx Hpl Hn. pose proof Hpl as (_ & y & Hy & Hyn & Hn0 & _).
  assert (y = x) as -> by congruence. pose proof Hfit as [Hm _ Ha _ _ Hrx _ _ _].
  unfold transfer_monitor. rewrite pe_poll. unfold spin_lock at 1, spin_unlock at 1.
  wp_step. wp_step. wp_step. rewrite Hl. wp_step. wp_step. eapply wp_getT; [exact Hx|].
  wp_step. wp_step. rewrite Hyn, u32_id by (unfold is_u32; lia).
  unfold engine_service_poll. wp_step. wp_step. wp_step. cbn. rewrite Hm. wp_step. 
  assert (Z.land n WB_COUNT_MASK = n) as Hnn by (apply (land_ones_small n 24); lia).
  rewrite Hnn, Z.eqb_refl. cbn [negb]. wp_step.
  match goal with |- wp _ _ ?st => set (w1 := st) end.
  eapply wp_conseq.
  { apply (wb_monitor_run hz n B w1 fuel); [cbn; rewrite Ha; exact pe_address|lia|exact pe_fuel|].
    intros h. apply pe_clock. }
  intros wb w2 (h & -> & Hpw & Hv). unfold w1 in Hpw. cbn in Hpw. rewrite Ha in Hpw.
  unfold spin_lock, spin_unlock. wp_step. wp_step. wp_step. cbn. wp_step. wp_step. wp_step. cbn. rewrite Hrx.
  change (nz 0) with false. cbv iota.
  match goal with |- wp _ _ ?st => set (w3 := st) end.
  wp_step. eapply wp_conseq.
  { apply (engine_service_single w3 t n x (last_word (trace w3)) wb); try assumption; try reflexivity.
    destruct Hfit; split; assumption. }
  intros rc w4 (h4 & st & run & -> & Hq4 & Hst & Hr). wp_step. wp_step. wp_step.
  exists (h4 ++ h), st, run. cbn. rewrite (last_word_quiet h4) by exact Hq4.
  split; [|split; assumption]. apply world_eq; try reflexivity; cbn.
  - rewrite <- app_assoc. reflexivity.
  - state_eq. symmetry. exact Hl.
Qed.

(** ** A chunk of the request *)

Section Chunk.
Context (pages : Z -> list Z) (iommu : Z -> Z * Z).

Definition ready (e : xdma_engine) : Prop :=
  engine_fit e /\ lock e = false /\ running e = 0 /\ transfer_list e = [].

(** a device, and nothing in the heap where the next objects come *)
Definition room (w : world) : Prop :=
  0 < fresh w /\ pci_dev (lro w) <> 0 /\ forall b, fresh w <= b ->
    transfers w !! b = None /\ sgms w !! b = None /\ coherent w !! b = None.

(** a request after a chunk of it *)
Definition next_chunk (v : request) : request :=
  let '(remaining, addr, done, pos) := v in
  let len := chunk remaining in
  (remaining - len, u64 (addr + len), done + len, s64 (pos + len)).

(** In [w1] the engine runs on the transfer [t], the only one that is queued:
    it was programmed with its first descriptor, from where it moves the bytes of
    the chunk, and the registers were written for nothing else. *)
Definition runs_chunk (v : request) (t : Z) (x : xdma_transfer) (w w1 : world) : Prop :=
  let '(remaining, addr, _, pos) := v in
  let len := chunk remaining in
  transfers w1 !! t = Some x /\ state x = TRANSFER_STATE_SUBMITTED /\ serving t w1 /\
  moves_buffer addr len (pages addr) iommu t (u64 pos) dir ni w1 /\
  writes (trace w1) = start_writes (eng w) x ++ writes (trace w).

(** From [w] to [w'] a chunk is done: a transfer for it is made and run; [s] is
    what the last word of the device says of it, completed when it counts all
    descriptors of the transfer, failed when not; and nothing is kept of it. *)
Definition chunk_run (v : request) (s : transfer_state) (w w' : world) : Prop :=
  exists t x w1, runs_chunk v t x w w1 /\ (exists h, trace w' = h ++ trace w1) /\
    s = outcome (word_count (last_word (trace w'))) (desc_num x) /\
    lock (eng w') = false /\ transfer_list (eng w') = [] /\
    w' = w <| trace := trace w' |> <| eng := eng w' |> <| fresh := fresh w + 3 |>.

(** the fields of a transfer that account for it, in the course of its life *)
Definition accounted (l z : Z) (st : transfer_state) (x : xdma_transfer) : xdma_transfer :=
  x <| last_in_request := l |> <| size_of_request := z |> <| state := st |>.
Definition with_transfer (w : world) (t : Z) (x : xdma_transfer) (tr : history) (e : xdma_engine) : world :=
  w <| trace := tr |> <| eng := e |> <| transfers ::= <[t := x]> |>.

Lemma engine_walk_ext n : forall x x' mem b,
  desc_bus x' = desc_bus x -> desc_virt x' = desc_virt x ->
  engine_walk n dir x' mem b = engine_walk n dir x mem b.
Proof.
  induction n as [|n IH]; intros x x' mem b Hb Hv; [reflexivity|]. cbn [engine_walk].
  unfold engine_fetch. rewrite Hb, Hv. destruct (negb _); [reflexivity|].
  destruct (lookup_mem _ _) as [d|]; [|reflexivity]. cbn [mbind option_bind].
  destruct (_ =? _); [|reflexivity]. cbn [mbind option_bind]. destruct (nz _); [reflexivity|].
  rewrite (IH x x' mem _ Hb Hv). reflexivity.
Qed.

Lemma moves_buffer_accounted start count pinned t ep w x l z st tr e :
  moves_buffer start count pinned iommu t ep dir ni w -> transfers w !! t = Some x ->
  moves_buffer start count pinned iommu t ep dir ni (with_transfer w t (accounted l z st x) tr e).
Proof.
  intros (y & s & plan & Hy & Hs & Hn & Hr & Hw & Hrest) Hx. assert (y = x) as -> by congruence.
  exists (accounted l z st x), s, plan. split; [apply lookup_insert_eq|]. split; [exact Hs|].
  split; [exact Hn|]. split; [exact Hr|]. split; [|exact Hrest].
  rewrite <- Hw. apply engine_walk_ext; reflexivity.
Qed.

Lemma has_transfer_accounted start count pinned w t x s w1 l z st tr e :
  has_transfer start count pinned w t dir x s w1 ->
  has_transfer start count pinned w t dir (accounted l z st x) s (with_transfer w1 t (accounted l z st x) tr e).
Proof.
  intros [(mem & -> & Hm) H1 H2 H3 H4 H5 H6 H7 H8]. split; try assumption. exists mem. split; [|exact Hm].
  apply world_eq; try reflexivity. cbn. apply insert_insert_eq.
Qed.

Lemma writes_none h : calls iowrite32 h = [] -> writes h = [].
Proof.
  induction h as [|[f args r] h IH]; [reflexivity|]. unfold calls, writes in *. cbn.
  destruct f; cbn; try exact IH. intros H. discriminate H.
Qed.

(** marking the last transfer of the request *)
Lemma mark_last_ok t len remaining done w x :
  transfers w !! t = Some x ->
  wp (mark_last t len remaining done) (fun _ w' => exists l z,
    w' = with_transfer w t (accounted l z (state x) x) (trace w) (eng w)) w.
Proof.
  intros Hx. unfold mark_last. wp_step.
  - eapply wp_setT; [exact Hx|]. exists 1, (done + len). apply world_eq; reflexivity.
  - exists (last_in_request x), (size_of_request x). apply world_eq; try reflexivity. cbn.
    symmetry. apply insert_id. rewrite Hx. destruct x. reflexivity.
Qed.

(** a chunk takes few enough descriptors for the count of the write-back word *)
Lemma chunk_pages addr remaining : 0 < remaining -> buffer_ok addr (chunk remaining) ->
  buffer_pages addr (chunk remaining) < 2 ^ 24.
Proof.
  intros Hr Hb. pose proof (buffer_pages_bounds _ _ Hb) as [_ H]. pose proof (chunk_range _ Hr).
  pose proof (Z.mod_pos_bound addr PAGE_SIZE eq_refl).
  assert (chunk remaining <= 2 ^ 23).
  { unfold chunk. change XDMA_TRANSFER_MAX_BYTES with (2 ^ 23). destruct (Z.ltb_spec (2 ^ 23) remaining); lia. }
  unfold PAGE_SIZE in *. lia.
Qed.

(** giving a transfer back does not poll *)
Lemma quiet_each_page f pinned : f <> poll_mode_wb -> quiet (each_page pinned f).
Proof.
  intros Hf. unfold quiet, each_page. rewrite Forall_reverse, Forall_map. apply Forall_true. intros pg. exact Hf.
Qed.
Lemma quiet_give start count pinned t d size bus b c : quiet (give_log start count pinned t d size bus b c).
Proof.
  unfold give_log, quiet. rewrite !Forall_app. split; [quiet_cons|]. split; [apply quiet_each_page; discriminate|].
  split; [destruct (nz d); [constructor|apply quiet_each_page; discriminate]|quiet_cons].
Qed.

(** the transfer of the chunk is queued and the engine started on it *)
Lemma chunk_queued w t x :
  ready (eng w) -> t <> 0 -> transfers w !! t = Some x -> desc_num x <> 0 ->
  wp (transfer_queue t) (fun _ w' => exists tr e,
    w' = with_transfer w t (submitted x) tr e /\ serving t w' /\
    writes tr = start_writes (eng w) (submitted x) ++ writes (trace w)) w.
Proof.
  intros (Hfit & Hl & Hrun & Hq) Ht Hx Hn. eapply wp_conseq.
  { apply (transfer_queue_idle w t x); [exact Ht|exact Hx|exact Hn|exact Hl|apply Hfit|exact Hrun|].
    unfold queue_ok. rewrite Hq. constructor. }
  intros rc w' (_ & tr & -> & y & Hy & Hw). rewrite Hq in Hy. cbn [hd] in Hy.
  rewrite lookup_insert_eq in Hy. injection Hy as <-. eexists tr, _. split; [reflexivity|]. split; [|exact Hw].
  split; cbn; rewrite ?Hq; try reflexivity. destruct Hfit. split; first [assumption|reflexivity].
Qed.

(** the chunk is over: its transfer is destroyed *)
Lemma chunk_given_back v t x x' s w w1 w2 :
  let '(remaining, addr, _, _) := v in
  UserBuffer addr (chunk remaining) (pages addr) iommu -> room w -> t = fresh w ->
  runs_chunk v t x w w1 -> (exists h, trace w2 = h ++ trace w1) ->
  has_transfer addr (chunk remaining) (pages addr) w t dir x' s w2 ->
  lock (eng w2) = false -> transfer_list (eng w2) = [] ->
  wp (transfer_destroy t) (fun _ w' =>
    chunk_run v (outcome (word_count (last_word (trace w2))) (desc_num x)) w w' /\
    room w' /\ eng w' = eng w2) w2.
Proof.
  destruct v as [[[remaining addr] done] pos].
  intros ub (Hf & Hpd & Hroom) -> Hruns [h Htr] Hhas Hl Hq. eapply wp_conseq.
  { apply (transfer_destroy_ok addr (chunk remaining) (pages addr) w _ dir x' s w2 Hhas); try (apply Hroom; lia); [lia|].
    symmetry. apply (ub_pages addr (chunk remaining) (pages addr) iommu). }
  intros [] w' (bus & b & c & ->). set (give := give_log _ _ _ _ _ _ _ _ _).
  split; [|split; [split; [cbn; lia|split; [exact Hpd|intros k Hk; apply Hroom; cbn in Hk; lia]]|reflexivity]].
  exists (fresh w), x, w1. split; [exact Hruns|].
  split; [|split; [|split; [exact Hl|split; [exact Hq|reflexivity]]]].
  - exists (give ++ h). rewrite <- app_assoc, <- Htr. reflexivity.
  - change (outcome (word_count (last_word (trace w2))) (desc_num x)
      = outcome (word_count (last_word (give ++ trace w2))) (desc_num x)).
    rewrite (last_word_quiet give) by apply quiet_give. reflexivity.
Qed.

Lemma chunk_ok v w :
  let '(remaining, addr, done, pos) := v in
  0 < remaining -> UserBuffer addr (chunk remaining) (pages addr) iommu -> ready (eng w) -> room w ->
  wp (transfer_data_one hz fuel v) (fun r w' => exists s, chunk_run v s w w' /\ room w' /\
    match s with
    | TRANSFER_STATE_COMPLETED => r = inl (next_chunk v) /\ ready (eng w')
    | TRANSFER_STATE_FAILED => r = inr (- EIO, pos)
    | _ => False
    end) w.
Proof using pe.
  destruct v as [[[remaining addr] done] pos]. intros Hrem ub Hrdy Hroom.
  pose proof Hrdy as (Hfit & _). pose proof Hroom as (Hf & Hpd & _). set (v := (remaining, addr, done, pos)).
  unfold transfer_data_one. cbn. rewrite (proj2 (Z.ltb_lt _ _) Hrem). cbn [negb].
  wp_step. wp_step. wp_step. wp_step. rewrite (ef_dir _ Hfit), (ef_addressing _ Hfit).
  wp_step. eapply wp_conseq; [apply (transfer_create_ok addr (chunk remaining) (pages addr) iommu); assumption|].
  intros t w1 (-> & Hmove & x & s & h1 & Htr1 & He1 & Hlog & Hhas). set (t := fresh w) in *.
  rewrite (proj2 (Z.eqb_neq t 0)) by lia.
  pose proof Hmove as (x0 & _ & plan & Hx & _ & _ & Hn & _).
  assert (x0 = x) as ->.
  { destruct (ht_world _ _ _ _ _ _ _ _ _ Hhas) as (mem & E & _). rewrite E in Hx. cbn in Hx.
    rewrite lookup_insert_eq in Hx. congruence. }
  pose proof (chunk_pages addr remaining Hrem (ub_buffer addr _ _ _)) as Hpg. set (n := desc_num x) in *.
  wp_step. eapply wp_conseq; [apply (mark_last_ok t _ _ _ _ x Hx)|]. intros [] w2 (l & z & ->).
  set (x2 := accounted l z (state x) x).
  wp_step. eapply wp_conseq.
  { apply (chunk_queued _ t x2); [change (ready (eng w1)); rewrite He1; exact Hrdy|lia|apply lookup_insert_eq|change (n <> 0); lia]. }
  intros rc w3 (tr3 & e3 & -> & Hsv & Hw3). change (submitted x2) with (accounted l z TRANSFER_STATE_SUBMITTED x) in *.
  set (x3 := accounted l z TRANSFER_STATE_SUBMITTED x) in *.
  match type of Hsv with serving t ?st => set (w3 := st) in * end.
  assert (w3 = with_transfer w1 t x3 tr3 e3) as Ew3.
  { apply world_eq; try reflexivity. cbn. apply insert_insert_eq. }
  assert (Hx3 : transfers w3 !! t = Some x3) by apply lookup_insert_eq.
  assert (Hruns : runs_chunk v t x3 w w3).
  { split; [exact Hx3|]. split; [reflexivity|]. split; [exact Hsv|].
    split; [rewrite Ew3; apply moves_buffer_accounted; [exact Hmove|exact Hx]|].
    transitivity (start_writes (eng w1) x3 ++ writes (trace w1)); [exact Hw3|]. rewrite He1, Htr1, writes_app, (writes_none h1); [reflexivity|]. apply (cl_else _ _ _ _ _ _ Hlog). reflexivity. }
  wp_step. eapply wp_conseq; [apply (transfer_monitor_single w3 t n x3); [exact Hsv|exact Hx3| |lia]|].
  { split; [lia|]. exists x3. split; [exact Hx3|]. split; [reflexivity|]. split; [lia|].
    exact (ht_plain _ _ _ _ _ _ _ _ _ Hhas). }
  intros rc' w4 (h4 & st & run & Ew4 & Hst & Hrn). set (c := word_count (last_word (trace w4))) in *.
  set (x4 := accounted l z (outcome c n) x).
  assert (Hx4 : transfers w4 !! t = Some x4) by (rewrite Ew4; apply lookup_insert_eq).
  assert (Hback : wp (transfer_destroy t) (fun _ w' => chunk_run v (outcome c n) w w' /\ room w' /\ eng w' = eng w4) w4).
  { apply (chunk_given_back v t x3 x4 s w w3 w4); try assumption; try reflexivity.
    - exists h4. exact (f_equal trace Ew4).
    - assert (w4 = with_transfer w1 t x4 (trace w4) (eng w4)) as ->; [|apply has_transfer_accounted, Hhas].
      rewrite Ew4. apply world_eq; try reflexivity. cbn. rewrite !insert_insert_eq. reflexivity.
    - rewrite Ew4, Ew3. exact (sv_unlocked _ _ Hsv).
    - exact (f_equal (fun u => transfer_list (eng u)) Ew4). }
  wp_step. eapply wp_getT; [exact Hx4|]. cbv zeta. change (state x4) with (outcome c n).
  unfold outcome in Hback |- *. destruct (Z.ltb_spec c n) as [Hcn|Hcn].
  - apply wp_bind. eapply wp_conseq; [exact Hback|]. intros [] w5 (Hrun5 & Hroom5 & _). wp_step.
    exists TRANSFER_STATE_FAILED. auto.
  - apply wp_bind. eapply wp_conseq; [exact Hback|]. intros [] w5 (Hrun5 & Hroom5 & He5). wp_step.
    exists TRANSFER_STATE_COMPLETED. split; [exact Hrun5|]. split; [exact Hroom5|]. split; [reflexivity|].
    rewrite He5, Ew4. cbn. rewrite (Hrn Hcn). split; [|repeat split; apply Hsv].
    destruct (sv_fit _ _ Hsv). split; assumption.
Qed.

(** ** The whole request *)

(** A request served chunk by chunk: the result and the file position are
    those at its end, or at the first chunk that failed. *)
Inductive chunks_run : request -> world -> Z * Z -> world -> Prop :=
| run_done r addr done pos w : r <= 0 -> chunks_run (r, addr, done, pos) w (done, pos) w
| run_chunk v w w' res w'' : 0 < rq_remaining v ->
    chunk_run v TRANSFER_STATE_COMPLETED w w' -> chunks_run (next_chunk v) w' res w'' ->
    chunks_run v w res w''
| run_fails r addr done pos w w' : 0 < r ->
    chunk_run (r, addr, done, pos) TRANSFER_STATE_FAILED w w' ->
    chunks_run (r, addr, done, pos) w (- EIO, pos) w'.

(** what is left of a request of [count] bytes at [addr0] and [pos0]: some
    chunks are done, all of 8 MB when another one follows *)
Definition part_of (addr0 count pos0 : Z) (v : request) : Prop :=
  let '(remaining, addr, done, pos) := v in
  0 <= remaining /\ remaining + done = count /\ 0 <= done /\ addr = addr0 + done /\ pos = pos0 + done /\
  (remaining = 0 \/ exists k, 0 <= k /\ done = k * XDMA_TRANSFER_MAX_BYTES).

Lemma part_next addr0 count pos0 v :
  part_of addr0 count pos0 v -> 0 < rq_remaining v ->
  0 <= addr0 -> addr0 + count < 2 ^ 64 -> 0 <= pos0 -> pos0 + count < 2 ^ 63 ->
  part_of addr0 count pos0 (next_chunk v) /\ (turns (rq_remaining (next_chunk v)) < turns (rq_remaining v))%nat.
Proof.
  destruct v as [[[remaining addr] done] pos]. cbn [rq_remaining fst].
  intros (H0 & H1 & H2 & -> & -> & Hk) Hr Ha Hae Hp Hpe. split; [|apply turns_chunk, Hr].
  destruct Hk as [->|(k & Hk & E)]; [lia|]. pose proof (chunk_range _ Hr) as Hc.
  unfold next_chunk, part_of. rewrite u64_id by (unfold is_u64; lia).
  assert (s64 (pos0 + done + chunk remaining) = pos0 + done + chunk remaining) as ->.
  { unfold s64. rewrite Z.mod_small by lia. lia. }
  repeat (split; [lia|]). unfold chunk. destruct (Z.ltb_spec XDMA_TRANSFER_MAX_BYTES remaining); [right|left; lia].
  exists (k + 1). lia.
Qed.

Context (addr0 count pos0 : Z).
Context (Haddr : 0 <= addr0 /\ addr0 + count < 2 ^ 64) (Hpos : 0 <= pos0 /\ pos0 + count < 2 ^ 63).
Context (Hbuffers : forall k, let done := k * XDMA_TRANSFER_MAX_BYTES in
  0 <= k -> done < count -> UserBuffer (addr0 + done) (chunk (count - done)) (pages (addr0 + done)) iommu).

(** the result of a request: all of it, or an error and the position of a chunk *)
Definition request_result (res : Z * Z) : Prop :=
  res = (count, pos0 + count) \/
  exists k, 0 <= k /\ k * XDMA_TRANSFER_MAX_BYTES < count /\
    res = (- EIO, pos0 + k * XDMA_TRANSFER_MAX_BYTES).

Lemma chunks_loop n : forall v w,
  part_of addr0 count pos0 v -> ready (eng w) -> room w -> (turns (rq_remaining v) < n)%nat ->
  wp (loop n (transfer_data_one hz fuel) v) (fun res w' => chunks_run v w res w' /\ request_result res) w.
Proof using pe Haddr Hpos Hbuffers.
  induction n as [|n IH]; intros v w Hv Hrdy Hroom Hn; [lia|]. rewrite loop_S. apply wp_bind.
  destruct (Z.ltb_spec 0 (rq_remaining v)) as [Hr|Hr].
  - pose proof (part_next addr0 count pos0 v Hv Hr) as Hnext.
    pose proof (chunk_ok v w) as Hone. destruct v as [[[remaining addr] done] pos].
    pose proof Hv as (H0 & H1 & H2 & -> & -> & [H|(k & Hk & E)]); [cbn in Hr; lia|]. cbn [rq_remaining fst] in Hr.
    eapply wp_conseq.
    { apply Hone; [exact Hr| |exact Hrdy|exact Hroom]. rewrite E. replace remaining with (count - done) by lia.
      rewrite E. apply Hbuffers; lia. }
    intros r w' (s & Hrun & Hroom' & Hs). destruct s; try contradiction.
    + destruct Hs as [-> Hrdy']. destruct Hnext as [Hp' Ht']; try lia.
      eapply wp_conseq; [apply (IH _ _ Hp' Hrdy' Hroom'); lia|].
      intros res w'' [Hc Hres]. split; [|exact Hres]. eapply run_chunk; [exact Hr|exact Hrun|exact Hc].
    + subst r. apply wp_ret. split; [eapply run_fails; eassumption|]. right. exists k. split; [exact Hk|].
      split; [lia|]. rewrite E. reflexivity.
  - destruct v as [[[remaining addr] done] pos]. destruct Hv as (H0 & H1 & H2 & -> & -> & _).
    cbn [rq_remaining fst] in Hr. unfold transfer_data_one at 1. rewrite (proj2 (Z.ltb_ge _ _) Hr). cbn [negb].
    apply wp_ret, wp_ret. split; [apply run_done, Hr|]. left. f_equal; lia.
Qed.

(** a chunk keeps nothing *)
Lemma chunks_keep v w res w' : chunks_run v w res w' ->
  transfers w' = transfers w /\ sgms w' = sgms w /\ coherent w' = coherent w /\
  (lock (eng w) = false -> lock (eng w') = false) /\
  (transfer_list (eng w) = [] -> transfer_list (eng w') = []).
Proof.
  assert (forall v s w w', chunk_run v s w w' -> transfers w' = transfers w /\ sgms w' = sgms w /\
    coherent w' = coherent w /\ lock (eng w') = false /\ transfer_list (eng w') = []) as H.
  { intros u s x x' (_ & _ & _ & _ & _ & _ & Hl & Hq & ->). auto. }
  induction 1 as [r addr done pos w Hr|v w w' res w'' _ Hrun _ IH|r addr done pos w w' _ Hrun]; [auto| |].
  - destruct (H _ _ _ _ Hrun) as (E1 & E2 & E3 & E4 & E5). rewrite E1, E2, E3 in IH.
    destruct IH as (I1 & I2 & I3 & I4 & I5). auto 7.
  - destruct (H _ _ _ _ Hrun) as (E1 & E2 & E3 & E4 & E5). auto.
Qed.

End Chunk.
End Polled.
