(* ===== verification/Setup.v ===== *)
(** * Setting a device up: its state, interrupts and BARs (xdma-core.c)

    Allocation of the device structure, MSI and MSI-X, the PCI regions, the
    DMA mask, the mapping and identification of the BARs, and the request and
    release of interrupts.  [pdev] is the pointer of the [struct pci_dev]. *)
From S2P Require Import Prelude Layout Kernel World Desc Engine.
#[local] Open Scope string_scope.
#[local] Open Scope Z_scope.

Definition PCI_CAP_ID_MSI : Z := 0x05.
Definition PCI_CAP_ID_MSIX : Z := 0x11.
Definition PCI_BUS_FLAGS_NO_MSI : Z := 1.
Definition PCI_INTERRUPT_PIN : Z := 0x3d.
(** [DMA_BIT_MASK(n)] *)
Definition DMA_BIT_MASK (n : Z) : Z := Z.ones n.

(** The [dev_id] an interrupt is requested with: the device, an entry of
    [lro->user_irq] or an engine.  It also tells the handler apart:
    [xdma_isr], [xdma_user_irq] or [xdma_channel_irq]. *)
Definition id_lro : list Z := [0; 0].
Definition id_user_irq (i : Z) : list Z := [1; i].
Definition id_engine (p : Z) : list Z := [2; p].

(** the interrupt registers of the BAR mapped at [b] *)
Definition build_vector_reg (a b c d : Z) : Z :=
  let reg_val := 0 in
  let reg_val := Z.lor reg_val (Z.shiftl (Z.land a 0x1f) 0) in
  let reg_val := Z.lor reg_val (Z.shiftl (Z.land b 0x1f) 8) in
  let reg_val := Z.lor reg_val (Z.shiftl (Z.land c 0x1f) 16) in
  Z.lor reg_val (Z.shiftl (Z.land d 0x1f) 24).

Section Setup.
Context {bo : ByteOrder} {env : Env}.

(** ** MSI and MSI-X *)

Definition arch_msi_check_device (dev nvec type : Z) : Z := 0.

(** the flags of the buses from [dev->bus] up to the root *)
Fixpoint no_msi_bus (buses : list Z) : bool :=
  match buses with
  | [] => false
  | flags :: parents => nz (Z.land flags PCI_BUS_FLAGS_NO_MSI) || no_msi_bus parents
  end.

Definition msi_msix_capable (dev type : Z) : prog world Z :=
  if dev =? 0 then ret 0 else
  no_msi <- ext pci_no_msi [dev] ;;
  if nz no_msi then ret 0 else
  buses <- ext_all pci_bus_flags [dev] ;;
  if no_msi_bus buses then ret 0 else
  if nz (arch_msi_check_device dev 1 type) then ret 0 else
  cap <- ext pci_find_capability [dev; type] ;;
  if negb (nz cap) then ret 0 else ret 1.

(** the device structure is [lro] of the world; the result is its pointer *)
Definition alloc_dev_instance (pdev : Z) : prog world Z :=
  BUG_ON (pdev =? 0) ;;
  l <- ext kzalloc [] ;;
  if l =? 0 then ret 0 else
    setL (fun _ => zero_dev <| lro_magic := MAGIC_DEVICE |> <| config_bar_idx := -1 |>
      <| user_bar_idx := -1 |> <| bypass_bar_idx := -1 |> <| irq_line := -1 |>) ;;
    ext_ dev_set_drvdata [pdev; l] ;;
    setL (fun d => d <| pci_dev := pdev |>) ;;
    ret l.

(** [pci_enable_msix] stores the vectors in the table when it succeeds *)
Definition probe_scan_for_msi (pdev : Z) : prog world Z :=
  BUG_ON (pdev =? 0) ;;
  let req_nvec := MAX_NUM_ENGINES + MAX_USER_IRQ in
  x <- msi_msix_capable pdev PCI_CAP_ID_MSIX ;;
  if nz x then
    r <- ext_all pci_enable_msix (pdev :: req_nvec :: (Z.of_nat <$> seq 0 (Z.to_nat req_nvec))) ;;
    let rc := nth 0 r 0 in
    when (rc =? 0)
      (for_ 0 req_nvec (fun i =>
        setL (fun d => d <| entry_vector ::= zinsert i (nth (Z.to_nat (i + 1)) r 0) |>))) ;;
    setL (fun d => d <| msix_enabled := 1 |>) ;;
    ret rc
  else
    x <- msi_msix_capable pdev PCI_CAP_ID_MSI ;;
    if nz x then
      rc <- ext pci_enable_msi [pdev] ;;
      setL (fun d => d <| msi_enabled := 1 |>) ;;
      ret rc
    else ret 0.

Definition request_regions (pdev : Z) : prog world Z :=
  BUG_ON (pdev =? 0) ;;
  rc <- ext pci_request_regions [pdev] ;;
  (if nz rc then setL (fun d => d <| regions_in_use := 1 |>)
   else setL (fun d => d <| got_regions := 1 |>)) ;;
  ret rc.

Definition set_dma_mask (pdev : Z) : prog world Z :=
  BUG_ON (pdev =? 0) ;;
  m <- ext pci_set_dma_mask [pdev; DMA_BIT_MASK 64] ;;
  if negb (nz m) then
    c <- ext pci_set_consistent_dma_mask [pdev; DMA_BIT_MASK 64] ;;
    when (nz c) (_ <- ext pci_set_consistent_dma_mask [pdev; DMA_BIT_MASK 32] ;; ret tt) ;;
    ret 0
  else
    m <- ext pci_set_dma_mask [pdev; DMA_BIT_MASK 32] ;;
    if negb (nz m) then
      _ <- ext pci_set_consistent_dma_mask [pdev; DMA_BIT_MASK 32] ;; ret 0
    else ret (-1).

(** ** Interrupts *)

(** [write_register(v, &int_regs->m[i])] *)
Definition write_vector (m : string) (i v : Z) : prog world unit :=
  b <- config_bar ;; write_register v (ir_reg m b + 4 * i).

Definition write_msix_vectors : prog world unit :=
  write_vector "user_msi_vector" 0 (build_vector_reg 0 1 2 3) ;;
  write_vector "user_msi_vector" 1 (build_vector_reg 4 5 6 7) ;;
  write_vector "user_msi_vector" 2 (build_vector_reg 8 9 10 11) ;;
  write_vector "user_msi_vector" 3 (build_vector_reg 12 13 14 15) ;;
  write_vector "channel_msi_vector" 0 (build_vector_reg 16 17 18 19) ;;
  write_vector "channel_msi_vector" 1 (build_vector_reg 20 21 22 23).

(** [lro->entry[i].vector] *)
Definition vector (i : Z) : prog world Z := v <- getL entry_vector ;; index v i.

Definition request_user_irq (i : Z) : prog world (option (Z * Z)) :=
  v <- vector i ;;
  rc <- ext request_irq (v :: 0 :: id_user_irq i) ;;
  ret (if nz rc then Some (i, rc) else None).
Definition free_user_irq (i : Z) : prog world unit :=
  v <- vector i ;; ext_ free_irq (v :: id_user_irq i).

(** [while (--i >= 0) body] *)
Fixpoint while_down (n : nat) (body : Z -> prog world unit) : prog world unit :=
  match n with
  | O => ret tt
  | Datatypes.S n' => body (Z.of_nat n') ;; while_down n' body
  end.

Definition msix_irq_setup : prog world Z :=
  write_msix_vectors ;;
  r <- for_exit 0 MAX_USER_IRQ request_user_irq ;;
  match r with
  | None => ret 0
  | Some (i, rc) => while_down (Z.to_nat i) free_user_irq ;; ret rc
  end.

Definition irq_teardown : prog world unit :=
  msix <- getL msix_enabled ;;
  if nz msix then for_ 0 MAX_USER_IRQ free_user_irq
  else
    line <- getL irq_line ;;
    when (negb (line =? -1)) (ext_ free_irq (line :: id_lro)).

(** the vectors of a legacy interrupt: the pin, less 1, in each byte *)
Definition legacy_vectors (val : Z) : Z :=
  u32 (Z.lor (Z.lor (Z.lor (Z.shiftl val 24) (Z.shiftl val 16)) (Z.shiftl val 8)) val).

Definition write_legacy_vectors (pdev : Z) : prog world unit :=
  r <- ext_all pci_read_config_byte [pdev; PCI_INTERRUPT_PIN] ;;
  let val := u8 (nth 1 r 0) in
  when (1 <? val)
    (let w := legacy_vectors (val - 1) in
     b <- config_bar ;;
     let reg := b + 0x2080 in
     write_register w reg ;;
     write_register w (reg + 0x4) ;;
     write_register w (reg + 0x8) ;;
     write_register w (reg + 0xC) ;;
     b <- config_bar ;;
     let reg := b + 0x20A0 in
     write_register w reg ;;
     write_register w (reg + 0x4)).

Definition irq_setup (pdev : Z) : prog world Z :=
  msix <- getL msix_enabled ;;
  if nz msix then msix_irq_setup
  else
    msi <- getL msi_enabled ;;
    when (negb (nz msi)) (write_legacy_vectors pdev) ;;
    msi <- getL msi_enabled ;;
    let irq_flag := if nz msi then 0 else IRQF_SHARED in
    irq <- ext pci_irq [pdev] ;;
    setL (fun d => d <| irq_line := s32 irq |>) ;;
    rc <- ext request_irq (u32 irq :: irq_flag :: id_lro) ;;
    ret rc.

Definition enable_credit_feature : prog world unit :=
  b <- config_bar ;;
  let reg := b + 0x6 * TARGET_SPACING in
  write_register 0xF0000 (reg + offset_of sgdma_common_regs "credit_feature_enable").

(** ** BARs *)

Definition set_bar_at (idx v : Z) : prog world unit :=
  setL (fun d => d <| bar ::= zinsert idx v |>).

Definition unmap_bars (dev : Z) : prog world unit :=
  for_ 0 XDMA_BAR_NUM (fun i =>
    bars <- getL bar ;;
    b <- index bars i ;;
    when (nz b) (ext_ pci_iounmap [dev; b] ;; set_bar_at i 0)).

Definition map_single_bar (dev idx : Z) : prog world Z :=
  _ <- ext pci_resource_start [dev; idx] ;;
  len <- ext pci_resource_len [dev; idx] ;;
  let bar_len := u64 len in
  set_bar_at idx 0 ;;
  if bar_len =? 0 then ret 0 else
    let map_len := if INT_MAX <? bar_len then INT_MAX else bar_len in
    p <- ext pci_iomap [dev; idx; map_len] ;;
    set_bar_at idx p ;;
    if p =? 0 then ret (-1) else ret map_len.

Definition is_config_bar (idx : Z) : prog world bool :=
  bars <- getL bar ;;
  b <- index bars idx ;;
  irq_id <- read_register (b + XDMA_OFS_INT_CTRL + offset_of interrupt_regs "identifier") ;;
  cfg_id <- read_register (b + XDMA_OFS_CONFIG + offset_of config_regs "identifier") ;;
  let mask := 0xffff0000 in
  ret ((Z.land irq_id mask =? IRQ_BLOCK_ID) && (Z.land cfg_id mask =? CONFIG_BLOCK_ID)).

Definition identify_bars (bar_id_list : list Z) (num_bars config_bar_pos : Z) : prog world unit :=
  if num_bars =? 1 then ret tt
  else if num_bars =? 2 then
    if config_bar_pos =? 0 then
      i <- index bar_id_list 1 ;; setL (fun d => d <| bypass_bar_idx := i |>)
    else if config_bar_pos =? 1 then
      i <- index bar_id_list 0 ;; setL (fun d => d <| user_bar_idx := i |>)
    else ret tt
  else if num_bars =? 3 then
    if config_bar_pos =? 1 then
      i <- index bar_id_list 0 ;;
      setL (fun d => d <| user_bar_idx := i |>) ;;
      i <- index bar_id_list 2 ;;
      setL (fun d => d <| bypass_bar_idx := i |>)
    else ret tt
  else ret tt.

(** One BAR: the BARs mapped so far in the order of detection (the written
    part of [bar_id_list], whose length is [bar_id_idx]) and
    [config_bar_pos]; [None] is the jump to [fail]. *)
Definition map_bar_one (dev i : Z) (ids : list Z) (pos : Z)
  : prog world (option (list Z * Z)) :=
  bar_len <- map_single_bar dev i ;;
  if bar_len =? 0 then ret (Some (ids, pos))
  else if bar_len <? 0 then ret None
  else
    c <- getL config_bar_idx ;;
    pos <- (if (XDMA_BAR_SIZE <=? bar_len) && (c <? 0) then
      f <- is_config_bar i ;;
      if (f : bool) then
        setL (fun d => d <| config_bar_idx := i |>) ;; ret (Z.of_nat (length ids))
      else ret pos
    else ret pos) ;;
    ret (Some ((ids ++ [i])%list, pos)).

(** the [n] BARs from [i] on *)
Fixpoint map_bars_from (dev : Z) (n : nat) (i : Z) (ids : list Z) (pos : Z)
  : prog world (option (list Z * Z)) :=
  match n with
  | O => ret (Some (ids, pos))
  | Datatypes.S n' =>
      r <- map_bar_one dev i ids pos ;;
      match r with
      | None => ret None
      | Some (ids, pos) => map_bars_from dev n' (i + 1) ids pos
      end
  end.

Definition map_bars (dev : Z) : prog world Z :=
  r <- map_bars_from dev (Z.to_nat XDMA_BAR_NUM) 0 [] 0 ;;
  match r with
  | None => unmap_bars dev ;; ret (-1)
  | Some (bar_id_list, config_bar_pos) =>
      c <- getL config_bar_idx ;;
      if c <? 0 then unmap_bars dev ;; ret (-1)
      else
        identify_bars bar_id_list (Z.of_nat (length bar_id_list)) config_bar_pos ;;
        ret 0
  end.
End Setup.
