(* ===== verification/SetupFacts.v ===== *)
(** * Facts on the set-up of a device: interrupts *)
From S2P Require Import Prelude Layout Kernel World Desc Engine Ledger Setup.
#[local] Open Scope string_scope.
#[local] Open Scope Z_scope.
Ltac wp_hook ::= wp_engine.

(** ** MSI-X vectors *)

(** the vector a byte lane of a vector register names *)
Definition vector_lane (reg i : Z) : Z := Z.land (Z.shiftr reg (8 * i)) 0xff.

Lemma vector_lane_div reg i : 0 <= i -> vector_lane reg i = reg / 2 ^ (8 * i) mod 256.
Proof.
  intros Hi. unfold vector_lane. change 0xff with (Z.ones 8).
  rewrite Z.land_ones, Z.shiftr_div_pow2 by lia. reflexivity.
Qed.

Lemma build_vector_reg_sum a b c d :
  0 <= a < 32 -> 0 <= b < 32 -> 0 <= c < 32 -> 0 <= d < 32 ->
  build_vector_reg a b c d = a + b * 2 ^ 8 + c * 2 ^ 16 + d * 2 ^ 24.
Proof.
  intros Ha Hb Hc Hd. unfold build_vector_reg. change 0x1f with (Z.ones 5).
  rewrite !(land_ones_small _ 5) by lia. rewrite Z.shiftl_0_r, Z.lor_0_l.
  rewrite (lor_shiftl_add a b 8), (lor_shiftl_add _ c 16), (lor_shiftl_add _ d 24) by lia.
  reflexivity.
Qed.

(** a vector register holds the four vectors it is built from, one in
    each byte, and fits in 32 bits. *)
Lemma build_vector_reg_lanes a b c d :
  0 <= a < 32 -> 0 <= b < 32 -> 0 <= c < 32 -> 0 <= d < 32 ->
  is_u32 (build_vector_reg a b c d) /\
  vector_lane (build_vector_reg a b c d) <$> [0; 1; 2; 3] = [a; b; c; d].
Proof.
  intros Ha Hb Hc Hd. simpl. rewrite !vector_lane_div by lia.
  rewrite build_vector_reg_sum by assumption. unfold is_u32. split; [lia|].
  change (2 ^ (8 * 0)) with 1. change (2 ^ (8 * 1)) with 256.
  change (2 ^ (8 * 2)) with 65536. change (2 ^ (8 * 3)) with 16777216.
  repeat f_equal; Z.div_mod_to_equations; lia.
Qed.

(** ** Interrupts are held all or none *)

(** the entries of [lro->user_irq] below [n] whose interrupt [k] is *)
Fixpoint user_claims (v : list Z) (n : nat) (k : list Z) : Z :=
  match n with
  | O => 0
  | Datatypes.S n' =>
      is_key ((fun x => x :: id_user_irq (Z.of_nat n')) <$> zlookup v (Z.of_nat n')) k
      + user_claims v n' k
  end.

Section Irqs.
Context {bo : ByteOrder} {env : Env}.

(** the table of vectors and the configuration BAR are there *)
Definition setup_ready (w : world) : Prop :=
  length (entry_vector (lro w)) = 32%nat /\
  is_Some (zlookup (bar (lro w)) (config_bar_idx (lro w))).

(** the interrupts held are those of [w0] and the first [n] user interrupts *)
Definition user_held (w0 : world) (n : nat) (w : world) : Prop :=
  lro w = lro w0 /\
  forall k, held irqs (trace w) k
            = held irqs (trace w0) k + user_claims (entry_vector (lro w0)) n k.

Lemma wp_vector i v (Q : Z -> world -> Prop) w :
  zlookup (entry_vector (lro w)) i = Some v -> Q v w -> wp (vector i) Q w.
Proof. intros H HQ. unfold vector. apply wp_bind, wp_getL. eapply wp_index; eassumption. Qed.

Lemma vector_at w i : setup_ready w -> 0 <= i < 32 ->
  exists v, zlookup (entry_vector (lro w)) i = Some v.
Proof. intros [H _] Hi. apply zlookup_is_Some. lia. Qed.

Lemma request_user_irq_ok w0 n w :
  setup_ready w0 -> 0 <= n < 16 -> user_held w0 (Z.to_nat n) w ->
  wp (request_user_irq n) (fun r w' =>
    match r with
    | None => user_held w0 (Z.to_nat (n + 1)) w'
    | Some (i, rc) => i = n /\ rc <> 0 /\ user_held w0 (Z.to_nat n) w'
    end) w.
Proof.
  intros Hr Hn [Hl Hh]. destruct (vector_at w0 n Hr ltac:(lia)) as [v Hv].
  unfold request_user_irq. apply wp_bind, (wp_vector _ v); [rewrite Hl; exact Hv|].
  apply wp_bind, wp_ext, wp_ret. set (r := answer _ _ _). unfold nz.
  destruct (Z.eqb_spec (nth 0 r 0) 0) as [E|E]; cbv iota beta delta [negb].
  - split; [exact Hl|]. intros k.
    replace (Z.to_nat (n + 1)) with (Datatypes.S (Z.to_nat n)) by lia.
    cbn [user_claims]. rewrite Z2Nat.id by lia. rewrite held_log, Hh, Hv.
    cbn [taken_by given_by irqs]. rewrite E, Z.eqb_refl, is_key_none. simpl. lia.
  - split; [reflexivity|]. split; [exact E|]. split; [exact Hl|]. intros k.
    rewrite held_log, Hh. cbn [taken_by given_by irqs].
    rewrite (proj2 (Z.eqb_neq _ _) E), is_key_none. lia.
Qed.

Lemma free_user_irq_ok w0 n w :
  setup_ready w0 -> (n < 16)%nat -> user_held w0 (Datatypes.S n) w ->
  wp (free_user_irq (Z.of_nat n)) (fun _ w' => user_held w0 n w') w.
Proof.
  intros Hr Hn [Hl Hh]. destruct (vector_at w0 (Z.of_nat n) Hr ltac:(lia)) as [v Hv].
  unfold free_user_irq. apply wp_bind, (wp_vector _ v); [rewrite Hl; exact Hv|].
  apply wp_ext_. split; [exact Hl|]. intros k. rewrite held_log, Hh.
  cbn [user_claims]. rewrite Hv. cbn [taken_by given_by irqs]. rewrite is_key_none. simpl. lia.
Qed.

Lemma while_down_ok w0 n w :
  setup_ready w0 -> (n <= 16)%nat -> user_held w0 n w ->
  wp (while_down n free_user_irq) (fun _ w' => user_held w0 0 w') w.
Proof.
  intros Hr. revert w. induction n as [|n IH]; intros w Hn H; simpl; [exact H|].
  apply wp_bind. eapply wp_conseq; [apply free_user_irq_ok; [exact Hr|lia|exact H]|].
  intros [] w' H'. apply IH; [lia|exact H'].
Qed.

Lemma user_held_refl w : user_held w 0 w.
Proof. split; [reflexivity|]. intros k. simpl. lia. Qed.

Lemma write_vector_ok m i v w0 w :
  setup_ready w0 -> user_held w0 0 w ->
  wp (write_vector m i v) (fun _ w' => user_held w0 0 w') w.
Proof.
  intros [_ [b Hb]] [Hl Hh]. unfold write_vector, config_bar.
  do 5 wp_step. rewrite Hl. eapply wp_index; [exact Hb|]. apply wp_write_register.
  split; [exact Hl|]. intros k. exact (Hh k).
Qed.

Lemma write_msix_vectors_ok w0 w :
  setup_ready w0 -> user_held w0 0 w ->
  wp write_msix_vectors (fun _ w' => user_held w0 0 w') w.
Proof.
  intros Hr H. unfold write_msix_vectors.
  do 5 (apply wp_bind; eapply wp_conseq;
        [apply (write_vector_ok _ _ _ w0); eassumption|clear H; intros [] ? H]).
  apply (write_vector_ok _ _ _ w0); assumption.
Qed.

Lemma msix_irq_setup_run w :
  setup_ready w ->
  wp msix_irq_setup (fun rc w' =>
    (rc = 0 -> user_held w 16 w') /\ (rc <> 0 -> user_held w 0 w')) w.
Proof.
  intros Hr. unfold msix_irq_setup. apply wp_bind. eapply wp_conseq;
    [apply (write_msix_vectors_ok w); [exact Hr|apply user_held_refl]|].
  intros [] w1 H1. apply wp_bind.
  eapply (wp_for_exit (fun i => user_held w (Z.to_nat i))
    (fun x w' => 0 <= fst x < 16 /\ snd x <> 0 /\ user_held w (Z.to_nat (fst x)) w')).
  - unfold MAX_USER_IRQ. lia.
  - exact H1.
  - intros k w' Hk H. unfold MAX_USER_IRQ in Hk.
    eapply wp_conseq; [apply (request_user_irq_ok w); [exact Hr|lia|exact H]|].
    intros [[i rc]|] w''; [|exact id]. intros (-> & Hrc & H'). auto.
  - intros w' H. apply wp_ret. split; [intros _; exact H|congruence].
  - intros [i rc] w' (Hi & Hrc & H). simpl in *. apply wp_bind.
    eapply wp_conseq; [apply (while_down_ok w); [exact Hr|lia|exact H]|].
    intros [] w'' H'. apply wp_ret. split; [intros ->; contradiction|intros _; exact H'].
Qed.

(** C24: setting up MSI-X is all or nothing: on success the sixteen user
    interrupts are held, on an error, at whichever of them, none is. *)
Theorem msix_irq_setup_all_or_nothing w :
  setup_ready w ->
  wp msix_irq_setup (fun rc w' =>
    (rc = 0 -> user_held w 16 w') /\ (rc <> 0 -> user_held w 0 w')) w.
Proof. exact (msix_irq_setup_run w). Qed.
End Irqs.
