(* ===== verification/BarFacts.v ===== *)
(** * Facts on the BARs: what is mapped, and which BAR is which *)
From S2P Require Import Prelude Layout Kernel World Desc Engine Ledger Setup.
#[local] Open Scope string_scope.
#[local] Open Scope Z_scope.
Ltac wp_hook ::= wp_engine.

(** ** The mappings a table of BARs stands for *)

Definition bar_key (dev b : Z) : option (list Z) := if b =? 0 then None else Some [dev; b].

Fixpoint bar_claims (dev : Z) (l : list Z) (k : list Z) : Z :=
  match l with
  | [] => 0
  | b :: l' => is_key (bar_key dev b) k + bar_claims dev l' k
  end.

Lemma bar_claims_insert dev l i b b' k :
  zlookup l i = Some b ->
  bar_claims dev (zinsert i b' l) k
  = bar_claims dev l k - is_key (bar_key dev b) k + is_key (bar_key dev b') k.
Proof.
  unfold zlookup, zinsert. destruct (i <? 0); [discriminate|].
  generalize (Z.to_nat i) as n. intros n; revert l.
  induction n as [|n IH]; intros [|a l] H; try discriminate; simpl in *.
  - injection H as ->. lia.
  - rewrite (IH l H). lia.
Qed.

Lemma bar_claims_none dev n k : bar_claims dev (replicate n 0) k = 0.
Proof. induction n as [|n IH]; [reflexivity|]. simpl. rewrite IH. reflexivity. Qed.

Section Bars.
Context {bo : ByteOrder} {env : Env}.

(** the mappings held are those of [w0] and those of the table *)
Definition maps_ok (w0 : world) (dev : Z) (w : world) : Prop :=
  length (bar (lro w)) = 6%nat /\
  forall k, held maps (trace w) k = held maps (trace w0) k + bar_claims dev (bar (lro w)) k.

(** BAR [i] is mapped *)
Definition mapped (l : list Z) (i : Z) : Prop := exists b, zlookup l i = Some b /\ b <> 0.

Lemma maps_ok_set w0 dev w i b b' e :
  maps_ok w0 dev w -> zlookup (bar (lro w)) i = Some b ->
  taken_by maps e = bar_key dev b' -> given_by maps e = bar_key dev b ->
  maps_ok w0 dev ((log e w) <| lro -> bar ::= zinsert i b' |>).
Proof.
  intros [Hl Hh] Hi Ht Hg. split.
  - exact (eq_trans (zinsert_length _ _ _) Hl).
  - intros k. change (held maps (e :: trace w) k = held maps (trace w0) k
      + bar_claims dev (zinsert i b' (bar (lro w))) k).
    rewrite held_cons, Ht, Hg, (bar_claims_insert _ _ _ _ _ _ Hi), Hh. lia.
Qed.

(** ** unmap_bars *)

Lemma unmap_bars_ok w0 dev w :
  maps_ok w0 dev w ->
  wp (unmap_bars dev) (fun _ w' => maps_ok w0 dev w' /\ bar (lro w') = replicate 6 0) w.
Proof.
  intros H. unfold unmap_bars.
  apply (wp_for (fun i w' => maps_ok w0 dev w' /\
    forall j, 0 <= j < i -> zlookup (bar (lro w')) j = Some 0)).
  - unfold XDMA_BAR_NUM. lia.
  - split; [exact H|lia].
  - intros i w' Hi [Hm Hz]. unfold XDMA_BAR_NUM in Hi. pose proof Hm as [Hl _].
    destruct (zlookup_is_Some (bar (lro w')) i ltac:(lia)) as [b Hb].
    apply wp_bind, wp_getL, wp_bind. eapply wp_index; [exact Hb|].
    apply wp_when; intros Hnz.
    + apply wp_bind, wp_ext_. apply wp_setL. split.
      * apply (maps_ok_set _ _ _ _ b); [exact Hm|exact Hb|reflexivity|].
        unfold bar_key. apply nz_true, Z.eqb_neq in Hnz. rewrite Hnz. reflexivity.
      * intros j Hj. change (zlookup (zinsert i 0 (bar (lro w'))) j = Some 0).
        rewrite (zlookup_zinsert _ 6) by lia.
        case_decide; [reflexivity|]. apply Hz. lia.
    + apply nz_false in Hnz. subst b. split; [exact Hm|].
      intros j Hj. destruct (decide (j = i)) as [->|]; [exact Hb|]. apply Hz. lia.
  - intros w' [Hm Hz]. split; [exact Hm|]. pose proof Hm as [Hl _].
    apply list_all_eq; [exact Hl|exact Hz].
Qed.

(** ** map_single_bar *)

(** everything but the table of BARs *)
Definition same_but_bar (d d' : xdma_dev) : Prop := d' <| bar := bar d |> = d.

Lemma map_single_bar_ok w0 dev i w :
  maps_ok w0 dev w -> zlookup (bar (lro w)) i = Some 0 ->
  wp (map_single_bar dev i) (fun len w' =>
    maps_ok w0 dev w' /\
    exists b, lro w' = (lro w) <| bar ::= zinsert i b |> /\
      (len <= 0 -> b = 0) /\ (0 < len -> b <> 0)) w.
Proof.
  intros Hm Hi. pose proof (zlookup_Some _ _ _ Hi) as Hr. pose proof Hm as [Hl _].
  unfold map_single_bar. apply wp_bind, wp_ext, wp_bind, wp_ext, wp_bind, wp_setL.
  set (len := u64 _). set (w1 := _ <| lro ::= _ |>).
  assert (zinsert i 0 (bar (lro w)) = bar (lro w)) as E.
  { unfold zlookup, zinsert in *. destruct (i <? 0); [discriminate|].
    apply list_insert_id, Hi. }
  assert (lro w1 = (lro w) <| bar ::= zinsert i 0 |>) as E1 by reflexivity.
  assert (maps_ok w0 dev w1) as Hm1.
  { split; [rewrite E1; exact (eq_trans (zinsert_length _ _ _) Hl)|]. intros k.
    rewrite E1. change (held maps (trace w) k = held maps (trace w0) k
      + bar_claims dev (zinsert i 0 (bar (lro w))) k). rewrite E. apply Hm. }
  destruct (Z.eqb_spec len 0) as [E0|E0].
  - apply wp_ret. split; [exact Hm1|]. exists 0. split; [reflexivity|]. lia.
  - apply wp_bind, wp_ext, wp_bind, wp_setL.
    set (r := answer _ _ _). set (p := nth 0 r 0).
    assert (zlookup (bar (lro w1)) i = Some 0) as Hi1.
    { rewrite E1. change (zlookup (zinsert i 0 (bar (lro w))) i = Some 0).
      rewrite E. exact Hi. }
    match goal with |- wp _ _ ?st => set (w2 := st) end.
    assert (maps_ok w0 dev w2) as Hm2.
    { apply (maps_ok_set _ _ _ _ 0); [exact Hm1|exact Hi1| |reflexivity].
      unfold bar_key. cbn [taken_by maps]. fold p. destruct (p =? 0); reflexivity. }
    assert (lro w2 = (lro w) <| bar ::= zinsert i p |>) as E2.
    { subst w2. change ((lro w1) <| bar ::= zinsert i p |> = (lro w) <| bar ::= zinsert i p |>).
      rewrite E1. cbn. unfold set_bar; cbn. rewrite E. reflexivity. }
    assert (0 < len) by (subst len; pose proof (u64_range (nth 0 (answer (trace_of
      (log (Call pci_resource_start [dev; i] (answer (trace_of w) pci_resource_start [dev; i])) w))
      pci_resource_len [dev; i]) 0)); unfold is_u64 in *; lia).
    destruct (Z.eqb_spec p 0) as [Ep|Ep]; apply wp_ret; split; try exact Hm2;
      exists p; (split; [exact E2|]); [lia|].
    unfold INT_MAX. destruct (_ <? len); lia.
Qed.

(** ** The loop over the BARs *)

(** a list in increasing order, by the indices of the source *)
Definition increasing (l : list Z) : Prop :=
  forall a b x y, zlookup l a = Some x -> zlookup l b = Some y -> a < b -> x < y.

Lemma zlookup_app_last (l : list Z) x a y :
  zlookup (l ++ [x])%list a = Some y ->
  zlookup l a = Some y \/ (a = Z.of_nat (length l) /\ y = x).
Proof.
  unfold zlookup. destruct (Z.ltb_spec a 0); [discriminate|].
  intros [E|[Hl E]]%lookup_app_Some; [left; exact E|right].
  apply list_lookup_singleton_Some in E as [E ->]. split; [lia|reflexivity].
Qed.

Lemma zlookup_app_end (l : list Z) x :
  zlookup (l ++ [x])%list (Z.of_nat (length l)) = Some x.
Proof.
  unfold zlookup. destruct (Z.ltb_spec (Z.of_nat (length l)) 0); [lia|].
  rewrite Nat2Z.id. apply list_lookup_middle. reflexivity.
Qed.

Lemma zlookup_app_l (l l' : list Z) a x :
  zlookup l a = Some x -> zlookup (l ++ l')%list a = Some x.
Proof. unfold zlookup. destruct (a <? 0); [discriminate|]. apply lookup_app_l_Some. Qed.

Lemma increasing_snoc l i :
  increasing l -> (forall a x, zlookup l a = Some x -> x < i) -> increasing (l ++ [i])%list.
Proof.
  intros Hi Hb a b x y Ha Hb' Hab.
  apply zlookup_app_last in Ha as [Ha|[-> ->]], Hb' as [Hb'|[-> ->]].
  - exact (Hi _ _ _ _ Ha Hb' Hab).
  - exact (Hb _ _ Ha).
  - apply zlookup_Some in Hb'. lia.
  - lia.
Qed.

Record bars_inv (w0 : world) (dev i : Z) (ids : list Z) (pos : Z) (w : world) : Prop := {
  bi_maps : maps_ok w0 dev w;
  bi_free : forall j, i <= j < 6 -> zlookup (bar (lro w)) j = Some 0;
  bi_sorted : increasing ids;
  bi_ids : forall a j, zlookup ids a = Some j -> 0 <= j < i /\ mapped (bar (lro w)) j;
  bi_config : config_bar_idx (lro w) = -1 \/
    zlookup ids pos = Some (config_bar_idx (lro w));
  bi_user : user_bar_idx (lro w) = -1;
  bi_bypass : bypass_bar_idx (lro w) = -1
}.

(** a BAR that is not present *)
Lemma bars_inv_absent w0 dev i ids pos w w' :
  bars_inv w0 dev i ids pos w -> 0 <= i < 6 -> maps_ok w0 dev w' ->
  lro w' = (lro w) <| bar ::= zinsert i 0 |> -> bars_inv w0 dev (i + 1) ids pos w'.
Proof.
  intros [Hm Hf Hs Hi Hc Hu Hb] Hr Hm' E. pose proof Hm as [Hl _].
  assert (bar (lro w') = zinsert i 0 (bar (lro w))) as Eb by (rewrite E; reflexivity).
  split; try (rewrite E; assumption); [exact Hm'| |exact Hs|].
  - intros j Hj. rewrite Eb, (zlookup_zinsert _ 6) by lia.
    case_decide; [reflexivity|]. apply Hf. lia.
  - intros a j Ha. destruct (Hi a j Ha) as [Hj (b & Hbj & Hn)].
    split; [lia|]. exists b. rewrite Eb, (zlookup_zinsert _ 6) by lia.
    rewrite decide_False by lia. split; assumption.
Qed.

(** a BAR that is mapped *)
Lemma bars_inv_present w0 dev i ids pos w w' p :
  bars_inv w0 dev i ids pos w -> 0 <= i < 6 -> p <> 0 -> maps_ok w0 dev w' ->
  lro w' = (lro w) <| bar ::= zinsert i p |> ->
  bars_inv w0 dev (i + 1) (ids ++ [i])%list pos w'.
Proof.
  intros [Hm Hf Hs Hi Hc Hu Hb] Hr Hp Hm' E. pose proof Hm as [Hl _].
  assert (bar (lro w') = zinsert i p (bar (lro w))) as Eb by (rewrite E; reflexivity).
  split; [exact Hm'| | | | | |].
  - intros j Hj. rewrite Eb, (zlookup_zinsert _ 6) by lia.
    rewrite decide_False by lia. apply Hf. lia.
  - apply increasing_snoc; [exact Hs|]. intros a x Ha. apply (Hi a x Ha).
  - intros a j Ha. apply zlookup_app_last in Ha as [Ha|[_ ->]].
    + destruct (Hi a j Ha) as [Hj (b & Hbj & Hn)]. split; [lia|]. exists b.
      rewrite Eb, (zlookup_zinsert _ 6), decide_False by lia. split; assumption.
    + split; [lia|]. exists p. rewrite Eb, (zlookup_zinsert _ 6), decide_True by lia.
      split; [reflexivity|exact Hp].
  - rewrite E. destruct Hc as [Hc|Hc]; [left; exact Hc|right].
    apply zlookup_app_l. exact Hc.
  - rewrite E. exact Hu.
  - rewrite E. exact Hb.
Qed.

(** the configuration BAR is found *)
Lemma bars_inv_found w0 dev i ids pos w :
  bars_inv w0 dev (i + 1) (ids ++ [i])%list pos w ->
  bars_inv w0 dev (i + 1) (ids ++ [i])%list (Z.of_nat (length ids))
    (w <| lro -> config_bar_idx := i |>).
Proof.
  intros [[Hl Hh] Hf Hs Hi Hc Hu Hb].
  split; try assumption; [split; assumption|]. right. apply zlookup_app_end.
Qed.

Lemma bars_inv_reads w0 dev i ids pos w f args r :
  neutral maps f ->
  bars_inv w0 dev i ids pos w -> bars_inv w0 dev i ids pos (log (Call f args r) w).
Proof.
  intros Hn [[Hl Hh] Hf Hs Hi Hc Hu Hb]. split; try assumption. split; [exact Hl|].
  intros k. rewrite (same_held_log maps f args r w Hn k). apply Hh.
Qed.

Lemma map_bar_one_ok w0 dev i ids pos w :
  bars_inv w0 dev i ids pos w -> 0 <= i < 6 ->
  wp (map_bar_one dev i ids pos) (fun r w' =>
    match r with
    | Some (ids', pos') => bars_inv w0 dev (i + 1) ids' pos' w'
    | None => maps_ok w0 dev w'
    end) w.
Proof.
  intros H Hi. unfold map_bar_one. apply wp_bind. eapply wp_conseq;
    [apply (map_single_bar_ok w0); [exact (bi_maps _ _ _ _ _ _ H)|apply (bi_free _ _ _ _ _ _ H); lia]|].
  intros len w1 (Hm & p & E & Hz & Hp).
  destruct (Z.eqb_spec len 0) as [E0|E0].
  { apply wp_ret. eapply bars_inv_absent; [exact H|exact Hi|exact Hm|].
    rewrite E, Hz by lia. reflexivity. }
  destruct (Z.ltb_spec len 0) as [E1|E1]; [apply wp_ret, Hm|].
  assert (bars_inv w0 dev (i + 1) (ids ++ [i])%list pos w1) as H1
    by (eapply bars_inv_present; [exact H|exact Hi|apply Hp; lia|exact Hm|exact E]).
  apply wp_bind, wp_getL, wp_bind. destruct (_ && _); [|apply wp_ret, wp_ret, H1].
  destruct (bi_ids _ _ _ _ _ _ H1 _ i (zlookup_app_end ids i)) as [_ (b & Hb & _)].
  unfold is_config_bar. do 2 apply wp_bind. apply wp_getL, wp_bind.
  eapply wp_index; [exact Hb|]. apply wp_bind, wp_read_register, wp_bind, wp_read_register, wp_ret.
  assert (neutral maps ioread32) as Hn by (intros ? ?; split; reflexivity).
  match goal with |- context [if ?c then _ else _] => destruct c end.
  - apply wp_bind, wp_setL, wp_ret, wp_ret, (bars_inv_found _ _ _ _ pos).
    do 2 (apply bars_inv_reads; [exact Hn|]). exact H1.
  - apply wp_ret, wp_ret. do 2 (apply bars_inv_reads; [exact Hn|]). exact H1.
Qed.

Lemma map_bars_from_ok w0 dev n : forall i ids pos w,
  bars_inv w0 dev i ids pos w -> 0 <= i -> i + Z.of_nat n = 6 ->
  wp (map_bars_from dev n i ids pos) (fun r w' =>
    match r with
    | Some (ids', pos') => bars_inv w0 dev 6 ids' pos' w'
    | None => maps_ok w0 dev w'
    end) w.
Proof.
  induction n as [|n IH]; intros i ids pos w H Hi Hn; cbn [map_bars_from].
  - apply wp_ret. replace i with 6 in H by lia. exact H.
  - apply wp_bind. eapply wp_conseq; [apply (map_bar_one_ok w0); [exact H|lia]|].
    intros [[ids' pos']|] w' H'; [apply IH; [exact H'|lia|lia]|apply wp_ret, H'].
Qed.

(** ** identify_bars *)

(** the BARs of a device that has been identified *)
Record bars_identified (d : xdma_dev) : Prop := {
  id_config : mapped (bar d) (config_bar_idx d);
  id_user : user_bar_idx d = -1 \/
    (mapped (bar d) (user_bar_idx d) /\ 0 <= user_bar_idx d < config_bar_idx d);
  id_bypass : bypass_bar_idx d = -1 \/
    (mapped (bar d) (bypass_bar_idx d) /\ config_bar_idx d < bypass_bar_idx d < 6)
}.

Lemma identify_bars_ok w0 dev ids pos w :
  bars_inv w0 dev 6 ids pos w -> config_bar_idx (lro w) <> -1 ->
  wp (identify_bars ids (Z.of_nat (length ids)) pos) (fun _ w' =>
    maps_ok w0 dev w' /\ bars_identified (lro w')) w.
Proof.
  intros [Hm Hf Hs Hi Hc Hu Hb] Hn. destruct Hc as [Hc|Hc]; [contradiction|].
  pose proof (proj2 (Hi _ _ Hc)) as Hmc. unfold identify_bars.
  assert (forall a, 0 <= a < Z.of_nat (length ids) -> exists x, zlookup ids a = Some x /\
    (0 <= x < 6 /\ mapped (bar (lro w)) x) /\ (a < pos -> x < config_bar_idx (lro w)) /\
    (pos < a -> config_bar_idx (lro w) < x)) as Hx.
  { intros a Ha. destruct (zlookup_is_Some ids a Ha) as [x Hx]. exists x.
    split; [exact Hx|]. split; [exact (Hi _ _ Hx)|].
    split; intros Hlt; eapply Hs; eassumption. }
  assert (maps_ok w0 dev w /\ bars_identified (lro w)) as Hw
    by (split; [exact Hm|split; auto]).
  destruct (Z.eqb_spec (Z.of_nat (length ids)) 1); [exact Hw|].
  destruct (Z.eqb_spec (Z.of_nat (length ids)) 2).
  { destruct (Z.eqb_spec pos 0) as [->|]; [|destruct (Z.eqb_spec pos 1) as [->|]; [|exact Hw]].
    - destruct (Hx 1) as (x & Ex & [Hr Hmx] & _ & Hlt); [lia|].
      apply wp_bind. eapply wp_index; [exact Ex|]. apply wp_setL. split; [exact Hm|].
      split; [exact Hmc|left; exact Hu|right; split; [exact Hmx|]]. cbn. lia.
    - destruct (Hx 0) as (x & Ex & [Hr Hmx] & Hlt & _); [lia|].
      apply wp_bind. eapply wp_index; [exact Ex|]. apply wp_setL. split; [exact Hm|].
      split; [exact Hmc|right; split; [exact Hmx|]|left; exact Hb]. cbn. lia. }
  destruct (Z.eqb_spec (Z.of_nat (length ids)) 3); [|exact Hw].
  destruct (Z.eqb_spec pos 1) as [->|]; [|exact Hw].
  destruct (Hx 0) as (x & Ex & [Hr Hmx] & Hlt & _); [lia|].
  destruct (Hx 2) as (y & Ey & [Hr' Hmy] & _ & Hlt'); [lia|].
  apply wp_bind. eapply wp_index; [exact Ex|]. apply wp_bind, wp_setL, wp_bind.
  eapply wp_index; [exact Ey|]. apply wp_setL. split; [exact Hm|].
  split; [exact Hmc|right; split; [exact Hmx|cbn; lia]|right; split; [exact Hmy|cbn; lia]].
Qed.

(** a device none of whose BARs is mapped yet ([alloc_dev_instance]) *)
Definition no_bars (d : xdma_dev) : Prop :=
  bar d = replicate 6 0 /\ config_bar_idx d = -1 /\ user_bar_idx d = -1 /\
  bypass_bar_idx d = -1.

Lemma map_bars_run dev w :
  no_bars (lro w) ->
  wp (map_bars dev) (fun rc w' =>
    (rc <> 0 -> bar (lro w') = replicate 6 0 /\ same_held maps w w') /\
    (rc = 0 -> maps_ok w dev w' /\ bars_identified (lro w'))) w.
Proof.
  intros (Hb & Hc & Hu & Hy). unfold map_bars.
  assert (maps_ok w dev w) as Hm.
  { split; [rewrite Hb; reflexivity|]. intros k. rewrite Hb, bar_claims_none. lia. }
  assert (forall w1, maps_ok w dev w1 -> wp (unmap_bars dev ;; ret (-1)) (fun rc w' =>
    (rc <> 0 -> bar (lro w') = replicate 6 0 /\ same_held maps w w') /\
    (rc = 0 -> maps_ok w dev w' /\ bars_identified (lro w'))) w1) as Hfail.
  { intros w1 H1. apply wp_bind. eapply wp_conseq; [apply (unmap_bars_ok w), H1|].
    intros [] w2 [[_ H2] E]. apply wp_ret. split; [intros _|discriminate].
    split; [exact E|]. intros k. rewrite H2, E, bar_claims_none. lia. }
  apply wp_bind. eapply wp_conseq.
  { apply (map_bars_from_ok w); [|lia|reflexivity]. split; try assumption.
    - intros j Hj. rewrite Hb. unfold zlookup. destruct (Z.ltb_spec j 0); [lia|].
      apply lookup_replicate_2. lia.
    - intros a b x y Ha. apply zlookup_Some in Ha. simpl in Ha. lia.
    - intros a j Ha. apply zlookup_Some in Ha. simpl in Ha. lia.
    - left. exact Hc. }
  intros [[ids pos]|] w1 H1; [|apply Hfail, H1].
  apply wp_bind, wp_getL. destruct (Z.ltb_spec (config_bar_idx (lro w1)) 0).
  - apply Hfail, H1.
  - apply wp_bind. eapply wp_conseq; [apply (identify_bars_ok w); [exact H1|lia]|].
    intros [] w2 H2. apply wp_ret. split; [congruence|intros _; exact H2].
Qed.

(** C22: map_bars either fails with every mapping given back and the table
    empty, or succeeds with exactly the mappings of its table, the
    configuration BAR mapped, a user BAR only before it and a bypass BAR only
    behind it, both mapped when they are there. *)
Theorem map_bars_identifies dev w :
  no_bars (lro w) ->
  wp (map_bars dev) (fun rc w' =>
    (rc <> 0 -> bar (lro w') = replicate 6 0 /\ same_held maps w w') /\
    (rc = 0 -> maps_ok w dev w' /\ bars_identified (lro w'))) w.
Proof. exact (map_bars_run dev w). Qed.
End Bars.
