(* ===== verification/Creation.v ===== *)
(** * Finding, creating and removing the engines of a device (xdma-core.c)

    The engines of a device are objects of the heap [engines], named by the
    pointers of [lro->engine]; [with_engine] runs the code of one of them,
    which works on [eng]. *)
From S2P Require Import Prelude Layout Kernel World Desc Engine Setup.
#[local] Open Scope string_scope.
#[local] Open Scope Z_scope.

Section Creation.
Context {bo : ByteOrder} {env : Env}.

(** run [m] for the engine at [p] *)
Definition with_engine {A} (p : Z) (m : prog world A) : prog world A :=
  e <- deref (fun w => engines w !! p) ;;
  saved <- gets eng ;;
  modify (fun w => w <| eng := e |>) ;;
  r <- m ;;
  modify (fun w => w <| engines ::= <[p := eng w]> |> <| eng := saved |>) ;;
  ret r.

(** [kzalloc(sizeof(struct xdma_engine))]: null or a fresh object *)
Definition kzalloc_engine : prog world Z :=
  r <- ext kzalloc [] ;;
  if r =? 0 then ret 0 else
    p <- gets fresh ;;
    modify (fun w => w <| fresh := p + 1 |> <| engines ::= <[p := zero_engine]> |>) ;;
    ret p.
Definition kfree_engine (p : Z) : prog world unit :=
  ext_ kfree [p] ;;
  _ <- deref (fun w => engines w !! p) ;;
  modify (fun w => w <| engines ::= delete p |>).

(** ** The identifier register of an engine *)

Definition get_engine_type (regs : Z) : prog world Z :=
  BUG_ON (regs =? 0) ;;
  value <- read_register (er_reg "identifier" regs) ;;
  ret (if nz (Z.land value 0x8000) then 1 else 0).
Definition get_engine_channel_id (regs : Z) : prog world Z :=
  BUG_ON (regs =? 0) ;;
  value <- read_register (er_reg "identifier" regs) ;;
  ret (Z.shiftr (Z.land value 0x00000f00) 8).
Definition get_engine_id (regs : Z) : prog world Z :=
  BUG_ON (regs =? 0) ;;
  value <- read_register (er_reg "identifier" regs) ;;
  ret (Z.shiftr (Z.land value 0xffff0000) 16).

(** ** The interrupt and the write-back of an engine *)

Definition engine_msix_teardown (p : Z) : prog world unit :=
  line <- getE msix_irq_line ;;
  when (nz line) (ext_ free_irq (line :: id_engine p)).

Definition engine_msix_setup (p : Z) : prog world Z :=
  n <- getL engines_num ;;
  v <- vector (n + MAX_USER_IRQ) ;;
  rc <- ext request_irq (v :: 0 :: id_engine p) ;;
  when (negb (nz rc)) (setE (fun e => e <| msix_irq_line := v |>)) ;;
  ret rc.

Definition engine_writeback_teardown : prog world unit :=
  a <- getE poll_mode_addr_virt ;;
  when (nz a)
    (bus <- getE poll_mode_bus ;;
     ext_ pci_free_consistent [sizeof_xdma_poll_wb; a; bus]).

Definition engine_writeback_setup : prog world Z :=
  r <- ext_all pci_alloc_consistent [sizeof_xdma_poll_wb] ;;
  setE (fun e => e <| poll_mode_addr_virt := nth 0 r 0 |> <| poll_mode_bus := nth 1 r 0 |>) ;;
  a <- getE poll_mode_addr_virt ;;
  if a =? 0 then ret (-1) else
    ext_ store_word [a; 0; 0; 0] ;;
    bus <- getE poll_mode_bus ;;
    write_er "poll_mode_wb_lo" (cpu_to_le32 (PCI_DMA_L bus)) ;;
    write_er "poll_mode_wb_hi" (cpu_to_le32 (PCI_DMA_H bus)) ;;
    ret 0.

(** ** Creation *)

(** the book-keeping at the head of [engine_create] *)
Definition engine_fields (offset dir ch : Z) : prog world unit :=
  let sgdma_offset := offset + SGDMA_OFFSET_FROM_CHANNEL in
  setE (fun e => e <| magic := MAGIC_ENGINE |> <| channel := ch |>
    <| number_in_channel := b2z (dir =? 0) |>) ;;
  n <- getL engines_num ;;
  setE (fun e => e <| irq_bitmask := Z.shiftl 1 XDMA_ENG_IRQ_NUM - 1 |>) ;;
  setE (fun e => e <| irq_bitmask ::= (fun m => u32 (Z.shiftl m (n * XDMA_ENG_IRQ_NUM))) |>
    <| bypass_offset := u32 (n * BYPASS_MODE_SPACING) |>) ;;
  setE (fun e => e <| lock := false |> <| transfer_list := [] |>) ;;
  b <- config_bar ;;
  setE (fun e => e <| regs := b + offset |> <| sgdma_regs := b + sgdma_offset |>
    <| dir_to_dev := dir |>) ;;
  r <- getE regs ;;
  s <- get_engine_type r ;;
  setE (fun e => e <| streaming := s |>).

(** the error interrupts enabled by default *)
Definition default_interrupts : Z :=
  let reg_value := XDMA_CTRL_IE_DESC_ALIGN_MISMATCH in
  let reg_value := Z.lor reg_value XDMA_CTRL_IE_MAGIC_STOPPED in
  let reg_value := Z.lor reg_value XDMA_CTRL_IE_MAGIC_STOPPED in
  let reg_value := Z.lor reg_value XDMA_CTRL_IE_READ_ERROR in
  Z.lor reg_value XDMA_CTRL_IE_DESC_ERROR.

(** and those of completion *)
Definition completion_interrupts (e : xdma_engine) (dir_to_dev reg_value : Z) : Z :=
  let reg_value := Z.lor reg_value XDMA_CTRL_IE_DESC_STOPPED in
  let reg_value := Z.lor reg_value XDMA_CTRL_IE_DESC_COMPLETED in
  if nz (streaming e) && (dir_to_dev =? 0)
  then Z.lor reg_value XDMA_CTRL_IE_IDLE_STOPPED else reg_value.

(** apply the configuration, and queue the transfer of a receive ring *)
Definition engine_enable (reg_value : Z) : prog world Z :=
  write_er "interrupt_enable_mask" reg_value ;;
  t <- getE rx_transfer_cyclic ;;
  when (nz t) (_ <- transfer_queue t ;; ret tt) ;;
  ret 0.

(** from [engines_num++] to the label [success] or the jump to [fail_wb] *)
Definition engine_configure (dir_to_dev : Z) : prog world Z :=
  setL (fun d => d <| engines_num ::= Z.add 1 |>) ;;
  write_er "control_w1c" XDMA_CTRL_NON_INCR_ADDR ;;
  engine_alignments ;;
  let reg_value := default_interrupts in
  rc <- (if poll_mode then engine_writeback_setup else ret 0) ;;
  if nz rc then ret rc else
    reg_value <- (if poll_mode then ret reg_value
                  else getE (fun e => completion_interrupts e dir_to_dev reg_value)) ;;
    engine_enable reg_value.

(** the engine or null *)
Definition engine_create (offset dir_to_dev channel : Z) : prog world Z :=
  p <- kzalloc_engine ;;
  if p =? 0 then ret 0 else
    rc <- with_engine p (
      engine_fields offset dir_to_dev channel ;;
      msix <- getL msix_enabled ;;
      rc <- (if nz msix then engine_msix_setup p else ret 0) ;;
      if nz rc then ret rc
      else
        rc <- engine_configure dir_to_dev ;;
        when (nz rc) (engine_msix_teardown p) ;;
        ret rc) ;;
    if nz rc then kfree_engine p ;; ret 0 else ret p.

Definition engine_destroy (p : Z) : prog world unit :=
  BUG_ON (p =? 0) ;;
  with_engine p (
    write_er "interrupt_enable_mask" 0x0 ;;
    engine_msix_teardown p ;;
    when poll_mode engine_writeback_teardown) ;;
  kfree_engine p ;;
  setL (fun d => d <| engines_num ::= (fun n => n - 1) |>).

(** ** The engines of a device *)

(** [lro->engine[channel][dir]] *)
Definition get_engine (channel dir : Z) : prog world Z :=
  es <- getL engine ;; index es (2 * channel + dir).
Definition set_engine_at (channel dir p : Z) : prog world unit :=
  setL (fun d => d <| engine ::= zinsert (2 * channel + dir) p |>).

Definition remove_engines : prog world unit :=
  for_ 0 XDMA_CHANNEL_NUM_MAX (fun channel =>
    engine <- get_engine channel 0 ;;
    when (nz engine) (engine_destroy engine) ;;
    engine <- get_engine channel 1 ;;
    when (nz engine) (engine_destroy engine)).

Definition probe_for_engine (dir_to_dev channel : Z) : prog world Z :=
  let dir_from_dev := b2z (dir_to_dev =? 0) in
  let offset := dir_from_dev * H2C_CHANNEL_OFFSET + channel * CHANNEL_SPACING in
  b <- config_bar ;;
  let regs := b + offset in
  let engine_id_expected := if nz dir_to_dev then XDMA_ID_H2C else XDMA_ID_C2H in
  engine_id <- get_engine_id regs ;;
  channel_id <- get_engine_channel_id regs ;;
  if negb (engine_id =? engine_id_expected) then ret 0
  else if negb (channel_id =? channel) then ret 0
  else
    e <- engine_create offset dir_to_dev channel ;;
    set_engine_at channel dir_from_dev e ;;
    ret (if e =? 0 then -1 else 0).

(** [for (...) { rc = probe_for_engine(lro, dir, channel); if (rc) leave; }] *)
Definition probe_direction (dir_to_dev : Z) : prog world (option Z) :=
  for_exit 0 XDMA_CHANNEL_NUM_MAX (fun channel =>
    rc <- probe_for_engine dir_to_dev channel ;;
    ret (if nz rc then Some rc else None)).

Definition probe_engines : prog world Z :=
  r <- probe_direction 1 ;;
  match r with
  | Some rc => remove_engines ;; ret rc
  | None =>
      r <- probe_direction 0 ;;
      ret (match r with Some rc => rc | None => 0 end)
  end.
End Creation.
