(* ===== verification/CreationFacts.v ===== *)
(** * Facts on the engines of a device *)
From S2P Require Import Prelude Layout Kernel World Desc Engine Ledger Setup SetupFacts Creation.
#[local] Open Scope string_scope.
#[local] Open Scope Z_scope.
Ltac wp_hook ::= wp_engine.

Section Creation.
Context {bo : ByteOrder} {env : Env}.

Lemma wp_with_engine {A} p e (m : prog world A) (Q : A -> world -> Prop) w :
  engines w !! p = Some e ->
  wp m (fun a w' => Q a (w' <| engines ::= <[p := eng w']> |> <| eng := eng w |>))
    (w <| eng := e |>) ->
  wp (with_engine p m) Q w.
Proof.
  intros He H. unfold with_engine. apply wp_bind. eapply wp_deref; [exact He|].
  apply wp_bind, wp_gets, wp_bind, wp_modify, wp_bind. eapply wp_conseq; [exact H|].
  intros a w' H'. apply wp_bind, wp_modify, wp_ret, H'.
Qed.

(** the engine [engine_create] makes, from the state of the device *)
Record engine_made (d : xdma_dev) (b offset dir ch : Z) (e : xdma_engine) : Prop := {
  em_magic : magic e = MAGIC_ENGINE;
  em_channel : channel e = ch;
  em_number : number_in_channel e = b2z (dir =? 0);
  em_dir : dir_to_dev e = dir;
  em_regs : regs e = b + offset;
  em_sgdma : sgdma_regs e = b + (offset + SGDMA_OFFSET_FROM_CHANNEL);
  em_bitmask : irq_bitmask e = 2 ^ engines_num d;
  em_bypass : bypass_offset e = engines_num d * BYPASS_MODE_SPACING;
  em_streaming : streaming e = 0 \/ streaming e = 1;
  em_idle : running e = 0 /\ transfer_list e = [] /\ lock e = false /\
    rx_transfer_cyclic e = 0
}.

(** the interrupt and the write-back buffer an engine holds *)
Definition engine_irq (p : Z) (e : xdma_engine) (k : list Z) : Z :=
  is_key (if msix_irq_line e =? 0 then None else Some (msix_irq_line e :: id_engine p)) k.
Definition engine_buf (e : xdma_engine) (k : list Z) : Z :=
  is_key (if poll_mode_addr_virt e =? 0 then None
          else Some [sizeof_xdma_poll_wb; poll_mode_addr_virt e; poll_mode_bus e]) k.

Lemma engine_bit n : 0 <= n < 8 ->
  u32 (Z.shiftl (Z.shiftl 1 XDMA_ENG_IRQ_NUM - 1) (n * XDMA_ENG_IRQ_NUM)) = 2 ^ n.
Proof.
  intros Hn. unfold XDMA_ENG_IRQ_NUM. rewrite Z.mul_1_r. change (Z.shiftl 1 1 - 1) with 1.
  rewrite Z.shiftl_1_l. apply u32_id. unfold is_u32. split; [apply Z.pow_nonneg; lia|].
  apply Z.pow_lt_mono_r; lia.
Qed.

(** the state but for the engine at work and the history *)
Definition same_rest (w w' : world) : Prop :=
  lro w' = lro w /\ engines w' = engines w /\ fresh w' = fresh w /\ chars w' = chars w /\
  dev_present w' = dev_present w /\ transfers w' = transfers w /\ coherent w' = coherent w.

#[local] Instance same_rest_preorder : PreOrder same_rest.
Proof.
  split; [repeat split|]. unfold same_rest. intros w1 w2 w3. intuition congruence.
Qed.

Lemma engine_fields_ok offset dir ch b w :
  eng w = zero_engine ->
  zlookup (bar (lro w)) (config_bar_idx (lro w)) = Some b ->
  b + offset <> 0 -> 0 <= engines_num (lro w) < 8 ->
  wp (engine_fields offset dir ch) (fun _ w' =>
    engine_made (lro w) b offset dir ch (eng w') /\ same_rest w w' /\
    (msix_irq_line (eng w') = 0 /\ poll_mode_addr_virt (eng w') = 0) /\
    same_held irqs w w' /\ same_held buffers w w') w.
Proof.
  intros E Hb Hnz Hn. unfold engine_fields, config_bar, get_engine_type.
  apply wp_bind, wp_setE, wp_bind, wp_getL.
  do 3 apply wp_bind, wp_setE. do 2 apply wp_bind. apply wp_getL, wp_bind, wp_getL.
  eapply wp_index; [exact Hb|]. apply wp_bind, wp_setE, wp_bind, wp_getE, wp_bind, wp_bind.
  apply wp_BUG_ON; [apply Z.eqb_neq, Hnz|]. apply wp_bind, wp_read_register, wp_ret, wp_setE.
  split; [|split; [|split; [|split; intros k; reflexivity]]].
  - cbn. rewrite E. split; cbn; try reflexivity; auto.
    + apply engine_bit, Hn.
    + apply u32_id. unfold is_u32, BYPASS_MODE_SPACING. lia.
    + destruct (nz _); auto.
  - repeat split.
  - cbn. rewrite E. split; reflexivity.
Qed.

Lemma engine_made_frame d b off dir ch e e' :
  engine_made d b off dir ch e ->
  magic e' = magic e -> channel e' = channel e -> number_in_channel e' = number_in_channel e ->
  dir_to_dev e' = dir_to_dev e -> regs e' = regs e -> sgdma_regs e' = sgdma_regs e ->
  irq_bitmask e' = irq_bitmask e -> bypass_offset e' = bypass_offset e ->
  streaming e' = streaming e -> running e' = running e -> transfer_list e' = transfer_list e ->
  lock e' = lock e -> rx_transfer_cyclic e' = rx_transfer_cyclic e ->
  engine_made d b off dir ch e'.
Proof. intros []. intros. split; intuition congruence. Qed.

(** ** The interrupt and the write-back of an engine *)

Lemma engine_msix_setup_ok p w v :
  zlookup (entry_vector (lro w)) (engines_num (lro w) + MAX_USER_IRQ) = Some v ->
  v <> 0 -> msix_irq_line (eng w) = 0 ->
  wp (engine_msix_setup p) (fun rc w' =>
    same_rest w w' /\ same_held buffers w w' /\
    (forall k, held irqs (trace w') k = held irqs (trace w) k + engine_irq p (eng w') k) /\
    eng w' = if nz rc then eng w else (eng w) <| msix_irq_line := v |>) w.
Proof.
  intros Hv Hnz Hl. unfold engine_msix_setup.
  apply wp_bind, wp_getL, wp_bind, (wp_vector _ v); [exact Hv|].
  apply wp_bind, wp_ext, wp_bind. set (r := answer _ _ _). unfold nz, engine_irq.
  destruct (Z.eqb_spec (nth 0 r 0) 0) as [E|E]; apply wp_when; intros Hc; try discriminate Hc.
  - apply wp_setE, wp_ret. split; [repeat split|]. split; [intros k; reflexivity|].
    split; [|rewrite E; reflexivity]. intros k. cbn [eng msix_irq_line].
    match goal with |- held _ (trace ?s) _ = _ =>
      change (held irqs (Call request_irq (v :: 0 :: id_engine p) r :: trace w) k
        = held irqs (trace w) k + is_key (if v =? 0 then None else Some (v :: id_engine p)) k) end.
    rewrite held_cons. cbn [taken_by given_by irqs]. rewrite E, Z.eqb_refl, is_key_none.
    rewrite (proj2 (Z.eqb_neq _ _) Hnz). lia.
  - apply wp_ret. split; [repeat split|]. split; [intros k; reflexivity|].
    split; [|unfold nz; rewrite (proj2 (Z.eqb_neq _ _) E); reflexivity].
    intros k. rewrite held_log. cbn [taken_by given_by irqs]. change (eng (log ?e w)) with (eng w).
    rewrite (proj2 (Z.eqb_neq _ _) E), Hl, Z.eqb_refl, is_key_none. lia.
Qed.

Lemma engine_msix_teardown_ok p w :
  wp (engine_msix_teardown p) (fun _ w' =>
    same_rest w w' /\ same_held buffers w w' /\ eng w' = eng w /\
    forall k, held irqs (trace w') k = held irqs (trace w) k - engine_irq p (eng w) k) w.
Proof.
  unfold engine_msix_teardown. apply wp_bind, wp_getE. unfold engine_irq.
  apply wp_when; intros H.
  - apply nz_true, Z.eqb_neq in H. apply wp_ext_.
    split; [repeat split|]. split; [intros k; reflexivity|]. split; [reflexivity|].
    intros k. rewrite held_log, H. cbn [taken_by given_by irqs]. rewrite is_key_none. lia.
  - apply nz_false in H. split; [repeat split|]. split; [intros k; reflexivity|].
    split; [reflexivity|]. intros k. rewrite H, Z.eqb_refl, is_key_none. lia.
Qed.

Lemma engine_writeback_teardown_ok w :
  wp engine_writeback_teardown (fun _ w' =>
    same_rest w w' /\ same_held irqs w w' /\ eng w' = eng w /\
    forall k, held buffers (trace w') k = held buffers (trace w) k - engine_buf (eng w) k) w.
Proof.
  unfold engine_writeback_teardown. apply wp_bind, wp_getE. unfold engine_buf.
  apply wp_when; intros H.
  - apply nz_true, Z.eqb_neq in H. apply wp_bind, wp_getE, wp_ext_.
    split; [repeat split|]. split; [intros k; reflexivity|]. split; [reflexivity|].
    intros k. rewrite held_log, H. cbn [taken_by given_by buffers]. rewrite is_key_none. lia.
  - apply nz_false in H. split; [repeat split|]. split; [intros k; reflexivity|].
    split; [reflexivity|]. intros k. rewrite H, Z.eqb_refl, is_key_none. lia.
Qed.

(** what configuring an engine leaves alone of it *)
Definition configured (e e' : xdma_engine) : Prop :=
  exists a g n v bus,
    e' = e <| addr_align := a |> <| len_granularity := g |> <| addr_bits := n |>
           <| poll_mode_addr_virt := v |> <| poll_mode_bus := bus |>.

Lemma engine_writeback_setup_ok w :
  poll_mode_addr_virt (eng w) = 0 ->
  wp engine_writeback_setup (fun rc w' =>
    same_rest w w' /\ same_held irqs w w' /\
    (exists v bus, eng w' = (eng w) <| poll_mode_addr_virt := v |> <| poll_mode_bus := bus |>) /\
    (rc = 0 <-> poll_mode_addr_virt (eng w') <> 0) /\
    forall k, held buffers (trace w') k = held buffers (trace w) k + engine_buf (eng w') k) w.
Proof.
  intros Ha. unfold engine_writeback_setup.
  apply wp_bind, wp_ext_all, wp_bind, wp_setE, wp_bind, wp_getE.
  set (r := answer _ _ _).
  match goal with |- context [if ?c then _ else _] => change c with (nth 0 r 0 =? 0) end.
  destruct (Z.eqb_spec (nth 0 r 0) 0) as [E|E].
  - apply wp_ret. split; [repeat split|]. split; [intros k; reflexivity|].
    split; [eexists _, _; reflexivity|]. split; [cbn; rewrite E; split; [discriminate|congruence]|].
    intros k. unfold engine_buf. cbn [eng poll_mode_addr_virt].
    match goal with |- held _ (trace ?s) _ = _ =>
      change (held buffers (Call pci_alloc_consistent [sizeof_xdma_poll_wb] r :: trace w) k
        = held buffers (trace w) k + is_key (if nth 0 r 0 =? 0 then None
            else Some [sizeof_xdma_poll_wb; nth 0 r 0; nth 1 r 0]) k) end.
    rewrite held_cons. cbn [taken_by given_by buffers]. rewrite E, Z.eqb_refl, is_key_none. lia.
  - apply wp_bind, wp_ext_, wp_bind, wp_getE, wp_bind, wp_write_er, wp_bind, wp_write_er, wp_ret.
    split; [repeat split|]. split; [intros k; reflexivity|].
    split; [eexists _, _; reflexivity|]. split; [cbn; split; [intros _; exact E|reflexivity]|].
    intros k. unfold engine_buf.
    match goal with |- held _ (trace ?s) _ = _ =>
      change (held buffers (Call pci_alloc_consistent [sizeof_xdma_poll_wb] r :: trace w) k
        = held buffers (trace w) k + is_key (if nth 0 r 0 =? 0 then None
            else Some [sizeof_xdma_poll_wb; nth 0 r 0; nth 1 r 0]) k) end.
    rewrite held_cons. cbn [taken_by given_by buffers]. rewrite is_key_none.
    rewrite (proj2 (Z.eqb_neq _ _) E). cbn [app]. lia.
Qed.

Lemma engine_alignments_ok w :
  wp engine_alignments (fun _ w' =>
    same_rest w w' /\ same_held irqs w w' /\ same_held buffers w w' /\
    exists a g n, eng w' = (eng w) <| addr_align := a |> <| len_granularity := g |>
                            <| addr_bits := n |>) w.
Proof.
  unfold engine_alignments. apply wp_bind, wp_read_er. cbv zeta.
  destruct (nz _); apply wp_setE; (split; [repeat split|]);
    (split; [intros k; reflexivity|]); (split; [intros k; reflexivity|]);
    eexists _, _, _; reflexivity.
Qed.

(** ** engine_create *)

(** what an engine holds was taken since [w0], and nothing else was *)
Definition engine_holds (w0 : world) (p : Z) (w : world) : Prop :=
  (forall k, held irqs (trace w) k = held irqs (trace w0) k + engine_irq p (eng w) k) /\
  (forall k, held buffers (trace w) k = held buffers (trace w0) k + engine_buf (eng w) k).

Lemma engine_holds_frame w0 p w w' :
  engine_holds w0 p w -> same_held irqs w w' -> same_held buffers w w' ->
  msix_irq_line (eng w') = msix_irq_line (eng w) ->
  poll_mode_addr_virt (eng w') = poll_mode_addr_virt (eng w) ->
  poll_mode_bus (eng w') = poll_mode_bus (eng w) -> engine_holds w0 p w'.
Proof.
  intros [Hi Hb] Ei Eb E1 E2 E3. unfold engine_holds, engine_irq, engine_buf in *.
  split; intros k; [rewrite Ei, Hi, E1|rewrite Eb, Hb, E2, E3]; reflexivity.
Qed.

(** the state of an engine on the way to the label [success] or [fail_wb] *)
Record engine_state (d : xdma_dev) (b off dir ch : Z) (w0 : world) (p line : Z)
  (w1 w : world) : Prop := {
  es_rest : same_rest w1 w;
  es_made : engine_made d b off dir ch (eng w);
  es_holds : engine_holds w0 p w;
  es_line : msix_irq_line (eng w) = line
}.

Lemma engine_state_step d b off dir ch w0 p line w1 w w' :
  engine_state d b off dir ch w0 p line w1 w -> same_rest w w' ->
  same_held irqs w w' -> same_held buffers w w' ->
  (exists a g n, eng w' = (eng w) <| addr_align := a |> <| len_granularity := g |>
                          <| addr_bits := n |>) ->
  engine_state d b off dir ch w0 p line w1 w'.
Proof.
  intros [Hr Hm Hh Hl] R Hi Hb (a & g & n & E). split.
  - transitivity w; assumption.
  - apply (engine_made_frame _ _ _ _ _ (eng w)); [exact Hm|rewrite E; reflexivity..].
  - apply (engine_holds_frame _ _ w); [exact Hh|exact Hi|exact Hb|rewrite E; reflexivity..].
  - rewrite E. exact Hl.
Qed.

Lemma engine_same (e : xdma_engine) :
  exists a g n, e = e <| addr_align := a |> <| len_granularity := g |> <| addr_bits := n |>.
Proof. exists (addr_align e), (len_granularity e), (addr_bits e). destruct e; reflexivity. Qed.

Lemma engine_enable_ok d b off dir ch w0 p line w1 v w :
  engine_state d b off dir ch w0 p line w1 w ->
  wp (engine_enable v) (fun rc w' =>
    rc = 0 /\ engine_state d b off dir ch w0 p line w1 w' /\ eng w' = eng w) w.
Proof.
  intros H. unfold engine_enable. apply wp_bind, wp_write_er, wp_bind, wp_getE.
  match goal with |- wp _ _ ?st => set (w2 := st) end.
  change (rx_transfer_cyclic (eng w2)) with (rx_transfer_cyclic (eng w)).
  destruct (em_idle _ _ _ _ _ _ (es_made _ _ _ _ _ _ _ _ _ _ H)) as (_ & _ & _ & ->).
  apply wp_bind, wp_when; [discriminate|intros _; apply wp_ret].
  split; [reflexivity|]. split; [|reflexivity].
  apply (engine_state_step _ _ _ _ _ _ _ _ _ w); [exact H|repeat split|..].
  1, 2: intros k; reflexivity. apply engine_same.
Qed.

Lemma engine_writeback_state d b off dir ch w0 p line w1 w :
  engine_state d b off dir ch w0 p line w1 w -> poll_mode_addr_virt (eng w) = 0 ->
  wp engine_writeback_setup (fun rc w' =>
    engine_state d b off dir ch w0 p line w1 w' /\
    (rc = 0 <-> poll_mode_addr_virt (eng w') <> 0)) w.
Proof.
  intros [Hr Hm [Hhi Hhb] Hl] P. eapply wp_conseq; [apply engine_writeback_setup_ok, P|].
  intros rc w' (R & Hi & (v & bus & E) & Hrc & Hb). split; [|exact Hrc]. split.
  - transitivity w; assumption.
  - apply (engine_made_frame _ _ _ _ _ (eng w)); [exact Hm|rewrite E; reflexivity..].
  - split; intros k.
    + rewrite Hi, Hhi. unfold engine_irq. rewrite E. reflexivity.
    + rewrite Hb, Hhb. unfold engine_buf at 1. rewrite P, Z.eqb_refl, is_key_none. lia.
  - rewrite E. exact Hl.
Qed.

Lemma engine_configure_ok d b off dir ch w0 p w :
  engine_made d b off dir ch (eng w) -> poll_mode_addr_virt (eng w) = 0 ->
  engine_holds w0 p w ->
  wp (engine_configure dir) (fun rc w' =>
    engine_state d b off dir ch w0 p (msix_irq_line (eng w))
      (w <| lro -> engines_num ::= Z.add 1 |>) w' /\
    (rc = 0 -> nz (poll_mode_addr_virt (eng w')) = poll_mode) /\
    (rc <> 0 -> poll_mode = true /\ poll_mode_addr_virt (eng w') = 0)) w.
Proof.
  intros Hm P Hh. unfold engine_configure.
  apply wp_bind, wp_setL, wp_bind, wp_write_er, wp_bind.
  match goal with |- wp _ _ ?st => set (w1 := st) end.
  assert (engine_state d b off dir ch w0 p (msix_irq_line (eng w))
    (w <| lro -> engines_num ::= Z.add 1 |>) w1) as H1.
  { split; [repeat split|exact Hm|split; apply Hh|reflexivity]. }
  assert (poll_mode_addr_virt (eng w1) = 0) as P1 by exact P. clearbody w1.
  eapply wp_conseq; [apply engine_alignments_ok|]. intros [] w2 (R2 & Hi2 & Hb2 & E2).
  assert (poll_mode_addr_virt (eng w2) = 0) as P2
    by (destruct E2 as (a & g & n & ->); exact P1).
  pose proof (engine_state_step _ _ _ _ _ _ _ _ _ _ _ H1 R2 Hi2 Hb2 E2) as H2.
  cbv zeta. apply wp_bind. destruct poll_mode eqn:Epoll.
  - eapply wp_conseq; [apply engine_writeback_state; [exact H2|exact P2]|].
    intros rc w3 [H3 Hrc]. destruct (nz rc) eqn:Erc.
    + apply nz_true in Erc. apply wp_ret. split; [exact H3|]. split; [contradiction|intros _].
      split; [reflexivity|]. destruct (Z.eq_dec (poll_mode_addr_virt (eng w3)) 0); tauto.
    + apply nz_false in Erc. apply wp_bind, wp_ret. eapply wp_conseq; [apply engine_enable_ok, H3|].
      intros rc' w4 (-> & H4 & E4). split; [exact H4|]. split; [|congruence].
      intros _. rewrite E4. apply nz_true, Hrc, Erc.
  - apply wp_ret. change (nz 0) with false. cbv iota. apply wp_bind, wp_getE.
    eapply wp_conseq; [apply engine_enable_ok, H2|].
    intros rc' w4 (-> & H4 & E4). split; [exact H4|]. split; [|congruence].
    intros _. rewrite E4, P2. reflexivity.
Qed.

(** a device on which an engine can be created *)
Record probe_ready (b : Z) (w : world) : Prop := {
  pr_bar : zlookup (bar (lro w)) (config_bar_idx (lro w)) = Some b;
  pr_vectors : length (entry_vector (lro w)) = 32%nat;
  pr_msix : msix_enabled (lro w) <> 0 ->
    forall i v, 0 <= i < 24 -> zlookup (entry_vector (lro w)) i = Some v -> v <> 0;
  pr_fresh : 0 < fresh w;
  pr_heap : forall p, p <= 0 \/ fresh w <= p -> engines w !! p = None
}.

(** the line of the MSI-X interrupt of the next engine, 0 when there is none *)
Definition next_line (d : xdma_dev) : Z :=
  if nz (msix_enabled d)
  then default 0 (zlookup (entry_vector d) (engines_num d + MAX_USER_IRQ)) else 0.

(** ** What the registers say *)

(** an access of a register *)
Inductive reg_access : Type :=
| RegRead (a v : Z)
| RegWrite (a v : Z).
Definition access_of (e : ev) : option reg_access :=
  match e with
  | Call ioread32 [a] r => Some (RegRead a (u32 (nth 0 r 0)))
  | Call iowrite32 [a; v] _ => Some (RegWrite a v)
  | _ => None
  end.
(** the accesses of a history, oldest first *)
Definition accesses (h : history) : list reg_access := rev (omap access_of h).

Lemma accesses_cons e h : accesses (e :: h) = (accesses h ++ option_list (access_of e))%list.
Proof.
  unfold accesses. cbn [omap list_omap]. destruct (access_of e); cbn [rev option_list]; [reflexivity|].
  rewrite app_nil_r. reflexivity.
Qed.

(** the alignment, the granularity and the address bits in the word of the
    alignments register; none of the former two and 64 bits when it is 0 *)
Definition alignment_fields (w : Z) : Z * Z * Z :=
  if w =? 0 then (1, 1, 64) else ((w / 2 ^ 16) mod 2 ^ 8, (w / 2 ^ 8) mod 2 ^ 8, w mod 2 ^ 8).

(** the interrupts an engine has enabled: the errors; unless it is polled, also
    those that tell of completion, and for a streaming engine that receives, of
    the end of a packet *)
Definition enabled_mask (poll stream receive : bool) : Z :=
  foldr Z.lor 0 (([XDMA_CTRL_IE_DESC_ALIGN_MISMATCH; XDMA_CTRL_IE_MAGIC_STOPPED; XDMA_CTRL_IE_READ_ERROR;
     XDMA_CTRL_IE_DESC_ERROR] ++ (if poll then [] else [XDMA_CTRL_IE_DESC_STOPPED; XDMA_CTRL_IE_DESC_COMPLETED])
     ++ (if negb poll && stream && receive then [XDMA_CTRL_IE_IDLE_STOPPED] else []))%list).

(** The engine [e] is set up as its registers say, [h] before and [h'] after:
    the identifier is read, and its bit 15 says whether the engine streams; the
    increment of addresses is left on; the alignments are read; a polled engine
    is told where to write back; and the interrupts are enabled. *)
Definition set_up_from (r dir : Z) (h h' : history) (e : xdma_engine) : Prop :=
  exists identifier alignments,
    accesses h' = (accesses h ++
      [RegRead (er_reg "identifier" r) identifier;
       RegWrite (er_reg "control_w1c" r) XDMA_CTRL_NON_INCR_ADDR;
       RegRead (er_reg "alignments" r) alignments] ++
      (if poll_mode then
        [RegWrite (er_reg "poll_mode_wb_lo" r) (cpu_to_le32 (PCI_DMA_L (poll_mode_bus e)));
         RegWrite (er_reg "poll_mode_wb_hi" r) (cpu_to_le32 (PCI_DMA_H (poll_mode_bus e)))] else []) ++
      [RegWrite (er_reg "interrupt_enable_mask" r) (enabled_mask poll_mode (Z.testbit identifier 15) (dir =? 0))])%list /\
    streaming e = b2z (Z.testbit identifier 15) /\
    (addr_align e, len_granularity e, addr_bits e) = alignment_fields alignments.

(** a run of the head of the set-up *)
Record setting_up (r : Z) (l : list reg_access) (h : history) (s : Z) (w : world) : Prop := {
  su_accesses : accesses (trace w) = (accesses h ++ l)%list;
  su_regs : regs (eng w) = r;
  su_streaming : streaming (eng w) = s;
  su_cyclic : rx_transfer_cyclic (eng w) = 0
}.

Lemma setting_up_event r l h s w w' e :
  setting_up r l h s w -> trace w' = e :: trace w -> regs (eng w') = regs (eng w) ->
  streaming (eng w') = streaming (eng w) -> rx_transfer_cyclic (eng w') = rx_transfer_cyclic (eng w) ->
  setting_up r (l ++ option_list (access_of e))%list h s w'.
Proof.
  intros [H1 H2 H3 H4] Et E1 E2 E3. split; [rewrite Et, accesses_cons, H1, app_assoc; reflexivity|congruence..].
Qed.

Lemma setting_up_quiet r l h s w w' e :
  access_of e = None -> setting_up r l h s w -> trace w' = e :: trace w -> regs (eng w') = regs (eng w) ->
  streaming (eng w') = streaming (eng w) -> rx_transfer_cyclic (eng w') = rx_transfer_cyclic (eng w) ->
  setting_up r l h s w'.
Proof.
  intros E H Et E1 E2 E3. pose proof (setting_up_event _ _ _ _ _ _ _ H Et E1 E2 E3) as H'.
  rewrite E in H'. cbn [option_list] in H'. rewrite app_nil_r in H'. exact H'.
Qed.

Lemma bit_15 v : (if nz (Z.land v 0x8000) then 1 else 0) = b2z (Z.testbit v 15).
Proof.
  unfold nz. destruct (Z.testbit v 15) eqn:E; cbn [b2z].
  - destruct (Z.eqb_spec (Z.land v 0x8000) 0) as [H|H]; [|reflexivity].
    assert (Z.testbit (Z.land v 0x8000) 15 = true) as H' by (rewrite Z.land_spec, E; reflexivity).
    rewrite H in H'. discriminate.
  - replace (Z.land v 0x8000) with 0; [reflexivity|]. symmetry. apply Z.bits_inj'. intros n Hn.
    rewrite Z.land_spec, Z.bits_0. change 0x8000 with (2 ^ 15). rewrite Z.pow2_bits_eqb by lia.
    destruct (Z.eqb_spec 15 n) as [<-|]; [rewrite E; reflexivity|apply andb_false_r].
Qed.

Lemma engine_fields_reads offset dir ch b w :
  eng w = zero_engine -> zlookup (bar (lro w)) (config_bar_idx (lro w)) = Some b -> b + offset <> 0 ->
  wp (engine_fields offset dir ch) (fun _ w' => exists v,
    setting_up (b + offset) [RegRead (er_reg "identifier" (b + offset)) v] (trace w) (b2z (Z.testbit v 15)) w') w.
Proof.
  intros E Hb Hnz. unfold engine_fields, config_bar, get_engine_type.
  apply wp_bind, wp_setE, wp_bind, wp_getL.
  do 3 apply wp_bind, wp_setE. do 2 apply wp_bind. apply wp_getL, wp_bind, wp_getL.
  eapply wp_index; [exact Hb|]. apply wp_bind, wp_setE, wp_bind, wp_getE, wp_bind, wp_bind.
  apply wp_BUG_ON; [apply Z.eqb_neq, Hnz|]. apply wp_bind, wp_read_register. cbv zeta.
  set (rv := answer _ _ _). apply wp_ret, wp_setE. exists (u32 (nth 0 rv 0)). split.
  - exact (accesses_cons (Call ioread32 [er_reg "identifier" (b + offset)] rv) (trace w)).
  - reflexivity.
  - exact (bit_15 (u32 (nth 0 rv 0))).
  - cbn. rewrite E. reflexivity.
Qed.

(** runs that touch no register, and nothing the set-up is about *)
Definition unread (w w' : world) : Prop :=
  accesses (trace w') = accesses (trace w) /\ regs (eng w') = regs (eng w) /\
  streaming (eng w') = streaming (eng w) /\ rx_transfer_cyclic (eng w') = rx_transfer_cyclic (eng w).

#[local] Instance unread_preorder : PreOrder unread.
Proof. split; [repeat split|]. unfold unread. intros w1 w2 w3. intuition congruence. Qed.

Lemma unread_ext f args : (forall r, access_of (Call f args r) = None) -> keeps unread (ext f args).
Proof.
  intros H w a w' E. injection E as _ <-. split; [|repeat split].
  etransitivity; [exact (accesses_cons (Call f args _) (trace w))|]. rewrite H. apply app_nil_r.
Qed.
#[local] Hint Resolve unread_ext : keeps.

Lemma unread_msix p : keeps unread (engine_msix_setup p).
Proof.
  unfold engine_msix_setup, vector, getL, index, setE.
  repeat first [apply unread_ext; reflexivity | apply keeps_bind; [typeclasses eauto| |intros ?]
    | apply keeps_when; [typeclasses eauto|] | apply keeps_modify; intros w; repeat split
    | keeps_tac].
Qed.

Lemma setting_up_unread r l h s w w' : setting_up r l h s w -> unread w w' -> setting_up r l h s w'.
Proof. intros [H1 H2 H3 H4] (E1 & E2 & E3 & E4). split; congruence. Qed.

Lemma alignment_fields_eq w :
  alignment_fields w = (if nz w then (Z.shiftr (Z.land w 0x00ff0000) 16, Z.shiftr (Z.land w 0x0000ff00) 8, Z.land w 0x000000ff)
    else (1, 1, 64)).
Proof.
  unfold alignment_fields, nz. destruct (w =? 0); [reflexivity|]. cbn [negb].
  rewrite !Z.shiftr_land. change (Z.shiftr 0x00ff0000 16) with (Z.ones 8). change (Z.shiftr 0x0000ff00 8) with (Z.ones 8).
  change 0xff with (Z.ones 8). rewrite !Z.land_ones, !Z.shiftr_div_pow2 by lia. reflexivity.
Qed.

Lemma engine_alignments_reads r l h s w :
  setting_up r l h s w ->
  wp engine_alignments (fun _ w' => exists v,
    setting_up r (l ++ [RegRead (er_reg "alignments" r) v])%list h s w' /\
    (addr_align (eng w'), len_granularity (eng w'), addr_bits (eng w')) = alignment_fields v) w.
Proof.
  intros H. unfold engine_alignments. apply wp_bind, wp_read_er. cbv zeta. set (rv := answer _ _ _).
  pose proof (su_regs _ _ _ _ _ H) as Er. set (e := Call ioread32 _ rv).
  set (v := u32 (nth 0 rv 0)).
  destruct (nz v) eqn:Ev; apply wp_setE; exists v; rewrite alignment_fields_eq, Ev; (split; [|reflexivity]);
    rewrite <- Er; (eapply (setting_up_event _ _ _ _ w _ e); [rewrite Er; exact H|reflexivity..]).
Qed.

Lemma engine_writeback_reads r l h s w :
  setting_up r l h s w ->
  wlp engine_writeback_setup (fun rc w' => rc = 0 ->
    setting_up r (l ++ [RegWrite (er_reg "poll_mode_wb_lo" r) (cpu_to_le32 (PCI_DMA_L (poll_mode_bus (eng w'))));
      RegWrite (er_reg "poll_mode_wb_hi" r) (cpu_to_le32 (PCI_DMA_H (poll_mode_bus (eng w'))))])%list h s w' /\
    (addr_align (eng w'), len_granularity (eng w'), addr_bits (eng w'))
      = (addr_align (eng w), len_granularity (eng w), addr_bits (eng w))) w.
Proof.
  intros H. apply wp_wlp. unfold engine_writeback_setup.
  apply wp_bind, wp_ext_all, wp_bind, wp_setE, wp_bind, wp_getE. set (rv := answer _ _ _).
  match goal with |- wp _ _ ?st => set (w1 := st) end.
  assert (setting_up r l h s w1) as H1 by (apply (setting_up_quiet _ _ _ _ w _ (Call pci_alloc_consistent [sizeof_xdma_poll_wb] rv)); [reflexivity|exact H|reflexivity..]).
  destruct (_ =? 0); [apply wp_ret; discriminate|].
  apply wp_bind, wp_ext_, wp_bind, wp_getE, wp_bind, wp_write_er, wp_bind, wp_write_er, wp_ret. intros _.
  split; [|reflexivity]. pose proof (su_regs _ _ _ _ _ H1) as Er. set (bus := poll_mode_bus (eng w1)).
  set (e2 := Call store_word [poll_mode_addr_virt (eng w1); 0; 0; 0] []).
  set (e3 := Call iowrite32 [er_reg "poll_mode_wb_lo" (regs (eng w1)); cpu_to_le32 (PCI_DMA_L bus)] []).
  set (e4 := Call iowrite32 [er_reg "poll_mode_wb_hi" (regs (eng w1)); cpu_to_le32 (PCI_DMA_H bus)] []).
  assert (setting_up r l h s (log e2 w1)) as H2 by (apply (setting_up_quiet _ _ _ _ w1 _ e2); [reflexivity|exact H1|reflexivity..]).
  pose proof (setting_up_event _ _ _ _ _ (log e3 (log e2 w1)) e3 H2 eq_refl eq_refl eq_refl eq_refl) as H3.
  pose proof (setting_up_event _ _ _ _ _ (log e4 (log e3 (log e2 w1))) e4 H3 eq_refl eq_refl eq_refl eq_refl) as H4.
  set (w4 := log e4 _) in H4. cbn [e3 e4 access_of option_list] in H4. rewrite Er, <- app_assoc in H4. exact H4.
Qed.

Lemma engine_enable_reads r l h s v w :
  setting_up r l h s w ->
  wp (engine_enable v) (fun _ w' =>
    setting_up r (l ++ [RegWrite (er_reg "interrupt_enable_mask" r) v])%list h s w' /\ eng w' = eng w) w.
Proof.
  intros H. unfold engine_enable. apply wp_bind, wp_write_er, wp_bind, wp_getE.
  change (rx_transfer_cyclic _) with (rx_transfer_cyclic (eng w)). rewrite (su_cyclic _ _ _ _ _ H).
  apply wp_bind, wp_when; [discriminate|intros _; apply wp_ret]. split; [|reflexivity].
  pose proof (su_regs _ _ _ _ _ H) as Er.
  set (e := Call iowrite32 [er_reg "interrupt_enable_mask" (regs (eng w)); v] []).
  pose proof (setting_up_event _ _ _ _ _ (log e w) e H eq_refl eq_refl eq_refl eq_refl) as H1.
  set (w1 := log e w) in *. cbn [e access_of option_list] in H1. rewrite Er in H1. exact H1.
Qed.

Lemma enabled_mask_poll stream receive : enabled_mask true stream receive = default_interrupts.
Proof. reflexivity. Qed.

Lemma enabled_mask_irq e dir b :
  streaming e = b2z b -> enabled_mask false b (dir =? 0) = completion_interrupts e dir default_interrupts.
Proof. intros E. unfold completion_interrupts. rewrite E. destruct b, (dir =? 0); reflexivity. Qed.

Lemma engine_configure_reads r dir h v w :
  setting_up r [RegRead (er_reg "identifier" r) v] h (b2z (Z.testbit v 15)) w ->
  wlp (engine_configure dir) (fun rc w' => rc = 0 -> set_up_from r dir h (trace w') (eng w')) w.
Proof.
  intros H. pose proof (su_regs _ _ _ _ _ H) as Er. unfold engine_configure.
  apply wlp_bind, wp_wlp, wp_setL, wlp_bind, wp_wlp, wp_write_er, wlp_bind.
  set (w0 := w <| lro ::= _ |>). set (e := Call iowrite32 _ _).
  assert (setting_up r [RegRead (er_reg "identifier" r) v] h (b2z (Z.testbit v 15)) w0) as H0 by (destruct H; split; assumption).
  pose proof (setting_up_event _ _ _ _ _ (log e w0) e H0 eq_refl eq_refl eq_refl eq_refl) as H1. clear H0.
  set (w1 := log e w0) in *. clearbody w1. cbn [e access_of option_list app] in H1.
  change (regs (eng w0)) with (regs (eng w)) in H1. rewrite Er in H1.
  apply wp_wlp. eapply wp_conseq; [apply (engine_alignments_reads _ _ _ _ _ H1)|].
  intros [] w2 (al & H2 & Ea). apply wlp_bind. unfold set_up_from. destruct poll_mode.
  - eapply wlp_conseq; [apply (engine_writeback_reads _ _ _ _ _ H2)|]. intros rc w3 H3.
    destruct (nz rc) eqn:Erc; [apply wlp_ret; intros ->; discriminate|]. apply nz_false in Erc.
    destruct (H3 Erc) as [H4 Ea3]. apply wlp_bind, wlp_ret, wp_wlp.
    eapply wp_conseq; [apply (engine_enable_reads _ _ _ _ _ _ H4)|]. intros rc' w4 [H5 E5] _. exists v, al.
    split; [|split; [exact (su_streaming _ _ _ _ _ H5)|rewrite E5, Ea3; exact Ea]].
    rewrite (su_accesses _ _ _ _ _ H5), E5, enabled_mask_poll, <- !app_assoc. reflexivity.
  - apply wlp_ret. change (nz 0) with false. cbv iota. apply wlp_bind, wp_wlp, wp_getE, wp_wlp.
    eapply wp_conseq; [apply (engine_enable_reads _ _ _ _ _ _ H2)|]. intros rc' w4 [H5 E5] _. exists v, al.
    split; [|split; [exact (su_streaming _ _ _ _ _ H5)|rewrite E5; exact Ea]].
    rewrite (su_accesses _ _ _ _ _ H5), (enabled_mask_irq (eng w2)) by exact (su_streaming _ _ _ _ _ H2).
    rewrite <- !app_assoc. reflexivity.
Qed.

(** what [engine_create] promises *)
Definition engine_created (b off dir ch : Z) (w : world) (p : Z) (w' : world) : Prop :=
  eng w' = eng w /\ chars w' = chars w /\
  if p =? 0 then
    engines w' = engines w /\ fresh w <= fresh w' /\
    same_held irqs w w' /\ same_held buffers w w' /\
    (lro w' = lro w \/ (poll_mode = true /\ lro w' = (lro w) <| engines_num ::= Z.add 1 |>))
  else
    p = fresh w /\ fresh w' = p + 1 /\ lro w' = (lro w) <| engines_num ::= Z.add 1 |> /\
    exists e, engines w' = <[p := e]> (engines w) /\
      engine_made (lro w) b off dir ch e /\ msix_irq_line e = next_line (lro w) /\
      nz (poll_mode_addr_virt e) = poll_mode /\
      (forall k, held irqs (trace w') k = held irqs (trace w) k + engine_irq p e k) /\
      (forall k, held buffers (trace w') k = held buffers (trace w) k + engine_buf e k) /\
      set_up_from (b + off) dir (trace w) (trace w') e.

Lemma next_line_ok b w :
  probe_ready b w -> 0 <= engines_num (lro w) < 8 -> nz (msix_enabled (lro w)) = true ->
  exists v, zlookup (entry_vector (lro w)) (engines_num (lro w) + MAX_USER_IRQ) = Some v /\
    v <> 0 /\ next_line (lro w) = v.
Proof.
  intros H Hn Hm. unfold next_line, MAX_USER_IRQ. rewrite Hm.
  destruct (zlookup_is_Some (entry_vector (lro w)) (engines_num (lro w) + 16)) as [v Hv].
  { rewrite (pr_vectors _ _ H). lia. }
  exists v. rewrite Hv. split; [reflexivity|]. split; [|reflexivity].
  eapply (pr_msix _ _ H); [apply nz_true, Hm| |exact Hv]. lia.
Qed.

(** the interrupt of the new engine is requested, or creation fails *)
Lemma engine_irq_step b off dir ch p w1 w :
  probe_ready b w1 -> 0 <= engines_num (lro w1) < 8 ->
  engine_state (lro w1) b off dir ch w1 p 0 w1 w -> 
  poll_mode_addr_virt (eng w) = 0 ->
  wp (msix <- getL msix_enabled ;; if nz msix then engine_msix_setup p else ret 0)
    (fun rc w' => same_rest w1 w' /\ poll_mode_addr_virt (eng w') = 0 /\
      (nz rc = true -> same_held irqs w1 w' /\ same_held buffers w1 w') /\
      (nz rc = false -> engine_state (lro w1) b off dir ch w1 p (next_line (lro w1)) w1 w')) w.
Proof.
  intros Hr Hn [R Hm [Hi Hb] Hl] P. apply wp_bind, wp_getL.
  rewrite (proj1 R). destruct (nz (msix_enabled (lro w1))) eqn:Em.
  - destruct (next_line_ok _ _ Hr Hn Em) as (v & Hv & Hnz & Ev).
    eapply wp_conseq; [apply (engine_msix_setup_ok p w v); [rewrite (proj1 R); exact Hv|exact Hnz|exact Hl]|].
    intros rc w' (R' & Hb' & Hi' & E'). split; [transitivity w; assumption|].
    split; [rewrite E'; destruct (nz rc); exact P|].
    assert (forall k, engine_irq p (eng w) k = 0) as Z0.
    { intros k. unfold engine_irq. rewrite Hl. reflexivity. }
    assert (forall k, engine_buf (eng w) k = 0) as Z1.
    { intros k. unfold engine_buf. rewrite P. reflexivity. }
    split; intros Hrc; rewrite Hrc in E'.
    + split; intros k; [rewrite Hi', Hi, E', Z0|rewrite Hb', Hb, Z1]; lia.
    + split; [transitivity w; assumption| | |rewrite E', Ev; reflexivity].
      * apply (engine_made_frame _ _ _ _ _ (eng w)); [exact Hm|rewrite E'; reflexivity..].
      * split; intros k; [rewrite Hi', Hi, Z0; lia|rewrite Hb', Hb, Z1].
        unfold engine_buf. rewrite E'. cbn. rewrite P. reflexivity.
  - apply wp_ret. split; [exact R|]. split; [exact P|]. split; [discriminate|intros _].
    split; [exact R|exact Hm|split; assumption|]. unfold next_line. rewrite Em. exact Hl.
Qed.

(** the body of [engine_create], for the engine that was just allocated *)
Definition create_body (p off dir ch : Z) : prog world Z :=
  engine_fields off dir ch ;;
  msix <- getL msix_enabled ;;
  rc <- (if nz msix then engine_msix_setup p else ret 0) ;;
  if nz rc then ret rc
  else
    rc <- engine_configure dir ;;
    when (nz rc) (engine_msix_teardown p) ;;
    ret rc.

Lemma create_body_reads b off dir ch p w :
  eng w = zero_engine -> zlookup (bar (lro w)) (config_bar_idx (lro w)) = Some b -> b + off <> 0 ->
  wlp (create_body p off dir ch) (fun rc w' =>
    nz rc = false -> set_up_from (b + off) dir (trace w) (trace w') (eng w')) w.
Proof.
  intros E Hb Hnz. unfold create_body. apply wlp_bind, wp_wlp.
  eapply wp_conseq; [apply (engine_fields_reads _ _ _ b); assumption|]. intros [] w1 (v & H1).
  apply wlp_bind, wp_wlp, wp_getL, wlp_bind. destruct (nz (msix_enabled _)).
  - apply (wlp_keeps _ _ _ _ (unread_msix p)). intros rc w2 Hu. pose proof (setting_up_unread _ _ _ _ _ _ H1 Hu) as H2.
    destruct (nz rc) eqn:Erc; [apply wlp_ret; congruence|]. apply wlp_bind.
    eapply wlp_conseq; [apply (engine_configure_reads _ _ _ _ _ H2)|]. intros rc' w3 H3.
    apply wlp_bind, wlp_when; intros Erc'; [|apply wlp_ret; intros _; apply H3, nz_false, Erc'].
    eapply wp_wlp, wp_conseq; [apply engine_msix_teardown_ok|]. intros [] w4 _. apply wlp_ret. congruence.
  - apply wlp_ret. change (nz 0) with false. cbv iota. apply wlp_bind.
    eapply wlp_conseq; [apply (engine_configure_reads _ _ _ _ _ H1)|]. intros rc' w3 H3.
    apply wlp_bind, wlp_when; intros Erc'; [|apply wlp_ret; intros _; apply H3, nz_false, Erc'].
    eapply wp_wlp, wp_conseq; [apply engine_msix_teardown_ok|]. intros [] w4 _. apply wlp_ret. congruence.
Qed.

Lemma create_body_ok b off dir ch p w :
  probe_ready b w -> eng w = zero_engine -> b + off <> 0 -> 0 <= engines_num (lro w) < 8 ->
  wp (create_body p off dir ch) (fun rc w' =>
    (nz rc = true -> same_held irqs w w' /\ same_held buffers w w' /\
      (same_rest w w' \/
       (poll_mode = true /\ same_rest (w <| lro -> engines_num ::= Z.add 1 |>) w'))) /\
    (nz rc = false ->
      engine_state (lro w) b off dir ch w p (next_line (lro w))
        (w <| lro -> engines_num ::= Z.add 1 |>) w' /\
      nz (poll_mode_addr_virt (eng w')) = poll_mode)) w.
Proof.
  intros Hr E Hnz Hn. unfold create_body. apply wp_bind.
  eapply wp_conseq; [apply (engine_fields_ok _ _ _ b); [exact E|apply Hr|exact Hnz|exact Hn]|].
  intros [] w1 (Hm & R & [Hl P] & Hi & Hb).
  assert (engine_state (lro w) b off dir ch w p 0 w w1) as H1.
  { split; [exact R|exact Hm| |exact Hl]. unfold engine_holds, engine_irq, engine_buf.
    rewrite Hl, P. split; intros k; [rewrite Hi|rewrite Hb]; rewrite Z.eqb_refl, is_key_none; lia. }
  pose proof (wp_bind_inv _ _ _ _ (engine_irq_step b off dir ch p w w1 Hr Hn H1 P)) as Hs.
  apply wp_bind. eapply wp_conseq; [exact Hs|]. intros msix w2 H2. apply wp_bind.
  eapply wp_conseq; [exact H2|]. intros rc w3 (R3 & P3 & Hbad & Hok).
  destruct (nz rc) eqn:Erc.
  - apply wp_ret. rewrite Erc. split; [intros _|discriminate]. destruct (Hbad eq_refl). auto.
  - specialize (Hok eq_refl) as [Ro Hmo Hho Hlo]. apply wp_bind.
    eapply wp_conseq; [apply (engine_configure_ok (lro w) b off dir ch w p);
      [exact Hmo|exact P3|exact Hho]|].
    intros rc' w4 ([R4 Hm4 [Hi4 Hb4] L4] & Hgood & Hfail). apply wp_bind, wp_when; intros Erc'.
    + destruct (Hfail (proj1 (nz_true _) Erc')) as [Epoll P4].
      eapply wp_conseq; [apply engine_msix_teardown_ok|].
      intros [] w5 (R5 & Hb5 & E5 & Hi5). apply wp_ret. rewrite Erc'. split; [intros _|discriminate].
      split; [intros k; rewrite Hi5, Hi4; lia|].
      split; [intros k; rewrite Hb5, Hb4; unfold engine_buf; rewrite P4, Z.eqb_refl, is_key_none; lia|].
      right. split; [exact Epoll|]. transitivity w4; [|exact R5].
      transitivity (w3 <| lro -> engines_num ::= Z.add 1 |>); [|exact R4].
      destruct R3 as (El & R3). unfold same_rest. cbn. rewrite El. tauto.
    + apply wp_ret. rewrite Erc'. split; [discriminate|intros _].
      split; [|apply Hgood, nz_false, Erc'].
      split; [|exact Hm4|split; assumption|rewrite L4; exact Hlo].
      transitivity (w3 <| lro -> engines_num ::= Z.add 1 |>); [|exact R4].
      destruct R3 as (El & R3). unfold same_rest. cbn. rewrite El. tauto.
Qed.

Lemma engine_create_body off dir ch :
  engine_create off dir ch
  = (p <- kzalloc_engine ;;
     if p =? 0 then ret 0 else
       rc <- with_engine p (create_body p off dir ch) ;;
       if nz rc then kfree_engine p ;; ret 0 else ret p).
Proof. reflexivity. Qed.

Lemma engine_create_run b off dir ch w :
  probe_ready b w -> b + off <> 0 -> 0 <= engines_num (lro w) < 8 ->
  wp (engine_create off dir ch) (engine_created b off dir ch w) w.
Proof.
  intros Hr Hnz Hn. rewrite engine_create_body. apply wp_bind. unfold kzalloc_engine.
  apply wp_bind, wp_ext. set (r := answer _ _ _).
  destruct (Z.eqb_spec (nth 0 r 0) 0) as [E0|E0].
  { apply wp_ret, wp_ret. split; [reflexivity|]. split; [reflexivity|].
    split; [reflexivity|]. split; [cbn; lia|]. split; [intros k; reflexivity|].
    split; [intros k; reflexivity|left; reflexivity]. }
  apply wp_bind, wp_gets, wp_bind, wp_modify, wp_ret.
  change (fresh (log _ w)) with (fresh w).
  pose proof (pr_fresh _ _ Hr) as Hf. destruct (Z.eqb_spec (fresh w) 0); [lia|].
  set (w1 := _ <| fresh := _ |> <| engines ::= _ |>).
  assert (engines w1 = <[fresh w := zero_engine]> (engines w)) as Ee by reflexivity.
  apply wp_bind, (wp_with_engine _ zero_engine); [rewrite Ee; apply lookup_insert_eq|].
  eapply wp_conseq; [apply wp_and_wlp; [apply (create_body_ok b)|apply (create_body_reads b)]|];
    [|reflexivity|exact Hnz|exact Hn|reflexivity|apply Hr|exact Hnz|].
  { split; try apply Hr; [cbn; lia|]. intros q Hq. cbn in Hq. 
    change (engines (w1 <| eng := zero_engine |>)) with (<[fresh w := zero_engine]> (engines w)).
    rewrite lookup_insert_ne by lia. apply Hr. lia. }
  intros rc w2 [[Hbad Hok] Hset]. destruct (nz rc).
  - destruct (Hbad eq_refl) as (Hi & Hb & Hrest). clear Hok Hbad.
    apply wp_bind. unfold kfree_engine. apply wp_bind, wp_ext_, wp_bind.
    eapply wp_deref; [cbn; apply lookup_insert_eq|]. apply wp_modify, wp_ret.
    split; [reflexivity|].
    assert (engines w2 = engines w1 /\ fresh w2 = fresh w1 /\ chars w2 = chars w1) as (E1 & E2 & E3).
    { destruct Hrest as [R|[_ R]]; unfold same_rest in R; tauto. }
    split; [cbn; rewrite E3; reflexivity|]. split; [|split; [|split; [|split]]].
    + cbn. rewrite E1, Ee, insert_insert_eq, delete_insert_id; [reflexivity|apply Hr; lia].
    + cbn. rewrite E2. cbn. lia.
    + intros k. exact (Hi k).
    + intros k. exact (Hb k).
    + destruct Hrest as [R|[Hp R]]; destruct R as [R _]; [left|right; split; [exact Hp|]]; exact R.
  - destruct (Hok eq_refl) as ([(El & Eg & Ef & Ec & _) Hm [Hi Hb] Hl] & Hp). clear Hok Hbad.
    apply wp_ret. split; [reflexivity|]. split; [exact Ec|].
    rewrite (proj2 (Z.eqb_neq _ _) (ltac:(lia) : fresh w <> 0)).
    split; [reflexivity|]. split; [exact Ef|]. split; [exact El|].
    exists (eng w2). split; [|split; [exact Hm|split; [exact Hl|split; [exact Hp|split; [|split]]]]].
    + cbn. rewrite Eg. cbn. apply insert_insert_eq.
    + intros k. exact (Hi k).
    + intros k. exact (Hb k).
    + destruct (Hset eq_refl) as (id & al & Ha & Hs). exists id, al. split; [|exact Hs].
      rewrite <- (app_nil_r (accesses (trace w))).
      exact (eq_trans Ha (f_equal (fun l => (l ++ _)%list) (accesses_cons (Call kzalloc [] r) (trace w)))).
Qed.

End Creation.
