(* ===== verification/EnginesFacts.v ===== *)
(** * The engines of a device: probing and removing all of them *)
From S2P Require Import Prelude Layout Kernel World Desc Engine Ledger Setup SetupFacts Creation CreationFacts.
#[local] Open Scope string_scope.
#[local] Open Scope Z_scope.
Ltac wp_hook ::= wp_engine.

(** ** What all engines of the heap hold *)

Definition engines_sum (f : Z -> xdma_engine -> Z) (m : gmap Z xdma_engine) : Z :=
  map_fold (fun p e acc => f p e + acc) 0 m.

Lemma engines_sum_insert f m p e :
  m !! p = None -> engines_sum f (<[p := e]> m) = f p e + engines_sum f m.
Proof. intros H. apply (map_fold_insert_L (fun p e acc => f p e + acc)); [intros; lia|exact H]. Qed.

Lemma engines_sum_delete f m p e :
  m !! p = Some e -> engines_sum f m = f p e + engines_sum f (delete p m).
Proof. intros H. apply (map_fold_delete_L (fun p e acc => f p e + acc)); [intros; lia|exact H]. Qed.

(** the number of slots of a table that are taken *)
Definition count_nz (l : list Z) : Z := Z.of_nat (length (filter (fun p => p <> 0) l)).

Lemma count_nz_insert l s p :
  zlookup l s = Some 0 -> p <> 0 -> count_nz (zinsert s p l) = count_nz l + 1.
Proof.
  unfold zlookup, zinsert, count_nz. destruct (s <? 0); [discriminate|].
  generalize (Z.to_nat s) as n. intros n Hs Hp. revert n Hs.
  induction l as [|a l IH]; intros [|n] Hs; try discriminate; simpl in *.
  - injection Hs as ->. rewrite filter_cons_True, filter_cons_False by auto. simpl. lia.
  - specialize (IH n Hs). destruct (decide (a <> 0)) as [Ha|Ha].
    + rewrite !filter_cons_True by exact Ha. simpl. lia.
    + rewrite !filter_cons_False by exact Ha. exact IH.
Qed.

Lemma count_nz_free l s : zlookup l s = Some 0 -> count_nz l < Z.of_nat (length l).
Proof.
  intros H. pose proof (count_nz_insert l s 1 H ltac:(lia)) as E.
  unfold count_nz in *. pose proof (length_filter (fun p => p <> 0) (zinsert s 1 l)) as L.
  rewrite zinsert_length in L. lia.
Qed.

Lemma count_nz_pos l s p : zlookup l s = Some p -> p <> 0 -> 0 < count_nz l.
Proof.
  unfold zlookup, count_nz. destruct (s <? 0); [discriminate|]. intros H Hp.
  assert (p ∈ filter (fun p => p <> 0) l) as Hin.
  { apply list_elem_of_filter. split; [exact Hp|]. eapply list_elem_of_lookup_2, H. }
  destruct (filter _ l); [inversion Hin|]. simpl. lia.
Qed.

Section Engines.
Context {bo : ByteOrder} {env : Env}.

(** the interrupts and buffers held are those of [w0] and of the engines made
    since *)
Definition engines_balanced (w0 w : world) : Prop :=
  forall k,
    held irqs (trace w) k - engines_sum (fun p e => engine_irq p e k) (engines w)
    = held irqs (trace w0) k - engines_sum (fun p e => engine_irq p e k) (engines w0) /\
    held buffers (trace w) k - engines_sum (fun p e => engine_buf e k) (engines w)
    = held buffers (trace w0) k - engines_sum (fun p e => engine_buf e k) (engines w0).

#[local] Instance engines_balanced_preorder : PreOrder engines_balanced.
Proof.
  split; [intros w k; split; reflexivity|]. intros w1 w2 w3 H1 H2 k.
  destruct (H1 k), (H2 k). split; congruence.
Qed.

Lemma engines_balanced_same w w' :
  engines w' = engines w -> same_held irqs w w' -> same_held buffers w w' ->
  engines_balanced w w'.
Proof. intros E Hi Hb k. rewrite E, Hi, Hb. split; reflexivity. Qed.

Lemma engine_created_balanced b off dir ch w p w' :
  probe_ready b w -> engine_created b off dir ch w p w' -> engines_balanced w w'.
Proof.
  intros Hr (_ & _ & H). destruct (p =? 0).
  - destruct H as (E & _ & Hi & Hb & _). apply engines_balanced_same; assumption.
  - destruct H as (Ep & _ & _ & e & Ee & _ & _ & _ & Hi & Hb & _). intros k.
    rewrite Ee, Hi, Hb, !engines_sum_insert by (apply Hr; lia). split; lia.
Qed.

(** ** engine_destroy *)

Lemma engine_destroy_ok p e w :
  engines w !! p = Some e -> p <> 0 -> nz (poll_mode_addr_virt e) = poll_mode ->
  wp (engine_destroy p) (fun _ w' =>
    engines w' = delete p (engines w) /\
    (eng w' = eng w /\ chars w' = chars w /\ fresh w' = fresh w) /\
    lro w' = (lro w) <| engines_num ::= (fun n => n - 1) |> /\ engines_balanced w w') w.
Proof.
  intros He Hp Hpoll. unfold engine_destroy.
  apply wp_bind, wp_BUG_ON; [apply Z.eqb_neq, Hp|].
  apply wp_bind, (wp_with_engine _ e); [exact He|].
  apply wp_bind, wp_write_er, wp_bind.
  eapply wp_conseq; [apply engine_msix_teardown_ok|]. intros [] w1 (R1 & Hb1 & E1 & Hi1).
  change (eng (log _ _)) with e in E1, Hi1.
  apply wp_conseq with (P := fun _ w2 => same_rest w1 w2 /\ same_held irqs w1 w2 /\
    eng w2 = eng w1 /\
    forall k, held buffers (trace w2) k = held buffers (trace w1) k - engine_buf (eng w1) k).
  { destruct poll_mode; [apply engine_writeback_teardown_ok|].
    apply wp_ret. split; [reflexivity|]. split; [reflexivity|]. split; [reflexivity|].
    intros k. unfold engine_buf. rewrite E1. apply nz_false in Hpoll.
    rewrite Hpoll, Z.eqb_refl, is_key_none. lia. }
  intros [] w2 (R2 & Hi2 & E2 & Hb2). unfold kfree_engine.
  assert (engines w2 = engines w) as Eg by (exact (eq_trans (proj1 (proj2 R2)) (proj1 (proj2 R1)))).
  apply wp_bind, wp_bind, wp_ext_, wp_bind.
  eapply wp_deref; [cbn; apply lookup_insert_eq|]. apply wp_modify, wp_setL.
  match goal with |- context [engines ?s = _] => set (w3 := s) end.
  assert (engines w3 = delete p (engines w)) as Ew.
  { change (engines w3) with (delete p (<[p := eng w2]> (engines w2))).
    rewrite Eg. apply delete_insert_eq. }
  split; [exact Ew|]. split.
  { destruct R1 as (_ & _ & F1 & C1 & _), R2 as (_ & _ & F2 & C2 & _).
    split; [reflexivity|]. split; [exact (eq_trans C2 C1)|exact (eq_trans F2 F1)]. }
  split.
  { change (lro w3) with ((lro w2) <| engines_num ::= (fun n => n - 1) |>).
    rewrite (proj1 R2), (proj1 R1). reflexivity. }
  intros k. rewrite Ew.
  rewrite (engines_sum_delete _ (engines w) p e He),
    (engines_sum_delete (fun _ e => engine_buf e k) (engines w) p e He).
  change (trace w3) with (Call kfree [p] [] :: trace w2).
  rewrite !held_cons, Hi2, Hb2, Hi1, Hb1, E1. cbn. rewrite is_key_none. split; lia.
Qed.

(** ** The table of engines *)

(** the engine of slot [s] (its channel is [s / 2], its direction [s mod 2])
    of a device with [n] engines, whose registers are at [b] *)
Record slot_engine (b s n : Z) (e : xdma_engine) : Prop := {
  se_magic : magic e = MAGIC_ENGINE;
  se_channel : channel e = s / 2;
  se_number : number_in_channel e = s mod 2;
  se_dir : dir_to_dev e = 1 - s mod 2;
  se_regs : regs e = b + (s mod 2 * H2C_CHANNEL_OFFSET + s / 2 * CHANNEL_SPACING);
  se_index : exists k, 0 <= k < n /\ irq_bitmask e = 2 ^ k /\
    bypass_offset e = k * BYPASS_MODE_SPACING;
  se_poll : nz (poll_mode_addr_virt e) = poll_mode
}.

(** slot [s] holds the engine [e] at [p] *)
Definition in_slot (w : world) (s p : Z) (e : xdma_engine) : Prop :=
  zlookup (engine (lro w)) s = Some p /\ p <> 0 /\ engines w !! p = Some e.

Record engines_ok (b : Z) (w : world) : Prop := {
  eo_len : length (engine (lro w)) = 8%nat;
  eo_num : count_nz (engine (lro w)) <= engines_num (lro w);
  eo_engine : forall s p, zlookup (engine (lro w)) s = Some p -> p <> 0 ->
    exists e, in_slot w s p e /\ slot_engine b s (engines_num (lro w)) e;
  eo_distinct : forall s1 s2 p1 p2 e1 e2, in_slot w s1 p1 e1 -> in_slot w s2 p2 e2 ->
    s1 <> s2 -> p1 <> p2 /\ irq_bitmask e1 <> irq_bitmask e2
}.

Lemma pow2_inj a b : 0 <= a -> 0 <= b -> 2 ^ a = 2 ^ b -> a = b.
Proof. intros Ha Hb H. apply (Z.pow_inj_r 2); lia. Qed.

(** a failed creation, or a slot that stays as it is *)
Lemma engines_ok_same b w w' :
  engines_ok b w -> engine (lro w') = engine (lro w) -> engines w' = engines w ->
  engines_num (lro w) <= engines_num (lro w') -> engines_ok b w'.
Proof.
  intros [Hl Hn He Hd] E1 E2 En. unfold in_slot in *. split; rewrite ?E1, ?E2.
  - exact Hl.
  - lia.
  - intros s p Hs Hp. destruct (He s p Hs Hp) as (e & Hin & Hse). exists e.
    unfold in_slot. rewrite E1, E2. split; [exact Hin|].
    destruct Hse as [? ? ? ? ? (k & ? & ?) ?]. split; try assumption. exists k. split; [lia|assumption].
  - unfold in_slot. rewrite E1, E2. exact Hd.
Qed.

(** a new engine in a free slot *)
Lemma engines_ok_new b w w' s p e :
  engines_ok b w -> probe_ready b w ->
  zlookup (engine (lro w)) s = Some 0 -> p = fresh w -> 0 <= engines_num (lro w) ->
  engine (lro w') = zinsert s p (engine (lro w)) ->
  engines_num (lro w') = engines_num (lro w) + 1 ->
  engines w' = <[p := e]> (engines w) ->
  slot_engine b s (engines_num (lro w) + 1) e ->
  irq_bitmask e = 2 ^ engines_num (lro w) ->
  engines_ok b w'.
Proof.
  intros [Hl Hn He Hd] Hr Hs Ep Hnn E1 E2 E3 Hse Hbit.
  pose proof (zlookup_Some _ _ _ Hs) as Hrange. pose proof (pr_fresh _ _ Hr) as Hf.
  assert (forall t q, zlookup (engine (lro w)) t = Some q -> q <> 0 -> q <> p) as Hne.
  { intros t q Ht Hq ->. destruct (He t p Ht Hq) as (e' & (_ & _ & Hx) & _).
    rewrite (pr_heap _ _ Hr) in Hx by lia. discriminate. }
  assert (forall t q e', in_slot w' t q e' ->
    (t = s /\ q = p /\ e' = e) \/ (t <> s /\ in_slot w t q e')) as Hin.
  { intros t q e' (Ht & Hq & Hx). rewrite E1, (zlookup_zinsert _ 8) in Ht by lia.
    rewrite E3 in Hx. case_decide as Et.
    - injection Ht as <-. left. rewrite lookup_insert_eq in Hx. injection Hx as <-. auto.
    - right. split; [exact Et|]. split; [exact Ht|]. split; [exact Hq|].
      rewrite lookup_insert_ne in Hx; [exact Hx|]. intros ->. exact (Hne _ _ Ht Hq eq_refl). }
  split.
  - rewrite E1, zinsert_length. exact Hl.
  - rewrite E1, E2, count_nz_insert by (exact Hs || lia). lia.
  - intros t q Ht Hq. unfold in_slot. rewrite E3.
    pose proof Ht as Ht'. rewrite E1, (zlookup_zinsert _ 8) in Ht' by lia. case_decide as Et.
    + injection Ht' as <-. exists e. rewrite lookup_insert_eq. split; [auto|].
      subst t. rewrite E2. exact Hse.
    + destruct (He t q Ht' Hq) as (e' & (_ & _ & Hx) & Hse'). exists e'.
      rewrite lookup_insert_ne by (intros ->; exact (Hne _ _ Ht' Hq eq_refl)).
      split; [auto|]. rewrite E2. destruct Hse' as [? ? ? ? ? (k & ? & ?) ?].
      split; try assumption. exists k. split; [lia|assumption].
  - assert (forall t q e', t <> s -> in_slot w t q e' -> p <> q /\ irq_bitmask e <> irq_bitmask e') as Hx.
    { intros t q e' Ht (Hx1 & Hx2 & Hx3). split; [intros <-; exact (Hne _ _ Hx1 Hx2 eq_refl)|].
      destruct (He t q Hx1 Hx2) as (e'' & (_ & _ & Hx4) & [_ _ _ _ _ (k & Hk & Hb & _) _]).
      rewrite Hx3 in Hx4. injection Hx4 as <-. rewrite Hbit, Hb. intros E%pow2_inj; lia. }
    intros s1 s2 p1 p2 e1 e2 H1%Hin H2%Hin Hne12.
    destruct H1 as [(-> & -> & ->)|[Ht1 H1]], H2 as [(-> & -> & ->)|[Ht2 H2]]; [lia| | |].
    + apply (Hx s2); assumption.
    + destruct (Hx s1 p1 e1 Ht1 H1). split; congruence.
    + exact (Hd s1 s2 p1 p2 e1 e2 H1 H2 Hne12).
Qed.

(** ** probe_for_engine *)

(** the device but for its engines *)
Definition but_engines (d d' : xdma_dev) : Prop :=
  d' <| engine := engine d |> <| engines_num := engines_num d |> = d.

(** the state of a device whose engines are being probed, since [w0] *)
Record probing (b : Z) (w0 w : world) : Prop := {
  pb_ready : probe_ready b w;
  pb_ok : engines_ok b w;
  pb_balanced : engines_balanced w0 w;
  pb_eng : eng w = eng w0;
  pb_chars : chars w = chars w0;
  pb_lro : but_engines (lro w0) (lro w);
  pb_fresh : fresh w0 <= fresh w;
  pb_grow : forall s p, zlookup (engine (lro w0)) s = Some p -> p <> 0 ->
    zlookup (engine (lro w)) s = Some p;
  pb_heap : forall q, engines w !! q = engines w0 !! q \/
    (fresh w0 <= q /\ exists s, zlookup (engine (lro w)) s = Some q);
  pb_new : forall s p, zlookup (engine (lro w)) s = Some p -> p <> 0 ->
    zlookup (engine (lro w0)) s = Some p \/ fresh w0 <= p
}.

Lemma probing_refl b w : probe_ready b w -> engines_ok b w -> probing b w w.
Proof.
  intros Hr Ho. split; try reflexivity; try assumption; auto.
  unfold but_engines. destruct (lro w); reflexivity.
Qed.

Lemma but_engines_trans d1 d2 d3 : but_engines d1 d2 -> but_engines d2 d3 -> but_engines d1 d3.
Proof.
  unfold but_engines. intros <- <-. destruct d3; reflexivity.
Qed.

Lemma probing_trans b w1 w2 w3 : 0 < fresh w1 -> probing b w1 w2 -> probing b w2 w3 -> probing b w1 w3.
Proof.
  intros Hf [R1 _ B1 E1 C1 L1 F1 G1 H1 N1] [R O B2 E2 C2 L2 F2 G2 H2 N2].
  split; try assumption; try congruence; try lia.
  - etransitivity; eassumption.
  - eapply but_engines_trans; eassumption.
  - intros s p Hs Hp. apply G2; [apply G1; assumption|exact Hp].
  - intros q. destruct (H2 q) as [->|[Hq Hs]]; [|right; split; [lia|exact Hs]].
    destruct (H1 q) as [->|[Hq [s Hs]]]; [left; reflexivity|right].
    split; [exact Hq|]. exists s. apply G2; [exact Hs|]. intros ->. lia.
  - intros s p Hs Hp. destruct (N2 s p Hs Hp) as [Hs2|]; [|right; lia].
    apply (N1 s p Hs2 Hp).
Qed.

Lemma probe_ready_but b w w' :
  probe_ready b w -> but_engines (lro w) (lro w') -> fresh w <= fresh w' ->
  (forall p, p <= 0 \/ fresh w' <= p -> engines w' !! p = None) -> probe_ready b w'.
Proof.
  unfold but_engines. intros [H1 H2 H3 H4 _] E Hf Hh.
  assert (bar (lro w') = bar (lro w)) as E1 by (rewrite <- E; reflexivity).
  assert (config_bar_idx (lro w') = config_bar_idx (lro w)) as E2 by (rewrite <- E; reflexivity).
  assert (entry_vector (lro w') = entry_vector (lro w)) as E3 by (rewrite <- E; reflexivity).
  assert (msix_enabled (lro w') = msix_enabled (lro w)) as E4 by (rewrite <- E; reflexivity).
  split; rewrite ?E1, ?E2, ?E3, ?E4; try assumption. lia.
Qed.

(** the slot of an engine *)
Definition slot (dir ch : Z) : Z := 2 * ch + b2z (dir =? 0).

Lemma slot_parts dir ch : slot dir ch / 2 = ch /\ slot dir ch mod 2 = b2z (dir =? 0).
Proof. unfold slot, b2z. destruct (dir =? 0); Z.div_mod_to_equations; lia. Qed.

Lemma engine_made_slot d b dir ch e :
  dir = 0 \/ dir = 1 -> 0 <= engines_num d ->
  engine_made d b (b2z (dir =? 0) * H2C_CHANNEL_OFFSET + ch * CHANNEL_SPACING) dir ch e ->
  nz (poll_mode_addr_virt e) = poll_mode ->
  slot_engine b (slot dir ch) (engines_num d + 1) e.
Proof.
  intros Hd Hn [? ? ? Edir ? ? ? ? ? ?] Hp. destruct (slot_parts dir ch) as [E1 E2].
  split; rewrite ?E1, ?E2; try assumption.
  - rewrite Edir. destruct Hd as [->| ->]; reflexivity.
  - exists (engines_num d). split; [lia|]. split; assumption.
Qed.

(** the identifier register of channel [ch] reads [v] *)
Definition channel_offset (dir ch : Z) : Z := b2z (dir =? 0) * H2C_CHANNEL_OFFSET + ch * CHANNEL_SPACING.
Definition identifier_is (b dir ch v : Z) : Prop := forall h,
  u32 (nth 0 (answer h ioread32 [er_reg "identifier" (b + channel_offset dir ch)]) 0) = v.
(** that is an engine of this direction and channel: the upper half names the
    kind, bits 8 to 11 the channel *)
Definition identifies (dir ch v : Z) : bool :=
  (v / 2 ^ 16 mod 2 ^ 16 =? (if dir =? 0 then XDMA_ID_C2H else XDMA_ID_H2C)) && (v / 2 ^ 8 mod 2 ^ 4 =? ch).
(** there is an engine in the slot if and only if the device has one *)
Definition slot_found (b dir ch : Z) (w : world) : Prop := forall v, identifier_is b dir ch v ->
  exists p, zlookup (engine (lro w)) (slot dir ch) = Some p /\ nz p = identifies dir ch v.

Lemma identifies_eq dir ch v :
  identifies dir ch v = (Z.shiftr (Z.land v 0xffff0000) 16 =? (if nz dir then XDMA_ID_H2C else XDMA_ID_C2H))
    && (Z.shiftr (Z.land v 0x00000f00) 8 =? ch).
Proof.
  unfold identifies, nz. rewrite !Z.shiftr_land. change (Z.shiftr 0xffff0000 16) with (Z.ones 16).
  change (Z.shiftr 0x00000f00 8) with (Z.ones 4). rewrite !Z.land_ones, !Z.shiftr_div_pow2 by lia.
  destruct (dir =? 0); reflexivity.
Qed.

(** the outcome of probing for the engine of slot [s] *)
Definition slot_probed (b s : Z) (w : world) (rc : Z) (w' : world) : Prop :=
  probing b w w' /\
  (forall t, t <> s -> zlookup (engine (lro w')) t = zlookup (engine (lro w)) t) /\
  (rc = 0 -> engines_num (lro w') = count_nz (engine (lro w'))) /\
  (rc <> 0 -> rc = -1 /\ zlookup (engine (lro w')) s = Some 0).

(** the table after the engine at [p], or none, was created *)
Lemma engine_created_slot b dir ch w p w1 :
  let s := slot dir ch in
  probe_ready b w -> engines_ok b w -> engines_num (lro w) = count_nz (engine (lro w)) ->
  dir = 0 \/ dir = 1 -> zlookup (engine (lro w)) s = Some 0 ->
  engine_created b (b2z (dir =? 0) * H2C_CHANNEL_OFFSET + ch * CHANNEL_SPACING) dir ch w p w1 ->
  slot_probed b s w (if p =? 0 then -1 else 0) (w1 <| lro -> engine ::= zinsert s p |>).
Proof.
  intros s Hr Ho Hc Hd Hs H. pose proof (engine_created_balanced _ _ _ _ _ _ _ Hr H) as Hbal.
  pose proof (eo_len _ _ Ho) as Hlen. pose proof (zlookup_Some _ _ _ Hs) as Hrange.
  assert (0 <= engines_num (lro w)) as Hn by (rewrite Hc; unfold count_nz; lia).
  destruct H as (E & Ec & H). set (w2 := w1 <| lro ::= _ |>).
  assert (engine (lro w2) = zinsert s p (engine (lro w1))) as E2 by reflexivity.
  assert (engines_num (lro w2) = engines_num (lro w1)) as E3 by reflexivity.
  assert (zinsert s 0 (engine (lro w)) = engine (lro w)) as E0.
  { unfold zlookup, zinsert in *. destruct (s <? 0); [discriminate|]. apply list_insert_id, Hs. }
  destruct (Z.eqb_spec p 0) as [->|Hp].
  - destruct H as (Eg & Hf & Hi & Hb & Hl).
    assert (engine (lro w1) = engine (lro w) /\ engines_num (lro w) <= engines_num (lro w1) /\
      but_engines (lro w) (lro w2)) as (Ee & Hnum & Hbut).
    { unfold but_engines. change (lro w2) with ((lro w1) <| engine ::= zinsert s 0 |>).
      destruct Hl as [->|[_ ->]]; (split; [reflexivity|]); (split; [cbn; lia|]);
        destruct (lro w); reflexivity. }
    assert (forall q, engines w2 !! q = engines w !! q) as Eq
      by (intros q; change (engines w2) with (engines w1); rewrite Eg; reflexivity).
    rewrite Ee, E0 in E2. split; [split; auto; rewrite ?E2; auto|].
    + apply (probe_ready_but b w); [exact Hr|exact Hbut|exact Hf|].
      intros q Hq. change (engines w2) with (engines w1). rewrite Eg. apply Hr.
      change (fresh w2) with (fresh w1) in Hq. lia.
    + apply (engines_ok_same b w); [exact Ho|exact E2|exact Eg|]. rewrite E3. exact Hnum.
    + rewrite E2. split; [reflexivity|]. split; [discriminate|]. intros _. split; [reflexivity|exact Hs].
  - destruct H as (Ep & Ef & El & e & Eg & Hm & _ & Hp' & _).
    pose proof (pr_fresh _ _ Hr) as Hfresh.
    assert (engine (lro w2) = zinsert s p (engine (lro w))) as E2' by (rewrite E2, El; reflexivity).
    assert (engines_num (lro w2) = engines_num (lro w) + 1) as E3'
      by (rewrite E3, El; cbn; lia).
    split; [split; auto|].
    + apply (probe_ready_but b w); [exact Hr| |change (fresh w2) with (fresh w1); lia|].
      * unfold but_engines. change (lro w2) with ((lro w1) <| engine ::= zinsert s p |>).
        rewrite El. destruct (lro w); reflexivity.
      * intros q Hq. change (fresh w2) with (fresh w1) in Hq.
        change (engines w2) with (engines w1). rewrite Eg, lookup_insert_ne by lia.
        apply Hr. lia.
    + apply (engines_ok_new b w w2 s p e); try assumption; [|apply (em_bitmask _ _ _ _ _ _ Hm)].
      apply engine_made_slot; assumption.
    + unfold but_engines. change (lro w2) with ((lro w1) <| engine ::= zinsert s p |>).
      rewrite El. destruct (lro w); reflexivity.
    + change (fresh w2) with (fresh w1). lia.
    + intros t q Ht Hq. rewrite E2', (zlookup_zinsert _ 8) by lia. case_decide; [|exact Ht].
      subst t. congruence.
    + intros q. change (engines w2) with (engines w1). rewrite Eg.
      destruct (decide (q = p)) as [->|Hq]; [right|left; apply lookup_insert_ne; congruence].
      split; [lia|]. exists s. rewrite E2'. apply zlookup_zinsert_eq. lia.
    + intros t q. rewrite E2', (zlookup_zinsert _ 8) by lia. case_decide; [|auto].
      intros [= <-] _. right. lia.
    + rewrite E2'. split; [|split; [|congruence]].
      * intros t Ht. apply zlookup_zinsert_ne. congruence.
      * intros _. rewrite E3', count_nz_insert by assumption. lia.
Qed.

Lemma probe_ready_log b w f args r : probe_ready b w -> probe_ready b (log (Call f args r) w).
Proof. intros []. split; assumption. Qed.

Lemma probing_log b w0 w args r :
  probing b w0 w -> probing b w0 (log (Call ioread32 args r) w).
Proof.
  intros [Hr [] Hbal E C L F G H N]. split; try assumption.
  - apply probe_ready_log, Hr.
  - split; assumption.
Qed.

Lemma probe_for_engine_ok b dir ch w :
  probe_ready b w -> 0 < b -> engines_ok b w ->
  engines_num (lro w) = count_nz (engine (lro w)) ->
  0 <= ch < 4 -> dir = 0 \/ dir = 1 -> zlookup (engine (lro w)) (slot dir ch) = Some 0 ->
  wp (probe_for_engine dir ch) (fun rc w' =>
    slot_probed b (slot dir ch) w rc w' /\ (rc = 0 -> slot_found b dir ch w')) w.
Proof.
  intros Hr Hb Ho Hc Hch Hd Hs. unfold probe_for_engine, config_bar.
  fold (channel_offset dir ch). set (off := channel_offset dir ch).
  assert (0 <= off) as Hoff.
  { unfold off, channel_offset, H2C_CHANNEL_OFFSET, CHANNEL_SPACING, b2z. destruct (dir =? 0); lia. }
  apply wp_bind, wp_bind, wp_getL, wp_bind, wp_getL. eapply wp_index; [apply Hr|].
  cbv zeta. apply wp_bind. unfold get_engine_id, get_engine_channel_id.
  apply wp_bind, wp_BUG_ON; [apply Z.eqb_neq; lia|]. apply wp_bind, wp_read_register. cbv zeta.
  set (r1 := answer _ _ _). apply wp_ret.
  apply wp_bind, wp_bind, wp_BUG_ON; [apply Z.eqb_neq; lia|].
  apply wp_bind, wp_read_register. cbv zeta. set (r2 := answer _ _ _). apply wp_ret.
  match goal with |- wp _ _ ?st => set (w1 := st) end.
  assert (probing b w w1) as H1 by (do 2 apply probing_log; apply probing_refl; assumption).
  assert (lro w1 = lro w) as El by reflexivity.
  assert (slot_probed b (slot dir ch) w 0 w1) as Hskip.
  { split; [exact H1|]. rewrite El. split; [reflexivity|]. split; [intros _; exact Hc|congruence]. }
  assert (forall v, identifier_is b dir ch v -> u32 (nth 0 r1 0) = v /\ u32 (nth 0 r2 0) = v) as Hid
    by (intros v Hv; split; apply Hv).
  set (c1 := Z.shiftr (Z.land (u32 (nth 0 r1 0)) 0xffff0000) 16 =? _).
  set (c2 := Z.shiftr (Z.land (u32 (nth 0 r2 0)) 0x00000f00) 8 =? ch).
  assert (forall v, identifier_is b dir ch v -> identifies dir ch v = c1 && c2) as Hids.
  { intros v Hv. destruct (Hid v Hv) as [E1 E2]. rewrite identifies_eq. unfold c1, c2. rewrite E1, E2. reflexivity. }
  assert (c1 && c2 = false -> slot_found b dir ch w1) as Hno.
  { intros E v Hv. exists 0. rewrite El, (Hids v Hv), E. split; [exact Hs|reflexivity]. }
  destruct c1; cbn [negb]; [|apply wp_ret; split; [exact Hskip|intros _; apply Hno; reflexivity]].
  destruct c2; cbn [negb]; [|apply wp_ret; split; [exact Hskip|intros _; apply Hno; reflexivity]].
  apply wp_bind. eapply wp_conseq.
  { apply (engine_create_run b); [apply H1|fold off; lia|]. rewrite El, Hc.
    pose proof (count_nz_free _ _ Hs) as Hf. rewrite (eo_len _ _ Ho) in Hf.
    unfold count_nz in *. lia. }
  intros p w2 H2. apply wp_bind, wp_setL, wp_ret.
  destruct (engine_created_slot b dir ch w1 p w2) as (Hp & Hslots & Hok & Hbad);
    [apply H1|apply H1|rewrite El; exact Hc|exact Hd|rewrite El; exact Hs|exact H2|].
  rewrite El in Hslots. split; [split; [apply (probing_trans b w w1); [apply Hr|assumption..]|auto]|].
  intros Hrc v Hv. exists p. rewrite (Hids v Hv). destruct (Z.eqb_spec p 0) as [->|Hp0]; [discriminate|].
  split; [|apply nz_true, Hp0]. apply zlookup_zinsert_eq.
  assert (length (engine (lro w2)) = 8%nat) as L2.
  { pose proof (eo_len _ _ (pb_ok _ _ _ Hp)) as L. exact (eq_trans (eq_sym (zinsert_length _ _ _)) L). }
  rewrite L2. pose proof (zlookup_Some _ _ _ Hs) as Hrange. rewrite (eo_len _ _ Ho) in Hrange. exact Hrange.
Qed.

(** ** probe_direction *)

Lemma slot_range dir ch : 0 <= ch < 4 -> 0 <= slot dir ch < 8.
Proof. unfold slot, b2z. destruct (dir =? 0); lia. Qed.

Lemma slot_inj dir1 dir2 ch1 ch2 :
  slot dir1 ch1 = slot dir2 ch2 -> ch1 = ch2 /\ (dir1 =? 0) = (dir2 =? 0).
Proof. unfold slot, b2z. destruct (dir1 =? 0), (dir2 =? 0); intros H; split; try reflexivity; lia. Qed.

(** the state when the channels below [ch] have been probed *)
Record direction_probed (b dir ch : Z) (w0 w : world) : Prop := {
  dp_probing : probing b w0 w;
  dp_counted : engines_num (lro w) = count_nz (engine (lro w));
  dp_free : forall c, ch <= c < 4 -> zlookup (engine (lro w)) (slot dir c) = Some 0;
  dp_others : forall s, (forall c, s <> slot dir c) ->
    zlookup (engine (lro w)) s = zlookup (engine (lro w0)) s;
  dp_found : forall c, 0 <= c < ch -> slot_found b dir c w
}.

Lemma slot_found_same b dir ch w w' :
  zlookup (engine (lro w')) (slot dir ch) = zlookup (engine (lro w)) (slot dir ch) ->
  slot_found b dir ch w -> slot_found b dir ch w'.
Proof. intros E H v Hv. rewrite E. exact (H v Hv). Qed.

Lemma probe_direction_ok b dir w :
  0 < b -> 0 < fresh w -> dir = 0 \/ dir = 1 -> direction_probed b dir 0 w w ->
  wp (probe_direction dir) (fun r w' =>
    match r with
    | None => direction_probed b dir 4 w w'
    | Some rc => rc = -1 /\ probing b w w' /\ forall s, (forall c, s <> slot dir c) ->
        zlookup (engine (lro w')) s = zlookup (engine (lro w)) s
    end) w.
Proof.
  intros Hb Hf0 Hd H0. unfold probe_direction.
  apply (wp_for_exit (fun ch => direction_probed b dir ch w)
    (fun rc w' => rc = -1 /\ probing b w w' /\ forall s, (forall c, s <> slot dir c) ->
        zlookup (engine (lro w')) s = zlookup (engine (lro w)) s)); [unfold XDMA_CHANNEL_NUM_MAX; lia|exact H0| |auto|auto].
  intros ch w1 Hch [Hp Hc Hf Ho Hfd]. unfold XDMA_CHANNEL_NUM_MAX in Hch. apply wp_bind.
  eapply wp_conseq;
    [apply (probe_for_engine_ok b); [apply Hp|exact Hb|apply Hp|exact Hc|lia|exact Hd|apply Hf; lia]|].
  intros rc w2 [(Hp2 & Hslots & Hok & Hbad) Hfound]. apply wp_ret.
  pose proof (probing_trans b w w1 w2 Hf0 Hp Hp2) as Hp'. destruct (nz rc) eqn:Erc.
  - split; [apply Hbad, nz_true, Erc|]. split; [exact Hp'|].
    intros s Hs. rewrite Hslots by apply Hs. apply Ho, Hs.
  - apply nz_false in Erc. split; [exact Hp'|apply Hok, Erc| | |].
    + intros c Hcc. rewrite Hslots; [apply Hf; lia|]. intros E%slot_inj. lia.
    + intros s Hs. rewrite Hslots by apply Hs. apply Ho, Hs.
    + intros c Hcc. destruct (Z.eq_dec c ch) as [->|Hne]; [apply Hfound, Erc|].
      apply (slot_found_same b dir c w1); [apply Hslots; intros E%slot_inj; lia|apply Hfd; lia].
Qed.

(** ** remove_engines *)

(** the engines of the first [n] slots are gone *)
Record removed (n : nat) (w0 w : world) : Prop := {
  rm_engines : forall q, engines w !! q =
    if decide (q ∈ take n (engine (lro w0))) then None else engines w0 !! q;
  rm_lro : lro w = (lro w0) <| engines_num ::= (fun m => m - count_nz (take n (engine (lro w0)))) |>;
  rm_balanced : engines_balanced w0 w;
  rm_same : eng w = eng w0 /\ chars w = chars w0 /\ fresh w = fresh w0
}.

Lemma count_nz_snoc l p : count_nz (l ++ [p])%list = count_nz l + b2z (nz p).
Proof.
  unfold count_nz. rewrite filter_app, length_app. unfold nz, b2z.
  destruct (Z.eqb_spec p 0) as [->|Hp].
  - change (filter _ [0]) with (@nil Z). simpl. lia.
  - rewrite filter_cons_True by exact Hp. simpl. lia.
Qed.

Lemma removed_slot b n ch d w0 w :
  probe_ready b w0 -> engines_ok b w0 -> (n < 8)%nat -> 2 * ch + d = Z.of_nat n ->
  removed n w0 w ->
  wp (engine <- get_engine ch d ;; when (nz engine) (engine_destroy engine))
    (fun _ w' => removed (Datatypes.S n) w0 w') w.
Proof.
  intros Hr Ho Hn Hs [He Hl Hb (E1 & E2 & E3)]. pose proof (eo_len _ _ Ho) as Hlen.
  destruct (zlookup_is_Some (engine (lro w0)) (Z.of_nat n) ltac:(lia)) as [p Hp].
  assert (engine (lro w0) !! n = Some p) as Hp'.
  { unfold zlookup in Hp. destruct (Z.ltb_spec (Z.of_nat n) 0); [lia|]. rewrite Nat2Z.id in Hp. exact Hp. }
  pose proof (take_S_r _ _ _ Hp') as Et.
  assert (engine (lro w) = engine (lro w0)) as Ee by (rewrite Hl; reflexivity).
  unfold get_engine. rewrite Hs. apply wp_bind, wp_bind, wp_getL. rewrite Ee.
  eapply wp_index; [exact Hp|]. apply wp_when; intros Hnz.
  - pose proof (proj1 (nz_true _) Hnz) as Hp0.
    destruct (eo_engine _ _ Ho _ _ Hp Hp0) as (e & Hin & Hse).
    assert (p ∉ take n (engine (lro w0))) as Hnot.
    { intros (i & Hi)%list_elem_of_lookup. apply lookup_take_Some in Hi as [Hi Hin'].
      assert (in_slot w0 (Z.of_nat i) p e) as Hin2.
      { split; [|apply Hin]. unfold zlookup. destruct (Z.ltb_spec (Z.of_nat i) 0); [lia|].
        rewrite Nat2Z.id. exact Hi. }
      destruct (eo_distinct _ _ Ho _ _ _ _ _ _ Hin Hin2 ltac:(lia)) as [Hne _]. apply Hne. reflexivity. }
    eapply wp_conseq.
    { apply (engine_destroy_ok p e); [|exact Hp0|apply Hse].
      rewrite He, decide_False by exact Hnot. apply Hin. }
    intros [] w' (Eg & (E1' & E2' & E3') & Hl' & Hb'). split.
    + intros q. rewrite Eg, Et. destruct (decide (q = p)) as [->|Hq].
      * rewrite lookup_delete_eq, decide_True; [reflexivity|]. set_solver.
      * rewrite lookup_delete_ne by congruence. rewrite He.
        destruct (decide (q ∈ take n (engine (lro w0)))).
        -- rewrite decide_True; [reflexivity|set_solver].
        -- rewrite decide_False; [reflexivity|set_solver].
    + rewrite Hl', Hl, Et, count_nz_snoc, Hnz. unfold b2z.
      destruct (lro w0); cbn. unfold set_engines_num; cbn. f_equal. lia.
    + etransitivity; eassumption.
    + split; [congruence|]. split; congruence.
  - apply nz_false in Hnz. subst p. split.
    + intros q. rewrite He, Et. destruct (decide (q ∈ take n (engine (lro w0)))) as [Hq|Hq].
      * rewrite decide_True; [reflexivity|set_solver].
      * destruct (decide (q = 0)) as [->|Hq0].
        -- rewrite decide_True by set_solver. apply Hr. lia.
        -- rewrite decide_False; [reflexivity|set_solver].
    + rewrite Hl, Et, count_nz_snoc. cbn [b2z]. change (nz 0) with false. unfold b2z.
      destruct (lro w0); cbn. unfold set_engines_num; cbn. f_equal. lia.
    + exact Hb.
    + auto.
Qed.

Lemma removed_refl w : removed 0 w w.
Proof.
  split; [| |reflexivity|auto].
  - intros q. rewrite take_0, decide_False by apply not_elem_of_nil. reflexivity.
  - rewrite take_0. change (count_nz []) with 0. destruct (lro w); unfold set_engines_num; cbn. f_equal. lia.
Qed.

Lemma remove_engines_removed b w :
  probe_ready b w -> engines_ok b w ->
  wp remove_engines (fun _ w' => removed 8 w w') w.
Proof.
  intros Hr Ho. unfold remove_engines.
  apply (wp_for (fun ch => removed (Z.to_nat (2 * ch)) w)); [unfold XDMA_CHANNEL_NUM_MAX; lia| | |auto].
  - apply removed_refl.
  - intros ch w' Hch H. unfold XDMA_CHANNEL_NUM_MAX in Hch.
    pose proof (removed_slot b (Z.to_nat (2 * ch)) ch 0 w w' Hr Ho ltac:(lia) ltac:(lia) H) as H1.
    apply wp_bind. eapply wp_conseq; [exact (wp_bind_inv _ _ _ _ H1)|].
    intros e w1 Hw1. apply wp_bind. eapply wp_conseq; [exact Hw1|]. intros [] w2 H2.
    replace (Z.to_nat (2 * (ch + 1))) with (Datatypes.S (Datatypes.S (Z.to_nat (2 * ch)))) by lia.
    apply (removed_slot b _ ch 1 w w2 Hr Ho); [lia|lia|exact H2].
Qed.

(** remove_engines frees every engine of the table, with its interrupt
    and its write-back buffer, and no other; what it leaves is the table
    itself, whose pointers now point to freed engines. *)
Lemma remove_engines_ok b w :
  probe_ready b w -> engines_ok b w ->
  wp remove_engines (fun _ w' =>
    engines_balanced w w' /\
    (forall s p, zlookup (engine (lro w)) s = Some p -> engines w' !! p = None) /\
    (forall p, p ∉ engine (lro w) -> engines w' !! p = engines w !! p) /\
    lro w' = (lro w) <| engines_num ::= (fun n => n - count_nz (engine (lro w))) |>) w.
Proof.
  intros Hr Ho. eapply wp_conseq; [apply (remove_engines_removed b); assumption|].
  intros [] w' [He Hl Hb _]. rewrite take_ge in He, Hl by (rewrite (eo_len _ _ Ho); lia).
  split; [exact Hb|]. split; [|split; [|exact Hl]].
  - intros s p Hs. rewrite He, decide_True; [reflexivity|]. unfold zlookup in Hs.
    destruct (s <? 0); [discriminate|]. eapply list_elem_of_lookup_2, Hs.
  - intros p Hp. rewrite He, decide_False by exact Hp. reflexivity.
Qed.

(** ** probe_engines *)

(** a device with no engines yet *)
Definition no_engines (w : world) : Prop :=
  engine (lro w) = replicate 8 0 /\ engines_num (lro w) = 0.

Lemma no_engines_ok b w : no_engines w -> engines_ok b w.
Proof.
  intros [E En].
  assert (forall s p, zlookup (engine (lro w)) s = Some p -> p = 0) as H0.
  { intros s p H. rewrite E in H. pose proof (zlookup_Some _ _ _ H) as Hs.
    rewrite length_replicate in Hs. rewrite zlookup_replicate in H by lia. congruence. }
  split.
  - rewrite E. reflexivity.
  - rewrite E, En. discriminate.
  - intros s p H Hp. elim Hp. eapply H0, H.
  - intros s1 s2 p1 p2 e1 e2 (H & Hp & _). elim Hp. eapply H0, H.
Qed.

(** every engine that was made is gone, with what it held *)
Definition engines_restored (w w' : world) : Prop :=
  engines w' = engines w /\ same_held irqs w w' /\ same_held buffers w w'.

Lemma restored_of_removed w0 w' :
  engines_balanced w0 w' -> engines w' = engines w0 -> engines_restored w0 w'.
Proof.
  intros Hb E. split; [exact E|]. split; intros k; destruct (Hb k) as [H1 H2]; rewrite E in *; lia.
Qed.

Lemma slot_cover s : 0 <= s < 8 -> exists dir ch, (dir = 0 \/ dir = 1) /\ 0 <= ch < 4 /\ s = slot dir ch.
Proof.
  intros Hs. exists (1 - s mod 2), (s / 2). unfold slot, b2z.
  pose proof (Z.mod_pos_bound s 2 ltac:(lia)). pose proof (Z.div_mod s 2 ltac:(lia)).
  destruct (Z.eqb_spec (1 - s mod 2) 0); lia.
Qed.

(** the part of [probing] that the removal of the engines needs *)
Record engines_since (b : Z) (w0 w : world) : Prop := {
  si_ready : probe_ready b w;
  si_ok : engines_ok b w;
  si_balanced : engines_balanced w0 w;
  si_heap : forall q, engines w !! q = engines w0 !! q \/
    (fresh w0 <= q /\ exists s, zlookup (engine (lro w)) s = Some q);
  si_new : forall s p, zlookup (engine (lro w)) s = Some p -> p <> 0 ->
    zlookup (engine (lro w0)) s = Some p \/ fresh w0 <= p
}.

Lemma probing_since b w0 w : probing b w0 w -> engines_since b w0 w.
Proof. intros []. split; assumption. Qed.

(** the engines found are removed *)
Lemma remove_restores b w w1 :
  no_engines w -> probe_ready b w -> engines_since b w w1 ->
  wp remove_engines (fun _ w' => engines_restored w w') w1.
Proof.
  intros [E0 _] Hr Hp. eapply wp_conseq; [apply (remove_engines_removed b); apply Hp|].
  intros [] w2 [He _ Hb _]. apply restored_of_removed.
  - etransitivity; [apply Hp|exact Hb].
  - rewrite take_ge in He by (rewrite (eo_len _ _ (si_ok _ _ _ Hp)); lia).
    apply map_eq. intros q. rewrite He. case_decide as Hq.
    + apply list_elem_of_lookup in Hq as [i Hi]. symmetry.
      destruct (decide (q = 0)) as [->|Hq0]; [apply Hr; lia|].
      destruct (si_new _ _ _ Hp (Z.of_nat i) q) as [Hx|Hf]; [|exact Hq0| |apply Hr; lia].
      { unfold zlookup. destruct (Z.ltb_spec (Z.of_nat i) 0); [lia|]. rewrite Nat2Z.id. exact Hi. }
      rewrite E0 in Hx. pose proof (zlookup_Some _ _ _ Hx) as Hs.
      rewrite length_replicate in Hs. rewrite zlookup_replicate in Hx by lia. congruence.
    + destruct (si_heap _ _ _ Hp q) as [E|[_ [s Hs]]]; [exact E|]. elim Hq.
      unfold zlookup in Hs. destruct (s <? 0); [discriminate|]. eapply list_elem_of_lookup_2, Hs.
Qed.

(** the outcome of probing all channels, from [w]: the engines of the H2C
    channels are looked for first *)
Definition engines_probed (b : Z) (w : world) (rc : Z) (w' : world) : Prop :=
  match probe_direction 1 w with
  | Ok (Some _) _ => rc = -1 /\ engines_restored w w'
  | Ok None w1 =>
      probing b w w1 /\ probing b w1 w' /\ (forall ch, 0 <= ch < 4 -> slot_found b 1 ch w') /\
      match probe_direction 0 w1 with
      | Ok (Some _) _ => rc = -1
      | Ok None _ => rc = 0 /\ engines_num (lro w') = count_nz (engine (lro w')) /\
          forall ch, 0 <= ch < 4 -> slot_found b 0 ch w'
      | Abort _ => False
      end
  | Abort _ => False
  end.

Lemma probe_engines_run b w :
  probe_ready b w -> 0 < b -> no_engines w -> wp probe_engines (engines_probed b w) w.
Proof.
  intros Hr Hb Hn. pose proof (no_engines_ok b w Hn) as Ho. pose proof (pr_fresh _ _ Hr) as Hf.
  assert (forall dir, direction_probed b dir 0 w w) as H0.
  { intros dir. split; [apply probing_refl; assumption| | |reflexivity|lia]; destruct Hn as [E En].
    - rewrite E, En. reflexivity.
    - intros c Hc. rewrite E. apply zlookup_replicate. exact (slot_range dir c Hc). }
  pose proof (probe_direction_ok b 1 w Hb Hf ltac:(auto) (H0 1)) as Hd1.
  unfold probe_engines, engines_probed. apply wp_bind. unfold wp at 1 in Hd1. unfold wp at 1.
  destruct (probe_direction 1 w) as [[rc|] w1|]; [| |contradiction].
  - destruct Hd1 as (-> & Hp & _). apply wp_bind.
    eapply wp_conseq; [apply (remove_restores b w); [assumption..|apply probing_since, Hp]|].
    intros [] w2 H2. apply wp_ret. split; [reflexivity|exact H2].
  - destruct Hd1 as [Hp Hc Hfree Hoth Hfd].
    assert (direction_probed b 0 0 w1 w1) as H1.
    { split; [apply probing_refl; apply Hp|exact Hc| |reflexivity|lia].
      intros c Hcc. rewrite Hoth; [|intros c' E%slot_inj; lia].
      destruct Hn as [E _]. rewrite E. apply zlookup_replicate. exact (slot_range 0 c Hcc). }
    pose proof (probe_direction_ok b 0 w1 Hb ltac:(apply Hp) ltac:(auto) H1) as Hd0.
    apply wp_bind. unfold wp at 1 in Hd0. unfold wp at 1.
    assert (forall w2, probing b w1 w2 -> (forall s, (forall c, s <> slot 0 c) ->
      zlookup (engine (lro w2)) s = zlookup (engine (lro w1)) s) -> forall ch, 0 <= ch < 4 -> slot_found b 1 ch w2) as Hkeep.
    { intros w2 _ Hs ch Hch. apply (slot_found_same b 1 ch w1); [apply Hs; intros c E%slot_inj; lia|apply Hfd, Hch]. }
    destruct (probe_direction 0 w1) as [[rc|] w2|]; [| |contradiction].
    + destruct Hd0 as (-> & Hp2 & Hs2). apply wp_ret. split; [exact Hp|]. split; [exact Hp2|]. split; [apply Hkeep; assumption|reflexivity].
    + destruct Hd0 as [Hp2 Hc2 _ Ho2 Hfd2]. apply wp_ret. split; [exact Hp|]. split; [exact Hp2|].
      split; [apply Hkeep; assumption|]. split; [reflexivity|]. split; [exact Hc2|exact Hfd2].
Qed.

(** what probe and remove need of it *)
Lemma probe_engines_outcome b w :
  probe_ready b w -> 0 < b -> no_engines w ->
  wp probe_engines (fun rc w' =>
    (rc = 0 -> probing b w w' /\ engines_num (lro w') = count_nz (engine (lro w'))) /\
    (rc <> 0 -> rc = -1 /\ (engines_restored w w' \/ probing b w w'))) w.
Proof.
  intros Hr Hb Hn. eapply wp_conseq; [apply (probe_engines_run b); assumption|]. intros rc w' H. unfold engines_probed in H.
  destruct (probe_direction 1 w) as [[?|] w1|]; [| |contradiction].
  - destruct H as [-> H]. split; [discriminate|auto].
  - destruct H as (H1 & H2 & _ & H3). pose proof (probing_trans b w w1 w' (pr_fresh _ _ Hr) H1 H2) as Hp.
    destruct (probe_direction 0 w1) as [[?|] w2|]; [subst rc; split; [discriminate|auto]| |contradiction].
    destruct H3 as (-> & Hc & _). split; [auto|congruence].
Qed.

(** C11: Probing a device with no engines.  When looking for the H2C engines
    fails, everything that was made is given back.  Otherwise the H2C engines
    are in their slots, also when looking for the C2H engines fails, which
    gives back nothing; and when that succeeds the C2H engines are in their
    slots too and all engines are counted.  A slot has an engine if and only if
    the identifier register of its channel says so; every engine has its own
    interrupt bit. *)
Theorem probe_engines_ok b w :
  probe_ready b w -> 0 < b -> no_engines w ->
  wp probe_engines (fun rc w' =>
    match probe_direction 1 w with
    | Ok (Some _) _ => rc = -1 /\ engines_restored w w'
    | Ok None w1 =>
        probing b w w1 /\ probing b w1 w' /\ (forall ch, 0 <= ch < 4 -> slot_found b 1 ch w') /\
        match probe_direction 0 w1 with
        | Ok (Some _) _ => rc = -1
        | Ok None _ => rc = 0 /\ engines_num (lro w') = count_nz (engine (lro w')) /\
            forall ch, 0 <= ch < 4 -> slot_found b 0 ch w'
        | Abort _ => False
        end
    | Abort _ => False
    end) w.
Proof. exact (probe_engines_run b w). Qed.
End Engines.
