(* ===== verification/Interfaces.v ===== *)
(** * Creating and destroying the character devices (xdma-core.c)

    The tables of file operations, device numbers, and the [struct xdma_char]
    objects of the heap [chars].  A [dev_t] is the pair of its major and minor
    number; the embedded [cdev] is named by the pointer of its structure. *)
From S2P Require Import Prelude Layout Kernel World Desc Engine Setup Creation.
#[local] Open Scope string_scope.
#[local] Open Scope Z_scope.

Definition XDMA_MINOR_BASE : Z := 0.
Definition XDMA_MINOR_COUNT : Z := 255.
Definition MAX_XDMA_DEVICES : Z := 64.

(** ** File operations *)

Inductive file_operation : Type :=
| do_char_open | do_char_close
| do_char_sgdma_open | do_char_sgdma_close
| do_char_sgdma_read | do_char_sgdma_write
| do_char_sgdma_wz_mmap | do_char_sgdma_ioctl | do_char_sgdma_llseek
| do_char_ctrl_read | do_char_ctrl_write | do_bridge_mmap
| do_char_bypass_read | do_char_bypass_write
| do_char_events_read | do_char_events_poll.

Record file_operations : Type := mk_fops {
  fo_open : option file_operation;
  fo_release : option file_operation;
  fo_read : option file_operation;
  fo_write : option file_operation;
  fo_mmap : option file_operation;
  fo_ioctl : option file_operation;
  fo_llseek : option file_operation;
  fo_poll : option file_operation
}.

Definition sg_polled_fops : file_operations :=
  mk_fops (Some do_char_sgdma_open) (Some do_char_sgdma_close) (Some do_char_sgdma_read)
    (Some do_char_sgdma_write) (Some do_char_sgdma_wz_mmap) (Some do_char_sgdma_ioctl)
    (Some do_char_sgdma_llseek) None.
Definition sg_interrupt_fops : file_operations :=
  mk_fops (Some do_char_sgdma_open) (Some do_char_sgdma_close) None
    None (Some do_char_sgdma_wz_mmap) (Some do_char_sgdma_ioctl) None None.
Definition ctrl_fops : file_operations :=
  mk_fops (Some do_char_open) (Some do_char_close) (Some do_char_ctrl_read)
    (Some do_char_ctrl_write) (Some do_bridge_mmap) None None None.
Definition bypass_fops : file_operations :=
  mk_fops (Some do_char_open) (Some do_char_close) (Some do_char_bypass_read)
    (Some do_char_bypass_write) (Some do_bridge_mmap) None None None.
Definition events_fops : file_operations :=
  mk_fops (Some do_char_open) (Some do_char_close) (Some do_char_events_read)
    None None None None (Some do_char_events_poll).

(** the value of the enum, the index in [devnode_names] *)
Definition type_idx (t : chardev_type) : Z :=
  match t with
  | CHAR_USER => 0
  | CHAR_CTRL => 1
  | CHAR_EVENTS => 2
  | CHAR_XDMA_H2C => 3
  | CHAR_XDMA_C2H => 4
  | CHAR_BYPASS_H2C => 5
  | CHAR_BYPASS_C2H => 6
  | CHAR_BYPASS => 7
  end.

Definition devnode_names : list string :=
  ["wz-xdma%d_user"; "wz-xdma%d_control"; "wz-xdma%d_events_%d"; "wz-xdma%d_h2c_%d";
   "wz-xdma%d_c2h_%d"; "wz-xdma%d_bypass_h2c_%d"; "wz-xdma%d_bypass_c2h_%d";
   "wz-xdma%d_bypass"].

Section Interfaces.
Context {bo : ByteOrder} {env : Env}.

Definition select_file_ops (type : chardev_type) : option file_operations :=
  match type with
  | CHAR_XDMA_H2C | CHAR_XDMA_C2H =>
      Some (if poll_mode then sg_polled_fops else sg_interrupt_fops)
  | CHAR_USER | CHAR_CTRL => Some ctrl_fops
  | CHAR_EVENTS => Some events_fops
  | CHAR_BYPASS_H2C | CHAR_BYPASS_C2H | CHAR_BYPASS => Some bypass_fops
  end.

(** ** Objects *)

Definition kzalloc_char : prog world Z :=
  r <- ext kzalloc [] ;;
  if r =? 0 then ret 0 else
    p <- gets fresh ;;
    modify (fun w => w <| fresh := p + 1 |> <| chars ::= <[p := zero_char]> |>) ;;
    ret p.
Definition get_char (p : Z) : prog world xdma_char := deref (fun w => chars w !! p).
Definition set_char (p : Z) (f : xdma_char -> xdma_char) : prog world unit :=
  c <- get_char p ;; modify (fun w => w <| chars ::= <[p := f c]> |>).
Definition kfree_char (p : Z) : prog world unit :=
  ext_ kfree [p] ;;
  _ <- get_char p ;;
  modify (fun w => w <| chars ::= delete p |>).

(** ** Device numbers *)

Definition gen_dev_major (lro_char : Z) : prog world Z :=
  m <- gets drv_major ;;
  if m =? 0 then
    r <- ext_all alloc_chrdev_region [XDMA_MINOR_BASE; XDMA_MINOR_COUNT] ;;
    when (nth 0 r 0 =? 0)
      (set_char lro_char (fun c => c <| c_cdevno := (nth 1 r 0, XDMA_MINOR_BASE) |>)) ;;
    c <- get_char lro_char ;;
    ret (fst (c_cdevno c))
  else
    modify (fun w => w <| drv_major := m - 1 |>) ;;
    ret m.

(** the number of the node of a character device; [None] is a [BUG_ON] *)
Definition minor_of (e : option xdma_engine) (type : chardev_type) (event_id : Z) : option Z :=
  match type with
  | CHAR_XDMA_H2C | CHAR_XDMA_C2H =>
      e ← e;
      if 2 <=? number_in_channel e then None
      else Some (32 + number_in_channel e * 4 + channel e)
  | CHAR_BYPASS_H2C | CHAR_BYPASS_C2H =>
      e ← e;
      if 2 <=? number_in_channel e then None
      else Some (64 + number_in_channel e * 4 + channel e)
  | CHAR_BYPASS => Some 100
  | CHAR_EVENTS => Some (10 + event_id)
  | CHAR_USER | CHAR_CTRL => Some (type_idx type)
  end.

(** the engine at [p], none for null *)
Definition engine_at (p : Z) : prog world (option xdma_engine) :=
  if p =? 0 then ret None else e <- deref (fun w => engines w !! p) ;; ret (Some e).

Definition gen_dev_minor (p : Z) (type : chardev_type) (event_id : Z) : prog world Z :=
  e <- engine_at p ;;
  match minor_of e type event_id with
  | Some m => ret m
  | None => abort_with BugOn
  end.

Definition config_kobject (lro_char : Z) (type : chardev_type) : prog world Z :=
  BUG_ON (lro_char =? 0) ;;
  c <- get_char lro_char ;;
  BUG_ON (negb (c_lro c)) ;;
  n <- getL instance ;;
  match type with
  | CHAR_XDMA_H2C | CHAR_XDMA_C2H | CHAR_BYPASS_H2C | CHAR_BYPASS_C2H =>
      BUG_ON (c_engine c =? 0) ;;
      e <- deref (fun w => engines w !! c_engine c) ;;
      ext kobject_set_name [lro_char; type_idx type; n; channel e]
  | CHAR_BYPASS | CHAR_USER | CHAR_CTRL => ext kobject_set_name [lro_char; type_idx type; n]
  | CHAR_EVENTS => ext kobject_set_name [lro_char; type_idx type; n; c_bar c]
  end.

Definition create_dev (lro_char : Z) (type : chardev_type) : prog world Z :=
  BUG_ON (lro_char =? 0) ;;
  c <- get_char lro_char ;;
  BUG_ON (negb (c_lro c)) ;;
  e <- engine_at (c_engine c) ;;
  let last_param :=
    match type with
    | CHAR_EVENTS => c_bar c
    | _ => match e with Some e => channel e | None => 0 end
    end in
  cls <- gets g_xdma_class ;;
  pdev <- getL pci_dev ;;
  n <- getL instance ;;
  s <- ext device_create [cls; pdev; fst (c_cdevno c); snd (c_cdevno c); type_idx type;
                          n; last_param] ;;
  set_char lro_char (fun c => c <| c_sys_device := s |>) ;;
  ret (if s =? 0 then -1 else 0).

(** ** Creation and destruction *)

(** the first instance number that is free *)
Definition find_instance_one (i : Z) : prog world (Z + Z) :=
  dp <- gets dev_present ;;
  p <- index dp i ;;
  ret (if (p =? 1) && (i <? MAX_XDMA_DEVICES) then inl (i + 1) else inr i).
Definition find_instance : prog world Z := loop 66 find_instance_one 0.

(** false is the jump to [fail_alloc] *)
Definition new_instance (lro_char : Z) : prog world bool :=
  m <- getL major ;;
  if m =? 0 then
    i <- find_instance ;;
    if i =? MAX_XDMA_DEVICES then ret false
    else
      modify (fun w => w <| dev_present ::= zinsert i 1 |>) ;;
      setL (fun d => d <| instance := i |>) ;;
      m <- gen_dev_major lro_char ;;
      setL (fun d => d <| major := m |>) ;;
      ret true
  else ret true.

Definition char_fail (lro_char : Z) : prog world Z := kfree_char lro_char ;; ret 0.

(** from [register_chrdev_region] on *)
Definition char_live (lro_char : Z) (type : chardev_type) : prog world Z :=
  c <- get_char lro_char ;;
  let '(ma, mi) := c_cdevno c in
  m <- gets drv_major ;;
  rc <- (if nz m then ext register_chrdev_region [ma; mi; 1] else ret 0) ;;
  if rc <? 0 then char_fail lro_char else
  rc <- ext cdev_add [lro_char; ma; mi; XDMA_MINOR_COUNT] ;;
  if rc <? 0 then
    ext_ unregister_chrdev_region [ma; mi; XDMA_MINOR_COUNT] ;; char_fail lro_char
  else
  cls <- gets g_xdma_class ;;
  rc <- (if nz cls then create_dev lro_char type else ret 0) ;;
  if rc <? 0 then
    ext_ cdev_del [lro_char] ;;
    ext_ unregister_chrdev_region [ma; mi; XDMA_MINOR_COUNT] ;; char_fail lro_char
  else ret lro_char.

(** the fields of the new object; true is the jump to [fail_kobj] *)
Definition char_config (lro_char bar engine : Z) (type : chardev_type) : prog world bool :=
  minor <- gen_dev_minor engine type bar ;;
  ma <- getL major ;;
  set_char lro_char (fun c => c <| c_cdevno := (ma, minor) |>) ;;
  match select_file_ops type with
  | None => ret true
  | Some _ =>
      ext_ cdev_init [lro_char; type_idx type] ;;
      set_char lro_char (fun c => c <| c_lro := true |> <| c_engine := engine |>
        <| c_bar := bar |>) ;;
      when (bool_decide (type = CHAR_EVENTS))
        (set_char lro_char (fun c => c <| c_user_irq := bar |>)) ;;
      rc <- config_kobject lro_char type ;;
      ret (nz rc)
  end.

Definition create_sg_char (bar engine : Z) (type : chardev_type) : prog world Z :=
  BUG_ON (type_idx type <? 0) ;;
  BUG_ON (Z.of_nat (length devnode_names) <? type_idx type) ;;
  lro_char <- kzalloc_char ;;
  if lro_char =? 0 then ret 0 else
    set_char lro_char (fun c => c <| c_magic := MAGIC_CHAR |>) ;;
    ok <- new_instance lro_char ;;
    if negb ok then char_fail lro_char else
    fail <- char_config lro_char bar engine type ;;
    if (fail : bool) then char_fail lro_char
    else char_live lro_char type.

Definition destroy_sg_char (lro_char : Z) : prog world Z :=
  BUG_ON (lro_char =? 0) ;;
  c <- get_char lro_char ;;
  BUG_ON (negb (c_magic c =? MAGIC_CHAR)) ;;
  BUG_ON (negb (c_lro c)) ;;
  cls <- gets g_xdma_class ;;
  BUG_ON (cls =? 0) ;;
  BUG_ON (c_sys_device c =? 0) ;;
  when (nz (c_sys_device c))
    (ext_ device_destroy [cls; fst (c_cdevno c); snd (c_cdevno c)]) ;;
  ext_ cdev_del [lro_char] ;;
  ext_ unregister_chrdev_region [fst (c_cdevno c); snd (c_cdevno c); 1] ;;
  kfree_char lro_char ;;
  ret 0.

(** ** The interfaces of a device *)

(** [if (lro->f) destroy_sg_char(lro->f);] *)
Definition destroy_if (f : xdma_dev -> Z) : prog world unit :=
  c <- getL f ;; when (nz c) (_ <- destroy_sg_char c ;; ret tt).
(** the same for [lro->f[i]] *)
Definition destroy_if_at (f : xdma_dev -> list Z) (i : Z) : prog world unit :=
  cs <- getL f ;; c <- index cs i ;; when (nz c) (_ <- destroy_sg_char c ;; ret tt).

Definition destroy_interfaces : prog world unit :=
  for_ 0 XDMA_CHANNEL_NUM_MAX (fun channel =>
    destroy_if_at sgdma_char_dev (2 * channel + 0) ;;
    destroy_if_at sgdma_char_dev (2 * channel + 1) ;;
    destroy_if_at bypass_char_dev (2 * channel + 0) ;;
    destroy_if_at bypass_char_dev (2 * channel + 1)) ;;
  destroy_if bypass_char_dev_base ;;
  for_ 0 MAX_USER_IRQ (destroy_if_at events_char_dev) ;;
  destroy_if ctrl_char_dev ;;
  destroy_if user_char_dev.

Definition create_engine_interface (p channel dir_to_dev : Z) : prog world Z :=
  let dir_from_dev := b2z (dir_to_dev =? 0) in
  BUG_ON (p =? 0) ;;
  let type := if nz dir_to_dev then CHAR_XDMA_H2C else CHAR_XDMA_C2H in
  c <- create_sg_char (-1) p type ;;
  setL (fun d => d <| sgdma_char_dev ::= zinsert (2 * channel + dir_from_dev) c |>) ;;
  ret (if c =? 0 then -1 else 0).

Definition create_bypass_interface (p channel dir_to_dev : Z) : prog world Z :=
  let dir_from_dev := b2z (dir_to_dev =? 0) in
  BUG_ON (p =? 0) ;;
  let type := if nz dir_to_dev then CHAR_BYPASS_H2C else CHAR_BYPASS_C2H in
  b <- getL bypass_bar_idx ;;
  c <- create_sg_char b p type ;;
  setL (fun d => d <| bypass_char_dev ::= zinsert (2 * channel + dir_from_dev) c |>) ;;
  ret (if c =? 0 then -1 else 0).

(** The four loops over the channels; [Some _] is the jump to [fail]. *)
Definition create_engine_interfaces (dir_to_dev : Z) : prog world (option unit) :=
  for_exit 0 XDMA_CHANNEL_NUM_MAX (fun channel =>
    engine <- get_engine channel (b2z (dir_to_dev =? 0)) ;;
    rc <- (if nz engine then create_engine_interface engine channel dir_to_dev else ret 0) ;;
    ret (if nz rc then Some tt else None)).
Definition create_bypass_interfaces (dir_to_dev : Z) : prog world (option unit) :=
  for_exit 0 XDMA_CHANNEL_NUM_MAX (fun channel =>
    engine <- get_engine channel (b2z (dir_to_dev =? 0)) ;;
    b <- getL bypass_bar_idx ;;
    rc <- (if nz engine && (0 <=? b) then create_bypass_interface engine channel dir_to_dev
           else ret 0) ;;
    ret (if nz rc then Some tt else None)).

(** [goto fail] *)
Definition or_fail (m : prog world (option unit)) (k : prog world (option unit))
  : prog world (option unit) :=
  r <- m ;; match r with Some _ => ret (Some tt) | None => k end.

Definition create_user_interface : prog world (option unit) :=
  u <- getL user_bar_idx ;;
  if u <? 0 then setL (fun d => d <| user_char_dev := 0 |>) ;; ret None
  else
    c <- create_sg_char u 0 CHAR_USER ;;
    setL (fun d => d <| user_char_dev := c |>) ;;
    ret (if c =? 0 then Some tt else None).
Definition create_ctrl_interface : prog world (option unit) :=
  i <- getL config_bar_idx ;;
  c <- create_sg_char i 0 CHAR_CTRL ;;
  setL (fun d => d <| ctrl_char_dev := c |>) ;;
  ret (if c =? 0 then Some tt else None).
(** the condition of the source is on the array, which is never null *)
Definition create_events_interfaces : prog world unit :=
  for_ 0 MAX_USER_IRQ (fun i =>
    c <- create_sg_char i 0 CHAR_EVENTS ;;
    setL (fun d => d <| events_char_dev ::= zinsert i c |>)).
Definition create_bypass_base : prog world unit :=
  b <- getL bypass_bar_idx ;;
  if b <? 0 then setL (fun d => d <| bypass_char_dev_base := 0 |>)
  else
    c <- create_sg_char b 0 CHAR_BYPASS ;;
    setL (fun d => d <| bypass_char_dev_base := c |>).

Definition create_interfaces : prog world Z :=
  r <- or_fail create_user_interface
       (or_fail create_ctrl_interface
       (create_events_interfaces ;;
        or_fail (create_engine_interfaces 1)
       (or_fail (create_engine_interfaces 0)
       (or_fail (create_bypass_interfaces 1)
       (or_fail (create_bypass_interfaces 0)
       (create_bypass_base ;; ret None)))))) ;;
  match r with
  | None => ret 0
  | Some _ => destroy_interfaces ;; ret (-1)
  end.
End Interfaces.
