(* ===== verification/InterfacesFacts.v ===== *)
(** * Facts on the character devices: numbers, creation and destruction *)
From S2P Require Import Prelude Layout Kernel World Desc Engine Ledger Setup Creation Interfaces.
#[local] Open Scope string_scope.
#[local] Open Scope Z_scope.
Ltac wp_hook ::= wp_engine.

(** ** Device numbers *)

(** a device type and the engine it is for: the direction of the type is that
    of the engine ([number_in_channel] is 0 for H2C and 1 for C2H) *)
Definition type_for (type : chardev_type) (e : xdma_engine) : Prop :=
  match type with
  | CHAR_XDMA_H2C | CHAR_BYPASS_H2C => number_in_channel e = 0 /\ 0 <= channel e < 4
  | CHAR_XDMA_C2H | CHAR_BYPASS_C2H => number_in_channel e = 1 /\ 0 <= channel e < 4
  | _ => True
  end.
Definition for_engine (type : chardev_type) : bool :=
  match type with
  | CHAR_XDMA_H2C | CHAR_XDMA_C2H | CHAR_BYPASS_H2C | CHAR_BYPASS_C2H => true
  | _ => false
  end.

(** the minor numbers of a type *)
Definition minor_range (type : chardev_type) (m : Z) : Prop :=
  match type with
  | CHAR_USER => m = 0
  | CHAR_CTRL => m = 1
  | CHAR_EVENTS => 10 <= m < 26
  | CHAR_XDMA_H2C => 32 <= m < 36
  | CHAR_XDMA_C2H => 36 <= m < 40
  | CHAR_BYPASS_H2C => 64 <= m < 68
  | CHAR_BYPASS_C2H => 68 <= m < 72
  | CHAR_BYPASS => m = 100
  end.

Lemma minor_of_range e type i :
  type_for type e -> 0 <= i < MAX_USER_IRQ ->
  exists m, minor_of (Some e) type i = Some m /\ minor_range type m /\
    (for_engine type = true -> m mod 4 = channel e) /\ (type = CHAR_EVENTS -> m = 10 + i).
Proof.
  unfold MAX_USER_IRQ, minor_of, type_for. intros Ht Hi. destruct type; cbn;
    try match goal with H : _ /\ _ |- _ => destruct H as [-> ?]; cbn end; eexists; (split; [reflexivity|]); cbn;
    (split; [lia|]); split; try discriminate; intros _; try (Z.div_mod_to_equations; lia).
Qed.

(** C26: device numbers are unique: two nodes of a device with the same minor
    number are of the same type, of the same channel where they belong to an
    engine, and of the same interrupt where they report events; and each is
    within the range that is allocated. *)
Theorem gen_dev_minor_unique e1 e2 t1 t2 i1 i2 m :
  type_for t1 e1 -> type_for t2 e2 -> 0 <= i1 < MAX_USER_IRQ -> 0 <= i2 < MAX_USER_IRQ ->
  minor_of (Some e1) t1 i1 = Some m -> minor_of (Some e2) t2 i2 = Some m ->
  t1 = t2 /\ (for_engine t1 = true -> channel e1 = channel e2) /\
  (t1 = CHAR_EVENTS -> i1 = i2) /\ XDMA_MINOR_BASE <= m < XDMA_MINOR_BASE + XDMA_MINOR_COUNT.
Proof.
  intros H1 H2 Hi1 Hi2 E1 E2.
  destruct (minor_of_range e1 t1 i1 H1 Hi1) as (m1 & F1 & R1 & C1 & V1).
  destruct (minor_of_range e2 t2 i2 H2 Hi2) as (m2 & F2 & R2 & C2 & V2).
  assert (m1 = m) by congruence. assert (m2 = m) by congruence. subst m1 m2.
  assert (t1 = t2) as <- by (destruct t1, t2; try reflexivity; cbn in R1, R2; lia).
  split; [reflexivity|]. split; [intros H; rewrite <- C1, <- C2 by exact H; reflexivity|].
  split; [intros H; specialize (V1 H); specialize (V2 H); lia|].
  unfold XDMA_MINOR_BASE, XDMA_MINOR_COUNT. destruct t1; cbn in R1; lia.
Qed.

Section Interfaces.
Context {bo : ByteOrder} {env : Env}.

(** ** Instance numbers *)

(** the instance number of a new device is the first that is free. *)
Lemma find_instance_first w :
  length (dev_present w) = 64%nat ->
  (exists j, 0 <= j < 64 /\ zlookup (dev_present w) j <> Some 1) ->
  wp find_instance (fun i w' => w' = w /\ 0 <= i < 64 /\
    zlookup (dev_present w) i <> Some 1 /\
    forall j, 0 <= j < i -> zlookup (dev_present w) j = Some 1) w.
Proof.
  intros Hl (j0 & Hj0 & Hfree). unfold find_instance.
  apply (wp_loop (fun i w' => w' = w /\ 0 <= i <= j0 /\
      forall j, 0 <= j < i -> zlookup (dev_present w) j = Some 1)
    (fun i _ => Z.to_nat (64 - i))); [|split; [reflexivity|split; lia]|lia].
  intros i w' (-> & Hi & Hall). unfold find_instance_one.
  destruct (zlookup_is_Some (dev_present w) i ltac:(lia)) as [p Hp].
  apply wp_bind, wp_gets, wp_bind. eapply wp_index; [exact Hp|]. apply wp_ret.
  unfold MAX_XDMA_DEVICES. destruct (Z.ltb_spec i 64); [|lia].
  destruct (Z.eqb_spec p 1) as [->|Hp1]; cbn [andb].
  - assert (i <> j0) by (intros ->; contradiction).
    split; [|lia]. split; [reflexivity|]. split; [lia|].
    intros j Hj. destruct (decide (j = i)) as [->|]; [exact Hp|]. apply Hall. lia.
  - split; [reflexivity|]. split; [lia|]. split; [congruence|exact Hall].
Qed.

(** ** Creation *)

(** the device but for the numbers of its nodes *)
Definition but_numbers (d d' : xdma_dev) : Prop :=
  d' <| major := major d |> <| instance := instance d |> = d.

(** the node [c] is live *)
Definition live (c : Z) (k : list Z) : Z := is_key (Some [c]) k.

(** since [w0] the object [c], which is [x], was made, and gone live if [up] *)
Record char_state (up : bool) (c : Z) (x : xdma_char) (w0 w : world) : Prop := {
  cs_chars : chars w = <[c := x]> (chars w0);
  cs_cdevs : forall k, held cdevs (trace w) k
    = held cdevs (trace w0) k + (if up then live c k else 0);
  cs_engines : engines w = engines w0;
  cs_class : g_xdma_class w = g_xdma_class w0;
  cs_lro : but_numbers (lro w0) (lro w);
  cs_eng : eng w = eng w0;
  cs_fresh : fresh w = c + 1
}.

(** a device for which a node of [type] can be made, for the engine at [p] *)
Record char_ready (p : Z) (type : chardev_type) (w : world) : Prop := {
  cr_fresh : 0 < fresh w;
  cr_heap : forall q, fresh w <= q -> chars w !! q = None;
  cr_instances : length (dev_present w) = 64%nat;
  cr_free : major (lro w) <> 0 \/
    exists j, 0 <= j < 64 /\ zlookup (dev_present w) j <> Some 1;
  cr_engine : if for_engine type
    then p <> 0 /\ exists e, engines w !! p = Some e /\ type_for type e
    else p = 0
}.

Lemma wp_get_char c x (Q : xdma_char -> world -> Prop) w :
  chars w !! c = Some x -> Q x w -> wp (get_char c) Q w.
Proof. intros H HQ. eapply wp_deref; eassumption. Qed.

Lemma wp_set_char c x f (Q : unit -> world -> Prop) w :
  chars w !! c = Some x -> Q tt (w <| chars ::= <[c := f x]> |>) -> wp (set_char c f) Q w.
Proof.
  intros H HQ. unfold set_char. apply wp_bind. eapply wp_get_char; [exact H|].
  apply wp_modify, HQ.
Qed.

Lemma char_state_lookup up c x w0 w : char_state up c x w0 w -> chars w !! c = Some x.
Proof. intros H. rewrite (cs_chars _ _ _ _ _ H). apply lookup_insert_eq. Qed.

Lemma char_state_set up c x w0 w f :
  char_state up c x w0 w -> char_state up c (f x) w0 (w <| chars ::= <[c := f x]> |>).
Proof.
  intros [E1 E2 E3 E4 E5 E6 E7]. split; try assumption.
  cbn. rewrite E1. apply insert_insert_eq.
Qed.

Lemma char_state_call up c x w0 w f args r :
  (forall k, is_key (taken_by cdevs (Call f args r)) k
             = is_key (given_by cdevs (Call f args r)) k) ->
  char_state up c x w0 w -> char_state up c x w0 (log (Call f args r) w).
Proof.
  intros Hn [E1 E2 E3 E4 E5 E6 E7]. split; try assumption.
  intros k. rewrite held_log, Hn, E2. lia.
Qed.

(** freeing the object takes everything back *)
Lemma char_fail_ok c x w0 w :
  char_state false c x w0 w -> chars w0 !! c = None ->
  wp (char_fail c) (fun r w' => r = 0 /\ chars w' = chars w0 /\ same_held cdevs w0 w' /\
    engines w' = engines w0 /\ but_numbers (lro w0) (lro w') /\ eng w' = eng w0) w.
Proof.
  intros H Hn. unfold char_fail, kfree_char. apply wp_bind, wp_bind, wp_ext_, wp_bind.
  eapply wp_get_char; [exact (char_state_lookup _ _ _ _ _ H)|]. apply wp_modify, wp_ret.
  destruct H as [E1 E2 E3 E4 E5 E6 E7]. split; [reflexivity|].
  split; [cbn; rewrite E1; apply delete_insert_id, Hn|].
  split; [intros k; refine (eq_trans (E2 k) _); lia|]. auto.
Qed.

Lemma gen_dev_major_ok c x w0 w :
  char_state false c x w0 w ->
  wp (gen_dev_major c) (fun m w' => exists n, char_state false c (x <| c_cdevno := n |>) w0 w' /\
    dev_present w' = dev_present w /\ lro w' = lro w) w.
Proof.
  intros H. unfold gen_dev_major. apply wp_bind, wp_gets.
  destruct (drv_major w =? 0).
  - apply wp_bind, wp_ext_all, wp_bind. set (r := answer _ _ _).
    match goal with |- wp _ _ ?st => set (w1 := st) end.
    assert (char_state false c x w0 w1) as H1 by (apply char_state_call; [reflexivity|exact H]).
    apply wp_when; intros Hr.
    + eapply wp_set_char; [exact (char_state_lookup _ _ _ _ _ H1)|].
      pose proof (char_state_set _ _ _ _ _ (fun c => c <| c_cdevno := (nth 1 r 0, XDMA_MINOR_BASE) |>) H1) as H2.
      apply wp_bind. eapply wp_get_char; [exact (char_state_lookup _ _ _ _ _ H2)|].
      apply wp_ret. eexists. split; [exact H2|]. split; reflexivity.
    + apply wp_bind. eapply wp_get_char; [exact (char_state_lookup _ _ _ _ _ H1)|].
      apply wp_ret. exists (c_cdevno x). split; [|split; reflexivity].
      replace (x <| c_cdevno := c_cdevno x |>) with x by (destruct x; reflexivity). exact H1.
  - apply wp_bind, wp_modify, wp_ret. exists (c_cdevno x). split; [|split; reflexivity].
    replace (x <| c_cdevno := c_cdevno x |>) with x by (destruct x; reflexivity).
    destruct H. split; assumption.
Qed.

Lemma new_instance_ok c x w0 w :
  char_state false c x w0 w -> length (dev_present w) = 64%nat ->
  (major (lro w) <> 0 \/ exists j, 0 <= j < 64 /\ zlookup (dev_present w) j <> Some 1) ->
  wp (new_instance c) (fun ok w' => ok = true /\
    exists n, char_state false c (x <| c_cdevno := n |>) w0 w') w.
Proof.
  intros H Hl Hf. unfold new_instance. apply wp_bind, wp_getL.
  destruct (Z.eqb_spec (major (lro w)) 0) as [Hm|Hm].
  - destruct Hf as [Hf|Hf]; [contradiction|]. apply wp_bind.
    eapply wp_conseq; [apply find_instance_first; [exact Hl|exact Hf]|].
    intros i w' (-> & Hi & _). destruct (Z.eqb_spec i MAX_XDMA_DEVICES) as [E|_];
      [unfold MAX_XDMA_DEVICES in E; lia|].
    apply wp_bind, wp_modify, wp_bind, wp_setL, wp_bind.
    eapply wp_conseq; [apply (gen_dev_major_ok c x w0)|].
    { destruct H as [E1 E2 E3 E4 E5 E6 E7]. split; assumption. }
    intros m w2 (n & H2 & _). apply wp_bind, wp_setL, wp_ret. split; [reflexivity|].
    exists n. destruct H2 as [E1 E2 E3 E4 E5 E6 E7]. split; assumption.
  - apply wp_ret. split; [reflexivity|]. exists (c_cdevno x).
    replace (x <| c_cdevno := c_cdevno x |>) with x by (destruct x; reflexivity). exact H.
Qed.

(** the fields a new object has *)
Record char_made (bar p : Z) (type : chardev_type) (e : option xdma_engine) (x : xdma_char)
  : Prop := {
  cm_magic : c_magic x = MAGIC_CHAR;
  cm_lro : c_lro x = true;
  cm_engine : c_engine x = p;
  cm_bar : c_bar x = bar;
  cm_minor : minor_of e type bar = Some (snd (c_cdevno x));
  cm_irq : c_user_irq x = if bool_decide (type = CHAR_EVENTS) then bar else -1
}.

(** the engine of a node *)
Definition node_engine (p : Z) (w : world) : option xdma_engine :=
  if p =? 0 then None else engines w !! p.

Lemma engine_at_ok p type w0 w :
  char_ready p type w0 -> engines w = engines w0 ->
  wp (engine_at p) (fun e w' => w' = w /\ e = node_engine p w0) w.
Proof.
  intros Hr E. pose proof (cr_engine _ _ _ Hr) as He. unfold engine_at, node_engine.
  destruct (Z.eqb_spec p 0) as [->|Hp]; [apply wp_ret; auto|].
  destruct (for_engine type); [|contradiction]. destruct He as (_ & e & He & _).
  apply wp_bind. eapply wp_deref; [rewrite E; exact He|]. apply wp_ret. auto.
Qed.

Lemma ready_minor p type bar w :
  char_ready p type w -> exists m, minor_of (node_engine p w) type bar = Some m.
Proof.
  intros Hr. pose proof (cr_engine _ _ _ Hr) as He. unfold node_engine, minor_of.
  destruct type; cbn in *; try (eexists; reflexivity);
    destruct He as (Hp & e & He & Ht & _); rewrite (proj2 (Z.eqb_neq _ _) Hp), He; cbn;
    rewrite Ht; eexists; reflexivity.
Qed.

Lemma config_kobject_ok c x p type bar w0 w :
  char_ready p type w0 -> char_state false c x w0 w -> c <> 0 ->
  char_made bar p type (node_engine p w0) x ->
  wp (config_kobject c type) (fun _ w' => char_state false c x w0 w') w.
Proof.
  intros Hr H Hc Hm. pose proof (cr_engine _ _ _ Hr) as He. unfold config_kobject.
  apply wp_bind, wp_BUG_ON; [apply Z.eqb_neq, Hc|]. apply wp_bind.
  eapply wp_get_char; [exact (char_state_lookup _ _ _ _ _ H)|].
  apply wp_bind, wp_BUG_ON; [rewrite (cm_lro _ _ _ _ _ Hm); reflexivity|].
  apply wp_bind, wp_getL.
  destruct type; cbn in He; try (apply wp_ext, char_state_call; [reflexivity|exact H]);
    destruct He as (Hp & e & He & _);
    (apply wp_bind, wp_BUG_ON; [rewrite (cm_engine _ _ _ _ _ Hm); apply Z.eqb_neq, Hp|]);
    (apply wp_bind; eapply wp_deref;
      [rewrite (cm_engine _ _ _ _ _ Hm), (cs_engines _ _ _ _ _ H); exact He|]);
    (apply wp_ext, char_state_call; [reflexivity|exact H]).
Qed.

Lemma char_config_ok c x bar p type w0 w :
  char_ready p type w0 -> char_state false c x w0 w -> c <> 0 ->
  c_magic x = MAGIC_CHAR -> c_user_irq x = -1 ->
  wp (char_config c bar p type) (fun _ w' =>
    exists x', char_state false c x' w0 w' /\ char_made bar p type (node_engine p w0) x') w.
Proof.
  intros Hr H Hc Hx Hirq. unfold char_config, gen_dev_minor.
  destruct (ready_minor p type bar w0 Hr) as [m Em].
  apply wp_bind, wp_bind. eapply wp_conseq; [apply (engine_at_ok p type w0 w Hr), H|].
  intros e w1 [-> ->]. rewrite Em. apply wp_ret, wp_bind, wp_getL, wp_bind.
  eapply wp_set_char; [exact (char_state_lookup _ _ _ _ _ H)|].
  pose proof (char_state_set _ _ _ _ _ (fun c => c <| c_cdevno := (major (lro w), m) |>) H) as H1.
  cbv beta in H1. set (x1 := x <| c_cdevno := _ |>) in *.
  destruct (select_file_ops type) eqn:Ef; [|destruct type; discriminate Ef].
  apply wp_bind, wp_ext_, wp_bind.
  match goal with |- wp _ _ ?st => set (w2 := st) end.
  assert (char_state false c x1 w0 w2) as H2 by (apply char_state_call; [reflexivity|exact H1]).
  eapply wp_set_char; [exact (char_state_lookup _ _ _ _ _ H2)|].
  pose proof (char_state_set _ _ _ _ _ (fun c => c <| c_lro := true |> <| c_engine := p |> <| c_bar := bar |>) H2) as H3.
  cbv beta in H3. set (x2 := x1 <| c_lro := _ |> <| c_engine := _ |> <| c_bar := _ |>) in *.
  set (w3 := w2 <| chars ::= _ |>) in *.
  set (x3 := if bool_decide (type = CHAR_EVENTS) then x2 <| c_user_irq := bar |> else x2).
  assert (char_made bar p type (node_engine p w0) x3) as Hm.
  { subst x3. destruct (bool_decide (type = CHAR_EVENTS)) eqn:Et;
      split; try reflexivity; try exact Hx; try exact Em; cbn; rewrite Et; auto. }
  apply wp_bind. apply wp_conseq with (P := fun _ w4 => char_state false c x3 w0 w4).
  - apply wp_when; intros Et; subst x3; rewrite Et; [|exact H3].
    eapply wp_set_char; [exact (char_state_lookup _ _ _ _ _ H3)|].
    apply (char_state_set _ _ _ _ _ (fun c => c <| c_user_irq := bar |>) H3).
  - intros [] w4 H4. apply wp_bind. eapply wp_conseq;
      [apply (config_kobject_ok c x3 p type bar w0); assumption|].
    intros rc w5 H5. apply wp_ret. exists x3. split; assumption.
Qed.

(** what [create_sg_char] promises: a node, or nothing *)
Definition char_created (bar p : Z) (type : chardev_type) (w : world) (c : Z) (w' : world) : Prop :=
  engines w' = engines w /\ eng w' = eng w /\ but_numbers (lro w) (lro w') /\
  if c =? 0 then chars w' = chars w /\ same_held cdevs w w'
  else
    c = fresh w /\ g_xdma_class w' = g_xdma_class w /\
    exists x, chars w' = <[c := x]> (chars w) /\ char_made bar p type (node_engine p w) x /\
      (g_xdma_class w <> 0 -> c_sys_device x <> 0) /\
      forall k, held cdevs (trace w') k = held cdevs (trace w) k + live c k.

Lemma create_dev_ok up c x p type bar w0 w :
  char_ready p type w0 -> char_state up c x w0 w -> c <> 0 ->
  char_made bar p type (node_engine p w0) x ->
  wp (create_dev c type) (fun rc w' => exists s, char_state up c (x <| c_sys_device := s |>) w0 w' /\
    (rc = if s =? 0 then -1 else 0)) w.
Proof.
  intros Hr H Hc Hm. unfold create_dev.
  apply wp_bind, wp_BUG_ON; [apply Z.eqb_neq, Hc|]. apply wp_bind.
  eapply wp_get_char; [exact (char_state_lookup _ _ _ _ _ H)|].
  apply wp_bind, wp_BUG_ON; [rewrite (cm_lro _ _ _ _ _ Hm); reflexivity|].
  apply wp_bind. rewrite (cm_engine _ _ _ _ _ Hm).
  eapply wp_conseq; [apply (engine_at_ok p type w0 w Hr), H|].
  intros e w2 [-> _]. apply wp_bind, wp_gets, wp_bind, wp_getL, wp_bind, wp_getL, wp_bind, wp_ext.
  set (s := nth 0 _ 0). apply wp_bind.
  match goal with |- wp _ _ ?st => set (w3 := st) end.
  assert (char_state up c x w0 w3) as H3 by (apply char_state_call; [reflexivity|exact H]).
  eapply wp_set_char; [exact (char_state_lookup _ _ _ _ _ H3)|]. apply wp_ret.
  exists s. split; [|reflexivity]. apply (char_state_set _ _ _ _ _ (fun c => c <| c_sys_device := s |>) H3).
Qed.

Lemma char_fail_created c x bar p type w0 w :
  char_ready p type w0 -> c = fresh w0 -> char_state false c x w0 w ->
  wp (char_fail c) (char_created bar p type w0) w.
Proof.
  intros Hr Ec H. eapply wp_conseq; [apply (char_fail_ok c x w0); [exact H|apply Hr; lia]|].
  intros r w' (-> & E1 & E2 & E3 & E4 & E5). split; [exact E3|]. split; [exact E5|].
  split; [exact E4|]. split; assumption.
Qed.


(** the node goes live, and is taken down *)
Lemma char_state_up c x w0 w args r :
  (nth 0 r 0 <? 0) = false ->
  char_state false c x w0 w -> char_state true c x w0 (log (Call cdev_add (c :: args) r) w).
Proof.
  intros Hr [E1 E2 E3 E4 E5 E6 E7]. split; try assumption. intros k.
  rewrite held_log, E2. unfold live. cbn [taken_by given_by cdevs]. rewrite Hr, is_key_none. lia.
Qed.

Lemma char_state_down c x w0 w :
  char_state true c x w0 w -> char_state false c x w0 (log (Call cdev_del [c] []) w).
Proof.
  intros [E1 E2 E3 E4 E5 E6 E7]. split; try assumption. intros k.
  rewrite held_log, E2. unfold live. cbn [taken_by given_by cdevs]. rewrite is_key_none. lia.
Qed.

Lemma char_live_ok c x p type bar w0 w :
  char_ready p type w0 -> char_state false c x w0 w -> c = fresh w0 ->
  char_made bar p type (node_engine p w0) x ->
  wp (char_live c type) (char_created bar p type w0) w.
Proof.
  intros Hr H Ec Hm. pose proof (cr_fresh _ _ _ Hr) as Hf. unfold char_live.
  apply wp_bind. eapply wp_get_char; [exact (char_state_lookup _ _ _ _ _ H)|].
  destruct (c_cdevno x) as [ma mi] eqn:En. apply wp_bind, wp_gets, wp_bind.
  apply wp_conseq with (P := fun _ w1 => char_state false c x w0 w1).
  { destruct (nz _); [apply wp_ext, char_state_call; [reflexivity|exact H]|apply wp_ret, H]. }
  intros rc w1 H1. destruct (rc <? 0); [apply (char_fail_created _ x); assumption|].
  apply wp_bind, wp_ext. set (r := answer _ _ _). destruct (nth 0 r 0 <? 0) eqn:Er.
  - apply wp_bind, wp_ext_. apply (char_fail_created _ x); [exact Hr|exact Ec|].
    apply char_state_call; [reflexivity|]. apply char_state_call; [|exact H1].
    intros k. cbn [taken_by given_by cdevs]. rewrite Er. reflexivity.
  - pose proof (char_state_up c x w0 w1 [ma; mi; XDMA_MINOR_COUNT] r Er H1) as H2.
    set (w2 := log _ w1) in *. apply wp_bind, wp_gets, wp_bind.
    apply wp_conseq with (P := fun rc w3 => exists s,
      char_state true c (x <| c_sys_device := s |>) w0 w3 /\
      (0 <= rc -> g_xdma_class w0 <> 0 -> s <> 0)).
    { rewrite (cs_class _ _ _ _ _ H2). destruct (nz (g_xdma_class w0)) eqn:Ecls.
      - eapply wp_conseq; [apply (create_dev_ok true c x p type bar w0); [exact Hr|exact H2|lia|exact Hm]|].
        intros rc' w3 (s & H3 & ->). exists s. split; [exact H3|].
        destruct (Z.eqb_spec s 0); lia.
      - apply wp_ret. apply nz_false in Ecls. exists (c_sys_device x).
        split; [destruct x; exact H2|]. lia. }
    intros rc' w3 (s & H3 & Hs). destruct (Z.ltb_spec rc' 0) as [Hlt|Hge].
    + apply wp_bind, wp_ext_, wp_bind, wp_ext_.
      apply (char_fail_created _ (x <| c_sys_device := s |>)); [exact Hr|exact Ec|].
      apply char_state_call; [reflexivity|]. apply char_state_down, H3.
    + apply wp_ret. destruct H3 as [E1 E2 E3 E4 E5 E6 E7]. split; [exact E3|].
      split; [exact E6|]. split; [exact E5|].
      rewrite (proj2 (Z.eqb_neq c 0)) by lia. split; [exact Ec|]. split; [exact E4|].
      exists (x <| c_sys_device := s |>). split; [exact E1|]. split; [destruct Hm; split; assumption|].
      split; [cbn; auto|exact E2].
Qed.

Lemma create_sg_char_run bar p type w :
  char_ready p type w ->
  wp (create_sg_char bar p type) (char_created bar p type w) w.
Proof.
  intros Hr. pose proof (cr_fresh _ _ _ Hr) as Hf. unfold create_sg_char.
  apply wp_bind, wp_BUG_ON; [destruct type; reflexivity|].
  apply wp_bind, wp_BUG_ON; [destruct type; reflexivity|]. apply wp_bind. unfold kzalloc_char.
  apply wp_bind, wp_ext. set (r := answer _ _ _). destruct (Z.eqb_spec (nth 0 r 0) 0).
  { apply wp_ret, wp_ret. split; [reflexivity|]. split; [reflexivity|].
    split; [unfold but_numbers; cbn; destruct (lro w); reflexivity|].
    split; [reflexivity|intros k; reflexivity]. }
  apply wp_bind, wp_gets, wp_bind, wp_modify, wp_ret. change (fresh (log _ w)) with (fresh w).
  set (c := fresh w) in *. rewrite (proj2 (Z.eqb_neq c 0)) by lia.
  match goal with |- wp _ _ ?st => set (w1 := st) end.
  assert (char_state false c zero_char w w1) as H1.
  { split; try reflexivity; [intros k; rewrite Z.add_0_r; reflexivity|].
    unfold but_numbers; cbn; destruct (lro w); reflexivity. }
  apply wp_bind. eapply wp_set_char; [exact (char_state_lookup _ _ _ _ _ H1)|].
  pose proof (char_state_set _ _ _ _ _ (fun c => c <| c_magic := MAGIC_CHAR |>) H1) as H2.
  set (w2 := w1 <| chars ::= _ |>) in *. apply wp_bind.
  eapply wp_conseq; [apply (new_instance_ok c (zero_char <| c_magic := MAGIC_CHAR |>) w);
    [exact H2|apply (cr_instances _ _ _ Hr)|apply (cr_free _ _ _ Hr)]|].
  intros ok w3 (-> & m & H3). cbn [negb]. apply wp_bind.
  eapply wp_conseq; [apply (char_config_ok c _ bar p type w w3 Hr H3); [lia|reflexivity|reflexivity]|].
  intros fail w4 (x & H4 & Hm). destruct fail.
  - apply (char_fail_created _ x); [exact Hr|reflexivity|exact H4].
  - apply (char_live_ok _ x); [exact Hr|exact H4|reflexivity|exact Hm].
Qed.

(** C25: create_sg_char gives a live node with the number of its type and
    engine, or null with the object freed and no node live, whichever of its
    calls failed. *)
Theorem create_sg_char_ok bar p type w :
  char_ready p type w ->
  wp (create_sg_char bar p type) (char_created bar p type w) w.
Proof. exact (create_sg_char_run bar p type w). Qed.

(** ** Destruction *)

Lemma destroy_sg_char_ok c x w :
  chars w !! c = Some x -> c <> 0 -> c_magic x = MAGIC_CHAR -> c_lro x = true ->
  g_xdma_class w <> 0 -> c_sys_device x <> 0 ->
  wp (destroy_sg_char c) (fun r w' => r = 0 /\ chars w' = delete c (chars w) /\
    (forall k, held cdevs (trace w') k = held cdevs (trace w) k - live c k) /\
    engines w' = engines w /\ lro w' = lro w /\ eng w' = eng w) w.
Proof.
  intros Hx Hc Hm Hl Hcls Hs. unfold destroy_sg_char.
  apply wp_bind, wp_BUG_ON; [apply Z.eqb_neq, Hc|]. apply wp_bind.
  eapply wp_get_char; [exact Hx|].
  apply wp_bind, wp_BUG_ON; [rewrite Hm; reflexivity|].
  apply wp_bind, wp_BUG_ON; [rewrite Hl; reflexivity|]. apply wp_bind, wp_gets.
  apply wp_bind, wp_BUG_ON; [apply Z.eqb_neq, Hcls|].
  apply wp_bind, wp_BUG_ON; [apply Z.eqb_neq, Hs|]. apply wp_bind, wp_when.
  2: { intros H. apply nz_false in H. contradiction. }
  intros _. apply wp_ext_, wp_bind, wp_ext_, wp_bind, wp_ext_, wp_bind. unfold kfree_char.
  apply wp_bind, wp_ext_, wp_bind. eapply wp_get_char; [exact Hx|]. apply wp_modify, wp_ret.
  split; [reflexivity|]. split; [reflexivity|]. split; [|auto]. intros k.
  match goal with |- held _ (trace ?s) _ = _ => change (trace s) with
    ([Call kfree [c] []; Call unregister_chrdev_region [fst (c_cdevno x); snd (c_cdevno x); 1] [];
      Call cdev_del [c] []; Call device_destroy [g_xdma_class w; fst (c_cdevno x); snd (c_cdevno x)] []]
      ++ trace w)%list end.
  cbn [app]. rewrite !held_cons. unfold live. cbn [taken_by given_by cdevs].
  rewrite is_key_none. lia.
Qed.

(** Creating a node and destroying it again leaves the nodes as they
    were. *)
Theorem create_destroy_sg_char bar p type w :
  char_ready p type w -> g_xdma_class w <> 0 ->
  wp (c <- create_sg_char bar p type ;; if c =? 0 then ret 0 else destroy_sg_char c)
    (fun _ w' => chars w' = chars w /\ same_held cdevs w w' /\
      engines w' = engines w /\ but_numbers (lro w) (lro w')) w.
Proof.
  intros Hr Hcls. pose proof (cr_fresh _ _ _ Hr) as Hf. apply wp_bind.
  eapply wp_conseq; [apply create_sg_char_run, Hr|]. intros c w1 (E1 & _ & E2 & H).
  destruct (Z.eqb_spec c 0); [apply wp_ret; destruct H; auto|].
  destruct H as (Ec & Eg & x & Hx & Hm & Hs & Hh).
  eapply wp_conseq; [apply (destroy_sg_char_ok c x)|].
  - rewrite Hx. apply lookup_insert_eq.
  - lia.
  - apply Hm.
  - apply Hm.
  - rewrite Eg. exact Hcls.
  - apply Hs, Hcls.
  - intros r w2 (_ & F1 & F2 & F3 & F4 & _). split; [|split; [|split; [congruence|rewrite F4; exact E2]]].
    + rewrite F1, Hx. apply delete_insert_id, Hr. lia.
    + intros k. rewrite F2, Hh. lia.
Qed.
End Interfaces.
