(* ===== verification/Probe.v ===== *)
(** * Probing and removing a device, loading and unloading the module
    (xdma-core.c) *)
From S2P Require Import Prelude Layout Kernel World Desc Engine Setup Creation Interfaces.
#[local] Open Scope string_scope.
#[local] Open Scope Z_scope.

Section Probe.
Context {bo : ByteOrder} {env : Env}.

(** [~0] as a [u32] *)
Definition all_ones : Z := 2 ^ 32 - 1.

(** ** The labels of the error path of [probe], from the last to the first *)

(** a freed device is no device: its magic is gone *)
Definition kfree_lro (l : Z) : prog world unit :=
  ext_ kfree [l] ;; setL (fun _ => zero_dev).
Definition err_enable (l rc : Z) : prog world Z := kfree_lro l ;; ret rc.
Definition err_scan_msi (pdev l rc : Z) : prog world Z :=
  u <- getL regions_in_use ;;
  when (negb (nz u)) (ext_ pci_disable_device [pdev]) ;;
  err_enable l rc.
Definition err_regions (pdev l rc : Z) : prog world Z :=
  m <- getL msi_enabled ;;
  when (nz m) (ext_ pci_disable_msi [pdev]) ;;
  err_scan_msi pdev l rc.
Definition err_map (pdev l rc : Z) : prog world Z :=
  g <- getL got_regions ;;
  when (nz g) (ext_ pci_release_regions [pdev]) ;;
  err_regions pdev l rc.
Definition err_mask (pdev l rc : Z) : prog world Z := unmap_bars pdev ;; err_map pdev l rc.
Definition err_engines (pdev l rc : Z) : prog world Z := irq_teardown ;; err_mask pdev l rc.
Definition err_interfaces (pdev l rc : Z) : prog world Z :=
  remove_engines ;; err_engines pdev l rc.

(** ** probe *)

(** the credit feature is enabled in AXI stream mode only *)
Definition probe_credit : prog world unit :=
  reg <- config_bar ;;
  w <- read_register reg ;;
  let stream := if nz (Z.land w 0x8000) then 1 else 0 in
  when (nz (Z.land enable_credit_mp stream)) enable_credit_feature.

Definition probe_interrupts : prog world unit :=
  user_interrupts_enable all_ones ;;
  when (negb poll_mode) (channel_interrupts_enable all_ones) ;;
  _ <- read_interrupts ;;
  ret tt.

(** from [probe_engines] on *)
Definition probe_start (pdev l : Z) : prog world Z :=
  probe_credit ;;
  rc <- probe_engines ;;
  if nz rc then err_engines pdev l rc else
  rc <- create_interfaces ;;
  if nz rc then err_interfaces pdev l rc else
  probe_interrupts ;;
  rc <- ext device_create_file [pdev] ;;
  if nz rc then err_interfaces pdev l rc else ret rc.

Definition probe (pdev : Z) : prog world Z :=
  l <- alloc_dev_instance pdev ;;
  if l =? 0 then ret 0 else
  rc <- ext pci_enable_device [pdev] ;;
  if nz rc then err_enable l rc else
  ext_ pci_set_master [pdev] ;;
  rc <- probe_scan_for_msi pdev ;;
  if rc <? 0 then err_scan_msi pdev l rc else
  rc <- request_regions pdev ;;
  if nz rc then err_regions pdev l rc else
  rc <- map_bars pdev ;;
  if nz rc then err_map pdev l rc else
  rc <- set_dma_mask pdev ;;
  if nz rc then err_mask pdev l rc else
  rc <- irq_setup pdev ;;
  if nz rc then err_mask pdev l rc else
  probe_start pdev l.

(** ** remove *)

(** [dev_get_drvdata(&pdev->dev)] is what [dev_set_drvdata] stored last *)
Fixpoint drvdata (h : history) (pdev : Z) : Z :=
  match h with
  | [] => 0
  | Call dev_set_drvdata [p; l] _ :: h' => if p =? pdev then l else drvdata h' pdev
  | _ :: h' => drvdata h' pdev
  end.

(** the MSI mode a device leaves *)
Definition remove_msi (pdev : Z) : prog world unit :=
  x <- getL msix_enabled ;;
  m <- getL msi_enabled ;;
  if nz x then ext_ pci_disable_msix [pdev] ;; setL (fun d => d <| msix_enabled := 0 |>)
  else when (nz m) (ext_ pci_disable_msi [pdev] ;; setL (fun d => d <| msi_enabled := 0 |>)).

Definition remove (pdev : Z) : prog world unit :=
  l <- (if pdev =? 0 then ret 0 else gets (fun w => drvdata (trace w) pdev)) ;;
  if l =? 0 then ret tt else
  channel_interrupts_disable all_ones ;;
  user_interrupts_disable all_ones ;;
  _ <- read_interrupts ;;
  destroy_interfaces ;;
  remove_engines ;;
  irq_teardown ;;
  unmap_bars pdev ;;
  g <- getL got_regions ;;
  when (nz g) (ext_ pci_release_regions [pdev]) ;;
  remove_msi pdev ;;
  u <- getL regions_in_use ;;
  when (negb (nz u)) (ext_ pci_disable_device [pdev]) ;;
  n <- getL instance ;;
  modify (fun w => w <| dev_present ::= zinsert n 0 |>) ;;
  ext_ device_remove_file [pdev] ;;
  kfree_lro l.

(** ** The module *)

(** [pci_register_driver] probes the devices that are present before it
    returns: it is an argument, a program of the kernel that may call
    [probe].  [class_create] gives the class and what [IS_ERR] says of it. *)
Definition xdma_init (register_driver : prog world Z) : prog world Z :=
  r <- ext_all class_create [] ;;
  modify (fun w => w <| g_xdma_class := nth 0 r 0 |>) ;;
  if nz (nth 1 r 0) then ret (-1)
  else
    rc <- register_driver ;;
    for_ 0 MAX_XDMA_DEVICES (fun i => modify (fun w => w <| dev_present ::= zinsert i 0 |>)) ;;
    ret rc.

Definition xdma_exit (unregister_driver : prog world unit) : prog world unit :=
  unregister_driver ;;
  c <- gets g_xdma_class ;;
  when (nz c) (ext_ class_destroy [c]).
End Probe.
