(* ===== verification/ProbeFrames.v ===== *)
(** * What the steps of probe and remove leave alone

    Four relations between the states before and after a step, one for each
    concern of a device: its regions and its MSI-X mode, its interrupts, its
    BARs, its engines. *)
From S2P Require Import Prelude Layout Kernel World Desc Engine Ledger Setup Creation Interfaces Probe.
#[local] Open Scope string_scope.
#[local] Open Scope Z_scope.

(** the regions are neither requested nor released, the flag that says they
    are ours is not touched, MSI-X is not disabled, and the device still finds
    its data *)
Definition quiet : world -> world -> Prop :=
  both (same (fun w => got_regions (lro w)))
    (both (same_held regions)
      (both (same (fun w => calls pci_disable_msix (trace w)))
        (same (fun w => drvdata (trace w))))).
Definition quiet_irq : world -> world -> Prop :=
  both (same_held irqs) (same (fun w => irq_line (lro w))).
Definition quiet_vectors : world -> world -> Prop :=
  same (fun w => (msix_enabled (lro w), entry_vector (lro w))).
Definition quiet_bar : world -> world -> Prop :=
  both (same_held maps) (same (fun w => (bar (lro w), config_bar_idx (lro w)))).
Definition quiet_eng : world -> world -> Prop :=
  both (same (fun w => (engine (lro w), engines_num (lro w))))
    (both (same engines) (both grows (same_held buffers))).

(** nothing but nodes and registers *)
Definition calm : world -> world -> Prop :=
  both quiet (both quiet_vectors (both quiet_irq (both quiet_bar quiet_eng))).
(** what mapping BARs, interrupts and engines leave alone *)
Definition but_bar : world -> world -> Prop :=
  both quiet (both quiet_vectors (both quiet_irq quiet_eng)).
Definition but_irq : world -> world -> Prop :=
  both quiet (both quiet_vectors (both quiet_bar quiet_eng)).
Definition but_eng : world -> world -> Prop :=
  both quiet (both quiet_vectors (both (same (fun w => irq_line (lro w))) quiet_bar)).

Create HintDb quiet.
#[global] Hint Unfold quiet quiet_irq quiet_vectors quiet_bar quiet_eng calm but_bar but_irq
  but_eng : quiet.
Ltac q := autounfold with quiet; ledger.
Ltac qbind := apply keeps_bind; [autounfold with quiet; typeclasses eauto| |].

Section Frames.
Context {bo : ByteOrder} {env : Env}.

Lemma while_down_keeps R `{!PreOrder R} n body :
  (forall i, keeps R (body i)) -> keeps R (while_down n body).
Proof.
  intros H. induction n as [|n IH]; simpl; [apply keeps_ret; typeclasses eauto|].
  apply keeps_bind; [typeclasses eauto|apply H|intros []; exact IH].
Qed.

(** ** Set-up *)

Lemma quiet_write_vector m i v : keeps but_irq (write_vector m i v).
Proof. unfold write_vector. q. Qed.
Lemma quiet_free_user_irq i : keeps but_irq (free_user_irq i).
Proof. unfold free_user_irq, vector. q. Qed.
Lemma quiet_while_down n : keeps but_irq (while_down n free_user_irq).
Proof. apply while_down_keeps; [autounfold with quiet; typeclasses eauto|apply quiet_free_user_irq]. Qed.
Lemma quiet_irq_teardown : keeps but_irq irq_teardown.
Proof. unfold irq_teardown. q; apply quiet_free_user_irq. Qed.
Lemma quiet_irq_setup pdev : keeps but_irq (irq_setup pdev).
Proof.
  unfold irq_setup, msix_irq_setup, write_msix_vectors, request_user_irq, vector,
    write_legacy_vectors. q; apply quiet_while_down || apply quiet_write_vector.
Qed.
Lemma quiet_unmap_bars pdev : keeps but_bar (unmap_bars pdev).
Proof. unfold unmap_bars, set_bar_at. q. Qed.
Lemma quiet_map_bars_from pdev n : forall i ids pos, keeps but_bar (map_bars_from pdev n i ids pos).
Proof.
  induction n as [|n IH]; intros; cbn [map_bars_from]; [q|].
  unfold map_bar_one, map_single_bar, is_config_bar, set_bar_at. q; apply IH.
Qed.
Lemma quiet_map_bars pdev : keeps but_bar (map_bars pdev).
Proof.
  unfold map_bars, identify_bars. q; apply quiet_map_bars_from || apply quiet_unmap_bars.
Qed.
Lemma quiet_set_dma_mask pdev : keeps calm (set_dma_mask pdev).
Proof. unfold set_dma_mask. q. Qed.
Lemma quiet_probe_credit : keeps calm probe_credit.
Proof. unfold probe_credit, enable_credit_feature. q. Qed.
Lemma quiet_probe_interrupts : keeps calm probe_interrupts.
Proof.
  unfold probe_interrupts, user_interrupts_enable, channel_interrupts_enable, read_interrupts,
    write_ir, read_ir. q.
Qed.
Lemma quiet_msi_msix_capable dev type : keeps calm (msi_msix_capable dev type).
Proof. unfold msi_msix_capable. q. Qed.

(** ** Engines *)

Lemma quiet_transfer_queue t : keeps but_eng (transfer_queue t).
Proof.
  unfold transfer_queue, chain_transfers, engine_start, engine_start_mode_config, xdma_desc_link,
    first_transfer, write_sg, write_er, read_er, xdma_desc_adjacent, xdma_desc_control. q.
Qed.
Lemma quiet_with_engine {A} p (m : prog world A) : keeps but_eng m -> keeps but_eng (with_engine p m).
Proof.
  intros H. unfold with_engine. qbind; [q|intros e]. qbind; [q|intros saved]. qbind; [q|intros []].
  qbind; [exact H|intros a; q].
Qed.
Lemma quiet_engine_create off dir ch : keeps but_eng (engine_create off dir ch).
Proof.
  unfold engine_create. qbind; [unfold kzalloc_engine; q|intros p]. destruct (p =? 0); [q|].
  qbind; [|intros rc; unfold kfree_engine; q]. apply quiet_with_engine.
  unfold engine_fields, get_engine_type, engine_msix_setup, engine_configure, engine_alignments,
    engine_writeback_setup, engine_enable, engine_msix_teardown, vector, write_er, read_er.
  q; apply quiet_transfer_queue.
Qed.
Lemma quiet_engine_destroy p : keeps but_eng (engine_destroy p).
Proof.
  unfold engine_destroy. qbind; [q|intros []]. qbind; [|intros []; unfold kfree_engine; q].
  apply quiet_with_engine. unfold engine_msix_teardown, engine_writeback_teardown, write_er. q.
Qed.
Lemma quiet_remove_engines : keeps but_eng remove_engines.
Proof. unfold remove_engines, get_engine. q; apply quiet_engine_destroy. Qed.
Lemma quiet_probe_engines : keeps but_eng probe_engines.
Proof.
  unfold probe_engines, probe_direction, probe_for_engine, set_engine_at, get_engine_id,
    get_engine_channel_id.
  q; apply quiet_engine_create || apply quiet_remove_engines.
Qed.

(** ** Nodes *)

Lemma quiet_kzalloc_char : keeps calm kzalloc_char.
Proof.
  intros w a w' H. unfold kzalloc_char, ext, ext_all, bind, gets, modify, ret in H.
  destruct (_ =? 0); inversion H; subst; autounfold with quiet; same_world.
Qed.
Lemma quiet_create_sg_char bar p type : keeps calm (create_sg_char bar p type).
Proof.
  unfold create_sg_char, new_instance, find_instance, find_instance_one, gen_dev_major,
    char_config, gen_dev_minor, config_kobject, char_live, create_dev, char_fail,
    kfree_char, set_char, get_char, engine_at. q; apply quiet_kzalloc_char.
Qed.
Lemma quiet_destroy_sg_char c : keeps calm (destroy_sg_char c).
Proof. unfold destroy_sg_char, kfree_char, get_char. q. Qed.
Lemma quiet_destroy_interfaces : keeps calm destroy_interfaces.
Proof.
  unfold destroy_interfaces, destroy_if, destroy_if_at. q; apply quiet_destroy_sg_char.
Qed.
Lemma quiet_create_interfaces : keeps calm create_interfaces.
Proof.
  unfold create_interfaces, or_fail, create_user_interface, create_ctrl_interface,
    create_events_interfaces, create_engine_interfaces, create_bypass_interfaces,
    create_engine_interface, create_bypass_interface, create_bypass_base, get_engine.
  q; apply quiet_create_sg_char || apply quiet_destroy_interfaces.
Qed.
End Frames.

(** ** The table of instance numbers keeps its length *)
Definition same_table : world -> world -> Prop := same (fun w => length (dev_present w)).
#[global] Instance same_table_preorder : PreOrder same_table.
Proof. unfold same_table. typeclasses eauto. Qed.
Ltac table := unfold same_table; repeat first
  [ ledger_step | apply keeps_modify; intros; refine (zinsert_length _ _ _) ].

Section Table.
Context {bo : ByteOrder} {env : Env}.

Lemma table_while_down n : keeps same_table (while_down n free_user_irq).
Proof.
  apply while_down_keeps; [typeclasses eauto|]. intros i. unfold free_user_irq, vector. table.
Qed.
Lemma table_unmap_bars pdev : keeps same_table (unmap_bars pdev).
Proof. unfold unmap_bars, set_bar_at. table. Qed.
Lemma table_map_bars_from pdev n : forall i ids pos, keeps same_table (map_bars_from pdev n i ids pos).
Proof.
  induction n as [|n IH]; intros; cbn [map_bars_from]; [table|].
  unfold map_bar_one, map_single_bar, is_config_bar, set_bar_at. table; apply IH.
Qed.
Lemma table_map_bars pdev : keeps same_table (map_bars pdev).
Proof.
  unfold map_bars, identify_bars. table; apply table_map_bars_from || apply table_unmap_bars.
Qed.
Lemma table_irq_teardown : keeps same_table irq_teardown.
Proof. unfold irq_teardown, free_user_irq, vector. table. Qed.
Lemma table_irq_setup pdev : keeps same_table (irq_setup pdev).
Proof.
  unfold irq_setup, msix_irq_setup, write_msix_vectors, write_vector, request_user_irq, vector,
    write_legacy_vectors. table; apply table_while_down.
Qed.

Lemma table_with_engine {A} p (m : prog world A) :
  keeps same_table m -> keeps same_table (with_engine p m).
Proof. intros H. unfold with_engine. table. Qed.
Lemma table_engine_create off dir ch : keeps same_table (engine_create off dir ch).
Proof.
  unfold engine_create, kzalloc_engine, kfree_engine. table. apply table_with_engine.
  unfold engine_fields, get_engine_type, engine_msix_setup, engine_configure, engine_alignments,
    engine_writeback_setup, engine_enable, engine_msix_teardown, vector, transfer_queue,
    chain_transfers, engine_start, engine_start_mode_config, xdma_desc_link, first_transfer,
    write_sg, write_er, read_er, xdma_desc_adjacent, xdma_desc_control. table.
Qed.
Lemma table_remove_engines : keeps same_table remove_engines.
Proof.
  unfold remove_engines, get_engine, engine_destroy, kfree_engine. table; apply table_with_engine;
    unfold engine_msix_teardown, engine_writeback_teardown, write_er; table.
Qed.
Lemma table_probe_engines : keeps same_table probe_engines.
Proof.
  unfold probe_engines, probe_direction, probe_for_engine, set_engine_at, get_engine_id,
    get_engine_channel_id. table; apply table_engine_create || apply table_remove_engines.
Qed.

Lemma table_create_sg_char bar p type : keeps same_table (create_sg_char bar p type).
Proof.
  unfold create_sg_char, kzalloc_char, new_instance, find_instance, find_instance_one,
    gen_dev_major, char_config, gen_dev_minor, config_kobject, char_live, create_dev, char_fail,
    kfree_char, set_char, get_char, engine_at. table.
Qed.
Lemma table_destroy_interfaces : keeps same_table destroy_interfaces.
Proof.
  unfold destroy_interfaces, destroy_if, destroy_if_at, destroy_sg_char, kfree_char, get_char. table.
Qed.
Lemma table_create_interfaces : keeps same_table create_interfaces.
Proof.
  unfold create_interfaces, or_fail, create_user_interface, create_ctrl_interface,
    create_events_interfaces, create_engine_interfaces, create_bypass_interfaces,
    create_engine_interface, create_bypass_interface, create_bypass_base, get_engine.
  table; apply table_create_sg_char || apply table_destroy_interfaces.
Qed.

Lemma table_probe pdev : keeps same_table (probe pdev).
Proof.
  unfold probe, probe_start, alloc_dev_instance, probe_scan_for_msi, msi_msix_capable,
    request_regions, set_dma_mask, probe_credit, enable_credit_feature, probe_interrupts,
    user_interrupts_enable, channel_interrupts_enable, read_interrupts, write_ir, read_ir,
    err_interfaces, err_engines, err_mask, err_map, err_regions, err_scan_msi, err_enable, kfree_lro.
  table; first [ apply table_unmap_bars | apply table_map_bars | apply table_irq_setup
    | apply table_irq_teardown | apply table_probe_engines | apply table_remove_engines
    | apply table_create_interfaces ].
Qed.
End Table.

(** every step is quiet *)
#[export] Hint Resolve quiet_irq_teardown quiet_irq_setup quiet_unmap_bars quiet_map_bars
  quiet_set_dma_mask quiet_probe_credit quiet_probe_interrupts quiet_remove_engines
  quiet_probe_engines quiet_create_interfaces quiet_destroy_interfaces : quiet.
Ltac quietly :=
  first [ apply keeps_first with (R2 := both quiet_vectors (both quiet_irq quiet_eng));
          solve [auto with quiet]
        | apply keeps_first with (R2 := both quiet_vectors (both quiet_bar quiet_eng));
          solve [auto with quiet]
        | apply keeps_first with (R2 := both quiet_vectors (both (same (fun w => irq_line (lro w))) quiet_bar));
          solve [auto with quiet]
        | apply keeps_first with (R2 := both quiet_vectors (both quiet_irq (both quiet_bar quiet_eng)));
          solve [auto with quiet] ].
