(* ===== verification/ProbeFacts.v ===== *)
(** * Facts on probe: what it leaves when it fails, and that it ends *)
From S2P Require Import Prelude Layout Kernel World Desc Engine Ledger Setup Creation Interfaces Probe DataFacts ProbeFrames.
#[local] Open Scope string_scope.
#[local] Open Scope Z_scope.
Ltac wp_hook ::= wp_engine.

Section Probe.
Context {bo : ByteOrder} {env : Env}.

(** ** The regions on the way through probe *)

(** the regions are held and flagged, or neither, since [w0] *)
Record regions_at (pdev n : Z) (w0 w : world) : Prop := {
  ra_flag : got_regions (lro w) = n;
  ra_held : forall k, held regions (trace w) k
    = held regions (trace w0) k + (if n =? 0 then 0 else is_key (Some [pdev]) k);
  ra_msix : calls pci_disable_msix (trace w) = calls pci_disable_msix (trace w0)
}.

(** what a failed probe leaves *)
Definition released (w0 w : world) : Prop :=
  same_held regions w0 w /\ calls pci_disable_msix (trace w) = calls pci_disable_msix (trace w0).

Lemma regions_quiet pdev n w0 w w' : regions_at pdev n w0 w -> quiet w w' -> regions_at pdev n w0 w'.
Proof.
  intros [H1 H2 H3] (Q1 & Q2 & Q3 & _). unfold same in *. split; [congruence| |congruence].
  intros k. rewrite Q2. apply H2.
Qed.

Lemma wlp_quiet {A} (m : prog world A) pdev n w0 (Q : A -> world -> Prop) w :
  keeps quiet m -> regions_at pdev n w0 w ->
  (forall a w', regions_at pdev n w0 w' -> Q a w') -> wlp m Q w.
Proof.
  intros Hm H HQ. eapply wlp_keeps; [exact Hm|]. intros a w' Hq. apply HQ.
  eapply regions_quiet; eassumption.
Qed.

Lemma kfree_lro_released l (rc : Z) w0 w :
  released w0 w -> wlp (kfree_lro l ;; ret rc) (fun r w' => r = rc /\ released w0 w') w.
Proof.
  intros [H1 H2]. unfold kfree_lro. wlp_run. split; [reflexivity|]. split; [intros k; exact (H1 k)|exact H2].
Qed.

Lemma err_regions_released pdev l rc w0 w :
  released w0 w -> wlp (err_regions pdev l rc) (fun r w' => r = rc /\ released w0 w') w.
Proof.
  intros [H1 H2]. unfold err_regions, err_scan_msi, err_enable.
  apply wlp_bind, wlp_gets, wlp_bind.
  apply wlp_when; intros _; [apply wp_wlp, wp_ext_|];
    (apply wlp_bind, wlp_gets, wlp_bind, wlp_when; intros _; [apply wp_wlp, wp_ext_|]);
    apply kfree_lro_released; (split; [intros k; exact (H1 k)|exact H2]).
Qed.

Lemma err_map_released pdev l rc n w0 w :
  regions_at pdev n w0 w -> wlp (err_map pdev l rc) (fun r w' => r = rc /\ released w0 w') w.
Proof.
  intros [H1 H2 H3]. unfold err_map. apply wlp_bind, wlp_gets, wlp_bind.
  rewrite H1. apply wlp_when; intros Hn.
  - apply wp_wlp, wp_ext_. apply err_regions_released. split; [|exact H3].
    intros k. rewrite held_log, H2. apply nz_true, Z.eqb_neq in Hn. rewrite Hn.
    cbn [taken_by given_by regions]. rewrite is_key_none. lia.
  - apply err_regions_released. split; [|exact H3]. intros k. rewrite H2.
    apply nz_false in Hn. rewrite Hn, Z.eqb_refl. lia.
Qed.

Lemma err_mask_released pdev l rc n w0 w :
  regions_at pdev n w0 w -> wlp (err_mask pdev l rc) (fun r w' => r = rc /\ released w0 w') w.
Proof.
  intros H. unfold err_mask. apply wlp_bind.
  apply (wlp_quiet _ pdev n w0); [quietly|exact H|]. intros _ w'. apply err_map_released.
Qed.

Lemma err_engines_released pdev l rc n w0 w :
  regions_at pdev n w0 w -> wlp (err_engines pdev l rc) (fun r w' => r = rc /\ released w0 w') w.
Proof.
  intros H. unfold err_engines. apply wlp_bind.
  apply (wlp_quiet _ pdev n w0); [quietly|exact H|]. intros _ w'. apply err_mask_released.
Qed.

Lemma err_interfaces_released pdev l rc n w0 w :
  regions_at pdev n w0 w -> wlp (err_interfaces pdev l rc) (fun r w' => r = rc /\ released w0 w') w.
Proof.
  intros H. unfold err_interfaces. apply wlp_bind.
  apply (wlp_quiet _ pdev n w0); [quietly|exact H|]. intros _ w'. apply err_engines_released.
Qed.

(** no memory for the device object: that call failed and was the only one *)
Definition unallocated (w w' : world) : Prop :=
  let r := answer (trace w) kzalloc [] in nth 0 r 0 = 0 /\ trace w' = Call kzalloc [] r :: trace w.

(** what probe promises about the regions: given back on an error, held on
    success *)
Definition probe_regions (pdev : Z) (w0 : world) (rc : Z) (w : world) : Prop :=
  calls pci_disable_msix (trace w) = calls pci_disable_msix (trace w0) /\
  (rc <> 0 -> same_held regions w0 w) /\
  (rc = 0 -> unallocated w0 w \/ regions_at pdev 1 w0 w).

Lemma released_regions pdev w0 rc r w :
  rc <> 0 -> r = rc /\ released w0 w -> probe_regions pdev w0 r w.
Proof. intros Hrc [-> [H1 H2]]. split; [exact H2|]. split; [auto|contradiction]. Qed.

(** the step of probe that ends in [if (rc) goto err] *)
Lemma probe_step pdev w0 (m : prog world Z) (err : Z -> prog world Z) (k : prog world Z) w :
  regions_at pdev 1 w0 w -> keeps quiet m ->
  (forall rc w1, rc <> 0 -> regions_at pdev 1 w0 w1 ->
    wlp (err rc) (fun r w' => r = rc /\ released w0 w') w1) ->
  (forall w1, regions_at pdev 1 w0 w1 -> wlp k (probe_regions pdev w0) w1) ->
  wlp (rc <- m ;; if nz rc then err rc else k) (probe_regions pdev w0) w.
Proof.
  intros H Hm Herr Hk. apply wlp_bind. apply (wlp_quiet _ pdev 1 w0); [exact Hm|exact H|].
  intros rc w1 H1. destruct (nz rc) eqn:E; [|apply Hk, H1]. apply nz_true in E.
  specialize (Herr rc w1 E H1). unfold wlp in *. destruct (err rc w1) as [r w2|]; [|exact Logic.I].
  eapply released_regions; eassumption.
Qed.

Lemma probe_start_regions pdev l w0 w :
  regions_at pdev 1 w0 w -> wlp (probe_start pdev l) (probe_regions pdev w0) w.
Proof.
  intros H. unfold probe_start. apply wlp_bind.
  apply (wlp_quiet _ pdev 1 w0); [quietly|exact H|]. intros _ w1 H1.
  apply probe_step; [exact H1|quietly|intros; apply (err_engines_released _ _ _ 1); assumption|].
  intros w2 H2.
  apply probe_step; [exact H2|quietly|intros; apply (err_interfaces_released _ _ _ 1); assumption|].
  intros w3 H3. apply wlp_bind.
  apply (wlp_quiet _ pdev 1 w0); [quietly|exact H3|]. intros _ w4 H4. apply wlp_bind.
  apply (wlp_quiet _ pdev 1 w0); [unfold quiet; ledger|exact H4|]. intros rc w5 H5.
  destruct (nz rc) eqn:E.
  - apply nz_true in E. pose proof (err_interfaces_released pdev l rc 1 w0 w5 H5) as He.
    unfold wlp in *. destruct (err_interfaces pdev l rc w5); [|exact Logic.I].
    eapply released_regions; eassumption.
  - apply wlp_ret. apply nz_false in E. split; [apply H5|]. split; [contradiction|auto].
Qed.

Lemma request_regions_ok pdev w0 w :
  regions_at pdev 0 w0 w ->
  wlp (request_regions pdev) (fun rc w' => regions_at pdev (if nz rc then 0 else 1) w0 w') w.
Proof.
  intros [H1 H2 H3]. unfold request_regions. apply wlp_bind, wlp_BUG_ON. intros _.
  apply wlp_bind, wp_wlp, wp_ext. set (r := answer _ _ _). apply wlp_bind. unfold nz.
  destruct (Z.eqb_spec (nth 0 r 0) 0) as [E|E]; cbn [negb].
  - apply wlp_modify, wlp_ret. rewrite E. cbn. split; [reflexivity| |exact H3].
    intros k. change (held regions (Call pci_request_regions [pdev] r :: trace w) k
      = held regions (trace w0) k + is_key (Some [pdev]) k).
    rewrite held_cons, H2. cbn [taken_by given_by regions]. rewrite E, Z.eqb_refl, is_key_none. lia.
  - apply wlp_modify, wlp_ret. rewrite (proj2 (Z.eqb_neq _ _) E). cbn. split; [exact H1| |exact H3].
    intros k. change (held regions (Call pci_request_regions [pdev] r :: trace w) k
      = held regions (trace w0) k + 0).
    rewrite held_cons, H2. cbn [taken_by given_by regions].
    rewrite (proj2 (Z.eqb_neq _ _) E), is_key_none, Z.eqb_refl. lia.
Qed.

Lemma quiet_probe_scan_for_msi pdev : keeps quiet (probe_scan_for_msi pdev).
Proof. unfold probe_scan_for_msi, msi_msix_capable. q. Qed.

(** the head of probe, before the regions are requested *)
Lemma probe_head pdev w0 w (m : prog world Z) (bad : Z -> bool) (err : Z -> prog world Z)
    (k : prog world Z) :
  regions_at pdev 0 w0 w -> keeps quiet m -> (forall rc, bad rc = true -> rc <> 0) ->
  (forall rc w1, released w0 w1 -> wlp (err rc) (fun r w' => r = rc /\ released w0 w') w1) ->
  (forall w1, regions_at pdev 0 w0 w1 -> wlp k (probe_regions pdev w0) w1) ->
  wlp (rc <- m ;; if bad rc then err rc else k) (probe_regions pdev w0) w.
Proof.
  intros H Hm Hbad Herr Hk. apply wlp_bind. apply (wlp_quiet _ pdev 0 w0); [exact Hm|exact H|].
  intros rc w1 H1. destruct (bad rc) eqn:E; [|apply Hk, H1].
  assert (released w0 w1) as Hr.
  { split; [|apply H1]. intros k'. rewrite (ra_held _ _ _ _ H1), Z.eqb_refl. lia. }
  specialize (Herr rc w1 Hr). unfold wlp in *. destruct (err rc w1) as [r w2|]; [|exact Logic.I].
  eapply released_regions; [apply Hbad, E|exact Herr].
Qed.

Lemma err_scan_msi_released pdev l rc w0 w :
  released w0 w -> wlp (err_scan_msi pdev l rc) (fun r w' => r = rc /\ released w0 w') w.
Proof.
  intros [H1 H2]. unfold err_scan_msi, err_enable. apply wlp_bind, wlp_gets, wlp_bind, wlp_when;
    intros _; [apply wp_wlp, wp_ext_|]; apply kfree_lro_released;
    (split; [intros k; exact (H1 k)|exact H2]).
Qed.

Lemma alloc_dev_instance_ok pdev w :
  wlp (alloc_dev_instance pdev) (fun l w' =>
    if l =? 0 then unallocated w w' else regions_at pdev 0 w w') w.
Proof.
  unfold alloc_dev_instance. apply wlp_bind, wlp_BUG_ON. intros _.
  apply wlp_bind, wp_wlp, wp_ext. set (r := answer _ _ _).
  destruct (Z.eqb_spec (nth 0 r 0) 0) as [E|E].
  - apply wlp_ret. split; [exact E|reflexivity].
  - apply wlp_bind, wlp_modify, wlp_bind, wp_wlp, wp_ext_. apply wlp_bind, wlp_modify, wlp_ret.
    rewrite (proj2 (Z.eqb_neq _ _) E). split; [reflexivity| |reflexivity].
    intros k. rewrite Z.eqb_refl, Z.add_0_r. reflexivity.
Qed.

Lemma nz_neq rc : nz rc = true -> rc <> 0.
Proof. apply nz_true. Qed.

Lemma probe_regions_ok pdev w : wlp (probe pdev) (probe_regions pdev w) w.
Proof.
  unfold probe. apply wlp_bind. eapply wlp_conseq; [apply alloc_dev_instance_ok|].
  intros l w1 Ha. cbv beta in Ha. destruct (l =? 0).
  { apply wlp_ret. pose proof (proj2 Ha) as E. split; [rewrite E; reflexivity|]. split; [contradiction|].
    intros _. left. exact Ha. }
  apply (probe_head _ _ _ _ nz); [exact Ha|unfold quiet; ledger|exact nz_neq| |].
  { intros rc w2. apply kfree_lro_released. }
  clear w1 Ha. intros w1 H1. apply wlp_bind.
  apply (wlp_quiet _ pdev 0 w); [unfold quiet; ledger|exact H1|]. clear w1 H1. intros _ w1 H1.
  apply (probe_head _ _ _ _ (fun rc => rc <? 0));
    [exact H1|apply quiet_probe_scan_for_msi|intros rc Hrc; lia|intros rc w2; apply err_scan_msi_released|].
  clear w1 H1. intros w1 H1. apply wlp_bind.
  eapply wlp_conseq; [apply (request_regions_ok pdev w), H1|]. intros rc w2 H2.
  cbv beta in H2. destruct (nz rc) eqn:Erc.
  { eapply wlp_conseq; [apply (err_regions_released pdev l rc w)|].
    - split; [|apply H2]. intros k. rewrite (ra_held _ _ _ _ H2), Z.eqb_refl. lia.
    - intros r w3. apply released_regions, nz_neq, Erc. }
  apply probe_step; [exact H2|quietly|intros; apply (err_map_released _ _ _ 1); assumption|].
  intros w3 H3.
  apply probe_step; [exact H3|quietly|intros; apply (err_mask_released _ _ _ 1); assumption|].
  intros w4 H4.
  apply probe_step; [exact H4|quietly|intros; apply (err_mask_released _ _ _ 1); assumption|].
  intros w5 H5. apply probe_start_regions, H5.
Qed.

(** ** probe comes to an end *)

Lemma halts_while_down n (body : Z -> prog world unit) :
  (forall i, halts (body i)) -> halts (while_down n body).
Proof. intros H. induction n; cbn [while_down]; [apply halts_ret|apply halts_bind; auto]. Qed.

Lemma halts_free_user_irq i : halts (free_user_irq i).
Proof. unfold free_user_irq, vector. halts_tac. Qed.
#[local] Hint Resolve halts_free_user_irq halts_while_down : halts.
Lemma halts_write_vector m i v : halts (write_vector m i v).
Proof. unfold write_vector. halts_tac. Qed.
#[local] Hint Resolve halts_write_vector : halts.
Lemma halts_irq_setup pdev : halts (irq_setup pdev).
Proof.
  unfold irq_setup, msix_irq_setup, write_msix_vectors, request_user_irq, vector,
    write_legacy_vectors. halts_tac.
Qed.
Lemma halts_irq_teardown : halts irq_teardown.
Proof. unfold irq_teardown. halts_tac. Qed.
Lemma halts_unmap_bars pdev : halts (unmap_bars pdev).
Proof. unfold unmap_bars, set_bar_at. halts_tac. Qed.
#[local] Hint Resolve halts_irq_setup halts_irq_teardown halts_unmap_bars : halts.
Lemma halts_map_bars_from pdev n : forall i ids pos, halts (map_bars_from pdev n i ids pos).
Proof.
  induction n; intros; cbn [map_bars_from]; [apply halts_ret|].
  unfold map_bar_one, map_single_bar, is_config_bar, set_bar_at. halts_tac.
Qed.
#[local] Hint Resolve halts_map_bars_from : halts.
Lemma halts_map_bars pdev : halts (map_bars pdev).
Proof. unfold map_bars, identify_bars. halts_tac. Qed.
Lemma halts_with_engine {A} p (m : prog world A) : halts m -> halts (with_engine p m).
Proof. intros H. unfold with_engine. halts_tac. Qed.
Lemma halts_kfree_engine p : halts (kfree_engine p).
Proof. unfold kfree_engine. halts_tac. Qed.
#[local] Hint Resolve halts_map_bars halts_kfree_engine halts_transfer_queue : halts.
Lemma halts_engine_create off dir ch : halts (engine_create off dir ch).
Proof.
  unfold engine_create, kzalloc_engine. apply halts_bind; [halts_tac|]. intros p.
  destruct (p =? 0); [halts_tac|]. apply halts_bind; [|intros ?; halts_tac]. apply halts_with_engine.
  unfold engine_fields, get_engine_type, engine_msix_setup, engine_configure, engine_alignments,
    engine_writeback_setup, engine_enable, engine_msix_teardown, vector, write_er, read_er.
  halts_tac.
Qed.
Lemma halts_engine_destroy p : halts (engine_destroy p).
Proof.
  unfold engine_destroy. apply halts_bind; [halts_tac|intros _].
  apply halts_bind; [|intros ?; halts_tac]. apply halts_with_engine.
  unfold engine_msix_teardown, engine_writeback_teardown, write_er. halts_tac.
Qed.
#[local] Hint Resolve halts_engine_create halts_engine_destroy : halts.
Lemma halts_remove_engines : halts remove_engines.
Proof. unfold remove_engines, get_engine. halts_tac. Qed.
#[local] Hint Resolve halts_remove_engines : halts.
Lemma halts_probe_engines : halts probe_engines.
Proof.
  unfold probe_engines, probe_direction, probe_for_engine, set_engine_at, get_engine_id,
    get_engine_channel_id. halts_tac.
Qed.

(** the scan for a free instance stops at the latest behind the table *)
Lemma halts_find_instance : halts find_instance.
Proof.
  unfold find_instance. apply (halts_loop (fun i => Z.to_nat (64 - i))); [|..|lia].
  - intros i. unfold find_instance_one. halts_tac.
  - intros i w j w' H. unfold find_instance_one, MAX_XDMA_DEVICES in H.
    unfold bind, gets, index, deref, ret in H.
    destruct (zlookup (dev_present w) i) as [p|]; [|discriminate].
    destruct (p =? 1); [|discriminate]. destruct (Z.ltb_spec i 64); [|discriminate].
    injection H as <- <-. lia.
Qed.
#[local] Hint Resolve halts_probe_engines halts_find_instance : halts.
Lemma halts_create_sg_char bar p type : halts (create_sg_char bar p type).
Proof.
  unfold create_sg_char, kzalloc_char, new_instance, gen_dev_major, char_config, gen_dev_minor,
    config_kobject, char_live, create_dev, char_fail, kfree_char, set_char, get_char, engine_at.
  halts_tac.
Qed.
Lemma halts_destroy_sg_char c : halts (destroy_sg_char c).
Proof. unfold destroy_sg_char, kfree_char, get_char. halts_tac. Qed.
#[local] Hint Resolve halts_create_sg_char halts_destroy_sg_char : halts.
Lemma halts_create_interfaces : halts create_interfaces.
Proof.
  unfold create_interfaces, or_fail, create_user_interface, create_ctrl_interface,
    create_events_interfaces, create_engine_interfaces, create_bypass_interfaces,
    create_engine_interface, create_bypass_interface, create_bypass_base, get_engine,
    destroy_interfaces, destroy_if, destroy_if_at. halts_tac.
Qed.
#[local] Hint Resolve halts_create_interfaces : halts.
Lemma halts_probe pdev : halts (probe pdev).
Proof.
  unfold probe, alloc_dev_instance, probe_scan_for_msi, msi_msix_capable, request_regions,
    set_dma_mask, probe_start, probe_credit, enable_credit_feature, probe_interrupts,
    user_interrupts_enable, channel_interrupts_enable, read_interrupts, write_ir, read_ir,
    err_interfaces, err_engines, err_mask, err_map, err_regions, err_scan_msi, err_enable, kfree_lro.
  halts_tac.
Qed.

Lemma halts_remove pdev : halts (remove pdev).
Proof.
  unfold remove, channel_interrupts_disable, user_interrupts_disable, read_interrupts, write_ir,
    read_ir, remove_msi, kfree_lro, destroy_interfaces, destroy_if, destroy_if_at. halts_tac.
Qed.

(** C27: probe never loops for ever; when it fails, at whichever step, the
    regions it requested are released, and when it succeeds they are held and
    flagged for remove, unless there was no memory for the device object and
    that was all it asked for - but MSI-X, which it may have enabled, is
    disabled on no path. *)
Theorem probe_releases_regions pdev :
  halts (probe pdev) /\
  forall w rc w', probe pdev w = Ok rc w' ->
    calls pci_disable_msix (trace w') = calls pci_disable_msix (trace w) /\
    (rc <> 0 -> same_held regions w w') /\
    (rc = 0 ->
      (nth 0 (answer (trace w) kzalloc []) 0 = 0 /\
        trace w' = Call kzalloc [] (answer (trace w) kzalloc []) :: trace w) \/
      (got_regions (lro w') = 1 /\ forall k, held regions (trace w') k
        = held regions (trace w) k + is_key (Some [pdev]) k)).
Proof.
  split; [apply halts_probe|]. intros w rc w' E.
  destruct (wlp_elim _ _ _ _ _ (probe_regions_ok pdev w) E) as (H1 & H2 & H3).
  split; [exact H1|]. split; [exact H2|]. intros Hrc.
  destruct (H3 Hrc) as [H|[H4 H5 _]]; [left; exact H|right]. split; [exact H4|exact H5].
Qed.

(** ** The module *)

(** loading the module forgets which instance numbers are in use: it
    clears the table after registering the driver, which has probed the
    devices that are present. *)
Lemma xdma_init_forgets_instances (register_driver : prog world Z) w rc w1 :
  (forall w0, length (dev_present w0) = 64%nat ->
    wlp register_driver (fun _ w' => length (dev_present w') = 64%nat) w0) ->
  length (dev_present w) = 64%nat ->
  nth 1 (answer (trace w) class_create []) 0 = 0 ->
  xdma_init register_driver w = Ok rc w1 -> dev_present w1 = replicate 64 0.
Proof.
  intros Hd Hl Hc E. refine (wlp_elim _ (fun _ w' => dev_present w' = replicate 64 0) _ _ _ _ E).
  clear E. unfold xdma_init.
  apply wlp_bind, wp_wlp, wp_ext_all. set (r := answer _ _ _). apply wlp_bind, wlp_modify.
  change (nth 1 r 0 = 0) in Hc. rewrite Hc. change (nz 0) with false. cbv iota. apply wlp_bind.
  eapply wlp_conseq; [apply Hd; exact Hl|]. intros rc' w2 H2. apply wlp_bind.
  apply wp_wlp. apply (wp_for (fun i w' => length (dev_present w') = 64%nat /\
    forall j, 0 <= j < i -> zlookup (dev_present w') j = Some 0)).
  - unfold MAX_XDMA_DEVICES. lia.
  - split; [exact H2|lia].
  - intros i w' Hi [H3 H4]. unfold MAX_XDMA_DEVICES in Hi. apply wp_modify.
    split; [exact (eq_trans (zinsert_length _ _ _) H3)|]. intros j Hj.
    change (zlookup (zinsert i 0 (dev_present w')) j = Some 0).
    rewrite (zlookup_zinsert _ 64) by lia. case_decide; [reflexivity|]. apply H4. lia.
  - intros w' [H3 H4]. unfold MAX_XDMA_DEVICES in H4. apply wp_ret.
    apply list_all_eq; assumption.
Qed.
End Probe.
