(* ===== verification/Lifecycle.v ===== *)
(** * The life of a device: what probe takes, remove gives back *)
From S2P Require Import Prelude Layout Kernel World Desc Engine Ledger Setup SetupFacts BarFacts Creation CreationFacts EnginesFacts Interfaces Probe ProbeFrames ProbeFacts.
#[local] Open Scope string_scope.
#[local] Open Scope Z_scope.
Ltac wp_hook ::= wp_engine.

(** ** The kernel the life cycle relies on *)
Class KernelOk `{Env} : Prop := {
  (** interrupt lines are small numbers *)
  ok_irq : forall h args, 0 <= nth 0 (answer h pci_irq args) 0 < 2 ^ 31;
  (** when MSI-X is enabled, the vectors are interrupt lines other than 0 *)
  ok_vectors : forall h args i, nth 0 (answer h pci_enable_msix args) 0 = 0 ->
    (1 <= i <= 24)%nat -> nth i (answer h pci_enable_msix args) 0 <> 0;
  (** line 0 is the timer's, which is not shared: nobody else gets it *)
  ok_line0 : forall h args, nth 0 (answer h request_irq (0 :: args)) 0 <> 0;
  (** addresses are not negative *)
  ok_iomap : forall h args, 0 <= nth 0 (answer h pci_iomap args) 0
}.

Section Lifecycle.
Context {bo : ByteOrder} {env : Env} {kernel : KernelOk}.

(** the interrupts of a device that is set up *)
Definition device_claims (d : xdma_dev) (k : list Z) : Z :=
  if nz (msix_enabled d) then user_claims (entry_vector d) 16 k
  else is_key (if irq_line d =? -1 then None else Some (irq_line d :: id_lro)) k.

(** a table of vectors that was stored as a whole, or not at all: MSI-X counts
    as enabled also when the kernel offered fewer vectors, and stored none *)
Definition vectors_ok (d : xdma_dev) : Prop :=
  length (entry_vector d) = 32%nat /\
  (msix_enabled d <> 0 -> zlookup (entry_vector d) 0 <> Some 0 ->
   forall i v, 0 <= i < 24 -> zlookup (entry_vector d) i = Some v -> v <> 0).
(** and it was stored *)
Definition vectors_stored (d : xdma_dev) : Prop :=
  msix_enabled d <> 0 -> zlookup (entry_vector d) 0 <> Some 0.

Lemma vectors_stored_same w w' : quiet_vectors w w' -> vectors_stored (lro w) -> vectors_stored (lro w').
Proof. intros [= E1 E2]. unfold vectors_stored. rewrite E1, E2. exact id. Qed.

Definition bars_nonneg (d : xdma_dev) : Prop := Forall (fun b => 0 <= b) (bar d).

(** a device on its way through probe, before its engines: [n] says whether
    the regions are held, [c] which interrupts *)
Record prepared (pdev n : Z) (c : list Z -> Z) (w0 w : world) : Prop := {
  pp_regions : regions_at pdev n w0 w;
  pp_drvdata : drvdata (trace w) pdev <> 0;
  pp_irqs : forall k, held irqs (trace w) k = held irqs (trace w0) k + c k;
  pp_vectors : vectors_ok (lro w);
  pp_maps : maps_ok w0 pdev w;
  pp_nonneg : bars_nonneg (lro w);
  pp_buffers : same_held buffers w0 w;
  pp_engines : engines w = engines w0 /\ fresh w0 <= fresh w /\ no_engines w
}.

(** nothing but the vectors *)
Definition but_vectors : world -> world -> Prop :=
  both quiet (both quiet_irq (both quiet_bar quiet_eng)).
#[local] Hint Unfold but_vectors : quiet.

Lemma prepared_vectors pdev n c w0 w w' :
  prepared pdev n c w0 w -> but_vectors w w' -> vectors_ok (lro w') -> prepared pdev n c w0 w'.
Proof.
  intros [H1 H2 H3 H4 H5 H6 H7 (H8 & H9 & H10)].
  intros (Q & (Hi & Hl) & (Hm & Hb) & He & Hg & Hf & Hu) Hv. unfold same, grows in *.
  pose proof Q as (_ & _ & _ & Hd). unfold same in Hd. injection Hb as Hb1 Hb2.
  injection He as He1 He2. split; try assumption.
  - eapply regions_quiet; eassumption.
  - rewrite Hd. exact H2.
  - intros k. rewrite Hi. apply H3.
  - destruct H5 as [H5 H5']. unfold maps_ok. rewrite Hb1. split; [exact H5|]. intros k.
    rewrite Hm. apply H5'.
  - unfold bars_nonneg. rewrite Hb1. exact H6.
  - intros k. rewrite Hu. apply H7.
  - unfold no_engines. rewrite Hg, He1, He2. split; [exact H8|]. split; [lia|exact H10].
Qed.

Lemma prepared_calm pdev n c w0 w w' :
  prepared pdev n c w0 w -> calm w w' -> prepared pdev n c w0 w'.
Proof.
  intros H (Q & Hv & R). apply (prepared_vectors _ _ _ _ w); [exact H|exact (conj Q R)|].
  injection Hv as E1 E2. unfold vectors_ok. rewrite E1, E2. apply H.
Qed.

Lemma wlp_calm {A} (m : prog world A) pdev n c w0 (Q : A -> world -> Prop) w :
  keeps calm m -> prepared pdev n c w0 w ->
  (forall a w', prepared pdev n c w0 w' -> calm w w' -> Q a w') -> wlp m Q w.
Proof.
  intros Hm H HQ. eapply wlp_keeps; [exact Hm|]. intros a w' Hq. apply HQ; [|exact Hq].
  eapply prepared_calm; eassumption.
Qed.

(** ** Allocation and MSI *)

(** the driver before the device is probed *)
Record clean (pdev : Z) (w : world) : Prop := {
  cl_fresh : 0 < fresh w;
  cl_heap : forall p, p <= 0 \/ fresh w <= p -> engines w !! p = None;
  cl_drvdata : drvdata (trace w) pdev = 0
}.

(** nothing is taken *)
Definition nothing_taken (w w' : world) : Prop :=
  same_held irqs w w' /\ same_held maps w w' /\ same_held buffers w w' /\
  same_held regions w w'.

(** no BAR and no interrupt yet *)
Definition fresh_device (d : xdma_dev) : Prop :=
  no_bars d /\ msix_enabled d = 0 /\ zlookup (entry_vector d) 0 = Some 0.

Lemma alloc_prepared pdev w :
  clean pdev w ->
  wlp (alloc_dev_instance pdev) (fun l w' =>
    if l =? 0 then nothing_taken w w' /\ drvdata (trace w') pdev = 0
    else prepared pdev 0 (fun _ => 0) w w' /\ fresh_device (lro w')) w.
Proof.
  intros Hc. unfold alloc_dev_instance. apply wlp_bind, wlp_BUG_ON. intros Hp.
  apply wlp_bind, wp_wlp, wp_ext. set (r := answer _ _ _).
  destruct (Z.eqb_spec (nth 0 r 0) 0) as [E|E].
  - apply wlp_ret. split; [repeat split; intros k; reflexivity|apply Hc].
  - apply wlp_bind, wlp_modify, wlp_bind, wp_wlp, wp_ext_. apply wlp_bind, wlp_modify, wlp_ret.
    rewrite (proj2 (Z.eqb_neq _ _) E). split; [|repeat split]. split.
    + split; [reflexivity| |reflexivity]. intros k. rewrite Z.eqb_refl, Z.add_0_r. reflexivity.
    + cbn. rewrite Z.eqb_refl. exact E.
    + intros k. rewrite Z.add_0_r. reflexivity.
    + split; [reflexivity|]. intros H. elim H. reflexivity.
    + split; [reflexivity|]. intros k. rewrite Z.add_comm. reflexivity.
    + unfold bars_nonneg. cbn. repeat constructor; lia.
    + intros k. reflexivity.
    + split; [reflexivity|]. split; [apply Z.le_refl|]. split; reflexivity.
Qed.

Lemma scan_vectors pdev w :
  vectors_ok (lro w) -> zlookup (entry_vector (lro w)) 0 = Some 0 ->
  wlp (probe_scan_for_msi pdev) (fun rc w' => 0 <= rc -> vectors_ok (lro w')) w.
Proof.
  intros [Hl Hv] Hm. unfold probe_scan_for_msi. apply wlp_bind, wlp_BUG_ON. intros _.
  assert (forall A (m : prog world A) w', keeps calm m ->
    vectors_ok (lro w') /\ zlookup (entry_vector (lro w')) 0 = Some 0 ->
    wlp m (fun _ w2 => vectors_ok (lro w2) /\ zlookup (entry_vector (lro w2)) 0 = Some 0) w') as Hcalm.
  { intros A m w' Hk [H1 H2]. eapply wlp_keeps; [exact Hk|]. intros _ w2 (_ & E & _).
    injection E as E1 E2. unfold vectors_ok. rewrite E1, E2. split; assumption. }
  apply wlp_bind. eapply wlp_conseq.
  { apply Hcalm; [apply quiet_msi_msix_capable|]. split; [split; assumption|exact Hm]. }
  clear w Hl Hv Hm. intros x w [[Hl Hv] Hm]. destruct (nz x).
  - apply wlp_bind, wp_wlp, wp_ext_all. set (args := _ :: _ :: _). set (r := answer _ _ args).
    apply wlp_bind. eapply wlp_conseq with (P := fun _ w' => length (entry_vector (lro w')) = 32%nat /\
      (nth 0 r 0 = 0 -> forall j, 0 <= j < 24 ->
        zlookup (entry_vector (lro w')) j = Some (nth (Z.to_nat (j + 1)) r 0)) /\
      (nth 0 r 0 <> 0 -> zlookup (entry_vector (lro w')) 0 = Some 0)).
    + apply wlp_when; intros Hr.
      * apply wp_wlp. apply (wp_for (fun i w' => length (entry_vector (lro w')) = 32%nat /\
          forall j, 0 <= j < i -> zlookup (entry_vector (lro w')) j = Some (nth (Z.to_nat (j + 1)) r 0))).
        -- unfold MAX_NUM_ENGINES, XDMA_CHANNEL_NUM_MAX, MAX_USER_IRQ. lia.
        -- split; [exact Hl|lia].
        -- intros i w' Hi [H1 H2]. apply wp_setL.
           split; [exact (eq_trans (zinsert_length _ _ _) H1)|]. intros j Hj.
           change (zlookup (zinsert i (nth (Z.to_nat (i + 1)) r 0) (entry_vector (lro w'))) j
             = Some (nth (Z.to_nat (j + 1)) r 0)). unfold MAX_NUM_ENGINES, XDMA_CHANNEL_NUM_MAX, MAX_USER_IRQ in Hi.
           rewrite (zlookup_zinsert _ 32) by lia. case_decide; [congruence|]. apply H2. lia.
        -- intros w' [H1 H2]. split; [exact H1|]. apply nz_false, Z.eqb_eq in Hr || apply Z.eqb_eq in Hr.
           split; [intros _; exact H2|contradiction].
      * apply Z.eqb_neq in Hr. split; [exact Hl|]. split; [contradiction|intros _; exact Hm].
    + intros [] w' (H1 & H2 & H3). apply wlp_bind, wlp_modify, wlp_ret. intros Hrc.
      split; [exact H1|]. intros _ Hne i v Hi Hlook.
      destruct (Z.eq_dec (nth 0 r 0) 0) as [E|E]; [|destruct (Hne (H3 E))].
      change (zlookup (entry_vector (lro w')) i = Some v) in Hlook.
      rewrite (H2 E i Hi) in Hlook. injection Hlook as <-.
      apply (ok_vectors (trace w) args); [exact E|lia].
  - apply wlp_bind. eapply wlp_conseq.
    { apply Hcalm; [apply quiet_msi_msix_capable|]. split; [split; assumption|exact Hm]. }
    intros y w' [H1 H2]. destruct (nz y).
    + apply wlp_bind, wp_wlp, wp_ext. apply wlp_bind, wlp_modify, wlp_ret. intros _. exact H1.
    + apply wlp_ret. intros _. exact H1.
Qed.

Definition same_bars (w w' : world) : Prop :=
  bar (lro w') = bar (lro w) /\ config_bar_idx (lro w') = config_bar_idx (lro w) /\
  user_bar_idx (lro w') = user_bar_idx (lro w) /\ bypass_bar_idx (lro w') = bypass_bar_idx (lro w).

Definition bar_indices (w : world) : list Z * Z * Z * Z :=
  (bar (lro w), config_bar_idx (lro w), user_bar_idx (lro w), bypass_bar_idx (lro w)).

Lemma no_bars_same w w' : no_bars (lro w) -> bar_indices w' = bar_indices w -> no_bars (lro w').
Proof. intros (H1 & H2 & H3 & H4) [= E1 E2 E3 E4]. unfold no_bars. rewrite E1, E2, E3, E4. auto. Qed.

Lemma scan_prepared pdev c w0 w :
  prepared pdev 0 c w0 w -> fresh_device (lro w) ->
  wlp (probe_scan_for_msi pdev) (fun rc w' =>
    regions_at pdev 0 w0 w' /\
    (0 <= rc -> prepared pdev 0 c w0 w' /\ no_bars (lro w'))) w.
Proof.
  intros H (Hb & _ & Hm). eapply wlp_conseq.
  { apply (wlp_and_keeps (both but_vectors (same bar_indices)));
      [|apply scan_vectors; [apply H|exact Hm]].
    unfold probe_scan_for_msi, msi_msix_capable. q. }
  intros rc w' [Hv [Hf Hs]]. split.
  - eapply regions_quiet; [apply H|apply Hf].
  - intros Hrc. split; [eapply prepared_vectors; [exact H|exact Hf|apply Hv, Hrc]|].
    eapply no_bars_same; [exact Hb|exact Hs].
Qed.

Lemma request_prepared pdev c w0 w :
  prepared pdev 0 c w0 w -> no_bars (lro w) ->
  wlp (request_regions pdev) (fun rc w' =>
    (nz rc = true -> regions_at pdev 0 w0 w') /\
    (nz rc = false -> prepared pdev 1 c w0 w' /\ no_bars (lro w'))) w.
Proof.
  intros [H1 H2 H3 H4 H5 H6 H7 H8] Hb. eapply wlp_conseq.
  { apply (wlp_and_keeps (both (both (same (fun w => drvdata (trace w))) (same bar_indices))
      (both quiet_vectors (both quiet_irq (both quiet_bar quiet_eng)))));
      [|apply (request_regions_ok pdev w0), H1].
    unfold request_regions. q. }
  intros rc w' [Hr [[Hd Hi] (Hv & (Hirq & _) & (Hm & Hbar) & He & Hg & Hf & Hu)]].
  unfold same, grows in *. injection Hv as Hv1 Hv2. injection Hbar as Hb1 Hb2.
  injection He as He1 He2. split; intros Hrc; rewrite Hrc in Hr; [exact Hr|].
  split; [|eapply no_bars_same; [exact Hb|exact Hi]]. split; [exact Hr|rewrite Hd; exact H2| | | | | |].
  - intros k. rewrite Hirq. apply H3.
  - unfold vectors_ok. rewrite Hv1, Hv2. exact H4.
  - destruct H5 as [H5 H5']. unfold maps_ok. rewrite Hb1. split; [exact H5|]. intros k.
    rewrite Hm. apply H5'.
  - unfold bars_nonneg. rewrite Hb1. exact H6.
  - intros k. rewrite Hu. apply H7.
  - unfold no_engines. rewrite Hg, He1, He2. destruct H8 as (H8 & H9 & H10).
    split; [exact H8|]. split; [lia|exact H10].
Qed.

(** ** BARs *)

Lemma keeps_set_bar i p : 0 <= p -> keeps (implies (fun w => bars_nonneg (lro w))) (set_bar_at i p).
Proof.
  intros Hp. apply keeps_modify. intros w H. unfold bars_nonneg in *. cbn. unfold zinsert.
  destruct (i <? 0); [exact H|]. apply Forall_insert; [exact H|exact Hp].
Qed.

(** BARs are mapped at addresses that are not negative *)
Lemma map_single_bar_nonneg pdev i :
  keeps (implies (fun w => bars_nonneg (lro w))) (map_single_bar pdev i).
Proof.
  apply keeps_wlp. intros w. apply wlp_intro. intros len w' E H. revert E.
  unfold map_single_bar. intros E. refine (wlp_elim _ (fun _ w' => bars_nonneg (lro w')) _ _ _ _ E).
  apply wlp_bind, wp_wlp, wp_ext. apply wlp_bind, wp_wlp, wp_ext. apply wlp_bind.
  eapply wlp_keeps; [apply keeps_set_bar, Z.le_refl|]. intros _ w1 H1.
  specialize (H1 H). match goal with |- context [if ?c then _ else _] => destruct c end; [apply wlp_ret, H1|].
  apply wlp_bind, wp_wlp, wp_ext. set (r := answer _ _ _).
  assert (0 <= nth 0 r 0) as Hr by apply (ok_iomap (trace w1)). apply wlp_bind.
  eapply wlp_keeps; [apply (keeps_set_bar i (nth 0 r 0) Hr)|]. intros _ w2 H2.
  assert (bars_nonneg (lro w2)) by (apply H2, H1). destruct (_ =? 0); apply wlp_ret; assumption.
Qed.

Lemma map_bars_from_nonneg pdev n : forall i ids pos,
  keeps (implies (fun w => bars_nonneg (lro w))) (map_bars_from pdev n i ids pos).
Proof.
  induction n as [|n IH]; intros; cbn [map_bars_from]; [apply keeps_ret; typeclasses eauto|].
  apply keeps_bind; [typeclasses eauto| |intros [[ids' pos']|]; [apply IH|apply keeps_ret; typeclasses eauto]].
  unfold map_bar_one. apply keeps_bind; [typeclasses eauto|apply map_single_bar_nonneg|intros len].
  apply (keeps_same_implies (fun w => bar (lro w)) (Forall (fun b => 0 <= b))).
  unfold is_config_bar. ledger.
Qed.

Lemma unmap_bars_nonneg pdev : keeps (implies (fun w => bars_nonneg (lro w))) (unmap_bars pdev).
Proof.
  unfold unmap_bars. apply keeps_for; [typeclasses eauto|intros i].
  apply keeps_bind; [typeclasses eauto|apply keeps_gets; typeclasses eauto|intros bars].
  apply keeps_bind; [typeclasses eauto|apply keeps_deref; typeclasses eauto|intros b].
  apply keeps_when; [typeclasses eauto|].
  apply keeps_bind; [typeclasses eauto| |intros _; apply keeps_set_bar, Z.le_refl].
  apply keeps_call_. intros w H. exact H.
Qed.

Lemma map_bars_nonneg pdev : keeps (implies (fun w => bars_nonneg (lro w))) (map_bars pdev).
Proof.
  assert (forall m : prog world unit, keeps (same (fun w => bar (lro w))) m ->
    keeps (implies (fun w => bars_nonneg (lro w))) (m ;; ret 0)) as Hs.
  { intros m Hm. apply (keeps_same_implies (fun w => bar (lro w)) (Forall (fun b => 0 <= b))).
    apply keeps_bind; [typeclasses eauto|exact Hm|intros []; apply keeps_ret; typeclasses eauto]. }
  assert (keeps (implies (fun w => bars_nonneg (lro w))) (unmap_bars pdev ;; ret (-1))) as Hu.
  { apply keeps_bind; [typeclasses eauto|apply unmap_bars_nonneg|].
    intros _. apply keeps_ret. typeclasses eauto. }
  unfold map_bars. apply keeps_bind; [typeclasses eauto|apply map_bars_from_nonneg|].
  intros [[ids pos]|]; [|exact Hu].
  apply keeps_bind; [typeclasses eauto|apply keeps_gets; typeclasses eauto|intros c].
  destruct (c <? 0); [exact Hu|]. apply Hs. unfold identify_bars. ledger.
Qed.

(** the configuration BAR is mapped at [b] *)
Definition config_at (b : Z) (w : world) : Prop :=
  zlookup (bar (lro w)) (config_bar_idx (lro w)) = Some b /\ 0 < b.

Lemma config_at_calm b w w' : config_at b w -> quiet_bar w w' -> config_at b w'.
Proof. intros H [_ E]. injection E as E1 E2. unfold config_at. rewrite E1, E2. exact H. Qed.

Lemma bars_prepared pdev n c w0 w :
  prepared pdev n c w0 w -> no_bars (lro w) ->
  wlp (map_bars pdev) (fun rc w' =>
    regions_at pdev n w0 w' /\
    (nz rc = false -> prepared pdev n c w0 w' /\ exists b, config_at b w')) w.
Proof.
  intros [H1 H2 H3 H4 H5 H6 H7 H8] Hb. eapply wlp_conseq.
  { apply (wlp_and_keeps (both but_bar (implies (fun w => bars_nonneg (lro w)))));
      [|apply wp_wlp, map_bars_run, Hb].
    intros s a s' E. split; [exact (quiet_map_bars pdev s a s' E)|exact (map_bars_nonneg pdev s a s' E)]. }
  intros rc w' [[_ Hok] [(Q & Hv & (Hirq & _) & He & Hg & Hf & Hu) Hn]].
  specialize (Hn H6). unfold same, grows in *. pose proof Q as (_ & _ & _ & Hd). unfold same in Hd.
  injection Hv as Hv1 Hv2. injection He as He1 He2.
  pose proof (regions_quiet _ _ _ _ _ H1 Q) as Hr. split; [exact Hr|]. intros Hrc.
  destruct (Hok (proj1 (nz_false _) Hrc)) as [[Hl Hm] [(b & Hcfg & Hbnz) _ _]].
  split; [split; [exact Hr|rewrite Hd; exact H2| | | |exact Hn| |]|].
  - intros k. rewrite Hirq. apply H3.
  - unfold vectors_ok. rewrite Hv1, Hv2. exact H4.
  - split; [exact Hl|]. intros k. rewrite Hm. destruct H5 as [_ H5]. rewrite H5.
    destruct Hb as [-> _]. rewrite bar_claims_none. lia.
  - intros k. rewrite Hu. apply H7.
  - unfold no_engines. rewrite Hg, He1, He2. destruct H8 as (H8 & H9 & H10).
    split; [exact H8|]. split; [lia|exact H10].
  - exists b. split; [exact Hcfg|]. assert (0 <= b); [|lia].
    unfold bars_nonneg in Hn. rewrite Forall_forall in Hn. apply Hn.
    unfold zlookup in Hcfg. destruct (_ <? 0); [discriminate|]. eapply list_elem_of_lookup_2, Hcfg.
Qed.

(** ** Interrupts *)

Lemma irq_setup_claims pdev b w :
  config_at b w -> vectors_ok (lro w) ->
  wlp (irq_setup pdev) (fun rc w' => nz rc = false ->
    forall k, held irqs (trace w') k = held irqs (trace w) k + device_claims (lro w') k) w.
Proof.
  intros [Hb _] [Hl _]. unfold irq_setup. apply wlp_bind, wlp_gets.
  destruct (nz (msix_enabled (lro w))) eqn:Em.
  - eapply wlp_conseq; [apply wp_wlp, msix_irq_setup_run; split; [exact Hl|eexists; exact Hb]|].
    intros rc w' [Hok _] Hrc k. destruct (Hok (proj1 (nz_false _) Hrc)) as [El Hh].
    unfold device_claims. rewrite Hh, El, Em. reflexivity.
  - apply wlp_bind, wlp_gets, wlp_bind.
    apply wlp_conseq with (P := fun _ w' => same_held irqs w w' /\ lro w' = lro w).
    { eapply wlp_keeps with (R := both (same_held irqs) (same lro)); [|intros _ w' [H1 H2]; split; assumption].
      unfold write_legacy_vectors. ledger. }
    intros [] w1 [Hi El]. apply wlp_bind, wlp_gets, wlp_bind, wp_wlp, wp_ext. set (r := answer _ _ _).
    pose proof (ok_irq (trace w1) [pdev] : 0 <= nth 0 r 0 < 2 ^ 31) as Hr.
    apply wlp_bind, wlp_modify, wlp_bind, wp_wlp, wp_ext. set (r2 := answer _ _ _).
    apply wp_ret. intros Hrc k. apply nz_false in Hrc. rewrite held_log.
    rewrite u32_id by (unfold is_u32; lia). cbn [taken_by given_by irqs]. rewrite Hrc, Z.eqb_refl.
    unfold device_claims. 
    match goal with |- context [irq_line (lro ?s)] => set (w2 := s) end.
    change (msix_enabled (lro w2)) with (msix_enabled (lro w1)).
    change (irq_line (lro w2)) with (s32 (nth 0 r 0)).
    match goal with |- _ + held irqs (trace ?s) k = _ =>
      change (held irqs (trace s) k) with (held irqs (trace w1) k) end.
    rewrite Hi, El, Em, is_key_none, s32_id by lia.
    destruct (Z.eqb_spec (nth 0 r 0) (-1)); lia.
Qed.

(** a table that was not stored makes the set-up of the interrupts fail *)
Lemma irq_setup_stored pdev b w :
  config_at b w -> length (entry_vector (lro w)) = 32%nat ->
  wlp (irq_setup pdev) (fun rc _ => nz rc = false -> vectors_stored (lro w)) w.
Proof.
  intros [Hb _] Hl. unfold vectors_stored, irq_setup. apply wlp_bind, wlp_gets.
  destruct (Z.eqb_spec (msix_enabled (lro w)) 0) as [E|E]; [apply wlp_any; intros; contradiction|].
  rewrite (proj2 (nz_true _) E).
  destruct (zlookup_is_Some (entry_vector (lro w)) 0 ltac:(lia)) as [v Hv].
  destruct (Z.eq_dec v 0) as [->|Hnz]; [|apply wlp_any; intros ? ? _ _; congruence].
  unfold msix_irq_setup. apply wlp_bind.
  assert (setup_ready w) as Hr by (split; [exact Hl|eexists; exact Hb]).
  eapply wlp_conseq; [apply wp_wlp, (write_msix_vectors_ok w); [exact Hr|apply user_held_refl]|].
  intros [] w1 [El _]. apply wlp_bind. rewrite for_exit_first by (unfold MAX_USER_IRQ; lia).
  apply wlp_bind. unfold request_user_irq. apply wlp_bind.
  apply wp_wlp, (wp_vector _ 0); [rewrite El; exact Hv|]. apply wlp_bind, wp_wlp, wp_ext, wlp_ret.
  rewrite (proj2 (nz_true _) (ok_line0 _ _)). apply wlp_ret. apply wlp_bind, wlp_any. intros ? ?.
  apply wlp_ret. intros Hrc _. apply nz_false in Hrc. destruct (ok_line0 _ _ Hrc).
Qed.

Lemma irq_prepared pdev b w0 w :
  prepared pdev 1 (fun _ => 0) w0 w -> config_at b w ->
  wlp (irq_setup pdev) (fun rc w' =>
    nz rc = false -> (prepared pdev 1 (device_claims (lro w')) w0 w' /\ vectors_stored (lro w')) /\ config_at b w') w.
Proof.
  intros [H1 H2 H3 H4 H5 H6 H7 H8] Hb. eapply wlp_conseq.
  { apply (wlp_and_keeps but_irq); [apply quiet_irq_setup|].
    apply wlp_and; [apply (irq_setup_claims pdev b); [exact Hb|exact H4]|].
    apply (irq_setup_stored pdev b); [exact Hb|apply H4]. }
  intros rc w' [[Hc Hst] (Q & Hv & (Hm & Hbar) & He & Hg & Hf & Hu)] Hrc. specialize (Hc Hrc).
  pose proof (vectors_stored_same _ _ Hv (Hst Hrc)) as Hst'.
  unfold same, grows in *. pose proof Q as (_ & _ & _ & Hd). unfold same in Hd.
  injection Hv as Hv1 Hv2. injection He as He1 He2.
  split; [|exact (config_at_calm _ _ _ Hb (conj Hm Hbar))]. split; [|exact Hst']. injection Hbar as Hb1 Hb2.
  split; [eapply regions_quiet; eassumption|rewrite Hd; exact H2| | | | | |].
  - intros k. rewrite Hc, H3. lia.
  - unfold vectors_ok. rewrite Hv1, Hv2. exact H4.
  - destruct H5 as [H5 H5']. unfold maps_ok. rewrite Hb1. split; [exact H5|]. intros k.
    rewrite Hm. apply H5'.
  - unfold bars_nonneg. rewrite Hb1. exact H6.
  - intros k. rewrite Hu. apply H7.
  - unfold no_engines. rewrite Hg, He1, He2. destruct H8 as (H8 & H9 & H10).
    split; [exact H8|]. split; [lia|exact H10].
Qed.

(** ** A device at work *)

(** a device whose engines were found from the state [wp] on *)
Record running (pdev b : Z) (wp w0 w : world) : Prop := {
  rn_regions : regions_at pdev 1 w0 w;
  rn_drvdata : drvdata (trace w) pdev <> 0;
  rn_base : prepared pdev 1 (device_claims (lro wp)) w0 wp;
  rn_ready : probe_ready b wp;
  rn_claims : forall k, device_claims (lro w) k = device_claims (lro wp) k;
  rn_vectors : vectors_ok (lro w);
  rn_maps : maps_ok w0 pdev w;
  rn_config : config_at b w;
  rn_since : engines_since b wp w
}.

Lemma claims_same w w' k :
  quiet_vectors w w' -> irq_line (lro w') = irq_line (lro w) ->
  device_claims (lro w') k = device_claims (lro w) k.
Proof. intros [= E1 E2] E3. unfold device_claims. rewrite E1, E2, E3. reflexivity. Qed.

Lemma since_calm b wp w w' : engines_since b wp w -> calm w w' -> engines_since b wp w'.
Proof.
  intros [[R1 R2 R3 R4 R5] Ho Hbal Hh Hn] (_ & Hv & (Hi & _) & (_ & Hb) & He & Hg & Hf & Hu).
  unfold same, grows in *. injection Hv as Hv1 Hv2. injection Hb as Hb1 Hb2. injection He as He1 He2.
  split.
  - split; rewrite ?Hb1, ?Hb2, ?Hv1, ?Hv2; try assumption; [lia|].
    intros p Hp. rewrite Hg. apply R5. lia.
  - apply (engines_ok_same b w); [exact Ho|exact He1|exact Hg|lia].
  - intros k. rewrite Hg, Hi, Hu. apply Hbal.
  - intros x. rewrite Hg, He1. apply Hh.
  - rewrite He1. exact Hn.
Qed.

Lemma running_calm pdev b wp w0 w w' :
  running pdev b wp w0 w -> calm w w' -> running pdev b wp w0 w'.
Proof.
  intros [H1 H2 H3 Hr H4 H5 H6 H7 H8] Hc. pose proof (since_calm b wp w w' H8 Hc) as Hs.
  destruct Hc as (Q & Hv & (Hi & Hl) & (Hm & Hb) & He). unfold same, grows in *.
  pose proof Q as (_ & _ & _ & Hd). unfold same in Hd. split; try assumption.
  - eapply regions_quiet; eassumption.
  - rewrite Hd. exact H2.
  - intros k. rewrite (claims_same w w' k Hv Hl). apply H4.
  - injection Hv as E1 E2. unfold vectors_ok. rewrite E1, E2. exact H5.
  - injection Hb as E1 _. destruct H6 as [H6 H6']. unfold maps_ok. rewrite E1.
    split; [exact H6|]. intros k. rewrite Hm. apply H6'.
  - exact (config_at_calm b w w' H7 (conj Hm Hb)).
Qed.

Lemma engines_running pdev b w0 wp :
  clean pdev w0 -> prepared pdev 1 (device_claims (lro wp)) w0 wp -> vectors_stored (lro wp) -> config_at b wp ->
  wlp probe_engines (fun rc w' => nz rc = false -> running pdev b wp w0 w') wp.
Proof.
  intros Hcl H Hst [Hb Hpos]. destruct (pp_engines _ _ _ _ _ H) as (Eg & Ef & Hno).
  pose proof (pp_vectors _ _ _ _ _ H) as [Hv1 Hv2].
  assert (probe_ready b wp) as Hr.
  { split; [exact Hb|exact Hv1|intros Hm; exact (Hv2 Hm (Hst Hm))|pose proof (cl_fresh _ _ Hcl); lia|].
    intros p Hp. rewrite Eg. apply Hcl. lia. }
  eapply wlp_conseq.
  { apply (wlp_and_keeps but_eng); [apply quiet_probe_engines|].
    apply wp_wlp, (probe_engines_outcome b); [exact Hr|exact Hpos|exact Hno]. }
  intros rc w' [[Hok _] (Q & Hv & Hl & Hm & Hbar)] Hrc. unfold same in *.
  destruct (Hok (proj1 (nz_false _) Hrc)) as [Hp _].
  pose proof Q as (_ & _ & _ & Hd). unfold same in Hd. split; try assumption.
  - eapply regions_quiet; [apply H|exact Q].
  - rewrite Hd. apply H.
  - intros k. apply (claims_same wp w' k Hv Hl).
  - injection Hv as E1 E2. unfold vectors_ok. rewrite E1, E2. split; assumption.
  - injection Hbar as E1 _. destruct (pp_maps _ _ _ _ _ H) as [H6 H6']. unfold maps_ok. rewrite E1.
    split; [exact H6|]. intros k. rewrite Hm. apply H6'.
  - exact (config_at_calm b wp w' (conj Hb Hpos) (conj Hm Hbar)).
  - apply probing_since, Hp.
Qed.

(** ** probe *)

(** what a successful probe leaves: a device at work, or no device *)
Definition probed (pdev : Z) (w0 : world) (rc : Z) (w : world) : Prop :=
  rc = 0 -> (nothing_taken w0 w /\ drvdata (trace w) pdev = 0) \/
            exists b wp, running pdev b wp w0 w.

(** the error labels return the error *)
Lemma err_probed pdev w0 (m : prog world Z) rc w :
  rc <> 0 -> wlp m (fun r _ => r = rc) w -> wlp m (probed pdev w0) w.
Proof. intros Hrc H. eapply wlp_conseq; [exact H|]. intros r w' -> Hr. contradiction. Qed.

Ltac returns := repeat (apply wlp_bind, wlp_any; intros ? ?); apply wlp_ret; reflexivity.
Lemma err_interfaces_returns pdev l rc w : wlp (err_interfaces pdev l rc) (fun r _ => r = rc) w.
Proof.
  unfold err_interfaces, err_engines, err_mask, err_map, err_regions, err_scan_msi, err_enable,
    kfree_lro. returns.
Qed.
Lemma err_engines_returns pdev l rc w : wlp (err_engines pdev l rc) (fun r _ => r = rc) w.
Proof.
  unfold err_engines, err_mask, err_map, err_regions, err_scan_msi, err_enable, kfree_lro. returns.
Qed.
Lemma err_mask_returns pdev l rc w : wlp (err_mask pdev l rc) (fun r _ => r = rc) w.
Proof. unfold err_mask, err_map, err_regions, err_scan_msi, err_enable, kfree_lro. returns. Qed.

(** the step of probe that ends in [if (rc) goto err] *)
Lemma probed_step pdev w0 (m : prog world Z) (err : Z -> prog world Z) (k : prog world Z)
    (P : world -> Prop) w :
  wlp m (fun rc w' => nz rc = false -> P w') w ->
  (forall rc w', wlp (err rc) (fun r _ => r = rc) w') ->
  (forall w', P w' -> wlp k (probed pdev w0) w') ->
  wlp (rc <- m ;; if nz rc then err rc else k) (probed pdev w0) w.
Proof.
  intros Hm Herr Hk. apply wlp_bind. eapply wlp_conseq; [exact Hm|]. intros rc w' H.
  cbv beta in H. destruct (nz rc) eqn:E; [|apply Hk, H; reflexivity].
  apply (err_probed _ _ _ rc); [apply nz_true, E|apply Herr].
Qed.

Lemma probe_start_probed pdev l b w0 w :
  clean pdev w0 -> prepared pdev 1 (device_claims (lro w)) w0 w -> vectors_stored (lro w) -> config_at b w ->
  wlp (probe_start pdev l) (probed pdev w0) w.
Proof.
  intros Hcl H Hst Hb. unfold probe_start. apply wlp_bind.
  apply (wlp_calm _ pdev 1 (device_claims (lro w)) w0); [apply quiet_probe_credit|exact H|].
  intros _ wp Hp Hc.
  assert (prepared pdev 1 (device_claims (lro wp)) w0 wp) as Hp'.
  { destruct Hp as [H1 H2 H3 H4 H5 H6 H7 H8]. split; try assumption. intros k.
    destruct Hc as (_ & Hv & (_ & Hl) & _). rewrite (claims_same w wp k Hv Hl). apply H3. }
  assert (vectors_stored (lro wp)) as Hst' by exact (vectors_stored_same _ _ (proj1 (proj2 Hc)) Hst).
  assert (config_at b wp) as Hb'.
  { destruct Hc as (_ & _ & _ & Hbar & _). exact (config_at_calm b w wp Hb Hbar). }
  apply (probed_step _ _ _ _ _ (running pdev b wp w0));
    [apply engines_running; assumption|apply err_engines_returns|]. clear w H Hst Hb Hp Hc.
  assert (forall A (m : prog world A) w, keeps calm m -> running pdev b wp w0 w ->
    wlp m (fun _ w' => running pdev b wp w0 w') w) as Hcalm.
  { intros A m w Hk Hr. eapply wlp_keeps; [exact Hk|]. intros _ w'. apply running_calm, Hr. }
  intros w1 H1. apply (probed_step _ _ _ _ _ (running pdev b wp w0)).
  - eapply wlp_conseq; [apply Hcalm; [apply quiet_create_interfaces|exact H1]|]. intros ? w' H' ?. exact H'.
  - apply err_interfaces_returns.
  - intros w2 H2. apply wlp_bind.
    eapply wlp_conseq; [apply Hcalm; [apply quiet_probe_interrupts|exact H2]|]. intros ? w3 H3.
    apply wlp_bind. eapply wlp_conseq; [apply Hcalm; [q|exact H3]|]. intros rc w4 H4.
    destruct (nz rc) eqn:E; [eapply err_probed; [apply nz_true, E|apply err_interfaces_returns]|].
    apply wlp_ret. intros _. right. exists b, wp. exact H4.
Qed.

Lemma probe_probed pdev w : clean pdev w -> wlp (probe pdev) (probed pdev w) w.
Proof.
  intros Hcl. unfold probe. apply wlp_bind.
  eapply wlp_conseq; [apply alloc_prepared, Hcl|]. intros l w1 H1. cbv beta in H1.
  destruct (l =? 0); [apply wlp_ret; intros _; left; exact H1|].
  apply (probed_step _ _ _ _ _ (fun w' => prepared pdev 0 (fun _ => 0) w w' /\ fresh_device (lro w'))).
  { eapply wlp_keeps with (R := both calm (same lro)); [q|]. intros rc w' [Hc E] _.
    unfold same in E. rewrite E. split; [eapply prepared_calm; [apply H1|exact Hc]|apply H1]. }
  { intros rc w'. unfold err_enable, kfree_lro. returns. }
  clear w1 H1. intros w1 [H1 F1]. apply wlp_bind.
  eapply wlp_keeps with (R := both calm (same lro)); [q|]. intros _ w2 [Hc E]. unfold same in E.
  assert (prepared pdev 0 (fun _ => 0) w w2) as H2 by (eapply prepared_calm; eassumption).
  rewrite <- E in F1. clear w1 H1 Hc E. apply wlp_bind.
  eapply wlp_conseq; [apply scan_prepared; eassumption|]. intros rc w3 [_ H3].
  destruct (Z.ltb_spec rc 0) as [Hlt|Hge].
  { apply (err_probed _ _ _ rc); [lia|]. unfold err_scan_msi, err_enable, kfree_lro. returns. }
  destruct (H3 Hge) as [H3' N3]. clear H3 H2 F1 w2.
  apply (probed_step _ _ _ _ _ (fun w' => prepared pdev 1 (fun _ => 0) w w' /\ no_bars (lro w'))).
  { eapply wlp_conseq; [apply request_prepared; eassumption|]. intros rc' w' [_ H']. exact H'. }
  { intros rc' w'. unfold err_regions, err_scan_msi, err_enable, kfree_lro. returns. }
  intros w4 [H4 N4].
  apply (probed_step _ _ _ _ _ (fun w' => prepared pdev 1 (fun _ => 0) w w' /\ exists b, config_at b w')).
  { eapply wlp_conseq; [apply bars_prepared; eassumption|]. intros rc' w' [_ H']. exact H'. }
  { intros rc' w'. unfold err_map, err_regions, err_scan_msi, err_enable, kfree_lro. returns. }
  intros w5 [H5 [b B5]].
  apply (probed_step _ _ _ _ _ (fun w' => prepared pdev 1 (fun _ => 0) w w' /\ config_at b w')).
  { eapply wlp_keeps; [apply quiet_set_dma_mask|]. intros rc' w' Hc _.
    split; [eapply prepared_calm; eassumption|]. destruct Hc as (_ & _ & _ & Hbar & _).
    eapply config_at_calm; eassumption. }
  { intros rc' w'. apply err_mask_returns. }
  intros w6 [H6 B6].
  apply (probed_step _ _ _ _ _ (fun w' =>
    (prepared pdev 1 (device_claims (lro w')) w w' /\ vectors_stored (lro w')) /\ config_at b w')).
  { apply irq_prepared; assumption. }
  { intros rc' w'. apply err_mask_returns. }
  intros w7 [[H7 S7] B7]. apply (probe_start_probed pdev l b); assumption.
Qed.

(** ** remove *)

Lemma free_user_irqs_ok w :
  length (entry_vector (lro w)) = 32%nat ->
  wp (for_ 0 MAX_USER_IRQ free_user_irq) (fun _ w' => lro w' = lro w /\
    forall k, held irqs (trace w') k
      = held irqs (trace w) k - user_claims (entry_vector (lro w)) 16 k) w.
Proof.
  intros Hl. apply (wp_for (fun i w' => lro w' = lro w /\ forall k, held irqs (trace w') k
      = held irqs (trace w) k - user_claims (entry_vector (lro w)) (Z.to_nat i) k)).
  - unfold MAX_USER_IRQ. lia.
  - split; [reflexivity|]. intros k. change (Z.to_nat 0) with O. cbn [user_claims]. lia.
  - intros i w' Hi [E H]. unfold MAX_USER_IRQ in Hi. unfold free_user_irq.
    destruct (zlookup_is_Some (entry_vector (lro w)) i ltac:(lia)) as [v Hv].
    apply wp_bind, (wp_vector _ v); [rewrite E; exact Hv|]. apply wp_ext_.
    split; [exact E|]. intros k. rewrite held_log, H.
    replace (Z.to_nat (i + 1)) with (Datatypes.S (Z.to_nat i)) by lia. cbn [user_claims].
    rewrite Z2Nat.id, Hv by lia. cbn [taken_by given_by irqs]. rewrite is_key_none. simpl. lia.
  - intros w' [E H]. split; [exact E|exact H].
Qed.

Lemma irq_teardown_claims w :
  vectors_ok (lro w) ->
  wlp irq_teardown (fun _ w' => forall k,
    held irqs (trace w') k = held irqs (trace w) k - device_claims (lro w) k) w.
Proof.
  intros [Hl _]. unfold irq_teardown, device_claims. apply wlp_bind, wlp_gets.
  destruct (nz (msix_enabled (lro w))).
  - eapply wlp_conseq; [apply wp_wlp, free_user_irqs_ok, Hl|]. intros ? w' [_ H]. exact H.
  - apply wlp_bind, wlp_gets, wlp_when; intros H.
    + apply wp_wlp, wp_ext_. intros k. rewrite held_log. cbn [taken_by given_by irqs].
      apply negb_true_iff in H. rewrite H, is_key_none. lia.
    + intros k. apply negb_false_iff in H. rewrite H, is_key_none. lia.
Qed.

(** the device without its engines *)
Lemma remove_engines_running pdev b wp w0 w :
  running pdev b wp w0 w ->
  wlp remove_engines (fun _ w' =>
    (forall k, held irqs (trace w') k = held irqs (trace w0) k + device_claims (lro w') k) /\
    same_held buffers w0 w' /\ vectors_ok (lro w') /\ maps_ok w0 pdev w' /\
    regions_at pdev 1 w0 w') w.
Proof.
  intros [H1 H2 H3 Hr H4 H5 H6 H7 H8]. destruct (pp_engines _ _ _ _ _ H3) as (_ & _ & Hno).
  eapply wlp_conseq.
  { apply (wlp_and_keeps but_eng); [apply quiet_remove_engines|].
    apply wp_wlp, (remove_restores b wp); assumption. }
  intros [] w' [(_ & Hi & Hu) (Q & Hv & Hl & Hm & Hbar)]. unfold same in *.
  split; [|split; [|split; [|split]]].
  - intros k. rewrite Hi, (pp_irqs _ _ _ _ _ H3), (claims_same w w' k Hv Hl), H4. reflexivity.
  - intros k. rewrite Hu. apply (pp_buffers _ _ _ _ _ H3).
  - injection Hv as E1 E2. unfold vectors_ok. rewrite E1, E2. exact H5.
  - injection Hbar as E1 _. destruct H6 as [H6 H6']. unfold maps_ok. rewrite E1.
    split; [exact H6|]. intros k. rewrite Hm. apply H6'.
  - eapply regions_quiet; eassumption.
Qed.

(** the calls behind the BARs touch no interrupt, mapping or buffer *)
Definition remove_tail (pdev l : Z) : prog world unit :=
  remove_msi pdev ;;
  u <- getL regions_in_use ;;
  when (negb (nz u)) (ext_ pci_disable_device [pdev]) ;;
  n <- getL instance ;;
  modify (fun w => w <| dev_present ::= zinsert n 0 |>) ;;
  ext_ device_remove_file [pdev] ;;
  kfree_lro l.

Definition no_resource : world -> world -> Prop :=
  both (same_held irqs) (both (same_held maps) (both (same_held buffers) (same_held regions))).

Lemma remove_tail_quiet pdev l : keeps no_resource (remove_tail pdev l).
Proof. unfold remove_tail, remove_msi, kfree_lro, no_resource. ledger. Qed.

Lemma remove_gives_back pdev b wp w0 w :
  running pdev b wp w0 w -> pdev <> 0 ->
  wlp (remove pdev) (fun _ w' => nothing_taken w0 w') w.
Proof.
  intros H Hp. unfold remove. apply wlp_bind. rewrite (proj2 (Z.eqb_neq pdev 0) Hp).
  apply wlp_gets. rewrite (proj2 (Z.eqb_neq _ 0) (rn_drvdata _ _ _ _ _ H)).
  assert (forall A (m : prog world A) w1, keeps calm m -> running pdev b wp w0 w1 ->
    wlp m (fun _ w' => running pdev b wp w0 w') w1) as Hcalm.
  { intros A m w1 Hk Hr. eapply wlp_keeps; [exact Hk|]. intros _ w'. apply running_calm, Hr. }
  generalize (drvdata (trace w) pdev) as l. intros l.
  do 3 (apply wlp_bind; eapply wlp_conseq;
    [apply Hcalm; [unfold channel_interrupts_disable, user_interrupts_disable, read_interrupts,
       write_ir, read_ir; q|exact H]|clear w H; intros ? w H]).
  apply wlp_bind. eapply wlp_conseq; [apply Hcalm; [apply quiet_destroy_interfaces|exact H]|].
  clear w H. intros ? w H. apply wlp_bind.
  eapply wlp_conseq; [apply (remove_engines_running pdev b wp w0), H|].
  clear w H. intros ? w (Hi & Hu & Hv & Hm & Hr). apply wlp_bind.
  eapply wlp_conseq; [apply (wlp_and_keeps but_irq); [apply quiet_irq_teardown|apply irq_teardown_claims, Hv]|].
  intros ? w1 [Hi1 (Q1 & _ & (Hm1 & Hb1) & _ & _ & _ & Hu1)]. unfold same in *.
  assert (maps_ok w0 pdev w1) as Hm1'.
  { injection Hb1 as E _. destruct Hm as [H1 H2]. unfold maps_ok. rewrite E. split; [exact H1|].
    intros k. rewrite Hm1. apply H2. }
  pose proof (regions_quiet _ _ _ _ _ Hr Q1) as Hr1. apply wlp_bind.
  eapply wlp_conseq; [apply (wlp_and_keeps but_bar); [apply quiet_unmap_bars|]; apply wp_wlp, (unmap_bars_ok w0), Hm1'|].
  intros ? w2 [[[_ Hm2] Ez] (Q2 & _ & (Hi2 & _) & _ & _ & _ & Hu2)].
  destruct (regions_quiet _ _ _ _ _ Hr1 Q2) as [Hg Hr2 _].
  apply wlp_bind, wlp_gets, wlp_bind. rewrite Hg. apply wlp_when; intros Hone; [|discriminate Hone].
  apply wp_wlp, wp_ext_. eapply wlp_keeps; [apply (remove_tail_quiet pdev l)|].
  intros ? w3 (Fi & Fm & Fu & Fr). split; [|split; [|split]]; intros k.
  - rewrite Fi. refine (eq_trans (Hi2 k) _). rewrite Hi1, Hi. lia.
  - rewrite Fm. refine (eq_trans (Hm2 k) _). rewrite Ez, bar_claims_none. lia.
  - rewrite Fu. refine (eq_trans (Hu2 k) _). rewrite Hu1. apply Hu.
  - rewrite Fr, held_log, Hr2. cbn [taken_by given_by regions]. rewrite is_key_none. change (1 =? 0) with false. cbv iota. lia.
Qed.

Definition probe_then_remove (pdev : Z) : prog world Z :=
  rc <- probe pdev ;; when (rc =? 0) (remove pdev) ;; ret rc.

(** C9: The life of a device is neutral, and comes to an end: after a probe
    that succeeds and the remove that follows it, every interrupt, every mapping
    of a BAR, every write-back buffer and the regions of the device are given
    back, exactly as often as they were taken.  The kernel may refuse MSI-X,
    grant it, or offer fewer vectors than were asked for, which probe does not
    take for an error: no vector is stored then, and the set-up of the
    interrupts fails because line 0 is not to be had. *)
Theorem probe_then_remove_gives_back pdev w :
  clean pdev w -> pdev <> 0 ->
  halts (probe_then_remove pdev) /\
  wlp (probe_then_remove pdev) (fun rc w' => rc = 0 -> nothing_taken w w') w.
Proof.
  intros Hcl Hp. split.
  { unfold probe_then_remove. apply halts_bind; [apply halts_probe|intros rc].
    apply halts_bind; [apply halts_when, halts_remove|intros ?; apply halts_ret]. }
  unfold probe_then_remove. apply wlp_bind.
  eapply wlp_conseq; [apply probe_probed, Hcl|]. intros rc w1 H. apply wlp_bind, wlp_when; intros Hrc.
  - apply Z.eqb_eq in Hrc. destruct (H Hrc) as [[Hn Hd]|(b & wp & Hr)].
    + unfold remove. rewrite (proj2 (Z.eqb_neq pdev 0) Hp). apply wlp_bind, wlp_gets.
      rewrite Hd. apply wlp_ret, wlp_ret. intros _. exact Hn.
    + eapply wlp_conseq; [apply (remove_gives_back _ _ _ _ _ Hr Hp)|]. intros ? w2 H2.
      apply wlp_ret. intros _. exact H2.
  - apply wlp_ret. intros E. apply Z.eqb_neq in Hrc. contradiction.
Qed.
End Lifecycle.
