(* ===== verification/Axi4s2dmov.v ===== *)
(** * The driver of the AXI DataMover (v1_dmover/software/driver/axi4s2dmov.c)

    The first version of the hardware: a DataMover that is given commands and
    gives statuses back through an AXI stream FIFO.  The driver serves one
    device; its global variables are the state.  The header axi4s2dmov.h is
    not part of the repository: the number and size of the buffers and the
    numbers of the ioctls are parameters. *)
From S2P Require Import Prelude Layout Kernel.
#[local] Open Scope Z_scope.

Class Axi4s2dmovH : Type := {
  BUF_NUM : Z;
  BUF_SIZE : Z;
  ADM_RESET : Z;
  ADM_START : Z;
  ADM_STOP : Z;
  ADM_GET : Z;
  ADM_CONFIRM : Z
}.

Definition SUCCESS : Z := 0.
(** the registers of the FIFO *)
Definition AF_STR_RESET : Z := 0x28.
Definition AF_TX_RESET : Z := 0x8.
Definition AF_RX_RESET : Z := 0x18.
Definition AF_ISR : Z := 0x00.
Definition AF_IER : Z := 0x04.
Definition AF_RDFD : Z := 0x20.
Definition AF_RDFO : Z := 0x1c.
Definition AF_TDFD : Z := 0x10.
Definition AF_TLR : Z := 0x14.
Definition AF_RLR : Z := 0x24.

(** The global variables; a pointer that is null is 0. *)
Record adm : Type := mk_adm {
  adm_trace : history;
  fmem : Z;
  phys_addr : Z;
  phys_len : Z;
  virt_buf : list Z;
  phys_buf : list Z;
  blen : list Z;
  bready : list Z;
  received_buf : Z;
  exp_buf : Z;
  is_started : Z;
  irq : Z;
  irq_set : Z;
  my_pdev : Z;
  my_dev : Z;
  my_cdev : Z;
  class_my_tst : Z
}.

#[global] Instance eta_adm : Eta adm := fun r =>
  mk_adm (adm_trace r) (fmem r) (phys_addr r) (phys_len r) (virt_buf r) (phys_buf r) (blen r)
    (bready r) (received_buf r) (exp_buf r) (is_started r) (irq r) (irq_set r) (my_pdev r)
    (my_dev r) (my_cdev r) (class_my_tst r).
#[global] Instance set_adm_trace : Setter adm_trace := ltac:(make_setter).
#[global] Instance set_fmem : Setter fmem := ltac:(make_setter).
#[global] Instance set_phys_addr : Setter phys_addr := ltac:(make_setter).
#[global] Instance set_phys_len : Setter phys_len := ltac:(make_setter).
#[global] Instance set_virt_buf : Setter virt_buf := ltac:(make_setter).
#[global] Instance set_phys_buf : Setter phys_buf := ltac:(make_setter).
#[global] Instance set_blen : Setter blen := ltac:(make_setter).
#[global] Instance set_bready : Setter bready := ltac:(make_setter).
#[global] Instance set_received_buf : Setter received_buf := ltac:(make_setter).
#[global] Instance set_exp_buf : Setter exp_buf := ltac:(make_setter).
#[global] Instance set_is_started : Setter is_started := ltac:(make_setter).
#[global] Instance set_irq : Setter irq := ltac:(make_setter).
#[global] Instance set_irq_set : Setter irq_set := ltac:(make_setter).
#[global] Instance set_my_pdev : Setter my_pdev := ltac:(make_setter).
#[global] Instance set_my_dev : Setter my_dev := ltac:(make_setter).
#[global] Instance set_my_cdev : Setter my_cdev := ltac:(make_setter).
#[global] Instance set_class_my_tst : Setter class_my_tst := ltac:(make_setter).

#[global] Instance adm_has_trace : HasTrace adm := {
  trace_of := adm_trace;
  log e w := w <| adm_trace ::= cons e |>;
  trace_log e w := eq_refl
}.

(** what interrupts and other threads do while a thread sleeps *)
Class AdmSched : Type := adm_asleep : adm -> adm.

Section Driver.
Context {hdr : Axi4s2dmovH} {env : Env} {sched : AdmSched}.

(** ** Access *)

(** [a[i]] and [a[i] = v] for an array of the driver *)
Definition item (f : adm -> list Z) (i : Z) : prog adm Z := deref (fun w => zlookup (f w) i).
Definition set_item (f : adm -> list Z) (upd : (list Z -> list Z) -> adm -> adm) (i v : Z)
  : prog adm unit :=
  _ <- item f i ;; modify (upd (zinsert i v)).
Definition set_blen_at : Z -> Z -> prog adm unit := set_item blen (fun g w => w <| blen ::= g |>).
Definition set_bready_at : Z -> Z -> prog adm unit :=
  set_item bready (fun g w => w <| bready ::= g |>).

(** [regs[ofs/4]], where [regs] is [fmem] *)
Definition regs_at : prog adm Z :=
  f <- gets fmem ;; if f =? 0 then abort_with BadAccess else ret f.
Definition reg (ofs : Z) : prog adm Z := f <- regs_at ;; read_register (f + ofs).
Definition set_reg (ofs v : Z) : prog adm unit := f <- regs_at ;; write_register v (f + ofs).

(** ** The interrupt *)

Definition next_buf (e : Z) : Z := if e + 1 =? BUF_NUM then 0 else e + 1.

(** one turn of the loop that takes statuses from the FIFO *)
Definition tst1_irq_one (_ : unit) : prog adm (unit + unit) :=
  res <- reg AF_RDFO ;;
  if s32 res =? 0 then ret (inr tt) else
  res <- reg AF_RLR ;;
  if negb (s32 res =? 4) then ret (inr tt) else
  r <- reg AF_RDFD ;;
  let res := s32 r in
  if Z.land res (Z.shiftl 1 7) =? 0 then ret (inr tt) else
  let nbuf := Z.land res 0xf in
  set_blen_at nbuf (Z.shiftr (Z.land res 0x3fffff00) 8) ;;
  set_bready_at nbuf 1 ;;
  modify (fun w => w <| exp_buf ::= next_buf |>) ;;
  ret (inl tt).

(** the loop is not bounded: [fuel] is the number of its turns *)
Definition tst1_irq (fuel : nat) : prog adm Z :=
  isr <- reg AF_ISR ;;
  if nz (Z.land isr 0x04000000) then
    set_reg AF_ISR 0xffffffff ;;
    ext_ mb [] ;;
    loop fuel tst1_irq_one tt ;;
    ext_ wake_up_interruptible [] ;;
    ret IRQ_HANDLED
  else ret IRQ_NONE.

(** ** Transfers *)

Definition command_word : Z :=
  let val := Z.shiftl 1 22 - 1 in
  let val := Z.lor val (Z.shiftl 1 23) in
  Z.lor val (Z.shiftl 1 30).

Definition transfer_buf (i : Z) : prog adm unit :=
  set_reg AF_TDFD command_word ;;
  ext_ mb [] ;;
  p <- item phys_buf i ;;
  set_reg AF_TDFD (u32 p) ;;
  ext_ mb [] ;;
  set_reg AF_TDFD (u32 i) ;;
  ext_ mb [] ;;
  set_reg AF_TLR 9 ;;
  ext_ mb [].

(** ** ioctl *)

Definition adm_reset : prog adm Z :=
  _ <- ext ksgpio_set_reset [0] ;;
  _ <- ext ksgpio_set_start [0] ;;
  ext_ mdelay [100] ;;
  _ <- ext ksgpio_set_reset [1] ;;
  ext_ mdelay [100] ;;
  set_reg AF_STR_RESET 0xa5 ;;
  set_reg AF_TX_RESET 0xa5 ;;
  set_reg AF_RX_RESET 0xa5 ;;
  ext_ mdelay [100] ;;
  ret SUCCESS.

Definition adm_start : prog adm Z :=
  s <- gets is_started ;;
  if nz s then ret (- EINVAL)
  else
    modify (fun w => w <| exp_buf := 0 |> <| received_buf := 0 |>) ;;
    for_ 0 BUF_NUM (fun i => set_bready_at i 0) ;;
    for_ 0 BUF_NUM transfer_buf ;;
    set_reg AF_IER 0x04000000 ;;
    ext_ mb [] ;;
    _ <- ext ksgpio_set_start [1] ;;
    modify (fun w => w <| is_started := 1 |>) ;;
    ret SUCCESS.

Definition adm_stop : prog adm Z :=
  set_reg AF_IER 0 ;;
  modify (fun w => w <| is_started := 0 |>) ;;
  ret SUCCESS.

(** [bready[received_buf] > 0] *)
Definition buffer_ready : prog adm bool :=
  r <- gets received_buf ;; b <- item bready r ;; ret (0 <? b).

(** [wait_event_interruptible(readqueue, bready[received_buf] > 0)]: nonzero
    when a signal ended the sleep *)
Definition wait_ready : prog adm Z :=
  c <- buffer_ready ;;
  if (c : bool) then ret 0 else
    modify adm_asleep ;;
    c <- buffer_ready ;;
    if (c : bool) then ret 0 else
      r <- ext wait_event_interruptible [] ;;
      if r =? 0 then abort_with Blocked else ret r.

Definition adm_get : prog adm Z :=
  res <- wait_ready ;;
  if nz res then ret res
  else
    r <- gets received_buf ;;
    l <- item blen r ;;
    ret (s32 (Z.lor (Z.shiftl r 24) l)).

Definition adm_confirm : prog adm Z :=
  r <- gets received_buf ;;
  b <- item bready r ;;
  if b =? 0 then ret (- EINVAL)
  else
    set_blen_at r 0 ;;
    set_bready_at r 0 ;;
    transfer_buf r ;;
    modify (fun w => w <| received_buf ::= next_buf |>) ;;
    ret SUCCESS.

Definition tst1_ioctl (cmd : Z) : prog adm Z :=
  if cmd =? ADM_RESET then adm_reset
  else if cmd =? ADM_START then adm_start
  else if cmd =? ADM_STOP then adm_stop
  else if cmd =? ADM_GET then adm_get
  else if cmd =? ADM_CONFIRM then adm_confirm
  else ret (- EINVAL).

(** ** Open, close, mapping *)

Definition tst1_open : prog adm Z :=
  i <- gets irq ;;
  p <- gets my_pdev ;;
  res <- ext request_irq [i; IRQF_SHARED; p] ;;
  modify (fun w => w <| irq_set := if nz res then -1 else 1 |>) ;;
  ret SUCCESS.

Definition tst1_release : prog adm Z :=
  s <- gets is_started ;;
  when (nz s) (set_reg AF_IER 0 ;; modify (fun w => w <| is_started := 0 |>)) ;;
  k <- gets irq_set ;;
  when (0 <=? k)
    (i <- gets irq ;; p <- gets my_pdev ;;
     ext_ free_irq [i; p] ;;
     modify (fun w => w <| irq_set := -1 |>)) ;;
  ret SUCCESS.

(** the mapping [vm_pgoff], [vm_start], [vm_end] of a process: [vm_pgoff] is
    unsigned, and the number of the buffer *)
Definition tst1_mmap (vm_pgoff vm_start vm_end : Z) : prog adm Z :=
  let off := vm_pgoff in
  if BUF_NUM <=? off then ret (- EINVAL) else
  let vsize := u64 (vm_end - vm_start) in
  let psize := BUF_SIZE in
  if psize <? vsize then ret (- EINVAL) else
  v <- item virt_buf off ;;
  p <- item phys_buf off ;;
  d <- gets my_pdev ;;
  ext dma_mmap_coherent [d; v; p; BUF_SIZE].

(** ** Probe and removal *)

(** the label [err1] *)
Definition err1 (pdev res : Z) : prog adm Z :=
  f <- gets fmem ;;
  when (nz f) (ext_ devm_iounmap [pdev; f] ;; modify (fun w => w <| fmem := 0 |>)) ;;
  ret res.

(** one of the buffers; [Some tt] is the jump to [err1] *)
Definition alloc_buf (pdev i : Z) : prog adm (option unit) :=
  r <- ext_all dma_zalloc_coherent [pdev; BUF_SIZE] ;;
  modify (fun w => w <| virt_buf ::= zinsert i (nth 0 r 0) |> <| phys_buf ::= zinsert i (nth 1 r 0) |>) ;;
  ret (if nth 0 r 0 =? 0 then Some tt else None).

(** the node and the buffers, once the class is there; [res] is the result so
    far *)
Definition probe_node (pdev : Z) : prog adm Z :=
  r <- ext_all alloc_chrdev_region [0; 1] ;;
  let res := nth 0 r 0 in
  if nz res then err1 pdev res else
  modify (fun w => w <| my_dev := nth 1 r 0 |>) ;;
  c <- ext cdev_alloc [] ;;
  modify (fun w => w <| my_cdev := c |>) ;;
  if c =? 0 then err1 pdev res else
  d <- gets my_dev ;;
  res <- ext cdev_add [c; d; 1] ;;
  if nz res then err1 pdev res else
  cls <- gets class_my_tst ;;
  _ <- ext device_create [cls; d] ;;
  modify (fun w => w <| my_pdev := pdev |>) ;;
  r <- for_exit 0 BUF_NUM (alloc_buf pdev) ;;
  match r with
  | Some _ => err1 pdev res
  | None => ret 0
  end.

(** the answers of the calls that give a pointer or an error are the pointer,
    what [IS_ERR] says of it, and [PTR_ERR] *)
Definition tst1_probe (pdev : Z) : prog adm Z :=
  p <- gets my_pdev ;;
  if nz p then ret (- EINVAL) else
  res <- ext ksgpio_check_status [] ;;
  if nz res then err1 pdev res else
  r <- ext_all platform_get_resource [pdev] ;;
  if nth 0 r 0 =? 0 then err1 pdev (- EINVAL) else
  modify (fun w => w <| phys_addr := nth 1 r 0 |> <| phys_len := nth 2 r 0 - nth 1 r 0 |>) ;;
  m <- ext_all devm_ioremap_resource [pdev; nth 0 r 0] ;;
  modify (fun w => w <| fmem := nth 0 m 0 |>) ;;
  if nz (nth 1 m 0) then err1 pdev (nth 2 m 0) else
  i <- ext platform_get_irq [pdev; 0] ;;
  modify (fun w => w <| irq := i |>) ;;
  if i <? 0 then err1 pdev i else
  c <- ext_all class_create [] ;;
  modify (fun w => w <| class_my_tst := nth 0 c 0 |>) ;;
  if nz (nth 1 c 0) then err1 pdev (nth 2 c 0) else
  probe_node pdev.

(** the buffer [i] *)
Definition free_buf (pdev i : Z) : prog adm unit :=
  v <- item virt_buf i ;;
  p <- item phys_buf i ;;
  when (nz v) (ext_ dma_free_coherent [pdev; BUF_SIZE; v; p]) ;;
  modify (fun w => w <| virt_buf ::= zinsert i 0 |> <| phys_buf ::= zinsert i 0 |>).

Definition tst1_remove (pdev : Z) : prog adm Z :=
  d <- gets my_dev ;;
  cls <- gets class_my_tst ;;
  when (nz d && nz cls) (ext_ device_destroy [cls; d]) ;;
  f <- gets fmem ;;
  when (nz f) (ext_ devm_iounmap [pdev; f] ;; modify (fun w => w <| fmem := 0 |>)) ;;
  c <- gets my_cdev ;;
  when (nz c) (ext_ cdev_del [c]) ;;
  modify (fun w => w <| my_cdev := 0 |>) ;;
  ext_ unregister_chrdev_region [d; 1] ;;
  when (nz cls) (ext_ class_destroy [cls] ;; modify (fun w => w <| class_my_tst := 0 |>)) ;;
  p <- gets my_pdev ;;
  when (p =? pdev) (modify (fun w => w <| my_pdev := 0 |>)) ;;
  for_ 0 BUF_NUM (free_buf pdev) ;;
  ret 0.
End Driver.
