(* ===== verification/AxiFacts.v ===== *)
(** * The buffers of the AXI DataMover: who owns which

    The commands the DataMover has not answered yet and the buffers it failed
    to fill are functions of the history; together with the buffers that are
    ready they are all buffers, in the order of the ring. *)
From S2P Require Import Prelude Layout Kernel Axi4s2dmov.
#[local] Open Scope Z_scope.

(** ** The device *)

(** the words written to the transmit FIFO, newest first *)
Definition fifo_words (f : Z) (h : history) : list Z :=
  omap (fun av => if fst av =? f + AF_TDFD then Some (snd av) else None) (writes h).

(** The commands without a status yet, oldest first, as the number and the
    address of the buffer: the length register completes a command, a read of
    the receive FIFO takes the status of the oldest one, a reset of the stream
    drops them all. *)
Fixpoint outstanding (f : Z) (h : history) : list (Z * Z) :=
  match h with
  | [] => []
  | Call ioread32 [a] _ :: h' =>
      if a =? f + AF_RDFD then tail (outstanding f h') else outstanding f h'
  | Call iowrite32 [a; v] _ :: h' =>
      if a =? f + AF_TLR then
        (outstanding f h' ++ match fifo_words f h' with
          | tag :: addr :: _ => [(tag, addr)] | _ => [] end)%list
      else if a =? f + AF_STR_RESET then [] else outstanding f h'
  | _ :: h' => outstanding f h'
  end.

(** The buffers whose command ended with a status that is not OKAY, the last
    first, as long as no new command is given for them and the stream is not
    reset. *)
Fixpoint failed (f : Z) (h : history) : list Z :=
  match h with
  | [] => []
  | Call ioread32 [a] r :: h' =>
      if (a =? f + AF_RDFD) && negb (Z.testbit (nth 0 r 0) 7)
      then (take 1 (outstanding f h').*1 ++ failed f h')%list else failed f h'
  | Call iowrite32 [a; v] _ :: h' =>
      if a =? f + AF_TLR then
        match fifo_words f h' with
        | tag :: _ :: _ => filter (fun b => b <> tag) (failed f h')
        | _ => failed f h' end
      else if a =? f + AF_STR_RESET then [] else failed f h'
  | _ :: h' => failed f h'
  end.

(** a status: the number of the buffer, the three errors, OKAY, the length and
    the end of packet *)
Definition status_word (tag errors okay len eop : Z) : Z :=
  tag + errors * 2 ^ 4 + okay * 2 ^ 7 + len * 2 ^ 8 + eop * 2 ^ 31.

(** The header: the number of a buffer is four bits of the status. *)
Class HeaderOk `{Axi4s2dmovH} : Prop := {
  buffers_tagged : 0 < BUF_NUM <= 16;
  commands_differ : NoDup [ADM_RESET; ADM_START; ADM_STOP; ADM_GET; ADM_CONFIRM]
}.

(** The DataMover answers its commands in order: there are no more statuses
    than commands, and a packet of four bytes is the status of the oldest
    command.  The length of a packet may be any, and so may what a status says
    of the success of its command; [f] is where the registers are. *)
Class DataMover `{Env} (f : Z) : Prop := {
  dm_mapped : f <> 0;
  dm_occupancy : forall h,
    0 <= nth 0 (answer h ioread32 [f + AF_RDFO]) 0 <= Z.of_nat (length (outstanding f h));
  dm_status : forall h r r' tag addr l, nth 0 r 0 <> 0 -> s32 (u32 (nth 0 r' 0)) = 4 ->
    outstanding f h = (tag, addr) :: l ->
    exists errors okay len eop, 0 <= errors < 8 /\ 0 <= okay <= 1 /\ 0 <= len < 2 ^ 22 /\ 0 <= eop <= 1 /\
      nth 0 (answer (Call ioread32 [f + AF_RLR] r' :: Call ioread32 [f + AF_RDFO] r :: h)
        ioread32 [f + AF_RDFD]) 0 = status_word tag errors okay len eop
}.

(** ** The history after a register access *)

Lemma add_eqb f a b : (f + a =? f + b) = (a =? b).
Proof. destruct (Z.eqb_spec (f + a) (f + b)), (Z.eqb_spec a b); lia || reflexivity. Qed.

Lemma outstanding_read f ofs r h :
  outstanding f (Call ioread32 [f + ofs] r :: h)
  = if ofs =? AF_RDFD then tail (outstanding f h) else outstanding f h.
Proof. cbn [outstanding]. rewrite add_eqb. reflexivity. Qed.

Lemma outstanding_write f ofs v r h :
  outstanding f (Call iowrite32 [f + ofs; v] r :: h)
  = if ofs =? AF_TLR then
      (outstanding f h ++ match fifo_words f h with
        | tag :: addr :: _ => [(tag, addr)] | _ => [] end)%list
    else if ofs =? AF_STR_RESET then [] else outstanding f h.
Proof. cbn [outstanding]. rewrite !add_eqb. reflexivity. Qed.

Lemma fifo_words_write f ofs v r h :
  fifo_words f (Call iowrite32 [f + ofs; v] r :: h)
  = if ofs =? AF_TDFD then v :: fifo_words f h else fifo_words f h.
Proof. unfold fifo_words, writes. simpl. rewrite add_eqb. destruct (ofs =? AF_TDFD); reflexivity. Qed.

Lemma fifo_words_other f e h :
  ev_fn e <> iowrite32 -> fifo_words f (e :: h) = fifo_words f h.
Proof. destruct e as [[] a r]; intros H; try reflexivity. elim H. reflexivity. Qed.

Lemma outstanding_other f e h :
  ev_fn e <> iowrite32 -> ev_fn e <> ioread32 -> outstanding f (e :: h) = outstanding f h.
Proof. destruct e as [[] a r]; intros H H'; try reflexivity; [elim H'|elim H]; reflexivity. Qed.

Lemma failed_read f ofs r h :
  failed f (Call ioread32 [f + ofs] r :: h)
  = if (ofs =? AF_RDFD) && negb (Z.testbit (nth 0 r 0) 7)
    then (take 1 (outstanding f h).*1 ++ failed f h)%list else failed f h.
Proof. cbn [failed]. rewrite add_eqb. reflexivity. Qed.

Lemma failed_write f ofs v r h :
  failed f (Call iowrite32 [f + ofs; v] r :: h)
  = if ofs =? AF_TLR then
      match fifo_words f h with
      | tag :: _ :: _ => filter (fun b => b <> tag) (failed f h)
      | _ => failed f h end
    else if ofs =? AF_STR_RESET then [] else failed f h.
Proof. cbn [failed]. rewrite !add_eqb. reflexivity. Qed.

Lemma failed_other f e h :
  ev_fn e <> iowrite32 -> ev_fn e <> ioread32 -> failed f (e :: h) = failed f h.
Proof. destruct e as [[] a r]; intros H H'; try reflexivity; [elim H'|elim H]; reflexivity. Qed.

Lemma filter_ne (b : Z) (l : list Z) : b ∉ l -> filter (fun x => x <> b) l = l.
Proof.
  induction l as [|x l IH]; intros H; [reflexivity|]. apply not_elem_of_cons in H as [H1 H2].
  rewrite filter_cons_True by congruence. rewrite IH by exact H2. reflexivity.
Qed.

(** ** The bits of a status *)

Lemma s32_land v m : 0 <= m < 2 ^ 31 -> Z.land (s32 v) m = Z.land v m.
Proof.
  intros Hm. assert (Z.land m (Z.ones 32) = m) as E by (apply land_ones_small; lia).
  assert (forall x, Z.land x m = Z.land (x mod 2 ^ 32) m) as H.
  { intros x. rewrite <- Z.land_ones by lia. rewrite <- E at 1.
    rewrite (Z.land_comm m), Z.land_assoc. reflexivity. }
  rewrite (H (s32 v)), (H v). f_equal. unfold s32.
  rewrite Zminus_mod_idemp_l. f_equal. lia.
Qed.

Lemma status_split tag errors okay len eop :
  0 <= tag < 16 -> 0 <= errors < 8 -> 0 <= okay <= 1 ->
  status_word tag errors okay len eop
  = (tag + errors * 2 ^ 4) + (okay + 2 * (len + eop * 2 ^ 23)) * 2 ^ 7.
Proof. intros. unfold status_word. lia. Qed.

Lemma status_okay tag errors okay len eop :
  0 <= tag < 16 -> 0 <= errors < 8 -> 0 <= okay <= 1 ->
  Z.testbit (status_word tag errors okay len eop) 7 = (okay =? 1).
Proof.
  intros Ht He Ho. rewrite status_split, Z.testbit_odd, Z.shiftr_div_pow2 by lia.
  rewrite Z.div_add, Z.div_small, Z.add_0_l, Z.odd_add_mul_2 by lia.
  assert (okay = 0 \/ okay = 1) as [-> | ->] by lia; reflexivity.
Qed.

Lemma land_bit7 v : (Z.land v (Z.shiftl 1 7) =? 0) = negb (Z.testbit v 7).
Proof.
  destruct (Z.testbit v 7) eqn:E; cbn [negb].
  - apply Z.eqb_neq. intros H. assert (Z.testbit (Z.land v (Z.shiftl 1 7)) 7 = true) as H'
      by (rewrite Z.land_spec, E; reflexivity). rewrite H in H'. discriminate.
  - apply Z.eqb_eq, Z.bits_inj'. intros n Hn. rewrite Z.land_spec, Z.bits_0, Z.shiftl_1_l, Z.pow2_bits_eqb by lia.
    destruct (Z.eqb_spec 7 n) as [<-|]; [rewrite E; reflexivity|apply andb_false_r].
Qed.

Lemma status_tag tag errors okay len eop :
  0 <= tag < 16 -> Z.land (status_word tag errors okay len eop) 0xf = tag.
Proof.
  intros Ht. change 0xf with (Z.ones 4). rewrite Z.land_ones by lia. unfold status_word.
  replace (tag + errors * 2 ^ 4 + okay * 2 ^ 7 + len * 2 ^ 8 + eop * 2 ^ 31)
    with (tag + (errors + okay * 2 ^ 3 + len * 2 ^ 4 + eop * 2 ^ 27) * 2 ^ 4) by lia.
  rewrite Z.mod_add by lia. apply Z.mod_small. lia.
Qed.

Lemma status_len tag errors okay len eop :
  0 <= tag < 16 -> 0 <= errors < 8 -> 0 <= okay <= 1 -> 0 <= len < 2 ^ 22 -> 0 <= eop <= 1 ->
  Z.shiftr (Z.land (status_word tag errors okay len eop) 0x3fffff00) 8 = len.
Proof.
  intros Ht He Ho Hl Hp. rewrite Z.shiftr_land. change (Z.shiftr 0x3fffff00 8) with (Z.ones 22).
  rewrite Z.land_ones, Z.shiftr_div_pow2 by lia. unfold status_word.
  replace (tag + errors * 2 ^ 4 + okay * 2 ^ 7 + len * 2 ^ 8 + eop * 2 ^ 31)
    with ((tag + errors * 2 ^ 4 + okay * 2 ^ 7) + (len + (eop * 2) * 2 ^ 22) * 2 ^ 8) by lia.
  rewrite Z.div_add, Z.div_small, Z.add_0_l by lia.
  rewrite Z.mod_add by lia. apply Z.mod_small. lia.
Qed.

Section Facts.
Context {hdr : Axi4s2dmovH} {env : Env} {sched : AdmSched} {hok : HeaderOk}.

(** ** The rules of the accesses *)

Lemma wp_reg ofs (Q : Z -> adm -> Prop) w :
  fmem w <> 0 ->
  (let r := answer (adm_trace w) ioread32 [fmem w + ofs] in
   Q (u32 (nth 0 r 0)) (log (Call ioread32 [fmem w + ofs] r) w)) ->
  wp (reg ofs) Q w.
Proof.
  intros Hf HQ. unfold reg, regs_at. apply wp_bind, wp_bind, wp_gets.
  rewrite (proj2 (Z.eqb_neq _ _) Hf). apply wp_ret, wp_read_register. exact HQ.
Qed.

Lemma wp_set_reg ofs v (Q : unit -> adm -> Prop) w :
  fmem w <> 0 -> Q tt (log (Call iowrite32 [fmem w + ofs; v] []) w) -> wp (set_reg ofs v) Q w.
Proof.
  intros Hf HQ. unfold set_reg, regs_at. apply wp_bind, wp_bind, wp_gets.
  rewrite (proj2 (Z.eqb_neq _ _) Hf). apply wp_ret, wp_write_register. exact HQ.
Qed.

Lemma wp_item f i v (Q : Z -> adm -> Prop) w : zlookup (f w) i = Some v -> Q v w -> wp (item f i) Q w.
Proof. intros H HQ. eapply wp_deref; eassumption. Qed.

Lemma wp_set_item f upd i v (Q : unit -> adm -> Prop) w :
  0 <= i < Z.of_nat (length (f w)) -> Q tt (upd (zinsert i v) w) -> wp (set_item f upd i v) Q w.
Proof.
  intros Hi HQ. destruct (zlookup_is_Some _ _ Hi) as [x Hx]. unfold set_item.
  apply wp_bind. eapply wp_item; [exact Hx|]. apply wp_modify, HQ.
Qed.

(** ** The places of the ring *)

(** the buffer [j] places after [r] *)
Definition place (r j : Z) : Z := (r + j) mod BUF_NUM.

Lemma place_range r j : 0 <= place r j < BUF_NUM.
Proof. destruct hok as [H _]. apply Z.mod_pos_bound. lia. Qed.

Lemma place_0 r : 0 <= r < BUF_NUM -> place r 0 = r.
Proof. intros H. unfold place. rewrite Z.add_0_r. apply Z.mod_small, H. Qed.

Lemma place_next r j : next_buf (place r j) = place r (j + 1).
Proof.
  destruct hok as [HN _]. pose proof (place_range r j) as H. unfold next_buf, place in *.
  rewrite Z.add_assoc, <- (Zplus_mod_idemp_l (r + j) 1).
  destruct (Z.eqb_spec ((r + j) mod BUF_NUM + 1) BUF_NUM) as [->|Hne].
  - rewrite Z.mod_same by lia. reflexivity.
  - rewrite (Z.mod_small (_ + 1)) by lia. reflexivity.
Qed.

Lemma place_shift r j : place (next_buf r) j = place r (j + 1).
Proof.
  destruct hok as [HN _]. unfold place, next_buf. destruct (Z.eqb_spec (r + 1) BUF_NUM) as [E|_].
  - replace (r + (j + 1)) with (0 + j + 1 * BUF_NUM) by lia. rewrite Z.mod_add by lia. reflexivity.
  - f_equal. lia.
Qed.

Lemma place_inj r i j :
  0 <= i < BUF_NUM -> 0 <= j < BUF_NUM -> place r i = place r j -> i = j.
Proof.
  unfold place. intros Hi Hj E. assert ((i - j) mod BUF_NUM = 0) as H.
  { replace (i - j) with ((r + i) - (r + j)) by lia. rewrite Zminus_mod, E, Z.sub_diag. apply Z.mod_0_l. destruct hok; lia. }
  destruct hok as [HN _].
  apply Z.mod_divide in H as [q Hq]; [|lia]. assert (q = 0) by nia. lia.
Qed.

(** ** The flow of buffers *)

(** the address the command of buffer [b] gives *)
Definition buf_addr (w : adm) (b : Z) : Z := u32 (default 0 (zlookup (phys_buf w) b)).
(** the command of the buffer [j] places after the one the reader is at *)
Definition command (w : adm) (j : Z) : Z * Z :=
  let b := place (received_buf w) j in (b, buf_addr w b).

(** the tables are there, and have an entry for each buffer *)
Record adm_ready (w : adm) : Prop := {
  ar_fmem : fmem w <> 0;
  ar_blen : Z.of_nat (length (blen w)) = BUF_NUM;
  ar_bready : Z.of_nat (length (bready w)) = BUF_NUM;
  ar_phys : Z.of_nat (length (phys_buf w)) = BUF_NUM
}.

(** the buffers the DataMover failed to fill *)
Definition lost (w : adm) : list Z := failed (fmem w) (adm_trace w).

(** The commands of the first [k] buffers from the one the reader is at are
    answered: these buffers are ready or lost; the commands of the others, in
    order, are in the DataMover. *)
Record flow (k : Z) (w : adm) : Prop := {
  fl_ready : adm_ready w;
  fl_count : 0 <= k <= BUF_NUM;
  fl_pos : 0 <= received_buf w < BUF_NUM;
  fl_exp : exp_buf w = place (received_buf w) (k - Z.of_nat (length (lost w)));
  fl_flags : forall j, 0 <= j < BUF_NUM ->
    zlookup (bready w) (place (received_buf w) j)
    = Some (b2z ((j <? k) && bool_decide (place (received_buf w) j ∉ lost w)));
  fl_out : outstanding (fmem w) (adm_trace w) = command w <$> seqZ k (BUF_NUM - k);
  fl_lost : forall b, b ∈ lost w -> exists j, 0 <= j < k /\ b = place (received_buf w) j
}.

(** a step of the history that neither answers nor gives a command *)
Lemma flow_log k w e :
  flow k w -> outstanding (fmem w) (e :: adm_trace w) = outstanding (fmem w) (adm_trace w) ->
  failed (fmem w) (e :: adm_trace w) = failed (fmem w) (adm_trace w) -> flow k (log e w).
Proof.
  intros [[R1 R2 R3 R4] H2 H3 H4 H5 H6 H7] Ho Hl.
  assert (lost (log e w) = lost w) as El by exact Hl.
  split; [split; assumption|exact H2|exact H3|rewrite El; exact H4|rewrite El; exact H5|
    exact (eq_trans Ho H6)|rewrite El; exact H7].
Qed.

Lemma flow_event k w e :
  flow k w -> ev_fn e <> iowrite32 -> ev_fn e <> ioread32 -> flow k (log e w).
Proof. intros H Hw Hr. apply flow_log; [exact H|apply outstanding_other|apply failed_other]; assumption. Qed.

(** reads but those of the status register take nothing away *)
Lemma flow_read k w ofs r :
  flow k w -> (ofs =? AF_RDFD) = false -> flow k (log (Call ioread32 [fmem w + ofs] r) w).
Proof. intros H Ho. apply flow_log; [exact H|rewrite outstanding_read|rewrite failed_read]; rewrite Ho; reflexivity. Qed.

(** nor do writes of the interrupt registers *)
Lemma flow_write k w ofs v r :
  flow k w -> (ofs =? AF_TLR) = false -> (ofs =? AF_STR_RESET) = false ->
  flow k (log (Call iowrite32 [fmem w + ofs; v] r) w).
Proof.
  intros H Ho Ho'. apply flow_log; [exact H|rewrite outstanding_write|rewrite failed_write]; rewrite Ho, Ho'; reflexivity.
Qed.

Lemma flow_oldest k w :
  flow k w -> k < BUF_NUM ->
  outstanding (fmem w) (adm_trace w) = command w k :: (command w <$> seqZ (k + 1) (BUF_NUM - (k + 1))).
Proof. intros H Hk. pose proof (fl_count _ _ H). rewrite (fl_out _ _ H), (seqZ_cons k) by lia. simpl. do 3 f_equal; lia. Qed.

(** the buffer whose command is answered next is not lost yet *)
Lemma flow_not_lost k w : flow k w -> k < BUF_NUM -> place (received_buf w) k ∉ lost w.
Proof.
  intros H Hk Hin. destruct (fl_lost _ _ H _ Hin) as (j & Hj & E). pose proof (fl_count _ _ H).
  apply place_inj in E; lia.
Qed.

(** a buffer is given to the reader *)
Lemma flow_take k w r len :
  flow k w -> k < BUF_NUM -> Z.testbit (nth 0 r 0) 7 = true ->
  flow (k + 1) ((log (Call ioread32 [fmem w + AF_RDFD] r) w)
    <| blen ::= zinsert (place (received_buf w) k) len |>
    <| bready ::= zinsert (place (received_buf w) k) 1 |> <| exp_buf ::= next_buf |>).
Proof.
  intros H Hk Hr. pose proof (flow_not_lost _ _ H Hk) as Hnl. pose proof (flow_oldest _ _ H Hk) as Hold.
  destruct H as [[R1 R2 R3 R4] H2 H3 H4 H5 H6 H7]. match goal with |- flow _ ?t => set (w' := t) end.
  assert (lost w' = lost w) as El.
  { unfold lost. change (failed (fmem w) (Call ioread32 [fmem w + AF_RDFD] r :: adm_trace w) = failed (fmem w) (adm_trace w)).
    rewrite failed_read, Hr, andb_false_r. reflexivity. }
  split; [split; [exact R1|exact (zinsert_len _ _ _ _ R2)|exact (zinsert_len _ _ _ _ R3)|exact R4]
    |lia|exact H3| | | |].
  - rewrite El. change (next_buf (exp_buf w) = place (received_buf w) (k + 1 - Z.of_nat (length (lost w)))).
    rewrite H4, place_next. f_equal. lia.
  - intros j Hj. rewrite El. change (zlookup (zinsert (place (received_buf w) k) 1 (bready w))
      (place (received_buf w) j) = Some (b2z ((j <? k + 1) && bool_decide (place (received_buf w) j ∉ lost w)))).
    rewrite (zlookup_zinsert _ BUF_NUM) by (exact R3 || apply place_range).
    case_decide as E.
    + apply place_inj in E; [|lia..]. subst j. rewrite (proj2 (Z.ltb_lt k (k + 1))), bool_decide_true by (lia || exact Hnl).
      reflexivity.
    + rewrite H5 by exact Hj. do 3 f_equal. destruct (Z.eq_dec j k) as [->|]; [congruence|].
      destruct (Z.ltb_spec j k), (Z.ltb_spec j (k + 1)); lia || reflexivity.
  - change (outstanding (fmem w) (Call ioread32 [fmem w + AF_RDFD] r :: adm_trace w)
      = command w <$> seqZ (k + 1) (BUF_NUM - (k + 1))).
    rewrite outstanding_read, Z.eqb_refl, Hold. reflexivity.
  - rewrite El. intros b Hb. destruct (H7 b Hb) as (j & Hj & E). exists j. split; [lia|exact E].
Qed.

(** a buffer is lost *)
Lemma flow_fail k w r :
  flow k w -> k < BUF_NUM -> Z.testbit (nth 0 r 0) 7 = false ->
  let w' := log (Call ioread32 [fmem w + AF_RDFD] r) w in
  flow (k + 1) w' /\ lost w' = place (received_buf w) k :: lost w.
Proof.
  intros H Hk Hr w'. pose proof (flow_not_lost _ _ H Hk) as Hnl. pose proof (flow_oldest _ _ H Hk) as Hold.
  destruct H as [[R1 R2 R3 R4] H2 H3 H4 H5 H6 H7].
  assert (lost w' = place (received_buf w) k :: lost w) as El.
  { unfold lost. change (failed (fmem w) (Call ioread32 [fmem w + AF_RDFD] r :: adm_trace w)
      = place (received_buf w) k :: failed (fmem w) (adm_trace w)).
    rewrite failed_read, Hr, Hold. reflexivity. }
  split; [|exact El]. split; [split; assumption|lia|exact H3| | | |]; rewrite ?El.
  - change (exp_buf w = place (received_buf w) (k + 1 - Z.of_nat (length (place (received_buf w) k :: lost w)))).
    rewrite H4. f_equal. cbn [length]. lia.
  - intros j Hj. change (zlookup (bready w) (place (received_buf w) j)
      = Some (b2z ((j <? k + 1) && bool_decide (place (received_buf w) j ∉ place (received_buf w) k :: lost w)))).
    rewrite H5 by exact Hj. do 2 f_equal. destruct (Z.eq_dec j k) as [->|Hne].
    + rewrite Z.ltb_irrefl, (bool_decide_false (_ ∉ _ :: _)) by (intros Hx; apply Hx, list_elem_of_here).
      rewrite andb_false_r. reflexivity.
    + destruct (Z.ltb_spec j k), (Z.ltb_spec j (k + 1)); try lia. apply bool_decide_ext.
      rewrite not_elem_of_cons. split; [|tauto]. intros Hn. split; [|exact Hn]. intros E. apply place_inj in E; lia.
  - change (outstanding (fmem w) (Call ioread32 [fmem w + AF_RDFD] r :: adm_trace w)
      = command w <$> seqZ (k + 1) (BUF_NUM - (k + 1))).
    rewrite outstanding_read, Z.eqb_refl, Hold. reflexivity.
  - intros b [->|Hb]%elem_of_cons; [exists k; split; [lia|reflexivity]|].
    destruct (H7 b Hb) as (j & Hj & E). exists j. split; [lia|exact E].
Qed.

(** ** The interrupt *)
Section Mover.
Context (f : Z) {mover : DataMover f}.

Definition at_f (k : Z) (w : adm) : Prop := flow k w /\ fmem w = f.

Lemma occupancy_range k w :
  at_f k w -> let n := nth 0 (answer (adm_trace w) ioread32 [f + AF_RDFO]) 0 in
  0 <= n <= BUF_NUM - k /\ s32 (u32 n) = n.
Proof.
  intros [H Hf]. cbv zeta. destruct hok as [HN _]. pose proof (dm_occupancy (f := f) (adm_trace w)) as Ho.
  pose proof (fl_out _ _ H) as Eo. rewrite Hf in Eo. rewrite Eo, length_fmap, length_seqZ in Ho.
  pose proof (fl_count _ _ H). set (n := nth 0 _ _) in *. rewrite Z2Nat.id in Ho by lia.
  split; [exact Ho|]. rewrite u32_id by (unfold is_u32; lia). apply s32_id. lia.
Qed.

(** what ends the handler's loop: the status FIFO is empty; the packet has not
    the length of a status, and is left in the FIFO; or a status that is not
    OKAY was taken, and its buffer, [b] if [failure] is [Some b], is lost *)
Inductive left_off : option Z -> history -> Prop :=
| left_empty r h : nth 0 r 0 = 0 -> left_off None (Call ioread32 [f + AF_RDFO] r :: h)
| left_length r h : s32 (u32 (nth 0 r 0)) <> 4 -> left_off None (Call ioread32 [f + AF_RLR] r :: h)
| left_status b r h : Z.testbit (nth 0 r 0) 7 = false -> left_off (Some b) (Call ioread32 [f + AF_RDFD] r :: h).

(** the buffers lost since [w]: at most the last that was answered *)
Definition failure (k : Z) (w : adm) : option Z -> Prop := fun o =>
  match o with None => True | Some b => b = place (received_buf w) (k - 1) end.

(** the loop went on from [w] to [w'], where the first [k] buffers are answered *)
Definition irq_to (k : Z) (o : option Z) (w w' : adm) : Prop :=
  at_f k w' /\ received_buf w' = received_buf w /\ failure k w o /\ lost w' = (option_list o ++ lost w)%list.

Lemma tst1_irq_one_ok k w :
  at_f k w ->
  wp (tst1_irq_one tt) (fun r w' => match r with
    | inl _ => irq_to (k + 1) None w w' /\ k < BUF_NUM
    | inr _ => exists o, irq_to (k + Z.of_nat (length (option_list o))) o w w' /\ left_off o (adm_trace w') end) w.
Proof.
  intros [H Hf]. pose proof (ar_fmem _ (fl_ready _ _ H)) as Hn. unfold tst1_irq_one.
  apply wp_bind, wp_reg; [exact Hn|]. cbv zeta. rewrite Hf.
  destruct (occupancy_range k w (conj H Hf)) as [Ho ->]. set (r1 := answer (adm_trace w) ioread32 [f + AF_RDFO]) in *.
  pose proof (flow_read k w AF_RDFO r1 H eq_refl) as H1. rewrite Hf in H1.
  assert (lost (log (Call ioread32 [f + AF_RDFO] r1) w) = lost w) as L1.
  { unfold lost. cbn [log fmem]. change (fmem (log (Call ioread32 [f + AF_RDFO] r1) w)) with (fmem w). rewrite Hf. apply failed_read. }
  set (w1 := log _ w) in *. destruct (Z.eqb_spec (nth 0 r1 0) 0) as [E|E].
  { apply wp_ret. exists None. cbn [option_list length Z.of_nat app]. rewrite Z.add_0_r.
    split; [split; [split; [exact H1|exact Hf]|split; [reflexivity|split; [exact I|exact L1]]]|].
    apply (left_empty _ _ E). }
  apply wp_bind, wp_reg; [exact Hn|]. cbv zeta. change (fmem w1) with (fmem w). rewrite Hf.
  set (r2 := answer (adm_trace w1) ioread32 [f + AF_RLR]).
  pose proof (flow_read k w1 AF_RLR r2 H1 eq_refl) as H2.
  change (fmem w1) with (fmem w) in H2. rewrite Hf in H2.
  assert (lost (log (Call ioread32 [f + AF_RLR] r2) w1) = lost w) as L2.
  { rewrite <- L1. unfold lost. change (fmem (log (Call ioread32 [f + AF_RLR] r2) w1)) with (fmem w). rewrite Hf.
    change (fmem w1) with (fmem w). rewrite Hf. apply failed_read. }
  set (w2 := log _ w1) in *. destruct (Z.eqb_spec (s32 (u32 (nth 0 r2 0))) 4) as [El|El]; cbn [negb].
  2:{ apply wp_ret. exists None. cbn [option_list length Z.of_nat app]. rewrite Z.add_0_r.
    split; [split; [split; [exact H2|exact Hf]|split; [reflexivity|split; [exact I|exact L2]]]|].
    apply (left_length _ _ El). }
  apply wp_bind, wp_reg; [exact Hn|]. cbv zeta. change (fmem w2) with (fmem w). rewrite Hf.
  assert (k < BUF_NUM) as Hk.
  { pose proof (fl_count _ _ H). destruct (Z.eq_dec k BUF_NUM); [|lia]. subst k. lia. }
  pose proof (flow_oldest _ _ H Hk) as Eo. rewrite Hf in Eo.
  destruct (dm_status (f := f) (adm_trace w) r1 r2 _ _ _ E El Eo) as (errs & okay & len & eop & Herr & Hok & Hlen & Heop & Es).
  change (Call ioread32 [f + AF_RLR] r2 :: Call ioread32 [f + AF_RDFO] r1 :: adm_trace w) with (adm_trace w2) in Es.
  set (r3 := answer (adm_trace w2) ioread32 [f + AF_RDFD]) in *.
  change (nth 0 r3 0 = status_word (place (received_buf w) k) errs okay len eop) in Es.
  pose proof (place_range (received_buf w) k) as Hp. destruct hok as [HN _].
  set (b := place (received_buf w) k) in *.
  pose proof (status_okay b errs okay len eop ltac:(lia) Herr Hok) as Hbit. rewrite <- Es in Hbit.
  rewrite u32_id by (unfold is_u32; rewrite Es; unfold status_word; lia).
  rewrite !s32_land by (compute; split; congruence). rewrite land_bit7, Hbit.
  destruct (okay =? 1) eqn:Eok; cbn [negb].
  2:{ apply wp_ret. exists (Some b). pose proof (flow_fail k w2 r3 H2 Hk Hbit) as [H3 L3].
    change (fmem w2) with (fmem w) in H3, L3. rewrite Hf in H3, L3. change (received_buf w2) with (received_buf w) in L3.
    rewrite L2 in L3. cbn [option_list length Z.of_nat Pos.of_succ_nat app].
    split; [split; [split; [exact H3|exact Hf]|split; [reflexivity|split; [|exact L3]]]|exact (left_status _ _ _ Hbit)].
    change (b = place (received_buf w) (k + 1 - 1)). rewrite Z.add_simpl_r. reflexivity. }
  rewrite Es, status_tag, status_len by lia. destruct (fl_ready _ _ H) as [R1 R2 R3 R4].
  apply wp_bind, wp_set_item; [change (blen (log _ w2)) with (blen w); lia|].
  apply wp_bind, wp_set_item; [change (0 <= b < Z.of_nat (length (bready w))); lia|].
  apply wp_bind, wp_modify, wp_ret. split; [|exact Hk].
  pose proof (flow_take k w2 r3 len H2 Hk Hbit) as H3.
  change (fmem w2) with (fmem w) in H3. rewrite Hf in H3.
  split; [split; [exact H3|exact Hf]|]. split; [reflexivity|]. split; [exact I|]. rewrite <- L2. cbn [option_list app].
  unfold lost. match goal with |- failed _ (adm_trace ?t) = _ =>
    change (failed (fmem w) (Call ioread32 [f + AF_RDFD] r3 :: adm_trace w2) = failed (fmem w) (adm_trace w2)) end.
  rewrite Hf, failed_read, Hbit, andb_false_r. reflexivity.
Qed.

(** the handler did what [irq_to] says and woke the readers up *)
Definition handled (o : option Z) (h : history) : Prop :=
  exists h', h = Call wake_up_interruptible [] [] :: h' /\ left_off o h'.

(** what the handler does from [k] answered buffers on, when it ends *)
Definition irq_done (k rc : Z) (w w' : adm) : Prop :=
  exists k' o, k <= k' /\ irq_to k' o w w' /\
    ((rc = IRQ_NONE /\ k' = k /\ o = None) \/ (rc = IRQ_HANDLED /\ handled o (adm_trace w'))).

Lemma irq_to_trans k1 k2 o w1 w2 w3 : irq_to k1 None w1 w2 -> irq_to k2 o w2 w3 -> irq_to k2 o w1 w3.
Proof.
  intros (_ & R1 & _ & L1) (H & R2 & F & L2). split; [exact H|]. split; [congruence|].
  split; [|rewrite L2, L1; reflexivity]. destruct o; [|exact I]. unfold failure in *. rewrite <- R1. exact F.
Qed.

Lemma irq_loop_ok fuel : forall k w,
  at_f k w -> (Z.to_nat (BUF_NUM - k) < fuel)%nat ->
  wp (loop fuel tst1_irq_one tt) (fun _ w' => exists k' o, k <= k' /\ irq_to k' o w w' /\ left_off o (adm_trace w')) w.
Proof.
  induction fuel as [|n IH]; intros k w H Hn; [lia|]. rewrite loop_S. apply wp_bind.
  pose proof (fl_count _ _ (proj1 H)) as Hk.
  eapply wp_conseq; [apply (tst1_irq_one_ok k), H|]. intros [[]|[]] w' H'; cbv beta in H'.
  - destruct H' as [H' Hlt]. eapply wp_conseq; [apply (IH (k + 1)); [apply H'|lia]|].
    intros _ w2 (k' & o & Hk' & Hd & Hl). exists k', o. split; [lia|]. split; [|exact Hl].
    exact (irq_to_trans _ _ _ _ _ _ H' Hd).
  - destruct H' as (o & H' & Hl). apply wp_ret. exists (k + Z.of_nat (length (option_list o))), o.
    split; [lia|split; assumption].
Qed.

Lemma irq_to_start k w : at_f k w -> irq_to k None w w.
Proof. intros H. split; [exact H|]. split; [reflexivity|]. split; [exact I|reflexivity]. Qed.

(** a call of the handler besides the statuses *)
Lemma irq_to_log k o w w' e :
  irq_to k o w w' -> outstanding f (e :: adm_trace w') = outstanding f (adm_trace w') ->
  failed f (e :: adm_trace w') = failed f (adm_trace w') -> irq_to k o w (log e w').
Proof.
  intros ([H Hf] & R & F & L) Ho Hl. split; [split; [apply flow_log; [exact H|rewrite Hf; assumption..]|exact Hf]|].
  split; [exact R|]. split; [exact F|]. rewrite <- L. unfold lost. change (fmem (log e w')) with (fmem w'). rewrite Hf. exact Hl.
Qed.

Lemma tst1_irq_ok fuel k w :
  at_f k w -> (Z.to_nat (BUF_NUM - k) < fuel)%nat ->
  wp (tst1_irq fuel) (fun rc w' => irq_done k rc w w') w.
Proof.
  intros H Hn. pose proof (ar_fmem _ (fl_ready _ _ (proj1 H))) as Hz. pose proof (proj2 H) as Hf. unfold tst1_irq.
  apply wp_bind, wp_reg; [exact Hz|]. cbv zeta. rewrite Hf. set (r := answer _ _ _).
  pose proof (irq_to_log k None w w (Call ioread32 [f + AF_ISR] r) (irq_to_start _ _ H)
    (outstanding_read f AF_ISR r _) (failed_read f AF_ISR r _)) as H1. set (w1 := log _ w) in *.
  destruct (nz _).
  - apply wp_bind, wp_set_reg; [exact Hz|]. apply wp_bind, wp_ext_, wp_bind.
    change (fmem w1) with (fmem w). rewrite Hf.
    apply (irq_to_log _ _ _ _ (Call iowrite32 [f + AF_ISR; 0xffffffff] [])) in H1;
      [|exact (outstanding_write f AF_ISR _ _ _)|exact (failed_write f AF_ISR _ _ _)].
    apply (irq_to_log _ _ _ _ (Call mb [] [])) in H1; [|reflexivity..].
    eapply wp_conseq; [apply (irq_loop_ok fuel k); [apply H1|exact Hn]|].
    intros _ w2 (k' & o & Hk & H2 & Hl). apply wp_bind, wp_ext_, wp_ret.
    exists k', o. split; [exact Hk|]. split; [|right; split; [reflexivity|]; eexists; split; [reflexivity|exact Hl]].
    apply irq_to_log; [|reflexivity..]. exact (irq_to_trans _ _ _ _ _ _ H1 H2).
  - apply wp_ret. exists k, None. split; [lia|]. split; [exact H1|left; auto].
Qed.

(** ** The ioctls *)

(** a command is handed over *)
Lemma transfer_buf_ok i p w :
  fmem w = f -> zlookup (phys_buf w) i = Some p ->
  wp (transfer_buf i) (fun _ w' => exists h, w' = w <| adm_trace := h |> /\
    outstanding f h = (outstanding f (adm_trace w) ++ [(u32 i, u32 p)])%list /\
    failed f h = filter (fun b => b <> u32 i) (failed f (adm_trace w))) w.
Proof.
  intros Hf Hp. pose proof dm_mapped as Hz. rewrite <- Hf in Hz. unfold transfer_buf.
  repeat first [ apply wp_bind, wp_set_reg; [exact Hz|] | apply wp_bind, wp_ext_
    | apply wp_bind; eapply wp_item; [exact Hp|] ]. apply wp_ext_.
  match goal with |- exists h, ?s = _ /\ _ => exists (adm_trace s) end.
  split; [reflexivity|]. cbn -[outstanding failed AF_TDFD AF_TLR command_word]. rewrite Hf.
  rewrite failed_other by discriminate. rewrite failed_write, Z.eqb_refl.
  rewrite outstanding_other by discriminate. rewrite outstanding_write, Z.eqb_refl.
  rewrite fifo_words_other by discriminate. rewrite fifo_words_write, Z.eqb_refl.
  rewrite fifo_words_other by discriminate. rewrite fifo_words_write, Z.eqb_refl.
  split; [f_equal|f_equal; repeat (rewrite failed_other by discriminate; rewrite failed_write; cbv iota);
    change (AF_TDFD =? AF_TLR) with false; change (AF_TDFD =? AF_STR_RESET) with false; reflexivity].
  rewrite outstanding_other by discriminate. rewrite outstanding_write.
  rewrite outstanding_other by discriminate. rewrite outstanding_write.
  rewrite outstanding_other by discriminate. rewrite outstanding_write. reflexivity.
Qed.

(** the reader is done with its buffer *)
Lemma flow_give k w h p :
  flow k w -> 0 < k -> received_buf w ∉ lost w -> zlookup (phys_buf w) (received_buf w) = Some p ->
  outstanding (fmem w) h
    = (outstanding (fmem w) (adm_trace w) ++ [(u32 (received_buf w), u32 p)])%list ->
  failed (fmem w) h = lost w ->
  flow (k - 1) (w <| blen ::= zinsert (received_buf w) 0 |> <| bready ::= zinsert (received_buf w) 0 |>
    <| adm_trace := h |> <| received_buf ::= next_buf |>).
Proof.
  intros [[R1 R2 R3 R4] H2 H3 H4 H5 H6 H7] Hk Hnl Hp Hh Hl. destruct hok as [HN _].
  assert (0 <= next_buf (received_buf w) < BUF_NUM) as Hnext.
  { rewrite <- (place_0 (received_buf w)), place_next by exact H3. apply place_range. }
  set (w' := _ <| received_buf ::= next_buf |>). assert (lost w' = lost w) as El by exact Hl.
  split; [split; [exact R1|exact (zinsert_len _ _ _ _ R2)|exact (zinsert_len _ _ _ _ R3)|exact R4]
    |lia|exact Hnext| | | |]; rewrite ?El.
  - change (exp_buf w = place (next_buf (received_buf w)) (k - 1 - Z.of_nat (length (lost w)))).
    rewrite place_shift, H4. f_equal. lia.
  - intros j Hj. change (zlookup (zinsert (received_buf w) 0 (bready w)) (place (next_buf (received_buf w)) j)
      = Some (b2z ((j <? k - 1) && bool_decide (place (next_buf (received_buf w)) j ∉ lost w)))).
    rewrite place_shift, (zlookup_zinsert _ BUF_NUM) by (exact R3 || exact H3).
    assert (place (received_buf w) (j + 1) = received_buf w <-> j = BUF_NUM - 1) as E.
    { rewrite <- (place_0 (received_buf w)) at 2 by exact H3. split.
      - intros E. destruct (Z.eq_dec (j + 1) BUF_NUM); [lia|]. apply place_inj in E; lia.
      - intros ->. unfold place. replace (received_buf w + (BUF_NUM - 1 + 1))
          with (received_buf w + 0 + 1 * BUF_NUM) by lia. rewrite Z.mod_add by lia. reflexivity. }
    case_decide as Ed.
    + apply E in Ed. subst j. destruct (Z.ltb_spec (BUF_NUM - 1) (k - 1)); [lia|reflexivity].
    + assert (j <> BUF_NUM - 1) by tauto. rewrite H5 by lia. do 3 f_equal.
      destruct (Z.ltb_spec (j + 1) k), (Z.ltb_spec j (k - 1)); lia || reflexivity.
  - change (outstanding (fmem w) h = command w' <$> seqZ (k - 1) (BUF_NUM - (k - 1))).
    rewrite Hh, H6. replace (BUF_NUM - (k - 1)) with (BUF_NUM - k + 1) by lia.
    rewrite seqZ_app, fmap_app by lia. f_equal.
    + apply list_eq. intros i. rewrite !list_lookup_fmap.
      destruct (decide (Z.of_nat i < BUF_NUM - k)).
      * rewrite !lookup_seqZ_lt by lia. simpl. f_equal. unfold command.
        change (received_buf w') with (next_buf (received_buf w)). rewrite place_shift.
        replace (k - 1 + Z.of_nat i + 1) with (k + Z.of_nat i) by lia. reflexivity.
      * rewrite !lookup_seqZ_ge by lia. reflexivity.
    + rewrite (seqZ_cons _ 1), seqZ_nil by lia. simpl. unfold command. change (received_buf w') with (next_buf (received_buf w)).
      rewrite place_shift. replace (k - 1 + (BUF_NUM - k) + 1) with (0 + 1 * BUF_NUM) by lia.
      assert (place (received_buf w) (0 + 1 * BUF_NUM) = received_buf w) as E.
      { unfold place. rewrite Z.add_assoc, Z.mod_add, Z.add_0_r by lia. apply Z.mod_small, H3. }
      rewrite E. unfold buf_addr. change (phys_buf w') with (phys_buf w). rewrite Hp.
      rewrite u32_id by (unfold is_u32; lia). reflexivity.
  - intros b Hb. destruct (H7 b Hb) as (j & Hj & ->). exists (j - 1).
    change (received_buf w') with (next_buf (received_buf w)). rewrite place_shift, Z.sub_add. split; [|reflexivity].
    destruct (Z.eq_dec j 0) as [->|]; [|lia]. rewrite place_0 in Hb by exact H3. contradiction.
Qed.

(** the buffer the reader is at can be taken *)
Definition takes (k : Z) (w : adm) : bool := (0 <? k) && bool_decide (received_buf w ∉ lost w).

Lemma flow_taken k w : flow k w -> zlookup (bready w) (received_buf w) = Some (b2z (takes k w)).
Proof.
  intros H. destruct hok as [HN _]. pose proof (fl_flags _ _ H 0 ltac:(lia)) as Hb.
  rewrite place_0 in Hb by apply (fl_pos _ _ H). exact Hb.
Qed.

(** a confirmation gives the reader's buffer back to the DataMover as the last
    in its queue and moves on to the next; without a ready buffer it is refused
    and changes nothing *)
Lemma adm_confirm_gives_back k w :
  at_f k w ->
  wp adm_confirm (fun rc w' =>
    if takes k w then rc = SUCCESS /\ at_f (k - 1) w' /\ received_buf w' = next_buf (received_buf w)
    else rc = - EINVAL /\ w' = w) w.
Proof.
  intros [H Hf]. pose proof (fl_pos _ _ H) as Hr. unfold adm_confirm. apply wp_bind, wp_gets, wp_bind.
  destruct hok as [HN _]. pose proof (flow_taken _ _ H) as Hb.
  eapply wp_item; [exact Hb|]. destruct (takes k w) eqn:Ek; [|apply wp_ret; split; reflexivity].
  apply andb_prop in Ek as [Ek%Z.ltb_lt Hnl%bool_decide_eq_true].
  change (b2z true =? 0) with false. cbv iota. destruct (fl_ready _ _ H) as [R1 R2 R3 R4].
  destruct (zlookup_is_Some (phys_buf w) (received_buf w) ltac:(lia)) as [p Hp].
  apply wp_bind, wp_set_item; [lia|].
  apply wp_bind, wp_set_item; [change (0 <= received_buf w < Z.of_nat (length (bready w))); lia|].
  apply wp_bind. eapply wp_conseq; [apply (transfer_buf_ok _ p); [exact Hf|exact Hp]|].
  intros [] w' (h & -> & Hh & Hl). apply wp_bind, wp_modify, wp_ret.
  split; [reflexivity|]. split; [|reflexivity]. split; [|exact Hf].
  apply (flow_give k w h p); [exact H|exact Ek|exact Hnl|exact Hp|rewrite Hf; exact Hh|].
  rewrite Hf, Hl, u32_id by (unfold is_u32; lia). unfold lost in *. rewrite Hf in Hnl |- *.
  apply filter_ne, Hnl.
Qed.

(** with a buffer ready, a reader is told which and how long, and nothing
    changes *)
Lemma adm_get_ready k w :
  at_f k w -> takes k w = true -> wp adm_get (fun rc w' => w' = w /\ exists len,
    zlookup (blen w) (received_buf w) = Some len /\
    rc = s32 (Z.lor (Z.shiftl (received_buf w) 24) len)) w.
Proof.
  intros [H Hf] Hk. pose proof (fl_pos _ _ H) as Hr. destruct (fl_ready _ _ H) as [R1 R2 R3 R4].
  destruct (zlookup_is_Some (blen w) (received_buf w) ltac:(lia)) as [len Hl].
  pose proof (flow_taken _ _ H) as Hb. rewrite Hk in Hb. unfold adm_get, wait_ready, buffer_ready.
  do 3 apply wp_bind. apply wp_gets, wp_bind. eapply wp_item; [exact Hb|]. apply wp_ret, wp_ret.
  change (nz 0) with false. apply wp_bind, wp_gets, wp_bind. eapply wp_item; [exact Hl|].
  apply wp_ret. split; [reflexivity|]. exists len. split; [exact Hl|reflexivity].
Qed.

(** ** Starting *)

Lemma start_flags w :
  adm_ready w ->
  wp (for_ 0 BUF_NUM (fun i => set_bready_at i 0)) (fun _ w' => exists l, w' = w <| bready := l |> /\
    Z.of_nat (length l) = BUF_NUM /\ forall j, 0 <= j < BUF_NUM -> zlookup l j = Some 0) w.
Proof.
  intros [R1 R2 R3 R4]. destruct hok as [HN _].
  apply (wp_for (fun i w' => exists l, w' = w <| bready := l |> /\ Z.of_nat (length l) = BUF_NUM /\
    forall j, 0 <= j < i -> zlookup l j = Some 0)); [lia| | |auto].
  - exists (bready w). split; [destruct w; reflexivity|]. split; [exact R3|lia].
  - intros i w' Hi (l & -> & Hl & Hz). apply wp_set_item; [change (0 <= i < Z.of_nat (length l)); lia|].
    exists (zinsert i 0 l). split; [reflexivity|]. split; [apply zinsert_len, Hl|]. intros j Hj.
    rewrite (zlookup_zinsert _ BUF_NUM) by (exact Hl || lia). case_decide; [reflexivity|]. apply Hz. lia.
Qed.

Lemma start_commands w :
  adm_ready w -> fmem w = f -> received_buf w = 0 -> outstanding f (adm_trace w) = [] ->
  failed f (adm_trace w) = [] ->
  wp (for_ 0 BUF_NUM transfer_buf) (fun _ w' => exists h, w' = w <| adm_trace := h |> /\
    outstanding f h = command w <$> seqZ 0 BUF_NUM /\ failed f h = []) w.
Proof.
  intros [R1 R2 R3 R4] Hf Hr Ho Hl. destruct hok as [HN _].
  apply (wp_for (fun i w' => exists h, w' = w <| adm_trace := h |> /\
    outstanding f h = command w <$> seqZ 0 i /\ failed f h = [])); [lia| | |auto].
  - exists (adm_trace w). split; [destruct w; reflexivity|split; [exact Ho|exact Hl]].
  - intros i w' Hi (h & -> & Hh & Hlh).
    destruct (zlookup_is_Some (phys_buf w) i ltac:(lia)) as [p Hp].
    eapply wp_conseq; [apply (transfer_buf_ok i p); [exact Hf|exact Hp]|].
    intros [] w' (h' & -> & Hh' & Hl'). exists h'. split; [reflexivity|].
    change (adm_trace (w <| adm_trace := h |>)) with h in Hh', Hl'.
    split; [|rewrite Hl', Hlh; reflexivity]. rewrite Hh', Hh.
    rewrite (seqZ_app 0 i 1), fmap_app by lia. f_equal. rewrite Z.add_0_l, (seqZ_cons i 1), seqZ_nil by lia.
    simpl. unfold command, buf_addr, place. rewrite Hr, Z.add_0_l, Z.mod_small, Hp by lia.
    rewrite u32_id by (unfold is_u32; lia). reflexivity.
Qed.

Lemma adm_start_ok w :
  adm_ready w -> fmem w = f -> outstanding f (adm_trace w) = [] -> failed f (adm_trace w) = [] ->
  wp adm_start (fun rc w' =>
    if nz (is_started w) then rc = - EINVAL /\ w' = w
    else rc = SUCCESS /\ is_started w' = 1 /\ at_f 0 w' /\
      received_buf w' = 0 /\ phys_buf w' = phys_buf w) w.
Proof.
  intros H Hf Ho Hfl. destruct hok as [HN _]. unfold adm_start. apply wp_bind, wp_gets.
  destruct (nz (is_started w)); [apply wp_ret; split; reflexivity|].
  apply wp_bind, wp_modify, wp_bind. eapply wp_conseq; [apply start_flags|].
  { destruct H. split; assumption. }
  intros [] w1 (l & -> & Hl & Hz). apply wp_bind. set (w1 := _ <| bready := l |>).
  assert (adm_ready w1) as H1 by (destruct H; split; assumption).
  eapply wp_conseq; [apply start_commands; [exact H1|exact Hf|reflexivity|exact Ho|exact Hfl]|].
  intros [] w2 (h & -> & Hh & Hlh). set (w2 := w1 <| adm_trace := h |>).
  assert (flow 0 w2) as H2.
  { assert (lost w2 = []) as El by (unfold lost; change (fmem w2) with (fmem w); rewrite Hf; exact Hlh).
    split; [destruct H1; split; assumption|lia|change (0 <= 0 < BUF_NUM); lia| | | |]; rewrite ?El.
    - change (0 = place 0 0). symmetry. apply place_0. lia.
    - intros j Hj. change (zlookup l (place 0 j) = Some (b2z ((j <? 0) && true))).
      rewrite Hz by apply place_range. destruct (Z.ltb_spec j 0); [lia|reflexivity].
    - rewrite Z.sub_0_r. change (fmem w2) with (fmem w). rewrite Hf. exact Hh.
    - intros b Hb. inversion Hb. }
  apply wp_bind, wp_set_reg; [apply H1|]. apply wp_bind, wp_ext_, wp_bind, wp_ext, wp_bind, wp_modify, wp_ret.
  split; [reflexivity|]. split; [reflexivity|]. split; [|split; reflexivity]. split; [|exact Hf].
  set (w3 := log _ w2). assert (flow 0 w3) as H3 by (apply flow_write; [exact H2|reflexivity..]).
  set (w4 := log _ (log _ w3)). assert (flow 0 w4) as H4.
  { apply flow_event; [apply flow_event; [exact H3|discriminate..]|discriminate..]. }
  destruct H4 as [[? ? ? ?] ? ? ? ? ? ?]. split; [split|..]; assumption.
Qed.

(** Starting hands every buffer to the DataMover, in order, each at its
    address, and makes none ready; when started already it is refused and
    changes nothing. *)
Theorem adm_start_submits_all w :
  adm_ready w -> fmem w = f -> outstanding f (adm_trace w) = [] -> failed f (adm_trace w) = [] ->
  wp adm_start (fun rc w' =>
    if nz (is_started w) then rc = - EINVAL /\ w' = w
    else rc = SUCCESS /\ is_started w' = 1 /\
      outstanding f (adm_trace w') = (fun b => (b, buf_addr w b)) <$> seqZ 0 BUF_NUM /\
      forall b, 0 <= b < BUF_NUM -> zlookup (bready w') b = Some 0) w.
Proof.
  intros H Hf Ho Hl. eapply wp_conseq; [apply adm_start_ok; assumption|]. intros rc w'.
  destruct (nz (is_started w)); [exact id|]. intros (-> & Hs & [H' Hf'] & Hr & Hp).
  split; [reflexivity|]. split; [exact Hs|].
  assert (forall b, 0 <= b < BUF_NUM -> place (received_buf w') b = b) as Hb.
  { intros b Hb. rewrite Hr. apply Z.mod_small, Hb. }
  split.
  - rewrite <- Hf', (fl_out _ _ H'), Z.sub_0_r. apply list_fmap_ext. intros i b Hi.
    apply lookup_seqZ in Hi as [-> Hi]. unfold command, buf_addr. rewrite Hb, Hp by lia. reflexivity.
  - intros b Hb'. rewrite <- (Hb b) by exact Hb'. rewrite (fl_flags _ _ H') by exact Hb'.
    destruct (Z.ltb_spec b 0); [lia|reflexivity].
Qed.

(** C28: The interrupt handler ends.  It takes the statuses in the order of the
    commands: the buffers they name become ready, and [k'] are answered in the
    end; only the last of them can be lost.  It leaves off when the FIFO is
    empty, at a packet that has not the length of a status, which it leaves in
    the FIFO, or after a status that is not OKAY, which loses its buffer. *)
Theorem tst1_irq_drains fuel k w :
  at_f k w -> (Z.to_nat (BUF_NUM - k) < fuel)%nat ->
  wp (tst1_irq fuel) (fun rc w' => exists k' o, k <= k' <= BUF_NUM /\ at_f k' w' /\
    received_buf w' = received_buf w /\
    match o with
    | None => lost w' = lost w
    | Some b => b = place (received_buf w) (k' - 1) /\ lost w' = b :: lost w
    end /\
    ((rc = IRQ_NONE /\ k' = k /\ o = None) \/ (rc = IRQ_HANDLED /\ handled o (adm_trace w')))) w.
Proof.
  intros H Hn. eapply wp_conseq; [apply tst1_irq_ok; eassumption|].
  intros rc w' (k' & o & Hk & (H' & Hr & Hfl & Hl) & Hrc). exists k', o. pose proof (fl_count _ _ (proj1 H')).
  split; [lia|]. split; [exact H'|]. split; [exact Hr|]. split; [|exact Hrc].
  destruct o; [split; assumption|exact Hl].
Qed.

(** ** Every interleaving *)

(** what may run while a reader sleeps: interrupts, other calls, and the
    confirmations of other processes *)
Inductive adm_other : adm -> adm -> Prop :=
| other_irq fuel rc w w' :
    (Z.to_nat BUF_NUM < fuel)%nat -> tst1_irq fuel w = Ok rc w' -> adm_other w w'
| other_confirm rc w w' : tst1_ioctl ADM_CONFIRM w = Ok rc w' -> adm_other w w'
| other_call e w : ev_fn e <> iowrite32 -> ev_fn e <> ioread32 -> adm_other w (log e w).

Inductive adm_step : adm -> adm -> Prop :=
| step_other w w' : adm_other w w' -> adm_step w w'
| step_get rc w w' :
    rtc adm_other w (adm_asleep w) -> tst1_ioctl ADM_GET w = Ok rc w' -> adm_step w w'.

Lemma ioctl_confirm : tst1_ioctl ADM_CONFIRM = adm_confirm.
Proof.
  destruct hok as [_ H]. rewrite !NoDup_cons, !elem_of_cons in H. unfold tst1_ioctl.
  repeat (rewrite (proj2 (Z.eqb_neq _ _)) by (intros E; rewrite E in H; tauto)).
  rewrite Z.eqb_refl. reflexivity.
Qed.

Lemma ioctl_get : tst1_ioctl ADM_GET = adm_get.
Proof.
  destruct hok as [_ H]. rewrite !NoDup_cons, !elem_of_cons in H. unfold tst1_ioctl.
  repeat (rewrite (proj2 (Z.eqb_neq _ _)) by (intros E; rewrite E in H; tauto)).
  rewrite Z.eqb_refl. reflexivity.
Qed.

Definition flowing (w : adm) : Prop := exists k, at_f k w.

Lemma other_flows w w' : adm_other w w' -> flowing w -> flowing w'.
Proof.
  intros [fuel rc w1 w2 Hf E|rc w1 w2 E|e w1 H1 H2] [k H].
  - pose proof (fl_count _ _ (proj1 H)).
    assert (wp (tst1_irq fuel) (fun rc w' => irq_done k rc w1 w') w1) as Hw
      by (apply tst1_irq_ok; [exact H|lia]).
    unfold wp in Hw. rewrite E in Hw. destruct Hw as (k' & o & _ & (H' & _) & _). exists k'. exact H'.
  - pose proof (adm_confirm_gives_back k w1 H) as Hw. rewrite ioctl_confirm in E.
    unfold wp in Hw. rewrite E in Hw. destruct (takes k w1); [exists (k - 1); tauto|].
    destruct Hw as [_ ->]. exists k. exact H.
  - exists k. destruct H. split; [apply flow_event; assumption|assumption].
Qed.

Lemma others_flow w w' : rtc adm_other w w' -> flowing w -> flowing w'.
Proof. induction 1; [auto|]. intros H'. eauto using other_flows. Qed.

Lemma get_flows w :
  flowing w -> rtc adm_other w (adm_asleep w) -> wlp adm_get (fun _ w' => flowing w') w.
Proof.
  intros H Hs. pose proof (others_flow _ _ Hs H) as H'. unfold adm_get, wait_ready, buffer_ready, item.
  destruct H' as [k' [H' Hf']].
  repeat (wlp_step || apply wp_wlp, wp_ext); try assumption; try (exists k'; split; assumption);
    exists k'; (split; [apply flow_event; [exact H'|discriminate..]|exact Hf']).
Qed.

(** the three places a buffer can be in *)
Definition is_ready (w : adm) (b : Z) : Prop := zlookup (bready w) b = Some 1.
Definition is_commanded (w : adm) (b : Z) : Prop := b ∈ (outstanding f (adm_trace w)).*1.
Definition is_lost (w : adm) (b : Z) : Prop := b ∈ failed f (adm_trace w).

Lemma flow_owner k w b :
  at_f k w -> 0 <= b < BUF_NUM ->
  (is_ready w b <-> ~ is_commanded w b /\ ~ is_lost w b) /\ ~ (is_commanded w b /\ is_lost w b).
Proof.
  intros [H Hf] Hb. destruct hok as [HN _]. pose proof (fl_pos _ _ H) as Hr.
  pose proof (fl_count _ _ H) as Hk. unfold is_ready, is_commanded, is_lost.
  rewrite <- Hf, (fl_out _ _ H), <- list_fmap_compose. change (failed (fmem w) (adm_trace w)) with (lost w).
  assert (exists j, 0 <= j < BUF_NUM /\ b = place (received_buf w) j) as (j & Hj & ->).
  { exists ((b - received_buf w) mod BUF_NUM). split; [apply Z.mod_pos_bound; lia|].
    unfold place. rewrite Zplus_mod_idemp_r.
    replace (received_buf w + (b - received_buf w)) with b by lia. symmetry. apply Z.mod_small, Hb. }
  assert (place (received_buf w) j ∈ (fst ∘ command w) <$> seqZ k (BUF_NUM - k) <-> k <= j) as Ec.
  { rewrite list_elem_of_fmap. split.
    - intros (i & Ei & Hi). apply elem_of_seqZ in Hi. cbn in Ei. apply place_inj in Ei; lia.
    - intros Hkj. exists j. split; [reflexivity|]. apply elem_of_seqZ. lia. }
  rewrite Ec, (fl_flags _ _ H) by exact Hj. split.
  - destruct (Z.ltb_spec j k); cbn [andb b2z].
    + destruct (bool_decide_reflect (place (received_buf w) j ∉ lost w)); cbn [b2z];
        (split; [|]); try congruence; try tauto. intros _. split; [lia|assumption].
    + split; [discriminate|]. intros [Hn _]. lia.
  - intros [Hkj Hl]. destruct (fl_lost _ _ H _ Hl) as (i & Hi & E). apply place_inj in E; lia.
Qed.

(** C23: In every interleaving of interrupts, readers and confirmations, and
    whatever the DataMover says of its commands, a buffer is in exactly one of
    three places: it is ready for the reader, there is a command for it in the
    DataMover, or its command ended with a status that is not OKAY.  The
    answered ones follow the reader's position on the ring, and the commands
    follow them in order. *)
Theorem buffers_have_one_owner w w' :
  at_f 0 w -> rtc adm_step w w' ->
  (exists k, at_f k w') /\
  forall b, 0 <= b < BUF_NUM ->
    (is_ready w' b <-> ~ is_commanded w' b /\ ~ is_lost w' b) /\ ~ (is_commanded w' b /\ is_lost w' b).
Proof.
  intros H0 Hs. assert (flowing w') as [k H].
  { assert (flowing w) as Hw by (exists 0; exact H0). clear H0.
    induction Hs as [|w1 w2 w3 Hst _ IH]; [exact Hw|]. apply IH.
    destruct Hst as [w1 w2 Ho|rc w1 w2 Ha E]; [eapply other_flows; eassumption|].
    rewrite ioctl_get in E. exact (wlp_elim _ _ _ _ _ (get_flows _ Hw Ha) E). }
  split; [exists k; exact H|]. intros b. apply (flow_owner k), H.
Qed.
End Mover.

(** ** Probing *)

(** a kernel in which everything but the allocation of buffers succeeds *)
Record no_buffers : Prop := {
  nb_gpio : forall h a, nth 0 (answer h ksgpio_check_status a) 0 = 0;
  nb_resource : forall h a, nth 0 (answer h platform_get_resource a) 0 <> 0;
  nb_map : forall h a, nth 0 (answer h devm_ioremap_resource a) 0 <> 0 /\
    nth 1 (answer h devm_ioremap_resource a) 0 = 0;
  nb_irq : forall h a, 0 <= nth 0 (answer h platform_get_irq a) 0;
  nb_class : forall h a, nth 1 (answer h class_create a) 0 = 0;
  nb_number : forall h a, nth 0 (answer h alloc_chrdev_region a) 0 = 0;
  nb_alloc : forall h a, nth 0 (answer h cdev_alloc a) 0 <> 0;
  nb_add : forall h a, nth 0 (answer h cdev_add a) 0 = 0;
  nb_dma : forall h a, nth 0 (answer h dma_zalloc_coherent a) 0 = 0
}.

(** starting without registers *)
Lemma start_unmapped w :
  fmem w = 0 -> is_started w = 0 -> Z.of_nat (length (bready w)) = BUF_NUM ->
  tst1_ioctl ADM_START w = Abort BadAccess.
Proof.
  intros Hf Hs Hb. destruct hok as [HN H]. rewrite !NoDup_cons, !elem_of_cons in H.
  unfold tst1_ioctl. rewrite (proj2 (Z.eqb_neq _ _)) by (intros E; rewrite E in H; tauto).
  rewrite Z.eqb_refl. unfold adm_start. rewrite (bind_ok (gets is_started) _ w (is_started w) w eq_refl), Hs.
  change (nz 0) with false. cbv iota. set (w1 := w <| exp_buf := 0 |> <| received_buf := 0 |>).
  rewrite (bind_ok (modify (fun w => w <| exp_buf := 0 |> <| received_buf := 0 |>)) _ w tt w1 eq_refl).
  assert (wp (for_ 0 BUF_NUM (fun i => set_bready_at i 0)) (fun _ w' => fmem w' = 0) w1) as Hl.
  { apply (wp_for (fun i w' => fmem w' = 0 /\ Z.of_nat (length (bready w')) = BUF_NUM)); [lia|auto| |tauto].
    intros i w' Hi [H1 H2]. apply wp_set_item; [lia|]. split; [exact H1|].
    exact (zinsert_len _ _ _ _ H2). }
  apply wp_ok in Hl as ([] & w2 & E & H2). rewrite (bind_ok _ _ _ _ _ E).
  rewrite for_first by lia. unfold transfer_buf, set_reg, regs_at, bind, gets. cbv beta iota. rewrite H2. reflexivity.
Qed.

(** what of the state the failing probe depends on *)
Definition idle_adm (w : adm) : Prop := is_started w = 0 /\ Z.of_nat (length (bready w)) = BUF_NUM.

Lemma err1_idle pdev w :
  idle_adm w -> my_pdev w = pdev ->
  wp (err1 pdev 0) (fun rc w' => rc = 0 /\ my_pdev w' = pdev /\ fmem w' = 0 /\ idle_adm w') w.
Proof.
  intros Hi Hp. unfold err1. apply wp_bind, wp_gets, wp_bind, wp_when; intros Hf.
  - apply wp_bind, wp_ext_, wp_modify, wp_ret. split; [reflexivity|]. split; [exact Hp|].
    split; [reflexivity|exact Hi].
  - apply nz_false in Hf. apply wp_ret. auto.
Qed.

Lemma probe_node_without_buffers pdev w :
  no_buffers -> idle_adm w ->
  wp (probe_node pdev) (fun rc w' => rc = 0 /\ my_pdev w' = pdev /\ fmem w' = 0 /\ idle_adm w') w.
Proof.
  intros [_ _ _ _ _ H6 H7 H8 H9] Hi. destruct hok as [HN _]. unfold probe_node.
  apply wp_bind, wp_ext_all. set (r := answer _ _ _).
  assert (nth 0 r 0 = 0) as Er by apply H6. rewrite Er. change (nz 0) with false.
  set (w1 := log _ w). assert (idle_adm w1) as Hi1 by exact Hi. clearbody w1 r. clear Er w Hi.
  apply wp_bind, wp_modify, wp_bind, wp_ext. rewrite (proj2 (Z.eqb_neq _ _) (H7 _ _)).
  apply wp_bind, wp_modify, wp_bind, wp_gets, wp_bind, wp_ext. rewrite H8. change (nz 0) with false.
  match goal with |- wp _ _ ?s => set (w2 := s) end. assert (idle_adm w2) as Hi2 by exact Hi1.
  clearbody w2. apply wp_bind, wp_gets, wp_bind, wp_ext, wp_bind, wp_modify, wp_bind.
  rewrite for_exit_first by lia. apply wp_bind. unfold alloc_buf at 1.
  apply wp_bind, wp_ext_all. rewrite H9. change (0 =? 0) with true. apply wp_bind, wp_modify, wp_ret, wp_ret.
  apply err1_idle; [exact Hi2|reflexivity].
Qed.

(** when a buffer cannot be allocated the registers are unmapped, but
    probe reports success; starting the device then accesses a null pointer. *)
Lemma tst1_probe_without_buffers pdev w :
  no_buffers -> my_pdev w = 0 -> is_started w = 0 -> Z.of_nat (length (bready w)) = BUF_NUM ->
  wp (tst1_probe pdev) (fun rc w' => rc = 0 /\ my_pdev w' = pdev /\ fmem w' = 0 /\
    tst1_ioctl ADM_START w' = Abort BadAccess) w.
Proof.
  intros Hno Hp Hs Hb. assert (idle_adm w) as Hi by (split; assumption).
  destruct Hno as [H1 H2 H3 H4 H5 H6 H7 H8 H9] eqn:E. clear E. unfold tst1_probe.
  apply wp_bind, wp_gets. rewrite Hp. change (nz 0) with false.
  apply wp_bind, wp_ext. rewrite H1. change (nz 0) with false.
  apply wp_bind, wp_ext_all. rewrite (proj2 (Z.eqb_neq _ _) (H2 _ _)).
  apply wp_bind, wp_modify, wp_bind, wp_ext_all, wp_bind, wp_modify.
  rewrite (proj2 (H3 _ _)). change (nz 0) with false.
  match goal with |- wp _ _ ?s => set (w1 := s) end. assert (idle_adm w1) as Hi1 by exact Hi.
  clearbody w1. apply wp_bind, wp_ext, wp_bind, wp_modify.
  rewrite (proj2 (Z.ltb_ge _ _) (H4 _ _)). apply wp_bind, wp_ext_all, wp_bind, wp_modify.
  rewrite H5. change (nz 0) with false.
  eapply wp_conseq; [apply probe_node_without_buffers; [exact Hno|exact Hi1]|].
  intros rc w' (-> & Hp' & Hf' & Hs' & Hb'). split; [reflexivity|]. split; [exact Hp'|].
  split; [exact Hf'|]. apply start_unmapped; assumption.
Qed.
End Facts.
