(* ===== verification/Shell.v ===== *)
(** * The SDAccel shell of a device: its state, gate and clock (xdma-ioctl.c)

    The code under SD_ACCEL serves boards whose user BAR holds a partial
    reconfiguration region behind an AXI gate, a clock wizard, the HWICAP and,
    in the configuration space, the MCAP.  [shell] is the state of the driver
    ([world]) with the members of [struct xdma_dev] that only this code uses,
    the ids and the bus of the [struct pci_dev], and the kernel buffers the
    download works on as blocks of bytes.  [interrupts_enable] is declared in
    xdma-core.h but defined nowhere: it is a call of the environment. *)
From S2P Require Import Prelude Layout Kernel World.
#[local] Open Scope string_scope.
#[local] Open Scope Z_scope.

(** ** Constants (xbar_sys_parameters.h) *)
Definition OCL_CTLR_OFFSET : Z := 0x000000.
Definition HWICAP_OFFSET : Z := 0x020000.
Definition AXI_GATE_OFFSET : Z := 0x030000.
Definition AXI_GATE_OFFSET_READ : Z := 0x030008.
Definition FEATURE_ID : Z := 0x031000.
Definition ULTRASCALE_MCAP_CONFIG_BASE : Z := 0x340.
Definition OCL_CLKWIZ_STATUS : Z := 0x050004.
Definition OCL_CLKWIZ_CONFIG (n : Z) : Z := 0x050200 + 4 * n.
Definition DMA_HWICAP_BITFILE_BUFFER_SIZE : Z := 1024.
Definition OCL_CU_CTRL_RANGE : Z := 0x1000.
Definition XDMA_7V3_INPUT_FREQ : Z := 100.
Definition XDMA_KU3_INPUT_FREQ : Z := 200.
Definition XHI_EVEN_MAGIC_BYTE : Z := 0x0f.
Definition XHI_ODD_MAGIC_BYTE : Z := 0xf0.
Definition XHI_BIT_HEADER_FAILURE : Z := -1.
Definition XHWICAP_WF : Z := HWICAP_OFFSET + 0x100.
Definition XHWICAP_CR : Z := HWICAP_OFFSET + 0x10c.
Definition XHWICAP_SR : Z := HWICAP_OFFSET + 0x110.
Definition XHWICAP_WFV : Z := HWICAP_OFFSET + 0x114.

(** enum dev_capabilities *)
Definition CAP_64BIT_DMA : Z := 2.
Definition CAP_64BIT_DESC : Z := 4.

(** the device id of the UltraScale board *)
Definition KU3_DEVICE : Z := 0x8138.

(** ** State *)

(** the ids of the function, and [bus] and [bus->self] (0 is null) *)
Record pci_function : Type := mk_pci_function {
  vendor : Z;
  device : Z;
  subsystem_vendor : Z;
  subsystem_device : Z;
  pdev_bus : Z;
  bus_self : Z
}.

(** a pointer into a buffer: the block and the offset *)
Definition cptr : Type := Z * Z.

Record shell : Type := mk_shell {
  drv : world;
  pdev_ids : pci_function;
  bufs : gmap Z (list Z);
  capabilities : Z;
  clear_bitstream : Z;
  clear_bitstream_length : Z;
  axi_gate_frozen : Z;
  mcap_base : Z;
  feature_id : Z
}.

#[global] Instance eta_shell : Eta shell := fun r =>
  mk_shell (drv r) (pdev_ids r) (bufs r) (capabilities r) (clear_bitstream r)
    (clear_bitstream_length r) (axi_gate_frozen r) (mcap_base r) (feature_id r).
#[global] Instance set_drv : Setter drv := ltac:(make_setter).
#[global] Instance set_bufs : Setter bufs := ltac:(make_setter).
#[global] Instance set_capabilities : Setter capabilities := ltac:(make_setter).
#[global] Instance set_clear_bitstream : Setter clear_bitstream := ltac:(make_setter).
#[global] Instance set_clear_bitstream_length : Setter clear_bitstream_length := ltac:(make_setter).
#[global] Instance set_axi_gate_frozen : Setter axi_gate_frozen := ltac:(make_setter).
#[global] Instance set_mcap_base : Setter mcap_base := ltac:(make_setter).
#[global] Instance set_feature_id : Setter feature_id := ltac:(make_setter).

#[global] Instance shell_trace : HasTrace shell := {
  trace_of s := trace (drv s);
  log e s := s <| drv ::= log e |>;
  trace_log e s := eq_refl
}.

(** struct xdma_ocl_clockwiz *)
Record xdma_ocl_clockwiz : Type := mk_clockwiz { ocl : Z; divide : Z; divide_frac : Z }.

Definition frequency_table : list xdma_ocl_clockwiz :=
  [ mk_clockwiz 25 0x28 0x0;
    mk_clockwiz 50 0x14 0x0;
    mk_clockwiz 75 0xd 0x14d;
    mk_clockwiz 100 0xa 0x0;
    mk_clockwiz 125 0x8 0x0;
    mk_clockwiz 150 0x6 0x29a;
    mk_clockwiz 175 0x5 0x2ca;
    mk_clockwiz 200 0x5 0x0;
    mk_clockwiz 225 0x4 0x1bc;
    mk_clockwiz 250 0x4 0x0;
    mk_clockwiz 275 0x3 0x27c;
    mk_clockwiz 300 0x3 0x14d;
    mk_clockwiz 325 0x3 0x4c;
    mk_clockwiz 350 0x2 0x359;
    mk_clockwiz 375 0x2 0x29a;
    mk_clockwiz 400 0x2 0x1f4 ].

Section Shell.
Context {env : Env}.

(** ** Access *)

(** code of the rest of the driver, on the state it knows *)
Definition lift {A} (m : prog world A) : prog shell A := fun s =>
  match m (drv s) with
  | Ok a w => Ok a (s <| drv := w |>)
  | Abort r => Abort r
  end.

(** [lro->bar[lro->user_bar_idx]] *)
Definition user_bar : prog shell Z :=
  lift (bars <- getL bar ;; i <- getL user_bar_idx ;; index bars i).
(** [ioread32(lro->bar[lro->user_bar_idx] + ofs)] and the writes *)
Definition user_read (ofs : Z) : prog shell Z := b <- user_bar ;; read_register (b + ofs).
Definition user_write (v ofs : Z) : prog shell unit := b <- user_bar ;; write_register v (b + ofs).
Definition user_write8 (v ofs : Z) : prog shell unit :=
  b <- user_bar ;; ext_ iowrite8 [b + ofs; v].

(** [lro->pci_dev] *)
Definition the_pdev : prog shell Z := lift (getL pci_dev).
Definition device_id : prog shell Z := gets (fun s => device (pdev_ids s)).

(** [lro->bar[lro->config_bar_idx] + ofs] *)
Definition config_reg (ofs : Z) : prog shell Z := b <- lift config_bar ;; ret (b + ofs).

(** ** Parts of xdma-core.c under SD_ACCEL *)

Definition find_feature_id : prog shell Z :=
  low <- user_read FEATURE_ID ;;
  high <- user_read (FEATURE_ID + 8) ;;
  ret (Z.lor low (u64 (Z.shiftl high 32))).

(** is this the identifier of a write or a read engine? *)
Definition old_engine_id (w : Z) : bool :=
  (Z.land w 0x00ffff00 =? 0x00c10000) || (Z.land w 0x00ffff00 =? 0x00c20000).

Definition engine_initialize (interrupts_offset : Z) : prog shell Z :=
  reg <- config_reg interrupts_offset ;;
  w <- read_register (reg + 0x00) ;;
  if negb (old_engine_id w) then ret (-1) else
  when (Z.land w 0xff <? 2) (modify (fun s => s <| capabilities ::=
    (fun c => Z.land c (not32 (Z.lor CAP_64BIT_DMA CAP_64BIT_DESC))) |>)) ;;
  write_register 0 (reg + 0x04) ;;
  ret 0.

Definition engine_version (engine_offset : Z) : prog shell Z :=
  reg <- config_reg engine_offset ;;
  w <- read_register (reg + 0x00) ;;
  if negb (old_engine_id w) then ret (-1) else ret (Z.land w 0xff).

Definition reinit_mask : Z :=
  Z.lor XDMA_CTRL_IE_DESC_STOPPED (Z.lor XDMA_CTRL_IE_DESC_COMPLETED
    (Z.lor XDMA_CTRL_IE_DESC_ALIGN_MISMATCH (Z.lor XDMA_CTRL_IE_MAGIC_STOPPED
      (Z.lor XDMA_CTRL_IE_READ_ERROR XDMA_CTRL_IE_DESC_ERROR)))).

Definition engine_reinit (p : Z) : prog shell unit :=
  e <- deref (fun s => engines (drv s) !! p) ;;
  write_register reinit_mask (regs e + offset_of engine_regs "interrupt_enable_mask").

(** ** xdma-ioctl.c: engines and compute units *)

Definition reinit : prog shell Z :=
  rc <- ext interrupts_enable [XDMA_OFS_INT_CTRL; 0x00ffffff] ;;
  for_ 0 2 (fun dir_from_dev =>
    for_ 0 XDMA_CHANNEL_NUM_MAX (fun channel =>
      tab <- lift (getL engine) ;;
      p <- lift (index tab (2 * channel + dir_from_dev)) ;;
      when (nz p) (engine_reinit p))) ;;
  ret rc.

(** the scan of the control registers of the compute units: [result] so far *)
Fixpoint busy_units (n : nat) (i result : Z) : prog shell Z :=
  match n with
  | O => ret result
  | Datatypes.S n' =>
      r <- user_read (OCL_CTLR_OFFSET + i * OCL_CU_CTRL_RANGE) ;;
      busy_units n' (i + 1) (if r =? 1 then Z.lor result (Z.shiftl r i) else result)
  end.

Definition compute_unit_busy : prog shell Z :=
  r <- user_read AXI_GATE_OFFSET_READ ;;
  if negb (r =? 0x3) then ret 0 else busy_units 16 0 0.

(** ** The AXI gate *)

Definition freezeAXIGate : prog shell unit :=
  f <- gets axi_gate_frozen ;;
  BUG_ON (nz f) ;;
  _ <- user_read AXI_GATE_OFFSET_READ ;;
  user_write8 0x0 AXI_GATE_OFFSET ;;
  _ <- user_read AXI_GATE_OFFSET_READ ;;
  modify (fun s => s <| axi_gate_frozen := 1 |>).

(** one step of the reset pulse *)
Definition pulse_gate (w : Z) : prog shell unit :=
  _ <- user_read AXI_GATE_OFFSET_READ ;;
  user_write8 w AXI_GATE_OFFSET ;;
  ext_ ndelay [500].

Definition freeAXIGate : prog shell unit :=
  f <- gets axi_gate_frozen ;;
  BUG_ON (negb (nz f)) ;;
  pulse_gate 0x2 ;;
  pulse_gate 0x0 ;;
  pulse_gate 0x2 ;;
  pulse_gate 0x3 ;;
  _ <- user_read AXI_GATE_OFFSET_READ ;;
  modify (fun s => s <| axi_gate_frozen := 0 |>).

(** ** The clock wizard *)

(** the arithmetic of [get_ocl_frequency] on the two configuration words *)
Definition ocl_frequency_of (input cfg0 cfg2 : Z) : Z :=
  let div0 := Z.land cfg0 0xff in
  let mul0 := Z.shiftr (Z.land cfg0 0xff00) 8 in
  let mul_frac0 := if nz (Z.land cfg0 (Z.shiftl 1 26)) then Z.land (Z.shiftr cfg0 16) 0x3ff else 0 in
  let mul0 := u32 (mul0 * 1000) in
  let mul0 := u32 (mul0 + mul_frac0) in
  let div0 := u32 (div0 * 1000) in
  let div1 := Z.land cfg2 0xff in
  let div_frac1 := if nz (Z.land cfg2 (Z.shiftl 1 18)) then Z.land (Z.shiftr cfg2 8) 0x3ff else 0 in
  let div1 := u32 (div1 * 1000) in
  let div1 := u32 (div1 + div_frac1) in
  let div0 := u32 (div0 * div1) in
  let mul0 := u32 (mul0 * 1000) in
  if div0 =? 0 then 0 else u64 (input * mul0) / div0.

Definition get_ocl_frequency : prog shell Z :=
  d <- device_id ;;
  let input := if d =? KU3_DEVICE then XDMA_KU3_INPUT_FREQ else XDMA_7V3_INPUT_FREQ in
  val <- user_read OCL_CLKWIZ_STATUS ;;
  if Z.land val 1 =? 0 then ret 0 else
  cfg0 <- user_read (OCL_CLKWIZ_CONFIG 0) ;;
  cfg2 <- user_read (OCL_CLKWIZ_CONFIG 2) ;;
  ret (ocl_frequency_of input cfg0 cfg2).
End Shell.
