(* ===== verification/Bitstream.v ===== *)
(** * The download of bitstreams (xdma-bit.c)

    The header of a .bit file is parsed, its words are written to the HWICAP
    of the user BAR or to the MCAP in the configuration space, and the clearing
    bitstream that the next download needs is kept with the device.  A pointer
    is a block of bytes and an offset; a block that is freed, or an offset
    outside it, cannot be accessed. *)
From S2P Require Import Prelude Layout Kernel World CharDev Shell.
#[local] Open Scope Z_scope.

(** ** Constants (mcap_registers.h) *)
Definition MCAP_STATUS : Z := 0x10.
Definition MCAP_CONTROL : Z := 0x14.
Definition MCAP_DATA : Z := 0x18.
Definition MCAP_CTRL_MODE_MASK : Z := Z.shiftl 1 0.
Definition MCAP_CTRL_REG_READ_MASK : Z := Z.shiftl 1 1.
Definition MCAP_CTRL_RESET_MASK : Z := Z.shiftl 1 4.
Definition MCAP_CTRL_MOD_RESET_MASK : Z := Z.shiftl 1 5.
Definition MCAP_CTRL_IN_USE_MASK : Z := Z.shiftl 1 8.
Definition MCAP_CTRL_DESIGN_SWITCH_MASK : Z := Z.shiftl 1 12.
Definition MCAP_CTRL_DATA_REG_PROT_MASK : Z := Z.shiftl 1 16.
Definition MCAP_STS_ERR_MASK : Z := Z.shiftl 1 0.
Definition MCAP_STS_EOS_MASK : Z := Z.shiftl 1 1.
Definition MCAP_STS_REG_READ_CMP_MASK : Z := Z.shiftl 1 4.
Definition MCAP_STS_FIFO_OVERFLOW_MASK : Z := Z.shiftl 1 8.
Definition MCAP_STS_CFG_MCAP_REQ_MASK : Z := Z.shiftl 1 24.
Definition MCAP_LOOP_COUNT : Z := 1000000.
Definition EMCAP_EOS_RETRY_COUNT : Z := 10.
Definition EMCAP_EOS_LOOP_COUNT : Z := 100.
Definition EMCAP_NOOP_VAL : Z := 0x2000000.

(** ** The byte order of the host *)
Class HostOrder : Type := big_endian : bool.

Definition be_value (l : list Z) : Z := foldl (fun v b => v * 256 + b) 0 l.
Definition le_value (l : list Z) : Z := foldr (fun b v => b + 256 * v) 0 l.

Section Words.
Context {ho : HostOrder}.

(** the integer the host sees in these bytes *)
Definition load (l : list Z) : Z := if big_endian then be_value l else le_value l.
(** the bytes in which the host keeps a [u32] *)
Definition unload (v : Z) : list Z :=
  let l := [u8 v; u8 (Z.shiftr v 8); u8 (Z.shiftr v 16); u8 (Z.shiftr v 24)] in
  if big_endian then rev l else l.

Definition swab16 (w : Z) : Z := Z.lor (Z.shiftl (Z.land w 0xff) 8) (Z.shiftr (Z.land w 0xff00) 8).
Definition swab32 (w : Z) : Z :=
  Z.lor (Z.lor (Z.shiftl (Z.land w 0x000000ff) 24) (Z.shiftl (Z.land w 0x0000ff00) 8))
        (Z.lor (Z.shiftr (Z.land w 0x00ff0000) 8) (Z.shiftr (Z.land w 0xff000000) 24)).
Definition swab64 (w : Z) : Z :=
  Z.lor (Z.shiftl (swab32 (Z.land w 0xffffffff)) 32) (swab32 (Z.shiftr w 32)).

Definition be32_to_cpu (w : Z) : Z := if big_endian then w else swab32 w.
Definition le16_to_cpu (w : Z) : Z := if big_endian then swab16 w else w.
Definition le64_to_cpu (w : Z) : Z := if big_endian then swab64 w else w.
End Words.

(** ** The header of a .bit file (xbar_sys_parameters.h) *)
Record XHwIcap_Bit_Header : Type := mk_bit_header {
  HeaderLength : Z;
  BitstreamLength : Z;
  DesignName : Z;
  PartName : Z;
  Date : Z;
  Time : Z;
  MagicLength : Z
}.

#[global] Instance eta_bit_header : Eta XHwIcap_Bit_Header := fun r =>
  mk_bit_header (HeaderLength r) (BitstreamLength r) (DesignName r) (PartName r) (Date r)
    (Time r) (MagicLength r).
#[global] Instance set_HeaderLength : Setter HeaderLength := ltac:(make_setter).
#[global] Instance set_BitstreamLength : Setter BitstreamLength := ltac:(make_setter).
#[global] Instance set_DesignName : Setter DesignName := ltac:(make_setter).
#[global] Instance set_PartName : Setter PartName := ltac:(make_setter).
#[global] Instance set_Date : Setter Date := ltac:(make_setter).
#[global] Instance set_Time : Setter Time := ltac:(make_setter).
#[global] Instance set_MagicLength : Setter MagicLength := ltac:(make_setter).

(** [memset(&bit_header, 0, sizeof(bit_header))] *)
Definition zero_header : XHwIcap_Bit_Header := mk_bit_header 0 0 0 0 0 0 0.

(** ** The container of bitstreams (xclbin.h): the members the code reads *)
Record xclBin : Type := mk_xclBin {
  m_magic : list Z;
  m_length : Z;
  m_primaryFirmwareOffset : Z;
  m_primaryFirmwareLength : Z;
  m_secondaryFirmwareOffset : Z;
  m_secondaryFirmwareLength : Z
}.
Definition sizeof_xclBin : Z := 128.

(** [n] bytes at offset [o], if they lie in the block *)
Definition slice (l : list Z) (o n : Z) : option (list Z) :=
  if (0 <=? o) && (0 <=? n) && (o + n <=? Z.of_nat (length l))
  then Some (take (Z.to_nat n) (drop (Z.to_nat o) l)) else None.

(** the bytes the environment gives, filled up to [n] *)
Definition env_bytes (n : Z) (l : list Z) : list Z :=
  map (fun i => u8 (nth i l 0)) (seq 0 (Z.to_nat n)).

(** a member of a struct the bytes of which are [l] *)
Definition member {ho : HostOrder} (l : list Z) (o n : Z) : Z :=
  load (take (Z.to_nat n) (drop (Z.to_nat o) l)).

Definition xclBin_of {ho : HostOrder} (l : list Z) : xclBin :=
  mk_xclBin (take 8 l) (member l 8 8) (member l 80 8) (member l 88 8) (member l 96 8)
    (member l 104 8).

(** "xclbin0" with the null that ends it *)
Definition xclbin0 : list Z := [120; 99; 108; 98; 105; 110; 48; 0].

Section Memory.
Context {env : Env} {ho : HostOrder}.

(** ** Kernel buffers *)

(** [p[i]] for a pointer to bytes *)
Definition byte_at (p : cptr) (i : Z) : prog shell Z :=
  deref (fun s => l ← bufs s !! fst p; zlookup l (snd p + i)).
Definition bytes_at (p : cptr) (n : Z) : prog shell (list Z) :=
  deref (fun s => l ← bufs s !! fst p; slice l (snd p) n).
(** [p[i]] for a pointer to [u32] *)
Definition word_at (p : cptr) (i : Z) : prog shell Z :=
  l <- bytes_at (fst p, snd p + 4 * i) 4 ;; ret (load l).
Definition set_byte_at (b i v : Z) : prog shell unit :=
  _ <- byte_at (b, 0) i ;; modify (fun s => s <| bufs ::= alter (zinsert i v) b |>).
(** [p[i] = v] for a pointer to [u32] that is the block [b] *)
Definition set_word_at (b i v : Z) : prog shell unit :=
  _ <- bytes_at (b, 4 * i) 4 ;;
  modify (fun s => s <| bufs ::= alter (fun l =>
    take (Z.to_nat (4 * i)) l ++ unload v ++ drop (Z.to_nat (4 * i) + 4) l) b |>).
(** [n] bytes to the beginning of a block *)
Definition store_bytes (b : Z) (l : list Z) : prog shell unit :=
  old <- bytes_at (b, 0) (Z.of_nat (length l)) ;;
  modify (fun s => s <| bufs ::= alter (fun o => l ++ drop (length l) o) b |>).

(** [kmalloc(n)], [vmalloc(n)]: null or a new block, with what memory held *)
Definition malloc (f : extern) (n : Z) : prog shell Z :=
  r <- ext_all f [n] ;;
  if nth 0 r 0 =? 0 then ret 0 else
    b <- gets (fun s => fresh (drv s)) ;;
    modify (fun s => s <| drv ::= (fun w => w <| fresh := b + 1 |>) |>
      <| bufs ::= <[b := env_bytes n (tail r)]> |>) ;;
    ret b.
(** [kfree(b)], [vfree(b)]: nothing for null *)
Definition mfree (f : extern) (b : Z) : prog shell unit :=
  ext_ f [b] ;;
  when (nz b) (_ <- deref (fun s => bufs s !! b) ;;
    modify (fun s => s <| bufs ::= delete b |>)).

(** the number of bytes not copied, and the bytes at the destination *)
Definition copy_from_user_ (src n : Z) : prog shell (Z * list Z) :=
  r <- ext_all copy_from_user [src; n] ;; ret (nth 0 r 0, env_bytes n (tail r)).
Definition copy_to_block (b src n : Z) : prog shell Z :=
  rl <- copy_from_user_ src n ;; store_bytes b (snd rl) ;; ret (fst rl).
End Memory.

Section Bitstream.
Context {env : Env} {ho : HostOrder}.

(** ** The registers of the MCAP *)

Definition MCapRegWrite (offset value : Z) : prog shell unit :=
  pdev <- the_pdev ;; base <- gets mcap_base ;;
  ext_ pci_write_config_dword [pdev; base + offset; value].
Definition MCapRegRead (offset : Z) : prog shell Z :=
  pdev <- the_pdev ;; base <- gets mcap_base ;;
  r <- ext_all pci_read_config_dword [pdev; base + offset] ;;
  ret (u32 (nth 1 r 0)).

Definition bit_set (offset mask : Z) : prog shell bool :=
  v <- MCapRegRead offset ;; ret (nz (Z.land v mask)).
Definition IsResetSet : prog shell bool := bit_set MCAP_CONTROL MCAP_CTRL_RESET_MASK.
Definition IsModuleResetSet : prog shell bool := bit_set MCAP_CONTROL MCAP_CTRL_MOD_RESET_MASK.
Definition IsConfigureMCapReqSet : prog shell bool := bit_set MCAP_STATUS MCAP_STS_CFG_MCAP_REQ_MASK.
Definition IsErrSet : prog shell bool := bit_set MCAP_STATUS MCAP_STS_ERR_MASK.
Definition IsRegReadComplete : prog shell bool := bit_set MCAP_STATUS MCAP_STS_REG_READ_CMP_MASK.
Definition IsFifoOverflow : prog shell bool := bit_set MCAP_STATUS MCAP_STS_FIFO_OVERFLOW_MASK.

(** [a || b] of conditions that read registers *)
Definition or_else (a b : prog shell bool) : prog shell bool :=
  x <- a ;; if (x : bool) then ret true else b.
Definition not_ (a : prog shell bool) : prog shell bool := x <- a ;; ret (negb x).

(** [do { if (!IsConfigureMCapReqSet()) break; } while (loop--)]: the value of
    [loop] behind the loop *)
Definition wait_request_one (l : Z) : prog shell (Z + Z) :=
  set <- IsConfigureMCapReqSet ;;
  if negb set then ret (inr l) else
  if l =? 0 then ret (inr (l - 1)) else ret (inl (l - 1)).
Definition wait_request_cleared : prog shell Z :=
  loop (Z.to_nat (MCAP_LOOP_COUNT + 1)) wait_request_one MCAP_LOOP_COUNT.

(** the result, and the value of the control register to restore *)
Definition MCapClearRequestByConfigure : prog shell (Z * Z) :=
  restore <- MCapRegRead MCAP_CONTROL ;;
  let set := restore in
  req <- IsConfigureMCapReqSet ;;
  if (req : bool) then
    let set := Z.lor set (Z.lor MCAP_CTRL_MODE_MASK MCAP_CTRL_IN_USE_MASK) in
    MCapRegWrite MCAP_CONTROL set ;;
    l <- wait_request_cleared ;;
    if l =? 0 then MCapRegWrite MCAP_CONTROL restore ;; ret (- EIO, restore)
    else ret (0, restore)
  else ret (0, restore).

Definition eos_one (v : Z * Z) : prog shell (Z * Z + Z) :=
  let '(sr, retry_count) := v in
  if nz (Z.land sr MCAP_STS_EOS_MASK) then ret (inr 0) else
  ext_ msleep [2000] ;;
  for_ 0 EMCAP_EOS_LOOP_COUNT (fun _ => MCapRegWrite MCAP_DATA EMCAP_NOOP_VAL) ;;
  sr <- MCapRegRead MCAP_STATUS ;;
  let retry_count := retry_count + 1 in
  if EMCAP_EOS_RETRY_COUNT <? retry_count then ret (inr (- EIO))
  else ret (inl (s32 sr, retry_count)).
(** every turn but the last counts, at most [EMCAP_EOS_RETRY_COUNT + 1] *)
Definition Checkforcompletion : prog shell Z :=
  sr <- MCapRegRead MCAP_STATUS ;;
  loop (Z.to_nat (EMCAP_EOS_RETRY_COUNT + 2)) eos_one (s32 sr, 0).

Definition MCapFullReset : prog shell Z :=
  er <- MCapClearRequestByConfigure ;;
  let '(err, restore) := er in
  if nz err then ret err else
  set <- MCapRegRead MCAP_CONTROL ;;
  let set := Z.lor set (Z.lor (Z.lor MCAP_CTRL_MODE_MASK MCAP_CTRL_IN_USE_MASK)
    (Z.lor MCAP_CTRL_RESET_MASK MCAP_CTRL_MOD_RESET_MASK)) in
  MCapRegWrite MCAP_CONTROL set ;;
  bad <- or_else IsErrSet (or_else (not_ IsModuleResetSet) (not_ IsResetSet)) ;;
  if (bad : bool) then MCapRegWrite MCAP_CONTROL restore ;; ret (- EIO)
  else MCapRegWrite MCAP_CONTROL restore ;; ret 0.

(** ** The HWICAP *)

Definition wait_for_done : prog shell Z :=
  r <- for_exit 0 10 (fun _ =>
    ext_ udelay [5] ;;
    w <- user_read XHWICAP_SR ;;
    if nz (Z.land w 0x5) then ret (Some 0) else ret None) ;;
  ret (default (- EIO) r).

Definition hwicapWrite (word_buf : cptr) (size : Z) : prog shell Z :=
  for_ 0 size (fun i =>
    w <- word_at word_buf i ;; user_write (be32_to_cpu w) XHWICAP_WF) ;;
  user_write 0x1 XHWICAP_CR ;;
  r <- for_exit 0 10 (fun _ =>
    value <- user_read XHWICAP_CR ;;
    if Z.land value 0x1 =? 0 then ret (Some 0) else ext_ ndelay [50] ;; ret None) ;;
  ret (default (- EIO) r).

(** ** The header of the file *)

Definition word_of_two (hi lo : Z) : Z := u32 (Z.lor (Z.shiftl hi 8) lo).

(** a byte and the index behind it *)
Definition next_byte (Data : cptr) (Index : Z) : prog shell (Z * Z) :=
  b <- byte_at Data Index ;; ret (b, u32 (Index + 1)).
(** a length of two bytes *)
Definition next_half (Data : cptr) (Index : Z) : prog shell (Z * Z) :=
  b <- next_byte Data Index ;;
  let '(hi, Index) := b in
  b <- next_byte Data Index ;;
  let '(lo, Index) := b in
  ret (word_of_two hi lo, Index).

(** the magic bytes from [Index] on: [true] when all of them are right *)
Definition magic_bytes_ok (Data : cptr) (Index MagicLength : Z) : prog shell bool :=
  r <- for_exit 0 (u32 (MagicLength - 1)) (fun I =>
    Tmp <- byte_at Data (u32 (Index + I)) ;;
    if (I mod 2 =? 0) && negb (Tmp =? XHI_EVEN_MAGIC_BYTE) then ret (Some (-1)) else
    if (I mod 2 =? 1) && negb (Tmp =? XHI_ODD_MAGIC_BYTE) then ret (Some (-1)) else
    ret None) ;;
  ret (match r with None => true | Some _ => false end).

(** the tag [tag], a length, and a string that is copied to a new block, which
    [set] stores in the header; [None] behind a tag or a string that is wrong *)
Definition read_string (Data : cptr) (tag : Z) (set : Z -> XHwIcap_Bit_Header -> XHwIcap_Bit_Header)
    (Index : Z) (Header : XHwIcap_Bit_Header) : prog shell (option Z * XHwIcap_Bit_Header) :=
  b <- next_byte Data Index ;;
  let '(Tmp, Index) := b in
  if negb (Tmp =? tag) then ret (None, Header) else
  b <- next_half Data Index ;;
  let '(Len, Index) := b in
  name <- malloc kmalloc Len ;;
  let Header := set name Header in
  for_ 0 Len (fun I => b <- byte_at Data (u32 (Index + I)) ;; set_byte_at name I b) ;;
  last <- byte_at (name, 0) (u32 (Len - 1)) ;;
  if negb (last =? 0) then ret (None, Header) else ret (Some (u32 (Index + Len)), Header).

(** the length of the data, behind the tag 'e' *)
Definition read_length (Data : cptr) (Index : Z) (Header : XHwIcap_Bit_Header)
  : prog shell (Z * XHwIcap_Bit_Header) :=
  b <- next_byte Data Index ;;
  let '(Tmp, Index) := b in
  if negb (Tmp =? 101) then ret (-1, Header) else
  b <- next_byte Data Index ;;
  let '(b0, Index) := b in
  b <- next_byte Data Index ;;
  let '(b1, Index) := b in
  b <- next_byte Data Index ;;
  let '(b2, Index) := b in
  b <- next_byte Data Index ;;
  let '(b3, Index) := b in
  let Header := Header <| BitstreamLength := word_of_two (word_of_two (word_of_two b0 b1) b2) b3 |>
    <| HeaderLength := Index |> in
  ret (0, Header).

Definition bitstream_parse_header (Data : cptr) (Size : Z) (Header : XHwIcap_Bit_Header)
  : prog shell (Z * XHwIcap_Bit_Header) :=
  let Index := 0 in
  let Header := Header <| HeaderLength := u32 XHI_BIT_HEADER_FAILURE |> in
  b <- next_half Data Index ;;
  let '(magic, Index) := b in
  let Header := Header <| MagicLength := magic |> in
  ok <- magic_bytes_ok Data Index magic ;;
  if negb ok then ret (-1, Header) else
  let Index := u32 (Index + u32 (magic - 1)) in
  b <- next_byte Data Index ;;
  let '(_, Index) := b in
  b <- next_half Data Index ;;
  let '(Tmp, Index) := b in
  if negb (Tmp =? 0x01) then ret (-1, Header) else
  r <- read_string Data 97 (fun p h => h <| DesignName := p |>) Index Header ;;
  let '(i, Header) := r in
  match i with None => ret (-1, Header) | Some Index =>
  r <- read_string Data 98 (fun p h => h <| PartName := p |>) Index Header ;;
  let '(i, Header) := r in
  match i with None => ret (-1, Header) | Some Index =>
  r <- read_string Data 99 (fun p h => h <| Date := p |>) Index Header ;;
  let '(i, Header) := r in
  match i with None => ret (-1, Header) | Some Index =>
  r <- read_string Data 100 (fun p h => h <| Time := p |>) Index Header ;;
  let '(i, Header) := r in
  match i with None => ret (-1, Header) | Some Index =>
  read_length Data Index Header
  end end end end.

(** the label free_buffers: the strings of the header *)
Definition free_strings (h : XHwIcap_Bit_Header) : prog shell unit :=
  mfree kfree (DesignName h) ;;
  mfree kfree (PartName h) ;;
  mfree kfree (Date h) ;;
  mfree kfree (Time h).

(** the two checks in front of every download: the error, the header *)
Definition parse_and_check (buffer : cptr) (length : Z) : prog shell (Z * XHwIcap_Bit_Header) :=
  r <- bitstream_parse_header buffer DMA_HWICAP_BITFILE_BUFFER_SIZE zero_header ;;
  let '(rc, bit_header) := r in
  if nz rc then ret (- EINVAL, bit_header) else
  if length <? u32 (HeaderLength bit_header + BitstreamLength bit_header)
  then ret (- EINVAL, bit_header) else ret (0, bit_header).
(** ** Download through the ICAP *)

(** one turn: the words that remain and where they are *)
Definition icap_one (v : Z * cptr) : prog shell (Z * cptr + Z) :=
  let '(remain_word, word_buffer) := v in
  if negb (0 <? remain_word) then ret (inr 0) else
  w <- user_read XHWICAP_WFV ;;
  let wr_fifo_vacancy := s32 w in
  if wr_fifo_vacancy <=? 0 then ret (inr (- EIO)) else
  let word_written := if u32 wr_fifo_vacancy <? remain_word then wr_fifo_vacancy else remain_word in
  rc <- hwicapWrite word_buffer (s32 word_written) ;;
  if nz rc then ret (inr (- EIO)) else
  ret (inl (u32 (remain_word - word_written), (fst word_buffer, snd word_buffer + 4 * word_written))).
Definition bitstream_icap_helper (word_buffer : cptr) (word_count : Z) : prog shell Z :=
  loop (Z.to_nat word_count + 1) icap_one (word_count, word_buffer).

(** the size of the next piece of [BitstreamLength] bytes *)
Definition piece_size (BitstreamLength byte_read : Z) : Z :=
  let numCharsRead := u32 (BitstreamLength - byte_read) in
  if DMA_HWICAP_BITFILE_BUFFER_SIZE <? numCharsRead then DMA_HWICAP_BITFILE_BUFFER_SIZE
  else numCharsRead.
(** turns that are enough for all the pieces *)
Definition piece_fuel (BitstreamLength : Z) : nat :=
  Z.to_nat (BitstreamLength / DMA_HWICAP_BITFILE_BUFFER_SIZE + 2).

(** [true] when all was written, [false] when the helper failed *)
Definition icap_piece (len : Z) (v : Z * cptr) : prog shell (Z * cptr + bool) :=
  let '(byte_read, buffer) := v in
  if negb (byte_read <? len) then ret (inr true) else
  let numCharsRead := piece_size len byte_read in
  rc <- bitstream_icap_helper buffer (numCharsRead / 4) ;;
  if nz rc then ret (inr false) else
  ret (inl (u32 (byte_read + numCharsRead), (fst buffer, snd buffer + numCharsRead))).

(** a helper that fails leaves [err] as it is, which is 0 *)
Definition bitstream_icap (buffer : cptr) (length : Z) : prog shell Z :=
  BUG_ON (fst buffer =? 0) ;;
  BUG_ON (length =? 0) ;;
  r <- parse_and_check buffer length ;;
  let '(err, bit_header) := r in
  err <- (if nz err then ret err else
    let buffer := (fst buffer, snd buffer + HeaderLength bit_header) in
    let len := BitstreamLength bit_header in
    written <- loop (piece_fuel len) (icap_piece len) (0, buffer) ;;
    if negb written then ret 0 else
    done <- wait_for_done ;;
    if nz done then ret (- EIO) else ret 0) ;;
  free_strings bit_header ;;
  ret err.

(** the clearing bitstream is used up *)
Definition drop_clear_bitstream : prog shell unit :=
  b <- gets clear_bitstream ;;
  mfree vfree b ;;
  modify (fun s => s <| clear_bitstream := 0 |> <| clear_bitstream_length := 0 |>).

Definition bitstream_clear_icap : prog shell Z :=
  buffer <- gets clear_bitstream ;;
  if buffer =? 0 then ret 0 else
  length <- gets clear_bitstream_length ;;
  err <- bitstream_icap (buffer, 0) length ;;
  drop_clear_bitstream ;;
  ret err.

(** a piece that is copied from the user first: [inr 0] at the end, [inr err]
    when the copy or ([err] is 0) the helper failed; the flag tells them apart *)
Definition user_icap_piece (buffer len : Z) (v : Z * Z) : prog shell (Z * Z + bool * Z) :=
  let '(byte_read, bit_buf) := v in
  if negb (byte_read <? len) then ret (inr (true, 0)) else
  let numCharsRead := piece_size len byte_read in
  c <- copy_to_block buffer bit_buf numCharsRead ;;
  if nz c then ret (inr (false, - EFAULT)) else
  rc <- bitstream_icap_helper (buffer, 0) (numCharsRead / 4) ;;
  if nz rc then ret (inr (false, 0)) else
  ret (inl (u32 (byte_read + numCharsRead), bit_buf + numCharsRead)).

(** the code behind the allocation of the buffer: the error and the header *)
Definition ioctl_icap_body (buffer bit_buf length : Z) : prog shell (Z * XHwIcap_Bit_Header) :=
  c <- copy_to_block buffer bit_buf DMA_HWICAP_BITFILE_BUFFER_SIZE ;;
  if nz c then ret (- EFAULT, zero_header) else
  r <- parse_and_check (buffer, 0) length ;;
  let '(err, bit_header) := r in
  if nz err then ret (err, bit_header) else
  let bit_buf := bit_buf + HeaderLength bit_header in
  let len := BitstreamLength bit_header in
  w <- loop (piece_fuel len) (user_icap_piece buffer len) (0, bit_buf) ;;
  let '(written, err) := w in
  if negb written then ret (err, bit_header) else
  done <- wait_for_done ;;
  if nz done then ret (- EIO, bit_header) else ret (0, bit_header).

(** the label free_buffers *)
Definition free_buffers (buffer : Z) (h : XHwIcap_Bit_Header) : prog shell unit :=
  freeAXIGate ;; mfree kfree buffer ;; free_strings h.

Definition bitstream_ioctl_icap (bit_buf length : Z) : prog shell Z :=
  freezeAXIGate ;;
  err <- bitstream_clear_icap ;;
  if nz err then free_buffers 0 zero_header ;; ret err else
  buffer <- malloc kmalloc DMA_HWICAP_BITFILE_BUFFER_SIZE ;;
  if buffer =? 0 then free_buffers buffer zero_header ;; ret (- ENOMEM) else
  r <- ioctl_icap_body buffer bit_buf length ;;
  let '(err, bit_header) := r in
  free_buffers buffer bit_header ;;
  ret err.

(** ** Download through the MCAP *)

(** the error, and the value of the control register to restore *)
Definition bitstream_mcap_setup (design_switch : bool) : prog shell (Z * Z) :=
  er <- MCapClearRequestByConfigure ;;
  let '(err, restore) := er in
  if nz err then ret (err, restore) else
  bad <- or_else IsErrSet (or_else IsRegReadComplete IsFifoOverflow) ;;
  if (bad : bool) then MCapRegWrite MCAP_CONTROL restore ;; ret (- EIO, restore) else
  set <- MCapRegRead MCAP_CONTROL ;;
  let set := Z.lor set (Z.lor MCAP_CTRL_MODE_MASK
    (Z.lor MCAP_CTRL_IN_USE_MASK MCAP_CTRL_DATA_REG_PROT_MASK)) in
  let set := Z.land set (not32 (Z.lor MCAP_CTRL_RESET_MASK
    (Z.lor MCAP_CTRL_MOD_RESET_MASK MCAP_CTRL_REG_READ_MASK))) in
  let set := if design_switch then Z.land set (not32 MCAP_CTRL_DESIGN_SWITCH_MASK) else set in
  MCapRegWrite MCAP_CONTROL set ;;
  ret (0, restore).

Definition bitstream_mcap_helper (word_buffer : cptr) (word_count : Z) : prog shell Z :=
  for_ 0 word_count (fun i =>
    w <- word_at word_buffer i ;;
    MCapRegWrite MCAP_DATA (be32_to_cpu w) ;;
    ext_ udelay [1]) ;;
  ret 0.

Definition bitstream_clear_mcap : prog shell Z :=
  buffer <- gets clear_bitstream ;;
  if buffer =? 0 then ret 0 else
  length <- gets clear_bitstream_length ;;
  r <- parse_and_check (buffer, 0) length ;;
  let '(err, bit_header) := r in
  (if nz err then ret tt else
    _ <- bitstream_mcap_helper (buffer, HeaderLength bit_header) (BitstreamLength bit_header / 4) ;;
    drop_clear_bitstream) ;;
  free_strings bit_header ;;
  ret err.

(** the end of programming: [Checkforcompletion() || IsErrSet() || IsFifoOverflow()] *)
Definition programming_failed : prog shell bool :=
  err <- Checkforcompletion ;;
  or_else (ret (nz err)) (or_else IsErrSet IsFifoOverflow).

(** [inr 0] at the end of the data, [inr (-EFAULT)] when a copy failed *)
Definition user_mcap_piece (buffer len : Z) (v : Z * Z) : prog shell (Z * Z + Z) :=
  let '(byte_read, bit_buf) := v in
  if negb (byte_read <? len) then ret (inr 0) else
  let numCharsRead := piece_size len byte_read in
  c <- copy_to_block buffer bit_buf numCharsRead ;;
  if nz c then ret (inr (- EFAULT)) else
  _ <- bitstream_mcap_helper (buffer, 0) (numCharsRead / 4) ;;
  ret (inl (u32 (byte_read + numCharsRead), bit_buf + numCharsRead)).

(** from the set-up of the MCAP to the label design_switch *)
Definition ioctl_mcap_program (buffer bit_buf len : Z) : prog shell Z :=
  er <- bitstream_mcap_setup false ;;
  let '(err, restore) := er in
  err <- (if nz err then ret err else
    err <- bitstream_clear_mcap ;;
    if nz err then ret err else
    err <- loop (piece_fuel len) (user_mcap_piece buffer len) (0, bit_buf) ;;
    if nz err then ret err else
    bad <- programming_failed ;;
    if (bad : bool) then
      MCapRegWrite MCAP_CONTROL restore ;;
      _ <- MCapFullReset ;;
      ret (- EIO)
    else ret 0) ;;
  MCapRegWrite MCAP_CONTROL restore ;;
  ret err.

Definition ioctl_mcap_body (buffer bit_buf length : Z) : prog shell (Z * XHwIcap_Bit_Header) :=
  c <- copy_to_block buffer bit_buf DMA_HWICAP_BITFILE_BUFFER_SIZE ;;
  if nz c then ret (- EFAULT, zero_header) else
  r <- parse_and_check (buffer, 0) length ;;
  let '(err, bit_header) := r in
  if nz err then ret (err, bit_header) else
  err <- ioctl_mcap_program buffer (bit_buf + HeaderLength bit_header) (BitstreamLength bit_header) ;;
  ret (err, bit_header).

Definition bitstream_ioctl_mcap (bit_buf length : Z) : prog shell Z :=
  if (bit_buf =? 0) || (length =? 0) then ret (- EINVAL) else
  freezeAXIGate ;;
  buffer <- malloc kmalloc DMA_HWICAP_BITFILE_BUFFER_SIZE ;;
  if buffer =? 0 then free_buffers buffer zero_header ;; ret (- ENOMEM) else
  r <- ioctl_mcap_body buffer bit_buf length ;;
  let '(err, bit_header) := r in
  free_buffers buffer bit_header ;;
  ret err.

(** ** The ioctl *)

(** [_IOW('x', nr, size)], and enum XDMA_IOC_TYPES (xdma-ioctl.h) *)
Definition XDMA_IOC_MAGIC : Z := 120.
Definition XDMA_IOC_INFO : Z := 1.
Definition XDMA_IOC_ICAP_DOWNLOAD : Z := 2.
Definition XDMA_IOC_MCAP_DOWNLOAD : Z := 3.
Definition XDMA_IOC_HOT_RESET : Z := 4.
Definition XDMA_IOC_OCL_RESET : Z := 5.
Definition XDMA_IOC_OCL_FREQ_SCALING : Z := 6.
Definition XDMA_IOCINFO : Z := IOC 3 40 XDMA_IOC_MAGIC XDMA_IOC_INFO.
Definition XDMA_IOCICAPDOWNLOAD : Z := IOC 1 16 XDMA_IOC_MAGIC XDMA_IOC_ICAP_DOWNLOAD.
Definition XDMA_IOCMCAPDOWNLOAD : Z := IOC 1 16 XDMA_IOC_MAGIC XDMA_IOC_MCAP_DOWNLOAD.
Definition XDMA_IOCHOTRESET : Z := IOC 1 8 XDMA_IOC_MAGIC XDMA_IOC_HOT_RESET.
Definition XDMA_IOCOCLRESET : Z := IOC 1 8 XDMA_IOC_MAGIC XDMA_IOC_OCL_RESET.
Definition XDMA_IOCFREQSCALING : Z := IOC 3 12 XDMA_IOC_MAGIC XDMA_IOC_OCL_FREQ_SCALING.

(** sizeof(struct xdma_ioc_bitstream); [xclbin] is at offset 8 *)
Definition sizeof_ioc_bitstream : Z := 16.

(** the test that an image lies in the [len] bytes of the container *)
Definition fits (len off n : Z) : bool := negb (len <? u64 (off + n)).
Definition primary_fits (b : xclBin) : bool :=
  fits (m_length b) (m_primaryFirmwareOffset b) (m_primaryFirmwareLength b).
Definition secondary_fits (b : xclBin) : bool :=
  fits (m_length b) (m_secondaryFirmwareOffset b) (m_secondaryFirmwareLength b).

(** the secondary firmware of a container is kept for the next download *)
Definition stash_secondary (xclbin : Z) (b : xclBin) : prog shell Z :=
  old <- gets clear_bitstream ;;
  mfree vfree old ;;
  p <- malloc vmalloc (m_secondaryFirmwareLength b) ;;
  modify (fun s => s <| clear_bitstream := p |>) ;;
  if p =? 0 then modify (fun s => s <| clear_bitstream_length := 0 |>) ;; ret (- ENOMEM) else
  err <- copy_to_block p (xclbin + m_secondaryFirmwareOffset b) (m_secondaryFirmwareLength b) ;;
  if nz err then drop_clear_bitstream ;; ret (- EFAULT)
  else
    modify (fun s => s <| clear_bitstream_length := u32 (m_secondaryFirmwareLength b) |>) ;;
    ret 0.

Definition bitstream_ioctl (cmd arg : Z) : prog shell Z :=
  c <- copy_from_user_ arg sizeof_ioc_bitstream ;;
  if nz (fst c) then ret (- EFAULT) else
  let xclbin := member (snd c) 8 8 in
  c <- copy_from_user_ xclbin sizeof_xclBin ;;
  if nz (fst c) then ret (- EFAULT) else
  let bin_obj := xclBin_of (snd c) in
  if negb (bool_decide (m_magic bin_obj = xclbin0)) then ret (- EINVAL) else
  if negb (primary_fits bin_obj) then ret (- EINVAL) else
  if negb (secondary_fits bin_obj) then ret (- EINVAL) else
  ok <- ext access_ok [0; xclbin; m_length bin_obj] ;;
  if negb (nz ok) then ret (- EFAULT) else
  let buffer := xclbin + m_primaryFirmwareOffset bin_obj in
  r <- (if cmd =? XDMA_IOCICAPDOWNLOAD then
      err <- bitstream_ioctl_icap buffer (m_primaryFirmwareLength bin_obj) ;; ret (Some err)
    else if cmd =? XDMA_IOCMCAPDOWNLOAD then
      err <- bitstream_ioctl_mcap buffer (m_primaryFirmwareLength bin_obj) ;; ret (Some err)
    else ret None) ;;
  match r with
  | None => ret (- EINVAL)
  | Some err =>
      if nz (m_secondaryFirmwareLength bin_obj) then stash_secondary xclbin bin_obj else ret err
  end.

(** ** The second stage at boot *)

Definition bitstream_mcap (buffer : cptr) (length : Z) : prog shell Z :=
  BUG_ON (fst buffer =? 0) ;;
  BUG_ON (length =? 0) ;;
  r <- parse_and_check buffer length ;;
  let '(err, bit_header) := r in
  err <- (if nz err then ret err else
    let data := (fst buffer, snd buffer + HeaderLength bit_header) in
    let len := BitstreamLength bit_header / 4 in
    er <- bitstream_mcap_setup true ;;
    let '(err, restore) := er in
    if nz err then ret err else
    _ <- bitstream_mcap_helper data len ;;
    bad <- programming_failed ;;
    if (bad : bool) then
      MCapRegWrite MCAP_CONTROL restore ;;
      _ <- MCapFullReset ;;
      ret (- EIO)
    else
      let restore := Z.lor restore MCAP_CTRL_DESIGN_SWITCH_MASK in
      MCapRegWrite MCAP_CONTROL restore ;;
      ret 0) ;;
  free_strings bit_header ;;
  ret err.

(** [request_firmware()] under the name that [name] stands for: the error, the
    size, and a block with the bytes *)
Definition request_fw (name : list Z) : prog shell (Z * (Z * Z)) :=
  r <- ext_all request_firmware name ;;
  let err := nth 0 r 0 in
  if nz err then ret (err, (0, 0)) else
  let size := nth 1 r 0 in
  b <- gets (fun s => fresh (drv s)) ;;
  modify (fun s => s <| drv ::= (fun w => w <| fresh := b + 1 |>) |>
    <| bufs ::= <[b := env_bytes size (tail (tail r))]> |>) ;;
  ret (0, (b, size)).
Definition release_fw (b : Z) : prog shell unit := mfree release_firmware b.

(** the three names that are tried *)
Definition find_firmware : prog shell (Z * (Z * Z)) :=
  ids <- gets pdev_ids ;;
  feature <- gets feature_id ;;
  r <- request_fw [1; le16_to_cpu (vendor ids); le16_to_cpu (device ids);
    le16_to_cpu (subsystem_device ids); le64_to_cpu feature] ;;
  if negb (nz (fst r)) then ret r else
  r <- request_fw [2; le16_to_cpu (vendor ids); le16_to_cpu (device ids)] ;;
  if negb (nz (fst r)) then ret r else
  request_fw [3].

(** the primary firmware is loaded, and replaces the stash: the error *)
Definition load_primary (fw : Z) (b : xclBin) : prog shell Z :=
  if nz (m_primaryFirmwareLength b) then
    err <- bitstream_mcap (fw, m_primaryFirmwareOffset b) (u32 (m_primaryFirmwareLength b)) ;;
    drop_clear_bitstream ;;
    ret err
  else ret 0.

(** the secondary firmware is kept when it is more recent than the stash *)
Definition stash_boot_secondary (fw : Z) (b : xclBin) : prog shell Z :=
  stash <- gets clear_bitstream ;;
  if nz (m_secondaryFirmwareLength b) && (nz (m_primaryFirmwareLength b) || (stash =? 0)) then
    mfree vfree stash ;;
    p <- malloc vmalloc (m_secondaryFirmwareLength b) ;;
    modify (fun s => s <| clear_bitstream := p |>) ;;
    if p =? 0 then modify (fun s => s <| clear_bitstream_length := 0 |>) ;; ret (- ENOMEM) else
    let n := u32 (m_secondaryFirmwareLength b) in
    modify (fun s => s <| clear_bitstream_length := n |>) ;;
    l <- bytes_at (fw, m_secondaryFirmwareOffset b) n ;;
    store_bytes p l ;;
    ret 0
  else ret 0.

(** the stash must begin with a header *)
Definition check_stash : prog shell (Z * XHwIcap_Bit_Header) :=
  stash <- gets clear_bitstream ;;
  if stash =? 0 then ret (0, zero_header) else
  r <- bitstream_parse_header (stash, 0) DMA_HWICAP_BITFILE_BUFFER_SIZE zero_header ;;
  let '(rc, bit_header) := r in
  if nz rc then drop_clear_bitstream ;; ret (- EINVAL, bit_header) else ret (0, bit_header).

(** a member of the container in the firmware *)
Definition fw_member (fw o : Z) : prog shell Z := l <- bytes_at (fw, o) 8 ;; ret (load l).

(** from the header of the container, the magic of which is not looked at, to
    the label done *)
Definition use_firmware (fw size : Z) : prog shell (Z * XHwIcap_Bit_Header) :=
  len <- fw_member fw 8 ;;
  if size <? len then ret (- EINVAL, zero_header) else
  poff <- fw_member fw 80 ;;
  plen <- fw_member fw 88 ;;
  if negb (fits len poff plen) then ret (- EINVAL, zero_header) else
  soff <- fw_member fw 96 ;;
  slen <- fw_member fw 104 ;;
  if negb (fits len soff slen) then ret (- EINVAL, zero_header) else
  let bin_obj := mk_xclBin [] len poff plen soff slen in
  err <- load_primary fw bin_obj ;;
  if nz err then ret (err, zero_header) else
  err <- stash_boot_secondary fw bin_obj ;;
  if nz err then ret (err, zero_header) else
  check_stash.

Definition load_boot_firmware : prog shell Z :=
  r <- find_firmware ;;
  let '(err, (fw, size)) := r in
  if nz err then ret 0 else
  r <- use_firmware fw size ;;
  let '(err, bit_header) := r in
  release_fw fw ;;
  free_strings bit_header ;;
  ret err.
End Bitstream.
