(* ===== verification/ShellIoctl.v ===== *)
(** * The ioctls of the control device (xdma-ioctl.c)

    The information, download, reset and frequency commands, their dispatch,
    and the reset of a device whose compute units are running. *)
From S2P Require Import Prelude Layout Kernel World CharDev Shell Bitstream.
#[local] Open Scope Z_scope.

Definition PCI_MIN_GNT : Z := 0x3e.
Definition XDMA_XCL_MAGIC : Z := 0X586C0C6C.
Definition sizeof_ioc_base : Z := 8.
Definition sizeof_ioc_info : Z := 40.
Definition sizeof_ioc_freqscaling : Z := 12.
(** the fields of an ioctl number *)
Definition IOC_DIR (cmd : Z) : Z := Z.land (Z.shiftr cmd 30) 3.
Definition IOC_SIZE (cmd : Z) : Z := Z.land (Z.shiftr cmd 16) 0x3fff.
Definition IOC_TYPE (cmd : Z) : Z := Z.land (Z.shiftr cmd 8) 0xff.
Definition IOC_WRITE : Z := 1.
Definition IOC_READ : Z := 2.
Definition VERIFY_READ : Z := 0.
Definition VERIFY_WRITE : Z := 1.

Section ShellIoctl.
Context {env : Env} {ho : HostOrder}.

(** RTO is not defined; the result is not looked at *)
Definition link_info : prog shell Z := ret 0.

Definition version_ioctl (arg : Z) : prog shell Z :=
  c <- copy_from_user_ arg sizeof_ioc_info ;;
  if nz (fst c) then ret (- EFAULT) else
  ids <- gets pdev_ids ;;
  feature <- gets feature_id ;;
  ocl_frequency <- get_ocl_frequency ;;
  _ <- link_info ;;
  e <- ext copy_to_user [arg; 0; 0; vendor ids; device ids; subsystem_vendor ids;
    subsystem_device ids; 0; 0x10000; feature; u32 ocl_frequency] ;;
  if nz e then ret (- EFAULT) else ret 0.

Definition reset_ocl_ioctl : prog shell Z :=
  busy <- compute_unit_busy ;;
  if negb (nz busy) then ret 0 else
  freezeAXIGate ;;
  freeAXIGate ;;
  busy <- compute_unit_busy ;;
  if nz busy then ret (- EBUSY) else ret 0.

(** ** Hot reset *)

Definition read_config (i : Z) : prog shell Z :=
  pdev <- the_pdev ;; r <- ext_all pci_read_config_dword [pdev; i] ;; ret (u32 (nth 1 r 0)).
Definition write_config (i v : Z) : prog shell unit :=
  pdev <- the_pdev ;; ext_ pci_write_config_dword [pdev; i; v].

Definition reset_hot_ioctl : prog shell Z :=
  ids <- gets pdev_ids ;;
  BUG_ON (pdev_bus ids =? 0) ;;
  BUG_ON (bus_self ids =? 0) ;;
  pci_cfg <- malloc kmalloc 0x100 ;;
  if pci_cfg =? 0 then ret (- ENOMEM) else
  for_ 0 64 (fun k => v <- read_config (4 * k) ;; set_word_at pci_cfg k v) ;;
  r <- ext_all pci_read_config_byte [bus_self ids; PCI_MIN_GNT] ;;
  let hot := u8 (nth 1 r 0) in
  ext_ pci_write_config_byte [bus_self ids; PCI_MIN_GNT; Z.lor hot 0x40] ;;
  ext_ ssleep [1] ;;
  ext_ pci_write_config_byte [bus_self ids; PCI_MIN_GNT; hot] ;;
  ext_ ssleep [1] ;;
  for_ 0 64 (fun k => v <- word_at (pci_cfg, 0) k ;; write_config (4 * k) v) ;;
  ext_ ssleep [1] ;;
  for_ 0 64 (fun k => _ <- read_config (4 * k) ;; _ <- word_at (pci_cfg, 0) k ;; ret tt) ;;
  err <- reinit ;;
  ext_ ssleep [1] ;;
  mfree kfree pci_cfg ;;
  ret err.

(** ** Frequency scaling *)

(** the word for CONFIG(2): the divider with its fraction, as the code
    computes it *)
Definition divider_config (t : xdma_ocl_clockwiz) : Z :=
  let config := divide_frac t in
  let config := u32 (Z.shiftl config 8) in
  let config := if nz config then Z.land config (Z.shiftl 0x1 18) else config in
  Z.lor config (divide t).

(** the 1000 reads of the status; the last one is the result *)
Fixpoint wait_locked (n : nat) (val : Z) : prog shell Z :=
  match n with
  | O => ret val
  | Datatypes.S n' =>
      val <- user_read OCL_CLKWIZ_STATUS ;;
      when (negb (val =? 1)) (ext_ msleep [100]) ;;
      wait_locked n' val
  end.

(** from the reprogramming to the label done *)
Definition program_clock (config idx : Z) : prog shell Z :=
  user_write config (OCL_CLKWIZ_CONFIG 0) ;;
  t <- deref (fun _ => zlookup frequency_table idx) ;;
  user_write (divider_config t) (OCL_CLKWIZ_CONFIG 2) ;;
  ext_ msleep [10] ;;
  user_write 0x00000007 (OCL_CLKWIZ_CONFIG 23) ;;
  ext_ msleep [10] ;;
  user_write 0x00000002 (OCL_CLKWIZ_CONFIG 23) ;;
  ext_ msleep [100] ;;
  val <- wait_locked 1000 0 ;;
  if negb (val =? 1) then
    user_write 0x00000004 (OCL_CLKWIZ_CONFIG 23) ;;
    ext_ msleep [10] ;;
    user_write 0x00000000 (OCL_CLKWIZ_CONFIG 23) ;;
    ret (- EINVAL)
  else ret 0.

(** from the freezing of the gate to the end *)
Definition scale_frequency (config idx : Z) : prog shell Z :=
  freezeAXIGate ;;
  _ <- user_read (OCL_CLKWIZ_CONFIG 0) ;;
  _ <- user_read (OCL_CLKWIZ_CONFIG 2) ;;
  val <- user_read OCL_CLKWIZ_STATUS ;;
  err <- (if negb (val =? 1) then ret (- EBUSY) else program_clock config idx) ;;
  _ <- get_ocl_frequency ;;
  freeAXIGate ;;
  ret err.

(** [frequency_table[0].ocl] *)
Definition ocl_step : Z := 25.

Definition ocl_freqscaling_ioctl (arg : Z) : prog shell Z :=
  d <- device_id ;;
  let config := if d =? KU3_DEVICE then 0x04000501 else 0x04000a01 in
  c <- copy_from_user_ arg sizeof_ioc_freqscaling ;;
  if nz (fst c) then ret (- EFAULT) else
  let ocl_target_freq := member (snd c) 8 4 in
  val <- user_read OCL_CLKWIZ_STATUS ;;
  if Z.land val 0x1 =? 0 then ret (- EBUSY) else
  busy <- compute_unit_busy ;;
  if nz busy then ret (- EBUSY) else
  if (250 <? ocl_target_freq) || (ocl_target_freq <? ocl_step) then ret (- EINVAL) else
  _ <- get_ocl_frequency ;;
  scale_frequency config (ocl_target_freq / ocl_step - 1).

(** ** Dispatch *)

(** the access the direction of the command asks for *)
Definition check_access (cmd arg : Z) : prog shell bool :=
  if nz (Z.land (IOC_DIR cmd) IOC_READ) then
    ok <- ext access_ok [VERIFY_WRITE; arg; IOC_SIZE cmd] ;; ret (nz ok)
  else if nz (Z.land (IOC_DIR cmd) IOC_WRITE) then
    ok <- ext access_ok [VERIFY_READ; arg; IOC_SIZE cmd] ;; ret (nz ok)
  else ret true.

Definition dispatch (cmd arg : Z) : prog shell Z :=
  if cmd =? XDMA_IOCINFO then version_ioctl arg else
  if (cmd =? XDMA_IOCICAPDOWNLOAD) || (cmd =? XDMA_IOCMCAPDOWNLOAD) then bitstream_ioctl cmd arg else
  if cmd =? XDMA_IOCOCLRESET then reset_ocl_ioctl else
  if cmd =? XDMA_IOCHOTRESET then reset_hot_ioctl else
  if cmd =? XDMA_IOCFREQSCALING then ocl_freqscaling_ioctl arg else
  ret (- ENOTTY).

Definition char_ctrl_ioctl (lro_char cmd arg : Z) : prog shell Z :=
  ch <- lift (check_char lro_char) ;;
  lift (check_lro ch) ;;
  user <- lift (getL user_char_dev) ;;
  if negb (lro_char =? user) then ret (- ENOTTY) else
  if negb (IOC_TYPE cmd =? XDMA_IOC_MAGIC) then ret (- ENOTTY) else
  ok <- check_access cmd arg ;;
  if negb ok then ret (- EFAULT) else
  c <- copy_from_user_ arg sizeof_ioc_base ;;
  if nz (fst c) then ret (- EFAULT) else
  if negb (member (snd c) 0 4 =? XDMA_XCL_MAGIC) then ret (- ENOTTY) else
  dispatch cmd arg.

Definition reset_device_if_running : prog shell Z :=
  busy <- compute_unit_busy ;;
  if negb (nz busy) then ret 0 else
  _ <- lift (c <- getL user_char_dev ;; deref (fun w => chars w !! c)) ;;
  r <- reset_ocl_ioctl ;;
  if r =? 0 then ret 0 else reset_hot_ioctl.
End ShellIoctl.
