(* ===== verification/BitFacts.v ===== *)
(** * What the parser of the bitstream header accepts (xdma-bit.c)

    [print_header] is the format of the header; [bitstream_parse_header]
    accepts exactly what it prints. *)
From S2P Require Import Prelude Layout Kernel World CharDev Shell Bitstream.
#[local] Open Scope Z_scope.

(** ** The format *)

(** what a header says; [filler] is the byte behind the magic bytes, which is
    not looked at *)
Record bit_file : Type := mk_bit_file {
  magic_length : Z;
  filler : Z;
  design : list Z;
  part : list Z;
  date : list Z;
  time : list Z;
  data_length : Z
}.

Definition is_byte (b : Z) : Prop := 0 <= b < 256.
Definition be16 (n : Z) : list Z := [n / 256; n mod 256].
Definition be32 (n : Z) : list Z := be16 (n / 65536) ++ be16 (n mod 65536).
Definition magic_byte (i : Z) : Z := if i mod 2 =? 0 then XHI_EVEN_MAGIC_BYTE else XHI_ODD_MAGIC_BYTE.
Fixpoint magic_string (i : Z) (n : nat) : list Z :=
  match n with O => [] | S n' => magic_byte i :: magic_string (i + 1) n' end.
Definition tagged (t : Z) (l : list Z) : list Z := t :: be16 (Z.of_nat (length l)) ++ l.

Definition print_header (f : bit_file) : list Z :=
  be16 (magic_length f) ++ magic_string 0 (Z.to_nat (magic_length f - 1)) ++ [filler f] ++ be16 1 ++
  tagged 97 (design f) ++ tagged 98 (part f) ++ tagged 99 (date f) ++ tagged 100 (time f) ++
  101 :: be32 (data_length f).

(** a string with the null that ends it, and a length of two bytes *)
Definition c_string (l : list Z) : Prop :=
  (exists l', l = l' ++ [0]) /\ Z.of_nat (length l) < 65536.
Definition header_wf (f : bit_file) : Prop :=
  1 <= magic_length f < 65536 /\ c_string (design f) /\ c_string (part f) /\ c_string (date f) /\
  c_string (time f) /\ is_u32 (data_length f).

(** ** Words of bytes *)

Lemma word_of_two_value hi lo : 0 <= hi -> 256 * hi + lo < 2 ^ 32 -> is_byte lo -> word_of_two hi lo = 256 * hi + lo.
Proof.
  intros Hh Hs Hl. unfold word_of_two. unfold is_byte in Hl.
  rewrite Z.lor_comm, lor_shiftl_add by lia. rewrite u32_id; [lia|unfold is_u32; lia].
Qed.

Lemma be16_two hi lo : is_byte hi -> is_byte lo -> be16 (256 * hi + lo) = [hi; lo].
Proof.
  unfold is_byte, be16. intros. f_equal; [|f_equal].
  - symmetry. apply (Z.div_unique _ _ _ lo); lia.
  - symmetry. apply (Z.mod_unique _ _ hi); lia.
Qed.

Lemma be16_inv n : be16 n = [n / 256; n mod 256].
Proof. reflexivity. Qed.

Lemma be16_bytes n : 0 <= n < 65536 -> is_byte (n / 256) /\ is_byte (n mod 256) /\ 256 * (n / 256) + n mod 256 = n.
Proof.
  unfold is_byte. intros. pose proof (Z.mod_pos_bound n 256 ltac:(lia)).
  pose proof (Z.div_mod n 256 ltac:(lia)). split; [|lia].
  split; [apply Z.div_pos; lia|apply Z.div_lt_upper_bound; lia].
Qed.

Lemma word_of_be16 n : 0 <= n < 65536 -> word_of_two (n / 256) (n mod 256) = n.
Proof.
  intros H. destruct (be16_bytes n H) as (H1 & H2 & H3). unfold is_byte in *.
  rewrite word_of_two_value; lia || exact H2.
Qed.

(** ** The stream of bytes a pointer and an index stand for *)

Section Parse.
Context {env : Env}.

(** [l] is what [Data] holds from [Index] on *)
Definition stream (s : shell) (Data : cptr) (Index : Z) (l : list Z) : Prop :=
  exists L, bufs s !! fst Data = Some L /\ 0 <= snd Data /\ 0 <= Index /\
    snd Data + Index <= Z.of_nat (length L) < 2 ^ 31 /\ l = drop (Z.to_nat (snd Data + Index)) L.

Lemma stream_length s D i l : stream s D i l -> 0 <= i /\ i + Z.of_nat (length l) < 2 ^ 31.
Proof. intros (L & _ & ? & ? & ? & ->). rewrite length_drop. lia. Qed.

Lemma stream_app s D i l1 l2 : stream s D i (l1 ++ l2) -> stream s D (i + Z.of_nat (length l1)) l2.
Proof.
  intros (L & HL & Ho & Hi & Hb & E). exists L. split; [exact HL|]. split; [exact Ho|].
  assert (length (l1 ++ l2) = (length L - Z.to_nat (snd D + i))%nat) as Hl by (rewrite E; apply length_drop).
  rewrite length_app in Hl. split; [lia|]. split; [lia|].
  replace (Z.to_nat (snd D + (i + Z.of_nat (length l1)))) with (Z.to_nat (snd D + i) + length l1)%nat by lia.
  rewrite <- drop_drop, <- E. rewrite drop_app_length. reflexivity.
Qed.

Lemma stream_cons s D i x l : stream s D i (x :: l) -> stream s D (i + 1) l.
Proof. apply (stream_app _ _ _ [x]). Qed.

Lemma stream_lookup s D i l k :
  stream s D i l -> 0 <= k < Z.of_nat (length l) ->
  byte_at D (i + k) s = match zlookup l k with Some x => Ok x s | None => Abort BadAccess end.
Proof.
  intros (L & HL & Ho & Hi & Hb & E) Hk. unfold byte_at, deref. rewrite HL. simpl.
  assert (zlookup L (snd D + (i + k)) = zlookup l k) as ->; [|destruct (zlookup l k); reflexivity].
  unfold zlookup. destruct (Z.ltb_spec (snd D + (i + k)) 0); [lia|]. destruct (Z.ltb_spec k 0); [lia|].
  rewrite E, lookup_drop. f_equal. lia.
Qed.

Lemma stream_lookup_out s D i l k :
  stream s D i l -> Z.of_nat (length l) <= k -> byte_at D (i + k) s = Abort BadAccess.
Proof.
  intros (L & HL & Ho & Hi & Hb & E) Hk. unfold byte_at, deref. rewrite HL. simpl.
  subst l. rewrite length_drop in Hk.
  destruct (zlookup L (snd D + (i + k))) eqn:Ez; [|reflexivity].
  apply zlookup_Some in Ez. lia.
Qed.

Lemma byte_at_eq D i s l :
  stream s D i l -> byte_at D i s = match l with x :: _ => Ok x s | [] => Abort BadAccess end.
Proof.
  intros H. destruct l as [|x l].
  - rewrite <- (Z.add_0_r i). apply (stream_lookup_out _ _ _ []); [exact H|simpl; lia].
  - rewrite <- (Z.add_0_r i) at 1. rewrite (stream_lookup _ _ _ _ 0 H) by (simpl; lia). reflexivity.
Qed.

Lemma next_byte_eq D i s l :
  stream s D i l ->
  next_byte D i s = match l with x :: _ => Ok (x, i + 1) s | [] => Abort BadAccess end.
Proof.
  intros H. unfold next_byte, bind. rewrite (byte_at_eq _ _ _ _ H). pose proof (stream_length _ _ _ _ H).
  destruct l as [|x l]; [reflexivity|]. unfold ret. rewrite u32_id by (unfold is_u32; simpl in *; lia).
  reflexivity.
Qed.

Lemma next_half_eq D i s l :
  stream s D i l ->
  next_half D i s = match l with
    | hi :: lo :: _ => Ok (word_of_two hi lo, i + 2) s | _ => Abort BadAccess end.
Proof.
  intros H. unfold next_half, bind. rewrite (next_byte_eq _ _ _ _ H).
  destruct l as [|hi l]; [reflexivity|]. rewrite (next_byte_eq _ _ _ _ (stream_cons _ _ _ _ _ H)).
  destruct l as [|lo l]; [reflexivity|]. unfold ret. do 2 f_equal. lia.
Qed.

(** ** The magic bytes *)

Definition magic_turn (D : cptr) (idx I : Z) : prog shell (option Z) :=
  Tmp <- byte_at D (u32 (idx + I)) ;;
  if (I mod 2 =? 0) && negb (Tmp =? XHI_EVEN_MAGIC_BYTE) then ret (Some (-1)) else
  if (I mod 2 =? 1) && negb (Tmp =? XHI_ODD_MAGIC_BYTE) then ret (Some (-1)) else
  ret None.

Lemma magic_turn_eq D idx I s l :
  0 <= idx -> 0 <= I -> stream s D (idx + I) l ->
  magic_turn D idx I s = match l with
    | x :: _ => Ok (if x =? magic_byte I then None else Some (-1)) s | [] => Abort BadAccess end.
Proof.
  intros H0 HI H. unfold magic_turn, bind. pose proof (stream_length _ _ _ _ H).
  rewrite u32_id by (unfold is_u32; lia). rewrite (byte_at_eq _ _ _ _ H).
  destruct l as [|x l]; [reflexivity|]. unfold magic_byte.
  pose proof (Z.mod_pos_bound I 2 ltac:(lia)).
  destruct (Z.eqb_spec (I mod 2) 0) as [E|E].
  - rewrite E. simpl. destruct (x =? XHI_EVEN_MAGIC_BYTE); reflexivity.
  - destruct (Z.eqb_spec (I mod 2) 1); [|lia]. simpl. destruct (x =? XHI_ODD_MAGIC_BYTE); reflexivity.
Qed.


Lemma magic_loop_complete D idx s n : forall I rest,
  0 <= idx -> 0 <= I -> stream s D (idx + I) (magic_string I n ++ rest) ->
  for_exit_from I n (magic_turn D idx) s = Ok None s.
Proof.
  induction n as [|n IH]; intros I rest H0 HI H; [reflexivity|]. rewrite for_exit_from_S. unfold bind.
  simpl in H. rewrite (magic_turn_eq _ _ _ _ _ H0 HI H), Z.eqb_refl.
  apply (IH _ rest); [lia|lia|]. rewrite Z.add_assoc. exact (stream_cons _ _ _ _ _ H).
Qed.

Lemma magic_loop_sound D idx s n : forall I l s',
  0 <= idx -> 0 <= I -> stream s D (idx + I) l ->
  for_exit_from I n (magic_turn D idx) s = Ok None s' ->
  s' = s /\ exists rest, l = magic_string I n ++ rest.
Proof.
  induction n as [|n IH]; intros I l s' H0 HI H E; [|rewrite for_exit_from_S in E].
  - injection E as <-. split; [reflexivity|]. exists l. reflexivity.
  - unfold bind in E. rewrite (magic_turn_eq _ _ _ _ _ H0 HI H) in E.
    destruct l as [|x l]; [discriminate|]. destruct (Z.eqb_spec x (magic_byte I)) as [Ex|]; [|discriminate].
    destruct (IH (I + 1) l s') as (Es & rest & El); [lia|lia| |exact E|].
    + rewrite Z.add_assoc. exact (stream_cons _ _ _ _ _ H).
    + split; [exact Es|]. exists rest. subst. reflexivity.
Qed.

Lemma magic_string_length n : forall i, length (magic_string i n) = n.
Proof. induction n; intros; simpl; [reflexivity|f_equal; auto]. Qed.

Lemma magic_ok_unfold D idx m :
  magic_bytes_ok D idx m = (r <- for_exit 0 (u32 (m - 1)) (magic_turn D idx) ;;
    ret (match r with None => true | Some _ => false end)).
Proof. reflexivity. Qed.

Lemma magic_complete D idx m s rest :
  1 <= m < 65536 -> stream s D idx (magic_string 0 (Z.to_nat (m - 1)) ++ rest) ->
  magic_bytes_ok D idx m s = Ok true s.
Proof.
  intros Hm H. rewrite magic_ok_unfold. unfold bind, for_exit.
  rewrite u32_id, Z.sub_0_r by (unfold is_u32; lia). pose proof (stream_length _ _ _ _ H).
  rewrite (magic_loop_complete _ _ _ _ 0 rest); [reflexivity|lia|lia|]. rewrite Z.add_0_r. exact H.
Qed.

Lemma magic_sound D idx m s l s' :
  0 <= m < 65536 -> stream s D idx l -> magic_bytes_ok D idx m s = Ok true s' ->
  s' = s /\ 1 <= m /\ exists rest, l = magic_string 0 (Z.to_nat (m - 1)) ++ rest.
Proof.
  intros Hm H E. rewrite magic_ok_unfold in E. unfold bind, for_exit in E.
  pose proof (stream_length _ _ _ _ H) as [H0 Hl].
  destruct (for_exit_from 0 _ _ s) as [[x|] s1|] eqn:E1; [discriminate| |discriminate].
  injection E as <-. apply (magic_loop_sound _ _ _ _ 0 l) in E1 as (-> & rest & E); [|lia|lia|rewrite Z.add_0_r; exact H].
  split; [reflexivity|]. destruct (decide (m = 0)) as [->|].
  - exfalso. rewrite E, length_app, magic_string_length in Hl.
    change (u32 (0 - 1)) with 4294967295 in Hl. lia.
  - rewrite u32_id in E by (unfold is_u32; lia). rewrite Z.sub_0_r in E. split; [lia|]. exists rest. exact E.
Qed.

(** ** Strings *)

(** memory the heap has not given out yet *)
Definition heap_ok (s : shell) : Prop :=
  0 < fresh (drv s) /\ forall p, p <= 0 \/ fresh (drv s) <= p -> bufs s !! p = None.

(** a call of [kmalloc] that gave the block [fresh], which now holds [str] *)
Definition with_string (str : list Z) (s : shell) : shell :=
  let n := Z.of_nat (length str) in
  s <| drv ::= (fun w => log (Call kmalloc [n] (answer (trace w) kmalloc [n])) w
        <| fresh := fresh w + 1 |>) |>
    <| bufs ::= <[fresh (drv s) := str]> |>.

Lemma with_string_heap str s : heap_ok s -> heap_ok (with_string str s).
Proof.
  intros [Hf Hn]. split; [change (0 < fresh (drv s) + 1); lia|]. intros p Hp.
  change (fresh (drv (with_string str s))) with (fresh (drv s) + 1) in Hp.
  change (<[fresh (drv s) := str]> (bufs s) !! p = None).
  rewrite lookup_insert_ne by lia. apply Hn. lia.
Qed.

Lemma stream_with_string str s D i l :
  heap_ok s -> stream s D i l -> stream (with_string str s) D i l.
Proof.
  intros [Hf Hn] (L & HL & H). exists L. split; [|exact H].
  change (<[fresh (drv s) := str]> (bufs s) !! fst D = Some L).
  rewrite lookup_insert_ne; [exact HL|]. intros E.
  rewrite Hn in HL by lia. discriminate.
Qed.

Lemma set_byte_at_eq b i v blk s :
  bufs s !! b = Some blk -> 0 <= i < Z.of_nat (length blk) ->
  set_byte_at b i v s = Ok tt (s <| bufs ::= <[b := zinsert i v blk]> |>).
Proof.
  intros Hb Hi. destruct (zlookup_is_Some _ _ Hi) as [x Hx]. unfold set_byte_at.
  rewrite (bind_ok _ _ s x s) by (unfold byte_at, deref; simpl; rewrite Hb, Z.add_0_l; simpl; rewrite Hx; reflexivity).
  unfold modify. f_equal.
  unfold set_bufs. simpl. f_equal. apply map_eq. intros k. destruct (decide (k = b)) as [->|Hk].
  - rewrite lookup_alter_eq, Hb, lookup_insert_eq. reflexivity.
  - rewrite lookup_alter_ne, lookup_insert_ne by congruence. reflexivity.
Qed.

Lemma shell_bufs_twice s b x y :
  s <| bufs ::= <[b := x]> |> <| bufs ::= <[b := y]> |> = s <| bufs ::= <[b := y]> |>.
Proof. unfold set_bufs. simpl. f_equal. apply insert_insert_eq. Qed.

Definition copy_turn (D : cptr) (idx name I : Z) : prog shell unit :=
  b <- byte_at D (u32 (idx + I)) ;; set_byte_at name I b.


(** the bytes [l] from the index [I] on go behind the [pre] copied already *)
Lemma copy_loop_eq D idx name s n : forall I pre junk l,
  0 <= idx -> Z.of_nat (length pre) = I -> length junk = n -> bufs s !! name = Some (pre ++ junk) ->
  fst D <> name -> stream s D (idx + I) l ->
  for_from I n (copy_turn D idx name) s
  = if (n <=? length l)%nat then Ok tt (s <| bufs ::= <[name := pre ++ take n l]> |>)
    else Abort BadAccess.
Proof.
  intros I pre junk l. revert s I pre junk l.
  induction n as [|n IH]; intros s I pre junk l H0 HI Hj Hb Hne H.
  - simpl. rewrite app_nil_r. change (for_from I 0 (copy_turn D idx name) s) with (Ok tt s : result shell unit).
    f_equal. apply nil_length_inv in Hj. subst junk. rewrite app_nil_r in Hb.
    destruct s; unfold set_bufs; simpl in *. f_equal. symmetry. apply insert_id, Hb.
  - destruct junk as [|j junk]; [discriminate|]. injection Hj as Hj.
    rewrite for_from_S. unfold bind at 1, copy_turn at 1. unfold bind at 1.
    pose proof (stream_length _ _ _ _ H). rewrite u32_id by (unfold is_u32; lia).
    rewrite (byte_at_eq _ _ _ _ H). destruct l as [|x l]; [reflexivity|].
    rewrite (set_byte_at_eq _ _ _ (pre ++ j :: junk)); [|exact Hb|rewrite length_app; simpl; lia].
    assert (zinsert I x (pre ++ j :: junk) = (pre ++ [x]) ++ junk) as ->.
    { unfold zinsert. destruct (Z.ltb_spec I 0); [lia|].
      rewrite insert_app_r_alt by lia. replace (Z.to_nat I - length pre)%nat with 0%nat by lia.
      rewrite <- app_assoc. reflexivity. }
    rewrite (IH _ (I + 1) (pre ++ [x]) junk l); [|exact H0|rewrite length_app; simpl; lia|exact Hj| |exact Hne|].
    + rewrite shell_bufs_twice, <- app_assoc. reflexivity.
    + apply lookup_insert_eq.
    + destruct (stream_cons _ _ _ _ _ H) as (L & HL & Hr). exists L.
      rewrite Z.add_assoc. split; [|exact Hr].
      change (<[name := (pre ++ [x]) ++ junk]> (bufs s) !! fst D = Some L).
      rewrite lookup_insert_ne; [exact HL|congruence].
Qed.

Context (Hkmalloc : forall h n, nth 0 (answer h kmalloc [n]) 0 <> 0).

Lemma malloc_eq n s :
  malloc kmalloc n s = Ok (fresh (drv s))
    (s <| drv ::= (fun w => log (Call kmalloc [n] (answer (trace w) kmalloc [n])) w
        <| fresh := fresh w + 1 |>) |>
      <| bufs ::= <[fresh (drv s) := env_bytes n (tail (answer (trace (drv s)) kmalloc [n]))]> |>).
Proof using Hkmalloc.
  unfold malloc. unfold bind at 1, ext_all. change (trace_of s) with (trace (drv s)).
  destruct (Z.eqb_spec (nth 0 (answer (trace (drv s)) kmalloc [n]) 0) 0) as [E|_]; [|reflexivity].
  destruct (Hkmalloc _ _ E).
Qed.

Lemma env_bytes_length n l : length (env_bytes n l) = Z.to_nat n.
Proof. unfold env_bytes. rewrite length_map, length_seq. reflexivity. Qed.

(** the copy of a string into the block that was allocated for it *)
Lemma copy_string_eq D i len s l :
  heap_ok s -> 0 <= len -> stream s D i l ->
  (name <- malloc kmalloc len ;; for_ 0 len (copy_turn D i name) ;; ret name) s
  = if (Z.to_nat len <=? length l)%nat
    then Ok (fresh (drv s)) (with_string (take (Z.to_nat len) l) s) else Abort BadAccess.
Proof using Hkmalloc.
  intros Hok Hlen H. pose proof (stream_length _ _ _ _ H) as [H0 _].
  rewrite (bind_ok _ _ _ _ _ (malloc_eq len s)). set (s1 := _ <| bufs ::= _ |>).
  unfold for_. rewrite Z.sub_0_r. unfold bind.
  assert (fst D <> fresh (drv s)) as Hne.
  { destruct H as (L & HL & _). intros E. rewrite (proj2 Hok) in HL by lia. discriminate. }
  rewrite (copy_loop_eq D i (fresh (drv s)) s1 (Z.to_nat len) 0 []
    (env_bytes len (tail (answer (trace (drv s)) kmalloc [len]))) l);
    [|exact H0|reflexivity|apply env_bytes_length|apply lookup_insert_eq|exact Hne|].
  - destruct (Nat.leb_spec (Z.to_nat len) (length l)) as [Hl|Hl]; [|reflexivity].
    unfold s1, with_string. rewrite shell_bufs_twice, length_take_le, Z2Nat.id by lia. reflexivity.
  - rewrite Z.add_0_r. destruct H as (L & HL & H). exists L. split; [|exact H].
    change (<[fresh (drv s) := env_bytes len (tail (answer (trace (drv s)) kmalloc [len]))]> (bufs s)
      !! fst D = Some L).
    rewrite lookup_insert_ne; [exact HL|congruence].
Qed.

Definition check_last (str : list Z) : option bool :=
  match last str with Some z => Some (z =? 0) | None => None end.

Lemma last_byte_eq str s :
  Z.of_nat (length str) < 65536 ->
  byte_at (fresh (drv s), 0) (u32 (Z.of_nat (length str) - 1)) (with_string str s)
  = match last str with Some z => Ok z (with_string str s) | None => Abort BadAccess end.
Proof.
  intros Hl. unfold byte_at, deref. cbn [fst snd].
  change (bufs (with_string str s)) with (<[fresh (drv s) := str]> (bufs s)).
  rewrite lookup_insert_eq. cbn [mbind option_bind]. rewrite Z.add_0_l.
  destruct str as [|x str]; [reflexivity|].
  rewrite u32_id by (unfold is_u32; simpl in *; lia).
  unfold zlookup. destruct (Z.ltb_spec (Z.of_nat (length (x :: str)) - 1) 0) as [E|_]; [simpl in E; lia|].
  rewrite last_lookup.
  replace (Z.to_nat (Z.of_nat (length (x :: str)) - 1)) with (pred (length (x :: str))) by (simpl; lia).
  reflexivity.
Qed.

Lemma bind_return {A} (m : prog shell A) (f : A -> prog shell unit) {B} (g : A -> prog shell B) s :
  (a <- m ;; f a ;; g a) s = (a <- (a <- m ;; f a ;; ret a) ;; g a) s.
Proof.
  unfold bind. destruct (m s) as [a s1|r]; [|reflexivity]. destruct (f a s1); reflexivity.
Qed.

(** what follows the tag of a string *)
Definition after_string (set : Z -> XHwIcap_Bit_Header -> XHwIcap_Bit_Header)
    (j : Z) (str : list Z) (H : XHwIcap_Bit_Header) (s : shell)
  : result shell (option Z * XHwIcap_Bit_Header) :=
  match last str with
  | Some z => Ok (if z =? 0 then Some j else None, set (fresh (drv s)) H) (with_string str s)
  | None => Abort BadAccess
  end.

Lemma read_string_eq D t set i H s l :
  heap_ok s -> stream s D i l -> Forall is_byte l ->
  read_string D t set i H s =
  match l with
  | x :: l1 => if negb (x =? t) then Ok (None, H) s else
      match l1 with
      | hi :: lo :: l2 => let len := 256 * hi + lo in
          if (Z.to_nat len <=? length l2)%nat
          then after_string set (i + 3 + len) (take (Z.to_nat len) l2) H s
          else Abort BadAccess
      | _ => Abort BadAccess
      end
  | [] => Abort BadAccess
  end.
Proof using Hkmalloc.
  intros Hok Hs Hb. unfold read_string. unfold bind at 1. rewrite (next_byte_eq _ _ _ _ Hs).
  destruct l as [|x l]; [reflexivity|]. destruct (Z.eqb_spec x t) as [->|]; [|reflexivity]. cbn [negb].
  apply stream_cons in Hs. unfold bind at 1. rewrite (next_half_eq _ _ _ _ Hs).
  destruct l as [|hi [|lo l]]; [reflexivity|reflexivity|].
  apply Forall_cons in Hb as [_ Hb]. apply Forall_cons in Hb as [Hhi Hb].
  apply Forall_cons in Hb as [Hlo Hb]. unfold is_byte in Hhi, Hlo.
  rewrite word_of_two_value by (unfold is_byte; lia).
  assert (0 <= 256 * hi + lo < 65536) as Hlen by lia. set (len := 256 * hi + lo) in *.
  do 2 apply stream_cons in Hs. replace (i + 1 + 1 + 1) with (i + 1 + 2) in Hs by lia.
  refine (eq_trans (bind_return (malloc kmalloc len)
    (fun name => for_ 0 len (copy_turn D (i + 1 + 2) name)) _ s) _).
  unfold bind at 1. rewrite (copy_string_eq _ _ _ _ _ Hok (proj1 Hlen) Hs). cbv zeta.
  destruct (Nat.leb_spec (Z.to_nat len) (length l)) as [Hl|Hl]; [|reflexivity].
  set (str := take (Z.to_nat len) l).
  assert (len = Z.of_nat (length str)) as El by (unfold str; rewrite length_take_le; lia).
  unfold bind. rewrite El at 1. rewrite last_byte_eq by lia. unfold after_string.
  destruct (last str) as [z|]; [|reflexivity]. pose proof (stream_length _ _ _ _ Hs).
  rewrite u32_id by (unfold is_u32; lia). replace (i + 1 + 2) with (i + 3) by lia.
  destruct (z =? 0); reflexivity.
Qed.

Lemma c_string_last l : Z.of_nat (length l) < 65536 -> c_string l <-> last l = Some 0.
Proof.
  intros Hl. split.
  - intros [[l' ->] _]. apply last_snoc.
  - intros E. split; [|exact Hl]. destruct l as [|x l] using rev_ind; [discriminate|].
    rewrite last_snoc in E. injection E as ->. exists l. reflexivity.
Qed.

Lemma tagged_eq t str rest :
  tagged t str ++ rest
  = t :: Z.of_nat (length str) / 256 :: Z.of_nat (length str) mod 256 :: str ++ rest.
Proof. reflexivity. Qed.

Lemma read_string_complete D t set i H s str rest :
  heap_ok s -> stream s D i (tagged t str ++ rest) -> Forall is_byte (tagged t str ++ rest) ->
  c_string str ->
  read_string D t set i H s
  = Ok (Some (i + Z.of_nat (length (tagged t str))), set (fresh (drv s)) H) (with_string str s) /\
  stream (with_string str s) D (i + Z.of_nat (length (tagged t str))) rest.
Proof using Hkmalloc.
  intros Hok Hs Hb Hc. split; [|apply stream_with_string; [exact Hok|apply stream_app, Hs]].
  rewrite (read_string_eq _ _ _ _ _ _ _ Hok Hs Hb). rewrite tagged_eq, Z.eqb_refl. cbn [negb]. cbv zeta.
  pose proof (proj2 Hc) as Hl. rewrite <- (Z.div_mod (Z.of_nat (length str)) 256) by lia.
  rewrite Nat2Z.id, length_app.
  destruct (Nat.leb_spec (length str) (length str + length rest)); [|lia].
  rewrite take_app_length. unfold after_string.
  rewrite (proj1 (c_string_last str Hl) Hc), Z.eqb_refl.
  replace (i + Z.of_nat (length (tagged t str))) with (i + 3 + Z.of_nat (length str))
    by (unfold tagged; simpl; lia).
  reflexivity.
Qed.

Lemma read_string_sound D t set i H s l j H' s' :
  heap_ok s -> stream s D i l -> Forall is_byte l ->
  read_string D t set i H s = Ok (Some j, H') s' ->
  exists str rest, l = tagged t str ++ rest /\ c_string str /\ H' = set (fresh (drv s)) H /\
    s' = with_string str s /\ j = i + Z.of_nat (length (tagged t str)) /\ stream s' D j rest.
Proof using Hkmalloc.
  intros Hok Hs Hb E. rewrite (read_string_eq _ _ _ _ _ _ _ Hok Hs Hb) in E.
  destruct l as [|x l]; [discriminate|]. destruct (Z.eqb_spec x t) as [->|]; [|discriminate].
  cbn [negb] in E. destruct l as [|hi [|lo l]]; [discriminate|discriminate|]. cbv zeta in E.
  pose proof Hb as Hb'. apply Forall_cons in Hb' as [_ Hb']. apply Forall_cons in Hb' as [Hhi Hb'].
  apply Forall_cons in Hb' as [Hlo _]. unfold is_byte in Hhi, Hlo.
  assert (0 <= 256 * hi + lo < 65536) as Hlen by lia. set (len := 256 * hi + lo) in *.
  destruct (Nat.leb_spec (Z.to_nat len) (length l)) as [Hl|Hl]; [|discriminate].
  set (str := take (Z.to_nat len) l) in *.
  assert (len = Z.of_nat (length str)) as El by (unfold str; rewrite length_take_le; lia).
  unfold after_string in E. destruct (last str) as [z|] eqn:Ez; [|discriminate].
  destruct (Z.eqb_spec z 0) as [->|]; [|discriminate]. injection E as <- <- <-.
  exists str, (drop (Z.to_nat len) l).
  assert (t :: hi :: lo :: l = tagged t str ++ drop (Z.to_nat len) l) as Et.
  { unfold tagged. rewrite <- El. unfold len. rewrite be16_two by assumption. simpl. do 3 f_equal.
    symmetry. apply take_drop. }
  split; [exact Et|]. split; [apply c_string_last; [lia|exact Ez]|].
  assert (i + 3 + len = i + Z.of_nat (length (tagged t str))) as Ej
    by (unfold tagged; rewrite El; simpl; lia).
  do 3 (split; [reflexivity || exact Ej|]).
  rewrite Ej. apply stream_with_string; [exact Hok|]. apply stream_app. rewrite <- Et. exact Hs.
Qed.

(** ** The length of the data *)

Lemma word_of_four b0 b1 b2 b3 :
  is_byte b0 -> is_byte b1 -> is_byte b2 -> is_byte b3 ->
  word_of_two (word_of_two (word_of_two b0 b1) b2) b3 = 256 * (256 * (256 * b0 + b1) + b2) + b3.
Proof.
  unfold is_byte. intros. rewrite (word_of_two_value b0 b1) by (unfold is_byte; lia).
  rewrite (word_of_two_value _ b2), (word_of_two_value _ b3) by (unfold is_byte; lia). reflexivity.
Qed.

Lemma be32_two b0 b1 b2 b3 :
  is_byte b0 -> is_byte b1 -> is_byte b2 -> is_byte b3 ->
  be32 (word_of_two (word_of_two (word_of_two b0 b1) b2) b3) = [b0; b1; b2; b3].
Proof.
  unfold is_byte. intros. rewrite word_of_four by (unfold is_byte; lia).
  remember (256 * b0 + b1) as hi eqn:Ehi. remember (256 * b2 + b3) as lo eqn:Elo.
  replace (256 * (256 * hi + b2) + b3) with (hi * 65536 + lo) by lia.
  unfold be32. rewrite Z.div_add_l, (Z.add_comm _ lo), Z_mod_plus_full by lia.
  rewrite (Z.div_small lo), (Z.mod_small lo), Z.add_0_r by lia.
  rewrite Ehi, Elo, !be16_two by (unfold is_byte; lia). reflexivity.
Qed.

Lemma word_of_be32 n : is_u32 n ->
  exists b0 b1 b2 b3, be32 n = [b0; b1; b2; b3] /\
    word_of_two (word_of_two (word_of_two b0 b1) b2) b3 = n.
Proof.
  unfold is_u32. intros Hn. pose proof (Z.div_mod n 65536 ltac:(lia)) as E.
  pose proof (Z.mod_pos_bound n 65536 ltac:(lia)).
  assert (0 <= n / 65536 < 65536) as Hh by (split; [apply Z.div_pos; lia|apply Z.div_lt_upper_bound; lia]).
  unfold be32. remember (n / 65536) as h. remember (n mod 65536) as l.
  destruct (be16_bytes h Hh) as (H1 & H2 & H3). destruct (be16_bytes l ltac:(lia)) as (H4 & H5 & H6).
  exists (h / 256), (h mod 256), (l / 256), (l mod 256). split; [reflexivity|].
  unfold is_byte in *. rewrite word_of_four by (unfold is_byte; lia). lia.
Qed.

Definition read_length_header (H : XHwIcap_Bit_Header) (i n : Z) : XHwIcap_Bit_Header :=
  H <| BitstreamLength := n |> <| HeaderLength := i + 5 |>.

Lemma read_length_eq D i H s l :
  stream s D i l ->
  read_length D i H s =
  match l with
  | x :: l1 => if negb (x =? 101) then Ok (-1, H) s else
      match l1 with
      | b0 :: b1 :: b2 :: b3 :: _ =>
          Ok (0, read_length_header H i (word_of_two (word_of_two (word_of_two b0 b1) b2) b3)) s
      | _ => Abort BadAccess
      end
  | [] => Abort BadAccess
  end.
Proof.
  intros Hs. unfold read_length, read_length_header.
  unfold bind at 1. rewrite (next_byte_eq _ _ _ _ Hs).
  destruct l as [|x l]; [reflexivity|]. destruct (Z.eqb_spec x 101); [|reflexivity]. cbn [negb].
  do 4 (apply stream_cons in Hs; unfold bind at 1; rewrite (next_byte_eq _ _ _ _ Hs);
    destruct l as [|? l]; [reflexivity|]).
  replace (i + 5) with (i + 1 + 1 + 1 + 1 + 1) by lia. reflexivity.
Qed.

(** ** The whole header *)

Definition with_strings (f : bit_file) (s : shell) : shell :=
  with_string (time f) (with_string (date f) (with_string (part f) (with_string (design f) s))).

(** the header of [f] with its strings in the blocks from [b] on *)
Definition header_of (f : bit_file) (b : Z) : XHwIcap_Bit_Header :=
  mk_bit_header (Z.of_nat (length (print_header f))) (data_length f) b (b + 1) (b + 1 + 1)
    (b + 1 + 1 + 1) (magic_length f).

Lemma stream_bytes s D i x l : stream s D i (x ++ l) -> Forall is_byte (x ++ l) ->
  stream s D (i + Z.of_nat (length x)) l /\ Forall is_byte l.
Proof. intros H Hb. split; [apply stream_app, H|]. apply Forall_app in Hb. apply Hb. Qed.

(** drop what was read from the stream *)
Ltac advance Hs Hb :=
  let Hs' := fresh in let Hb' := fresh in
  destruct (stream_bytes _ _ _ _ _ Hs Hb) as [Hs' Hb']; clear Hs Hb; rename Hs' into Hs; rename Hb' into Hb.

Lemma magic_string_nat m : 1 <= m -> Z.of_nat (length (magic_string 0 (Z.to_nat (m - 1)))) = m - 1.
Proof. intros. rewrite magic_string_length. lia. Qed.

(** the index behind the magic bytes *)
Lemma behind_magic m : 1 <= m < 65536 -> u32 (0 + 2 + u32 (m - 1)) = 0 + 2 + (m - 1).
Proof. intros. rewrite (u32_id (m - 1)) by (unfold is_u32; lia). apply u32_id. unfold is_u32; lia. Qed.

Lemma parse_complete D n s f rest :
  heap_ok s -> stream s D 0 (print_header f ++ rest) -> Forall is_byte (print_header f ++ rest) ->
  header_wf f ->
  bitstream_parse_header D n zero_header s = Ok (0, header_of f (fresh (drv s))) (with_strings f s).
Proof using Hkmalloc.
  intros Hok Hs Hb (Hm & Hd & Hp & Hda & Ht & Hn). unfold print_header in Hs, Hb.
  rewrite <- !app_assoc in Hs, Hb. unfold bitstream_parse_header.
  run_step (next_half_eq _ _ _ _ Hs). rewrite word_of_be16 by lia. advance Hs Hb.
  run_step (magic_complete _ _ _ _ _ Hm Hs). advance Hs Hb.
  change (Z.of_nat (length (be16 (magic_length f)))) with 2 in Hs.
  rewrite magic_string_nat in Hs by lia. cbn [negb]. rewrite behind_magic by lia.
  run_step (next_byte_eq _ _ _ _ Hs). advance Hs Hb. change (Z.of_nat (length [filler f])) with 1 in Hs.
  run_step (next_half_eq _ _ _ _ Hs). rewrite word_of_be16 by lia. advance Hs Hb.
  change (Z.of_nat (length (be16 1))) with 2 in Hs.
  set (i := 0 + 2 + (magic_length f - 1) + 1 + 2) in *.
  edestruct (read_string_complete D 97) as [E Hs1]; [exact Hok|exact Hs|exact Hb|exact Hd|].
  run_step E. advance Hs Hb. apply (with_string_heap (design f)) in Hok. clear E Hs.
  edestruct (read_string_complete D 98) as [E Hs2]; [exact Hok|exact Hs1|exact Hb|exact Hp|].
  run_step E. advance Hs1 Hb. apply (with_string_heap (part f)) in Hok. clear E Hs1.
  edestruct (read_string_complete D 99) as [E Hs3]; [exact Hok|exact Hs2|exact Hb|exact Hda|].
  run_step E. advance Hs2 Hb. apply (with_string_heap (date f)) in Hok. clear E Hs2.
  edestruct (read_string_complete D 100) as [E Hs4]; [exact Hok|exact Hs3|exact Hb|exact Ht|].
  run_step E. advance Hs3 Hb. clear E Hs3.
  rewrite (read_length_eq _ _ _ _ _ Hs4). cbn [app negb].
  destruct (word_of_be32 _ Hn) as (b0 & b1 & b2 & b3 & E1 & E2). rewrite E1. cbn [app].
  rewrite E2.
  unfold with_strings, header_of, read_length_header. do 2 f_equal.
  unfold print_header. rewrite !length_app, magic_string_length. cbn [length].
  unfold set_BitstreamLength, set_HeaderLength. simpl. f_equal. unfold i. lia.
Qed.


Lemma read_half_inv D i s l v j s' :
  stream s D i l -> Forall is_byte l -> next_half D i s = Ok (v, j) s' ->
  exists rest, l = be16 v ++ rest /\ 0 <= v < 65536 /\ j = i + 2 /\ s' = s /\ stream s D j rest /\
    Forall is_byte rest.
Proof.
  intros Hs Hb E. rewrite (next_half_eq _ _ _ _ Hs) in E.
  destruct l as [|hi [|lo l]]; [discriminate|discriminate|]. injection E as <- <- <-.
  pose proof Hb as Hb'. apply Forall_cons in Hb' as [Hhi Hb']. apply Forall_cons in Hb' as [Hlo Hb'].
  exists l. unfold is_byte in Hhi, Hlo. rewrite word_of_two_value by (unfold is_byte; lia).
  rewrite be16_two by (unfold is_byte; lia). split; [reflexivity|]. split; [lia|].
  do 2 (split; [reflexivity|]). split; [|exact Hb'].
  apply (stream_app _ _ _ [hi; lo]). exact Hs.
Qed.

(** one more string of the header *)
Ltac next_string E Hs Hb Hok str rest :=
  let r := fresh "r" in let o := fresh "o" in let Hd := fresh "Hd" in let s1 := fresh "s1" in
  let E1 := fresh "E1" in
  apply bind_inv in E as ([o Hd] & s1 & E1 & E); destruct o as [?j|]; [|discriminate E];
  apply (read_string_sound _ _ _ _ _ _ _ _ _ _ Hok Hs Hb) in E1
    as (str & rest & -> & ? & -> & -> & -> & E1);
  clear Hs; rename E1 into Hs; apply (with_string_heap str) in Hok;
  apply Forall_app in Hb; destruct Hb as [_ Hb]; cbv beta iota zeta in E.

Lemma parse_sound D n s l H s' :
  heap_ok s -> stream s D 0 l -> Forall is_byte l ->
  bitstream_parse_header D n zero_header s = Ok (0, H) s' ->
  exists f rest, header_wf f /\ l = print_header f ++ rest /\
    H = header_of f (fresh (drv s)) /\ s' = with_strings f s.
Proof using Hkmalloc.
  intros Hok Hs Hb E. unfold bitstream_parse_header in E.
  apply bind_inv in E as ([m i] & s1 & E1 & E).
  apply (read_half_inv _ _ _ _ _ _ _ Hs Hb) in E1 as (l1 & -> & Hm & -> & -> & Hs1 & Hb1).
  clear Hs Hb. cbv beta iota zeta in E.
  apply bind_inv in E as (ok & s1 & E1 & E). destruct ok; [|discriminate E]. cbn [negb] in E.
  apply (magic_sound _ _ _ _ _ _ Hm Hs1) in E1 as (-> & Hm1 & l2 & ->). advance Hs1 Hb1.
  rewrite magic_string_nat in Hs1 by lia. rewrite behind_magic in E by lia.
  apply bind_inv in E as ([x j] & s1 & E1 & E). rewrite (next_byte_eq _ _ _ _ Hs1) in E1.
  destruct l2 as [|x2 l2]; [discriminate E1|]. injection E1 as -> <- <-.
  apply stream_cons in Hs1. apply Forall_cons in Hb1 as [_ Hb1]. cbv beta iota zeta in E.
  apply bind_inv in E as ([t k] & s1 & E1 & E).
  apply (read_half_inv _ _ _ _ _ _ _ Hs1 Hb1) in E1 as (l3 & -> & _ & -> & -> & Hs & Hb).
  clear Hs1 Hb1. cbv beta iota zeta in E. destruct (Z.eqb_spec t 1) as [->|]; [|discriminate E].
  cbn [negb] in E.
  next_string E Hs Hb Hok n1 r1. next_string E Hs Hb Hok n2 r2.
  next_string E Hs Hb Hok n3 r3. next_string E Hs Hb Hok n4 r4.
  rewrite (read_length_eq _ _ _ _ _ Hs) in E.
  destruct r4 as [|x2 l4]; [discriminate E|]. destruct (Z.eqb_spec x2 101) as [->|]; [|discriminate E].
  cbn [negb] in E. destruct l4 as [|b0 [|b1 [|b2 [|b3 l4]]]]; try discriminate E.
  apply Forall_cons in Hb as [_ Hb]. do 4 (let Hx := fresh "Hx" in apply Forall_cons in Hb as [Hx Hb]).
  exists (mk_bit_file m x n1 n2 n3 n4 (word_of_two (word_of_two (word_of_two b0 b1) b2) b3)), l4.
  injection E as <- <-. split; [|split; [|split; [|reflexivity]]].
  - split; [cbn; lia|]. do 4 (split; [assumption|]). cbn [data_length]. rewrite word_of_four by assumption.
    unfold is_byte in *. unfold is_u32. clear -Hx Hx0 Hx1 Hx2. lia.
  - unfold print_header. cbn [magic_length filler design part date time data_length].
    rewrite be32_two by assumption. rewrite <- !app_assoc. reflexivity.
  - unfold header_of, read_length_header, print_header.
    cbn [magic_length filler design part date time data_length].
    rewrite !length_app, magic_string_length. unfold set_BitstreamLength, set_HeaderLength. simpl.
    f_equal. lia.
Qed.

(** C14: The parser accepts exactly the printed headers: it returns 0 when and
    only when the bytes begin with one, and then the header holds its lengths
    and strings, each in a block of its own. *)
Theorem parse_header_accepts_exactly D n s l H s' :
  heap_ok s -> stream s D 0 l -> Forall is_byte l ->
  bitstream_parse_header D n zero_header s = Ok (0, H) s' <->
  exists f rest, header_wf f /\ l = print_header f ++ rest /\
    H = header_of f (fresh (drv s)) /\ s' = with_strings f s.
Proof using Hkmalloc.
  intros Hok Hs Hb. split; [apply parse_sound; assumption|].
  intros (f & rest & Hwf & -> & -> & ->). eapply parse_complete; eassumption.
Qed.
End Parse.
