(* ===== verification/DownloadFacts.v ===== *)
(** * The words a download writes (xdma-bit.c)

    Whatever the vacancies of the write FIFO and the byte order of the host, a
    download writes the big-endian words of the data in order, up to where it
    fails. *)
From S2P Require Import Prelude Layout Kernel World CharDev Shell Bitstream BitFacts.
#[local] Open Scope Z_scope.

(** ** Words *)

(** the words of a bitstream; the bytes behind the last whole one are left out *)
Fixpoint be_words (l : list Z) : list Z :=
  match l with
  | a :: b :: c :: d :: l' => be_value [a; b; c; d] :: be_words l'
  | _ => []
  end.

Lemma list_ind4 {A} (P : list A -> Prop) :
  P [] -> (forall a, P [a]) -> (forall a b, P [a; b]) -> (forall a b c, P [a; b; c]) ->
  (forall a b c d l, P l -> P (a :: b :: c :: d :: l)) -> forall l, P l.
Proof.
  intros H0 H1 H2 H3 H4. fix IH 1. intros [|a [|b [|c [|d l]]]].
  - exact H0.
  - apply H1.
  - apply H2.
  - apply H3.
  - apply H4, IH.
Qed.

Lemma be_words_app l1 l2 :
  Z.of_nat (length l1) mod 4 = 0 -> be_words (l1 ++ l2) = be_words l1 ++ be_words l2.
Proof.
  induction l1 as [|a|a b|a b c|a b c d l IH] using list_ind4; intros H; try (vm_compute in H; discriminate H).
  - reflexivity.
  - simpl. f_equal. apply IH. rewrite <- H. cbn [length].
    replace (Z.of_nat (S (S (S (S (length l)))))) with (Z.of_nat (length l) + 1 * 4) by lia.
    symmetry. apply Z_mod_plus_full.
Qed.

Lemma be_words_length l : Z.of_nat (length (be_words l)) = Z.of_nat (length l) / 4.
Proof.
  induction l as [|a|a b|a b c|a b c d l IH] using list_ind4; try reflexivity.
  cbn [be_words length]. rewrite Nat2Z.inj_succ, IH.
  replace (Z.of_nat (S (S (S (S (length l)))))) with (Z.of_nat (length l) + 1 * 4) by lia.
  rewrite Z.div_add by lia. lia.
Qed.

Lemma be_words_lookup l : forall i, 0 <= i -> 4 * i + 4 <= Z.of_nat (length l) ->
  exists a b c d, take 4 (drop (Z.to_nat (4 * i)) l) = [a; b; c; d] /\
    zlookup (be_words l) i = Some (be_value [a; b; c; d]).
Proof.
  induction l as [|a|a b|a b c|a b c d l IH] using list_ind4; intros i Hi Hl;
    try (cbn [length] in Hl; lia).
  destruct (decide (i = 0)) as [->|Hne]; [exists a, b, c, d; split; reflexivity|].
  destruct (IH (i - 1)) as (a' & b' & c' & d' & E1 & E2); [lia|cbn [length] in Hl; lia|].
  exists a', b', c', d'. split.
  - rewrite <- E1. replace (Z.to_nat (4 * i)) with (4 + Z.to_nat (4 * (i - 1)))%nat by lia. reflexivity.
  - rewrite <- E2. unfold zlookup. destruct (Z.ltb_spec i 0); [lia|]. destruct (Z.ltb_spec (i - 1) 0); [lia|].
    replace (Z.to_nat i) with (S (Z.to_nat (i - 1))) by lia. reflexivity.
Qed.

(** [be32_to_cpu] of a word in memory does not depend on the host *)
Lemma land_field w k : 0 <= k -> Z.land w (Z.shiftl 255 k) = Z.shiftl (Z.land (Z.shiftr w k) 255) k.
Proof.
  intros Hk. apply Z.bits_inj'. intros i Hi. rewrite Z.land_spec, !Z.shiftl_spec by lia.
  destruct (Z.ltb_spec i k).
  - rewrite !(Z.testbit_neg_r _ (i - k)) by lia. apply andb_false_r.
  - rewrite Z.land_spec, Z.shiftr_spec by lia. do 2 f_equal. lia.
Qed.

Lemma byte_field w k x y z :
  0 <= k -> w = x + y * 2 ^ k + z * 2 ^ (k + 8) -> 0 <= x < 2 ^ k -> is_byte y ->
  Z.land (Z.shiftr w k) 255 = y.
Proof.
  intros Hk -> Hx Hy. unfold is_byte in Hy. rewrite Z.shiftr_div_pow2 by lia.
  rewrite Z.pow_add_r by lia.
  replace (x + y * 2 ^ k + z * (2 ^ k * 2 ^ 8)) with (x + (y + z * 2 ^ 8) * 2 ^ k) by lia.
  rewrite Z.div_add by lia. rewrite (Z.div_small x) by lia.
  change 255 with (Z.ones 8). rewrite Z.land_ones by lia.
  rewrite Z.add_0_l, Z_mod_plus_full. apply Z.mod_small. lia.
Qed.

Lemma swab32_le_value a b c d :
  is_byte a -> is_byte b -> is_byte c -> is_byte d ->
  swab32 (le_value [a; b; c; d]) = be_value [a; b; c; d].
Proof.
  unfold is_byte. intros Ha Hb Hc Hd. unfold swab32, be_value, le_value. cbn [foldl foldr].
  set (w := a + 256 * (b + 256 * (c + 256 * (d + 256 * 0)))).
  change 0x000000ff with (Z.shiftl 255 0). change 0x0000ff00 with (Z.shiftl 255 8).
  change 0x00ff0000 with (Z.shiftl 255 16). change 0xff000000 with (Z.shiftl 255 24).
  rewrite !land_field by lia.
  rewrite (byte_field w 0 0 a (b + 256 * (c + 256 * d))), (byte_field w 8 a b (c + 256 * d)),
    (byte_field w 16 (a + 256 * b) c d), (byte_field w 24 (a + 256 * b + 65536 * c) d 0)
    by (unfold is_byte, w; lia).
  rewrite Z.shiftl_0_r, Z.shiftl_shiftl, (Z.shiftr_shiftl_l _ 16 8), (Z.shiftr_shiftl_r _ 24 24) by lia.
  change (16 - 8) with 8. change (8 + 8) with 16. change (24 - 24) with 0. rewrite Z.shiftr_0_r.
  rewrite (Z.lor_comm (Z.shiftl c 8) d), (lor_shiftl_add d c 8) by lia.
  rewrite (Z.lor_comm (Z.lor _ _) (d + _)), (Z.lor_comm (Z.shiftl a 24)), Z.lor_assoc.
  rewrite (lor_shiftl_add _ b 16), (lor_shiftl_add _ a 24) by lia. lia.
Qed.

Lemma be32_of_load {ho : HostOrder} a b c d :
  is_byte a -> is_byte b -> is_byte c -> is_byte d ->
  be32_to_cpu (load [a; b; c; d]) = be_value [a; b; c; d].
Proof.
  intros. unfold be32_to_cpu, load. destruct big_endian; [reflexivity|apply swab32_le_value; assumption].
Qed.

(** ** Registers and buffers *)

(** the states differ in the history only *)
Definition quiet (s s' : shell) : Prop :=
  s' = s <| drv ::= (fun w => w <| trace := trace (drv s') |>) |>.

#[global] Instance quiet_preorder : PreOrder quiet.
Proof.
  split.
  - intros [[] ? ? ? ? ? ? ? ?]. reflexivity.
  - intros s1 s2 s3 H1 H2. unfold quiet in *. rewrite H2, H1. reflexivity.
Qed.

Lemma quiet_log e s : quiet s (log e s).
Proof. destruct s as [[] ? ? ? ? ? ? ? ?]. reflexivity. Qed.

Lemma quiet_world s s' : quiet s s' -> drv s' = (drv s) <| trace := trace (drv s') |>.
Proof. unfold quiet. intros E. rewrite E at 1. reflexivity. Qed.
Lemma quiet_lro s s' : quiet s s' -> lro (drv s') = lro (drv s).
Proof. intros E. rewrite (quiet_world _ _ E). reflexivity. Qed.
Lemma quiet_fresh s s' : quiet s s' -> fresh (drv s') = fresh (drv s).
Proof. intros E. rewrite (quiet_world _ _ E). reflexivity. Qed.
Lemma quiet_bufs s s' : quiet s s' -> bufs s' = bufs s.
Proof. unfold quiet. intros E. rewrite E. reflexivity. Qed.

(** the user BAR is mapped at [b] *)
Definition user_bar_is (b : Z) (s : shell) : Prop :=
  zlookup (bar (lro (drv s))) (user_bar_idx (lro (drv s))) = Some b.

Lemma user_bar_quiet b s s' : quiet s s' -> user_bar_is b s -> user_bar_is b s'.
Proof. unfold user_bar_is. intros H. rewrite (quiet_lro _ _ H). exact id. Qed.

(** the values written to a register, oldest first *)
Definition words_to (a : Z) (s : shell) : list Z :=
  rev (omap (fun av => if fst av =? a then Some (snd av) else None) (writes (trace (drv s)))).

Lemma words_to_write a a' v s :
  words_to a (log (Call iowrite32 [a'; v] []) s) = words_to a s ++ (if a' =? a then [v] else []).
Proof.
  unfold words_to.
  change (writes (trace (drv (log (Call iowrite32 [a'; v] []) s)))) with ((a', v) :: writes (trace (drv s))).
  simpl.
  destruct (a' =? a); simpl; [reflexivity|rewrite app_nil_r; reflexivity].
Qed.

Lemma words_to_other a f args r s :
  f <> iowrite32 -> words_to a (log (Call f args r) s) = words_to a s.
Proof. intros Hf. unfold words_to. simpl. destruct f; try reflexivity. destruct (Hf eq_refl). Qed.

(** [bytes] is what memory holds at [p] *)
Definition holds (s : shell) (p : cptr) (bytes : list Z) : Prop :=
  exists L, bufs s !! fst p = Some L /\ slice L (snd p) (Z.of_nat (length bytes)) = Some bytes.

Lemma holds_quiet s s' p l : quiet s s' -> holds s p l -> holds s' p l.
Proof. unfold holds. intros H. rewrite (quiet_bufs _ _ H). exact id. Qed.

Lemma slice_inv L o n l : slice L o n = Some l ->
  0 <= o /\ 0 <= n /\ o + n <= Z.of_nat (length L) /\ l = take (Z.to_nat n) (drop (Z.to_nat o) L).
Proof.
  unfold slice. destruct (Z.leb_spec 0 o); [|discriminate]. destruct (Z.leb_spec 0 n); [|discriminate].
  destruct (Z.leb_spec (o + n) (Z.of_nat (length L))); [|discriminate]. intros [= <-]. auto.
Qed.

Lemma slice_intro L o n :
  0 <= o -> 0 <= n -> o + n <= Z.of_nat (length L) ->
  slice L o n = Some (take (Z.to_nat n) (drop (Z.to_nat o) L)).
Proof.
  intros. unfold slice. destruct (Z.leb_spec 0 o); [|lia]. destruct (Z.leb_spec 0 n); [|lia].
  destruct (Z.leb_spec (o + n) (Z.of_nat (length L))); [reflexivity|lia].
Qed.

Lemma holds_part s p l i n :
  holds s p l -> 0 <= i -> 0 <= n -> i + n <= Z.of_nat (length l) ->
  holds s (fst p, snd p + i) (take (Z.to_nat n) (drop (Z.to_nat i) l)).
Proof.
  intros (L & HL & E) Hi Hn Hl. exists L. split; [exact HL|]. cbn [snd].
  apply slice_inv in E as (Ho & _ & Hb & E).
  rewrite length_take_le by (rewrite length_drop; lia). rewrite Z2Nat.id by lia.
  rewrite slice_intro by lia. f_equal. rewrite E at 1.
  rewrite skipn_firstn_comm, take_take, drop_drop. f_equal; [lia|]. f_equal. lia.
Qed.

Lemma holds_bytes_at s p l : holds s p l -> bytes_at p (Z.of_nat (length l)) s = Ok l s.
Proof. intros (L & HL & E). unfold bytes_at, deref. rewrite HL. simpl. rewrite E. reflexivity. Qed.

Section Download.
Context {env : Env} {ho : HostOrder}.

Lemma word_at_eq s p l i :
  holds s p l -> Forall is_byte l -> 0 <= i -> 4 * i + 4 <= Z.of_nat (length l) ->
  exists w, word_at p i s = Ok w s /\ zlookup (be_words l) i = Some (be32_to_cpu w).
Proof.
  intros H Hb Hi Hl. destruct (be_words_lookup l i Hi Hl) as (a & b & c & d & E1 & E2).
  exists (load [a; b; c; d]). split.
  - pose proof (holds_part s p l (4 * i) 4 H ltac:(lia) ltac:(lia) Hl) as Hp.
    change (Z.to_nat 4) with 4%nat in Hp. rewrite E1 in Hp.
    exact (bind_ok _ _ _ _ _ (holds_bytes_at _ _ _ Hp)).
  - rewrite E2. assert (Forall is_byte [a; b; c; d]) as Hf by (rewrite <- E1; apply Forall_take, Forall_drop, Hb).
    repeat (apply Forall_cons in Hf as [? Hf]). rewrite be32_of_load by assumption. reflexivity.
Qed.

Lemma user_bar_eq b s : user_bar_is b s -> user_bar s = Ok b s.
Proof.
  unfold user_bar_is, user_bar, lift, bind, getL, gets, index, deref. intros ->. destruct s. reflexivity.
Qed.

Lemma wp_user_write b v ofs (Q : unit -> shell -> Prop) s :
  user_bar_is b s -> Q tt (log (Call iowrite32 [b + ofs; v] []) s) -> wp (user_write v ofs) Q s.
Proof. intros Hb HQ. unfold user_write, wp. rewrite (bind_ok _ _ _ _ _ (user_bar_eq b s Hb)). exact HQ. Qed.

Lemma wp_user_read b ofs (Q : Z -> shell -> Prop) s :
  user_bar_is b s ->
  (let r := answer (trace (drv s)) ioread32 [b + ofs] in
   Q (u32 (nth 0 r 0)) (log (Call ioread32 [b + ofs] r) s)) -> wp (user_read ofs) Q s.
Proof. intros Hb HQ. unfold user_read, wp. rewrite (bind_ok _ _ _ _ _ (user_bar_eq b s Hb)). exact HQ. Qed.

(** ** Runs that only write words *)

(** the run changed the history only, and wrote [ws] to the register [a] *)
Definition wrote (a : Z) (ws : list Z) (s s' : shell) : Prop :=
  quiet s s' /\ words_to a s' = words_to a s ++ ws.

Lemma wrote_refl a s : wrote a [] s s.
Proof. split; [reflexivity|rewrite app_nil_r; reflexivity]. Qed.

Lemma wrote_trans a w1 w2 s1 s2 s3 : wrote a w1 s1 s2 -> wrote a w2 s2 s3 -> wrote a (w1 ++ w2) s1 s3.
Proof.
  intros [Q1 E1] [Q2 E2]. split; [etransitivity; eassumption|]. rewrite E2, E1, app_assoc. reflexivity.
Qed.

Lemma wrote_call a w f args r s1 s2 :
  f <> iowrite32 -> wrote a w s1 s2 -> wrote a w s1 (log (Call f args r) s2).
Proof.
  intros Hf [Q E]. split; [transitivity s2; [exact Q|apply quiet_log]|].
  rewrite words_to_other by exact Hf. exact E.
Qed.

Lemma wrote_other a a' v w s1 s2 :
  a' <> a -> wrote a w s1 s2 -> wrote a w s1 (log (Call iowrite32 [a'; v] []) s2).
Proof.
  intros Ha [Q E]. split; [transitivity s2; [exact Q|apply quiet_log]|].
  rewrite words_to_write. destruct (Z.eqb_spec a' a); [congruence|]. rewrite app_nil_r. exact E.
Qed.

Lemma wrote_word a v w s1 s2 :
  wrote a w s1 s2 -> wrote a (w ++ [v]) s1 (log (Call iowrite32 [a; v] []) s2).
Proof.
  intros [Q E]. split; [transitivity s2; [exact Q|apply quiet_log]|].
  rewrite words_to_write, Z.eqb_refl, E, app_assoc. reflexivity.
Qed.

Lemma wrote_bar a w b s s' : wrote a w s s' -> user_bar_is b s -> user_bar_is b s'.
Proof. intros [Q _]. apply user_bar_quiet, Q. Qed.

(** [take] of a list by one more element *)
Lemma take_one_more {A} (l : list A) i x :
  0 <= i -> zlookup l i = Some x -> take (Z.to_nat (i + 1)) l = take (Z.to_nat i) l ++ [x].
Proof.
  intros Hi H. unfold zlookup in H. destruct (Z.ltb_spec i 0); [lia|].
  replace (Z.to_nat (i + 1)) with (S (Z.to_nat i)) by lia. apply take_S_r, H.
Qed.

Definition WF (b : Z) : Z := b + XHWICAP_WF.

(** the HWICAP mapped at [b] has always room, takes the words at once and is
    done in the end *)
Definition icap_ready (b : Z) : Prop := forall h,
  0 < s32 (u32 (nth 0 (answer h ioread32 [b + XHWICAP_WFV]) 0)) /\
  Z.land (u32 (nth 0 (answer h ioread32 [b + XHWICAP_CR]) 0)) 1 = 0 /\
  nz (Z.land (u32 (nth 0 (answer h ioread32 [b + XHWICAP_SR]) 0)) 0x5) = true.

(** the result of an operation that only fails when the HWICAP is not ready *)
Definition icap_rc (b r : Z) : Prop := r = 0 \/ r = - EIO /\ ~ icap_ready b.

Lemma wp_hwicapWrite b s p l n (Q : Z -> shell -> Prop) :
  user_bar_is b s -> holds s p l -> Forall is_byte l -> 0 <= n -> 4 * n <= Z.of_nat (length l) ->
  (forall r s', wrote (WF b) (take (Z.to_nat n) (be_words l)) s s' -> icap_rc b r -> Q r s') ->
  wp (hwicapWrite p n) Q s.
Proof.
  intros Hbar Hp Hb Hn Hl HQ. unfold hwicapWrite. apply wp_bind.
  apply (wp_for (fun i s1 => wrote (WF b) (take (Z.to_nat i) (be_words l)) s s1)); [exact Hn|apply wrote_refl| |].
  - intros i s1 Hi H1. destruct (word_at_eq s1 p l i) as (w & Ew & Ei);
      [apply (holds_quiet s); [apply H1|exact Hp]|exact Hb|lia|lia|].
    apply wp_bind. unfold wp at 1. rewrite Ew. apply (wp_user_write b); [exact (wrote_bar _ _ _ _ _ H1 Hbar)|].
    rewrite (take_one_more _ _ _ (proj1 Hi) Ei). apply wrote_word, H1.
  - intros s1 H1. apply wp_bind, (wp_user_write b); [exact (wrote_bar _ _ _ _ _ H1 Hbar)|].
    apply (wrote_other _ (b + XHWICAP_CR) 1) in H1; [|unfold WF, XHWICAP_CR, XHWICAP_WF; lia].
    apply wp_bind. apply (wp_for_exit
      (fun i s2 => wrote (WF b) (take (Z.to_nat n) (be_words l)) s s2 /\ (icap_ready b -> i = 0))
      (fun r s2 => r = 0 /\ wrote (WF b) (take (Z.to_nat n) (be_words l)) s s2)); [lia|split; [exact H1|reflexivity]| | |].
    + intros i s2 _ [H2 _]. apply wp_bind, (wp_user_read b); [exact (wrote_bar _ _ _ _ _ H2 Hbar)|].
      cbv zeta. set (r := answer _ _ _). apply (wrote_call _ _ ioread32 [b + XHWICAP_CR] r) in H2; [|discriminate].
      destruct (Z.eqb_spec (Z.land (u32 (nth 0 r 0)) 1) 0) as [|Hr]; [apply wp_ret; auto|].
      apply wp_bind, wp_ext_, wp_ret. split; [apply wrote_call; [discriminate|exact H2]|].
      intros Hready. destruct (Hr (proj1 (proj2 (Hready _)))).
    + intros s2 [H2 Hr]. apply wp_ret, HQ; [exact H2|]. right. split; [reflexivity|].
      intros Hready. discriminate (Hr Hready).
    + intros r s2 [-> H2]. apply wp_ret, HQ; [exact H2|left; reflexivity].
Qed.

Lemma wp_wait_for_done a b s (Q : Z -> shell -> Prop) :
  user_bar_is b s ->
  (forall r s', wrote a [] s s' -> icap_rc b r -> Q r s') -> wp wait_for_done Q s.
Proof.
  intros Hbar HQ. unfold wait_for_done. apply wp_bind.
  apply (wp_for_exit (fun i s1 => wrote a [] s s1 /\ (icap_ready b -> i = 0))
    (fun r s1 => r = 0 /\ wrote a [] s s1)); [lia|split; [apply wrote_refl|reflexivity]| | |].
  - intros i s1 _ [H1 _]. apply wp_bind, wp_ext_. apply (wrote_call _ _ udelay [5] []) in H1; [|discriminate].
    apply wp_bind, (wp_user_read b); [exact (wrote_bar _ _ _ _ _ H1 Hbar)|]. cbv zeta. set (r := answer _ _ _).
    apply (wrote_call _ _ ioread32 [b + XHWICAP_SR] r) in H1; [|discriminate].
    destruct (nz _) eqn:Er; apply wp_ret; [auto|]. split; [exact H1|]. intros Hready.
    pose proof (proj2 (proj2 (Hready (trace (drv (log (Call udelay [5] []) s1)))))) as E.
    fold r in E. rewrite E in Er. discriminate Er.
  - intros s1 [H1 Hr]. apply wp_ret, HQ; [exact H1|]. right. split; [reflexivity|].
    intros Hready. discriminate (Hr Hready).
  - intros r s1 [-> H1]. apply wp_ret, HQ; [exact H1|left; reflexivity].
Qed.

Lemma be_words_drop l k :
  0 <= k -> 4 * k <= Z.of_nat (length l) -> be_words (drop (Z.to_nat (4 * k)) l) = drop (Z.to_nat k) (be_words l).
Proof.
  intros Hk Hl. pose proof (take_drop (Z.to_nat (4 * k)) l) as E. rewrite <- E at 2.
  assert (Z.of_nat (length (take (Z.to_nat (4 * k)) l)) = 4 * k) as Ht by (rewrite length_take_le; lia).
  rewrite be_words_app by (rewrite Ht, Z.mul_comm; apply Z_mod_mult).
  rewrite drop_app_length'; [reflexivity|].
  pose proof (be_words_length (take (Z.to_nat (4 * k)) l)) as Hw. rewrite Ht in Hw.
  assert (4 * k / 4 = k) as Hk4 by (rewrite Z.mul_comm; apply Z.div_mul; lia). lia.
Qed.

(** a prefix of [ws] was written, all of it when [r] is 0 *)
Definition wrote_prefix (b : Z) (ws : list Z) (s s' : shell) (r : Z) : Prop :=
  exists k, wrote (WF b) (take k ws) s s' /\
    (r = 0 /\ (length ws <= k)%nat \/ r = - EIO /\ ~ icap_ready b).

Lemma holds_drop s p l i :
  holds s p l -> 0 <= i <= Z.of_nat (length l) -> holds s (fst p, snd p + i) (drop (Z.to_nat i) l).
Proof.
  intros H Hi. pose proof (holds_part s p l i (Z.of_nat (length l) - i) H ltac:(lia) ltac:(lia) ltac:(lia)) as Hp.
  rewrite take_ge in Hp; [exact Hp|]. rewrite length_drop. lia.
Qed.

Lemma wp_bitstream_icap_helper b s p l (Q : Z -> shell -> Prop) :
  user_bar_is b s -> holds s p l -> Forall is_byte l -> Z.of_nat (length l) < 2 ^ 32 ->
  (forall r s', wrote_prefix b (be_words l) s s' r -> Q r s') ->
  wp (bitstream_icap_helper p (Z.of_nat (length l) / 4)) Q s.
Proof.
  intros Hbar Hp Hb Hlen HQ. unfold bitstream_icap_helper. set (n := Z.of_nat (length l) / 4).
  pose proof (be_words_length l) as Hw. fold n in Hw.
  assert (4 * n <= Z.of_nat (length l)) as Hn by (apply Z.mul_div_le; lia).
  apply (wp_loop (fun v s1 => 0 <= fst v <= n /\ snd v = (fst p, snd p + 4 * (n - fst v)) /\
      wrote (WF b) (take (Z.to_nat (n - fst v)) (be_words l)) s s1) (fun v _ => Z.to_nat (fst v))).
  - intros [m q] s1 (Hm & Hq & H1). cbn [fst snd] in *. subst q. unfold icap_one.
    destruct (Z.ltb_spec 0 m) as [Hm0|Hm0]; cbn [negb].
    2:{ apply wp_ret, HQ. exists (Z.to_nat (n - m)). split; [exact H1|]. left. split; [reflexivity|lia]. }
    apply wp_bind, (wp_user_read b); [exact (wrote_bar _ _ _ _ _ H1 Hbar)|]. cbv zeta. set (r := answer _ _ _).
    apply (wrote_call _ _ ioread32 [b + XHWICAP_WFV] r) in H1; [|discriminate].
    set (v := s32 (u32 (nth 0 r 0))). destruct (Z.leb_spec v 0) as [Hv|Hv].
    { apply wp_ret, HQ. eexists. split; [exact H1|]. right. split; [reflexivity|]. intros Hready.
      pose proof (proj1 (Hready (trace (drv s1)))) as E. fold r v in E. lia. }
    assert (v < 2 ^ 31) as Hv2 by (unfold v, s32; pose proof (Z.mod_pos_bound (u32 (nth 0 r 0) + 2 ^ 31) (2 ^ 32)); lia).
    rewrite (u32_id v) by (unfold is_u32; lia).
    assert (exists k, (if v <? m then v else m) = k /\ 1 <= k <= m /\ k <= v) as (k & -> & Hk & Hkv)
      by (destruct (Z.ltb_spec v m); eexists; (split; [reflexivity|lia])).
    apply wp_bind. rewrite s32_id by lia.
    apply (wp_hwicapWrite b _ _ (drop (Z.to_nat (4 * (n - m))) l)); [exact (wrote_bar _ _ _ _ _ H1 Hbar)| | | | |].
    + apply (holds_quiet s); [apply H1|]. apply holds_drop; [exact Hp|lia].
    + apply Forall_drop, Hb.
    + lia.
    + rewrite length_drop. lia.
    + intros r1 s2 H2 Hr1. rewrite be_words_drop in H2 by lia.
      pose proof (wrote_trans _ _ _ _ _ _ H1 H2) as H3. rewrite take_take_drop in H3.
      replace (Z.to_nat (n - m) + Z.to_nat k)%nat with (Z.to_nat (n - (m - k))) in H3 by lia.
      destruct Hr1 as [-> | [-> Hno]]; cbn [nz Z.eqb negb].
      * apply wp_ret. rewrite u32_id by (unfold is_u32; lia). cbn [fst snd].
        split; [|lia]. split; [lia|]. split; [f_equal; lia|exact H3].
      * apply wp_ret, HQ. eexists. split; [exact H3|right; auto].
  - cbn [fst snd]. rewrite Z.sub_diag. split; [split; [apply Z.div_pos|]; lia|].
    split; [destruct p; cbn [fst snd]; f_equal; lia|]. apply wrote_refl.
  - cbn [fst]. lia.
Qed.

(** ** The pieces of a download *)

(** some of [ws] was written, in order from the first on *)
Definition wrote_upto (a : Z) (ws : list Z) (s s' : shell) : Prop :=
  exists ws', ws' `prefix_of` ws /\ wrote a ws' s s'.

Lemma wrote_all_upto a ws s s' : wrote a ws s s' -> wrote_upto a ws s s'.
Proof. intros H. exists ws. split; [reflexivity|exact H]. Qed.

Lemma wrote_prefix_upto b ws s s' r : wrote_prefix b ws s s' r -> wrote_upto (WF b) ws s s'.
Proof.
  intros (k & H & _). exists (take k ws). split; [|exact H]. exists (drop k ws). symmetry. apply take_drop.
Qed.

Lemma wrote_prefix_all b ws s s' : wrote_prefix b ws s s' 0 -> wrote (WF b) ws s s'.
Proof. intros (k & H & [[_ Hk]|[Hr _]]); [rewrite take_ge in H by exact Hk; exact H|discriminate Hr]. Qed.

Lemma wrote_then_upto a w ws s1 s2 s3 :
  wrote a w s1 s2 -> wrote_upto a ws s2 s3 -> wrote_upto a (w ++ ws) s1 s3.
Proof.
  intros H1 (w' & Hw & H2). exists (w ++ w'). split; [apply prefix_app, Hw|].
  exact (wrote_trans _ _ _ _ _ _ H1 H2).
Qed.

Lemma wrote_upto_mono a ws ws' s s' : ws `prefix_of` ws' -> wrote_upto a ws s s' -> wrote_upto a ws' s s'.
Proof. intros Hp (w & Hw & H). exists w. split; [etransitivity; eassumption|exact H]. Qed.

Lemma be_words_split l i : 0 <= i <= Z.of_nat (length l) -> i mod 4 = 0 ->
  be_words l = be_words (take (Z.to_nat i) l) ++ be_words (drop (Z.to_nat i) l).
Proof.
  intros Hi Hm. rewrite <- (take_drop (Z.to_nat i) l) at 1. apply be_words_app.
  rewrite length_take_le by lia. rewrite Z2Nat.id by lia. exact Hm.
Qed.

Lemma be_words_take_prefix l : forall n, be_words (take n l) `prefix_of` be_words l.
Proof.
  induction l as [|a|a b|a b c|a b c d l IH] using list_ind4; intros n;
    try (rewrite firstn_nil; reflexivity);
    do 4 (destruct n as [|n]; [apply prefix_nil|]).
  1-3: rewrite take_ge by (simpl; lia); reflexivity.
  simpl. apply prefix_cons, IH.
Qed.

Lemma piece_size_eq len i : 0 <= i < len -> len < 2 ^ 32 ->
  piece_size len i = Z.min DMA_HWICAP_BITFILE_BUFFER_SIZE (len - i).
Proof.
  intros Hi Hl. unfold piece_size, DMA_HWICAP_BITFILE_BUFFER_SIZE. rewrite u32_id by (unfold is_u32; lia).
  destruct (Z.ltb_spec 1024 (len - i)); lia.
Qed.

(** [i] bytes of [len] are done: whole words, or all of them *)
Definition at_piece (len i : Z) : Prop := 0 <= i <= len /\ (i mod 4 = 0 \/ i = len).

(** the pieces that remain *)
Definition pieces_left (len i : Z) : nat :=
  Z.to_nat ((len - i + (DMA_HWICAP_BITFILE_BUFFER_SIZE - 1)) / DMA_HWICAP_BITFILE_BUFFER_SIZE).

Lemma next_piece len i : at_piece len i -> i < len -> len < 2 ^ 32 ->
  let n := piece_size len i in
  0 < n <= DMA_HWICAP_BITFILE_BUFFER_SIZE /\ i mod 4 = 0 /\ at_piece len (i + n) /\ u32 (i + n) = i + n /\
  (pieces_left len (i + n) < pieces_left len i)%nat.
Proof.
  intros [Hi Hm] Hlt Hl n. unfold n. rewrite piece_size_eq by lia. unfold pieces_left, at_piece.
  unfold DMA_HWICAP_BITFILE_BUFFER_SIZE in *.
  destruct Hm as [Hm|Hm]; [|lia]. pose proof (Z.div_mod (len - i + (1024 - 1)) 1024 ltac:(lia)) as E1.
  pose proof (Z.mod_pos_bound (len - i + (1024 - 1)) 1024 ltac:(lia)).
  destruct (Z.min_spec 1024 (len - i)) as [[Hc ->]|[Hc ->]].
  - split; [lia|]. split; [exact Hm|]. split; [split; [lia|left; rewrite <- Z.add_mod_idemp_l, Hm by lia; reflexivity]|].
    split; [apply u32_id; unfold is_u32; lia|].
    replace (len - (i + 1024) + (1024 - 1)) with (len - i + (1024 - 1) + (-1) * 1024) by lia.
    rewrite Z.div_add by lia. lia.
  - split; [lia|]. split; [exact Hm|]. split; [split; [lia|right; lia]|].
    split; [apply u32_id; unfold is_u32; lia|].
    replace (len - (i + (len - i)) + (1024 - 1)) with 1023 by lia. change (1023 / 1024) with 0. lia.
Qed.

Lemma at_piece_start len : 0 <= len -> at_piece len 0 /\ (pieces_left len 0 < piece_fuel len)%nat.
Proof.
  intros H. split; [split; [lia|left; reflexivity]|]. unfold pieces_left, piece_fuel, DMA_HWICAP_BITFILE_BUFFER_SIZE.
  assert (0 <= len / 1024) by (apply Z.div_pos; lia).
  enough ((len - 0 + (1024 - 1)) / 1024 <= len / 1024 + 1) by lia.
  replace (len / 1024 + 1) with ((len + 1 * 1024) / 1024) by (rewrite Z.div_add by lia; lia).
  apply Z.div_le_mono; lia.
Qed.

(** the words of the next piece of [n] bytes follow those of the first [i] *)
Lemma be_words_next l i n : 0 <= i -> 0 <= n -> i + n <= Z.of_nat (length l) -> i mod 4 = 0 ->
  be_words (take (Z.to_nat (i + n)) l)
  = be_words (take (Z.to_nat i) l) ++ be_words (take (Z.to_nat n) (drop (Z.to_nat i) l)).
Proof.
  intros Hi Hn Hl Hm. replace (Z.to_nat (i + n)) with (Z.to_nat i + Z.to_nat n)%nat by lia.
  rewrite <- take_take_drop. apply be_words_app. rewrite length_take_le by lia. rewrite Z2Nat.id by lia. exact Hm.
Qed.

(** a piece that fails half way still leaves a prefix *)
Lemma wrote_piece_upto a l i n s1 s2 s3 : 0 <= i -> 0 <= n -> i + n <= Z.of_nat (length l) -> i mod 4 = 0 ->
  wrote a (be_words (take (Z.to_nat i) l)) s1 s2 ->
  wrote_upto a (be_words (take (Z.to_nat n) (drop (Z.to_nat i) l))) s2 s3 ->
  wrote_upto a (be_words l) s1 s3.
Proof.
  intros Hi Hn Hl Hm H1 H2. apply (wrote_upto_mono _ (be_words (take (Z.to_nat (i + n)) l)));
    [apply be_words_take_prefix|].
  rewrite be_words_next by assumption. exact (wrote_then_upto _ _ _ _ _ _ H1 H2).
Qed.

Lemma wp_icap_pieces b s p l (Q : bool -> shell -> Prop) :
  user_bar_is b s -> holds s p l -> Forall is_byte l -> Z.of_nat (length l) < 2 ^ 32 ->
  (forall s', wrote (WF b) (be_words l) s s' -> Q true s') ->
  (forall s', ~ icap_ready b -> wrote_upto (WF b) (be_words l) s s' -> Q false s') ->
  wp (loop (piece_fuel (Z.of_nat (length l))) (icap_piece (Z.of_nat (length l))) (0, p)) Q s.
Proof.
  intros Hbar Hp Hb Hlen Hok Hbad. set (len := Z.of_nat (length l)) in *.
  destruct (at_piece_start len ltac:(lia)) as [Hstart Hfuel].
  apply (wp_loop (fun v s1 => at_piece len (fst v) /\ snd v = (fst p, snd p + fst v) /\
      wrote (WF b) (be_words (take (Z.to_nat (fst v)) l)) s s1) (fun v _ => pieces_left len (fst v)));
    [| |exact Hfuel].
  2:{ cbn [fst snd]. split; [exact Hstart|]. split; [destruct p; cbn [fst snd]; f_equal; lia|apply wrote_refl]. }
  intros [i q] s1 (Hi & Hq & H1). cbn [fst snd] in *. subst q. unfold icap_piece.
  destruct (Z.ltb_spec i len) as [Hlt|Hge]; cbn [negb].
  2:{ apply wp_ret, Hok. rewrite take_ge in H1 by (unfold len in *; destruct Hi; lia). exact H1. }
  destruct (next_piece len i Hi Hlt Hlen) as (Hn & Hm & Hnext & Hu & Hmu).
  cbv zeta. set (n := piece_size len i) in *. destruct Hnext as [Hr Hm2]. destruct Hi as [Hi _].
  set (pl := take (Z.to_nat n) (drop (Z.to_nat i) l)).
  assert (Z.of_nat (length pl) = n) as Hpl by (unfold pl; rewrite length_take_le; [lia|rewrite length_drop; lia]).
  apply wp_bind. rewrite <- Hpl at 1.
  apply (wp_bitstream_icap_helper b); [exact (wrote_bar _ _ _ _ _ H1 Hbar)| | | |].
  - apply (holds_quiet s); [apply H1|]. apply holds_part; [exact Hp|lia|lia|unfold len in *; lia].
  - apply Forall_take, Forall_drop, Hb.
  - unfold DMA_HWICAP_BITFILE_BUFFER_SIZE in *. lia.
  - intros r s2 H2. destruct (nz r) eqn:Er.
    + apply wp_ret, Hbad.
      { destruct H2 as (k & _ & [[-> _]|[_ Hno]]); [discriminate Er|exact Hno]. }
      apply wrote_prefix_upto in H2.
      apply (wrote_piece_upto _ l i n _ s1); [lia|lia|unfold len in *; lia|exact Hm|exact H1|exact H2].
    + apply nz_false in Er. subst r. apply wrote_prefix_all in H2. apply wp_ret. cbn [fst snd].
      rewrite Hu. split; [split; [split; [exact Hr|exact Hm2]|split; [f_equal; lia|]]|exact Hmu].
      rewrite be_words_next by (unfold len in *; lia). exact (wrote_trans _ _ _ _ _ _ H1 H2).
Qed.
End Download.
