(* ===== verification/IcapFacts.v ===== *)
(** * Downloads through the ICAP (xdma-bit.c)

    What bitstream_icap and bitstream_ioctl_icap write to the HWICAP, and what
    they leave of the buffers, the clearing bitstream and the AXI gate. *)
From S2P Require Import Prelude Layout Kernel World CharDev Shell Bitstream BitFacts DownloadFacts.
#[local] Open Scope Z_scope.

(** the states differ in the history and the kernel buffers only *)
Definition memory_only (s s' : shell) : Prop :=
  s' = s <| drv ::= (fun w => w <| trace := trace (drv s') |> <| fresh := fresh (drv s') |>) |>
         <| bufs := bufs s' |> /\ fresh (drv s) <= fresh (drv s').

#[global] Instance memory_only_preorder : PreOrder memory_only.
Proof.
  split.
  - intros [[] ? ? ? ? ? ? ? ?]. split; [reflexivity|simpl; lia].
  - intros s1 s2 s3 [H1 L1] [H2 L2]. split; [|lia]. rewrite H2, H1. reflexivity.
Qed.

Lemma quiet_memory_only s s' : quiet s s' -> memory_only s s'.
Proof.
  intros H. split; [|rewrite (quiet_fresh _ _ H); lia].
  unfold quiet in H. rewrite H. destruct s as [[] ? ? ? ? ? ? ? ?]. reflexivity.
Qed.

Lemma memory_only_bufs g s : memory_only s (s <| bufs ::= g |>).
Proof. destruct s as [[] ? ? ? ? ? ? ? ?]. split; [reflexivity|simpl; lia]. Qed.

Lemma memory_only_with_string `{Env} str s : memory_only s (with_string str s).
Proof. destruct s as [[] ? ? ? ? ? ? ? ?]. split; [reflexivity|simpl; lia]. Qed.

Lemma memory_only_lro s s' : memory_only s s' -> lro (drv s') = lro (drv s).
Proof. intros [H _]. rewrite H. reflexivity. Qed.
Lemma memory_only_gate s s' : memory_only s s' -> axi_gate_frozen s' = axi_gate_frozen s.
Proof. intros [H _]. rewrite H. reflexivity. Qed.
Lemma memory_only_stash s s' : memory_only s s' ->
  clear_bitstream s' = clear_bitstream s /\ clear_bitstream_length s' = clear_bitstream_length s.
Proof. intros [H _]. rewrite H. split; reflexivity. Qed.
Lemma memory_only_bar b s s' : memory_only s s' -> user_bar_is b s -> user_bar_is b s'.
Proof. unfold user_bar_is. intros H. rewrite (memory_only_lro _ _ H). exact id. Qed.

Lemma heap_ok_memory_only s s' : memory_only s s' -> bufs s' = bufs s -> heap_ok s -> heap_ok s'.
Proof. intros [_ L] E [H1 H2]. split; [lia|]. intros p Hp. rewrite E. apply H2. lia. Qed.

(** [ws] went to the register [a]; otherwise history and buffers changed *)
Definition did (a : Z) (ws : list Z) (s s' : shell) : Prop :=
  memory_only s s' /\ words_to a s' = words_to a s ++ ws.

Lemma did_refl a s : did a [] s s.
Proof. split; [reflexivity|rewrite app_nil_r; reflexivity]. Qed.
Lemma did_trans a w1 w2 s1 s2 s3 : did a w1 s1 s2 -> did a w2 s2 s3 -> did a (w1 ++ w2) s1 s3.
Proof. intros [Q1 E1] [Q2 E2]. split; [etransitivity; eassumption|]. rewrite E2, E1, app_assoc. reflexivity. Qed.
Lemma did_then a w s1 s2 s3 : did a w s1 s2 -> did a [] s2 s3 -> did a w s1 s3.
Proof. intros H1 H2. rewrite <- (app_nil_r w). exact (did_trans _ _ _ _ _ _ H1 H2). Qed.
Lemma wrote_did a ws s s' : wrote a ws s s' -> did a ws s s'.
Proof. intros [Q E]. split; [apply quiet_memory_only, Q|exact E]. Qed.

Lemma did_call a f args r s : f <> iowrite32 -> did a [] s (log (Call f args r) s).
Proof.
  intros Hf. split; [apply quiet_memory_only, quiet_log|]. rewrite words_to_other, app_nil_r by exact Hf. reflexivity.
Qed.
Lemma did_bufs a g s : did a [] s (s <| bufs ::= g |>).
Proof. split; [apply memory_only_bufs|]. rewrite app_nil_r. reflexivity. Qed.

Lemma did_with_string `{Env} a str s : did a [] s (with_string str s).
Proof.
  split; [apply memory_only_with_string|]. rewrite app_nil_r.
  apply (words_to_other a kmalloc [Z.of_nat (length str)]
    (answer (trace (drv s)) kmalloc [Z.of_nat (length str)]) s). discriminate.
Qed.

Section Icap.
Context {env : Env} {ho : HostOrder}.

(** ** Freeing *)

Lemma delete_no_buf b s : bufs s !! b = None -> s <| bufs ::= delete b |> = s.
Proof.
  destruct s as [? ? m ? ? ? ? ? ?]. unfold set_bufs. simpl. intros H. f_equal. exact (delete_id m b H).
Qed.

Lemma wp_mfree f b (Q : unit -> shell -> Prop) s :
  bufs s !! 0 = None -> (b <> 0 -> is_Some (bufs s !! b)) ->
  Q tt ((log (Call f [b] []) s) <| bufs ::= delete b |>) -> wp (mfree f b) Q s.
Proof.
  intros H0 Hb HQ. unfold mfree. apply wp_bind, wp_ext_, wp_when; intros Eb.
  - apply nz_true in Eb. destruct (Hb Eb) as [x Hx].
    apply wp_bind, (wp_deref _ _ _ x); [exact Hx|]. apply wp_modify, HQ.
  - apply nz_false in Eb. subst b. replace (log (Call f [0] []) s)
      with ((log (Call f [0] []) s) <| bufs ::= delete 0 |>); [exact HQ|].
    apply delete_no_buf, H0.
Qed.

Lemma did_mfree a f b s : f <> iowrite32 -> did a [] s ((log (Call f [b] []) s) <| bufs ::= delete b |>).
Proof. intros Hf. eapply did_then; [apply did_call, Hf|apply did_bufs]. Qed.

(** the four strings of a header, when they are what was allocated on [m] *)
Definition string_bufs (f : bit_file) (b : Z) (m : gmap Z (list Z)) : gmap Z (list Z) :=
  <[b + 1 + 1 + 1 := time f]> (<[b + 1 + 1 := date f]> (<[b + 1 := part f]> (<[b := design f]> m))).

Lemma bufs_with_strings f s : bufs (with_strings f s) = string_bufs f (fresh (drv s)) (bufs s).
Proof. reflexivity. Qed.

Lemma wp_free_strings a f b m s (Q : unit -> shell -> Prop) :
  0 < b -> m !! 0 = None -> (forall p, b <= p -> m !! p = None) -> bufs s = string_bufs f b m ->
  (forall s', did a [] s s' -> bufs s' = m -> Q tt s') ->
  wp (free_strings (header_of f b)) Q s.
Proof.
  intros Hb H0 Hm Hs HQ. unfold free_strings, header_of. cbn [DesignName PartName Date Time].
  assert (forall p, string_bufs f b m !! p = if decide (b <= p < b + 4) then string_bufs f b m !! p else m !! p) as Hne.
  { intros p. case_decide; [reflexivity|]. unfold string_bufs. rewrite !lookup_insert_ne by lia. reflexivity. }
  assert (forall p, b <= p < b + 4 -> is_Some (string_bufs f b m !! p)) as Hin.
  { intros p Hp. unfold string_bufs. rewrite !lookup_insert_is_Some.
    destruct (decide (p = b)), (decide (p = b + 1)), (decide (p = b + 1 + 1)); try lia; intuition lia. }
  apply wp_bind, wp_mfree; [rewrite Hs, Hne; case_decide; [lia|exact H0]|intros _; rewrite Hs; apply Hin; lia|].
  apply wp_bind, wp_mfree.
  1: simpl; rewrite lookup_delete_ne by lia; rewrite Hs, Hne; case_decide; [lia|exact H0].
  1: intros _; simpl; rewrite lookup_delete_ne by lia; rewrite Hs; apply Hin; lia.
  apply wp_bind, wp_mfree.
  1: simpl; rewrite !lookup_delete_ne by lia; rewrite Hs, Hne; case_decide; [lia|exact H0].
  1: intros _; simpl; rewrite !lookup_delete_ne by lia; rewrite Hs; apply Hin; lia.
  apply wp_mfree.
  1: simpl; rewrite !lookup_delete_ne by lia; rewrite Hs, Hne; case_decide; [lia|exact H0].
  1: intros _; simpl; rewrite !lookup_delete_ne by lia; rewrite Hs; apply Hin; lia.
  apply HQ.
  - do 3 (eapply did_then; [|apply did_mfree; discriminate]). apply did_mfree. discriminate.
  - simpl. rewrite Hs. apply map_eq. intros p.
    destruct (decide (b <= p < b + 4)) as [Hp|Hp].
    + rewrite (Hm p) by lia. rewrite !lookup_delete_None. lia.
    + rewrite !lookup_delete_ne by lia. rewrite Hne. case_decide; [lia|reflexivity].
Qed.

(** ** A bitstream in kernel memory *)

(** the file with the header [f] and the data [payload] is at [p], and
    [length] bytes are enough for it *)
Record image (s : shell) (p : cptr) (f : bit_file) (payload rest : list Z) (len : Z) : Prop := {
  img_wf : header_wf f;
  img_data : Z.of_nat (length payload) = data_length f;
  img_stream : stream s p 0 (print_header f ++ payload ++ rest);
  img_bytes : Forall is_byte (print_header f ++ payload ++ rest);
  img_fits : Z.of_nat (length (print_header f)) + data_length f <= len < 2 ^ 32
}.

Context (Hkmalloc : forall h n, nth 0 (answer h kmalloc [n]) 0 <> 0).

Lemma heap_ok_strings f s : heap_ok s -> heap_ok (with_strings f s).
Proof. intros H. unfold with_strings. do 4 apply with_string_heap. exact H. Qed.

Lemma did_with_strings a f s : did a [] s (with_strings f s).
Proof. unfold with_strings. do 3 (eapply did_then; [|apply did_with_string]). apply did_with_string. Qed.

Lemma stream_strings f s D i l : heap_ok s -> stream s D i l -> stream (with_strings f s) D i l.
Proof.
  intros Hok H. unfold with_strings. repeat (apply stream_with_string; [repeat apply with_string_heap; exact Hok|]).
  exact H.
Qed.

Lemma stream_holds s D i l rest : stream s D i (l ++ rest) -> holds s (fst D, snd D + i) l.
Proof.
  intros (L & HL & Ho & Hi & Hb & E). exists L. split; [exact HL|]. cbn [snd].
  assert (length (l ++ rest) = (length L - Z.to_nat (snd D + i))%nat) as El by (rewrite E; apply length_drop).
  rewrite length_app in El. rewrite slice_intro by lia. rewrite Nat2Z.id, <- E, take_app_length. reflexivity.
Qed.

Lemma parse_and_check_eq n s p f rest :
  heap_ok s -> header_wf f -> stream s p 0 (print_header f ++ rest) ->
  Forall is_byte (print_header f ++ rest) ->
  Z.of_nat (length (print_header f)) + data_length f <= n ->
  Z.of_nat (length (print_header f)) + data_length f < 2 ^ 32 ->
  parse_and_check p n s = Ok (0, header_of f (fresh (drv s))) (with_strings f s).
Proof using Hkmalloc.
  intros Hok Hwf Hs Hb Hfit Hn. unfold parse_and_check.
  run_step (parse_complete Hkmalloc _ DMA_HWICAP_BITFILE_BUFFER_SIZE _ _ _ Hok Hs Hb Hwf). cbn [nz Z.eqb negb].
  unfold header_of. cbn [HeaderLength BitstreamLength].
  destruct Hwf as (_ & _ & _ & _ & _ & Hd). unfold is_u32 in Hd. rewrite u32_id by (unfold is_u32; lia).
  destruct (Z.ltb_spec n (Z.of_nat (length (print_header f)) + data_length f)); [lia|reflexivity].
Qed.

(** what a download of the words [ws] may do: an error is only reported when
    all of them are written, and with a HWICAP that is ready there is none *)
Definition icap_outcome (b : Z) (ws : list Z) (s s' : shell) (r : Z) : Prop :=
  exists ws', ws' `prefix_of` ws /\ did (WF b) ws' s s' /\ (r = 0 \/ r = - EIO /\ ws' = ws) /\
    (icap_ready b -> r = 0 /\ ws' = ws).

Lemma print_header_long f : 0 < Z.of_nat (length (print_header f)).
Proof. unfold print_header. simpl. lia. Qed.

(** the code of bitstream_icap behind the checks, on the data at [q] *)
Definition icap_data (f : bit_file) (b0 : Z) (q : cptr) : prog shell Z :=
  err <- (written <- loop (piece_fuel (data_length f)) (icap_piece (data_length f)) (0, q) ;;
    if negb written then ret 0 else
    done <- wait_for_done ;;
    if nz done then ret (- EIO) else ret 0) ;;
  free_strings (header_of f b0) ;;
  ret err.

Lemma wp_icap_start b s p f payload rest len (Q : Z -> shell -> Prop) :
  heap_ok s -> user_bar_is b s -> image s p f payload rest len ->
  (let q := (fst p, snd p + Z.of_nat (length (print_header f))) in
   user_bar_is b (with_strings f s) -> holds (with_strings f s) q payload -> Forall is_byte payload ->
   Z.of_nat (length payload) = data_length f -> Z.of_nat (length payload) < 2 ^ 32 ->
   wp (icap_data f (fresh (drv s)) q) Q (with_strings f s)) ->
  wp (bitstream_icap p len) Q s.
Proof using Hkmalloc.
  intros Hok Hbar [Hwf Hdata Hs Hb Hfit] HQ. pose proof (print_header_long f).
  assert (is_u32 (data_length f)) as Hd by apply Hwf. unfold is_u32 in Hd.
  unfold bitstream_icap. apply wp_bind, wp_BUG_ON.
  { apply Z.eqb_neq. intros E. destruct Hs as (L & HL & _). rewrite (proj2 Hok) in HL by lia. discriminate. }
  apply wp_bind, wp_BUG_ON; [apply Z.eqb_neq; lia|]. apply wp_bind. unfold wp at 1.
  rewrite (parse_and_check_eq len s p f (payload ++ rest) Hok Hwf Hs Hb (proj1 Hfit)) by lia.
  apply HQ; [|apply (stream_holds _ _ _ _ rest)| |exact Hdata|lia].
  - exact (memory_only_bar _ _ _ (proj1 (did_with_strings 0 f s)) Hbar).
  - apply stream_strings; [exact Hok|]. exact (stream_app _ _ _ _ _ Hs).
  - apply Forall_app in Hb as [_ Hb]. apply Forall_app in Hb. apply Hb.
Qed.

Lemma wp_icap_end b f s s2 ws r (Q : Z -> shell -> Prop) :
  heap_ok s -> wrote (WF b) ws (with_strings f s) s2 ->
  (forall s', did (WF b) ws s s' -> bufs s' = bufs s -> Q r s') ->
  wp (free_strings (header_of f (fresh (drv s))) ;; ret r) Q s2.
Proof.
  intros Hok H2 HQ. apply wp_bind.
  apply (wp_free_strings (WF b) f _ (bufs s)); [apply Hok|apply Hok; lia|intros q Hq; apply Hok; lia| |].
  - rewrite (quiet_bufs _ _ (proj1 H2)). apply bufs_with_strings.
  - intros s3 H3 Hbufs. apply wp_ret, HQ; [|exact Hbufs].
    exact (did_then _ _ _ _ _ (did_trans _ _ _ _ _ _ (did_with_strings _ f s) (wrote_did _ _ _ _ H2)) H3).
Qed.

Lemma wp_bitstream_icap b s p f payload rest len :
  heap_ok s -> user_bar_is b s -> image s p f payload rest len ->
  wp (bitstream_icap p len) (fun r s' =>
    bufs s' = bufs s /\ icap_outcome b (be_words payload) s s' r) s.
Proof using Hkmalloc.
  intros Hok Hbar Hi. apply (wp_icap_start b s p f payload rest len); [exact Hok|exact Hbar|exact Hi|].
  intros q Hbar1 Hp1 Hbp Hdata Hlen. unfold icap_data. rewrite <- Hdata.
  apply wp_bind, wp_bind, (wp_icap_pieces b); [exact Hbar1|exact Hp1|exact Hbp|exact Hlen| |].
  - intros s2 H2. cbn [negb]. apply wp_bind, (wp_wait_for_done (WF b) b);
      [exact (wrote_bar _ _ _ _ _ H2 Hbar1)|]. intros r s3 H3 Hr.
    pose proof (wrote_trans _ _ _ _ _ _ H2 H3) as H4. rewrite app_nil_r in H4.
    destruct Hr as [-> | [-> Hno]]; apply wp_ret, (wp_icap_end b f s _ (be_words payload)); try assumption;
      intros s4 H5 Eb; (split; [exact Eb|]; exists (be_words payload); split; [reflexivity|];
      split; [exact H5|]; split; [auto|]).
    + split; reflexivity.
    + intros Hready. destruct (Hno Hready).
  - intros s2 Hno (ws & Hw & H2). apply wp_ret, (wp_icap_end b f s _ ws); [exact Hok|exact H2|].
    intros s4 H5 Eb. split; [exact Eb|]. exists ws. split; [exact Hw|]. split; [exact H5|].
    split; [auto|]. intros Hready. destruct (Hno Hready).
Qed.

(** a write FIFO that never has room *)
Definition icap_stuck (b : Z) : Prop := forall h,
  s32 (u32 (nth 0 (answer h ioread32 [b + XHWICAP_WFV]) 0)) <= 0.

Lemma stuck_helper b s p n (Q : Z -> shell -> Prop) :
  user_bar_is b s -> icap_stuck b -> 0 < n ->
  (forall s', wrote (WF b) [] s s' -> Q (- EIO) s') -> wp (bitstream_icap_helper p n) Q s.
Proof.
  intros Hbar Hst Hn HQ. unfold bitstream_icap_helper. rewrite Nat.add_1_r, loop_S. apply wp_bind.
  unfold icap_one. destruct (Z.ltb_spec 0 n); [|lia]. cbn [negb].
  apply wp_bind, (wp_user_read b); [exact Hbar|]. cbv zeta.
  destruct (Z.leb_spec (s32 (u32 (nth 0 (answer (trace (drv s)) ioread32 [b + XHWICAP_WFV]) 0))) 0) as [_|E];
    [|specialize (Hst (trace (drv s))); lia].
  apply wp_ret, wp_ret, HQ, wrote_call; [discriminate|apply wrote_refl].
Qed.

(** A download to a HWICAP that has no room for a single word is reported
    as a success. *)
Theorem bitstream_icap_hides_failure b s p f payload rest len :
  heap_ok s -> user_bar_is b s -> image s p f payload rest len -> 4 <= data_length f -> icap_stuck b ->
  wp (bitstream_icap p len) (fun r s' =>
    r = 0 /\ words_to (b + XHWICAP_WF) s' = words_to (b + XHWICAP_WF) s /\ bufs s' = bufs s) s.
Proof using Hkmalloc.
  intros Hok Hbar Hi H4 Hst. apply (wp_icap_start b s p f payload rest len); [exact Hok|exact Hbar|exact Hi|].
  intros q Hbar1 _ _ Hdata Hlen. unfold icap_data, piece_fuel, DMA_HWICAP_BITFILE_BUFFER_SIZE.
  assert (0 <= data_length f / 1024) by (apply Z.div_pos; lia).
  replace (Z.to_nat (data_length f / 1024 + 2)) with (S (Z.to_nat (data_length f / 1024 + 1))) by lia.
  apply wp_bind, wp_bind. rewrite loop_S. apply wp_bind. unfold icap_piece.
  destruct (Z.ltb_spec 0 (data_length f)); [|lia]. cbn [negb]. cbv zeta.
  rewrite piece_size_eq by lia. apply wp_bind, (stuck_helper b); [exact Hbar1|exact Hst| |].
  { apply Z.div_str_pos. unfold DMA_HWICAP_BITFILE_BUFFER_SIZE. lia. }
  intros s2 H2. apply wp_ret, wp_ret, wp_ret, (wp_icap_end b f s _ []); [exact Hok|exact H2|].
  intros s3 [_ Hw] Eb. rewrite app_nil_r in Hw. auto.
Qed.

(** ** A bitstream in user memory *)

(** the user memory from the address [u] on holds [file]; every copy succeeds *)
Definition user_file (u : Z) (file : list Z) : Prop := forall h a n, u <= a ->
  answer h copy_from_user [a; n] = 0 :: drop (Z.to_nat (a - u)) file.

Lemma user_file_drop u file k : 0 <= k -> user_file u file -> user_file (u + k) (drop (Z.to_nat k) file).
Proof.
  intros Hk H h a n Ha. rewrite (H h a n) by lia. rewrite drop_drop. do 2 f_equal. lia.
Qed.

Lemma env_bytes_take n l : 0 <= n <= Z.of_nat (length l) -> Forall is_byte l ->
  env_bytes n l = take (Z.to_nat n) l.
Proof.
  intros Hn Hb. unfold env_bytes. apply list_eq. intros i.
  destruct (decide (i < Z.to_nat n)%nat) as [Hi|Hi].
  - rewrite list_lookup_fmap, lookup_seq_lt by lia. cbn [fmap option_fmap option_map].
    rewrite lookup_take_lt by lia. destruct (lookup_lt_is_Some_2 l i ltac:(lia)) as [x Hx].
    rewrite Hx. f_equal. change (0 + i)%nat with i. rewrite (nth_lookup_Some _ _ _ _ Hx).
    pose proof (proj1 (Forall_lookup _ _) Hb i x Hx) as Hxb. unfold is_byte in Hxb.
    unfold u8. apply Z.mod_small. lia.
  - rewrite !lookup_ge_None_2; [reflexivity|rewrite length_take; lia|rewrite length_map, length_seq; lia].
Qed.

Lemma store_bytes_eq B l x s :
  bufs s !! B = Some x -> (length l <= length x)%nat ->
  store_bytes B l s = Ok tt (s <| bufs ::= <[B := l ++ drop (length l) x]> |>).
Proof.
  intros HB Hl. unfold store_bytes.
  assert (bytes_at (B, 0) (Z.of_nat (length l)) s = Ok (take (length l) x) s) as E.
  { unfold bytes_at, deref. cbn [fst snd]. rewrite HB. cbn [mbind option_bind].
    rewrite slice_intro by lia. rewrite Nat2Z.id, drop_0. reflexivity. }
  rewrite (bind_ok _ _ _ _ _ E). unfold modify. f_equal. unfold set_bufs. simpl. f_equal.
  apply map_eq. intros k. destruct (decide (k = B)) as [->|Hk].
  - rewrite lookup_alter_eq, HB, lookup_insert_eq. reflexivity.
  - rewrite lookup_alter_ne, lookup_insert_ne by congruence. reflexivity.
Qed.

(** a copy of [n] bytes to the block [B] *)
Definition copied (B : Z) (l x : list Z) (src n : Z) (s : shell) : shell :=
  (log (Call copy_from_user [src; n] (answer (trace (drv s)) copy_from_user [src; n])) s)
    <| bufs ::= <[B := l ++ drop (length l) x]> |>.

Lemma copy_to_block_eq B u file src n x s :
  user_file u file -> u <= src -> bufs s !! B = Some x -> 0 <= n <= Z.of_nat (length x) ->
  copy_to_block B src n s
  = Ok 0 (copied B (env_bytes n (drop (Z.to_nat (src - u)) file)) x src n s).
Proof.
  intros Hu Hsrc HB Hn. unfold copy_to_block, copy_from_user_.
  unfold bind at 1. unfold bind at 1. unfold ext_all, ret. change (trace_of s) with (trace (drv s)).
  unfold copied. rewrite (Hu _ _ _ Hsrc). cbn [nth tail fst snd].
  set (l := env_bytes n _). assert (length l = Z.to_nat n) as Hl by apply env_bytes_length.
  run_step (store_bytes_eq B l x
    (log (Call copy_from_user [src; n] (0 :: drop (Z.to_nat (src - u)) file)) s) HB ltac:(lia)).
  reflexivity.
Qed.

Lemma did_copied a B l x src n s : did a [] s (copied B l x src n s).
Proof. unfold copied. eapply did_then; [|apply did_bufs]. apply did_call. discriminate. Qed.

(** [ws] was written, and the buffer [B] of 1024 bytes has other contents *)
Definition used_buffer (b B : Z) (ws : list Z) (s s' : shell) : Prop :=
  did (WF b) ws s s' /\
  exists x, Z.of_nat (length x) = DMA_HWICAP_BITFILE_BUFFER_SIZE /\ bufs s' = <[B := x]> (bufs s).

Lemma used_buffer_quiet b B w1 w2 s1 s2 s3 :
  used_buffer b B w1 s1 s2 -> wrote (WF b) w2 s2 s3 -> used_buffer b B (w1 ++ w2) s1 s3.
Proof.
  intros [H1 (x & Hx & E)] H2. split; [exact (did_trans _ _ _ _ _ _ H1 (wrote_did _ _ _ _ H2))|].
  exists x. split; [exact Hx|]. rewrite (quiet_bufs _ _ (proj1 H2)). exact E.
Qed.

(** one more piece is copied from the user *)
Lemma copied_piece b B u s s1 l rest i n :
  user_file u (l ++ rest) -> Forall is_byte (l ++ rest) -> 0 <= i <= Z.of_nat (length l) ->
  0 <= n <= DMA_HWICAP_BITFILE_BUFFER_SIZE -> i + n <= Z.of_nat (length l) ->
  used_buffer b B (be_words (take (Z.to_nat i) l)) s s1 ->
  exists s2, copy_to_block B (u + i) n s1 = Ok 0 s2 /\
    used_buffer b B (be_words (take (Z.to_nat i) l)) s s2 /\
    holds s2 (B, 0) (take (Z.to_nat n) (drop (Z.to_nat i) l)).
Proof.
  intros Hu Hb Hi Hn Hl [H1 (x & Hx & Ex)].
  assert (bufs s1 !! B = Some x) as HB1 by (rewrite Ex; apply lookup_insert_eq).
  eexists. split; [exact (copy_to_block_eq B u (l ++ rest) (u + i) n x s1 Hu ltac:(lia) HB1 ltac:(lia))|].
  replace (u + i - u) with i by lia.
  rewrite env_bytes_take; [|rewrite length_drop, length_app; lia|apply Forall_drop, Hb].
  rewrite drop_app_le, take_app_le by (rewrite ?length_drop; lia).
  set (pl := take (Z.to_nat n) (drop (Z.to_nat i) l)).
  assert (Z.of_nat (length pl) = n) as Hpl by (unfold pl; rewrite length_take_le; [lia|rewrite length_drop; lia]).
  split; [split; [exact (did_then _ _ _ _ _ H1 (did_copied _ B pl x (u + i) n s1))|]|].
  - exists (pl ++ drop (length pl) x). split; [rewrite length_app, length_drop; lia|].
    unfold copied. simpl. rewrite Ex. apply insert_insert_eq.
  - exists (pl ++ drop (length pl) x). split; [apply lookup_insert_eq|]. cbn [snd].
    rewrite slice_intro by (rewrite ?length_app; lia). rewrite Nat2Z.id, drop_0, take_app_length. reflexivity.
Qed.

Lemma wp_user_icap_pieces b B u s l rest (Q : bool * Z -> shell -> Prop) :
  user_bar_is b s -> (exists x, Z.of_nat (length x) = DMA_HWICAP_BITFILE_BUFFER_SIZE /\ bufs s !! B = Some x) ->
  user_file u (l ++ rest) -> Forall is_byte (l ++ rest) -> Z.of_nat (length l) < 2 ^ 32 ->
  (forall s', used_buffer b B (be_words l) s s' -> Q (true, 0) s') ->
  (forall s' ws, ~ icap_ready b -> ws `prefix_of` be_words l -> used_buffer b B ws s s' -> Q (false, 0) s') ->
  wp (loop (piece_fuel (Z.of_nat (length l))) (user_icap_piece B (Z.of_nat (length l))) (0, u)) Q s.
Proof.
  intros Hbar (x0 & Hx0 & HB) Hu Hb Hlen Hok Hbad. set (len := Z.of_nat (length l)) in *.
  destruct (at_piece_start len ltac:(lia)) as [Hstart Hfuel].
  apply (wp_loop (fun v s1 => at_piece len (fst v) /\ snd v = u + fst v /\
      used_buffer b B (be_words (take (Z.to_nat (fst v)) l)) s s1) (fun v _ => pieces_left len (fst v)));
    [| |exact Hfuel].
  2:{ cbn [fst snd]. split; [exact Hstart|]. split; [lia|]. split; [apply did_refl|].
      exists x0. split; [exact Hx0|]. symmetry. apply insert_id, HB. }
  intros [i q] s1 (Hi & Hq & H1). cbn [fst snd] in *. subst q. unfold user_icap_piece.
  destruct (Z.ltb_spec i len) as [Hlt|Hge]; cbn [negb].
  2:{ apply wp_ret, Hok. rewrite take_ge in H1 by (unfold len in *; destruct Hi; lia). exact H1. }
  destruct (next_piece len i Hi Hlt Hlen) as (Hn & Hm & Hnext & Hu2 & Hmu).
  cbv zeta. set (n := piece_size len i) in *. destruct Hnext as [Hr Hm2]. destruct Hi as [Hi _].
  destruct (copied_piece b B u s s1 l rest i n Hu Hb Hi ltac:(lia) ltac:(unfold len in *; lia) H1)
    as (s2 & Es2 & H2 & Hp2).
  apply wp_bind. unfold wp at 1. rewrite Es2. cbn [nz Z.eqb negb].
  set (pl := take (Z.to_nat n) (drop (Z.to_nat i) l)) in *.
  assert (Z.of_nat (length pl) = n) as Hpl
    by (unfold pl; rewrite length_take_le; [lia|rewrite length_drop; unfold len in *; lia]).
  apply wp_bind. rewrite <- Hpl at 1. apply (wp_bitstream_icap_helper b);
    [exact (memory_only_bar _ _ _ (proj1 (proj1 H2)) Hbar)|exact Hp2| | |].
  - apply Forall_take, Forall_drop. apply Forall_app in Hb. apply Hb.
  - unfold DMA_HWICAP_BITFILE_BUFFER_SIZE in *. lia.
  - intros r s3 H3. destruct (nz r) eqn:Er.
    + apply wp_ret. destruct H3 as (k & H3 & [[-> _]|[_ Hno]]); [discriminate Er|].
      apply (Hbad s3 (be_words (take (Z.to_nat i) l) ++ take k (be_words pl)) Hno);
        [|exact (used_buffer_quiet _ _ _ _ _ _ _ H2 H3)].
      transitivity (be_words (take (Z.to_nat (i + n)) l)); [|apply be_words_take_prefix].
      rewrite be_words_next by (unfold len in *; lia). apply prefix_app.
      exists (drop k (be_words pl)). symmetry. apply take_drop.
    + apply nz_false in Er. subst r. apply wrote_prefix_all in H3. apply wp_ret. cbn [fst snd].
      rewrite Hu2. split; [split; [split; [exact Hr|exact Hm2]|split; [lia|]]|exact Hmu].
      rewrite be_words_next by (unfold len in *; lia). exact (used_buffer_quiet _ _ _ _ _ _ _ H2 H3).
Qed.

Lemma string_bufs_insert f b m B x :
  B < b -> <[B := x]> (string_bufs f b m) = string_bufs f b (<[B := x]> m).
Proof.
  intros H. unfold string_bufs. rewrite 4!(insert_insert_ne _ B) by lia. reflexivity.
Qed.

Lemma string_bufs_delete f b m B : B < b -> delete B (string_bufs f b m) = string_bufs f b (delete B m).
Proof. intros H. unfold string_bufs. rewrite 4!delete_insert_ne by lia. reflexivity. Qed.

Lemma env_bytes_bytes n l : Forall is_byte (env_bytes n l).
Proof.
  unfold env_bytes. apply Forall_forall. intros x (i & -> & _)%list_elem_of_fmap.
  unfold is_byte, u8. apply Z.mod_pos_bound. lia.
Qed.

Lemma env_bytes_prefix n h t : Forall is_byte h -> Z.of_nat (length h) <= n ->
  exists t', env_bytes n (h ++ t) = h ++ t'.
Proof.
  intros Hb Hn. exists (drop (length h) (env_bytes n (h ++ t))).
  rewrite <- (take_drop (length h) (env_bytes n (h ++ t))) at 1. f_equal.
  apply list_eq. intros i. destruct (decide (i < length h)%nat) as [Hi|Hi].
  - rewrite lookup_take_lt by exact Hi. unfold env_bytes. rewrite list_lookup_fmap, lookup_seq_lt by lia.
    cbn [fmap option_fmap option_map]. destruct (lookup_lt_is_Some_2 h i Hi) as [x Hx].
    rewrite Hx. f_equal. change (0 + i)%nat with i.
    rewrite (nth_lookup_Some _ _ _ x) by (apply lookup_app_l_Some, Hx).
    pose proof (proj1 (Forall_lookup _ _) Hb i x Hx) as Hxb. unfold is_byte in Hxb.
    unfold u8. apply Z.mod_small. lia.
  - rewrite !lookup_ge_None_2; [reflexivity|lia|rewrite length_take; lia].
Qed.

(** the bitstream [f], [payload] is in the memory of the user at [u] *)
Record user_image (u : Z) (f : bit_file) (payload rest : list Z) (len : Z) : Prop := {
  ui_wf : header_wf f;
  ui_data : Z.of_nat (length payload) = data_length f;
  ui_file : user_file u (print_header f ++ payload ++ rest);
  ui_bytes : Forall is_byte (print_header f ++ payload ++ rest);
  ui_short : Z.of_nat (length (print_header f)) <= DMA_HWICAP_BITFILE_BUFFER_SIZE;
  ui_fits : Z.of_nat (length (print_header f)) + data_length f <= len;
  ui_u32 : Z.of_nat (length (print_header f)) + data_length f < 2 ^ 32
}.

(** the header of the bitstream is copied to [B] and parsed *)
Lemma user_header u f payload rest len B x s :
  user_image u f payload rest len -> heap_ok s ->
  bufs s !! B = Some x -> Z.of_nat (length x) = DMA_HWICAP_BITFILE_BUFFER_SIZE ->
  exists y s1, Z.of_nat (length y) = DMA_HWICAP_BITFILE_BUFFER_SIZE /\ did (WF 0) [] s s1 /\
    (forall a, did a [] s (with_strings f s1)) /\
    copy_to_block B u DMA_HWICAP_BITFILE_BUFFER_SIZE s = Ok 0 s1 /\
    parse_and_check (B, 0) len s1 = Ok (0, header_of f (fresh (drv s))) (with_strings f s1) /\
    bufs (with_strings f s1) = string_bufs f (fresh (drv s)) (<[B := y]> (bufs s)).
Proof using Hkmalloc.
  intros [Hwf Hdata Hu Hb Hshort Hfit H32] Hok HB Hx.
  pose proof (copy_to_block_eq B u _ u DMA_HWICAP_BITFILE_BUFFER_SIZE x s Hu (Z.le_refl u) HB
    ltac:(rewrite Hx; unfold DMA_HWICAP_BITFILE_BUFFER_SIZE; lia)) as Ec.
  rewrite Z.sub_diag, drop_0 in Ec. apply Forall_app in Hb as [Hbh Hb].
  destruct (env_bytes_prefix DMA_HWICAP_BITFILE_BUFFER_SIZE (print_header f) (payload ++ rest) Hbh Hshort)
    as [t Et]. set (y := env_bytes _ _) in *.
  assert (Z.of_nat (length y) = DMA_HWICAP_BITFILE_BUFFER_SIZE) as Hy
    by (unfold y; rewrite env_bytes_length; reflexivity).
  set (s1 := copied B y x u DMA_HWICAP_BITFILE_BUFFER_SIZE s) in *.
  exists y, s1. split; [exact Hy|]. split; [apply did_copied|].
  split; [intros a; eapply did_then; [apply did_copied|apply did_with_strings]|]. split; [exact Ec|].
  assert (bufs s1 = <[B := y]> (bufs s)) as E1.
  { change (bufs s1) with (<[B := y ++ drop (length y) x]> (bufs s)).
    rewrite drop_ge, app_nil_r by lia. reflexivity. }
  assert (heap_ok s1) as Hok1.
  { split; [exact (proj1 Hok)|]. intros q Hq. rewrite E1. change (fresh (drv s1)) with (fresh (drv s)) in Hq.
    destruct (decide (q = B)) as [->|]; [|rewrite lookup_insert_ne by congruence; apply Hok, Hq].
    rewrite (proj2 Hok) in HB by exact Hq. discriminate. }
  split; [|rewrite bufs_with_strings, E1; reflexivity].
  apply (parse_and_check_eq len s1 (B, 0) f t); [exact Hok1|exact Hwf| |rewrite <- Et; apply env_bytes_bytes|exact Hfit|exact H32].
  rewrite <- Et. exists y. cbn [fst snd]. rewrite E1, lookup_insert_eq.
  unfold DMA_HWICAP_BITFILE_BUFFER_SIZE in Hy. split; [reflexivity|].
  split; [lia|]. split; [lia|]. split; [lia|reflexivity].
Qed.

Lemma used_buffer_did b B w s1 s2 s3 x0 :
  did (WF b) [] s1 s2 -> bufs s2 = x0 -> used_buffer b B w s2 s3 ->
  did (WF b) w s1 s3 /\ exists x, Z.of_nat (length x) = DMA_HWICAP_BITFILE_BUFFER_SIZE /\
    bufs s3 = <[B := x]> x0.
Proof. intros H1 <- [H2 Hx]. split; [exact (did_trans _ _ _ _ _ _ H1 H2)|exact Hx]. Qed.

(** the body leaves the buffer and the strings of the header to be freed *)
Lemma wp_ioctl_icap_body b B u f payload rest len s x
    (Q : Z * XHwIcap_Bit_Header -> shell -> Prop) :
  heap_ok s -> user_bar_is b s -> user_image u f payload rest len ->
  bufs s !! B = Some x -> Z.of_nat (length x) = DMA_HWICAP_BITFILE_BUFFER_SIZE ->
  (forall r s' y, icap_outcome b (be_words payload) s s' r ->
    bufs s' = string_bufs f (fresh (drv s)) (<[B := y]> (bufs s)) ->
    Q (r, header_of f (fresh (drv s))) s') ->
  wp (ioctl_icap_body B u len) Q s.
Proof using Hkmalloc.
  intros Hok Hbar Hui HB Hx HQ.
  destruct (user_header u f payload rest len B x s Hui Hok HB Hx) as (y & s1 & Hy & _ & Hd & Ec & Ep & Eb).
  destruct Hui as [Hwf Hdata Hu Hb _ _ H32]. specialize (Hd (WF b)). set (s2 := with_strings f s1) in *.
  assert (B < fresh (drv s)) as HBf
    by (destruct (Z.lt_ge_cases B (fresh (drv s))); [assumption|rewrite (proj2 Hok) in HB by lia; discriminate]).
  rewrite <- string_bufs_insert in Eb by exact HBf.
  unfold ioctl_icap_body. apply wp_bind. unfold wp at 1. rewrite Ec. cbn [nz Z.eqb negb].
  apply wp_bind. unfold wp at 1. rewrite Ep. cbv beta iota. cbn [nz Z.eqb negb].
  change (BitstreamLength (header_of f (fresh (drv s)))) with (data_length f).
  change (HeaderLength (header_of f (fresh (drv s)))) with (Z.of_nat (length (print_header f))).
  rewrite <- Hdata. apply (user_file_drop _ _ (Z.of_nat (length (print_header f))) ltac:(lia)) in Hu.
  rewrite Nat2Z.id, drop_app_length in Hu. apply Forall_app in Hb as [_ Hb].
  pose proof (proj2 (proj2 (proj2 (proj2 (proj2 Hwf))))) as Hd32. unfold is_u32 in Hd32.
  assert (user_bar_is b s2) as Hbar2 by exact (memory_only_bar _ _ _ (proj1 Hd) Hbar).
  apply wp_bind, (wp_user_icap_pieces b B _ s2 payload rest); [exact Hbar2| |exact Hu|exact Hb|lia| |].
  - exists y. split; [exact Hy|]. rewrite Eb. apply lookup_insert_eq.
  - intros s3 H3. cbn [negb]. apply wp_bind, (wp_wait_for_done (WF b) b).
    { exact (memory_only_bar _ _ _ (proj1 (proj1 H3)) Hbar2). }
    intros r s4 H4 Hr. pose proof (used_buffer_quiet _ _ _ _ _ _ _ H3 H4) as H5. rewrite app_nil_r in H5.
    destruct (used_buffer_did _ _ _ _ _ _ _ Hd Eb H5) as [H6 (z & _ & Ez)].
    rewrite insert_insert_eq, string_bufs_insert in Ez by exact HBf.
    destruct Hr as [-> | [-> Hno]]; apply wp_ret, (HQ _ _ z); try exact Ez;
      (exists (be_words payload); split; [reflexivity|]; split; [exact H6|]; split; [auto|]).
    + split; reflexivity.
    + intros Hready. destruct (Hno Hready).
  - intros s3 ws Hno Hw H3. cbn [negb]. destruct (used_buffer_did _ _ _ _ _ _ _ Hd Eb H3) as [H6 (z & _ & Ez)].
    rewrite insert_insert_eq, string_bufs_insert in Ez by exact HBf.
    apply wp_ret, (HQ _ _ z); [|exact Ez]. exists ws. split; [exact Hw|]. split; [exact H6|].
    split; [auto|]. intros Hready. destruct (Hno Hready).
Qed.

(** ** The gate *)

(** the history changed, and the gate is now [g] *)
Definition gate_set (g : Z) (s s' : shell) : Prop :=
  (forall a, did a [] s (s' <| axi_gate_frozen := axi_gate_frozen s |>)) /\ bufs s' = bufs s /\
  axi_gate_frozen s' = g.

Lemma wp_gate_read b s1 s (Q : Z -> shell -> Prop) :
  user_bar_is b s -> (forall a, wrote a [] s1 s) ->
  (forall v s', user_bar_is b s' -> (forall a, wrote a [] s1 s') -> Q v s') ->
  wp (user_read AXI_GATE_OFFSET_READ) Q s.
Proof.
  intros Hb H HQ. apply (wp_user_read b); [exact Hb|]. cbv zeta. apply HQ.
  - apply (user_bar_quiet b s); [apply quiet_log|exact Hb].
  - intros a. apply wrote_call; [discriminate|apply H].
Qed.

Lemma wp_gate_write b v s1 s (Q : unit -> shell -> Prop) :
  user_bar_is b s -> (forall a, wrote a [] s1 s) ->
  (forall s', user_bar_is b s' -> (forall a, wrote a [] s1 s') -> Q tt s') ->
  wp (user_write8 v AXI_GATE_OFFSET) Q s.
Proof.
  intros Hb H HQ. unfold user_write8, wp. rewrite (bind_ok _ _ _ _ _ (user_bar_eq b s Hb)). apply HQ.
  - apply (user_bar_quiet b s); [apply quiet_log|exact Hb].
  - intros a. apply wrote_call; [discriminate|apply H].
Qed.

Lemma wp_set_gate g s1 s (Q : unit -> shell -> Prop) :
  (forall a, wrote a [] s1 s) -> (forall s', gate_set g s1 s' -> Q tt s') ->
  wp (modify (fun s => s <| axi_gate_frozen := g |>)) Q s.
Proof.
  intros H HQ. apply wp_modify, HQ. split; [|split; [|reflexivity]].
  - intros a. specialize (H a). apply wrote_did in H.
    replace (s <| axi_gate_frozen := g |> <| axi_gate_frozen := axi_gate_frozen s1 |>) with s; [exact H|].
    rewrite <- (memory_only_gate _ _ (proj1 H)). destruct s; reflexivity.
  - exact (quiet_bufs _ _ (proj1 (H 0))).
Qed.

Lemma wp_freezeAXIGate b s (Q : unit -> shell -> Prop) :
  user_bar_is b s -> axi_gate_frozen s = 0 -> (forall s', gate_set 1 s s' -> Q tt s') ->
  wp freezeAXIGate Q s.
Proof.
  intros Hb Hg HQ. unfold freezeAXIGate. apply wp_bind, wp_gets. rewrite Hg.
  apply wp_bind, wp_BUG_ON; [reflexivity|].
  apply wp_bind, (wp_gate_read b s); [exact Hb|intros; apply wrote_refl|]. intros _ s1 Hb1 H1.
  apply wp_bind, (wp_gate_write b _ s); [exact Hb1|exact H1|]. intros s2 Hb2 H2.
  apply wp_bind, (wp_gate_read b s); [exact Hb2|exact H2|]. intros _ s3 _ H3.
  apply (wp_set_gate 1 s); [exact H3|exact HQ].
Qed.

Lemma wp_pulse_gate b v s1 s (Q : unit -> shell -> Prop) :
  user_bar_is b s -> (forall a, wrote a [] s1 s) ->
  (forall s', user_bar_is b s' -> (forall a, wrote a [] s1 s') -> Q tt s') ->
  wp (pulse_gate v) Q s.
Proof.
  intros Hb H HQ. unfold pulse_gate. apply wp_bind, (wp_gate_read b s1); [exact Hb|exact H|].
  intros _ s2 Hb2 H2. apply wp_bind, (wp_gate_write b _ s1); [exact Hb2|exact H2|].
  intros s3 Hb3 H3. apply wp_ext_, HQ.
  - apply (user_bar_quiet b s3); [apply quiet_log|exact Hb3].
  - intros a. apply wrote_call; [discriminate|apply H3].
Qed.

Lemma wp_freeAXIGate b s (Q : unit -> shell -> Prop) :
  user_bar_is b s -> axi_gate_frozen s = 1 -> (forall s', gate_set 0 s s' -> Q tt s') ->
  wp freeAXIGate Q s.
Proof.
  intros Hb Hg HQ. unfold freeAXIGate. apply wp_bind, wp_gets. rewrite Hg.
  apply wp_bind, wp_BUG_ON; [reflexivity|].
  apply wp_bind, (wp_pulse_gate b _ s); [exact Hb|intros; apply wrote_refl|]. intros s1 Hb1 H1.
  apply wp_bind, (wp_pulse_gate b _ s); [exact Hb1|exact H1|]. intros s2 Hb2 H2.
  apply wp_bind, (wp_pulse_gate b _ s); [exact Hb2|exact H2|]. intros s3 Hb3 H3.
  apply wp_bind, (wp_pulse_gate b _ s); [exact Hb3|exact H3|]. intros s4 Hb4 H4.
  apply wp_bind, (wp_gate_read b s); [exact Hb4|exact H4|]. intros _ s5 _ H5.
  apply (wp_set_gate 0 s); [exact H5|exact HQ].
Qed.

(** ** The whole ioctl *)

(** [ws] was written to the register [a]; the driver is the same but for its
    history and the blocks it has allocated *)
Definition worked (a : Z) (ws : list Z) (s s' : shell) : Prop :=
  drv s' = (drv s) <| trace := trace (drv s') |> <| fresh := fresh (drv s') |> /\
  fresh (drv s) <= fresh (drv s') /\ words_to a s' = words_to a s ++ ws.

Lemma did_worked a ws s s' : did a ws s s' -> worked a ws s s'.
Proof. intros [[H L] W]. split; [|split; assumption]. rewrite H at 1. reflexivity. Qed.

Lemma worked_trans a w1 w2 s1 s2 s3 : worked a w1 s1 s2 -> worked a w2 s2 s3 -> worked a (w1 ++ w2) s1 s3.
Proof.
  intros (H1 & L1 & E1) (H2 & L2 & E2). split; [rewrite H2, H1; reflexivity|]. split; [lia|].
  rewrite E2, E1, app_assoc. reflexivity.
Qed.

Lemma worked_then a w s1 s2 s3 : worked a w s1 s2 -> worked a [] s2 s3 -> worked a w s1 s3.
Proof. intros H1 H2. rewrite <- (app_nil_r w). exact (worked_trans _ _ _ _ _ _ H1 H2). Qed.

Lemma gate_set_worked g a s s' : gate_set g s s' -> worked a [] s s'.
Proof. intros (H & _ & _). exact (did_worked _ _ _ _ (H a)). Qed.

Lemma gate_set_stash g s s' : gate_set g s s' ->
  clear_bitstream s' = clear_bitstream s /\ clear_bitstream_length s' = clear_bitstream_length s.
Proof. intros (H & _ & _). exact (memory_only_stash _ _ (proj1 (H 0))). Qed.

Lemma worked_bar a w b s s' : worked a w s s' -> user_bar_is b s -> user_bar_is b s'.
Proof. unfold user_bar_is. intros [H _]. rewrite H. exact id. Qed.

Lemma worked_heap a w s s' : worked a w s s' -> bufs s' = bufs s -> heap_ok s -> heap_ok s'.
Proof. intros (_ & L & _) E [H1 H2]. split; [lia|]. intros p Hp. rewrite E. apply H2. lia. Qed.

(** the clearing bitstream of the last download, if there is one *)
Definition stash_is (s : shell) (clear : list Z) : Prop :=
  clear_bitstream s = 0 /\ clear = [] \/
  exists g rest, image s (clear_bitstream s, 0) g clear rest (clear_bitstream_length s).

Lemma image_block s p f payload rest len : image s p f payload rest len -> is_Some (bufs s !! fst p).
Proof. intros [_ _ (L & HL & _) _ _]. eauto. Qed.

Lemma stash_buf s clear : heap_ok s -> stash_is s clear ->
  clear_bitstream s <> 0 -> is_Some (bufs s !! clear_bitstream s).
Proof. intros Hok [[E _]|(g & rest & Hi)] Hne; [congruence|exact (image_block _ _ _ _ _ _ Hi)]. Qed.

Lemma wp_drop_clear_bitstream a s (Q : unit -> shell -> Prop) :
  heap_ok s -> (clear_bitstream s <> 0 -> is_Some (bufs s !! clear_bitstream s)) ->
  (forall s', worked a [] s s' -> bufs s' = delete (clear_bitstream s) (bufs s) ->
    clear_bitstream s' = 0 -> axi_gate_frozen s' = axi_gate_frozen s -> Q tt s') ->
  wp drop_clear_bitstream Q s.
Proof.
  intros Hok Hb HQ. unfold drop_clear_bitstream. apply wp_bind, wp_gets.
  apply wp_bind, wp_mfree; [apply Hok; lia|exact Hb|]. apply wp_modify, HQ; [|reflexivity..].
  exact (did_worked _ _ _ _ (did_mfree a vfree _ s ltac:(discriminate))).
Qed.

Lemma icap_outcome_bar b ws s s' r : icap_outcome b ws s s' r -> user_bar_is b s -> user_bar_is b s'.
Proof. intros (w & _ & [H _] & _). exact (memory_only_bar _ _ _ H). Qed.

Lemma wp_bitstream_clear_icap b s clear (Q : Z -> shell -> Prop) :
  heap_ok s -> user_bar_is b s -> stash_is s clear ->
  (forall r s' ws, ws `prefix_of` be_words clear -> worked (WF b) ws s s' ->
    bufs s' = delete (clear_bitstream s) (bufs s) -> clear_bitstream s' = 0 ->
    axi_gate_frozen s' = axi_gate_frozen s -> (r = 0 \/ r = - EIO) ->
    (icap_ready b -> r = 0 /\ ws = be_words clear) -> Q r s') ->
  wp bitstream_clear_icap Q s.
Proof using Hkmalloc.
  intros Hok Hbar Hst HQ. unfold bitstream_clear_icap. apply wp_bind, wp_gets.
  destruct Hst as [[E ->]|(g & rest & Hi)].
  - rewrite E. apply wp_ret, (HQ 0 s []); [reflexivity| | |exact E|reflexivity|auto|auto].
    + apply did_worked, did_refl.
    + rewrite E. symmetry. apply delete_id, Hok. lia.
  - destruct (Z.eqb_spec (clear_bitstream s) 0) as [E|Hne].
    { apply image_block in Hi as [x Hx]. cbn [fst] in Hx. rewrite E, (proj2 Hok) in Hx by lia. discriminate. }
    pose proof (image_block _ _ _ _ _ _ Hi) as Hblk. cbn [fst] in Hblk.
    apply wp_bind, wp_gets. apply wp_bind.
    eapply wp_conseq; [exact (wp_bitstream_icap b s _ g clear rest _ Hok Hbar Hi)|].
    intros r s1 (Eb & ws & Hw & H1 & Hr & Hready).
    destruct (memory_only_stash _ _ (proj1 H1)) as [Es _].
    apply wp_bind, (wp_drop_clear_bitstream (WF b));
      [exact (heap_ok_memory_only _ _ (proj1 H1) Eb Hok)|rewrite Es, Eb; intros _; exact Hblk|].
    intros s2 H2 Eb2 Ec2 Eg2. apply wp_ret, (HQ r s2 ws); [exact Hw| | |exact Ec2| |tauto|exact Hready].
    + exact (worked_then _ _ _ _ _ (did_worked _ _ _ _ H1) H2).
    + rewrite Eb2, Es, Eb. reflexivity.
    + rewrite Eg2. exact (memory_only_gate _ _ (proj1 H1)).
Qed.

Lemma gate_set_bar g b s s' : gate_set g s s' -> user_bar_is b s -> user_bar_is b s'.
Proof. intros H. exact (worked_bar _ _ _ _ _ (gate_set_worked _ 0 _ _ H)). Qed.
Lemma gate_set_heap g s s' : gate_set g s s' -> heap_ok s -> heap_ok s'.
Proof. intros H. exact (worked_heap _ _ _ _ (gate_set_worked _ 0 _ _ H) (proj1 (proj2 H))). Qed.

Lemma wp_free_buffers b B f b0 y m s (Q : unit -> shell -> Prop) :
  user_bar_is b s -> axi_gate_frozen s = 1 ->
  0 < B < b0 -> m !! 0 = None -> m !! B = None -> (forall p, b0 <= p -> m !! p = None) ->
  bufs s = string_bufs f b0 (<[B := y]> m) ->
  (forall s', worked (WF b) [] s s' -> bufs s' = m -> axi_gate_frozen s' = 0 ->
    clear_bitstream s' = clear_bitstream s -> Q tt s') ->
  wp (free_buffers B (header_of f b0)) Q s.
Proof.
  intros Hbar Hg HB H0 HmB Hm Hs HQ. unfold free_buffers.
  apply wp_bind, (wp_freeAXIGate b); [exact Hbar|exact Hg|]. intros s1 H1.
  destruct (gate_set_stash _ _ _ H1) as [Es1 _].
  assert (bufs s1 = string_bufs f b0 (<[B := y]> m)) as Hs1 by (rewrite (proj1 (proj2 H1)); exact Hs).
  apply wp_bind, wp_mfree.
  { rewrite Hs1. unfold string_bufs. rewrite !lookup_insert_ne by lia. exact H0. }
  { intros _. rewrite Hs1. unfold string_bufs. rewrite 4!lookup_insert_ne by lia. rewrite lookup_insert_eq. eauto. }
  set (s2 := _ <| bufs ::= _ |>).
  assert (did (WF b) [] s1 s2) as H2 by (apply did_mfree; discriminate).
  apply (wp_free_strings (WF b) f b0 m); [lia|exact H0|exact Hm| |].
  { change (bufs s2) with (delete B (bufs s1)). rewrite Hs1, string_bufs_delete by lia.
    rewrite delete_insert_eq, delete_id by exact HmB. reflexivity. }
  intros s3 H3 Eb. destruct (memory_only_stash _ _ (proj1 H3)) as [Es3 _].
  apply HQ; [|exact Eb| |].
  - apply (worked_then _ _ _ _ _ (gate_set_worked _ _ _ _ H1)).
    exact (did_worked _ _ _ _ (did_then _ _ _ _ _ H2 H3)).
  - rewrite (memory_only_gate _ _ (proj1 H3)), (memory_only_gate _ _ (proj1 H2)). apply H1.
  - rewrite Es3, <- Es1. apply (memory_only_stash _ _ (proj1 H2)).
Qed.

(** nothing was allocated *)
Lemma wp_free_no_buffers b s (Q : unit -> shell -> Prop) :
  user_bar_is b s -> axi_gate_frozen s = 1 -> bufs s !! 0 = None ->
  (forall s', worked (WF b) [] s s' -> bufs s' = bufs s -> axi_gate_frozen s' = 0 ->
    clear_bitstream s' = clear_bitstream s -> Q tt s') ->
  wp (free_buffers 0 zero_header) Q s.
Proof.
  intros Hbar Hg H0 HQ. unfold free_buffers, free_strings.
  apply wp_bind, (wp_freeAXIGate b); [exact Hbar|exact Hg|]. intros s1 H1.
  destruct (gate_set_stash _ _ _ H1) as [Es1 _]. rewrite <- (proj1 (proj2 H1)) in H0.
  assert (forall (P : unit -> shell -> Prop) s2, bufs s2 = bufs s1 -> did (WF b) [] s1 s2 ->
    (forall s3, bufs s3 = bufs s1 -> did (WF b) [] s1 s3 -> P tt s3) -> wp (mfree kfree 0) P s2) as Hfree.
  { intros P s2 E2 H2 HP. apply wp_mfree; [rewrite E2; exact H0|congruence|].
    rewrite delete_no_buf by (simpl; rewrite E2; exact H0).
    apply HP; [exact E2|]. apply (did_then _ _ _ _ _ H2). apply did_call. discriminate. }
  apply wp_bind, Hfree; [reflexivity|apply did_refl|]. intros s2 E2 H2.
  do 3 (apply wp_bind, Hfree; [assumption|assumption|]; clear E2 H2; intros ? E2 H2).
  apply Hfree; [exact E2|exact H2|]. clear E2 H2. intros s9 E3 H3.
  destruct (memory_only_stash _ _ (proj1 H3)) as [Es3 _]. apply HQ.
  - apply (worked_then _ _ _ _ _ (gate_set_worked _ _ _ _ H1)). exact (did_worked _ _ _ _ H3).
  - rewrite E3. apply H1.
  - rewrite (memory_only_gate _ _ (proj1 H3)). apply H1.
  - rewrite Es3. exact Es1.
Qed.

(** the buffer of a download *)
Lemma wp_malloc_buffer a s (Q : Z -> shell -> Prop) :
  heap_ok s ->
  (forall s' x, did a [] s s' -> Z.of_nat (length x) = DMA_HWICAP_BITFILE_BUFFER_SIZE ->
    bufs s' = <[fresh (drv s) := x]> (bufs s) -> fresh (drv s') = fresh (drv s) + 1 -> heap_ok s' ->
    Q (fresh (drv s)) s') ->
  wp (malloc kmalloc DMA_HWICAP_BITFILE_BUFFER_SIZE) Q s.
Proof using Hkmalloc.
  intros Hok HQ. unfold wp. rewrite (malloc_eq Hkmalloc). set (s1 := _ <| bufs ::= _ |>).
  set (n := DMA_HWICAP_BITFILE_BUFFER_SIZE) in *.
  apply (HQ s1 (env_bytes n (tail (answer (trace (drv s)) kmalloc [n])))).
  - split.
    + destruct s as [[] ? ? ? ? ? ? ? ?]. split; [reflexivity|simpl; lia].
    + rewrite app_nil_r.
      apply (words_to_other a kmalloc [n] (answer (trace (drv s)) kmalloc [n]) s). discriminate.
  - rewrite env_bytes_length. reflexivity.
  - reflexivity.
  - reflexivity.
  - split; [change (0 < fresh (drv s) + 1); destruct Hok; lia|]. intros p Hp.
    change (fresh (drv s1)) with (fresh (drv s) + 1) in Hp.
    change (<[fresh (drv s) := env_bytes n (tail (answer (trace (drv s)) kmalloc [n]))]> (bufs s) !! p = None).
    destruct Hok as [Hf Hn]. rewrite lookup_insert_ne by lia. apply Hn. lia.
Qed.

Lemma stash_is_same s s' clear : bufs s' = bufs s -> clear_bitstream s' = clear_bitstream s ->
  clear_bitstream_length s' = clear_bitstream_length s -> stash_is s clear -> stash_is s' clear.
Proof.
  intros Eb E1 E2. unfold stash_is. rewrite E1, E2. intros [H|(g & rest & H)]; [left; exact H|right].
  exists g, rest. destruct H as [? ? (L & HL & H) ? ?]. split; try assumption.
  exists L. rewrite Eb. split; assumption.
Qed.

(** C15: A download through the ICAP ends with the AXI gate open, every buffer
    freed and the clearing bitstream used up; the HWICAP has got the words of
    the clearing bitstream and those of the file, in order up to where one of
    them failed, and all of them with result 0 when it is always ready. *)
Theorem bitstream_ioctl_icap_downloads b u f payload rest len clear s :
  heap_ok s -> user_bar_is b s -> axi_gate_frozen s = 0 -> stash_is s clear ->
  user_image u f payload rest len ->
  wp (bitstream_ioctl_icap u len) (fun r s' =>
    axi_gate_frozen s' = 0 /\ bufs s' = delete (clear_bitstream s) (bufs s) /\
    clear_bitstream s' = 0 /\ (r = 0 \/ r = - EIO) /\
    exists w1 w2, w1 `prefix_of` be_words clear /\ w2 `prefix_of` be_words payload /\
      words_to (b + XHWICAP_WF) s' = words_to (b + XHWICAP_WF) s ++ w1 ++ w2 /\
      (icap_ready b -> r = 0 /\ w1 = be_words clear /\ w2 = be_words payload)) s.
Proof using Hkmalloc.
  intros Hok Hbar Hg Hst Hui. unfold bitstream_ioctl_icap.
  apply wp_bind, (wp_freezeAXIGate b); [exact Hbar|exact Hg|]. intros s1 H1.
  destruct (gate_set_stash _ _ _ H1) as [Es El]. destruct H1 as (Hd1 & Eb1 & Eg1).
  assert (gate_set 1 s s1) as H1 by (split; [exact Hd1|split; assumption]). clear Hd1.
  pose proof (gate_set_worked _ (WF b) _ _ H1) as W1.
  apply wp_bind, (wp_bitstream_clear_icap b _ clear);
    [exact (gate_set_heap _ _ _ H1 Hok)|exact (gate_set_bar _ _ _ _ H1 Hbar)|
     exact (stash_is_same _ _ _ Eb1 Es El Hst)|].
  intros r s2 w1 Hw1 W2 Eb2 Ec2 Eg2 Hr Hready. rewrite Es, Eb1 in Eb2. rewrite Eg1 in Eg2.
  pose proof (worked_trans _ _ _ _ _ _ W1 W2) as W3. cbn [app] in W3.
  assert (user_bar_is b s2) as Hbar2 by exact (worked_bar _ _ _ _ _ W3 Hbar).
  assert (heap_ok s2) as Hok2.
  { destruct Hok as [Hf Hn]. destruct W3 as (_ & Lf & _). split; [lia|]. intros q Hq. rewrite Eb2.
    apply lookup_delete_None. right. apply Hn. lia. }
  destruct (nz r) eqn:Er.
  - apply wp_bind, (wp_free_no_buffers b); [exact Hbar2|exact Eg2|apply Hok2; lia|].
    intros s3 W4 Eb3 Eg3 Ec3. apply wp_ret. rewrite Eb3, Ec3.
    split; [exact Eg3|]. split; [exact Eb2|]. split; [exact Ec2|]. split; [exact Hr|].
    exists w1, []. split; [exact Hw1|]. split; [apply prefix_nil|].
    rewrite app_nil_r. split; [apply (worked_then _ _ _ _ _ W3 W4)|].
    intros Hrd. destruct (Hready Hrd) as [-> _]. discriminate Er.
  - apply wp_bind, (wp_malloc_buffer (WF b)); [exact Hok2|]. intros s3 x H3 Hx Eb3 Ef3 Hok3.
    set (B := fresh (drv s2)) in *. pose proof (proj1 Hok2) as HBpos.
    destruct (Z.eqb_spec B 0); [unfold B in *; lia|].
    assert (user_bar_is b s3) as Hbar3 by exact (memory_only_bar _ _ _ (proj1 H3) Hbar2).
    apply wp_bind, (wp_ioctl_icap_body b B u f payload rest len s3 x);
      [exact Hok3|exact Hbar3|exact Hui|rewrite Eb3; apply lookup_insert_eq|exact Hx|].
    intros r2 s4 y (w2 & Hw2 & H4 & Hr2 & Hready2) Eb4.
    rewrite Eb3, insert_insert_eq, Ef3 in Eb4. rewrite Ef3.
    pose proof (did_trans _ _ _ _ _ _ H3 H4) as H5. cbn [app] in H5.
    apply wp_bind, (wp_free_buffers b B f (B + 1) y (bufs s2)).
    + exact (memory_only_bar _ _ _ (proj1 H5) Hbar2).
    + rewrite (memory_only_gate _ _ (proj1 H5)). exact Eg2.
    + unfold B in *; lia.
    + apply Hok2. lia.
    + apply Hok2. unfold B. lia.
    + intros q Hq. apply Hok2. unfold B in Hq. lia.
    + exact Eb4.
    + intros s6 W6 Eb6 Eg6 Ec6. apply wp_ret. rewrite Eb6, Ec6.
      split; [exact Eg6|]. split; [exact Eb2|].
      split; [rewrite (proj1 (memory_only_stash _ _ (proj1 H5))); exact Ec2|]. split; [tauto|].
      exists w1, w2. split; [exact Hw1|]. split; [exact Hw2|].
      pose proof (worked_trans _ _ _ _ _ _ W3 (worked_then _ _ _ _ _ (did_worked _ _ _ _ H5) W6)) as W7.
      split; [apply W7|]. intros Hrd. destruct (Hready Hrd) as [_ E1]. destruct (Hready2 Hrd) as [E2 E3]. auto.
Qed.
End Icap.
