(* ===== verification/McapFacts.v ===== *)
(** * Downloads through the MCAP (xdma-bit.c)

    The words bitstream_mcap writes to the configuration space, and what the
    bounded waits make of a device that does not answer. *)
From S2P Require Import Prelude Layout Kernel World CharDev Shell Bitstream BitFacts DownloadFacts IcapFacts.
#[local] Open Scope Z_scope.

(** an access of the MCAP: the control register is read, or a register is
    written; the register is given by its offset *)
Inductive mcap_event : Type :=
| ControlRead (v : Z)
| RegWrite (offset v : Z).

(** the accesses of the function [pdev] whose MCAP is at [base]; every write to
    its configuration space counts as one *)
Definition mcap_access (pdev base : Z) (e : ev) : option mcap_event :=
  match e with
  | Call pci_read_config_dword [p; o] r =>
      if (p =? pdev) && (o =? base + MCAP_CONTROL) then Some (ControlRead (u32 (nth 1 r 0))) else None
  | Call pci_write_config_dword [p; o; v] _ => if p =? pdev then Some (RegWrite (o - base) v) else None
  | _ => None
  end.

(** the accesses so far, oldest first *)
Definition mcap_log (s : shell) : list mcap_event :=
  rev (omap (mcap_access (pci_dev (lro (drv s))) (mcap_base s)) (trace (drv s))).

Lemma mcap_log_log e s :
  mcap_log (log e s) = mcap_log s ++
    match mcap_access (pci_dev (lro (drv s))) (mcap_base s) e with Some x => [x] | None => [] end.
Proof.
  unfold mcap_log. change (mcap_base (log e s)) with (mcap_base s).
  change (pci_dev (lro (drv (log e s)))) with (pci_dev (lro (drv s))).
  change (trace (drv (log e s))) with (e :: trace (drv s)). cbn [omap list_omap].
  destruct (mcap_access _ _ e); cbn [rev]; [reflexivity|rewrite app_nil_r; reflexivity].
Qed.

Section Mcap.
Context {env : Env} {ho : HostOrder}.

(** the address of a register of the MCAP *)
Definition mreg (s : shell) (offset : Z) : Z := mcap_base s + offset.
(** what the status register can be read as *)
Definition status_of (s : shell) (h : history) : Z :=
  u32 (nth 1 (answer h pci_read_config_dword [pci_dev (lro (drv s)); mreg s MCAP_STATUS]) 0).

(** the history changed only, and the MCAP was accessed as in [l] *)
Record sent (l : list mcap_event) (s s' : shell) : Prop := {
  sent_quiet : quiet s s';
  sent_log : mcap_log s' = mcap_log s ++ l
}.

Lemma quiet_mreg s s' o : quiet s s' -> mreg s' o = mreg s o.
Proof. unfold quiet, mreg. intros H. rewrite H. reflexivity. Qed.
Lemma quiet_base s s' : quiet s s' -> mcap_base s' = mcap_base s.
Proof. unfold quiet. intros H. rewrite H. reflexivity. Qed.
Lemma quiet_status s s' h : quiet s s' -> status_of s' h = status_of s h.
Proof.
  intros H. unfold status_of. rewrite (quiet_mreg _ _ _ H), (quiet_lro _ _ H). reflexivity.
Qed.

Lemma sent_refl s : sent [] s s.
Proof. split; [reflexivity|rewrite app_nil_r; reflexivity]. Qed.

Lemma sent_call f args r l s1 s2 :
  sent l s1 s2 ->
  sent (l ++ match mcap_access (pci_dev (lro (drv s1))) (mcap_base s1) (Call f args r) with
             | Some x => [x] | None => [] end) s1 (log (Call f args r) s2).
Proof.
  intros [Q L]. split; [transitivity s2; [exact Q|apply quiet_log]|].
  rewrite mcap_log_log, L, <- app_assoc, (quiet_base _ _ Q), (quiet_lro _ _ Q). reflexivity.
Qed.

Lemma the_pdev_eq s : the_pdev s = Ok (pci_dev (lro (drv s))) s.
Proof. destruct s. reflexivity. Qed.

Lemma wp_MCapRegRead_raw o l s0 s (Q : Z -> shell -> Prop) :
  sent l s0 s ->
  (forall h s', let v := u32 (nth 1 (answer h pci_read_config_dword [pci_dev (lro (drv s0)); mreg s0 o]) 0) in
    sent (l ++ if o =? MCAP_CONTROL then [ControlRead v] else []) s0 s' -> Q v s') ->
  wp (MCapRegRead o) Q s.
Proof.
  intros H HQ. pose proof (sent_quiet _ _ _ H) as Hq. unfold MCapRegRead. apply wp_bind. unfold wp at 1. rewrite the_pdev_eq.
  apply wp_bind, wp_gets, wp_bind, wp_ext_all, wp_ret. specialize (HQ (trace_of s)). cbv zeta in HQ.
  change (mcap_base s + o) with (mreg s o). rewrite (quiet_lro _ _ Hq), (quiet_mreg _ _ _ Hq). apply HQ.
  set (r := answer _ _ _). apply (sent_call pci_read_config_dword [pci_dev (lro (drv s0)); mreg s0 o] r) in H.
  unfold mcap_access in H. rewrite Z.eqb_refl in H. cbn [andb] in H. unfold mreg in H at 1.
  replace (mcap_base s0 + o =? mcap_base s0 + MCAP_CONTROL) with (o =? MCAP_CONTROL) in H
    by (destruct (Z.eqb_spec o MCAP_CONTROL), (Z.eqb_spec (mcap_base s0 + o) (mcap_base s0 + MCAP_CONTROL)); lia).
  destruct (o =? MCAP_CONTROL); exact H.
Qed.

Lemma wp_read_control l s0 s (Q : Z -> shell -> Prop) :
  sent l s0 s -> (forall v s', sent (l ++ [ControlRead v]) s0 s' -> Q v s') -> wp (MCapRegRead MCAP_CONTROL) Q s.
Proof. intros H HQ. apply (wp_MCapRegRead_raw _ _ _ _ _ H). intros h s' v H'. exact (HQ _ _ H'). Qed.

Lemma wp_read_status l s0 s (Q : Z -> shell -> Prop) :
  sent l s0 s -> (forall h s', sent l s0 s' -> Q (status_of s0 h) s') -> wp (MCapRegRead MCAP_STATUS) Q s.
Proof.
  intros H HQ. apply (wp_MCapRegRead_raw _ _ _ _ _ H). intros h s' v H'. apply (HQ h).
  cbn [Z.eqb MCAP_STATUS MCAP_CONTROL Pos.eqb] in H'. rewrite app_nil_r in H'. exact H'.
Qed.

Lemma wp_MCapRegWrite o v l s0 s (Q : unit -> shell -> Prop) :
  sent l s0 s -> (forall s', sent (l ++ [RegWrite o v]) s0 s' -> Q tt s') -> wp (MCapRegWrite o v) Q s.
Proof.
  intros H HQ. pose proof (sent_quiet _ _ _ H) as Hq. unfold MCapRegWrite. apply wp_bind. unfold wp at 1. rewrite the_pdev_eq.
  apply wp_bind, wp_gets, wp_ext_, HQ. rewrite (quiet_lro _ _ Hq), (quiet_base _ _ Hq).
  apply (sent_call pci_write_config_dword [pci_dev (lro (drv s0)); mcap_base s0 + o; v] []) in H.
  cbn [mcap_access] in H. rewrite Z.eqb_refl in H. replace (mcap_base s0 + o - mcap_base s0) with o in H by lia. exact H.
Qed.

(** ** The request bit *)

Definition request_set (s : shell) : Prop := forall h,
  nz (Z.land (status_of s h) MCAP_STS_CFG_MCAP_REQ_MASK) = true.

Lemma wp_bit_set_status mask l s0 s (Q : bool -> shell -> Prop) :
  sent l s0 s ->
  (forall h s', sent l s0 s' -> Q (nz (Z.land (status_of s0 h) mask)) s') ->
  wp (bit_set MCAP_STATUS mask) Q s.
Proof.
  intros H HQ. unfold bit_set. apply wp_bind, (wp_read_status _ _ _ _ H).
  intros h s' H'. apply wp_ret, HQ, H'.
Qed.

Lemma wp_wait_request_stuck n : forall s0 s l (Q : Z -> shell -> Prop),
  request_set s0 -> sent l s0 s -> (forall s', sent l s0 s' -> Q (-1) s') ->
  wp (loop (S n) wait_request_one (Z.of_nat n)) Q s.
Proof.
  induction n as [|n IH]; intros s0 s l Q Hreq H HQ; rewrite loop_S; apply wp_bind;
    unfold wait_request_one at 1, IsConfigureMCapReqSet; apply wp_bind;
    apply (wp_bit_set_status _ l s0); try exact H; intros h s' H'; rewrite (Hreq h); cbn [negb].
  - apply wp_ret, wp_ret. apply HQ, H'.
  - destruct (Z.eqb_spec (Z.of_nat (S n)) 0); [lia|]. apply wp_ret.
    replace (Z.of_nat (S n) - 1) with (Z.of_nat n) by lia. apply (IH s0 _ l); assumption.
Qed.

(** When the request bit of the MCAP stays set the wait gives up, but its
    counter is then -1 and not 0: the caller goes on as if the bit had been
    cleared, and the control register keeps the bits that were set. *)
Theorem mcap_request_timeout_ignored s :
  request_set s ->
  wp MCapClearRequestByConfigure (fun r s' =>
    fst r = 0 /\ mcap_log s' = mcap_log s ++ [ControlRead (snd r);
      RegWrite MCAP_CONTROL (Z.lor (snd r) (Z.lor MCAP_CTRL_MODE_MASK MCAP_CTRL_IN_USE_MASK))]) s.
Proof.
  intros Hreq. unfold MCapClearRequestByConfigure.
  apply wp_bind, (wp_read_control [] s); [apply sent_refl|]. intros restore s1 H1.
  apply wp_bind, (wp_bit_set_status _ _ s _ _ H1). intros h2 s2 H2.
  rewrite (Hreq h2). apply wp_bind, (wp_MCapRegWrite _ _ _ s _ _ H2). intros s3 H3. cbn [app] in H3.
  apply wp_bind. unfold wait_request_cleared.
  replace (Z.to_nat (MCAP_LOOP_COUNT + 1)) with (S (Z.to_nat MCAP_LOOP_COUNT))
    by (rewrite Z2Nat.inj_add by (vm_compute; discriminate); rewrite Nat.add_1_r; reflexivity).
  rewrite <- (Z2Nat.id MCAP_LOOP_COUNT) at 2 by (vm_compute; discriminate).
  eapply wp_wait_request_stuck; [exact Hreq|exact H3|]. intros s4 H4.
  apply wp_ret. split; [reflexivity|]. exact (sent_log _ _ _ H4).
Qed.

(** ** Programming a device that works *)

Definition healthy (s : shell) : Prop := forall h,
  let v := status_of s h in
  nz (Z.land v MCAP_STS_EOS_MASK) = true /\ nz (Z.land v MCAP_STS_ERR_MASK) = false /\
  nz (Z.land v MCAP_STS_REG_READ_CMP_MASK) = false /\ nz (Z.land v MCAP_STS_FIFO_OVERFLOW_MASK) = false /\
  nz (Z.land v MCAP_STS_CFG_MCAP_REQ_MASK) = false.

Lemma wp_mcap_helper l0 s0 s p l (Q : Z -> shell -> Prop) :
  sent l0 s0 s -> holds s p l -> Forall is_byte l ->
  (forall s', sent (l0 ++ map (RegWrite MCAP_DATA) (be_words l)) s0 s' -> Q 0 s') ->
  wp (bitstream_mcap_helper p (Z.of_nat (length l) / 4)) Q s.
Proof.
  intros Hs Hp Hb HQ. unfold bitstream_mcap_helper. set (n := Z.of_nat (length l) / 4).
  pose proof (be_words_length l) as Hw. fold n in Hw.
  assert (4 * n <= Z.of_nat (length l)) as Hn by (apply Z.mul_div_le; lia).
  apply wp_bind, (wp_for (fun i s1 => sent (l0 ++ map (RegWrite MCAP_DATA) (take (Z.to_nat i) (be_words l))) s0 s1));
    [apply Z.div_pos; lia|cbn [take map Z.to_nat]; rewrite app_nil_r; exact Hs| |].
  - intros i s1 Hi H1. destruct (word_at_eq s1 p l i) as (w & Ew & Ei);
      [|exact Hb|lia|lia|].
    { destruct Hp as (L & HL & E). exists L. split; [|exact E].
      rewrite (quiet_bufs _ _ (sent_quiet _ _ _ H1)), <- (quiet_bufs _ _ (sent_quiet _ _ _ Hs)). exact HL. }
    apply wp_bind. unfold wp at 1. rewrite Ew.
    apply wp_bind, (wp_MCapRegWrite _ _ _ s0 _ _ H1). intros s2 H2.
    apply wp_ext_. apply (sent_call udelay [1] []) in H2. cbn [mcap_access] in H2. rewrite app_nil_r in H2.
    rewrite (take_one_more _ _ _ (proj1 Hi) Ei), map_app, app_assoc. exact H2.
  - intros s1 H1. apply wp_ret, HQ. rewrite take_ge in H1 by lia. exact H1.
Qed.

Lemma wp_or_else_false (a b : prog shell bool) (Q : bool -> shell -> Prop) s :
  wp a (fun x s' => x = false /\ wp b Q s') s -> wp (or_else a b) Q s.
Proof. intros H. apply wp_bind. eapply wp_conseq; [exact H|]. intros x s' [-> Hb]. exact Hb. Qed.

Lemma wp_status_bits_clear m1 m2 m3 l s0 s (Q : bool -> shell -> Prop) :
  (forall h m, In m [m1; m2; m3] -> nz (Z.land (status_of s0 h) m) = false) -> sent l s0 s ->
  (forall s', sent l s0 s' -> Q false s') ->
  wp (or_else (bit_set MCAP_STATUS m1) (or_else (bit_set MCAP_STATUS m2) (bit_set MCAP_STATUS m3))) Q s.
Proof.
  intros Hm H HQ. apply wp_or_else_false, (wp_bit_set_status _ l s0); [exact H|]. intros h1 s1 H1.
  split; [apply Hm; simpl; auto|].
  apply wp_or_else_false, (wp_bit_set_status _ l s0); [exact H1|]. intros h2 s2 H2.
  split; [apply Hm; simpl; auto|].
  apply (wp_bit_set_status _ l s0); [exact H2|]. intros h3 s3 H3.
  rewrite Hm by (simpl; auto). apply HQ, H3.
Qed.

(** the control word that arms the MCAP, from the one that was read: mode, use
    and the protection of the data register on, the resets, the read and the
    design switch off *)
Definition armed_control (v : Z) : Z :=
  Z.land (Z.land (Z.lor v (Z.lor MCAP_CTRL_MODE_MASK (Z.lor MCAP_CTRL_IN_USE_MASK MCAP_CTRL_DATA_REG_PROT_MASK)))
    (not32 (Z.lor MCAP_CTRL_RESET_MASK (Z.lor MCAP_CTRL_MOD_RESET_MASK MCAP_CTRL_REG_READ_MASK))))
    (not32 MCAP_CTRL_DESIGN_SWITCH_MASK).

Lemma wp_mcap_setup s (Q : Z * Z -> shell -> Prop) :
  healthy s ->
  (forall restore v s', sent [ControlRead restore; ControlRead v; RegWrite MCAP_CONTROL (armed_control v)] s s' ->
    Q (0, restore) s') -> wp (bitstream_mcap_setup true) Q s.
Proof.
  intros Hh HQ. unfold bitstream_mcap_setup, MCapClearRequestByConfigure. apply wp_bind.
  apply wp_bind, (wp_read_control [] s); [apply sent_refl|]. intros restore s1 H1. cbn [app] in H1.
  apply wp_bind, (wp_bit_set_status _ _ s _ _ H1). intros h2 s2 H2.
  rewrite (proj2 (proj2 (proj2 (proj2 (Hh h2))))). apply wp_ret. cbv beta iota. cbn [nz Z.eqb negb].
  eapply wp_bind, wp_status_bits_clear; [|exact H2|].
  { intros h3 m Hm. destruct (Hh h3) as (_ & E1 & E2 & E3 & _). simpl in Hm. intuition (subst; assumption). }
  intros s3 H3. apply wp_bind, (wp_read_control _ s _ _ H3). intros v s4 H4.
  apply wp_bind, (wp_MCapRegWrite _ _ _ s _ _ H4). intros s5 H5. apply wp_ret, (HQ _ v _ H5).
Qed.

(** the sign does not matter for a low bit *)
Lemma land_s32_low v : Z.land (s32 v) 2 = Z.land v 2.
Proof.
  assert (forall x, Z.land x 2 = Z.land (x mod 4) 2) as Hlow.
  { intros x. change 4 with (2 ^ 2). rewrite <- Z.land_ones, <- Z.land_assoc by lia. reflexivity. }
  rewrite (Hlow (s32 v)), (Hlow v). f_equal. unfold s32.
  pose proof (Z.div_mod (v + 2 ^ 31) (2 ^ 32) ltac:(lia)) as E.
  replace ((v + 2 ^ 31) mod 2 ^ 32 - 2 ^ 31) with (v + (- (2 ^ 30) * ((v + 2 ^ 31) / 2 ^ 32)) * 4) by lia.
  apply Z_mod_plus_full.
Qed.

Lemma wp_programming_ok l s0 s (Q : bool -> shell -> Prop) :
  healthy s0 -> sent l s0 s -> (forall s', sent l s0 s' -> Q false s') -> wp programming_failed Q s.
Proof.
  intros Hh H HQ. unfold programming_failed, Checkforcompletion. apply wp_bind.
  apply wp_bind, (wp_read_status _ _ _ _ H). intros h s1 H1.
  change (Z.to_nat (EMCAP_EOS_RETRY_COUNT + 2)) with 12%nat. rewrite loop_S. apply wp_bind.
  unfold eos_one. change MCAP_STS_EOS_MASK with 2. rewrite land_s32_low.
  change 2 with MCAP_STS_EOS_MASK. rewrite (proj1 (Hh h)). apply wp_ret, wp_ret. cbn [nz Z.eqb negb].
  apply wp_or_else_false, wp_ret. split; [reflexivity|].
  apply wp_or_else_false, (wp_bit_set_status _ l s0); [exact H1|]. intros h2 s2 H2.
  split; [apply Hh|]. apply (wp_bit_set_status _ l s0); [exact H2|]. intros h3 s3 H3.
  rewrite (proj1 (proj2 (proj2 (proj2 (Hh h3))))). apply HQ, H3.
Qed.

(** ** The second stage *)

Context (Hkmalloc : forall h n, nth 0 (answer h kmalloc [n]) 0 <> 0).

(** what the strings of the header do not touch *)
Definition same_config (s s' : shell) : Prop := mcap_log s' = mcap_log s.

#[local] Instance same_config_preorder : PreOrder same_config.
Proof. split; [intros s; reflexivity|]. intros s1 s2 s3 H1 H2. unfold same_config in *. congruence. Qed.

Lemma same_config_log f args r s :
  mcap_access (pci_dev (lro (drv s))) (mcap_base s) (Call f args r) = None -> same_config s (log (Call f args r) s).
Proof. intros E. unfold same_config. rewrite mcap_log_log, E. apply app_nil_r. Qed.

Lemma keeps_mfree f b : keeps same_config (mfree f b).
Proof.
  unfold mfree. apply keeps_bind; [typeclasses eauto| |intros _].
  - intros s [] s' E. injection E as <-. apply same_config_log. destruct f; reflexivity.
  - apply keeps_when; [typeclasses eauto|]. apply keeps_bind; [typeclasses eauto| |intros _].
    + apply keeps_deref; typeclasses eauto.
    + apply keeps_modify. intros s. reflexivity.
Qed.

Lemma keeps_free_strings h : keeps same_config (free_strings h).
Proof.
  unfold free_strings. repeat (apply keeps_bind; [typeclasses eauto|apply keeps_mfree|intros _]).
  apply keeps_mfree.
Qed.


Lemma same_config_strings f s : same_config s (with_strings f s).
Proof.
  unfold with_strings. assert (forall str s, same_config s (with_string str s)) as H.
  { intros str s1. exact (same_config_log kmalloc [Z.of_nat (length str)]
      (answer (trace (drv s1)) kmalloc [Z.of_nat (length str)]) s1 eq_refl). }
  etransitivity; [apply H|]. etransitivity; [apply H|]. etransitivity; apply H.
Qed.

(** C33: On a working MCAP the second stage is loaded: the control register is
    read, [restore], and armed from what a second read gave; the data register
    gets the words of the bitstream in order; then the control register gets
    [restore] back, with the design switch on.  There are no other accesses;
    the buffers are freed and the result is 0. *)
Theorem bitstream_mcap_programs s p f payload rest len :
  heap_ok s -> image s p f payload rest len -> healthy s ->
  wp (bitstream_mcap p len) (fun r s' =>
    r = 0 /\ bufs s' = bufs s /\
    exists restore v, mcap_log s' = mcap_log s
      ++ [ControlRead restore; ControlRead v; RegWrite MCAP_CONTROL (armed_control v)]
      ++ map (RegWrite MCAP_DATA) (be_words payload)
      ++ [RegWrite MCAP_CONTROL (Z.lor restore MCAP_CTRL_DESIGN_SWITCH_MASK)]) s.
Proof using Hkmalloc.
  intros Hok [Hwf Hdata Hs Hb Hfit] Hh. pose proof (print_header_long f).
  pose proof (proj2 (proj2 (proj2 (proj2 (proj2 Hwf))))) as Hd. unfold is_u32 in Hd.
  unfold bitstream_mcap. apply wp_bind, wp_BUG_ON.
  { apply Z.eqb_neq. intros E. destruct Hs as (L & HL & _). rewrite (proj2 Hok) in HL by lia. discriminate. }
  apply wp_bind, wp_BUG_ON; [apply Z.eqb_neq; lia|]. apply wp_bind. unfold wp at 1.
  rewrite (parse_and_check_eq Hkmalloc len s p f (payload ++ rest) Hok Hwf Hs Hb (proj1 Hfit)) by lia.
  cbv beta iota. cbn [nz Z.eqb negb]. set (s1 := with_strings f s).
  change (BitstreamLength (header_of f (fresh (drv s)))) with (data_length f).
  change (HeaderLength (header_of f (fresh (drv s)))) with (Z.of_nat (length (print_header f))).
  assert (holds s1 (fst p, snd p + Z.of_nat (length (print_header f))) payload) as Hp1.
  { apply (stream_holds _ _ _ _ rest). apply stream_strings; [exact Hok|]. exact (stream_app _ _ _ _ _ Hs). }
  assert (Forall is_byte payload) as Hbp
    by (apply Forall_app in Hb as [_ Hb]; apply Forall_app in Hb; apply Hb).
  assert (healthy s1) as Hh1 by exact Hh. rewrite <- Hdata. cbv zeta.
  apply wp_bind, wp_bind, (wp_mcap_setup s1); [exact Hh1|]. intros restore v s2 H2. cbn [nz Z.eqb negb].
  apply wp_bind, (wp_mcap_helper _ s1 _ _ _ _ H2); [|exact Hbp|].
  { exact (holds_quiet _ _ _ _ (sent_quiet _ _ _ H2) Hp1). }
  intros s3 H3. apply wp_bind, (wp_programming_ok _ s1 _ _ Hh1 H3). intros s4 H4.
  apply wp_bind, (wp_MCapRegWrite _ _ _ s1 _ _ H4). intros s5 [H5 L5]. apply wp_ret.
  apply wp_bind, (wp_keeps _ _ _ _ (keeps_free_strings _)).
  apply (wp_free_strings 0 f _ (bufs s)); [apply Hok|apply Hok; lia|intros q Hq; apply Hok; lia| |].
  { rewrite (quiet_bufs _ _ H5). apply bufs_with_strings. }
  intros s6 _ Eb E6. apply wp_ret. split; [reflexivity|]. split; [exact Eb|]. exists restore, v.
  pose proof (same_config_strings f s) as E1. fold s1 in E1. unfold same_config in *.
  rewrite E6, L5, E1, <- !app_assoc. reflexivity.
Qed.
End Mcap.
