(* ===== verification/ShellEnds.v ===== *)
(** * Every ioctl of the shell comes to an end (xdma-bit.c, xdma-ioctl.c)

    The fuel of the loops is enough in every state, whatever the device, the
    user and the file answer. *)
From S2P Require Import Prelude Layout Kernel World CharDev Shell Bitstream ShellIoctl DownloadFacts.
#[local] Open Scope Z_scope.

Section Returns.
Context {S : Type}.

Lemma returns_ret {A} (a : A) (P : A -> Prop) : P a -> returns (S := S) (ret a) P.
Proof. intros H s. exact H. Qed.

Lemma returns_bind {A B} (P : A -> Prop) (m : prog S A) (f : A -> prog S B) (Q : B -> Prop) :
  returns m P -> (forall a, P a -> returns (f a) Q) -> returns (bind m f) Q.
Proof.
  intros Hm Hf s. apply wlp_bind. eapply wlp_conseq; [apply Hm|]. intros a s' Ha. apply Hf, Ha.
Qed.

Lemma returns_then {A B} (m : prog S A) (f : A -> prog S B) (Q : B -> Prop) :
  (forall a, returns (f a) Q) -> returns (bind m f) Q.
Proof.
  intros Hf. apply (returns_bind (fun _ => True)); [|auto]. intros s. apply wlp_any. auto.
Qed.

Lemma returns_if {A} (c : bool) (m1 m2 : prog S A) P :
  (c = true -> returns m1 P) -> (c = false -> returns m2 P) -> returns (if c then m1 else m2) P.
Proof. destruct c; auto. Qed.
End Returns.

Section Ends.
Context {env : Env} {ho : HostOrder}.

Lemma halts_lift {A} (m : prog world A) : halts m -> halts (lift m).
Proof. intros H s. unfold lift. specialize (H (drv s)). destruct (m (drv s)); congruence. Qed.

Lemma halts_call_all f a : halts (S := shell) (ext_all f a).
Proof. intros s. discriminate. Qed.
Lemma halts_call f a : halts (S := shell) (ext f a).
Proof. intros s. discriminate. Qed.
Lemma halts_call_ f a : halts (S := shell) (ext_ f a).
Proof. intros s. discriminate. Qed.
Lemma halts_write_reg v a : halts (S := shell) (write_register v a).
Proof. intros s. discriminate. Qed.
Lemma halts_read_reg a : halts (S := shell) (read_register a).
Proof. intros s. discriminate. Qed.
#[local] Hint Resolve halts_call_all halts_call halts_call_ halts_write_reg halts_read_reg : halts.

Lemma halts_user_bar : halts user_bar.
Proof. apply halts_lift. unfold getL, index. halts_tac. Qed.
#[local] Hint Resolve halts_user_bar : halts.
Lemma halts_user_read o : halts (user_read o).
Proof. unfold user_read. halts_tac. Qed.
Lemma halts_user_write v o : halts (user_write v o).
Proof. unfold user_write. halts_tac. Qed.
Lemma halts_user_write8 v o : halts (user_write8 v o).
Proof. unfold user_write8. halts_tac. Qed.
Lemma halts_the_pdev : halts the_pdev.
Proof. apply halts_lift. unfold getL. halts_tac. Qed.
#[local] Hint Resolve halts_user_read halts_user_write halts_user_write8 halts_the_pdev : halts.

(** ** Memory and registers *)

Lemma halts_byte_at p i : halts (byte_at p i).
Proof. unfold byte_at. halts_tac. Qed.
Lemma halts_bytes_at p n : halts (bytes_at p n).
Proof. unfold bytes_at. halts_tac. Qed.
#[local] Hint Resolve halts_byte_at halts_bytes_at : halts.
Lemma halts_word_at p i : halts (word_at p i).
Proof. unfold word_at. halts_tac. Qed.
Lemma halts_set_byte_at b i v : halts (set_byte_at b i v).
Proof. unfold set_byte_at. halts_tac. Qed.
Lemma halts_store_bytes b l : halts (store_bytes b l).
Proof. unfold store_bytes. halts_tac. Qed.
Lemma halts_malloc f n : halts (malloc f n).
Proof. unfold malloc. halts_tac. Qed.
Lemma halts_mfree f b : halts (mfree f b).
Proof. unfold mfree. halts_tac. Qed.
Lemma halts_copy_from_user_ u n : halts (copy_from_user_ u n).
Proof. unfold copy_from_user_. halts_tac. Qed.
#[local] Hint Resolve halts_word_at halts_set_byte_at halts_store_bytes halts_malloc halts_mfree
  halts_copy_from_user_ : halts.
Lemma halts_copy_to_block b u n : halts (copy_to_block b u n).
Proof. unfold copy_to_block. halts_tac. Qed.
Lemma halts_MCapRegWrite o v : halts (MCapRegWrite o v).
Proof. unfold MCapRegWrite. halts_tac. Qed.
Lemma halts_MCapRegRead o : halts (MCapRegRead o).
Proof. unfold MCapRegRead. halts_tac. Qed.
#[local] Hint Resolve halts_copy_to_block halts_MCapRegWrite halts_MCapRegRead : halts.
Lemma halts_bit_set o m : halts (bit_set o m).
Proof. unfold bit_set. halts_tac. Qed.
#[local] Hint Resolve halts_bit_set : halts.
Lemma halts_or_else a b : halts a -> halts b -> halts (or_else a b).
Proof. intros. unfold or_else. apply halts_bind; [assumption|]. intros [|]; [apply halts_ret|assumption]. Qed.
Lemma halts_not_ a : halts a -> halts (not_ a).
Proof. intros. unfold not_. apply halts_bind; [assumption|]. intros x. apply halts_ret. Qed.
#[local] Hint Resolve halts_or_else halts_not_ : halts.

(** ** The waits for the MCAP *)

Lemma halts_wait_request_cleared : halts wait_request_cleared.
Proof.
  unfold wait_request_cleared. apply (halts_loop_inv (fun l => 0 <= l) (fun l => Z.to_nat l)).
  - intros l _. unfold wait_request_one, IsConfigureMCapReqSet. halts_tac.
  - intros l Hl. unfold wait_request_one. apply returns_then. intros set.
    destruct (negb set); [apply returns_ret; exact I|].
    destruct (Z.eqb_spec l 0); apply returns_ret; [exact I|lia].
  - vm_compute. discriminate.
  - assert (0 <= MCAP_LOOP_COUNT) by (vm_compute; discriminate). lia.
Qed.
#[local] Hint Resolve halts_wait_request_cleared : halts.

Lemma halts_Checkforcompletion : halts Checkforcompletion.
Proof.
  unfold Checkforcompletion. apply halts_bind; [halts_tac|]. intros sr.
  apply (halts_loop_inv (fun v => 0 <= snd v <= EMCAP_EOS_RETRY_COUNT)
    (fun v => Z.to_nat (EMCAP_EOS_RETRY_COUNT + 1 - snd v))).
  - intros [sr' k] _. unfold eos_one. halts_tac.
  - intros [sr' k] Hk. cbn [snd] in Hk. unfold eos_one. destruct (nz _); [apply returns_ret; exact I|].
    do 2 (apply returns_then; intros _). apply returns_then. intros v.
    destruct (Z.ltb_spec EMCAP_EOS_RETRY_COUNT (k + 1)); apply returns_ret; [exact I|cbn [snd]; lia].
  - cbn [snd]. unfold EMCAP_EOS_RETRY_COUNT. lia.
  - cbn [snd]. unfold EMCAP_EOS_RETRY_COUNT. lia.
Qed.

Lemma halts_MCapClearRequestByConfigure : halts MCapClearRequestByConfigure.
Proof. unfold MCapClearRequestByConfigure, IsConfigureMCapReqSet. halts_tac. Qed.
#[local] Hint Resolve halts_Checkforcompletion halts_MCapClearRequestByConfigure : halts.
Lemma halts_MCapFullReset : halts MCapFullReset.
Proof. unfold MCapFullReset, IsErrSet, IsModuleResetSet, IsResetSet. halts_tac. Qed.
#[local] Hint Resolve halts_MCapFullReset : halts.
Lemma halts_programming_failed : halts programming_failed.
Proof. unfold programming_failed, IsErrSet, IsFifoOverflow. halts_tac. Qed.
Lemma halts_bitstream_mcap_setup sw : halts (bitstream_mcap_setup sw).
Proof. unfold bitstream_mcap_setup, IsErrSet, IsRegReadComplete, IsFifoOverflow. halts_tac. Qed.
Lemma halts_bitstream_mcap_helper p n : halts (bitstream_mcap_helper p n).
Proof. unfold bitstream_mcap_helper. halts_tac. Qed.
#[local] Hint Resolve halts_programming_failed halts_bitstream_mcap_setup halts_bitstream_mcap_helper : halts.

(** ** The HWICAP and the header *)

Lemma halts_wait_for_done : halts wait_for_done.
Proof. unfold wait_for_done. halts_tac. Qed.
Lemma halts_hwicapWrite p n : halts (hwicapWrite p n).
Proof. unfold hwicapWrite. halts_tac. Qed.
#[local] Hint Resolve halts_wait_for_done halts_hwicapWrite : halts.

Lemma halts_bitstream_icap_helper p n : is_u32 n -> halts (bitstream_icap_helper p n).
Proof.
  intros Hn. unfold is_u32 in Hn. unfold bitstream_icap_helper.
  apply (halts_loop_inv (fun v => is_u32 (fst v)) (fun v => Z.to_nat (fst v))); [| |exact Hn|cbn [fst]; lia].
  - intros [m q] _. unfold icap_one. halts_tac.
  - intros [m q] Hm. cbn [fst] in Hm. unfold is_u32 in Hm. unfold icap_one.
    destruct (Z.ltb_spec 0 m); cbn [negb]; [|apply returns_ret; exact I].
    apply returns_then. intros w. destruct (Z.leb_spec (s32 w) 0); [apply returns_ret; exact I|].
    apply returns_then. intros rc. destruct (nz rc); apply returns_ret; [exact I|]. cbn [fst].
    split; [apply u32_range|].
    assert (0 < s32 w < 2 ^ 31) as Hw.
    { split; [lia|]. unfold s32. pose proof (Z.mod_pos_bound (w + 2 ^ 31) (2 ^ 32)). lia. }
    rewrite (u32_id (s32 w)) by (unfold is_u32; lia).
    destruct (Z.ltb_spec (s32 w) m); rewrite u32_id by (unfold is_u32; lia); lia.
Qed.

Lemma halts_next_byte D i : halts (next_byte D i).
Proof. unfold next_byte. halts_tac. Qed.
#[local] Hint Resolve halts_next_byte : halts.
Lemma halts_next_half D i : halts (next_half D i).
Proof. unfold next_half. halts_tac. Qed.
#[local] Hint Resolve halts_next_half : halts.
Lemma halts_magic D i m : halts (magic_bytes_ok D i m).
Proof. unfold magic_bytes_ok. halts_tac. Qed.
Lemma halts_read_string D t set i H : halts (read_string D t set i H).
Proof. unfold read_string. halts_tac. Qed.
Lemma halts_read_length D i H : halts (read_length D i H).
Proof. unfold read_length. halts_tac. Qed.
#[local] Hint Resolve halts_magic halts_read_string halts_read_length : halts.
Lemma halts_bitstream_parse_header D n H : halts (bitstream_parse_header D n H).
Proof. unfold bitstream_parse_header. halts_tac. Qed.
#[local] Hint Resolve halts_bitstream_parse_header : halts.
Lemma halts_parse_and_check D n : halts (parse_and_check D n).
Proof. unfold parse_and_check. halts_tac. Qed.
Lemma halts_free_strings h : halts (free_strings h).
Proof. unfold free_strings. halts_tac. Qed.
#[local] Hint Resolve halts_parse_and_check halts_free_strings : halts.

(** the length of the data that the parser gives is one of 32 bits *)
Definition u32_data (h : XHwIcap_Bit_Header) : Prop := is_u32 (BitstreamLength h).

Lemma read_string_data D t set i H :
  u32_data H -> (forall p h, BitstreamLength (set p h) = BitstreamLength h) ->
  returns (read_string D t set i H) (fun r => u32_data (snd r)).
Proof.
  intros Hd Hset. unfold read_string. apply returns_then. intros [x j].
  apply returns_if; intros _; [apply returns_ret; exact Hd|]. apply returns_then. intros [len k].
  apply returns_then. intros p. apply returns_then. intros _. apply returns_then. intros z.
  apply returns_if; intros _; apply returns_ret; cbn [snd]; unfold u32_data; rewrite Hset; exact Hd.
Qed.

Lemma parse_data D n : returns (bitstream_parse_header D n zero_header) (fun r => u32_data (snd r)).
Proof.
  unfold bitstream_parse_header. apply returns_then. intros [m i].
  set (H := zero_header <| HeaderLength := _ |> <| MagicLength := m |>).
  assert (u32_data H) as Hd by (unfold u32_data, is_u32; simpl; lia).
  apply returns_then. intros ok. apply returns_if; intros _; [apply returns_ret; exact Hd|].
  apply returns_then. intros [x j]. apply returns_then. intros [y k].
  apply returns_if; intros _; [apply returns_ret; exact Hd|].
  clearbody H. clear m i x j.
  do 4 (eapply returns_bind; [apply read_string_data; [exact Hd|reflexivity]|];
    clear H Hd; intros [[?|] H] Hd; [|apply returns_ret; exact Hd]).
  unfold read_length. apply returns_then. intros [x i]. apply returns_if; intros _; [apply returns_ret; exact Hd|].
  do 4 (apply returns_then; intros [? ?]). apply returns_ret. apply u32_range.
Qed.

Lemma parse_and_check_data D n : returns (parse_and_check D n) (fun r => u32_data (snd r)).
Proof.
  unfold parse_and_check. eapply returns_bind; [apply parse_data|]. intros [rc H] Hd.
  do 2 (apply returns_if; intros _; [apply returns_ret; exact Hd|]). apply returns_ret. exact Hd.
Qed.

(** ** The pieces *)

(** a loop over the pieces of a length of 32 bits ends *)
Lemma halts_pieces {X R} len (body : Z * X -> prog shell (Z * X + R)) x :
  is_u32 len -> (forall v, halts (body v)) ->
  (forall i y, at_piece len i -> returns (body (i, y)) (fun r =>
    match r with inl v => i < len /\ fst v = u32 (i + piece_size len i) | inr _ => True end)) ->
  halts (loop (piece_fuel len) body (0, x)).
Proof.
  unfold is_u32. intros Hlen Hb Hstep. destruct (at_piece_start len ltac:(lia)) as [Hs Hf].
  apply (halts_loop_inv (fun v => at_piece len (fst v)) (fun v => pieces_left len (fst v)));
    [auto| |exact Hs|exact Hf].
  intros [i y] Hi s. cbn [fst] in *. eapply wlp_conseq; [apply Hstep, Hi|].
  intros [v|r] s' H; [|exact I]. destruct H as [Hlt ->].
  destruct (next_piece len i Hi Hlt) as (_ & _ & Hnext & Hu & Hmu); [lia|]. rewrite Hu. split; assumption.
Qed.

Lemma piece_words_u32 len i : is_u32 (piece_size len i / 4).
Proof.
  unfold piece_size, is_u32, DMA_HWICAP_BITFILE_BUFFER_SIZE. pose proof (u32_range (len - i)) as H. unfold is_u32 in H.
  destruct (Z.ltb_spec 1024 (u32 (len - i))); [vm_compute; split; congruence|].
  split; [apply Z.div_pos; lia|apply Z.div_lt_upper_bound; lia].
Qed.

Ltac piece_step := intros i y Hi;
  match goal with |- context [i <? ?n] => destruct (Z.ltb_spec i n) end;
  cbn [negb]; [|apply returns_ret; exact I].

Lemma halts_icap_pieces len q : is_u32 len -> halts (loop (piece_fuel len) (icap_piece len) (0, q)).
Proof.
  intros Hlen. apply halts_pieces; [exact Hlen| |].
  - intros [i y]. unfold icap_piece. destruct (negb _); [apply halts_ret|]. cbv zeta.
    apply halts_bind; [apply halts_bitstream_icap_helper, piece_words_u32|halts_tac].
    intros. halts_tac.
  - unfold icap_piece. piece_step. cbv zeta. apply returns_then. intros rc.
    apply returns_if; intros _; apply returns_ret; [exact I|]. split; [assumption|reflexivity].
Qed.

Lemma halts_user_icap_pieces B len u : is_u32 len -> halts (loop (piece_fuel len) (user_icap_piece B len) (0, u)).
Proof.
  intros Hlen. apply halts_pieces; [exact Hlen| |].
  - intros [i y]. unfold user_icap_piece. destruct (negb _); [apply halts_ret|]. cbv zeta.
    apply halts_bind; [halts_tac|]. intros c. destruct (nz c); [apply halts_ret|].
    apply halts_bind; [apply halts_bitstream_icap_helper, piece_words_u32|intros; halts_tac].
  - unfold user_icap_piece. piece_step. cbv zeta. apply returns_then. intros c.
    apply returns_if; intros _; [apply returns_ret; exact I|]. apply returns_then. intros rc.
    apply returns_if; intros _; apply returns_ret; [exact I|]. split; [assumption|reflexivity].
Qed.

Lemma halts_user_mcap_pieces B len u : is_u32 len -> halts (loop (piece_fuel len) (user_mcap_piece B len) (0, u)).
Proof.
  intros Hlen. apply halts_pieces; [exact Hlen| |].
  - intros [i y]. unfold user_mcap_piece. halts_tac.
  - unfold user_mcap_piece. piece_step. cbv zeta. apply returns_then. intros c.
    apply returns_if; intros _; [apply returns_ret; exact I|]. apply returns_then. intros rc.
    apply returns_ret. split; [assumption|reflexivity].
Qed.
#[local] Hint Resolve halts_icap_pieces halts_user_icap_pieces halts_user_mcap_pieces : halts.

(** ** Downloads *)

Lemma halts_bitstream_icap p n : halts (bitstream_icap p n).
Proof.
  unfold bitstream_icap. do 2 (apply halts_bind; [halts_tac|intros _]).
  eapply halts_bind_returns; [halts_tac|apply parse_and_check_data|]. intros [err H] Hd. unfold u32_data in Hd.
  cbn [snd] in Hd. halts_tac.
Qed.
#[local] Hint Resolve halts_bitstream_icap : halts.

Lemma halts_drop_clear_bitstream : halts drop_clear_bitstream.
Proof. unfold drop_clear_bitstream. halts_tac. Qed.
#[local] Hint Resolve halts_drop_clear_bitstream : halts.
Lemma halts_bitstream_clear_icap : halts bitstream_clear_icap.
Proof. unfold bitstream_clear_icap. halts_tac. Qed.
Lemma halts_freezeAXIGate : halts freezeAXIGate.
Proof. unfold freezeAXIGate. halts_tac. Qed.
Lemma halts_freeAXIGate : halts freeAXIGate.
Proof. unfold freeAXIGate, pulse_gate. halts_tac. Qed.
#[local] Hint Resolve halts_bitstream_clear_icap halts_freezeAXIGate halts_freeAXIGate : halts.
Lemma halts_free_buffers b h : halts (free_buffers b h).
Proof. unfold free_buffers. halts_tac. Qed.
#[local] Hint Resolve halts_free_buffers : halts.

Lemma halts_ioctl_icap_body B u n : halts (ioctl_icap_body B u n).
Proof.
  unfold ioctl_icap_body. apply halts_bind; [halts_tac|]. intros c. destruct (nz c); [halts_tac|].
  eapply halts_bind_returns; [halts_tac|apply parse_and_check_data|]. intros [err H] Hd. unfold u32_data in Hd.
  cbn [snd] in Hd. halts_tac.
Qed.
#[local] Hint Resolve halts_ioctl_icap_body : halts.
Lemma halts_bitstream_ioctl_icap u n : halts (bitstream_ioctl_icap u n).
Proof. unfold bitstream_ioctl_icap. halts_tac. Qed.

Lemma halts_bitstream_clear_mcap : halts bitstream_clear_mcap.
Proof. unfold bitstream_clear_mcap. halts_tac. Qed.
#[local] Hint Resolve halts_bitstream_clear_mcap : halts.
Lemma halts_ioctl_mcap_program B u len : is_u32 len -> halts (ioctl_mcap_program B u len).
Proof. intros Hlen. unfold ioctl_mcap_program. halts_tac. Qed.
#[local] Hint Resolve halts_ioctl_mcap_program : halts.
Lemma halts_ioctl_mcap_body B u n : halts (ioctl_mcap_body B u n).
Proof.
  unfold ioctl_mcap_body. apply halts_bind; [halts_tac|]. intros c. destruct (nz c); [halts_tac|].
  eapply halts_bind_returns; [halts_tac|apply parse_and_check_data|]. intros [err H] Hd. unfold u32_data in Hd.
  cbn [snd] in Hd. halts_tac.
Qed.
#[local] Hint Resolve halts_ioctl_mcap_body halts_bitstream_ioctl_icap : halts.
Lemma halts_bitstream_ioctl_mcap u n : halts (bitstream_ioctl_mcap u n).
Proof. unfold bitstream_ioctl_mcap. halts_tac. Qed.
#[local] Hint Resolve halts_bitstream_ioctl_mcap : halts.
Lemma halts_stash_secondary x b : halts (stash_secondary x b).
Proof. unfold stash_secondary. halts_tac. Qed.
#[local] Hint Resolve halts_stash_secondary : halts.
Lemma halts_bitstream_ioctl cmd arg : halts (bitstream_ioctl cmd arg).
Proof. unfold bitstream_ioctl. halts_tac. Qed.
#[local] Hint Resolve halts_bitstream_ioctl : halts.

Lemma halts_bitstream_mcap p n : halts (bitstream_mcap p n).
Proof. unfold bitstream_mcap. halts_tac. Qed.
#[local] Hint Resolve halts_bitstream_mcap : halts.
Lemma halts_use_firmware fw size : halts (use_firmware fw size).
Proof. unfold use_firmware, fw_member, load_primary, stash_boot_secondary, check_stash. halts_tac. Qed.
#[local] Hint Resolve halts_use_firmware : halts.
Lemma halts_load_boot_firmware : halts load_boot_firmware.
Proof. unfold load_boot_firmware, find_firmware, request_fw, release_fw. halts_tac. Qed.

(** ** Clocks and resets *)

Lemma halts_busy_units n : forall i r, halts (busy_units n i r).
Proof. induction n; intros; cbn [busy_units]; halts_tac. Qed.
#[local] Hint Resolve halts_busy_units : halts.
Lemma halts_compute_unit_busy : halts compute_unit_busy.
Proof. unfold compute_unit_busy. halts_tac. Qed.
Lemma halts_get_ocl_frequency : halts get_ocl_frequency.
Proof. unfold get_ocl_frequency, device_id. halts_tac. Qed.
Lemma halts_wait_locked n : forall v, halts (wait_locked n v).
Proof. induction n; intros; cbn [wait_locked]; halts_tac. Qed.
#[local] Hint Resolve halts_compute_unit_busy halts_get_ocl_frequency halts_wait_locked : halts.
Lemma halts_ocl_freqscaling_ioctl arg : halts (ocl_freqscaling_ioctl arg).
Proof. unfold ocl_freqscaling_ioctl, scale_frequency, program_clock, device_id. halts_tac. Qed.
Lemma halts_reset_ocl_ioctl : halts reset_ocl_ioctl.
Proof. unfold reset_ocl_ioctl. halts_tac. Qed.
Lemma halts_reinit : halts reinit.
Proof.
  unfold reinit, engine_reinit, getL, index.
  apply halts_bind; [halts_tac|]. intros rc. apply halts_bind; [|intros; apply halts_ret].
  apply halts_for. intros d. apply halts_for. intros c.
  do 2 (apply halts_bind; [apply halts_lift; halts_tac|intros]). halts_tac.
Qed.
#[local] Hint Resolve halts_reinit halts_reset_ocl_ioctl halts_ocl_freqscaling_ioctl : halts.
Lemma halts_reset_hot_ioctl : halts reset_hot_ioctl.
Proof. unfold reset_hot_ioctl, read_config, write_config, set_word_at. halts_tac. Qed.
Lemma halts_version_ioctl arg : halts (version_ioctl arg).
Proof. unfold version_ioctl. halts_tac. Qed.
#[local] Hint Resolve halts_reset_hot_ioctl halts_version_ioctl : halts.

(** C19: Every ioctl of the control device, the reset of a running device and
    the load of the boot firmware come to an end, in every state and whatever
    the device, the user memory and the files hold. *)
Theorem shell_ioctls_end lro_char cmd arg :
  halts (char_ctrl_ioctl lro_char cmd arg) /\ halts reset_device_if_running /\ halts load_boot_firmware.
Proof.
  split; [|split; [|apply halts_load_boot_firmware]].
  - unfold char_ctrl_ioctl. do 3 (apply halts_bind; [apply halts_lift; unfold check_char, check_lro, getL; halts_tac|intros]).
    unfold check_access, dispatch. halts_tac.
  - unfold reset_device_if_running. apply halts_bind; [halts_tac|intros]. destruct (negb _); [apply halts_ret|].
    apply halts_bind; [apply halts_lift; unfold getL; halts_tac|intros]. halts_tac.
Qed.
End Ends.
