(* ===== verification/ShellInv.v ===== *)
(** * Buffers and the AXI gate over every ioctl (xdma-bit.c, xdma-ioctl.c)

    Whatever happens in an ioctl that returns, the gate is left as it was
    found, and the only block it may leave allocated is the clearing
    bitstream. *)
From S2P Require Import Prelude Layout Kernel World CharDev Shell Bitstream ShellIoctl BitFacts.
#[local] Open Scope Z_scope.
#[local] Set Warnings "-clear-no-such-hyp".

(** the blocks that are allocated *)
Definition blocks (s : shell) : gset Z := dom (bufs s).
(** those that are not the clearing bitstream *)
Definition owned (s : shell) : gset Z := blocks s ∖ {[clear_bitstream s]}.

(** a pointer that may be null *)
Definition opt (p : Z) : gset Z := if decide (p = 0) then ∅ else {[p]}.

(** the clearing bitstream is null or allocated, and blocks are below [fresh] *)
Record shell_ok (s : shell) : Prop := {
  ok_fresh : 0 < fresh (drv s);
  ok_blocks : forall p, p ∈ blocks s -> 0 < p < fresh (drv s);
  ok_stash : opt (clear_bitstream s) ⊆ blocks s
}.

(** between [s0] and [s] the blocks [X] were allocated and not freed yet; the
    clearing bitstream may have been replaced *)
Record inv (X : gset Z) (s0 s : shell) : Prop := {
  inv_ok : shell_ok s;
  inv_gate : axi_gate_frozen s = axi_gate_frozen s0;
  inv_owned : owned s = owned s0 ∪ X;
  inv_new : X ## owned s0;
  inv_null : 0 ∉ X
}.

Lemma inv_refl s : shell_ok s -> inv ∅ s s.
Proof.
  intros H. split; [exact H|reflexivity|rewrite union_empty_r_L; reflexivity|apply disjoint_empty_l|
    apply not_elem_of_empty].
Qed.

(** the contents of buffers and the history changed *)
Definition same_blocks (s s' : shell) : Prop :=
  blocks s' = blocks s /\ fresh (drv s') = fresh (drv s) /\ axi_gate_frozen s' = axi_gate_frozen s /\
  clear_bitstream s' = clear_bitstream s.

#[global] Instance same_blocks_preorder : PreOrder same_blocks.
Proof. split; [repeat split|]. intros s1 s2 s3 (? & ? & ? & ?) (? & ? & ? & ?). repeat split; congruence. Qed.

Lemma same_blocks_inv X s0 s s' : same_blocks s s' -> inv X s0 s -> inv X s0 s'.
Proof.
  intros (Eb & Ef & Eg & Ec) [[H1 H2 H3] Hg Ho Hn H0]. split; [split| | | |]; unfold owned in *;
    rewrite ?Eb, ?Ef, ?Eg, ?Ec; assumption.
Qed.

Lemma same_blocks_log e s : same_blocks s (log e s).
Proof. repeat split. Qed.

Section Inv.
Context {env : Env} {ho : HostOrder}.

(** ** Programs that allocate nothing *)

Lemma kb_ext_all f a : keeps same_blocks (ext_all f a).
Proof. apply keeps_ext_all, same_blocks_log. Qed.
Lemma kb_ext f a : keeps same_blocks (ext f a).
Proof. apply keeps_ext, same_blocks_log. Qed.
Lemma kb_ext_ f a : keeps same_blocks (ext_ f a).
Proof. apply keeps_ext_, same_blocks_log. Qed.
Lemma kb_write v a : keeps same_blocks (write_register (S := shell) v a).
Proof. apply kb_ext_. Qed.
Lemma kb_read a : keeps same_blocks (read_register (S := shell) a).
Proof. unfold read_register. apply keeps_bind; [typeclasses eauto|apply kb_ext|]. intros. apply keeps_ret; typeclasses eauto. Qed.
#[local] Hint Resolve kb_ext_all kb_ext kb_ext_ kb_write kb_read : keeps.

(** code that only reads the state of the driver *)
Lemma kb_lift {A} (m : prog world A) : keeps eq m -> keeps same_blocks (lift m).
Proof.
  intros Hm s a s' E. unfold lift in E. destruct (m (drv s)) as [x w|] eqn:Em; [|discriminate].
  injection E as <- <-. rewrite <- (Hm _ _ _ Em). repeat split.
Qed.

Lemma kb_user_bar : keeps same_blocks user_bar.
Proof. apply kb_lift. unfold getL, index. keeps_tac. Qed.
Lemma kb_the_pdev : keeps same_blocks the_pdev.
Proof. apply kb_lift. unfold getL. keeps_tac. Qed.
#[local] Hint Resolve kb_user_bar kb_the_pdev : keeps.
Lemma kb_user_read o : keeps same_blocks (user_read o).
Proof. unfold user_read. keeps_tac. Qed.
Lemma kb_user_write v o : keeps same_blocks (user_write v o).
Proof. unfold user_write. keeps_tac. Qed.
Lemma kb_user_write8 v o : keeps same_blocks (user_write8 v o).
Proof. unfold user_write8. keeps_tac. Qed.
Lemma kb_MCapRegWrite o v : keeps same_blocks (MCapRegWrite o v).
Proof. unfold MCapRegWrite. keeps_tac. Qed.
Lemma kb_MCapRegRead o : keeps same_blocks (MCapRegRead o).
Proof. unfold MCapRegRead. keeps_tac. Qed.
Lemma kb_byte_at p i : keeps same_blocks (byte_at p i).
Proof. unfold byte_at. keeps_tac. Qed.
Lemma kb_bytes_at p n : keeps same_blocks (bytes_at p n).
Proof. unfold bytes_at. keeps_tac. Qed.
#[local] Hint Resolve kb_user_read kb_user_write kb_user_write8 kb_MCapRegWrite kb_MCapRegRead kb_byte_at
  kb_bytes_at : keeps.
Lemma kb_word_at p i : keeps same_blocks (word_at p i).
Proof. unfold word_at. keeps_tac. Qed.
Lemma kb_alter g b : keeps same_blocks (modify (fun s => s <| bufs ::= alter g b |>)).
Proof.
  apply keeps_modify. intros s. split; [|repeat split]. apply (dom_alter_L g (bufs s) b).
Qed.
#[local] Hint Resolve kb_word_at kb_alter : keeps.
Lemma kb_set_byte_at b i v : keeps same_blocks (set_byte_at b i v).
Proof. unfold set_byte_at. keeps_tac. Qed.
Lemma kb_store_bytes b l : keeps same_blocks (store_bytes b l).
Proof. unfold store_bytes. keeps_tac. Qed.
Lemma kb_copy_from_user_ u n : keeps same_blocks (copy_from_user_ u n).
Proof. unfold copy_from_user_. keeps_tac. Qed.
#[local] Hint Resolve kb_set_byte_at kb_store_bytes kb_copy_from_user_ : keeps.
Lemma kb_copy_to_block b u n : keeps same_blocks (copy_to_block b u n).
Proof. unfold copy_to_block. keeps_tac. Qed.
Lemma kb_bit_set o m : keeps same_blocks (bit_set o m).
Proof. unfold bit_set. keeps_tac. Qed.
#[local] Hint Resolve kb_copy_to_block kb_bit_set : keeps.
Lemma kb_or_else a b : keeps same_blocks a -> keeps same_blocks b -> keeps same_blocks (or_else a b).
Proof.
  intros. unfold or_else. apply keeps_bind; [typeclasses eauto|assumption|]. intros [|]; [keeps_tac|assumption].
Qed.
Lemma kb_not_ a : keeps same_blocks a -> keeps same_blocks (not_ a).
Proof. intros. unfold not_. apply keeps_bind; [typeclasses eauto|assumption|]. intros x. keeps_tac. Qed.
#[local] Hint Resolve kb_or_else kb_not_ : keeps.
Lemma kb_clear_request : keeps same_blocks MCapClearRequestByConfigure.
Proof.
  unfold MCapClearRequestByConfigure, wait_request_cleared, wait_request_one, IsConfigureMCapReqSet. keeps_tac.
Qed.
#[local] Hint Resolve kb_clear_request : keeps.
Lemma kb_full_reset : keeps same_blocks MCapFullReset.
Proof. unfold MCapFullReset, IsErrSet, IsModuleResetSet, IsResetSet. keeps_tac. Qed.
Lemma kb_programming_failed : keeps same_blocks programming_failed.
Proof.
  unfold programming_failed, Checkforcompletion, eos_one, IsErrSet, IsFifoOverflow.
  apply keeps_bind; [typeclasses eauto|keeps_tac|intros err].
  apply kb_or_else; [keeps_tac|apply kb_or_else; keeps_tac].
Qed.
Lemma kb_mcap_setup sw : keeps same_blocks (bitstream_mcap_setup sw).
Proof. unfold bitstream_mcap_setup, IsErrSet, IsRegReadComplete, IsFifoOverflow. keeps_tac. Qed.
Lemma kb_mcap_helper p n : keeps same_blocks (bitstream_mcap_helper p n).
Proof. unfold bitstream_mcap_helper. keeps_tac. Qed.
Lemma kb_wait_for_done : keeps same_blocks wait_for_done.
Proof. unfold wait_for_done. keeps_tac. Qed.
Lemma kb_icap_helper p n : keeps same_blocks (bitstream_icap_helper p n).
Proof. unfold bitstream_icap_helper, icap_one, hwicapWrite. keeps_tac. Qed.
#[local] Hint Resolve kb_full_reset kb_programming_failed kb_mcap_setup kb_mcap_helper kb_wait_for_done
  kb_icap_helper : keeps.
Lemma kb_icap_pieces len n v : keeps same_blocks (loop n (icap_piece len) v).
Proof. apply keeps_loop; [typeclasses eauto|]. intros. unfold icap_piece. keeps_tac. Qed.
Lemma kb_user_icap_pieces B len n v : keeps same_blocks (loop n (user_icap_piece B len) v).
Proof. apply keeps_loop; [typeclasses eauto|]. intros. unfold user_icap_piece. keeps_tac. Qed.
Lemma kb_user_mcap_pieces B len n v : keeps same_blocks (loop n (user_mcap_piece B len) v).
Proof. apply keeps_loop; [typeclasses eauto|]. intros. unfold user_mcap_piece. keeps_tac. Qed.
#[local] Hint Resolve kb_icap_pieces kb_user_icap_pieces kb_user_mcap_pieces : keeps.

(** ** Rules *)

Lemma wlp_kb {A} X s0 (m : prog shell A) (Q : A -> shell -> Prop) s :
  keeps same_blocks m -> inv X s0 s -> (forall a s', inv X s0 s' -> Q a s') -> wlp m Q s.
Proof. intros Hk Hi HQ. apply (wlp_keeps _ _ _ _ Hk). intros a s' H. apply HQ, (same_blocks_inv _ _ _ _ H Hi). Qed.

Lemma opt_null : opt 0 = ∅.
Proof. reflexivity. Qed.
Lemma opt_some p : p <> 0 -> opt p = {[p]}.
Proof. intros. unfold opt. rewrite decide_False by assumption. reflexivity. Qed.

Lemma inv_block X s0 s p : inv X s0 s -> p ∈ X -> p ∈ blocks s /\ p <> clear_bitstream s.
Proof.
  intros [_ _ Ho _ _] Hp. assert (p ∈ owned s) as H by (rewrite Ho; apply elem_of_union_r, Hp).
  unfold owned in H. apply elem_of_difference in H as [H1 H2]. split; [exact H1|].
  intros E. apply H2, elem_of_singleton, E.
Qed.

Lemma wlp_malloc f n X s0 s (Q : Z -> shell -> Prop) :
  inv X s0 s -> (forall p s', X ## opt p -> inv (X ∪ opt p) s0 s' -> Q p s') -> wlp (malloc f n) Q s.
Proof.
  intros Hi HQ. unfold malloc. apply wlp_bind, (wlp_kb X s0); [apply kb_ext_all|exact Hi|]. clear Hi s.
  intros r s Hi. destruct (nth 0 r 0 =? 0).
  { apply wlp_ret, HQ; rewrite opt_null; [apply disjoint_empty_r|rewrite union_empty_r_L; exact Hi]. }
  apply wlp_bind, wlp_gets, wlp_bind, wlp_modify, wlp_ret.
  set (p := fresh (drv s)). pose proof Hi as [[Hf Hb Hs] Hg Ho Hn H0].
  assert (p ∉ blocks s) as Hp by (intros H; apply Hb in H; unfold p in H; lia).
  assert (p <> 0) as Hp0 by (unfold p; lia).
  assert (p <> clear_bitstream s) as Hpc.
  { intros E. apply Hp. apply Hs. rewrite <- E, opt_some by exact Hp0. apply elem_of_singleton. reflexivity. }
  assert (p ∉ X) as HpX by (intros H; apply Hp, (inv_block _ _ _ _ Hi H)).
  assert (p ∉ owned s0) as Hpo.
  { intros H. apply Hp. assert (p ∈ owned s) as H2 by (rewrite Ho; apply elem_of_union_l, H).
    unfold owned in H2. apply elem_of_difference in H2. apply H2. }
  apply HQ; rewrite opt_some by exact Hp0; [set_solver|].
  match goal with |- inv _ _ ?t => set (s' := t) end.
  assert (blocks s' = {[p]} ∪ blocks s) as Eb by apply dom_insert_L.
  assert (clear_bitstream s' = clear_bitstream s) as Ec by reflexivity.
  assert (fresh (drv s') = p + 1) as Ef by reflexivity.
  split; [split| | | |].
  - rewrite Ef. unfold p. lia.
  - intros q. rewrite Eb, Ef. intros [->%elem_of_singleton|Hq]%elem_of_union; [unfold p; lia|].
    apply Hb in Hq. unfold p. lia.
  - rewrite Ec, Eb. set_solver.
  - exact Hg.
  - unfold owned in *. rewrite Eb, Ec. rewrite difference_union_distr_l_L, Ho.
    assert ({[p]} ∖ {[clear_bitstream s]} = ({[p]} : gset Z)) as -> by set_solver. set_solver.
  - set_solver.
  - set_solver.
Qed.

Lemma wlp_mfree f b X s0 s (Q : unit -> shell -> Prop) :
  inv (X ∪ opt b) s0 s -> X ## opt b -> (forall s', inv X s0 s' -> Q tt s') -> wlp (mfree f b) Q s.
Proof.
  intros Hi Hd HQ. unfold mfree. apply wlp_bind, (wlp_kb _ s0 _ _ _ (kb_ext_ _ _) Hi). clear Hi s.
  intros _ s Hi. apply wlp_when; intros Eb.
  2:{ apply nz_false in Eb. subst b. apply HQ. rewrite opt_null, union_empty_r_L in Hi. exact Hi. }
  apply nz_true in Eb. apply wlp_bind, wlp_deref. intros x _. apply wlp_modify, HQ.
  rewrite opt_some in Hi, Hd by exact Eb.
  destruct (inv_block _ _ _ b Hi ltac:(set_solver)) as [Hbb Hbc].
  destruct Hi as [[Hf Hb Hs] Hg Ho Hn H0].
  match goal with |- inv _ _ ?t => set (s' := t) end.
  assert (blocks s' = blocks s ∖ {[b]}) as E by apply dom_delete_L.
  assert (clear_bitstream s' = clear_bitstream s) as Ec by reflexivity.
  split; [split| | | |].
  - exact Hf.
  - intros p. rewrite E. intros [Hp _]%elem_of_difference. exact (Hb p Hp).
  - rewrite Ec, E. intros p Hp. apply elem_of_difference. split; [apply Hs, Hp|].
    unfold opt in Hp. case_decide; [set_solver|]. set_solver.
  - exact Hg.
  - unfold owned in *. rewrite E, Ec. set_solver.
  - set_solver.
  - set_solver.
Qed.

(** ** The header *)

Definition names (h : XHwIcap_Bit_Header) : gset Z :=
  opt (DesignName h) ∪ opt (PartName h) ∪ opt (Date h) ∪ opt (Time h).
Definition apart (h : XHwIcap_Bit_Header) : Prop :=
  opt (DesignName h) ## opt (PartName h) /\
  opt (DesignName h) ∪ opt (PartName h) ## opt (Date h) /\
  opt (DesignName h) ∪ opt (PartName h) ∪ opt (Date h) ## opt (Time h).
(** the strings of [h] are what was allocated besides [X] *)
Definition has_strings (X : gset Z) (h : XHwIcap_Bit_Header) (s0 s : shell) : Prop :=
  inv (X ∪ names h) s0 s /\ apart h /\ X ## names h.

Lemma has_no_strings X s0 s h :
  DesignName h = 0 -> PartName h = 0 -> Date h = 0 -> Time h = 0 -> inv X s0 s -> has_strings X h s0 s.
Proof.
  intros E1 E2 E3 E4 Hi. unfold has_strings, apart, names. rewrite E1, E2, E3, E4, opt_null, !union_empty_r_L.
  split; [exact Hi|]. split; [repeat split; apply disjoint_empty_r|apply disjoint_empty_r].
Qed.

Lemma wlp_free_strings X h s0 s (Q : unit -> shell -> Prop) :
  has_strings X h s0 s -> (forall s', inv X s0 s' -> Q tt s') -> wlp (free_strings h) Q s.
Proof.
  intros (Hi & (A1 & A2 & A3) & Hd) HQ. unfold free_strings, names in *.
  apply wlp_bind, (wlp_mfree _ _ (X ∪ opt (PartName h) ∪ opt (Date h) ∪ opt (Time h)) s0);
    [|set_solver|intros s1 H1].
  { replace (X ∪ opt (PartName h) ∪ opt (Date h) ∪ opt (Time h) ∪ opt (DesignName h))
      with (X ∪ (opt (DesignName h) ∪ opt (PartName h) ∪ opt (Date h) ∪ opt (Time h))) by set_solver. exact Hi. }
  apply wlp_bind, (wlp_mfree _ _ (X ∪ opt (Date h) ∪ opt (Time h)) s0); [|set_solver|intros s2 H2].
  { replace (X ∪ opt (Date h) ∪ opt (Time h) ∪ opt (PartName h))
      with (X ∪ opt (PartName h) ∪ opt (Date h) ∪ opt (Time h)) by set_solver. exact H1. }
  apply wlp_bind, (wlp_mfree _ _ (X ∪ opt (Time h)) s0); [|set_solver|intros s3 H3].
  { replace (X ∪ opt (Time h) ∪ opt (Date h)) with (X ∪ opt (Date h) ∪ opt (Time h)) by set_solver. exact H2. }
  apply (wlp_mfree _ _ X s0); [exact H3|set_solver|exact HQ].
Qed.

Lemma wlp_read_string X D t set i H s0 s (Q : option Z * XHwIcap_Bit_Header -> shell -> Prop) :
  inv X s0 s ->
  (forall o p s', X ## opt p -> inv (X ∪ opt p) s0 s' -> Q (o, set p H) s') ->
  (forall s', inv X s0 s' -> Q (None, H) s') ->
  wlp (read_string D t set i H) Q s.
Proof.
  intros Hi HQ HQ0. unfold read_string, next_byte, next_half.
  apply wlp_bind, (wlp_kb X s0); [keeps_tac|exact Hi|]. clear Hi s. intros [x j] s Hi.
  destruct (negb _); [apply wlp_ret, HQ0, Hi|].
  apply wlp_bind, (wlp_kb X s0); [unfold next_byte; keeps_tac|exact Hi|]. clear Hi s. intros [len k] s Hi.
  apply wlp_bind, (wlp_malloc _ _ X s0); [exact Hi|]. clear Hi s. intros p s Hd Hi.
  apply wlp_bind, (wlp_kb (X ∪ opt p) s0); [keeps_tac|exact Hi|]. clear Hi s. intros _ s Hi.
  apply wlp_bind, (wlp_kb (X ∪ opt p) s0); [keeps_tac|exact Hi|]. clear Hi s. intros z s Hi.
  destruct (negb _); apply wlp_ret, HQ; assumption.
Qed.

Lemma kb_magic D i m : keeps same_blocks (magic_bytes_ok D i m).
Proof. unfold magic_bytes_ok. keeps_tac. Qed.
Lemma kb_read_length D i H : keeps same_blocks (read_length D i H).
Proof. unfold read_length, next_byte. keeps_tac. Qed.

(** [set] stores a string in a member of [H] that is null *)
Definition fresh_member (set : Z -> XHwIcap_Bit_Header -> XHwIcap_Bit_Header) (H : XHwIcap_Bit_Header) : Prop :=
  forall p, names (set p H) = names H ∪ opt p /\ (names H ## opt p -> apart H -> apart (set p H)).

Ltac member_tac := intros; intros ?p; unfold names, apart; simpl; repeat match goal with
  E : _ ?h = 0 |- _ => rewrite E; clear E end; rewrite !opt_null; split; [set_solver|intros; set_solver].

Lemma fresh_DesignName h : DesignName h = 0 -> PartName h = 0 -> Date h = 0 -> Time h = 0 ->
  fresh_member (fun p h => h <| DesignName := p |>) h.
Proof. member_tac. Qed.
Lemma fresh_PartName h : PartName h = 0 -> Date h = 0 -> Time h = 0 ->
  fresh_member (fun p h => h <| PartName := p |>) h.
Proof. member_tac. Qed.
Lemma fresh_Date h : Date h = 0 -> Time h = 0 -> fresh_member (fun p h => h <| Date := p |>) h.
Proof. member_tac. Qed.
Lemma fresh_Time h : Time h = 0 -> fresh_member (fun p h => h <| Time := p |>) h.
Proof. member_tac. Qed.

(** one more string *)
Lemma wlp_next_string X D t set i H s0 s (Q : option Z * XHwIcap_Bit_Header -> shell -> Prop) :
  fresh_member set H -> has_strings X H s0 s ->
  (forall o p s', has_strings X (set p H) s0 s' -> Q (o, set p H) s') ->
  (forall s', has_strings X H s0 s' -> Q (None, H) s') ->
  wlp (read_string D t set i H) Q s.
Proof.
  intros Hset (Hi & Ha & Hd) HQ HQ0. apply (wlp_read_string (X ∪ names H) _ _ _ _ _ s0); [exact Hi| |].
  - intros o p s' Hp Hi'. apply HQ. destruct (Hset p) as [En Hap]. unfold has_strings. rewrite En, union_assoc_L.
    split; [exact Hi'|]. split; [apply Hap; [set_solver|exact Ha]|set_solver].
  - intros s' Hi'. apply HQ0. split; [exact Hi'|]. split; assumption.
Qed.

Lemma has_strings_kb X h s0 s {A} (m : prog shell A) (Q : A -> shell -> Prop) :
  keeps same_blocks m -> has_strings X h s0 s -> (forall a s', has_strings X h s0 s' -> Q a s') -> wlp m Q s.
Proof.
  intros Hk (Hi & Ha & Hd) HQ. apply (wlp_kb (X ∪ names h) s0); [exact Hk|exact Hi|].
  intros a s' Hi'. apply HQ. split; [exact Hi'|]. split; assumption.
Qed.

Lemma wlp_read_length X D i h s0 s (Q : Z * XHwIcap_Bit_Header -> shell -> Prop) :
  has_strings X h s0 s -> (forall rc h' s', has_strings X h' s0 s' -> Q (rc, h') s') ->
  wlp (read_length D i h) Q s.
Proof.
  intros Hs HQ. unfold read_length, next_byte.
  apply wlp_bind, (has_strings_kb X h s0); [keeps_tac|exact Hs|]. clear Hs s. intros [x j] s Hs.
  destruct (negb _); [apply wlp_ret, HQ, Hs|].
  do 4 (apply wlp_bind, (has_strings_kb X h s0); [keeps_tac|exact Hs|]; clear Hs s; intros [? ?] s Hs).
  apply wlp_ret, HQ. exact Hs.
Qed.

Lemma wlp_bitstream_parse_header X D n s0 s (Q : Z * XHwIcap_Bit_Header -> shell -> Prop) :
  inv X s0 s -> (forall rc h s', has_strings X h s0 s' -> Q (rc, h) s') ->
  wlp (bitstream_parse_header D n zero_header) Q s.
Proof.
  intros Hi HQ. unfold bitstream_parse_header, next_half.
  apply wlp_bind, (wlp_kb X s0); [unfold next_byte; keeps_tac|exact Hi|]. clear Hi s. intros [m i] s Hi.
  set (h0 := zero_header <| HeaderLength := _ |> <| MagicLength := m |>).
  assert (has_strings X h0 s0 s) as Hs by (apply has_no_strings; [reflexivity..|exact Hi]). clear Hi.
  apply wlp_bind, (has_strings_kb X h0 s0); [apply kb_magic|exact Hs|]. clear Hs s. intros ok s Hs.
  destruct (negb ok); [apply wlp_ret, HQ, Hs|].
  apply wlp_bind, (has_strings_kb X h0 s0); [unfold next_byte; keeps_tac|exact Hs|]. clear Hs s. intros [x j] s Hs.
  apply wlp_bind, (has_strings_kb X h0 s0); [unfold next_byte; keeps_tac|exact Hs|]. clear Hs s. intros [y k] s Hs.
  destruct (negb _); [apply wlp_ret, HQ, Hs|].
  apply wlp_bind, (wlp_next_string X _ _ _ _ _ s0);
    [apply fresh_DesignName; reflexivity|exact Hs| |intros s1 H1; apply wlp_ret, HQ, H1].
  intros [i1|] p1 s1 H1; [|apply wlp_ret, HQ, H1].
  apply wlp_bind, (wlp_next_string X _ _ _ _ _ s0);
    [apply fresh_PartName; reflexivity|exact H1| |intros s2 H2; apply wlp_ret, HQ, H2].
  intros [i2|] p2 s2 H2; [|apply wlp_ret, HQ, H2].
  apply wlp_bind, (wlp_next_string X _ _ _ _ _ s0);
    [apply fresh_Date; reflexivity|exact H2| |intros s3 H3; apply wlp_ret, HQ, H3].
  intros [i3|] p3 s3 H3; [|apply wlp_ret, HQ, H3].
  apply wlp_bind, (wlp_next_string X _ _ _ _ _ s0);
    [apply fresh_Time; reflexivity|exact H3| |intros s4 H4; apply wlp_ret, HQ, H4].
  intros [i4|] p4 s4 H4; [|apply wlp_ret, HQ, H4].
  exact (wlp_read_length _ _ _ _ _ _ _ H4 HQ).
Qed.

Lemma wlp_parse_and_check X D n s0 s (Q : Z * XHwIcap_Bit_Header -> shell -> Prop) :
  inv X s0 s -> (forall rc h s', has_strings X h s0 s' -> Q (rc, h) s') -> wlp (parse_and_check D n) Q s.
Proof.
  intros Hi HQ. unfold parse_and_check. apply wlp_bind, (wlp_bitstream_parse_header X _ _ s0); [exact Hi|].
  intros rc h s' Hs. destruct (nz rc); [apply wlp_ret, HQ, Hs|]. destruct (n <? _); apply wlp_ret, HQ, Hs.
Qed.

(** ** The clearing bitstream *)

(** the clearing bitstream was freed, and its pointer is about to be replaced *)
Definition gone (X : gset Z) (s0 s : shell) : Prop := inv X s0 (s <| clear_bitstream := 0 |>).

Lemma owned_without X s0 s : inv X s0 s -> owned s0 ∪ X = blocks s ∖ {[clear_bitstream s]}.
Proof. intros H. rewrite <- (inv_owned _ _ _ H). reflexivity. Qed.

Lemma wlp_free_stash X s0 s (Q : unit -> shell -> Prop) :
  inv X s0 s -> (forall s', gone X s0 s' -> Q tt s') -> wlp (mfree vfree (clear_bitstream s)) Q s.
Proof.
  intros Hi HQ. remember (clear_bitstream s) as b eqn:Eb. unfold mfree.
  apply wlp_bind. eapply (wlp_keeps _ _ _ _ (kb_ext_ _ _)). intros _ s1 Hs.
  pose proof Hs as (_ & _ & _ & Ec). apply (same_blocks_inv _ _ _ _ Hs) in Hi. clear Hs.
  rewrite <- Eb in Ec. clear Eb s.
  pose proof (owned_without _ _ _ Hi) as Hw. pose proof Hi as [[Hf Hb Hs] Hg Ho Hn H0].
  apply wlp_when; intros E.
  - apply wlp_bind, wlp_deref. intros x _. apply wlp_modify, HQ. apply nz_true in E.
    unfold gone. match goal with |- inv _ _ ?t => set (s' := t) end.
    assert (blocks s' = blocks s1 ∖ {[b]}) as E1 by apply dom_delete_L.
    split; [split| | | |]; [exact Hf| | |exact Hg| |exact Hn|exact H0].
    + intros p. rewrite E1. intros [Hp _]%elem_of_difference. exact (Hb p Hp).
    + change (clear_bitstream s') with 0. rewrite opt_null. apply empty_subseteq.
    + rewrite Hw, <- Ec in *. unfold owned. rewrite E1. change (clear_bitstream s') with 0.
      assert (0 ∉ blocks s1) by (intros H; apply Hb in H; lia). set_solver.
  - apply nz_false in E. apply HQ. unfold gone.
    split; [split| | | |]; [exact Hf|exact Hb|apply empty_subseteq|exact Hg| |exact Hn|exact H0].
    rewrite Hw, Ec, E. reflexivity.
Qed.

Lemma wlp_drop_clear_bitstream X s0 s (Q : unit -> shell -> Prop) :
  inv X s0 s -> (forall s', inv X s0 s' -> Q tt s') -> wlp drop_clear_bitstream Q s.
Proof.
  intros Hi HQ. unfold drop_clear_bitstream.
  apply wlp_bind, wlp_gets, wlp_bind, (wlp_free_stash X s0); [exact Hi|]. clear Hi s. intros s Hi.
  apply wlp_modify, HQ. refine (same_blocks_inv _ _ _ _ _ Hi). repeat split.
Qed.

(** a new block becomes the clearing bitstream *)
Lemma wlp_malloc_stash f n X s0 s (Q : Z -> shell -> Prop) :
  gone X s0 s -> (forall p s', inv X s0 (s' <| clear_bitstream := p |>) -> Q p s') -> wlp (malloc f n) Q s.
Proof.
  intros Hi HQ.
  assert (malloc f n (s <| clear_bitstream := 0 |>)
    = match malloc f n s with Ok p s' => Ok p (s' <| clear_bitstream := 0 |>) | Abort r => Abort r end) as E.
  { unfold malloc, bind. change (ext_all f [n] (s <| clear_bitstream := 0 |>))
      with (match ext_all f [n] s with Ok r s' => Ok r (s' <| clear_bitstream := 0 |>) | Abort r => Abort r end).
    destruct (ext_all f [n] s) as [r s'|r]; [|reflexivity]. destruct (nth 0 r 0 =? 0); reflexivity. }
  assert (wlp (malloc f n) (fun p s' => X ## opt p /\ inv (X ∪ opt p) s0 s') (s <| clear_bitstream := 0 |>)) as H.
  { apply (wlp_malloc f n X s0); [exact Hi|]. auto. }
  assert (wlp (malloc f n) (fun _ s' => clear_bitstream s' = 0) (s <| clear_bitstream := 0 |>)) as H0.
  { unfold wlp. rewrite E. destruct (malloc f n s); [reflexivity|exact I]. }
  unfold wlp in *. rewrite E in H, H0. destruct (malloc f n s) as [p s'|]; [|exact I]. apply HQ.
  destruct H as [Hd H]. pose proof (owned_without _ _ _ H) as Hw. destruct H as [[Hf Hb Hs] Hg Ho Hn Hz].
  change (clear_bitstream _) with 0 in Hw. change (blocks _) with (blocks s') in Hw, Hb.
  assert (0 ∉ blocks s') by (intros Hx; apply Hb in Hx; lia).
  split; [split| | | |]; [exact Hf|exact Hb| |exact Hg| |set_solver|set_solver].
  - change (opt p ⊆ blocks s'). set_solver.
  - change (blocks s' ∖ {[p]} = owned s0 ∪ X). unfold opt in *. case_decide; set_solver.
Qed.

Lemma wlp_bitstream_icap X p n s0 s (Q : Z -> shell -> Prop) :
  inv X s0 s -> (forall rc s', inv X s0 s' -> Q rc s') -> wlp (bitstream_icap p n) Q s.
Proof.
  intros Hi HQ. unfold bitstream_icap. apply wlp_bind, wlp_BUG_ON. intros _. apply wlp_bind, wlp_BUG_ON. intros _.
  apply wlp_bind, (wlp_parse_and_check X _ _ s0); [exact Hi|]. clear Hi s. intros err h s Hs.
  apply wlp_bind, (has_strings_kb X h s0); [|exact Hs|].
  { destruct (nz err); [keeps_tac|]. apply keeps_bind; [typeclasses eauto|apply kb_icap_pieces|intros; keeps_tac]. }
  clear Hs s. intros e s Hs.
  apply wlp_bind, (wlp_free_strings X _ s0); [exact Hs|]. intros s1 H1. apply wlp_ret, HQ, H1.
Qed.

Lemma wlp_bitstream_clear_icap X s0 s (Q : Z -> shell -> Prop) :
  inv X s0 s -> (forall rc s', inv X s0 s' -> Q rc s') -> wlp bitstream_clear_icap Q s.
Proof.
  intros Hi HQ. unfold bitstream_clear_icap. apply wlp_bind, wlp_gets.
  destruct (_ =? 0); [apply wlp_ret, HQ, Hi|].
  apply wlp_bind, wlp_gets, wlp_bind, (wlp_bitstream_icap X _ _ s0); [exact Hi|]. intros e s1 H1.
  apply wlp_bind, (wlp_drop_clear_bitstream X s0); [exact H1|]. intros s2 H2. apply wlp_ret, HQ, H2.
Qed.

Lemma wlp_bitstream_clear_mcap X s0 s (Q : Z -> shell -> Prop) :
  inv X s0 s -> (forall rc s', inv X s0 s' -> Q rc s') -> wlp bitstream_clear_mcap Q s.
Proof.
  intros Hi HQ. unfold bitstream_clear_mcap. apply wlp_bind, wlp_gets.
  destruct (_ =? 0); [apply wlp_ret, HQ, Hi|].
  apply wlp_bind, wlp_gets. generalize (clear_bitstream s), (clear_bitstream_length s). intros b n.
  apply wlp_bind, (wlp_parse_and_check X _ _ s0); [exact Hi|]. clear Hi s. intros e h s Hs.
  apply wlp_bind. destruct (nz e).
  { apply wlp_ret, wlp_bind, (wlp_free_strings X _ s0); [exact Hs|]. intros s1 H1. apply wlp_ret, HQ, H1. }
  apply wlp_bind, (has_strings_kb X h s0); [keeps_tac|exact Hs|]. clear Hs s. intros _ s (Hi & Ha & Hd).
  apply (wlp_drop_clear_bitstream (X ∪ names h) s0); [exact Hi|]. clear Hi s. intros s Hi.
  apply wlp_bind, (wlp_free_strings X _ s0); [split; [exact Hi|split; assumption]|].
  intros s1 H1. apply wlp_ret, HQ, H1.
Qed.

(** ** The gate *)

Lemma wlp_freeze X s0 s (Q : unit -> shell -> Prop) :
  inv X s0 s -> (forall s', inv X (s0 <| axi_gate_frozen := 1 |>) s' -> Q tt s') -> wlp freezeAXIGate Q s.
Proof.
  intros Hi HQ. unfold freezeAXIGate.
  apply wlp_bind, wlp_gets, wlp_bind, wlp_BUG_ON. intros _.
  do 3 (apply wlp_bind, (wlp_kb X s0); [keeps_tac|exact Hi|]; clear Hi s; intros ? s Hi).
  apply wlp_modify, HQ. destruct Hi as [[Hf Hb Hs] Hg Ho Hn H0]. split; [split| | | |]; trivial.
Qed.

Lemma kb_pulse_gate w : keeps same_blocks (pulse_gate w).
Proof. unfold pulse_gate. keeps_tac. Qed.

Lemma wlp_free_gate X s0 s (Q : unit -> shell -> Prop) :
  inv X s0 s -> (forall s', inv X (s0 <| axi_gate_frozen := 0 |>) s' -> Q tt s') -> wlp freeAXIGate Q s.
Proof.
  intros Hi HQ. unfold freeAXIGate.
  apply wlp_bind, wlp_gets, wlp_bind, wlp_BUG_ON. intros _.
  do 4 (apply wlp_bind, (wlp_kb X s0); [apply kb_pulse_gate|exact Hi|]; clear Hi s; intros ? s Hi).
  apply wlp_bind, (wlp_kb X s0); [keeps_tac|exact Hi|]; clear Hi s; intros ? s Hi.
  apply wlp_modify, HQ. destruct Hi as [[Hf Hb Hs] Hg Ho Hn H0]. split; [split| | | |]; trivial.
Qed.

(** the gate of the state compared with is open *)
Lemma inv_thawed X s0 s :
  axi_gate_frozen s0 = 0 -> inv X (s0 <| axi_gate_frozen := 1 |> <| axi_gate_frozen := 0 |>) s -> inv X s0 s.
Proof. intros E [Hk Hg Ho Hn H0]. split; [exact Hk|rewrite E; exact Hg|exact Ho|exact Hn|exact H0]. Qed.

(** ** The downloads *)

Lemma wlp_free_buffers B h s0 s (Q : unit -> shell -> Prop) :
  axi_gate_frozen s0 = 0 -> has_strings (opt B) h (s0 <| axi_gate_frozen := 1 |>) s ->
  (forall s', inv ∅ s0 s' -> Q tt s') -> wlp (free_buffers B h) Q s.
Proof.
  intros Eg (Hi & Ha & Hd) HQ. unfold free_buffers.
  apply wlp_bind, (wlp_free_gate (opt B ∪ names h) (s0 <| axi_gate_frozen := 1 |>)); [exact Hi|].
  intros s1 H1. apply (inv_thawed _ _ _ Eg) in H1.
  apply wlp_bind, (wlp_mfree _ _ (names h) s0); [rewrite union_comm_L; exact H1|set_solver|]. intros s2 H2.
  apply (wlp_free_strings ∅ _ s0); [|exact HQ].
  split; [rewrite union_empty_l_L; exact H2|]. split; [exact Ha|apply disjoint_empty_l].
Qed.

Lemma wlp_ioctl_icap_body X B ub n s0 s (Q : Z * XHwIcap_Bit_Header -> shell -> Prop) :
  inv X s0 s -> (forall rc h s', has_strings X h s0 s' -> Q (rc, h) s') -> wlp (ioctl_icap_body B ub n) Q s.
Proof.
  intros Hi HQ. unfold ioctl_icap_body.
  apply wlp_bind, (wlp_kb X s0); [keeps_tac|exact Hi|]. clear Hi s. intros c s Hi.
  destruct (nz c); [apply wlp_ret, HQ, has_no_strings; [reflexivity..|exact Hi]|].
  apply wlp_bind, (wlp_parse_and_check X _ _ s0); [exact Hi|]. clear Hi s. intros err h s Hs.
  destruct (nz err); [apply wlp_ret, HQ, Hs|].
  apply wlp_bind, (has_strings_kb X h s0); [apply kb_user_icap_pieces|exact Hs|]. clear Hs s. intros [w e] s Hs.
  destruct (negb w); [apply wlp_ret, HQ, Hs|].
  apply wlp_bind, (has_strings_kb X h s0); [keeps_tac|exact Hs|]. clear Hs s. intros d s Hs.
  destruct (nz d); apply wlp_ret, HQ, Hs.
Qed.

Lemma wlp_ioctl_mcap_program X B ub len s0 s (Q : Z -> shell -> Prop) :
  inv X s0 s -> (forall rc s', inv X s0 s' -> Q rc s') -> wlp (ioctl_mcap_program B ub len) Q s.
Proof.
  intros Hi HQ. unfold ioctl_mcap_program.
  apply wlp_bind, (wlp_kb X s0); [keeps_tac|exact Hi|]. clear Hi s. intros [err restore] s Hi.
  assert (forall e s, inv X s0 s -> wlp (MCapRegWrite MCAP_CONTROL restore ;; ret e) Q s) as Hend.
  { intros e s1 H1. apply wlp_bind, (wlp_kb X s0); [keeps_tac|exact H1|]. intros _ s2 H2. apply wlp_ret, HQ, H2. }
  apply wlp_bind. destruct (nz err); [apply wlp_ret, Hend, Hi|].
  apply wlp_bind, (wlp_bitstream_clear_mcap X s0); [exact Hi|]. clear Hi s. intros e s Hi.
  destruct (nz e); [apply wlp_ret, Hend, Hi|].
  apply wlp_bind, (wlp_kb X s0); [apply kb_user_mcap_pieces|exact Hi|]. clear Hi s. intros e' s Hi.
  destruct (nz e'); [apply wlp_ret, Hend, Hi|].
  apply (wlp_kb X s0); [keeps_tac|exact Hi|]. clear Hi s. intros e2 s Hi. apply Hend, Hi.
Qed.

Lemma wlp_ioctl_mcap_body X B ub n s0 s (Q : Z * XHwIcap_Bit_Header -> shell -> Prop) :
  inv X s0 s -> (forall rc h s', has_strings X h s0 s' -> Q (rc, h) s') -> wlp (ioctl_mcap_body B ub n) Q s.
Proof.
  intros Hi HQ. unfold ioctl_mcap_body.
  apply wlp_bind, (wlp_kb X s0); [keeps_tac|exact Hi|]. clear Hi s. intros c s Hi.
  destruct (nz c); [apply wlp_ret, HQ, has_no_strings; [reflexivity..|exact Hi]|].
  apply wlp_bind, (wlp_parse_and_check X _ _ s0); [exact Hi|]. clear Hi s. intros err h s (Hi & Ha & Hd).
  destruct (nz err); [apply wlp_ret, HQ; split; [exact Hi|split; assumption]|].
  apply wlp_bind, (wlp_ioctl_mcap_program (X ∪ names h) _ _ _ s0); [exact Hi|]. clear Hi s. intros e s Hi.
  apply wlp_ret, HQ. split; [exact Hi|split; assumption].
Qed.

(** the buffer of a download is allocated, used by [m] and freed *)
Lemma wlp_download (m : Z -> prog shell (Z * XHwIcap_Bit_Header)) s0 s (Q : Z -> shell -> Prop) :
  axi_gate_frozen s0 = 0 -> inv ∅ (s0 <| axi_gate_frozen := 1 |>) s ->
  (forall B X s1 s (R : Z * XHwIcap_Bit_Header -> shell -> Prop), inv X s1 s ->
     (forall rc h s', has_strings X h s1 s' -> R (rc, h) s') -> wlp (m B) R s) ->
  (forall rc s', inv ∅ s0 s' -> Q rc s') ->
  wlp (buffer <- malloc kmalloc DMA_HWICAP_BITFILE_BUFFER_SIZE ;;
    if buffer =? 0 then free_buffers buffer zero_header ;; ret (- ENOMEM) else
    r <- m buffer ;;
    let '(err, bit_header) := r in
    free_buffers buffer bit_header ;;
    ret err) Q s.
Proof.
  intros Eg Hi Hm HQ. set (s1 := s0 <| axi_gate_frozen := 1 |>) in Hi.
  apply wlp_bind, (wlp_malloc _ _ ∅ s1); [exact Hi|]. clear Hi s. intros B s _ Hi. rewrite union_empty_l_L in Hi.
  destruct (B =? 0).
  { apply wlp_bind, (wlp_free_buffers _ _ s0); [exact Eg|apply has_no_strings; [reflexivity..|exact Hi]|].
    intros s2 H2. apply wlp_ret, HQ, H2. }
  apply wlp_bind, (Hm B (opt B) s1); [exact Hi|]. intros rc h s2 H2.
  apply wlp_bind, (wlp_free_buffers _ _ s0); [exact Eg|exact H2|]. intros s3 H3. apply wlp_ret, HQ, H3.
Qed.

Lemma wlp_bitstream_ioctl_icap ub n s0 s (Q : Z -> shell -> Prop) :
  axi_gate_frozen s0 = 0 -> inv ∅ s0 s -> (forall rc s', inv ∅ s0 s' -> Q rc s') ->
  wlp (bitstream_ioctl_icap ub n) Q s.
Proof.
  intros Eg Hi HQ. unfold bitstream_ioctl_icap. set (s1 := s0 <| axi_gate_frozen := 1 |>).
  apply wlp_bind, (wlp_freeze ∅ s0); [exact Hi|]. clear Hi s. intros s Hi.
  apply wlp_bind, (wlp_bitstream_clear_icap ∅ s1); [exact Hi|]. clear Hi s. intros err s Hi.
  destruct (nz err).
  { apply wlp_bind, (wlp_free_buffers _ _ s0); [exact Eg|rewrite opt_null; apply has_no_strings; [reflexivity..|exact Hi]|].
    intros s2 H2. apply wlp_ret, HQ, H2. }
  apply (wlp_download (fun B => ioctl_icap_body B ub n) s0); [exact Eg|exact Hi| |exact HQ].
  intros B X s2 s3 R. apply wlp_ioctl_icap_body.
Qed.

Lemma wlp_bitstream_ioctl_mcap ub n s0 s (Q : Z -> shell -> Prop) :
  axi_gate_frozen s0 = 0 -> inv ∅ s0 s -> (forall rc s', inv ∅ s0 s' -> Q rc s') ->
  wlp (bitstream_ioctl_mcap ub n) Q s.
Proof.
  intros Eg Hi HQ. unfold bitstream_ioctl_mcap. destruct (_ || _); [apply wlp_ret, HQ, Hi|].
  apply wlp_bind, (wlp_freeze ∅ s0); [exact Hi|]. clear Hi s. intros s Hi.
  apply (wlp_download (fun B => ioctl_mcap_body B ub n) s0); [exact Eg|exact Hi| |exact HQ].
  intros B X s2 s3 R. apply wlp_ioctl_mcap_body.
Qed.

(** ** The other commands *)

Lemma wlp_stash_secondary xclbin b s0 s (Q : Z -> shell -> Prop) :
  inv ∅ s0 s -> (forall rc s', inv ∅ s0 s' -> Q rc s') -> wlp (stash_secondary xclbin b) Q s.
Proof.
  intros Hi HQ. unfold stash_secondary.
  apply wlp_bind, wlp_gets, wlp_bind, (wlp_free_stash ∅ s0); [exact Hi|]. clear Hi s. intros s Hi.
  apply wlp_bind, (wlp_malloc_stash _ _ ∅ s0); [exact Hi|]. clear Hi s. intros p s Hi.
  apply wlp_bind, wlp_modify. destruct (p =? 0).
  { apply wlp_bind, wlp_modify, wlp_ret, HQ. refine (same_blocks_inv _ _ _ _ _ Hi). repeat split. }
  apply wlp_bind, (wlp_kb ∅ s0); [keeps_tac|exact Hi|]. clear Hi s. intros e s Hi. destruct (nz e).
  - apply wlp_bind, (wlp_drop_clear_bitstream ∅ s0); [exact Hi|]. intros s2 H2. apply wlp_ret, HQ, H2.
  - apply wlp_bind, wlp_modify, wlp_ret, HQ. refine (same_blocks_inv _ _ _ _ _ Hi). repeat split.
Qed.

Lemma wlp_bitstream_ioctl cmd arg s0 s (Q : Z -> shell -> Prop) :
  axi_gate_frozen s0 = 0 -> inv ∅ s0 s -> (forall rc s', inv ∅ s0 s' -> Q rc s') ->
  wlp (bitstream_ioctl cmd arg) Q s.
Proof.
  intros Eg Hi HQ. unfold bitstream_ioctl.
  apply wlp_bind, (wlp_kb ∅ s0); [keeps_tac|exact Hi|]. clear Hi s. intros c s Hi.
  destruct (nz _); [apply wlp_ret, HQ, Hi|].
  apply wlp_bind, (wlp_kb ∅ s0); [keeps_tac|exact Hi|]. clear Hi s. intros c2 s Hi.
  do 4 (match goal with |- wlp (if ?b then _ else _) _ _ => destruct b end; [apply wlp_ret, HQ, Hi|]).
  apply wlp_bind, (wlp_kb ∅ s0); [keeps_tac|exact Hi|]. clear Hi s. intros ok s Hi.
  destruct (negb _); [apply wlp_ret, HQ, Hi|].
  set (end_ := fun r => match r with None => ret (- EINVAL) | Some err => _ end).
  assert (forall r s, inv ∅ s0 s -> wlp (end_ r) Q s) as Hend.
  { intros [err|] s1 H1; unfold end_; [|apply wlp_ret, HQ, H1].
    destruct (nz _); [apply (wlp_stash_secondary _ _ s0); assumption|apply wlp_ret, HQ, H1]. }
  apply wlp_bind. destruct (cmd =? XDMA_IOCICAPDOWNLOAD).
  { apply wlp_bind, (wlp_bitstream_ioctl_icap _ _ s0); [exact Eg|exact Hi|]. intros rc s1 H1. apply wlp_ret, Hend, H1. }
  destruct (cmd =? XDMA_IOCMCAPDOWNLOAD).
  { apply wlp_bind, (wlp_bitstream_ioctl_mcap _ _ s0); [exact Eg|exact Hi|]. intros rc s1 H1. apply wlp_ret, Hend, H1. }
  apply wlp_ret, Hend, Hi.
Qed.

Lemma kb_busy_units n : forall i r, keeps same_blocks (busy_units n i r).
Proof. induction n; intros; simpl; [keeps_tac|]. apply keeps_bind; [typeclasses eauto|keeps_tac|]. intros; apply IHn. Qed.
#[local] Hint Resolve kb_busy_units : keeps.
Lemma kb_compute_unit_busy : keeps same_blocks compute_unit_busy.
Proof. unfold compute_unit_busy. keeps_tac. Qed.
Lemma kb_get_ocl_frequency : keeps same_blocks get_ocl_frequency.
Proof. unfold get_ocl_frequency, device_id. keeps_tac. Qed.
Lemma kb_read_config i : keeps same_blocks (read_config i).
Proof. unfold read_config. keeps_tac. Qed.
Lemma kb_write_config i v : keeps same_blocks (write_config i v).
Proof. unfold write_config. keeps_tac. Qed.
Lemma kb_set_word_at b i v : keeps same_blocks (set_word_at b i v).
Proof. unfold set_word_at. keeps_tac. Qed.
Lemma kb_wait_locked n : forall v, keeps same_blocks (wait_locked n v).
Proof.
  induction n; intros; simpl; [keeps_tac|]. apply keeps_bind; [typeclasses eauto|keeps_tac|intros].
  apply keeps_bind; [typeclasses eauto|keeps_tac|]. intros; apply IHn.
Qed.
#[local] Hint Resolve kb_compute_unit_busy kb_get_ocl_frequency kb_read_config kb_write_config kb_set_word_at
  kb_wait_locked : keeps.
Lemma kb_reinit : keeps same_blocks reinit.
Proof.
  unfold reinit, engine_reinit. apply keeps_bind; [typeclasses eauto|keeps_tac|intros].
  apply keeps_bind; [typeclasses eauto| |intros; keeps_tac].
  apply keeps_for; [typeclasses eauto|intros]. apply keeps_for; [typeclasses eauto|intros].
  apply keeps_bind; [typeclasses eauto|apply kb_lift; unfold getL; keeps_tac|intros].
  apply keeps_bind; [typeclasses eauto|apply kb_lift; unfold index; keeps_tac|intros]. keeps_tac.
Qed.
#[local] Hint Resolve kb_reinit : keeps.
Lemma kb_version arg : keeps same_blocks (version_ioctl arg).
Proof. unfold version_ioctl, link_info. keeps_tac. Qed.
Lemma kb_program_clock config idx : keeps same_blocks (program_clock config idx).
Proof. unfold program_clock. keeps_tac. Qed.
#[local] Hint Resolve kb_program_clock : keeps.

Lemma wlp_reset_ocl s0 s (Q : Z -> shell -> Prop) :
  axi_gate_frozen s0 = 0 -> inv ∅ s0 s -> (forall rc s', inv ∅ s0 s' -> Q rc s') -> wlp reset_ocl_ioctl Q s.
Proof.
  intros Eg Hi HQ. unfold reset_ocl_ioctl.
  apply wlp_bind, (wlp_kb ∅ s0); [keeps_tac|exact Hi|]. clear Hi s. intros b s Hi.
  destruct (negb _); [apply wlp_ret, HQ, Hi|].
  apply wlp_bind, (wlp_freeze ∅ s0); [exact Hi|]. clear Hi s. intros s Hi.
  apply wlp_bind, (wlp_free_gate ∅ (s0 <| axi_gate_frozen := 1 |>)); [exact Hi|]. clear Hi s. intros s Hi.
  apply (inv_thawed _ _ _ Eg) in Hi. apply (wlp_kb ∅ s0); [keeps_tac|exact Hi|exact HQ].
Qed.

(** the buffer for the configuration space is allocated and freed *)
Lemma wlp_reset_hot s0 s (Q : Z -> shell -> Prop) :
  inv ∅ s0 s -> (forall rc s', inv ∅ s0 s' -> Q rc s') -> wlp reset_hot_ioctl Q s.
Proof.
  intros Hi HQ. unfold reset_hot_ioctl. apply wlp_bind, wlp_gets. generalize (pdev_ids s). intros ids.
  do 2 (apply wlp_bind, wlp_BUG_ON; intros _).
  apply wlp_bind, (wlp_malloc _ _ ∅ s0); [exact Hi|]. clear Hi s. intros p s Hd Hi.
  destruct (Z.eqb_spec p 0) as [->|Hp].
  { rewrite opt_null, union_empty_r_L in Hi. apply wlp_ret, HQ, Hi. }
  do 11 (apply wlp_bind, (wlp_kb (∅ ∪ opt p) s0); [keeps_tac|exact Hi|]; clear Hi s; intros ? s Hi).
  apply wlp_bind, (wlp_mfree _ _ ∅ s0); [exact Hi|exact Hd|]. intros s2 H2. apply wlp_ret, HQ, H2.
Qed.

Lemma wlp_freqscaling arg s0 s (Q : Z -> shell -> Prop) :
  axi_gate_frozen s0 = 0 -> inv ∅ s0 s -> (forall rc s', inv ∅ s0 s' -> Q rc s') ->
  wlp (ocl_freqscaling_ioctl arg) Q s.
Proof.
  intros Eg Hi HQ. unfold ocl_freqscaling_ioctl, device_id. apply wlp_bind, wlp_gets.
  generalize (device (pdev_ids s)). intros d.
  apply wlp_bind, (wlp_kb ∅ s0); [keeps_tac|exact Hi|]. clear Hi s. intros c s Hi.
  destruct (nz _); [apply wlp_ret, HQ, Hi|].
  apply wlp_bind, (wlp_kb ∅ s0); [keeps_tac|exact Hi|]. clear Hi s. intros v s Hi.
  destruct (_ =? 0); [apply wlp_ret, HQ, Hi|].
  apply wlp_bind, (wlp_kb ∅ s0); [keeps_tac|exact Hi|]. clear Hi s. intros b s Hi.
  destruct (nz _); [apply wlp_ret, HQ, Hi|]. destruct (_ || _); [apply wlp_ret, HQ, Hi|].
  apply wlp_bind, (wlp_kb ∅ s0); [keeps_tac|exact Hi|]. clear Hi s. intros f s Hi.
  unfold scale_frequency. set (s1 := s0 <| axi_gate_frozen := 1 |>).
  apply wlp_bind, (wlp_freeze ∅ s0); [exact Hi|]. clear Hi s. intros s Hi.
  do 5 (apply wlp_bind, (wlp_kb ∅ s1); [keeps_tac|exact Hi|]; clear Hi s; intros ? s Hi).
  apply wlp_bind, (wlp_free_gate ∅ s1); [exact Hi|]. intros s2 H2. apply wlp_ret, HQ, (inv_thawed _ _ _ Eg), H2.
Qed.

Lemma wlp_dispatch cmd arg s0 s (Q : Z -> shell -> Prop) :
  axi_gate_frozen s0 = 0 -> inv ∅ s0 s -> (forall rc s', inv ∅ s0 s' -> Q rc s') -> wlp (dispatch cmd arg) Q s.
Proof.
  intros Eg Hi HQ. unfold dispatch.
  destruct (_ =? _); [apply (wlp_kb ∅ s0); [apply kb_version|assumption..]|].
  destruct (_ || _); [apply (wlp_bitstream_ioctl _ _ s0); assumption|].
  destruct (_ =? _); [apply (wlp_reset_ocl s0); assumption|].
  destruct (_ =? _); [apply (wlp_reset_hot s0); assumption|].
  destruct (_ =? _); [apply (wlp_freqscaling _ s0); assumption|apply wlp_ret, HQ, Hi].
Qed.

Lemma wlp_char_ctrl_ioctl lro_char cmd arg s0 s (Q : Z -> shell -> Prop) :
  axi_gate_frozen s0 = 0 -> inv ∅ s0 s -> (forall rc s', inv ∅ s0 s' -> Q rc s') ->
  wlp (char_ctrl_ioctl lro_char cmd arg) Q s.
Proof.
  intros Eg Hi HQ. unfold char_ctrl_ioctl.
  do 3 (apply wlp_bind, (wlp_kb ∅ s0); [apply kb_lift; unfold check_char, check_lro, getL; keeps_tac|exact Hi|];
    clear Hi s; intros ? s Hi).
  do 2 (destruct (negb _); [apply wlp_ret, HQ, Hi|]).
  apply wlp_bind, (wlp_kb ∅ s0); [unfold check_access; keeps_tac|exact Hi|]. clear Hi s. intros ok s Hi.
  destruct (negb _); [apply wlp_ret, HQ, Hi|].
  apply wlp_bind, (wlp_kb ∅ s0); [keeps_tac|exact Hi|]. clear Hi s. intros c s Hi.
  destruct (nz _); [apply wlp_ret, HQ, Hi|].
  destruct (negb _); [apply wlp_ret, HQ, Hi|]. apply (wlp_dispatch _ _ s0); assumption.
Qed.

(** C16: an ioctl of the control device that returns, with whatever result,
    leaves the AXI gate open and has freed what it allocated: the buffer of the
    download, the four strings of each header, the copy of the configuration
    space a hot reset makes and the clearing bitstream it replaced.  The only
    block it may leave is the clearing bitstream, which is null or allocated, so
    that the next download does not touch freed memory. *)
Theorem char_ctrl_ioctl_gives_back lro_char cmd arg s rc s' :
  shell_ok s -> axi_gate_frozen s = 0 -> char_ctrl_ioctl lro_char cmd arg s = Ok rc s' ->
  shell_ok s' /\ axi_gate_frozen s' = 0 /\ owned s' = owned s.
Proof.
  intros Hk Eg E.
  refine (wlp_elim _ (fun _ s' => shell_ok s' /\ axi_gate_frozen s' = 0 /\ owned s' = owned s) s _ _ _ E).
  apply (wlp_char_ctrl_ioctl _ _ _ s); [exact Eg|exact (inv_refl s Hk)|]. intros _ s1 [H1 H2 H3 _ _].
  split; [exact H1|]. rewrite H2, H3, union_empty_r_L. split; [exact Eg|reflexivity].
Qed.
End Inv.
