(* ===== verification/ClockFacts.v ===== *)
(** * The clock of the compute units (xdma-ioctl.c)

    What the frequency ioctl writes, in which order and behind which gate, and
    the frequency that results. *)
From S2P Require Import Prelude Layout Kernel World CharDev Shell Bitstream ShellIoctl DownloadFacts.
#[local] Open Scope Z_scope.

(** the value a write to the user BAR sends, of one or four bytes *)
Definition bar_write (e : ev) : option (Z * Z) :=
  match e with
  | Call iowrite32 [a; v] _ => Some (a, v)
  | Call iowrite8 [a; v] _ => Some (a, v)
  | _ => None
  end.
(** the writes to the device, oldest first *)
Definition bar_writes (s : shell) : list (Z * Z) := rev (omap bar_write (trace (drv s))).

Lemma bar_writes_log e s :
  bar_writes (log e s) = bar_writes s ++ match bar_write e with Some w => [w] | None => [] end.
Proof.
  unfold bar_writes. change (trace (drv (log e s))) with (e :: trace (drv s)).
  change (omap bar_write (e :: trace (drv s)))
    with (match bar_write e with Some w => w :: omap bar_write (trace (drv s)) | None => omap bar_write (trace (drv s)) end).
  destruct (bar_write e); [reflexivity|rewrite app_nil_r; reflexivity].
Qed.

(** the device got [ws], the gate is [g], and nothing else changed that the
    code under consideration reads *)
Record acted (g : Z) (ws : list (Z * Z)) (s0 s : shell) : Prop := {
  acted_lro : lro (drv s) = lro (drv s0);
  acted_ids : pdev_ids s = pdev_ids s0;
  acted_gate : axi_gate_frozen s = g;
  acted_writes : bar_writes s = bar_writes s0 ++ ws
}.

Lemma acted_refl s : acted (axi_gate_frozen s) [] s s.
Proof. split; [reflexivity..|rewrite app_nil_r; reflexivity]. Qed.

Lemma acted_log g ws s0 s e :
  acted g ws s0 s -> acted g (ws ++ match bar_write e with Some w => [w] | None => [] end) s0 (log e s).
Proof. intros [H1 H2 H3 H4]. split; [assumption..|]. rewrite bar_writes_log, H4, app_assoc. reflexivity. Qed.

Lemma acted_call g ws s0 s e : bar_write e = None -> acted g ws s0 s -> acted g ws s0 (log e s).
Proof. intros E H. apply (acted_log _ _ _ _ e) in H. rewrite E, app_nil_r in H. exact H. Qed.

Section Clock.
Context {env : Env} {ho : HostOrder}.
Context (b : Z).

(** what the register at [ofs] can be read as *)
Definition reads (ofs : Z) (P : Z -> Prop) : Prop :=
  forall h, P (u32 (nth 0 (answer h ioread32 [b + ofs]) 0)).

Section Steps.
Context (s0 : shell) (Hb : user_bar_is b s0).

Lemma acted_bar g ws s : acted g ws s0 s -> user_bar_is b s.
Proof using Hb. intros H. unfold user_bar_is. rewrite (acted_lro _ _ _ _ H). exact Hb. Qed.

Lemma wp_reads g ws ofs P s (Q : Z -> shell -> Prop) :
  reads ofs P -> acted g ws s0 s -> (forall v s', P v -> acted g ws s0 s' -> Q v s') -> wp (user_read ofs) Q s.
Proof using Hb.
  intros Hr H HQ. apply (wp_user_read b); [exact (acted_bar _ _ _ H)|]. cbv zeta.
  apply HQ; [apply Hr|]. apply acted_call; [reflexivity|exact H].
Qed.

Lemma reads_any ofs : reads ofs (fun _ => True).
Proof. intros h. exact I. Qed.

Lemma wp_writes g ws v ofs s (Q : unit -> shell -> Prop) :
  acted g ws s0 s -> (forall s', acted g (ws ++ [(b + ofs, v)]) s0 s' -> Q tt s') -> wp (user_write v ofs) Q s.
Proof using Hb.
  intros H HQ. apply (wp_user_write b); [exact (acted_bar _ _ _ H)|]. apply HQ.
  exact (acted_log _ _ _ _ (Call iowrite32 [b + ofs; v] []) H).
Qed.

Lemma wp_writes8 g ws v ofs s (Q : unit -> shell -> Prop) :
  acted g ws s0 s -> (forall s', acted g (ws ++ [(b + ofs, v)]) s0 s' -> Q tt s') -> wp (user_write8 v ofs) Q s.
Proof using Hb.
  intros H HQ. unfold user_write8, wp. rewrite (bind_ok _ _ _ _ _ (user_bar_eq b s (acted_bar _ _ _ H))).
  apply HQ. exact (acted_log _ _ _ _ (Call iowrite8 [b + ofs; v] []) H).
Qed.

Lemma wp_pause g ws f args s (Q : unit -> shell -> Prop) :
  bar_write (Call f args []) = None -> acted g ws s0 s -> (forall s', acted g ws s0 s' -> Q tt s') ->
  wp (ext_ f args) Q s.
Proof. intros Hf H HQ. apply wp_ext_, HQ, acted_call; assumption. Qed.

(** ** The gate *)

Definition GATE : Z := b + AXI_GATE_OFFSET.

Lemma acted_set_gate g g' ws s : acted g ws s0 s -> acted g' ws s0 (s <| axi_gate_frozen := g' |>).
Proof. intros [H1 H2 H3 H4]. split; [exact H1|exact H2|reflexivity|exact H4]. Qed.

Lemma wp_freezes ws s (Q : unit -> shell -> Prop) :
  acted 0 ws s0 s -> (forall s', acted 1 (ws ++ [(GATE, 0)]) s0 s' -> Q tt s') -> wp freezeAXIGate Q s.
Proof using Hb.
  intros H HQ. unfold freezeAXIGate. apply wp_bind, wp_gets. rewrite (acted_gate _ _ _ _ H).
  apply wp_bind, wp_BUG_ON; [reflexivity|].
  apply wp_bind, (wp_reads 0 ws _ _ _ _ (reads_any _) H). intros _ s1 _ H1.
  apply wp_bind, (wp_writes8 0 _ _ _ _ _ H1). intros s2 H2.
  apply wp_bind, (wp_reads 0 _ _ _ _ _ (reads_any _) H2). intros _ s3 _ H3.
  apply wp_modify, HQ, (acted_set_gate 0), H3.
Qed.

Lemma wp_pulses ws v s (Q : unit -> shell -> Prop) :
  acted 1 ws s0 s -> (forall s', acted 1 (ws ++ [(GATE, v)]) s0 s' -> Q tt s') -> wp (pulse_gate v) Q s.
Proof using Hb.
  intros H HQ. unfold pulse_gate.
  apply wp_bind, (wp_reads 1 ws _ _ _ _ (reads_any _) H). intros _ s1 _ H1.
  apply wp_bind, (wp_writes8 1 _ _ _ _ _ H1). intros s2 H2.
  apply (wp_pause 1 (ws ++ [(GATE, v)])); [reflexivity|exact H2|exact HQ].
Qed.

Definition gate_pulse : list (Z * Z) := [(GATE, 2); (GATE, 0); (GATE, 2); (GATE, 3)].

Lemma wp_frees ws s (Q : unit -> shell -> Prop) :
  acted 1 ws s0 s -> (forall s', acted 0 (ws ++ gate_pulse) s0 s' -> Q tt s') -> wp freeAXIGate Q s.
Proof using Hb.
  intros H HQ. unfold freeAXIGate. apply wp_bind, wp_gets. rewrite (acted_gate _ _ _ _ H).
  apply wp_bind, wp_BUG_ON; [reflexivity|].
  do 4 (apply wp_bind, (wp_pulses _ _ _ _ H); clear H s; intros s H; rewrite <- ?app_assoc in H; cbn [app] in H).
  apply wp_bind, (wp_reads 1 _ _ _ _ _ (reads_any _) H). intros _ s3 _ H3.
  apply wp_modify, HQ, (acted_set_gate 1), H3.
Qed.

(** ** Compute units *)

(** no compute unit has started; when the gate is closed none is looked at *)
Definition units_idle : Prop := forall i, 0 <= i < 16 -> reads (OCL_CTLR_OFFSET + i * OCL_CU_CTRL_RANGE) (fun v => v <> 1).

Lemma wp_idle_units g ws n : forall i s (Q : Z -> shell -> Prop),
  units_idle -> 0 <= i -> i + Z.of_nat n <= 16 -> acted g ws s0 s ->
  (forall s', acted g ws s0 s' -> Q 0 s') -> wp (busy_units n i 0) Q s.
Proof using Hb.
  induction n as [|n IH]; intros i s Q Hidle Hi Hn H HQ; simpl.
  - apply wp_ret, HQ, H.
  - apply wp_bind, (wp_reads g ws _ (fun v => v <> 1)); [apply Hidle; lia|exact H|]. intros v s1 Hv H1.
    destruct (Z.eqb_spec v 1); [contradiction|]. apply IH; [exact Hidle|lia|lia|exact H1|exact HQ].
Qed.

Lemma wp_not_busy g ws s (Q : Z -> shell -> Prop) :
  units_idle -> acted g ws s0 s -> (forall s', acted g ws s0 s' -> Q 0 s') -> wp compute_unit_busy Q s.
Proof using Hb.
  intros Hidle H HQ. unfold compute_unit_busy.
  apply wp_bind, (wp_reads g ws _ _ _ _ (reads_any _) H). intros v s1 _ H1.
  destruct (negb _); [apply wp_ret, HQ, H1|]. apply (wp_idle_units g ws); [exact Hidle|lia|lia|exact H1|exact HQ].
Qed.

(** ** The clock wizard *)

Lemma wp_frequency g ws s (Q : Z -> shell -> Prop) :
  acted g ws s0 s -> (forall f s', acted g ws s0 s' -> Q f s') -> wp get_ocl_frequency Q s.
Proof using Hb.
  intros H HQ. unfold get_ocl_frequency, device_id. apply wp_bind, wp_gets.
  apply wp_bind, (wp_reads g ws _ _ _ _ (reads_any _) H). intros v s1 _ H1.
  destruct (_ =? 0); [apply wp_ret, HQ, H1|].
  apply wp_bind, (wp_reads g ws _ _ _ _ (reads_any _) H1). intros c0 s2 _ H2.
  apply wp_bind, (wp_reads g ws _ _ _ _ (reads_any _) H2). intros c2 s3 _ H3. apply wp_ret, HQ, H3.
Qed.

(** the wizard has locked at each read of its status *)
Definition clock_locked : Prop := reads OCL_CLKWIZ_STATUS (fun v => v = 1).

Lemma wp_wait_locked g ws n : forall v s (Q : Z -> shell -> Prop),
  clock_locked -> (n = 0%nat -> v = 1) -> acted g ws s0 s -> (forall s', acted g ws s0 s' -> Q 1 s') ->
  wp (wait_locked n v) Q s.
Proof using Hb.
  induction n as [|n IH]; intros v s Q Hl Hv H HQ; simpl.
  - rewrite Hv by reflexivity. apply wp_ret, HQ, H.
  - apply wp_bind, (wp_reads g ws _ _ _ _ Hl H). intros v1 s1 -> H1.
    apply wp_bind, wp_when; [discriminate|intros _]. apply IH; [exact Hl|reflexivity|exact H1|exact HQ].
Qed.

(** the new setting, and the handshake that loads it *)
Definition clock_writes (config : Z) (t : xdma_ocl_clockwiz) : list (Z * Z) :=
  [ (b + OCL_CLKWIZ_CONFIG 0, config); (b + OCL_CLKWIZ_CONFIG 2, divide t);
    (b + OCL_CLKWIZ_CONFIG 23, 7); (b + OCL_CLKWIZ_CONFIG 23, 2) ].

(** the word for CONFIG(2) never has a fraction *)
Lemma divider_without_fraction t : In t frequency_table -> divider_config t = divide t.
Proof.
  unfold frequency_table. intros Ht. repeat (destruct Ht as [<-|Ht]; [reflexivity|]). destruct Ht.
Qed.

Lemma wp_program_clock ws config idx t s (Q : Z -> shell -> Prop) :
  clock_locked -> zlookup frequency_table idx = Some t -> acted 1 ws s0 s ->
  (forall s', acted 1 (ws ++ clock_writes config t) s0 s' -> Q 0 s') -> wp (program_clock config idx) Q s.
Proof using Hb.
  intros Hl Ht H HQ. unfold program_clock.
  apply wp_bind, (wp_writes 1 _ _ _ _ _ H). clear H s. intros s H.
  apply wp_bind, (wp_deref (fun _ : shell => zlookup frequency_table idx) _ _ t Ht). rewrite divider_without_fraction.
  2:{ unfold zlookup in Ht. destruct (idx <? 0); [discriminate|]. apply list_elem_of_In, (list_elem_of_lookup_2 _ _ _ Ht). }
  apply wp_bind, (wp_writes 1 _ _ _ _ _ H). clear H s. intros s H.
  apply wp_bind. eapply (wp_pause 1); [reflexivity|exact H|]. clear H s. intros s H.
  apply wp_bind, (wp_writes 1 _ _ _ _ _ H). clear H s. intros s H.
  apply wp_bind. eapply (wp_pause 1); [reflexivity|exact H|]. clear H s. intros s H.
  apply wp_bind, (wp_writes 1 _ _ _ _ _ H). clear H s. intros s H.
  apply wp_bind. eapply (wp_pause 1); [reflexivity|exact H|]. clear H s. intros s H.
  apply wp_bind. eapply (wp_wait_locked 1); [exact Hl|discriminate|exact H|]. clear H s. intros s H.
  apply wp_ret, HQ. rewrite <- !app_assoc in H. exact H.
Qed.
End Steps.

(** [arg] points to a request for the frequency [target] *)
Definition requests (arg target : Z) : Prop := forall h,
  let r := answer h copy_from_user [arg; sizeof_ioc_freqscaling] in
  nth 0 r 0 = 0 /\ member (env_bytes sizeof_ioc_freqscaling (tail r)) 8 4 = target.

(** the multiplier the code chooses for the board *)
Definition base_config (d : Z) : Z := if d =? KU3_DEVICE then 0x04000501 else 0x04000a01.
Definition input_clock (d : Z) : Z := if d =? KU3_DEVICE then XDMA_KU3_INPUT_FREQ else XDMA_7V3_INPUT_FREQ.

(** the entry of the table for a frequency in range, and what the wizard then
    generates *)
Lemma table_entry d target : 25 <= target <= 250 ->
  exists t, zlookup frequency_table (target / ocl_step - 1) = Some t /\
    ocl t <= target < ocl t + 25 /\ ocl t <= ocl_frequency_of (input_clock d) (base_config d) (divide t) /\
    (ocl t < ocl_frequency_of (input_clock d) (base_config d) (divide t) <-> divide_frac t <> 0).
Proof.
  intros H. unfold ocl_step.
  pose proof (Z.div_mod target 25 ltac:(lia)) as E. pose proof (Z.mod_pos_bound target 25 ltac:(lia)) as Hm.
  set (q := target / 25) in *. clearbody q. assert (1 <= q <= 10) as Hq by lia.
  assert (forall i, 1 <= i <= 10 -> exists t, zlookup frequency_table (i - 1) = Some t /\ ocl t = 25 * i /\
    ocl t <= ocl_frequency_of (input_clock d) (base_config d) (divide t) /\
    (ocl t < ocl_frequency_of (input_clock d) (base_config d) (divide t) <-> divide_frac t <> 0)) as Hall.
  { intros i Hi.
    assert (i = 1 \/ i = 2 \/ i = 3 \/ i = 4 \/ i = 5 \/ i = 6 \/ i = 7 \/ i = 8 \/ i = 9 \/ i = 10) as Hc by lia.
    unfold input_clock, base_config.
    destruct (d =? KU3_DEVICE); repeat (destruct Hc as [->|Hc]); try subst i;
      (eexists; split; [reflexivity|]; split; [reflexivity|]; split; vm_compute; intuition congruence). }
  destruct (Hall q Hq) as (t & E1 & E2 & E3). exists t. split; [exact E1|]. split; [lia|exact E3].
Qed.

(** C20: On an idle board whose clock wizard locks, a request for 25 to 250 MHz
    succeeds: with the gate closed the multiplier and the divider of the table
    entry at or below the request are written and loaded, then the gate is
    pulsed open.  But the fraction of the divider is dropped, so that the clock
    generated is above the entry, for instance 200 MHz for 175, whenever the
    entry has a fraction. *)
Theorem freqscaling_sets_the_clock s arg target :
  user_bar_is b s -> axi_gate_frozen s = 0 -> clock_locked -> units_idle -> requests arg target ->
  25 <= target <= 250 ->
  wp (ocl_freqscaling_ioctl arg) (fun r s' =>
    r = 0 /\ axi_gate_frozen s' = 0 /\
    let d := device (pdev_ids s) in
    exists t, zlookup frequency_table (target / ocl_step - 1) = Some t /\ ocl t <= target < ocl t + 25 /\
      bar_writes s' = bar_writes s ++ [(GATE, 0)] ++ clock_writes (base_config d) t ++ gate_pulse /\
      let f := ocl_frequency_of (input_clock d) (base_config d) (divide t) in
      ocl t <= f /\ (ocl t < f <-> divide_frac t <> 0)) s.
Proof.
  intros Hb Hg Hl Hidle Hreq Ht.
  destruct (table_entry (device (pdev_ids s)) target Ht) as (t & Et & Hocl & Hf).
  assert (acted 0 [] s s) as H by (rewrite <- Hg; apply acted_refl).
  unfold ocl_freqscaling_ioctl, device_id. apply wp_bind, wp_gets. fold (base_config (device (pdev_ids s))).
  set (config := base_config _). apply wp_bind. unfold copy_from_user_. apply wp_bind, wp_ext_all, wp_ret.
  destruct (Hreq (trace_of s)) as [E0 E1]. cbn [fst snd]. rewrite E0, E1. cbn [nz Z.eqb negb].
  set (s1 := log _ s). assert (acted 0 [] s s1) as H1 by (apply acted_call; [reflexivity|exact H]). clear H.
  apply wp_bind, (wp_reads s Hb 0 [] _ _ _ _ Hl H1). intros v s2 -> H2.
  apply wp_bind, (wp_not_busy s Hb 0 [] _ _ Hidle H2). intros s3 H3. cbn [nz Z.eqb negb Z.land].
  destruct (Z.ltb_spec 250 target); [lia|]. destruct (Z.ltb_spec target ocl_step); [unfold ocl_step in *; lia|].
  apply wp_bind, (wp_frequency s Hb 0 [] _ _ H3). intros f s4 H4. unfold scale_frequency.
  apply wp_bind, (wp_freezes s Hb [] _ _ H4). intros s5 H5.
  apply wp_bind, (wp_reads s Hb 1 _ _ _ _ _ (reads_any _) H5). intros c0 s6 _ H6.
  apply wp_bind, (wp_reads s Hb 1 _ _ _ _ _ (reads_any _) H6). intros c2 s7 _ H7.
  apply wp_bind, (wp_reads s Hb 1 _ _ _ _ _ Hl H7). intros v s8 -> H8. cbn [negb Z.eqb Pos.eqb].
  apply wp_bind, (wp_program_clock s Hb _ config _ t _ _ Hl Et H8). intros s9 H9.
  apply wp_bind, (wp_frequency s Hb 1 _ _ _ H9). intros f' s10 H10.
  apply wp_bind, (wp_frees s Hb _ _ _ H10). intros s11 H11. apply wp_ret.
  split; [reflexivity|]. split; [exact (acted_gate _ _ _ _ H11)|]. exists t. split; [exact Et|]. split; [exact Hocl|].
  split; [|exact Hf]. rewrite (acted_writes _ _ _ _ H11). cbn [app]. reflexivity.
Qed.
End Clock.
