(* ===== verification/ResetFacts.v ===== *)
(** * The hot reset (xdma-ioctl.c)

    The configuration space survives a hot reset, and the interrupts of the
    engines are enabled again. *)
From S2P Require Import Prelude Layout Kernel World CharDev Shell Bitstream ShellIoctl BitFacts DownloadFacts McapFacts.
#[local] Open Scope Z_scope.

(** the offsets of the first [n] words of the configuration space *)
Definition offsets_to (n : nat) : list Z := map (fun k => 4 * Z.of_nat k) (seq 0 n).
(** the offsets of its 64 words *)
Definition config_offsets : list Z := offsets_to 64.

(** an access of the configuration space of the function or of the bridge *)
Inductive cfg_event : Type :=
| CfgRead (o v : Z)
| CfgWrite (o v : Z)
| BridgeRead (o v : Z)
| BridgeWrite (o v : Z).

(** the accesses to the function [pdev] and the bridge [bus] *)
Definition cfg_access (pdev bus : Z) (e : ev) : option cfg_event :=
  match e with
  | Call pci_read_config_dword [p; o] r => if p =? pdev then Some (CfgRead o (u32 (nth 1 r 0))) else None
  | Call pci_write_config_dword [p; o; v] _ => if p =? pdev then Some (CfgWrite o v) else None
  | Call pci_read_config_byte [p; o] r => if p =? bus then Some (BridgeRead o (u8 (nth 1 r 0))) else None
  | Call pci_write_config_byte [p; o; v] _ => if p =? bus then Some (BridgeWrite o v) else None
  | _ => None
  end.

(** the function, and the bridge above it *)
Definition function_of (s : shell) : Z := pci_dev (lro (drv s)).
Definition bridge_of (s : shell) : Z := bus_self (pdev_ids s).

(** what the call of a step adds to a list that is computed from the history,
    oldest first *)
Definition seen {A} (f : ev -> option A) (s : shell) : list A := rev (omap f (trace (drv s))).

Lemma seen_log {A} (f : ev -> option A) e s : seen f (log e s) = seen f s ++ match f e with Some x => [x] | None => [] end.
Proof.
  unfold seen. change (trace (drv (log e s))) with (e :: trace (drv s)).
  change (omap f (e :: trace (drv s)))
    with (match f e with Some x => x :: omap f (trace (drv s)) | None => omap f (trace (drv s)) end).
  destruct (f e); [reflexivity|rewrite app_nil_r; reflexivity].
Qed.

(** the value written to a register *)
Definition reg_write (e : ev) : option (Z * Z) :=
  match e with Call iowrite32 [a; v] _ => Some (a, v) | _ => None end.

(** the order in which reinit visits the table of engines *)
Definition reinit_order : list Z := [0; 2; 4; 6; 1; 3; 5; 7].

(** the write that enables the interrupts of the engine at index [i] *)
Definition enabling (w : world) (i : Z) : option (Z * Z) :=
  p ← zlookup (engine (lro w)) i;
  if p =? 0 then None else
  e ← engines w !! p; Some (regs e + offset_of engine_regs "interrupt_enable_mask", reinit_mask).

(** the table has its eight entries, each null or an engine *)
Definition engines_known (w : world) : Prop := forall i, 0 <= i < 8 ->
  exists p, zlookup (engine (lro w)) i = Some p /\ (p <> 0 -> is_Some (engines w !! p)).

(** the first [length vs] words of the block [L] of 0x100 bytes are [vs] *)
Definition saved {ho : HostOrder} (vs L : list Z) : Prop :=
  length L = 256%nat /\ forall j v, vs !! j = Some v -> load (take 4 (drop (4 * j) L)) = v.

Section Reset.
Context {env : Env} {ho : HostOrder}.
Context (s0 : shell) (Hheap : heap_ok s0).

(** the block of the hot reset, and what it holds while it is allocated *)
Definition cfg_block : Z := fresh (drv s0).
Definition with_block (b : option (list Z)) : gmap Z (list Z) :=
  match b with Some L => <[cfg_block := L]> (bufs s0) | None => bufs s0 end.

(** the accesses [cs] and the register writes [ws] were made, the block holds
    [b], and nothing else changed *)
Record reset_to (b : option (list Z)) (cs : list cfg_event) (ws : list (Z * Z)) (s : shell) : Prop := {
  reset_drv : drv s = (drv s0) <| trace := trace (drv s) |> <| fresh := fresh (drv s) |>;
  reset_bufs : bufs s = with_block b;
  reset_gate : axi_gate_frozen s = axi_gate_frozen s0;
  reset_cfg : seen (cfg_access (function_of s0) (bridge_of s0)) s = seen (cfg_access (function_of s0) (bridge_of s0)) s0 ++ cs;
  reset_regs : seen reg_write s = seen reg_write s0 ++ ws
}.

Lemma reset_start : reset_to None [] [] s0.
Proof. split; [destruct (drv s0); reflexivity|reflexivity|reflexivity|rewrite app_nil_r; reflexivity..]. Qed.

Lemma reset_call b cs ws s f args r :
  reset_to b cs ws s ->
  reset_to b (cs ++ match cfg_access (function_of s0) (bridge_of s0) (Call f args r) with Some x => [x] | None => [] end)
    (ws ++ match reg_write (Call f args r) with Some x => [x] | None => [] end) (log (Call f args r) s).
Proof.
  intros [H1 H0 H2 H3 H4]. split; [|exact H0|exact H2|rewrite seen_log, H3, app_assoc; reflexivity|
    rewrite seen_log, H4, app_assoc; reflexivity].
  change (drv (log (Call f args r) s)) with (log (Call f args r) (drv s)).
  change (trace (log (Call f args r) (drv s))) with (Call f args r :: trace (drv s)).
  change (fresh (log (Call f args r) (drv s))) with (fresh (drv s)).
  rewrite H1. reflexivity.
Qed.

(** a call that is neither, an access of the configuration space, and a write *)
Lemma reset_other b cs ws s f args r :
  cfg_access (function_of s0) (bridge_of s0) (Call f args r) = None -> reg_write (Call f args r) = None ->
  reset_to b cs ws s -> reset_to b cs ws (log (Call f args r) s).
Proof. intros E1 E2 H. apply (reset_call _ _ _ _ f args r) in H. rewrite E1, E2, !app_nil_r in H. exact H. Qed.

Lemma reset_access b cs ws s f args r x :
  cfg_access (function_of s0) (bridge_of s0) (Call f args r) = Some x -> reg_write (Call f args r) = None ->
  reset_to b cs ws s -> reset_to b (cs ++ [x]) ws (log (Call f args r) s).
Proof. intros E1 E2 H. apply (reset_call _ _ _ _ f args r) in H. rewrite E1, E2, app_nil_r in H. exact H. Qed.

Lemma wp_reset_other b cs ws s f args (Q : unit -> shell -> Prop) :
  cfg_access (function_of s0) (bridge_of s0) (Call f args []) = None -> reg_write (Call f args []) = None ->
  reset_to b cs ws s -> (forall s', reset_to b cs ws s' -> Q tt s') -> wp (ext_ f args) Q s.
Proof. intros E1 E2 H HQ. apply wp_ext_, HQ, reset_other; assumption. Qed.

Lemma wp_bridge_write b cs ws s o v (Q : unit -> shell -> Prop) :
  reset_to b cs ws s -> (forall s', reset_to b (cs ++ [BridgeWrite o v]) ws s' -> Q tt s') ->
  wp (ext_ pci_write_config_byte [bridge_of s0; o; v]) Q s.
Proof.
  intros H HQ. apply wp_ext_, HQ, reset_access; [|reflexivity|exact H]. cbn. rewrite Z.eqb_refl. reflexivity.
Qed.

Lemma reset_pdev b cs ws s : reset_to b cs ws s -> the_pdev s = Ok (function_of s0) s.
Proof.
  intros H. rewrite the_pdev_eq. f_equal. unfold function_of. rewrite (reset_drv _ _ _ _ H). reflexivity.
Qed.

Lemma wp_read_config b cs ws i s (Q : Z -> shell -> Prop) :
  reset_to b cs ws s ->
  (forall v s', 0 <= v < 2 ^ 32 -> reset_to b (cs ++ [CfgRead i v]) ws s' -> Q v s') -> wp (read_config i) Q s.
Proof.
  intros H HQ. unfold read_config. apply wp_bind. unfold wp at 1. rewrite (reset_pdev _ _ _ _ H).
  apply wp_bind, wp_ext_all, wp_ret, HQ, reset_access; [apply Z.mod_pos_bound; lia| |reflexivity|exact H].
  cbn. rewrite Z.eqb_refl. reflexivity.
Qed.

Lemma wp_write_config b cs ws i v s (Q : unit -> shell -> Prop) :
  reset_to b cs ws s -> (forall s', reset_to b (cs ++ [CfgWrite i v]) ws s' -> Q tt s') -> wp (write_config i v) Q s.
Proof.
  intros H HQ. unfold write_config. apply wp_bind. unfold wp at 1. rewrite (reset_pdev _ _ _ _ H).
  apply wp_ext_, HQ, reset_access; [|reflexivity|exact H]. cbn. rewrite Z.eqb_refl. reflexivity.
Qed.

(** ** The copy of the configuration space *)

Lemma cfg_block_free : bufs s0 !! cfg_block = None.
Proof using Hheap. apply Hheap. right. reflexivity. Qed.

Lemma cfg_block_pos : cfg_block <> 0.
Proof using Hheap. pose proof (proj1 Hheap). unfold cfg_block. lia. Qed.

Lemma wp_cfg_malloc cs ws (Hk : forall h, nth 0 (answer h kmalloc [0x100]) 0 <> 0) (Q : Z -> shell -> Prop) s :
  s = s0 -> reset_to None cs ws s ->
  (forall L s', saved [] L -> reset_to (Some L) cs ws s' -> Q cfg_block s') -> wp (malloc kmalloc 0x100) Q s.
Proof.
  intros -> H HQ. unfold malloc. apply wp_bind, wp_ext_all. set (r := answer _ _ _).
  destruct (Z.eqb_spec (nth 0 r 0) 0) as [E|_]; [destruct (Hk _ E)|].
  apply (reset_other _ _ _ _ kmalloc [0x100] r) in H; [|reflexivity..]. destruct H as [H1 H0 H2 H3 H4].
  apply wp_bind, wp_gets, wp_bind, wp_modify, wp_ret, (HQ (env_bytes 0x100 (tail r))).
  - split; [apply length_map|]. intros j v Hj. rewrite lookup_nil in Hj. discriminate.
  - split; [|reflexivity|exact H2|exact H3|exact H4].
    change (drv _) with ((drv s0) <| trace := Call kmalloc [0x100] r :: trace (drv s0) |> <| fresh := fresh (drv s0) + 1 |>) at 1.
    reflexivity.
Qed.

Lemma wp_cfg_mfree L cs ws s (Q : unit -> shell -> Prop) :
  reset_to (Some L) cs ws s -> (forall s', reset_to None cs ws s' -> Q tt s') -> wp (mfree kfree cfg_block) Q s.
Proof using Hheap.
  intros H HQ. unfold mfree. apply wp_bind, wp_ext_.
  apply (reset_other _ _ _ _ kfree [cfg_block] []) in H; [|reflexivity..]. destruct H as [H1 H0 H2 H3 H4].
  rewrite (proj2 (nz_true _) cfg_block_pos). apply wp_bind, (wp_deref _ _ _ L).
  { rewrite H0. apply lookup_insert_eq. }
  apply wp_modify, HQ. split; [exact H1| |exact H2|exact H3|exact H4].
  change (delete cfg_block (bufs (log (Call kfree [cfg_block] []) s)) = bufs s0).
  rewrite H0. apply delete_insert_id, cfg_block_free.
Qed.

Lemma load_unload v : 0 <= v < 2 ^ 32 -> load (unload v) = v.
Proof.
  intros Hv. assert (le_value [u8 v; u8 (Z.shiftr v 8); u8 (Z.shiftr v 16); u8 (Z.shiftr v 24)] = v) as E.
  { unfold le_value, u8. cbn [foldr]. rewrite !Z.shiftr_div_pow2 by lia.
    change (2 ^ 8) with 256. change (2 ^ 16) with (256 * 256). change (2 ^ 24) with (256 * 256 * 256).
    rewrite <- !Z.div_div by lia.
    pose proof (Z.div_mod v 256 ltac:(lia)). pose proof (Z.div_mod (v / 256) 256 ltac:(lia)).
    pose proof (Z.div_mod (v / 256 / 256) 256 ltac:(lia)).
    rewrite (Z.mod_small (v / 256 / 256 / 256)); [lia|].
    assert (0 <= v / 256 < 2 ^ 24) by (split; [apply Z.div_pos|apply Z.div_lt_upper_bound]; lia).
    assert (0 <= v / 256 / 256 < 2 ^ 16) by (split; [apply Z.div_pos|apply Z.div_lt_upper_bound]; lia).
    split; [apply Z.div_pos|apply Z.div_lt_upper_bound]; lia. }
  unfold load, unload. destruct big_endian; [|exact E]. rewrite <- E at 5.
  unfold be_value, le_value. cbn [rev app foldl foldr]. lia.
Qed.

Lemma length_unload v : length (unload v) = 4%nat.
Proof. unfold unload. destruct big_endian; reflexivity. Qed.

Lemma saved_store vs L v :
  saved vs L -> 0 <= v < 2 ^ 32 -> (length vs < 64)%nat ->
  saved (vs ++ [v]) (take (4 * length vs) L ++ unload v ++ drop (4 * length vs + 4) L).
Proof.
  intros [HL Hs] Hv Hn. pose proof (length_unload v) as Lu. split.
  { rewrite !length_app, length_take, length_drop, Lu. lia. }
  intros j x Hj. apply lookup_app_Some in Hj as [Hj|[Hle Hj]].
  - rewrite <- (Hs _ _ Hj). f_equal. apply lookup_lt_Some in Hj.
    rewrite !take_drop_commute, take_app_le, take_take, Nat.min_l by (rewrite ?length_take; lia). reflexivity.
  - apply list_lookup_singleton_Some in Hj as [E <-]. replace j with (length vs) by lia.
    rewrite drop_app_length', take_app_length' by (rewrite ?length_take, ?Lu; lia). apply load_unload, Hv.
Qed.

Lemma wp_save_config ws s L (Q : unit -> shell -> Prop) :
  saved [] L -> reset_to (Some L) [] ws s ->
  (forall vs L' s', length vs = 64%nat -> saved vs L' ->
    reset_to (Some L') (zip_with CfgRead config_offsets vs) ws s' -> Q tt s') ->
  wp (for_ 0 64 (fun k => v <- read_config (4 * k) ;; set_word_at cfg_block k v)) Q s.
Proof.
  intros Hs H HQ. apply (wp_for (fun k s' => exists vs L', length vs = Z.to_nat k /\ saved vs L' /\ reset_to (Some L') (zip_with CfgRead (offsets_to (Z.to_nat k)) vs) ws s'));
    [lia|exists [], L; repeat split; try apply Hs; apply H| |].
  - intros k s1 Hk (vs & L1 & Hl & Hs1 & H1).
    apply wp_bind, (wp_read_config _ _ _ _ _ _ H1). intros v s2 Hv H2.
    unfold set_word_at. apply wp_bind. unfold bytes_at, wp at 1, deref.
    rewrite (reset_bufs _ _ _ _ H2). cbn [with_block fst snd]. rewrite lookup_insert_eq. cbn [mbind option_bind].
    pose proof (proj1 Hs1) as HL1. rewrite slice_intro by lia. apply wp_modify.
    exists (vs ++ [v]). eexists. split; [rewrite length_app, Hl; cbn; lia|].
    split; [apply (saved_store _ _ _ Hs1 Hv); lia|].
    destruct H2 as [D1 D0 D2 D3 D4]. split; [exact D1| |exact D2| |exact D4].
    + match goal with |- bufs ?t = _ => change (bufs t) with (alter (fun l =>
        take (Z.to_nat (4 * k)) l ++ unload v ++ drop (Z.to_nat (4 * k) + 4) l) cfg_block (bufs s2)) end.
      rewrite D0. cbn [with_block]. rewrite alter_insert_eq, Hl. do 2 f_equal;
      replace (Z.to_nat (4 * k)) with (4 * Z.to_nat k)%nat by lia; reflexivity.
    + etransitivity; [exact D3|]. f_equal. replace (Z.to_nat (k + 1)) with (S (Z.to_nat k)) by lia.
      unfold offsets_to. rewrite seq_S, map_app, zip_with_app by (rewrite length_map, length_seq; lia).
      cbn [Nat.add map zip_with]. rewrite Z2Nat.id by lia. reflexivity.
  - intros s1 (vs & L1 & Hl & Hs1 & H1). exact (HQ vs L1 s1 Hl Hs1 H1).
Qed.

(** a word of the copy *)
Lemma wp_saved_word vs L cs ws k v s (Q : Z -> shell -> Prop) :
  saved vs L -> vs !! k = Some v -> (k < 64)%nat -> reset_to (Some L) cs ws s -> Q v s ->
  wp (word_at (cfg_block, 0) (Z.of_nat k)) Q s.
Proof.
  intros [HL Hs] Hv Hk H HQ. unfold word_at, bytes_at. apply wp_bind. unfold wp at 1, deref.
  rewrite (reset_bufs _ _ _ _ H). cbn [with_block fst snd]. rewrite lookup_insert_eq. cbn [mbind option_bind].
  rewrite slice_intro by lia. apply wp_ret.
  replace (Z.to_nat (0 + 4 * Z.of_nat k)) with (4 * k)%nat by lia. change (Z.to_nat 4) with 4%nat.
  rewrite (Hs _ _ Hv). exact HQ.
Qed.

Lemma wp_restore_config vs L cs ws s (Q : unit -> shell -> Prop) :
  length vs = 64%nat -> saved vs L -> reset_to (Some L) cs ws s ->
  (forall s', reset_to (Some L) (cs ++ zip_with CfgWrite config_offsets vs) ws s' -> Q tt s') ->
  wp (for_ 0 64 (fun k => v <- word_at (cfg_block, 0) k ;; write_config (4 * k) v)) Q s.
Proof.
  intros Hl Hs H HQ. apply (wp_for (fun k s' =>
    reset_to (Some L) (cs ++ zip_with CfgWrite (offsets_to (Z.to_nat k)) (take (Z.to_nat k) vs)) ws s'));
    [lia|cbn; rewrite app_nil_r; exact H| |].
  - intros k s1 Hk H1. destruct (lookup_lt_is_Some_2 vs (Z.to_nat k)) as [v Hv]; [lia|].
    apply wp_bind. rewrite <- (Z2Nat.id k) at 1 by lia.
    apply (wp_saved_word _ _ _ _ _ _ _ _ Hs Hv ltac:(lia) H1).
    apply (wp_write_config _ _ _ _ _ _ _ H1). intros s2 H2.
    replace (Z.to_nat (k + 1)) with (S (Z.to_nat k)) by lia. rewrite (take_S_r _ _ _ Hv).
    unfold offsets_to. rewrite seq_S, map_app, zip_with_app by (rewrite length_map, length_seq, length_take; lia).
    cbn [Nat.add map zip_with]. rewrite Z2Nat.id, app_assoc by lia. exact H2.
  - intros s1 H1. rewrite take_ge in H1 by (rewrite Hl; reflexivity). exact (HQ s1 H1).
Qed.

Lemma wp_verify_config vs L cs ws s (Q : unit -> shell -> Prop) :
  length vs = 64%nat -> saved vs L -> reset_to (Some L) cs ws s ->
  (forall vs' s', reset_to (Some L) (cs ++ zip_with CfgRead config_offsets vs') ws s' -> Q tt s') ->
  wp (for_ 0 64 (fun k => _ <- read_config (4 * k) ;; _ <- word_at (cfg_block, 0) k ;; ret tt)) Q s.
Proof.
  intros Hl Hs H HQ. apply (wp_for (fun k s' => exists vs', length vs' = Z.to_nat k /\ reset_to (Some L) (cs ++ zip_with CfgRead (offsets_to (Z.to_nat k)) vs') ws s'));
    [lia|exists []; cbn; rewrite app_nil_r; split; [reflexivity|exact H]| |].
  - intros k s1 Hk (vs1 & L1 & H1). destruct (lookup_lt_is_Some_2 vs (Z.to_nat k)) as [v Hv]; [lia|].
    apply wp_bind, (wp_read_config _ _ _ _ _ _ H1). intros v' s2 _ H2.
    apply wp_bind. rewrite <- (Z2Nat.id k) at 1 by lia.
    apply (wp_saved_word _ _ _ _ _ _ _ _ Hs Hv ltac:(lia) H2). apply wp_ret.
    exists (vs1 ++ [v']). split; [rewrite length_app, L1; cbn; lia|].
    replace (Z.to_nat (k + 1)) with (S (Z.to_nat k)) by lia.
    unfold offsets_to. rewrite seq_S, map_app, zip_with_app by (rewrite length_map, length_seq; lia).
    cbn [Nat.add map zip_with]. rewrite Z2Nat.id, app_assoc by lia. exact H2.
  - intros s1 (vs1 & _ & H1). exact (HQ vs1 s1 H1).
Qed.

(** ** The engines *)

Lemma wp_enable_engine b cs ws i s (Q : unit -> shell -> Prop) :
  0 <= i < 8 -> engines_known (drv s0) -> reset_to b cs ws s ->
  (forall s', reset_to b cs (ws ++ match enabling (drv s0) i with Some x => [x] | None => [] end) s' -> Q tt s') ->
  wp (tab <- lift (getL engine) ;; p <- lift (index tab i) ;; when (nz p) (engine_reinit p)) Q s.
Proof.
  intros Hi Hk H HQ. destruct (Hk i Hi) as (p & Ep & He). unfold enabling in HQ. rewrite Ep in HQ. cbn [mbind option_bind] in HQ.
  assert (engine (lro (drv s)) = engine (lro (drv s0))) as El by (rewrite (reset_drv _ _ _ _ H); reflexivity).
  assert (s <| drv := drv s |> = s) as Es by (destruct s; reflexivity).
  apply wp_bind. unfold wp at 1. unfold lift at 1. cbv [getL bind gets ret]. rewrite El, Es.
  apply wp_bind. unfold wp at 1. unfold lift at 1, index, deref. rewrite Ep, Es.
  apply wp_when; intros Hp.
  - apply nz_true in Hp. destruct (Z.eqb_spec p 0); [contradiction|]. destruct (He Hp) as [e Ee]. rewrite Ee in HQ.
    unfold engine_reinit.
    assert (engines (drv s) !! p = Some e) as E1 by (rewrite (reset_drv _ _ _ _ H); exact Ee).
    apply wp_bind, (wp_deref (fun s => engines (drv s) !! p) _ _ e E1). apply wp_write_register, HQ.
    set (a := regs e + _). apply (reset_call _ _ _ _ iowrite32 [a; reinit_mask] []) in H.
    cbn [cfg_access reg_write] in H. rewrite app_nil_r in H. exact H.
  - apply nz_false in Hp. subst p. apply HQ. cbn [Z.eqb]. rewrite app_nil_r. exact H.
Qed.

Lemma wp_enable_direction b cs ws dir s (Q : unit -> shell -> Prop) :
  0 <= dir < 2 -> engines_known (drv s0) -> reset_to b cs ws s ->
  (forall s', reset_to b cs (ws ++ omap (enabling (drv s0)) [2 * 0 + dir; 2 * 1 + dir; 2 * 2 + dir; 2 * 3 + dir]) s' -> Q tt s') ->
  wp (for_ 0 XDMA_CHANNEL_NUM_MAX (fun channel =>
      tab <- lift (getL engine) ;;
      p <- lift (index tab (2 * channel + dir)) ;;
      when (nz p) (engine_reinit p))) Q s.
Proof.
  intros Hd Hk H HQ.
  apply (wp_for (fun i s' => reset_to b cs (ws ++ omap (enabling (drv s0)) (map (fun c => 2 * Z.of_nat c + dir) (seq 0 (Z.to_nat i)))) s'));
    [unfold XDMA_CHANNEL_NUM_MAX; lia|rewrite app_nil_r; exact H| |exact HQ].
  unfold XDMA_CHANNEL_NUM_MAX. intros i s1 Hi H1. eapply wp_enable_engine; [lia|exact Hk|exact H1|]. intros s2 H2.
  replace (Z.to_nat (i + 1)) with (S (Z.to_nat i)) by lia. rewrite seq_S, map_app, omap_app, app_assoc.
  cbn [Nat.add map]. rewrite Z2Nat.id by lia. cbn [omap list_omap].
  destruct (enabling (drv s0) (2 * i + dir)); exact H2.
Qed.

Lemma wp_reinit b cs ws s (Q : Z -> shell -> Prop) :
  engines_known (drv s0) -> reset_to b cs ws s ->
  (forall r s', reset_to b cs (ws ++ omap (enabling (drv s0)) reinit_order) s' -> Q r s') -> wp reinit Q s.
Proof.
  intros Hk H HQ. unfold reinit. apply wp_bind, wp_ext. set (r := nth 0 _ 0).
  set (s1 := log _ s). assert (reset_to b cs ws s1) as H1 by (apply reset_other; [reflexivity..|exact H]).
  clearbody s1. clear H. rename H1 into H.
  apply wp_bind. rewrite for_first by lia. apply wp_bind, (wp_enable_direction b cs ws); [lia|exact Hk|exact H|].
  clear H. intros s2 H. rewrite for_first by lia.
  apply wp_bind. eapply wp_enable_direction; [|exact Hk|exact H|]; [lia|]. clear H. intros s3 H.
  change (for_ (0 + 1 + 1) 2 ?f) with (ret (S := shell) tt). apply wp_ret, wp_ret, HQ.
  rewrite <- app_assoc, <- omap_app in H. exact H.
Qed.

Definition hot_bit (v : Z) : Z := Z.lor v 0x40.

(** C21: A hot reset reads the 64 words of the configuration space, pulses the
    reset bit of the bridge, and writes exactly these words back to the places
    they came from; then each engine of the device, and no other, gets its
    interrupts enabled.  The buffer the words were kept in is freed, and the
    gate is not touched. *)
Theorem reset_hot_restores_configuration :
  pdev_bus (pdev_ids s0) <> 0 -> bridge_of s0 <> 0 ->
  (forall h, nth 0 (answer h kmalloc [0x100]) 0 <> 0) -> engines_known (drv s0) ->
  wp reset_hot_ioctl (fun _ s => exists words words' hot, length words = 64%nat /\
    seen (cfg_access (function_of s0) (bridge_of s0)) s = seen (cfg_access (function_of s0) (bridge_of s0)) s0
      ++ zip_with CfgRead config_offsets words
      ++ [BridgeRead PCI_MIN_GNT hot; BridgeWrite PCI_MIN_GNT (hot_bit hot); BridgeWrite PCI_MIN_GNT hot]
      ++ zip_with CfgWrite config_offsets words
      ++ zip_with CfgRead config_offsets words' /\
    seen reg_write s = seen reg_write s0 ++ omap (enabling (drv s0)) reinit_order /\
    bufs s = bufs s0 /\ axi_gate_frozen s = axi_gate_frozen s0) s0.
Proof using Hheap.
  intros Hbus Hself Hk Heng. unfold reset_hot_ioctl.
  apply wp_bind, wp_gets. apply wp_bind, wp_BUG_ON; [apply Z.eqb_neq, Hbus|].
  apply wp_bind, wp_BUG_ON; [apply Z.eqb_neq, Hself|].
  apply wp_bind, (wp_cfg_malloc [] [] Hk); [reflexivity|apply reset_start|]. intros L0 s1 S0 H1.
  destruct (Z.eqb_spec cfg_block 0) as [E|_]; [destruct (cfg_block_pos E)|].
  apply wp_bind, (wp_save_config _ _ _ _ S0 H1). intros words L s2 Hw Hs H2.
  apply wp_bind, wp_ext_all. set (r := answer _ pci_read_config_byte _). set (hot := u8 _). set (s3 := log _ s2).
  assert (reset_to (Some L) (zip_with CfgRead config_offsets words ++ [BridgeRead PCI_MIN_GNT hot]) [] s3) as H3.
  { apply reset_access; [|reflexivity|exact H2]. cbn. rewrite Z.eqb_refl. reflexivity. }
  clearbody s3. clear H2.
  apply wp_bind, (wp_bridge_write _ _ _ _ _ _ _ H3). intros s4 H4.
  apply wp_bind. eapply wp_reset_other; [reflexivity..|exact H4|]. intros s5 H5.
  apply wp_bind, (wp_bridge_write _ _ _ _ _ _ _ H5). intros s6 H6.
  apply wp_bind. eapply wp_reset_other; [reflexivity..|exact H6|]. intros s7 H7.
  apply wp_bind, (wp_restore_config _ _ _ _ _ _ Hw Hs H7). intros s8 H8.
  apply wp_bind. eapply wp_reset_other; [reflexivity..|exact H8|]. intros s9 H9.
  apply wp_bind, (wp_verify_config _ _ _ _ _ _ Hw Hs H9). intros words' s10 H10.
  apply wp_bind, (wp_reinit _ _ _ _ _ Heng H10). intros rc s11 H11.
  apply wp_bind. eapply wp_reset_other; [reflexivity..|exact H11|]. intros s12 H12.
  apply wp_bind, (wp_cfg_mfree _ _ _ _ _ H12). intros s13 H. apply wp_ret.
  exists words, words', hot. split; [exact Hw|].
  destruct H as [_ Hb Hg Hc Hr]. split; [|split; [exact Hr|split; [exact Hb|exact Hg]]]. rewrite Hc.
  cbn [app]. rewrite <- !app_assoc. reflexivity.
Qed.
End Reset.
