(* ===== verification/ShellProbe.v ===== *)
(** * probe and remove with SD_ACCEL (xdma-core.c)

    On an SDAccel board [probe] also sets the base of the MCAP, loads the
    firmware of the board, takes over the clearing bitstream that [remove] left
    for the next driver, and reads the feature id.  [card] is the state of a
    [shell] with the magic of its stash and the containers that are handed from
    one driver to the next as the driver data of the device.  The code between
    the fragments is that of [probe] and [remove]: [probe_split] and
    [remove_split] show it. *)
From S2P Require Import Prelude Layout Kernel World Desc Engine Setup Creation Interfaces Probe.
From S2P Require Import CharDev Shell Bitstream.
#[local] Open Scope string_scope.
#[local] Open Scope Z_scope.

(** struct xdma_bitstream_container *)
Record xdma_bitstream_container : Type := mk_container {
  k_magic : Z;
  k_clear_bitstream : Z;
  k_clear_bitstream_length : Z
}.
Definition MAGIC_BITSTREAM : Z := 0xBBBBBBBB.

Record card : Type := mk_card {
  sh : shell;
  stash_magic : Z;
  containers : gmap Z xdma_bitstream_container
}.
#[global] Instance eta_card : Eta card := fun r => mk_card (sh r) (stash_magic r) (containers r).
#[global] Instance set_sh : Setter sh := ltac:(make_setter).
#[global] Instance set_stash_magic : Setter stash_magic := ltac:(make_setter).
#[global] Instance set_containers : Setter containers := ltac:(make_setter).

#[global] Instance card_trace : HasTrace card := {
  trace_of k := trace (drv (sh k));
  log e k := k <| sh ::= log e |>;
  trace_log e k := eq_refl
}.

(** [lro->stash] *)
Definition stash (k : card) : xdma_bitstream_container :=
  mk_container (stash_magic k) (clear_bitstream (sh k)) (clear_bitstream_length (sh k)).

Section Pieces.
Context {bo : ByteOrder} {env : Env}.

(** from [pci_enable_device] to the interrupts: [Some rc] after an error path *)
Definition probe_setup (pdev l : Z) : prog world (option Z) :=
  let failed (m : prog world Z) : prog world (option Z) := rc <- m ;; ret (Some rc) in
  rc <- ext pci_enable_device [pdev] ;;
  if nz rc then failed (err_enable l rc) else
  ext_ pci_set_master [pdev] ;;
  rc <- probe_scan_for_msi pdev ;;
  if rc <? 0 then failed (err_scan_msi pdev l rc) else
  rc <- request_regions pdev ;;
  if nz rc then failed (err_regions pdev l rc) else
  rc <- map_bars pdev ;;
  if nz rc then failed (err_map pdev l rc) else
  rc <- set_dma_mask pdev ;;
  if nz rc then failed (err_mask pdev l rc) else
  rc <- irq_setup pdev ;;
  if nz rc then failed (err_mask pdev l rc) else
  probe_credit ;;
  rc <- probe_engines ;;
  if nz rc then failed (err_engines pdev l rc) else
  rc <- create_interfaces ;;
  if nz rc then failed (err_interfaces pdev l rc) else
  probe_interrupts ;;
  ret None.
Definition probe_file (pdev l : Z) : prog world Z :=
  rc <- ext device_create_file [pdev] ;;
  if nz rc then err_interfaces pdev l rc else ret rc.

(** up to [pci_disable_device], and the rest *)
Definition remove_hardware (pdev : Z) : prog world unit :=
  channel_interrupts_disable all_ones ;;
  user_interrupts_disable all_ones ;;
  _ <- read_interrupts ;;
  destroy_interfaces ;;
  remove_engines ;;
  irq_teardown ;;
  unmap_bars pdev ;;
  g <- getL got_regions ;;
  when (nz g) (ext_ pci_release_regions [pdev]) ;;
  remove_msi pdev ;;
  u <- getL regions_in_use ;;
  when (negb (nz u)) (ext_ pci_disable_device [pdev]).
Definition remove_device (pdev l : Z) : prog world unit :=
  n <- getL instance ;;
  modify (fun w => w <| dev_present ::= zinsert n 0 |>) ;;
  ext_ device_remove_file [pdev] ;;
  kfree_lro l.
Definition driver_data (pdev : Z) : prog world Z :=
  if pdev =? 0 then ret 0 else gets (fun w => drvdata (trace w) pdev).

(** ** The same steps, grouped differently *)

Lemma bind_assoc {A B C} (m : prog world A) (f : A -> prog world B) (g : B -> prog world C) s :
  bind (bind m f) g s = bind m (fun a => bind (f a) g) s.
Proof. unfold bind. destruct (m s); reflexivity. Qed.
Lemma bind_same {A C} (m : prog world A) (f g : A -> prog world C) s :
  (forall a s', f a s' = g a s') -> bind m f s = bind m g s.
Proof. intros H. unfold bind. destruct (m s); [apply H|reflexivity]. Qed.
Lemma bind_pure {A} (m : prog world A) (g : A -> prog world A) s :
  (forall a s', g a s' = ret a s') -> m s = bind m g s.
Proof. intros H. unfold bind. destruct (m s); [symmetry; apply H|reflexivity]. Qed.

#[local] Ltac same_steps :=
  repeat first
    [ reflexivity
    | rewrite bind_assoc
    | apply bind_same; intros
    | match goal with |- context [if ?c then _ else _] => destruct c end
    | apply bind_pure; intros ].

Lemma probe_split pdev w :
  probe pdev w = (l <- alloc_dev_instance pdev ;;
    if l =? 0 then ret 0 else
    r <- probe_setup pdev l ;;
    match r with Some rc => ret rc | None => probe_file pdev l end) w.
Proof. unfold probe, probe_setup, probe_start, probe_file. cbv zeta. same_steps. Qed.

Lemma remove_split pdev w :
  remove pdev w = (l <- driver_data pdev ;;
    if l =? 0 then ret tt else remove_hardware pdev ;; remove_device pdev l) w.
Proof. unfold remove, remove_hardware, remove_device, driver_data. same_steps. Qed.
End Pieces.

(** ** With SD_ACCEL *)

Section Card.
Context {bo : ByteOrder} {env : Env} {ho : HostOrder} (load_firmware : bool).

Definition on_shell {A} (m : prog shell A) : prog card A := fun k =>
  match m (sh k) with
  | Ok a s => Ok a (k <| sh := s |>)
  | Abort r => Abort r
  end.
Definition on_driver {A} (m : prog world A) : prog card A := on_shell (lift m).

(** the members of the new, zeroed device *)
Definition zero_device : prog card unit :=
  on_shell (modify (fun s => s <| capabilities := 0 |> <| clear_bitstream := 0 |>
    <| clear_bitstream_length := 0 |> <| axi_gate_frozen := 0 |> <| mcap_base := 0 |> <| feature_id := 0 |>)) ;;
  modify (fun k => k <| stash_magic := 0 |>).

(** the stash is taken over from [clear_contr], or begins empty; gives
    [clear_contr] *)
Definition take_stash (clear_contr : Z) : prog card Z :=
  ok <- (if clear_contr =? 0 then ret false
         else c <- deref (fun k => containers k !! clear_contr) ;; ret (k_magic c =? MAGIC_BITSTREAM)) ;;
  if (ok : bool) then
    c <- deref (fun k => containers k !! clear_contr) ;;
    on_shell (modify (fun s => s <| clear_bitstream := k_clear_bitstream c |>
      <| clear_bitstream_length := k_clear_bitstream_length c |>)) ;;
    modify (fun k => k <| stash_magic := k_magic c |>) ;;
    ext_ kfree [clear_contr] ;;
    modify (fun k => k <| containers ::= delete clear_contr |>) ;;
    ret 0
  else
    modify (fun k => k <| stash_magic := MAGIC_BITSTREAM |>) ;; ret clear_contr.

(** the UltraScale board: its MCAP, and its firmware *)
Definition boot_board (clear_contr : Z) : prog card Z :=
  d <- on_shell device_id ;;
  when (d =? KU3_DEVICE) (on_shell (modify (fun s => s <| mcap_base := ULTRASCALE_MCAP_CONFIG_BASE |>))) ;;
  if load_firmware && (d =? KU3_DEVICE) then
    c <- take_stash clear_contr ;;
    _ <- on_shell load_boot_firmware ;;
    ret c
  else ret clear_contr.

Definition probe_sd (pdev : Z) : prog card Z :=
  clear_contr <- gets (fun k => drvdata (trace (drv (sh k))) pdev) ;;
  l <- on_driver (alloc_dev_instance pdev) ;;
  if l =? 0 then ret 0 else
  zero_device ;;
  clear_contr <- boot_board clear_contr ;;
  r <- on_driver (probe_setup pdev l) ;;
  match r with
  | Some rc => ret rc
  | None =>
      _ <- take_stash clear_contr ;;
      id <- on_shell find_feature_id ;;
      on_shell (modify (fun s => s <| feature_id := id |>)) ;;
      on_driver (probe_file pdev l)
  end.

(** the container for the next driver: null or a copy of the stash *)
Definition keep_stash : prog card Z :=
  d <- on_shell device_id ;;
  if negb (d =? KU3_DEVICE) then ret 0 else
  r <- ext kmalloc [24] ;;
  if r =? 0 then ret 0 else
  c <- gets (fun k => fresh (drv (sh k))) ;;
  on_driver (modify (fun w => w <| fresh := c + 1 |>)) ;;
  modify (fun k => k <| containers ::= <[c := stash k]> |>) ;;
  ret c.

Definition remove_sd (pdev : Z) : prog card unit :=
  l <- on_driver (driver_data pdev) ;;
  if l =? 0 then ret tt else
  on_driver (remove_hardware pdev) ;;
  clear_contr <- keep_stash ;;
  on_driver (remove_device pdev l) ;;
  ext_ dev_set_drvdata [pdev; clear_contr].
End Card.
