(* ===== verification/ShellProbeFacts.v ===== *)
(** * The clearing bitstream from one driver to the next (xdma-core.c) *)
From S2P Require Import Prelude Layout Kernel World Desc Engine Ledger Setup Creation Interfaces Probe ProbeFrames ProbeFacts.
From S2P Require Import CharDev Shell Bitstream ShellEnds ShellProbe.
#[local] Open Scope Z_scope.

Section Reload.
Context {bo : ByteOrder} {env : Env} {ho : HostOrder} (load_firmware : bool).

(** ** Runs of the driver and of the shell *)

Lemma wlp_on_shell {A} (m : prog shell A) (Q : A -> card -> Prop) k :
  wlp m (fun a s => Q a (k <| sh := s |>)) (sh k) -> wlp (on_shell m) Q k.
Proof. unfold wlp, on_shell. destruct (m (sh k)); exact id. Qed.

Lemma wlp_on_driver {A} (m : prog world A) (Q : A -> card -> Prop) k :
  wlp m (fun a w => Q a (k <| sh ::= (fun s => s <| drv := w |>) |>)) (drv (sh k)) -> wlp (on_driver m) Q k.
Proof.
  intros H. apply wlp_on_shell. unfold wlp, lift in *. destruct (m (drv (sh k))); exact H.
Qed.

Lemma halts_on_shell {A} (m : prog shell A) : halts m -> halts (on_shell m).
Proof. intros H k. unfold on_shell. specialize (H (sh k)). destruct (m (sh k)); congruence. Qed.
Lemma halts_on_driver {A} (m : prog world A) : halts m -> halts (on_driver m).
Proof. intros H. apply halts_on_shell, halts_lift, H. Qed.

(** ** Both handlers come to an end *)

#[local] Hint Resolve halts_on_driver halts_on_shell halts_load_boot_firmware halts_irq_setup halts_irq_teardown
  halts_unmap_bars halts_map_bars halts_remove_engines halts_probe_engines halts_create_interfaces
  halts_destroy_sg_char : halts.

Lemma halts_probe_setup pdev l : halts (probe_setup pdev l).
Proof.
  unfold probe_setup, probe_scan_for_msi, msi_msix_capable, request_regions, set_dma_mask, probe_credit,
    enable_credit_feature, probe_interrupts, user_interrupts_enable, channel_interrupts_enable, read_interrupts,
    write_ir, read_ir, err_interfaces, err_engines, err_mask, err_map, err_regions, err_scan_msi, err_enable, kfree_lro.
  halts_tac.
Qed.
Lemma halts_probe_file pdev l : halts (probe_file pdev l).
Proof.
  unfold probe_file, err_interfaces, err_engines, err_mask, err_map, err_regions, err_scan_msi, err_enable, kfree_lro.
  halts_tac.
Qed.
Lemma halts_remove_hardware pdev : halts (remove_hardware pdev).
Proof.
  unfold remove_hardware, channel_interrupts_disable, user_interrupts_disable, read_interrupts, write_ir,
    read_ir, remove_msi, destroy_interfaces, destroy_if, destroy_if_at. halts_tac.
Qed.
Lemma halts_remove_device pdev l : halts (remove_device pdev l).
Proof. unfold remove_device, kfree_lro. halts_tac. Qed.
#[local] Hint Resolve halts_probe_setup halts_probe_file halts_remove_hardware halts_remove_device : halts.

Lemma halts_take_stash c : halts (take_stash c).
Proof. unfold take_stash. halts_tac; intros s; discriminate. Qed.
#[local] Hint Resolve halts_take_stash : halts.
Lemma halts_probe_sd pdev : halts (probe_sd load_firmware pdev).
Proof.
  unfold probe_sd, boot_board, zero_device, find_feature_id, device_id. halts_tac.
  - apply halts_on_driver. unfold alloc_dev_instance. halts_tac.
  - apply halts_on_shell. halts_tac; apply halts_user_read.
Qed.
Lemma halts_remove_sd pdev : halts (remove_sd pdev).
Proof.
  unfold remove_sd, keep_stash, device_id. halts_tac.
  - apply halts_on_driver. unfold driver_data. halts_tac.
  - intros k. discriminate.
Qed.

(** ** The stash on its way *)

Section Stash.
(** the stash before remove, and the containers without the one handed on *)
Context (st : xdma_bitstream_container) (cs : gmap Z xdma_bitstream_container).

Definition handed_on (c : Z) (k : card) : Prop :=
  c <> 0 /\ cs !! c = None /\ containers k = <[c := st]> cs.
Definition arrived (k : card) : Prop := stash k = st /\ containers k = cs.

Lemma take_handed_on c k : k_magic st = MAGIC_BITSTREAM -> handed_on c k ->
  wlp (take_stash c) (fun r k' => r = 0 /\ arrived k') k.
Proof.
  intros Hm (Hc & Hn & Hk). unfold take_stash. rewrite (proj2 (Z.eqb_neq c 0) Hc).
  assert (containers k !! c = Some st) as Hl by (rewrite Hk; apply lookup_insert_eq).
  apply wlp_bind, wlp_bind, wlp_deref. intros x Hx. rewrite Hl in Hx. injection Hx as <-.
  apply wlp_ret. rewrite Hm, Z.eqb_refl. apply wlp_bind, wlp_deref. intros x Hx. rewrite Hl in Hx. injection Hx as <-.
  apply wlp_bind, wlp_on_shell, wlp_modify. apply wlp_bind, wlp_modify. apply wlp_bind, wp_wlp, wp_ext_.
  apply wlp_bind, wlp_modify, wlp_ret. split; [reflexivity|]. split.
  - unfold stash. cbn. destruct st. reflexivity.
  - cbn. rewrite Hk. apply delete_insert_id, Hn.
Qed.

Lemma take_arrived k : k_magic st = MAGIC_BITSTREAM -> arrived k ->
  wlp (take_stash 0) (fun _ k' => arrived k') k.
Proof.
  intros Hm [Hs Hc]. unfold take_stash. apply wlp_bind. change (0 =? 0) with true. cbv iota.
  apply wlp_ret. cbv iota. apply wlp_bind, wlp_modify, wlp_ret. split; [|exact Hc].
  rewrite <- Hs in Hm |- *. unfold stash in *. cbn in *. rewrite Hm. reflexivity.
Qed.
End Stash.

(** the driver does not look at the stash *)
Lemma wlp_driver_any {A} (m : prog world A) (Q : A -> card -> Prop) k :
  (forall a w, Q a (k <| sh ::= (fun s => s <| drv := w |>) |>)) -> wlp (on_driver m) Q k.
Proof. intros H. apply wlp_on_driver, wlp_any. intros a w. apply H. Qed.

Lemma wlp_user_read ofs (Q : Z -> shell -> Prop) s :
  (forall v w, Q v (s <| drv := w |>)) -> wlp (user_read ofs) Q s.
Proof.
  intros H. unfold user_read, user_bar. apply wlp_bind. unfold wlp at 1, lift.
  match goal with |- context [match ?m (drv s) with _ => _ end] => destruct (m (drv s)) as [b w|] end; [|exact I].
  apply wp_wlp, wp_read_register, H.
Qed.
Lemma wlp_find_feature_id s : wlp find_feature_id (fun _ s' => exists w, s' = s <| drv := w |>) s.
Proof.
  unfold find_feature_id. apply wlp_bind, wlp_user_read. intros v w. apply wlp_bind, wlp_user_read. intros v' w'.
  apply wlp_ret. exists w'. reflexivity.
Qed.

(** when there is no firmware file nothing is loaded *)
Definition no_firmware : Prop := forall h name, nth 0 (answer h request_firmware name) 0 <> 0.
Lemma request_fw_none name s : no_firmware ->
  wp (request_fw name) (fun r s' => nz (fst r) = true /\ exists w, s' = s <| drv := w |>) s.
Proof.
  intros H. unfold request_fw. apply wp_bind, wp_ext_all.
  assert (nz (nth 0 (answer (trace_of s) request_firmware name) 0) = true) as E by (apply negb_true_iff, Z.eqb_neq, H).
  rewrite E. apply wp_ret. split; [exact E|]. eexists. reflexivity.
Qed.
Lemma load_boot_firmware_none s : no_firmware ->
  wp load_boot_firmware (fun _ s' => exists w, s' = s <| drv := w |>) s.
Proof.
  intros H. unfold load_boot_firmware, find_firmware. apply wp_bind, wp_bind, wp_gets, wp_bind, wp_gets, wp_bind.
  eapply wp_conseq; [apply request_fw_none, H|]. intros r1 s1 (-> & w1 & ->). cbn [negb].
  apply wp_bind. eapply wp_conseq; [apply request_fw_none, H|]. intros r2 s2 (-> & w2 & ->). cbn [negb].
  eapply wp_conseq; [apply request_fw_none, H|]. intros [e [fw size]] s3 (E & w3 & ->). cbn [fst] in E.
  rewrite E. apply wp_ret. exists w3. reflexivity.
Qed.

Lemma grows_remove_hardware pdev : keeps grows (remove_hardware pdev).
Proof.
  unfold remove_hardware, channel_interrupts_disable, user_interrupts_disable, read_interrupts, write_ir,
    read_ir, remove_msi, destroy_interfaces, destroy_if, destroy_if_at, destroy_sg_char, kfree_char, get_char,
    remove_engines, get_engine, engine_destroy, kfree_engine, irq_teardown, free_user_irq, vector, unmap_bars, set_bar_at.
  ledger; unfold with_engine, engine_msix_teardown, engine_writeback_teardown, write_er, vector; ledger.
Qed.

(** an error path gives the error on *)
Lemma setup_error pdev l : returns (probe_setup pdev l) (fun r => r <> Some 0).
Proof.
  assert (forall rc, rc <> 0 -> returns (S := world) (ret (Some rc)) (fun r => r <> Some 0)) as Hr
    by (intros rc H; apply returns_ret; congruence).
  assert (forall (m : prog world Z) rc, rc <> 0 -> returns m (fun r => r = rc) ->
    returns (rc <- m ;; ret (Some rc)) (fun r => r <> Some 0)) as Hf.
  { intros m rc H Hm. eapply returns_bind; [exact Hm|]. intros a ->. apply Hr, H. }
  assert (forall rc, nz rc = true -> rc <> 0) as Hnz by (intros rc H ->; discriminate).
  unfold probe_setup. cbv zeta.
  repeat first
    [ apply returns_if; intros ?
    | eapply Hf; [first [apply Hnz; eassumption|apply Z.lt_neq, Z.ltb_lt; eassumption]|];
      unfold err_interfaces, err_engines, err_mask, err_map, err_regions, err_scan_msi, err_enable;
      repeat (apply returns_then; intros ?); apply returns_ret; reflexivity
    | apply returns_ret; discriminate
    | apply returns_then; intros ? ].
Qed.

(** remove leaves the stash in a container that the driver data points to *)
Lemma remove_hands_on pdev k :
  pdev <> 0 -> device (pdev_ids (sh k)) = KU3_DEVICE ->
  drvdata (trace (drv (sh k))) pdev <> 0 -> 0 < fresh (drv (sh k)) ->
  (forall c, fresh (drv (sh k)) <= c -> containers k !! c = None) ->
  (forall h, nth 0 (answer h kmalloc [24]) 0 <> 0) ->
  wlp (remove_sd pdev) (fun _ k' => device (pdev_ids (sh k')) = KU3_DEVICE /\
    exists c, drvdata (trace (drv (sh k'))) pdev = c /\ handed_on (stash k) (containers k) c k') k.
Proof.
  intros Hp Hd Hdrv Hf Hc Hkm. unfold remove_sd. apply wlp_bind, wlp_on_driver. unfold driver_data.
  rewrite (proj2 (Z.eqb_neq pdev 0) Hp). apply wlp_gets. rewrite (proj2 (Z.eqb_neq _ 0) Hdrv).
  apply wlp_bind, wlp_on_driver. eapply wlp_keeps; [apply grows_remove_hardware|]. intros [] w1 Hg.
  unfold grows in Hg. cbn in Hg. apply wlp_bind. unfold keep_stash.
  apply wlp_bind, wlp_on_shell, wlp_gets. rewrite (proj2 (Z.eqb_eq _ _)) by exact Hd. cbn [negb].
  apply wlp_bind, wp_wlp, wp_ext. rewrite (proj2 (Z.eqb_neq _ 0)) by apply Hkm.
  apply wlp_bind, wlp_gets. apply wlp_bind, wlp_on_driver, wlp_modify. apply wlp_bind, wlp_modify, wlp_ret.
  apply wlp_bind, wlp_driver_any. intros _ w2. apply wp_wlp, wp_ext_.
  split; [exact Hd|]. eexists. split; [cbn; rewrite Z.eqb_refl; reflexivity|].
  cbn. split; [lia|]. split; [apply Hc; lia|reflexivity].
Qed.

(** a probe with a stash of the last driver that succeeds takes it over *)
Lemma probe_takes_over st cs c pdev k :
  k_magic st = MAGIC_BITSTREAM -> handed_on st cs c k -> drvdata (trace (drv (sh k))) pdev = c ->
  device (pdev_ids (sh k)) = KU3_DEVICE -> (forall h, nth 0 (answer h kzalloc []) 0 <> 0) ->
  (load_firmware = true -> no_firmware) ->
  wlp (probe_sd load_firmware pdev) (fun rc k' => rc = 0 -> arrived st cs k') k.
Proof.
  intros Hm Hh Hdrv Hd Hkz Hfw. unfold probe_sd. apply wlp_bind, wlp_gets. rewrite Hdrv.
  apply wlp_bind, wlp_on_driver.
  eapply wlp_conseq with (P := fun l _ => l <> 0).
  { unfold alloc_dev_instance. apply wlp_bind, wlp_BUG_ON. intros _. apply wlp_bind, wp_wlp, wp_ext.
    rewrite (proj2 (Z.eqb_neq _ 0)) by apply Hkz.
    apply wlp_bind, wlp_modify, wlp_bind, wp_wlp, wp_ext_. apply wlp_bind, wlp_modify, wlp_ret. apply Hkz. }
  intros l w Hl. rewrite (proj2 (Z.eqb_neq l 0) Hl). apply wlp_bind. unfold zero_device.
  apply wlp_bind, wlp_on_shell, wlp_modify, wlp_modify. apply wlp_bind.
  eapply wlp_conseq with (P := fun c' k' => c' = c /\ handed_on st cs c k' \/ c' = 0 /\ arrived st cs k').
  { unfold boot_board. apply wlp_bind, wlp_on_shell, wlp_gets. cbn [sh pdev_ids]. rewrite (proj2 (Z.eqb_eq _ _)) by exact Hd.
    apply wlp_bind. cbn [when]. apply wlp_on_shell, wlp_modify. rewrite andb_true_r. destruct load_firmware.
    - apply wlp_bind. eapply wlp_conseq; [apply (take_handed_on st cs c); [exact Hm|exact Hh]|].
      intros c' k' (-> & Ha). apply wlp_bind, wlp_on_shell, wp_wlp.
      eapply wp_conseq; [apply load_boot_firmware_none, Hfw, eq_refl|]. intros e s' (w' & ->).
      apply wlp_ret. right. split; [reflexivity|exact Ha].
    - apply wlp_ret. left. split; [reflexivity|exact Hh]. }
  intros c' k' Hk'. apply wlp_bind, wlp_on_driver.
  eapply wlp_conseq; [apply setup_error|]. intros r w' Hr. destruct r as [rc|].
  { apply wlp_ret. intros ->. contradiction. }
  apply wlp_bind. eapply wlp_conseq with (P := fun _ k2 => arrived st cs k2).
  { destruct Hk' as [[-> H]|[-> H]].
    - eapply wlp_conseq; [apply (take_handed_on st cs c); [exact Hm|exact H]|]. intros ? ? [_ Ha]. exact Ha.
    - apply take_arrived; [exact Hm|exact H]. }
  intros _ k2 Ha. apply wlp_bind, wlp_on_shell.
  eapply wlp_conseq; [apply wlp_find_feature_id|].
  intros id s (w2 & ->). apply wlp_bind, wlp_on_shell, wlp_modify. apply wlp_driver_any. intros rc w3 _. exact Ha.
Qed.

(** C10: On the UltraScale board the clearing bitstream outlives the driver:
    removing it and probing the device again comes to an end, and when the probe
    succeeds the stash holds the same buffer and length as before and its
    container is freed.  This is so when the device structure and the container
    can be allocated (remove loses the stash without a container), and when no
    firmware is asked for or the kernel has none for the board (a firmware would
    replace the stash).  A container of the driver data is not confused with
    other memory, as its address is new. *)
Theorem stash_survives_reload pdev k :
  pdev <> 0 -> device (pdev_ids (sh k)) = KU3_DEVICE -> stash_magic k = MAGIC_BITSTREAM ->
  drvdata (trace (drv (sh k))) pdev <> 0 -> 0 < fresh (drv (sh k)) ->
  (forall c, fresh (drv (sh k)) <= c -> containers k !! c = None) ->
  (forall h, nth 0 (answer h kzalloc []) 0 <> 0) -> (forall h, nth 0 (answer h kmalloc [24]) 0 <> 0) ->
  (load_firmware = true -> no_firmware) ->
  let reload := remove_sd pdev ;; probe_sd load_firmware pdev in
  halts reload /\
  wlp reload (fun rc k' => rc = 0 -> stash k' = stash k /\ containers k' = containers k) k.
Proof.
  intros Hp Hd Hm Hdrv Hf Hc Hkz Hkm Hfw reload. subst reload. split.
  { apply halts_bind; [apply halts_remove_sd|intros _; apply halts_probe_sd]. }
  apply wlp_bind. eapply wlp_conseq; [apply remove_hands_on; assumption|]. intros [] k1 (Hd1 & c & Hc1 & Hh).
  eapply wlp_conseq; [apply (probe_takes_over (stash k) (containers k) c); assumption|].
  intros rc k' H. exact H.
Qed.
End Reload.
