(* ===== verification/Demo.v ===== *)
(** * Concrete environments and states, on which the theorems are applied *)
From S2P Require Import Prelude Layout Kernel World Desc Engine EngineFacts Wz WzRing WzScan WzFlow.

(** a kernel in which allocations succeed and user copies do not fault; every
    coherent allocation has a bus address of its own, and every register reads
    as 1 (busy) *)
Definition demo_answer (h : history) (f : extern) (args : list Z) : list Z :=
  match f with
  | dma_alloc_coherent => [1; 4096 * (1 + Z.of_nat (length h))]
  | kzalloc | vmalloc | alloc_pages | dma_map_page => [1 + Z.of_nat (length h)]
  | ioread32 => [1]
  | _ => [0]
  end.

#[export] Existing Instance little_endian.
#[global] Instance demo_env : Env := {|
  answer := demo_answer; poll_mode := false; enable_credit_mp := 0
|}.
#[global] Instance demo_sched : Sched := id.

(** ** Ring states *)

Definition demo_ext (ds : list dptr) : wz_xdma_engine_ext :=
  zero_ext <| buf_ready := 1 |> <| buf_dma_t := replicate 128 4096 |>
    <| buf_page := replicate 128 1 |> <| desc_copy := Some (replicate 128 (mk_desc 0 0 0 0 0 0 0 0)) |>
    <| desc := ds |> <| kfifo_size := 128 |>.

Definition demo_world (x : wz_xdma_engine_ext) (mem : gmap Z dblock) : world :=
  mk_world [] 1000 (zero_engine <| magic := MAGIC_ENGINE |> <| wz_ext := x |>) zero_dev ∅ mem ∅
    (replicate 1 (mk_result 0 0)) ∅ ∅ [] 0 0.

(** buffers allocated, no ring *)
Definition ready_world : world := demo_world (demo_ext (replicate 128 dnull)) ∅.

(** a ring whose descriptor [k] is [f k], in block [k + 1] *)
Definition ring_ptrs : list dptr := map (fun i => (Z.of_nat i + 1, 0)) (seq 0 128).
Definition ring_mem (f : nat -> xdma_desc) : gmap Z dblock :=
  list_to_map (map (fun i => (Z.of_nat i + 1, mk_dblock (4096 * Z.of_nat i) [f i])) (seq 0 128)).
Definition ring_world (f : nat -> xdma_desc) : world :=
  demo_world (demo_ext ring_ptrs) (ring_mem f).

Definition written_back (eop len : Z) : xdma_desc :=
  mk_desc (Z.lor (Z.shiftl C2H_WB 16) eop) len 0 0 0 0 0 0.
Definition armed : xdma_desc := mk_desc 0 0 0 0 0 0 0 0.

(** a block of two descriptors, a block of one, and the beginning of a third *)
Definition demo_results (i : nat) : xdma_desc :=
  match i with
  | 0 => written_back 0 8388608
  | 1 => written_back 1 100
  | 2 => written_back 1 200
  | 3 => written_back 0 8388608
  | _ => armed
  end%nat.


Lemma ring_ptrs_lookup k : 0 <= k < 128 -> zlookup ring_ptrs k = Some (k + 1, 0).
Proof.
  intros Hk. unfold zlookup, ring_ptrs. destruct (Z.ltb_spec k 0); [lia|].
  rewrite list_lookup_fmap, lookup_seq_lt by lia. simpl. do 2 f_equal. lia.
Qed.

Lemma ring_mem_lookup f k : 0 <= k < 128 -> lookup_mem (ring_mem f) (k + 1, 0) = Some (f (Z.to_nat k)).
Proof.
  intros Hk. unfold lookup_mem, ring_mem; cbn [fst snd].
  rewrite (elem_of_list_to_map_1 _ (k + 1) (mk_dblock (4096 * k) [f (Z.to_nat k)])); [reflexivity| |].
  - rewrite <- list_fmap_compose. apply NoDup_fmap_2_strong; [|apply NoDup_seq].
    intros i j _ _ H. simpl in H. lia.
  - apply list_elem_of_fmap. exists (Z.to_nat k). rewrite Z2Nat.id by lia.
    split; [reflexivity|]. apply elem_of_seq. lia.
Qed.

Lemma demo_ready ds : length ds = 128%nat -> wz_ready (demo_ext ds).
Proof.
  intros H. split; cbn; [discriminate|reflexivity..| |reflexivity|eexists; split; reflexivity].
  rewrite H. reflexivity.
Qed.

Lemma ring_world_shape f :
  ring_shape (wz_ext (eng (ring_world f))) (coherent (ring_world f)).
Proof.
  split.
  - apply demo_ready. reflexivity.
  - intros k Hk. exists (k + 1, 0), (f (Z.to_nat k)).
    split; [apply ring_ptrs_lookup, Hk|]. split; [cbn; unfold WZ_DMA_NOFBUFS in Hk; lia|].
    apply ring_mem_lookup, Hk.
  - intros j k p q Hp Hq Hj Hk. cbn in Hp, Hq. rewrite ring_ptrs_lookup in Hp, Hq by assumption.
    injection Hp as <-. injection Hq as <-. cbn. lia.
Qed.

Lemma ring_world_rd f k : on_ring k -> rd (ring_world f) k = Some (desc_result (f (Z.to_nat k))).
Proof.
  intros Hk. unfold rd, entry_result.
  change (desc (wz_ext (eng (ring_world f)))) with ring_ptrs.
  change (coherent (ring_world f)) with (ring_mem f).
  rewrite ring_ptrs_lookup by exact Hk. cbv beta iota.
  rewrite ring_mem_lookup by exact Hk. reflexivity.
Qed.
