(* ===== verification/Witnesses.v ===== *)
(** * The theorems at concrete inputs *)
From S2P Require Import Prelude Layout Kernel World Desc Engine EngineFacts Wz WzRing WzScan WzFlow Demo.

(** one descriptor was left by an earlier start: entry 5, in block 7 *)
Definition left_world : world :=
  demo_world (demo_ext (zinsert 5 (7, 0) (replicate 128 dnull))) {[7 := mk_dblock 4096 [armed]]}.

Lemma left_world_desc k : 0 <= k < WZ_DMA_NOFBUFS ->
  zlookup (desc (wz_ext (eng left_world))) k = Some (if decide (k = 5) then (7, 0) else dnull).
Proof.
  intros Hk. transitivity (if decide (k = 5) then Some ((7, 0) : dptr) else zlookup (replicate 128 dnull) k).
  - apply (zlookup_zinsert _ WZ_DMA_NOFBUFS); [reflexivity|unfold WZ_DMA_NOFBUFS; lia].
  - case_decide; [reflexivity|apply zlookup_replicate, Hk].
Qed.

Lemma wz_start_builds_ring_witness :
  wp ioctl_do_wz_start (fun rc w' => rc = 0 /\ ring_started left_world w') left_world.
Proof.
  apply (wz_start_builds_ring left_world); try reflexivity; try (intros h; cbn; lia).
  - apply demo_ready. reflexivity.
  - split.
    + intros k p Hk. rewrite (left_world_desc k Hk). case_decide; intros [= <-]; [|intros []; reflexivity].
      intros _. split; [reflexivity|eexists; reflexivity].
    + intros j k p q Hj Hk. rewrite (left_world_desc j Hj), (left_world_desc k Hk).
      intros [= <-] [= <-]. case_decide; case_decide; cbn; congruence.
Defined.

Lemma wz_restart_targets_address_0_witness :
  wp (ioctl_do_wz_stop ;; ioctl_do_wz_start) (fun rc w' => rc = 0 /\
      running (eng w') = 1 /\
      forall k, 0 <= k < WZ_DMA_NOFBUFS -> exists p d,
        zlookup (desc (wz_ext (eng w'))) k = Some p /\
        lookup_mem (coherent w') p = Some d /\
        le32_to_cpu (bytes d) = WZ_DMA_BUFLEN /\ d_dst d = 0) (ring_world (fun _ => armed)).
Proof.
  apply (wz_restart_targets_address_0 (ring_world (fun _ => armed)));
    try reflexivity; try (intros h; cbn; lia).
  - apply ring_world_shape.
  - intros H. elim H. reflexivity.
Defined.

Lemma wz_scan_assembles_blocks_witness :
  exists w', wz_scan 128 (ring_world demo_results) = Ok tt w' /\
    kfifo (wz_ext (eng w')) = [mk_block 0 1 100; mk_block 2 2 200].
Proof.
  pose (w := ring_world demo_results).
  assert (H : wp (wz_scan 128) (fun _ w' =>
    kfifo (wz_ext (eng w')) = [mk_block 0 1 100; mk_block 2 2 200]) w).
  { eapply wp_conseq.
    - apply (wz_scan_assembles_blocks w
        (map desc_result [demo_results 0; demo_results 1; demo_results 2; demo_results 3])
        (desc_result armed) 128).
      + apply ring_world_shape.
      + discriminate.
      + split; [discriminate|reflexivity].
      + split; [discriminate|reflexivity].
      + vm_compute. repeat split.
      + repeat constructor.
      + vm_compute. reflexivity.
      + reflexivity.
      + cbn; lia.
    - intros [] w' (tr & f & n & -> & _). vm_compute. reflexivity. }
  apply wp_ok in H as ([] & w' & E & Hk). exists w'. split; [exact E|exact Hk].
Defined.

Lemma wz_scan_terminates_witness : exists w', wz_scan 128 (ring_world demo_results) = Ok tt w'.
Proof.
  apply (wz_scan_terminates (ring_world demo_results) 4 (desc_result armed)).
  - apply ring_world_shape.
  - discriminate.
  - split; [discriminate|reflexivity].
  - split; [discriminate|reflexivity].
  - split; [discriminate|reflexivity].
  - vm_compute. reflexivity.
  - reflexivity.
Defined.

Lemma wz_scan_of_a_full_ring_diverges_witness :
  wz_scan 1000 (ring_world (fun _ => written_back 0 8388608)) = Abort OutOfFuel.
Proof.
  apply (wz_scan_of_a_full_ring_diverges (ring_world (fun _ => written_back 0 8388608))).
  - apply ring_world_shape.
  - discriminate.
  - split; [discriminate|reflexivity].
  - intros k r Hk Hr. rewrite ring_world_rd in Hr by exact Hk. injection Hr as <-.
    split; reflexivity.
Defined.

(** the engine runs: a service queues two blocks and a reader takes the first *)
Definition running_world : world :=
  (ring_world demo_results) <| eng -> running := 1 |>.
Definition served : world :=
  match wz_engine_service_cyclic_interrupt 128 running_world with Ok _ w => w | Abort _ => ready_world end.
Definition read_once : world :=
  match ioctl_do_wz_getbuf 0 served with Ok _ w => w | Abort _ => ready_world end.

Lemma wz_getbuf_takes_oldest_witness :
  exists w', ioctl_do_wz_getbuf 0 served = Ok 0 w' /\ kfifo (wz_ext (eng w')) = [mk_block 2 2 200].
Proof.
  assert (Hr : running (eng served) <> 0) by (vm_compute; discriminate).
  assert (Hk : kfifo (wz_ext (eng served)) = [mk_block 0 1 100; mk_block 2 2 200])
    by (vm_compute; reflexivity).
  destruct (wz_getbuf_takes_oldest 0 served _ _ Hr Hk) as (w' & E & _ & Hq).
  exists w'. split; [exact E|exact Hq].
Defined.

Lemma wz_blocks_contiguous_witness :
  exists w', rtc flow_step ([], running_world) ([mk_block 0 1 100], w') /\
    first_desc (mk_block 2 2 200) = ring_next 1.
Proof.
  assert (Hr : running (eng served) <> 0) by (vm_compute; discriminate).
  assert (Hk : kfifo (wz_ext (eng served)) = [mk_block 0 1 100; mk_block 2 2 200])
    by (vm_compute; reflexivity).
  assert (H : rtc flow_step ([], running_world) ([] ++ [mk_block 0 1 100], read_once)%list).
  { eapply rtc_l; [|eapply rtc_l; [|apply rtc_refl]].
    - apply (flow_service 128 0 [] running_world served). vm_compute. reflexivity.
    - apply (flow_getbuf 0 0 [] served read_once _ [mk_block 2 2 200] Hr Hk). vm_compute. reflexivity. }
  exists read_once. split; [exact H|].
  destruct (wz_blocks_contiguous running_world [mk_block 0 1 100] read_once) as (_ & Hn & _);
    [reflexivity|reflexivity|reflexivity|discriminate|exact H|].
  apply (Hn 0%nat (mk_block 0 1 100)); vm_compute; reflexivity.
Defined.
