(* ===== verification/WitnessesCore.v ===== *)
(** * The theorems on xdma-core.c and xdma-sgm.c at concrete inputs *)
From Stdlib Require Import List.
From S2P Require Import Prelude Layout Kernel World Desc Engine EngineFacts Wz WzRing WzScan WzConfirm.
From S2P Require Import Sgm Transfer TransferFacts Service ServiceFacts RxRing CharDev CharCtrl.
From S2P Require Import CharFacts DataFacts RxFacts RunFacts Demo.
#[local] Open Scope list_scope.
#[local] Open Scope Z_scope.

(** a kernel whose allocations succeed, whose clock counts the first
    thousand calls, and that
    can pin one page of the buffers at 0x8000 and all pages of the others *)
Definition core_answer (h : history) (f : extern) (args : list Z) : list Z :=
  match f, args with
  | pci_resource_start, _ => [0x10000000]
  | pci_resource_end, _ => [0x1000FFFF]
  | copy_from_user, [a; 8] => [0; 126; 1]
  | copy_from_user, [a; 40] => [0; a; 8388608]
  | copy_from_user, _ => [0; 7]
  | get_user_pages_fast, [s; n; _] =>
      if s =? 0x8000 then [1; 77] else n :: map Z.of_nat (seq 100 (Z.to_nat n))
  | dma_alloc_coherent, _ => [1; 4096 * (1 + Z.of_nat (length h))]
  | (kzalloc | vmalloc | alloc_pages | dma_map_page), _ => [1 + Z.of_nat (length h)]
  | jiffies, _ => [Z.min (Z.of_nat (length h)) 1000]
  | ioread32, _ => [1]
  | _, _ => [0]
  end.
#[local] Instance core_env : Env := {|
  answer := core_answer; poll_mode := false; enable_credit_mp := 0
|}.

(** ** Confirmation *)

Definition full_ring : world := ring_world (fun _ => written_back 0 100).

Lemma wz_confirm_restores_the_block_witness :
  exists w' mem', ioctl_do_wz_confirm 128 0 full_ring = Ok 0 w' /\
    confirmed (wz_ext (eng full_ring)) 126 4 (coherent full_ring) mem' /\ coherent w' = mem'.
Proof.
  assert (H : wp (ioctl_do_wz_confirm 128 0) (fun rc w' => rc = 0 /\ exists mem',
    w' = full_ring <| trace := confirm_events (wz_ext (eng full_ring)) 126 4
           ++ Call copy_from_user [0; 8] [0; 126; 1] :: trace full_ring |> <| coherent := mem' |> /\
    confirmed (wz_ext (eng full_ring)) 126 4 (coherent full_ring) mem') full_ring).
  { apply (wz_confirm_restores_the_block full_ring 0 126 1 [] 128).
    - apply ring_world_shape.
    - reflexivity.
    - split; [discriminate|reflexivity].
    - split; [discriminate|reflexivity].
    - lia. }
  destruct (proj1 (wp_ok _ _ _) H) as (rc & w' & E & Hrc & mem' & Hw & Hc).
  exists w', mem'. rewrite Hrc in E. split; [exact E|]. split; [exact Hc|rewrite Hw; reflexivity].
Defined.


(** ** Scatter lists *)

Definition empty_mapper (n : nat) : sg_mapping_t :=
  mk_sgm (replicate n zero_sg) (replicate n 0) (Z.of_nat n) 0 1 2.
Definition mapper_world : world := (demo_world zero_ext ∅) <| sgms := {[9 := empty_mapper 8]} |>.

Lemma sgm_get_user_pages_describes_buffer_witness :
  exists w' s', sgm_get_user_pages 9 0x10800 10000 0 mapper_world = Ok 3 w' /\
    sgms w' !! 9 = Some s' /\ mapped s' 0x10800 10000 [100; 101; 102].
Proof.
  pose proof (sgm_get_user_pages_describes_buffer mapper_world 9 (empty_mapper 8) 0x10800 10000 0) as H.
  assert (Eg : gup_answer mapper_world 0x10800 10000 0 = [3; 100; 101; 102]) by (vm_compute; reflexivity).
  assert (En : buffer_pages 0x10800 10000 = 3) by reflexivity.
  cbv zeta in H. rewrite Eg, En in H.
  assert (Hw : wp (sgm_get_user_pages 9 0x10800 10000 0) (fun rc w' => rc = 3 /\
    exists s', sgms w' !! 9 = Some s' /\ mapped s' 0x10800 10000 [100; 101; 102]) mapper_world).
  { apply H; try reflexivity.
    - repeat split; reflexivity.
    - repeat split; (lia || discriminate).
    - discriminate.
    - split; [discriminate|reflexivity]. }
  destruct (proj1 (wp_ok _ _ _) Hw) as (rc & w' & E & -> & s' & Hs & Hm). exists w', s'. auto.
Defined.

Lemma sgm_get_user_pages_releases_on_failure_witness :
  exists w', sgm_get_user_pages 9 0x8000 10000 0 mapper_world = Ok (- ENOMEM) w' /\
    calls put_page (trace w') = [[77]].
Proof.
  pose proof (sgm_get_user_pages_releases_on_failure mapper_world 9 (empty_mapper 8) 0x8000 10000 0) as H.
  assert (Eg : gup_answer mapper_world 0x8000 10000 0 = [1; 77]) by (vm_compute; reflexivity).
  assert (En : buffer_pages 0x8000 10000 = 3) by reflexivity.
  cbv zeta in H. rewrite Eg, En in H.
  assert (Hw : wp (sgm_get_user_pages 9 0x8000 10000 0) (fun rc w' => rc = - ENOMEM /\
    (exists s', sgms w' !! 9 = Some s' /\ mapped_pages s' = 0) /\
    calls put_page (trace w') = reverse (map (fun pg => [pg]) (tail [1; 77])) ++ calls put_page (trace mapper_world))
    mapper_world).
  { apply H; try reflexivity.
    - repeat split; reflexivity.
    - repeat split; (lia || discriminate).
    - discriminate.
    - split; [discriminate|reflexivity]. }
  destruct (proj1 (wp_ok _ _ _) Hw) as (rc & w' & E & -> & _ & Hc). exists w'. auto.
Defined.

(** ** Descriptors of a transfer: two adjacent pages and one elsewhere *)

Definition sg_demo : list sg_entry :=
  [mk_sg 100 4096 0 0x1000 4096; mk_sg 101 4096 0 0x2000 4096; mk_sg 102 100 0 0x9000 100].
Definition transfer_world : world :=
  (demo_world zero_ext ∅) <| sgms := {[9 := mk_sgm sg_demo [] 3 3 1 2]} |>
    <| transfers := {[5 := zero_transfer <| t_sgm := 9 |> <| sgl_nents := 3 |>]} |>.

Lemma transfer_describe_covers_list_witness :
  exists w' x' plan, transfer_describe 5 3 0x40 0 0 0 1 transfer_world = Ok tt w' /\
    transfers w' !! 5 = Some x' /\ described 0 1 0 0x40 sg_demo plan x' (coherent w').
Proof.
  assert (H : wp (transfer_describe 5 3 0x40 0 0 0 1) (fun _ w' => exists x' plan,
    transfers w' !! 5 = Some x' /\ desc_bus x' = alloc_bus 3 transfer_world /\
    described 0 1 0 0x40 sg_demo plan x' (coherent w')) transfer_world).
  { apply (transfer_describe_covers_list transfer_world 5 (zero_transfer <| t_sgm := 9 |> <| sgl_nents := 3 |>)
      9 (mk_sgm sg_demo [] 3 3 1 2) (mk_sg 100 4096 0 0x1000 4096)
      [mk_sg 101 4096 0 0x2000 4096; mk_sg 102 100 0 0x9000 100] [] 0 0 1 0 0x40); try reflexivity.
    - repeat constructor; cbn; unfold PAGE_SIZE; lia.
    - discriminate.
    - discriminate. }
  destruct (proj1 (wp_ok _ _ _) H) as ([] & w' & E & x' & plan & Hx & _ & Hd). exists w', x', plan. auto.
Defined.

(** ** The service of the queue *)

Definition demo_transfer (n : Z) : xdma_transfer :=
  zero_transfer <| desc_num := n |> <| state := TRANSFER_STATE_SUBMITTED |>.
Definition queue_world (l : list Z) (st : Z) : world :=
  (demo_world zero_ext ∅)
    <| transfers := {[5 := demo_transfer 2; 6 := demo_transfer 3; 7 := demo_transfer 1]} |>
    <| eng -> transfer_list := l |> <| eng -> running := 1 |> <| eng -> status := st |>.

Lemma engine_service_completes_transfers_witness :
  exists w', engine_service 5 (queue_world [5; 6; 7] 0) = Ok 0 w' /\
    transfer_list (eng w') = [7] /\ running (eng w') = 1.
Proof.
  assert (H : wp (engine_service 5) (fun rc w' => rc = 0 /\
    transfers w' = alter (with_state (outcome 3 3)) 6
      (marked TRANSFER_STATE_COMPLETED [5] (transfers (queue_world [5; 6; 7] 0))) /\
    transfer_list (eng w') = [7] /\ running (eng w') = 1 /\ desc_dequeued (eng w') = 0)
    (queue_world [5; 6; 7] 0)).
  { apply (engine_service_completes_transfers (queue_world [5; 6; 7] 0) [(5, 2)] 6 3 [7] 3 5);
      try reflexivity; try discriminate.
    - constructor; [|constructor]. split; [discriminate|]. exists (demo_transfer 2). repeat split; reflexivity.
    - split; [discriminate|]. exists (demo_transfer 3). repeat split; reflexivity.
    - constructor; [|constructor]. split; [discriminate|]. eexists. reflexivity.
    - lia.
    - lia. }
  destruct (proj1 (wp_ok _ _ _) H) as (rc & w' & E & -> & _ & Hl & Hr & _). exists w'. auto.
Defined.

Lemma engine_service_of_an_empty_queue_is_a_bug_witness :
  engine_service 1 (queue_world [] 0) = Abort BugOn.
Proof. apply engine_service_of_an_empty_queue_is_a_bug; [discriminate|reflexivity]. Defined.

Lemma engine_service_restarts_failed_transfer_witness :
  exists w', (_ <- engine_service_final_transfer 5 2 ;; engine_service_resume)
    ((queue_world [5; 6] XDMA_STAT_MAGIC_STOPPED) <| eng -> running := 0 |>) = Ok tt w' /\
    transfer_list (eng w') = [5; 6] /\ running (eng w') = 1.
Proof.
  pose (w := (queue_world [5; 6] XDMA_STAT_MAGIC_STOPPED) <| eng -> running := 0 |>).
  pose proof (engine_service_restarts_failed_transfer w 5 (demo_transfer 2) [6]) as H.
  assert (Hw : wp (_ <- engine_service_final_transfer 5 2 ;; engine_service_resume)
    (fun _ w' => transfer_list (eng w') = [5; 6] /\ running (eng w') = 1) w).
  { eapply wp_conseq; [apply H; (reflexivity || discriminate)|]. intros _ w' (_ & Hl & Hr & _). auto. }
  destruct (proj1 (wp_ok _ _ _) Hw) as ([] & w' & E & Hl & Hr). exists w'. auto.
Defined.

(** ** The character devices *)

Definition demo_char : xdma_char :=
  zero_char <| c_magic := MAGIC_CHAR |> <| c_lro := true |> <| c_engine := 1 |> <| c_user_irq := 3 |>.
Definition char_world : world :=
  (demo_world zero_ext ∅) <| chars := {[4 := demo_char]} |> <| lro -> lro_magic := MAGIC_DEVICE |>
    <| lro -> bar := [0x1000; 0x2000; 0; 0; 0; 0] |> <| lro -> bypass_bar_idx := 1 |>.

Lemma demo_char_ready : char_ready char_world 4 demo_char.
Proof. repeat split; discriminate || reflexivity. Qed.
Lemma demo_lro_ready : lro_ready char_world demo_char.
Proof. split; reflexivity. Qed.
Lemma demo_engine_ready : engine_ready char_world demo_char.
Proof. split; [discriminate|reflexivity]. Qed.

(** a BAR of 64 KB at 0x10000000: its second page, then the page behind it *)
Lemma bridge_mmap_stays_in_the_bar_witness :
  exists w' pfn, bridge_mmap 4 0x7000 0x9000 1 char_world = Ok 0 w' /\
    calls io_remap_pfn_range (trace w') = [[0x7000; pfn; 0x2000]] /\
    0x10000000 <= pfn * PAGE_SIZE /\ pfn * PAGE_SIZE + 0x2000 <= 0x10010000.
Proof.
  pose proof (bridge_mmap_stays_in_the_bar char_world 4 demo_char 0x10000000 0x1000FFFF 0x7000 0x9000 1
    demo_char_ready demo_lro_ready (fun _ => eq_refl) (fun _ => eq_refl)) as H.
  assert (Hw : wp (bridge_mmap 4 0x7000 0x9000 1) (fun _ w' => exists pfn,
    calls io_remap_pfn_range (trace w') = [[0x7000; pfn; 0x2000]] /\
    0x10000000 <= pfn * PAGE_SIZE /\ pfn * PAGE_SIZE + 0x2000 <= 0x10010000) char_world).
  { eapply wp_conseq; [apply H; unfold PAGE_SIZE; (lia || reflexivity)|].
    intros rc w' HQ. exact HQ. }
  destruct (proj1 (wp_ok _ _ _) Hw) as (rc & w' & E & pfn & HQ).
  exists w', pfn. split; [|exact HQ]. rewrite E. f_equal.
  assert (E0 : (match bridge_mmap 4 0x7000 0x9000 1 char_world with Ok r _ => r | _ => 1 end) = 0)
    by (vm_compute; reflexivity).
  rewrite E in E0. exact E0.
Defined.

Lemma bridge_mmap_beyond_the_bar_witness :
  exists w' rc pfn, bridge_mmap 4 0x7000 0x9000 16384 char_world = Ok rc w' /\
    calls io_remap_pfn_range (trace w') = [[0x7000; pfn; 0x2000]] /\ 0x1000FFFF < pfn * PAGE_SIZE.
Proof.
  pose proof (bridge_mmap_beyond_the_bar char_world 4 demo_char 0x10000000 0x1000FFFF 0x7000 0x9000 16384
    demo_char_ready demo_lro_ready (fun _ => eq_refl) (fun _ => eq_refl)) as H.
  assert (Hw : wp (bridge_mmap 4 0x7000 0x9000 16384) (fun _ w' => exists pfn,
    calls io_remap_pfn_range (trace w') = [[0x7000; pfn; 0x2000]] /\ 0x1000FFFF < pfn * PAGE_SIZE) char_world).
  { eapply wp_conseq; [apply H; unfold PAGE_SIZE; (lia || reflexivity)|]. intros rc w' HQ. exact HQ. }
  destruct (proj1 (wp_ok _ _ _) Hw) as (rc & w' & E & pfn & HQ). exists w', rc, pfn. split; [exact E|exact HQ].
Defined.

Lemma events_are_delivered_once_witness :
  exists w', (for_ 0 5 (fun _ => user_irq_service 3) ;; char_events_read 4 0x500 4 8) char_world = Ok 4 w' /\
    event_pending 3 w' = false /\ calls copy_to_user (trace w') = [[0x500; 1]].
Proof.
  assert (H : wp (for_ 0 5 (fun _ => user_irq_service 3) ;; char_events_read 4 0x500 4 8)
    (fun rc w' => rc = 4 /\ irq_at w' 3 (mk_irq 0 false) /\ event_pending 3 w' = false /\
      calls copy_to_user (trace w') = [[0x500; 1]]) char_world).
  { apply (events_are_delivered_once char_world 4 demo_char 0x500 8 5);
      [apply demo_char_ready|discriminate|reflexivity..]. }
  destruct (proj1 (wp_ok _ _ _) H) as (rc & w' & E & Hrc & _ & Hp & Hc).
  exists w'. rewrite Hrc in E. auto.
Defined.

(** two transfers of two and of one descriptors *)
Definition bypass_world : world :=
  char_world <| transfers := {[5 := (demo_transfer 2) <| desc_virt := (1, 0) |>;
                               6 := (demo_transfer 1) <| desc_virt := (2, 0) |>]} |>
    <| coherent := {[1 := mk_dblock 0x1000 [written_back 1 2; written_back 1 3];
                     2 := mk_dblock 0x2000 [armed]]} |>
    <| eng -> transfer_list := [5; 6] |>.

Lemma bypass_read_dumps_the_queue_witness :
  exists w', char_bypass_read 4 0x500 96 bypass_world = Ok 96 w' /\
    calls copy_to_user (trace w')
    = sent 0x500 [written_back 1 2; written_back 1 3; armed].
Proof.
  pose proof (bypass_read_dumps_the_queue bypass_world 4 demo_char 0x500 96
    [[written_back 1 2; written_back 1 3]; [armed]] demo_char_ready demo_lro_ready demo_engine_ready) as H.
  assert (Hw : wp (char_bypass_read 4 0x500 96) (fun rc w' => rc = 96 /\
    calls copy_to_user (trace w') = sent 0x500 [written_back 1 2; written_back 1 3; armed] ++ [] /\
    lock (eng w') = false) bypass_world).
  { apply H; try reflexivity; try discriminate; try lia.
    - constructor; [|constructor; [|constructor]].
      + exists ((demo_transfer 2) <| desc_virt := (1, 0) |>). split; [reflexivity|]. split; [reflexivity|].
        split; [discriminate|]. intros [|[|k]] d [= <-]; reflexivity.
      + exists ((demo_transfer 1) <| desc_virt := (2, 0) |>). split; [reflexivity|]. split; [reflexivity|].
        split; [discriminate|]. intros [|k] d [= <-]; reflexivity. }
  destruct (proj1 (wp_ok _ _ _) Hw) as (rc & w' & E & Hrc & Hc & _). exists w'.
  rewrite Hrc in E. rewrite app_nil_r in Hc. auto.
Defined.

Lemma bypass_write_sends_words_witness :
  exists w' rc ws, char_bypass_write 4 0x500 12 char_world = Ok rc w' /\
    writes (trace w') = rev (map (fun x => (0x2000, x)) ws).
Proof.
  pose proof (bypass_write_sends_words char_world 4 demo_char 0x500 12 0x2000
    demo_char_ready demo_lro_ready demo_engine_ready) as H.
  assert (Hw : wp (char_bypass_write 4 0x500 12) (fun rc w' => exists ws,
    writes (trace w') = rev (map (fun x => (0x2000, x)) ws)) char_world).
  { eapply wp_conseq; [apply H; (reflexivity || discriminate || lia)|].
    intros rc w' (ws & Hq & _). exists ws. rewrite app_nil_r in Hq. exact Hq. }
  destruct (proj1 (wp_ok _ _ _) Hw) as (rc & w' & E & ws & HQ). exists w', rc, ws. auto.
Defined.

(** ** Data *)

Definition aligned_world : world :=
  char_world <| eng -> addr_align := 4 |> <| eng -> len_granularity := 8 |>.
Lemma check_transfer_align_spec_witness :
  check_transfer_align 0x1002 100 6 1 aligned_world = Ok 0 aligned_world.
Proof.
  destruct (check_transfer_align_spec 2 3 0x1002 100 6 1 aligned_world eq_refl eq_refl
    ltac:(lia) ltac:(lia)) as (rc & E & [[_ ->]|[H _]]); [exact E|].
  exfalso. apply H. reflexivity.
Defined.

(** ** The receive ring: two results, one with an end of packet *)

Definition rx_world : world :=
  char_world <| rx_result := [mk_result 0x52B40000 4096; mk_result 0x52B40001 100]
                              ++ replicate 254 no_result |>
    <| eng -> rx_result_buffer_virt := 1 |>.

Lemma ring_process_takes_new_results_witness :
  exists w' c k, engine_ring_process rx_world = Ok c w' /\ c = eops (rx_result rx_world) 0 k /\
    w' = taken rx_world 0 (Z.of_nat k) 256.
Proof.
  pose proof (ring_process_takes_new_results rx_world) as H.
  assert (Hw : wp engine_ring_process (fun c w' => exists k, c = eops (rx_result rx_world) 0 k /\
    w' = taken rx_world 0 (Z.of_nat k) 256) rx_world).
  { eapply wp_conseq; [apply H|].
    1,2,5: (reflexivity || discriminate).
    1,2: split; (reflexivity || discriminate).
    intros c w' (k & _ & _ & _ & Hc & Hq). exists k. auto. }
  destruct (proj1 (wp_ok _ _ _) Hw) as (c & w' & E & k & Hc & Hq). exists w', c, k. auto.
Defined.

(** ** Polling and measurement *)

Definition poll_world : world := char_world <| eng -> poll_mode_addr_virt := 1 |>.

Lemma wb_monitor_times_out_witness :
  exists wb w', engine_service_wb_monitor 1 20 7 poll_world = Ok wb w' /\
    wb_final 7 wb.
Proof.
  assert (Ha : poll_mode_addr_virt (eng poll_world) <> 0) by (vm_compute; discriminate).
  pose proof (wb_monitor_times_out 1 7 12 poll_world Ha ltac:(discriminate)) as H.
  assert (Hw : wp (engine_service_wb_monitor 1 20 7) (fun wb _ => wb_final 7 wb)
    poll_world).
  { eapply wp_conseq; [apply H|].
    - intros h Hh. change (length (trace _)) with 0%nat in Hh.
      change (answer h jiffies []) with [Z.min (Z.of_nat (length h)) 1000]. cbn [nth].
      change (u64 (nth 0 _ 0 + _)) with 10. unfold time_after.
      set (n := Z.min (Z.of_nat (length h)) 1000).
      assert (Hn : 12 <= n <= 1000) by (unfold n; lia).
      unfold s64, u64. rewrite (Z.mod_small n) by lia.
      rewrite <- (Z.mod_add (10 - n) 1) by lia. rewrite (Z.mod_small (10 - n + 1 * 2 ^ 64)) by lia.
      apply Z.ltb_lt. pose proof (Z.mod_add (10 - n + 2 ^ 63) 1 (2 ^ 64) ltac:(lia)) as E.
      replace (10 - n + 1 * 2 ^ 64 + 2 ^ 63) with (10 - n + 2 ^ 63 + 1 * 2 ^ 64) by lia.
      rewrite E, Z.mod_small; lia.
    - lia.
    - intros wb w' [Hf _]. exact Hf. }
  destruct (proj1 (wp_ok _ _ _) Hw) as (wb & w' & E & HQ). exists wb, w'. auto.
Defined.

Lemma service_work_without_ring_witness :
  engine_service_work 128 char_world = Abort BadAccess.
Proof. apply service_work_without_ring; (reflexivity || lia). Defined.

Lemma perf_start_with_a_large_size_is_a_bug_witness :
  ioctl_do_perf_start 1 char_world = Abort BugOn.
Proof.
  apply (perf_start_with_a_large_size_is_a_bug char_world 1 8388608 []);
    [reflexivity|intros h; cbn; lia|reflexivity|lia].
Defined.

Lemma perf_start_with_a_bad_version_blocks_the_engine_witness :
  exists w', ioctl_do_perf_start 2 char_world = Ok (- EINVAL) w' /\
    ioctl_do_perf_start 1 w' = Ok (- EBUSY) w'.
Proof.
  pose proof (perf_start_with_a_bad_version_blocks_the_engine char_world 2 1 2 [8388608]) as H.
  assert (Hw : wp (ioctl_do_perf_start 2) (fun rc w' => rc = - EINVAL /\
    ioctl_do_perf_start 1 w' = Ok (- EBUSY) w') char_world).
  { apply H; [reflexivity|intros h; cbn; lia|reflexivity|split; [discriminate|reflexivity]|discriminate]. }
  destruct (proj1 (wp_ok _ _ _) Hw) as (rc & w' & E & Hrc & HQ). exists w'. rewrite Hrc in E. auto.
Defined.

(** a confirmation of the entries 5 to 200 *)
#[local] Instance confirm_env : Env := {|
  answer := fun _ _ _ => [0; 5; 200]; poll_mode := false; enable_credit_mp := 0
|}.
Lemma wz_confirm_beyond_the_ring_diverges_witness :
  ioctl_do_wz_confirm 1000 0 full_ring = Abort OutOfFuel.
Proof.
  apply (wz_confirm_beyond_the_ring_diverges full_ring 0 5 200 [] 1000).
  - apply ring_world_shape.
  - reflexivity.
  - split; [discriminate|reflexivity].
  - unfold WZ_DMA_NOFBUFS. lia.
Defined.
