(* ===== verification/WitnessesProbe.v ===== *)
(** * The theorems on set-up, probe and removal at concrete inputs *)
From Stdlib Require Import List.
From S2P Require Import Prelude Layout Kernel World Desc Engine EngineFacts Ledger Setup SetupFacts BarFacts Creation CreationFacts EnginesFacts Interfaces InterfacesFacts Probe ProbeFrames ProbeFacts Lifecycle.
From S2P Require Import Shell Bitstream ShellProbe ShellProbeFacts.
#[local] Open Scope list_scope.
#[local] Open Scope Z_scope.
#[export] Existing Instance little_endian.

(** a device with a configuration BAR 2 behind a user BAR 0, with the engines
    H2C 0 and C2H 0, in a kernel that offers MSI-X and whose calls succeed *)
Definition config_base : Z := 0x3000000.
Definition device_register (a : Z) : Z :=
  if a =? config_base + 0x2000 then 0x1fc20006
  else if a =? config_base + 0x3000 then 0x1fc30006
  else if a =? config_base then 0x1fc00006
  else if a =? config_base + 0x1000 then 0x1fc18006
  else 0.
Definition probe_answer (h : history) (f : extern) (args : list Z) : list Z :=
  match f, args with
  | kzalloc, _ | kmalloc, _ | pci_find_capability, _ => [1]
  | request_irq, 0 :: _ => [- EBUSY]
  | pci_enable_msix, _ => 0 :: map Z.of_nat (seq 100 24)
  | pci_resource_len, [_; 0] => [0x100000]
  | pci_resource_len, [_; 2] => [0x10000]
  | pci_iomap, [_; idx; _] => [0x1000000 * (Z.abs idx + 1)]
  | ioread32, [a] => [device_register a]
  | class_create, _ => [55; 0]
  | alloc_chrdev_region, _ => [0; 240]
  | device_create, _ => [77]
  | _, _ => [0]
  end.
#[local] Instance probe_env : Env := {|
  answer := probe_answer; poll_mode := false; enable_credit_mp := 0
|}.
(** the driver when it is loaded *)
Definition loaded : world :=
  mk_world [] 1 zero_engine zero_dev ∅ ∅ ∅ [] ∅ ∅ (replicate 64 0) 0 55.

Definition succeeds {A} (m : prog world A) (ok : A -> world -> bool) (w : world) : bool :=
  match m w with Ok a w' => ok a w' | _ => false end.
Lemma succeeds_inv {A} (m : prog world A) ok w :
  succeeds m ok w = true -> exists a w', m w = Ok a w' /\ ok a w' = true.
Proof. unfold succeeds. destruct (m w) as [a w'|]; [eauto|discriminate]. Qed.

(** the device set up for probing its engines, with MSI-X on *)
Definition set_up : world :=
  loaded <| lro := zero_dev <| bar := [0x1000000; 0; config_base; 0; 0; 0] |>
    <| config_bar_idx := 2 |> <| msix_enabled := 1 |>
    <| entry_vector := map Z.of_nat (seq 100 32) |> |>.

Lemma set_up_ready : probe_ready config_base set_up.
Proof.
  split; try reflexivity.
  intros _ i v Hi Hv. apply zlookup_Some in Hv as Hb.
  assert (Forall (fun v => v <> 0) (map Z.of_nat (seq 100 32))) as H
    by (apply List.Forall_map, List.Forall_forall; intros x Hx%List.in_seq; lia).
  unfold zlookup in Hv. destruct (i <? 0); [discriminate|].
  exact (proj1 (Forall_lookup _ _) H _ _ Hv).
Qed.

Lemma build_vector_reg_lanes_witness :
  is_u32 (build_vector_reg 4 5 6 31) /\
  vector_lane (build_vector_reg 4 5 6 31) <$> [0; 1; 2; 3] = [4; 5; 6; 31].
Proof. apply (build_vector_reg_lanes 4 5 6 31); lia. Defined.

(** the kernel refuses the sixth user interrupt *)
Definition refusing_answer (h : history) (f : extern) (args : list Z) : list Z :=
  match f, args with
  | request_irq, [_; _; 1; 5] => [- EBUSY]
  | _, _ => probe_answer h f args
  end.
Definition refusing_env : Env := {|
  answer := refusing_answer; poll_mode := false; enable_credit_mp := 0
|}.
Lemma msix_irq_setup_all_or_nothing_witness :
  exists w', msix_irq_setup (env := refusing_env) set_up = Ok (- EBUSY) w' /\
    same_held irqs set_up w' /\ length (calls free_irq (trace w')) = 5%nat.
Proof.
  assert (H : wp (msix_irq_setup (env := refusing_env)) (fun rc w' =>
    (rc = 0 -> user_held set_up 16 w') /\ (rc <> 0 -> user_held set_up 0 w')) set_up).
  { apply (msix_irq_setup_all_or_nothing set_up). split; [reflexivity|]. exists config_base. reflexivity. }
  destruct (proj1 (wp_ok _ _ _) H) as (rc & w' & E & _ & Hf).
  assert (match msix_irq_setup (env := refusing_env) set_up with
    | Ok rc w' => rc = - EBUSY /\ length (calls free_irq (trace w')) = 5%nat
    | _ => False end) as Hrun by (vm_compute; split; reflexivity).
  rewrite E in Hrun. destruct Hrun as [-> Hn]. exists w'. split; [exact E|]. split; [|exact Hn].
  destruct (Hf ltac:(discriminate)) as [_ Hh]. intros k. rewrite Hh. apply Z.add_0_r.
Defined.

(** the device just allocated *)
Definition allocated : world :=
  loaded <| lro := zero_dev <| config_bar_idx := -1 |> <| user_bar_idx := -1 |>
    <| bypass_bar_idx := -1 |> |>.

Lemma map_bars_identifies_witness :
  exists w', map_bars 7 allocated = Ok 0 w' /\ maps_ok allocated 7 w' /\
    bars_identified (lro w') /\ config_bar_idx (lro w') = 2 /\ user_bar_idx (lro w') = 0.
Proof.
  assert (H : wp (map_bars 7) (fun rc w' =>
    (rc <> 0 -> bar (lro w') = replicate 6 0 /\ same_held maps allocated w') /\
    (rc = 0 -> maps_ok allocated 7 w' /\ bars_identified (lro w'))) allocated).
  { apply (map_bars_identifies 7 allocated). repeat split. }
  destruct (proj1 (wp_ok _ _ _) H) as (rc & w' & E & _ & Hok).
  assert (match map_bars 7 allocated with
    | Ok rc w' => rc = 0 /\ config_bar_idx (lro w') = 2 /\ user_bar_idx (lro w') = 0
    | _ => False end) as Hrun by (vm_compute; repeat split).
  rewrite E in Hrun. destruct Hrun as (-> & Hc & Hu).
  destruct (Hok eq_refl) as [Hm Hi]. exists w'. exact (conj E (conj Hm (conj Hi (conj Hc Hu)))).
Defined.


(** H2C 0 is found, and C2H 0 behind it *)
Lemma probe_engines_ok_witness :
  exists w1 w', probe_direction 1 set_up = Ok None w1 /\ probe_engines set_up = Ok 0 w' /\
    probing config_base set_up w1 /\ probing config_base w1 w' /\ slot_found config_base 0 0 w' /\
    engine (lro w1) = [1; 0; 0; 0; 0; 0; 0; 0] /\ engine (lro w') = [1; 2; 0; 0; 0; 0; 0; 0].
Proof.
  assert (match probe_direction 1 set_up with
    | Ok None w1 => engine (lro w1) = [1; 0; 0; 0; 0; 0; 0; 0] /\
        match probe_direction 0 w1 with Ok None _ => True | _ => False end
    | _ => False end) as Hrun1 by (vm_compute; repeat split).
  assert (match probe_engines set_up with
    | Ok rc w' => engine (lro w') = [1; 2; 0; 0; 0; 0; 0; 0] | _ => False end) as Hrun by (vm_compute; repeat split).
  pose proof (probe_engines_ok config_base set_up set_up_ready eq_refl (conj eq_refl eq_refl)) as H.
  destruct (proj1 (wp_ok _ _ _) H) as (rc & w' & E & Hok). rewrite E in Hrun.
  destruct (probe_direction 1 set_up) as [[?|] w1|]; [destruct Hrun1| |destruct Hrun1].
  destruct Hrun1 as [He1 Hrun2]. destruct Hok as (Hp1 & Hp2 & _ & Hok).
  destruct (probe_direction 0 w1) as [[?|] w2|]; [destruct Hrun2| |destruct Hrun2].
  destruct Hok as (-> & _ & Hf). exists w1, w'.
  split; [reflexivity|]. split; [exact E|]. split; [exact Hp1|]. split; [exact Hp2|].
  split; [apply (Hf 0); lia|]. split; [exact He1|exact Hrun].
Defined.

(** the device with its two engines *)
Definition with_engines : world :=
  match probe_engines set_up with Ok _ w => w | _ => set_up end.

Lemma with_engines_ok : probe_ready config_base with_engines /\ engines_ok config_base with_engines.
Proof.
  assert (H : wp probe_engines (fun rc w' => rc = 0 -> probing config_base set_up w') set_up).
  { eapply wp_conseq; [apply (probe_engines_outcome config_base); [exact set_up_ready|reflexivity|split; reflexivity]|].
    intros rc w' [Hok _] Hrc. apply (Hok Hrc). }
  destruct (proj1 (wp_ok _ _ _) H) as (rc & w' & E & Hok).
  assert (succeeds probe_engines (fun rc _ => rc =? 0) set_up = true) as Hrun by (vm_compute; reflexivity).
  destruct (succeeds_inv _ _ _ Hrun) as (rc' & w2 & E2 & ->%Z.eqb_eq).
  rewrite E in E2. injection E2 as -> ->. unfold with_engines. rewrite E.
  destruct (Hok eq_refl). split; assumption.
Qed.

Lemma remove_engines_ok_witness :
  exists w', remove_engines with_engines = Ok tt w' /\
    engines_balanced with_engines w' /\ engines w' !! 1 = None /\ engines w' !! 2 = None /\
    engines_num (lro w') = 0.
Proof.
  assert (H : wp remove_engines (fun _ w' => engines_balanced with_engines w' /\
    (forall s p, zlookup (engine (lro with_engines)) s = Some p -> engines w' !! p = None) /\
    (forall p, p ∉ engine (lro with_engines) -> engines w' !! p = engines with_engines !! p) /\
    lro w' = (lro with_engines) <| engines_num ::= (fun n => n - count_nz (engine (lro with_engines))) |>)
    with_engines).
  { apply (remove_engines_ok config_base with_engines); apply with_engines_ok. }
  destruct (proj1 (wp_ok _ _ _) H) as ([] & w' & E & Hb & Hf & _ & Hl).
  exists w'. split; [exact E|]. split; [exact Hb|].
  split; [apply (Hf 0); vm_compute; reflexivity|].
  split; [apply (Hf 1); vm_compute; reflexivity|]. rewrite Hl. vm_compute. reflexivity.
Defined.

(** ** Nodes *)

Definition h2c (ch : Z) : xdma_engine := zero_engine <| channel := ch |>.

Lemma gen_dev_minor_unique_witness :
  minor_of (Some (h2c 3)) CHAR_XDMA_H2C 0 = Some 35 /\
  (CHAR_XDMA_H2C = CHAR_XDMA_H2C /\
   (for_engine CHAR_XDMA_H2C = true -> channel (h2c 3) = channel (h2c 3)) /\
   (CHAR_XDMA_H2C = CHAR_EVENTS -> 0 = 1) /\ XDMA_MINOR_BASE <= 35 < XDMA_MINOR_BASE + XDMA_MINOR_COUNT).
Proof.
  split; [reflexivity|].
  apply (gen_dev_minor_unique (h2c 3) (h2c 3) CHAR_XDMA_H2C CHAR_XDMA_H2C 0 1 35);
    try reflexivity; try (split; [discriminate|reflexivity]); split; try reflexivity; split;
    (discriminate || reflexivity).
Defined.

(** the first two instance numbers are taken *)
Definition two_present : world := loaded <| dev_present := 1 :: 1 :: replicate 62 0 |>.

Lemma find_instance_first_witness : exists w', find_instance two_present = Ok 2 w' /\ w' = two_present.
Proof.
  assert (H : wp find_instance (fun i w' => w' = two_present /\ 0 <= i < 64 /\
    zlookup (dev_present two_present) i <> Some 1 /\
    forall j, 0 <= j < i -> zlookup (dev_present two_present) j = Some 1) two_present).
  { apply (find_instance_first two_present); [reflexivity|]. exists 2.
    split; [split; [discriminate|reflexivity]|discriminate]. }
  destruct (proj1 (wp_ok _ _ _) H) as (i & w' & E & -> & _).
  assert (succeeds find_instance (fun i _ => i =? 2) two_present = true) as Hrun by (vm_compute; reflexivity).
  unfold succeeds in Hrun. rewrite E in Hrun. apply Z.eqb_eq in Hrun. subst i.
  exists two_present. split; [exact E|reflexivity].
Defined.

Lemma with_engines_char_ready : char_ready 1 CHAR_XDMA_H2C with_engines.
Proof.
  assert (exists e, engines with_engines !! 1 = Some e /\ number_in_channel e = 0 /\ channel e = 0)
    as (e & He & Hn & Hc) by (eexists; vm_compute; repeat split).
  split; [vm_compute; reflexivity| |vm_compute; reflexivity| |].
  - intros q _. replace (chars with_engines) with (∅ : gmap Z xdma_char) by (vm_compute; reflexivity).
    apply lookup_empty.
  - right. exists 0. split; [split; [discriminate|reflexivity]|]. vm_compute. discriminate.
  - split; [discriminate|]. exists e. split; [exact He|]. split; [exact Hn|]. rewrite Hc.
    split; [discriminate|reflexivity].
Qed.

Lemma create_sg_char_ok_witness :
  wp (create_sg_char (-1) 1 CHAR_XDMA_H2C) (char_created (-1) 1 CHAR_XDMA_H2C with_engines) with_engines /\
  succeeds (create_sg_char (-1) 1 CHAR_XDMA_H2C) (fun c w' => (c =? 3) &&
    match chars w' !! c with Some x => snd (c_cdevno x) =? 32 | None => false end) with_engines = true.
Proof.
  split; [|vm_compute; reflexivity].
  apply (create_sg_char_ok (-1) 1 CHAR_XDMA_H2C with_engines). exact with_engines_char_ready.
Defined.

Lemma create_destroy_sg_char_witness :
  wp (c <- create_sg_char (-1) 1 CHAR_XDMA_H2C ;; if c =? 0 then ret 0 else destroy_sg_char c)
    (fun _ w' => chars w' = chars with_engines /\ same_held cdevs with_engines w' /\
      engines w' = engines with_engines /\ but_numbers (lro with_engines) (lro w')) with_engines.
Proof.
  apply (create_destroy_sg_char (-1) 1 CHAR_XDMA_H2C with_engines).
  - exact with_engines_char_ready.
  - vm_compute. discriminate.
Defined.

(** ** Probe *)

Lemma probe_releases_regions_witness :
  halts (probe (env := refusing_env) 7) /\
  exists w', probe (env := refusing_env) 7 loaded = Ok (- EBUSY) w' /\ same_held regions loaded w' /\
    calls pci_disable_msix (trace w') = [] /\ length (calls pci_enable_msix (trace w')) = 1%nat.
Proof.
  pose proof (probe_releases_regions (env := refusing_env) 7) as [Hh H]. split; [exact Hh|].
  assert (succeeds (probe (env := refusing_env) 7) (fun rc w' => (rc =? - EBUSY) &&
    (length (calls pci_enable_msix (trace w')) =? 1)%nat) loaded = true) as Hrun by (vm_compute; reflexivity).
  destruct (succeeds_inv _ _ _ Hrun) as (rc & w' & E & [->%Z.eqb_eq Hn%Nat.eqb_eq]%andb_prop).
  destruct (H loaded (- EBUSY) w' E) as (Hd & Hr & _). exists w'.
  split; [exact E|]. split; [apply Hr; discriminate|]. split; [exact Hd|exact Hn].
Defined.

(** loading the module with a device present: registration probes it *)
Lemma xdma_init_forgets_instances_witness :
  exists w', xdma_init (probe 7) loaded = Ok 0 w' /\ dev_present w' = replicate 64 0 /\
    size (chars w') = 20%nat /\ instance (lro w') = 0.
Proof.
  assert (succeeds (xdma_init (probe 7)) (fun rc w' => (rc =? 0) && ((size (chars w') =? 20)%nat
    && (instance (lro w') =? 0))) loaded = true) as Hrun by (vm_compute; reflexivity).
  destruct (succeeds_inv _ _ _ Hrun)
    as (rc & w' & E & [->%Z.eqb_eq [Hc%Nat.eqb_eq Hi%Z.eqb_eq]%andb_prop]%andb_prop).
  exists w'. split; [exact E|]. split; [|exact (conj Hc Hi)].
  apply (xdma_init_forgets_instances (probe 7) loaded 0 w').
  - intros w0 H. apply (wlp_keeps same_table); [apply table_probe|].
    intros r w2 E2. exact (eq_trans E2 H).
  - reflexivity.
  - reflexivity.
  - exact E.
Defined.

(** ** The life of a device *)

#[local] Instance probe_kernel : KernelOk.
Proof.
  split.
  - intros h args. cbn. lia.
  - intros h args i _ Hi. change (answer h pci_enable_msix args) with (0 :: map Z.of_nat (seq 100 24)).
    do 25 (destruct i as [|i]; [cbn; lia|]). lia.
  - intros h args. discriminate.
  - intros h args. cbn. destruct args as [|? [|? [|? [|]]]]; cbn; lia.
Qed.

Lemma probe_then_remove_gives_back_witness :
  exists w', probe_then_remove 7 loaded = Ok 0 w' /\ nothing_taken loaded w' /\
    length (calls free_irq (trace w')) = 18%nat.
Proof.
  assert (clean 7 loaded) as Hc by (split; [reflexivity|intros p _; apply lookup_empty|reflexivity]).
  destruct (probe_then_remove_gives_back 7 loaded Hc ltac:(discriminate)) as [_ H].
  assert (succeeds (probe_then_remove 7) (fun rc w' => (rc =? 0) &&
    (length (calls free_irq (trace w')) =? 18)%nat) loaded = true) as Hrun by (vm_compute; reflexivity).
  destruct (succeeds_inv _ _ _ Hrun) as (rc & w' & E & [->%Z.eqb_eq Hn%Nat.eqb_eq]%andb_prop).
  exists w'. split; [exact E|].
  split; [|exact Hn]. exact (wlp_elim _ _ _ _ _ H E eq_refl).
Defined.

(** ** The clearing bitstream over a reload, on the UltraScale board *)

#[local] Instance reload_order : HostOrder := false.
Definition ultrascale : pci_function := mk_pci_function 0x10ee KU3_DEVICE 0 0 1 1.
Definition new_card : card := mk_card (mk_shell loaded ultrascale ∅ 0 0 0 0 0 0) 0 ∅.
(** probed, with a clearing bitstream of 100 bytes *)
Definition probed_card : card :=
  match probe_sd false 7 new_card with
  | Ok _ k => k <| sh ::= (fun s => s <| clear_bitstream := 5 |> <| clear_bitstream_length := 100 |>) |>
  | Abort _ => new_card
  end.

Lemma stash_survives_reload_witness :
  exists k', (remove_sd 7 ;; probe_sd false 7) probed_card = Ok 0 k' /\
    stash k' = mk_container MAGIC_BITSTREAM 5 100 /\ containers k' = ∅.
Proof.
  assert (device (pdev_ids (sh probed_card)) = KU3_DEVICE /\ stash_magic probed_card = MAGIC_BITSTREAM /\
    drvdata (trace (drv (sh probed_card))) 7 <> 0 /\ 0 < fresh (drv (sh probed_card)) /\
    containers probed_card = ∅ /\ stash probed_card = mk_container MAGIC_BITSTREAM 5 100) as (H1 & H2 & H3 & H4 & H5 & H6).
  { vm_compute. repeat split; discriminate. }
  assert (forall c, fresh (drv (sh probed_card)) <= c -> containers probed_card !! c = None) as H7.
  { intros c _. rewrite H5. apply lookup_empty. }
  destruct (stash_survives_reload false 7 probed_card ltac:(discriminate) H1 H2 H3 H4 H7
    ltac:(discriminate) ltac:(discriminate) ltac:(discriminate)) as [_ H].
  assert (match (remove_sd 7 ;; probe_sd false 7) probed_card with Ok rc _ => rc =? 0 | Abort _ => false end = true) as Hrun
    by (vm_compute; reflexivity).
  destruct ((remove_sd 7 ;; probe_sd false 7) probed_card) as [rc k'|] eqn:E; [|discriminate].
  apply Z.eqb_eq in Hrun as ->. exists k'. split; [reflexivity|].
  destruct (wlp_elim _ _ _ _ _ H E eq_refl) as [-> ->]. split; [exact H6|exact H5].
Defined.
