(* ===== verification/WitnessesAxi.v ===== *)
(** * The theorems on the AXI DataMover at concrete inputs *)
From S2P Require Import Prelude Layout Kernel Axi4s2dmov AxiFacts.
#[local] Open Scope Z_scope.

#[local] Instance header : Axi4s2dmovH := {|
  BUF_NUM := 16; BUF_SIZE := 4194304;
  ADM_RESET := 1; ADM_START := 2; ADM_STOP := 3; ADM_GET := 4; ADM_CONFIRM := 5
|}.
#[local] Instance header_ok : HeaderOk.
Proof.
  split; [split; reflexivity|]. change (NoDup [1; 2; 3; 4; 5]).
  apply (bool_decide_unpack _). vm_compute. exact I.
Qed.

Definition base : Z := 0x43c00000.
(** a device that answers until 13 commands are left, and cannot fill buffer 1 *)
Definition mover_answer (h : history) (f : extern) (args : list Z) : list Z :=
  match f, args with
  | ioread32, [a] =>
      if a =? base + AF_RDFO then [Z.max 0 (Z.of_nat (length (outstanding base h)) - 13)]
      else if a =? base + AF_RLR then [4]
      else if a =? base + AF_RDFD then
        match outstanding base h with (tag, _) :: _ => [status_word tag (if tag =? 1 then 4 else 0) (if tag =? 1 then 0 else 1) 1000 1] | [] => [0] end
      else if a =? base + AF_ISR then [0x04000000]
      else [0]
  | platform_get_resource, _ => [1; 0x43c00000; 0x43c0ffff]
  | devm_ioremap_resource, _ => [base; 0; 0]
  | (class_create | cdev_alloc), _ => [1; 0; 0]
  | alloc_chrdev_region, _ => [0; 240]
  | _, _ => [0]
  end.
#[local] Instance mover_env : Env := {|
  answer := mover_answer; poll_mode := false; enable_credit_mp := 0
|}.
#[local] Instance mover : DataMover base.
Proof.
  split.
  - discriminate.
  - intros h. change (0 <= Z.max 0 (Z.of_nat (length (outstanding base h)) - 13)
      <= Z.of_nat (length (outstanding base h))). lia.
  - intros h r r' tag addr l _ _ E. exists (if tag =? 1 then 4 else 0), (if tag =? 1 then 0 else 1), 1000, 1.
    split; [destruct (tag =? 1); lia|]. split; [destruct (tag =? 1); lia|]. split; [lia|]. split; [lia|].
    cbn -[outstanding status_word]. rewrite !outstanding_read.
    change (AF_RLR =? AF_RDFD) with false. change (AF_RDFO =? AF_RDFD) with false. cbv iota.
    rewrite E. reflexivity.
Qed.
#[local] Instance asleep : AdmSched := id.

(** ** From the start on *)

Definition probed_adm : adm :=
  mk_adm [] base 0 0 (map (fun i => Z.of_nat i + 1) (seq 0 16))
    (map (fun i => 0x10000000 + 4194304 * Z.of_nat i) (seq 0 16))
    (replicate 16 0) (replicate 16 0) 0 0 0 91 1 7 240 1 1.

Definition run {A} (m : prog adm A) (w : adm) : adm := match m w with Ok _ w' => w' | _ => w end.
Definition started : adm := run adm_start probed_adm.

Lemma probed_ready : adm_ready probed_adm.
Proof. split; try reflexivity. discriminate. Qed.

Lemma adm_start_submits_all_witness :
  exists w', adm_start probed_adm = Ok SUCCESS w' /\ zlookup (bready w') 3 = Some 0 /\
    outstanding base (adm_trace w') !! 3%nat = Some (3, 0x10c00000).
Proof.
  assert (H : wp adm_start (fun rc w' =>
    if nz (is_started probed_adm) then rc = - EINVAL /\ w' = probed_adm
    else rc = SUCCESS /\ is_started w' = 1 /\
      outstanding base (adm_trace w') = (fun b => (b, buf_addr probed_adm b)) <$> seqZ 0 BUF_NUM /\
      forall b, 0 <= b < BUF_NUM -> zlookup (bready w') b = Some 0) probed_adm).
  { apply (adm_start_submits_all base probed_adm); [exact probed_ready|reflexivity..]. }
  destruct (proj1 (wp_ok _ _ _) H) as (rc & w' & E & Hrc & _ & Ho & Hb). exists w'.
  split; [rewrite E, Hrc; reflexivity|]. split; [apply (Hb 3); split; [discriminate|reflexivity]|].
  rewrite Ho. vm_compute. reflexivity.
Defined.

Lemma started_flows : at_f base 0 started.
Proof.
  pose proof (adm_start_ok base probed_adm probed_ready eq_refl eq_refl eq_refl) as H.
  destruct (proj1 (wp_ok _ _ _) H) as (rc & w' & E & _ & _ & Hf & _).
  unfold started, run. rewrite E. exact Hf.
Qed.

Definition interrupted : adm := run (tst1_irq 17) started.

(** buffer 0 is filled, buffer 1 is lost, and the handler leaves off *)
Lemma tst1_irq_drains_witness :
  exists k, tst1_irq 17 started = Ok IRQ_HANDLED interrupted /\ at_f base k interrupted /\
    zlookup (bready interrupted) 0 = Some 1 /\ zlookup (bready interrupted) 1 = Some 0 /\ lost interrupted = [1].
Proof.
  assert (H : wp (tst1_irq 17) (fun rc w' => exists k' o, 0 <= k' <= BUF_NUM /\ at_f base k' w' /\
    received_buf w' = received_buf started /\
    match o with
    | None => lost w' = lost started
    | Some b => b = place (received_buf started) (k' - 1) /\ lost w' = b :: lost started
    end /\
    ((rc = IRQ_NONE /\ k' = 0 /\ o = None) \/ (rc = IRQ_HANDLED /\ handled base o (adm_trace w')))) started).
  { apply (tst1_irq_drains base 17 0 started); [exact started_flows|]. vm_compute. lia. }
  destruct (proj1 (wp_ok _ _ _) H) as (rc & w' & E & k & o & Hk & Hf & _ & _ & Hrc).
  exists k. assert (interrupted = w') as Ei by (unfold interrupted, run; rewrite E; reflexivity).
  assert (match tst1_irq 17 started with Ok rc _ => rc =? 1 | _ => false end = true) as Hr
    by (vm_compute; reflexivity).
  rewrite E in Hr. apply Z.eqb_eq in Hr. rewrite Hr in E. rewrite Ei. split; [exact E|].
  split; [exact Hf|]. rewrite <- Ei. split; [|split]; vm_compute; reflexivity.
Defined.

Definition interrupted_again : adm := run (tst1_irq 17) interrupted.

(** buffer 0 is read and given back, buffer 1 is lost, buffer 2 is ready *)
Lemma buffers_have_one_owner_witness :
  exists w', rtc (adm_step) started w' /\
    is_ready w' 2 /\ ~ is_commanded base w' 2 /\ is_commanded base w' 0 /\ is_lost base w' 1 /\ ~ is_ready w' 1.
Proof.
  set (w2 := run (tst1_ioctl ADM_GET) interrupted_again). set (w3 := run (tst1_ioctl ADM_CONFIRM) w2).
  assert (rtc adm_step started w3) as Hs.
  { eapply rtc_l; [apply step_other, (other_irq 17 IRQ_HANDLED _ interrupted)|].
    - vm_compute. lia.
    - vm_compute. reflexivity.
    - eapply rtc_l; [apply step_other, (other_irq 17 IRQ_HANDLED _ interrupted_again)|].
      + vm_compute. lia.
      + vm_compute. reflexivity.
      + apply (rtc_l _ _ w2).
        * apply (step_get 1000); [cbv [adm_asleep asleep id]; apply rtc_refl|vm_compute; reflexivity].
        * apply rtc_once, step_other, (other_confirm SUCCESS). vm_compute. reflexivity. }
  exists w3. split; [exact Hs|].
  destruct (buffers_have_one_owner base started w3 started_flows Hs) as [_ H].
  assert (is_lost base w3 1) as Hl by (unfold is_lost; apply (bool_decide_unpack _); vm_compute; exact I).
  assert (is_ready w3 2) as Hr by (vm_compute; reflexivity).
  split; [exact Hr|]. split; [|split; [unfold is_commanded; apply (bool_decide_unpack _); vm_compute; exact I|split; [exact Hl|]]].
  - apply (H 2); [split; [discriminate|reflexivity]|exact Hr].
  - intros H1. destruct (H 1) as [H2 _]; [split; [discriminate|reflexivity]|]. apply H2 in H1. tauto.
Defined.

(** ** Probing without memory *)

Definition fresh_adm : adm :=
  mk_adm [] 0 0 0 (replicate 16 0) (replicate 16 0) (replicate 16 0) (replicate 16 0) 0 0 0 (-1) (-1)
    0 0 0 0.

Lemma tst1_probe_without_buffers_witness :
  exists w', tst1_probe 7 fresh_adm = Ok 0 w' /\ fmem w' = 0 /\
    tst1_ioctl ADM_START w' = Abort BadAccess.
Proof.
  assert (H : wp (tst1_probe 7) (fun rc w' => rc = 0 /\ my_pdev w' = 7 /\ fmem w' = 0 /\
    tst1_ioctl ADM_START w' = Abort BadAccess) fresh_adm).
  { apply (tst1_probe_without_buffers 7 fresh_adm); try reflexivity.
    split; intros h a; try split; cbn; (discriminate || reflexivity || lia). }
  destruct (proj1 (wp_ok _ _ _) H) as (rc & w' & E & -> & _ & Hf & Hs). exists w'. auto.
Defined.
