(* ===== verification/WitnessesShell.v ===== *)
(** * The theorems on the shell at concrete inputs *)
From S2P Require Import Prelude Layout Kernel World CharDev Shell Bitstream ShellIoctl BitFacts.
From S2P Require Import DownloadFacts IcapFacts McapFacts ShellInv ClockFacts ResetFacts Demo.
#[local] Open Scope Z_scope.

#[local] Instance order : HostOrder := false.

(** ** A bitstream, the container it is in, and requests *)

Definition demo_bit : bit_file := mk_bit_file 9 0 [100; 0] [112; 0] [97; 0] [116; 0] 8.
Definition demo_payload : list Z := [1; 2; 3; 4; 5; 6; 7; 8].
Definition demo_rest : list Z := [9; 10].
Definition demo_bytes : list Z := print_header demo_bit ++ demo_payload ++ demo_rest.
Definition demo_length : Z := Z.of_nat (length demo_bytes).

Definition le8 (v : Z) : list Z := map (fun i => Z.shiftr v (8 * Z.of_nat i) mod 256) (seq 0 8).
(** both images of the container are [demo_bytes] *)
Definition demo_container : list Z :=
  xclbin0 ++ le8 (128 + demo_length) ++ replicate 64 0 ++ le8 128 ++ le8 demo_length ++
  le8 128 ++ le8 demo_length ++ replicate 16 0 ++ demo_bytes.
Definition container_at : Z := 0x10000.
Definition download_at : Z := 0x7000.
Definition scaling_at : Z := 0x7100.
Definition download_request : list Z := take 4 (le8 XDMA_XCL_MAGIC) ++ replicate 4 0 ++ le8 container_at.
Definition scaling_request : list Z := replicate 8 0 ++ [175; 0; 0; 0].

Definition user_memory (a : Z) : list Z :=
  if a =? download_at then 0 :: download_request
  else if a =? scaling_at then 0 :: scaling_request
  else 0 :: drop (Z.to_nat (a - container_at)) demo_container.

(** ** A board that works, and one that does not *)

Definition user_base : Z := 0x40000000.
Definition good_answer (h : history) (f : extern) (args : list Z) : list Z :=
  match f, args with
  | ioread32, [a] =>
      if a =? user_base + XHWICAP_WFV then [64]
      else if a =? user_base + XHWICAP_SR then [5]
      else if a =? user_base + OCL_CLKWIZ_STATUS then [1]
      else [0]
  | copy_from_user, [a; _] => user_memory a
  | (kmalloc | vmalloc | access_ok), _ => [1]
  | pci_read_config_dword, _ => [0; MCAP_STS_EOS_MASK]
  | pci_read_config_byte, _ => [0; 3]
  | _, _ => [0]
  end.
Definition good_board : Env := {| answer := good_answer; poll_mode := false; enable_credit_mp := 0 |}.

Definition bad_answer (h : history) (f : extern) (args : list Z) : list Z :=
  match f with
  | kmalloc => [1]
  | pci_read_config_dword => [0; MCAP_STS_CFG_MCAP_REQ_MASK]
  | _ => [0]
  end.
Definition bad_board : Env := {| answer := bad_answer; poll_mode := false; enable_credit_mp := 0 |}.

Lemma good_kmalloc h n : nth 0 (answer (Env := good_board) h kmalloc [n]) 0 <> 0.
Proof. discriminate. Qed.
Lemma bad_kmalloc h n : nth 0 (answer (Env := bad_board) h kmalloc [n]) 0 <> 0.
Proof. discriminate. Qed.

(** a device with an image in the block 5 *)
Definition demo_shell : shell :=
  mk_shell ((demo_world zero_ext ∅) <| lro -> bar := [user_base; 0; 0; 0; 0; 0] |>
      <| lro -> lro_magic := MAGIC_DEVICE |> <| lro -> user_char_dev := 4 |>
      <| lro -> engine := [9; 0; 0; 0; 0; 0; 0; 0] |> <| lro -> pci_dev := 77 |>
      <| engines := {[9 := zero_engine <| regs := 0x1000 |>]} |>
      <| chars := {[4 := zero_char <| c_magic := MAGIC_CHAR |> <| c_lro := true |>]} |>)
    (mk_pci_function 0 0 0 0 1 88) {[5 := demo_bytes]} 0 5 demo_length 0 0x340 0.

(** ** The facts the theorems ask for *)

Lemma demo_heap : heap_ok demo_shell.
Proof.
  split; [reflexivity|]. intros p Hp. change (({[5 := demo_bytes]} : gmap Z (list Z)) !! p = None).
  change (fresh (drv demo_shell)) with 1000 in Hp. apply lookup_singleton_ne. lia.
Qed.

Lemma demo_wf : header_wf demo_bit.
Proof.
  assert (forall x, c_string [x; 0]) as Hc by (intros x; split; [exists [x]; reflexivity|reflexivity]).
  repeat split; try (apply Hc); try discriminate.
Qed.

Lemma demo_are_bytes : Forall is_byte demo_bytes.
Proof. vm_compute. repeat constructor; discriminate. Qed.

Lemma demo_stream : stream demo_shell (5, 0) 0 demo_bytes.
Proof.
  exists demo_bytes. split; [reflexivity|]. split; [discriminate|]. split; [discriminate|].
  split; [split; vm_compute; [discriminate|reflexivity]|reflexivity].
Qed.

Lemma demo_image : image demo_shell (5, 0) demo_bit demo_payload demo_rest demo_length.
Proof.
  split; [exact demo_wf|reflexivity|exact demo_stream|exact demo_are_bytes|].
  split; vm_compute; [discriminate|reflexivity].
Qed.

Lemma demo_bar : user_bar_is user_base demo_shell.
Proof. reflexivity. Qed.

(** a header is parsed *)
Lemma parse_header_accepts_exactly_witness :
  bitstream_parse_header (env := good_board) (5, 0) 1024 zero_header demo_shell
    = Ok (0, header_of demo_bit 1000) (with_strings (env := good_board) demo_bit demo_shell).
Proof.
  apply (parse_header_accepts_exactly good_kmalloc (5, 0) 1024 demo_shell demo_bytes);
    [exact demo_heap|exact demo_stream|exact demo_are_bytes|].
  exists demo_bit, (demo_payload ++ demo_rest). split; [exact demo_wf|]. repeat split.
Defined.

Lemma bad_stuck : icap_stuck (env := bad_board) user_base.
Proof. intros h. discriminate. Qed.

(** a HWICAP without room: the result is 0 and nothing was written *)
Lemma bitstream_icap_hides_failure_witness :
  exists s', bitstream_icap (env := bad_board) (5, 0) demo_length demo_shell = Ok 0 s' /\
    words_to (user_base + XHWICAP_WF) s' = [].
Proof.
  assert (H : wp (bitstream_icap (env := bad_board) (5, 0) demo_length) (fun r s' =>
    r = 0 /\ words_to (user_base + XHWICAP_WF) s' = words_to (user_base + XHWICAP_WF) demo_shell /\
    bufs s' = bufs demo_shell) demo_shell).
  { apply (bitstream_icap_hides_failure bad_kmalloc user_base demo_shell (5, 0) demo_bit demo_payload demo_rest
      demo_length); [exact demo_heap|exact demo_bar|exact demo_image|discriminate|exact bad_stuck]. }
  destruct (proj1 (wp_ok _ _ _) H) as (r & s' & E & -> & Hw & _). exists s'.
  split; [exact E|rewrite Hw; reflexivity].
Defined.

Lemma good_user_image :
  user_image (env := good_board) (container_at + 128) demo_bit demo_payload demo_rest demo_length.
Proof.
  split; [exact demo_wf|reflexivity| |exact demo_are_bytes|discriminate|discriminate|reflexivity].
  intros h a n Ha. change (answer h copy_from_user [a; n]) with (user_memory a). unfold user_memory.
  unfold container_at, download_at, scaling_at in *.
  destruct (Z.eqb_spec a 0x7000); [lia|]. destruct (Z.eqb_spec a 0x7100); [lia|]. f_equal.
  replace (Z.to_nat (a - 0x10000)) with (128 + Z.to_nat (a - (0x10000 + 128)))%nat by lia.
  rewrite <- drop_drop. f_equal.
Qed.

Lemma good_ready : icap_ready (env := good_board) user_base.
Proof. intros h. repeat split. Qed.

(** the clearing bitstream of the board and the one of the user are written *)
Lemma bitstream_ioctl_icap_downloads_witness :
  exists s', bitstream_ioctl_icap (env := good_board) (container_at + 128) demo_length demo_shell = Ok 0 s' /\
    words_to (user_base + XHWICAP_WF) s' = [0x01020304; 0x05060708; 0x01020304; 0x05060708] /\ axi_gate_frozen s' = 0 /\ bufs s' = ∅.
Proof.
  set (w := fun s' => words_to (user_base + XHWICAP_WF) s').
  assert (H : wp (bitstream_ioctl_icap (env := good_board) (container_at + 128) demo_length) (fun r s' =>
    axi_gate_frozen s' = 0 /\ bufs s' = delete 5 (bufs demo_shell) /\ clear_bitstream s' = 0 /\
    (r = 0 \/ r = - EIO) /\
    exists w1 w2, w1 `prefix_of` be_words demo_payload /\ w2 `prefix_of` be_words demo_payload /\
      w s' = w demo_shell ++ w1 ++ w2 /\
      (icap_ready (env := good_board) user_base -> r = 0 /\ w1 = be_words demo_payload /\ w2 = be_words demo_payload))
    demo_shell).
  { apply (bitstream_ioctl_icap_downloads good_kmalloc user_base (container_at + 128) demo_bit demo_payload
      demo_rest demo_length demo_payload demo_shell);
      [exact demo_heap|exact demo_bar|reflexivity| |exact good_user_image].
    right. exists demo_bit, demo_rest. exact demo_image. }
  destruct (proj1 (wp_ok _ _ _) H) as (r & s' & E & Hg & Hb & _ & _ & w1 & w2 & _ & _ & Hw & Hr). exists s'.
  destruct (Hr good_ready) as (-> & -> & ->). split; [exact E|].
  split; [rewrite Hw; reflexivity|]. split; [exact Hg|]. rewrite Hb. apply delete_singleton_eq.
Defined.

(** a request bit that is never cleared *)
Lemma mcap_request_timeout_ignored_witness :
  exists r s', MCapClearRequestByConfigure (env := bad_board) demo_shell = Ok (0, r) s' /\
    length (mcap_log s') = 2%nat.
Proof.
  assert (H : wp (MCapClearRequestByConfigure (env := bad_board)) (fun r s' =>
    fst r = 0 /\ mcap_log s' = mcap_log demo_shell ++ [ControlRead (snd r);
      RegWrite MCAP_CONTROL (Z.lor (snd r) (Z.lor MCAP_CTRL_MODE_MASK MCAP_CTRL_IN_USE_MASK))]) demo_shell).
  { apply (mcap_request_timeout_ignored (env := bad_board) demo_shell). intros h. reflexivity. }
  destruct (proj1 (wp_ok _ _ _) H) as ([x r] & s' & E & Hx & Hc). cbn [fst] in Hx. subst x. exists r, s'.
  split; [exact E|rewrite Hc; reflexivity].
Defined.

Lemma good_healthy : healthy (env := good_board) demo_shell.
Proof. intros h. repeat split. Qed.

(** the second stage of the image in the block 5 *)
Lemma bitstream_mcap_programs_witness :
  exists s' restore v, bitstream_mcap (env := good_board) (5, 0) demo_length demo_shell = Ok 0 s' /\
    mcap_log s' = [ControlRead restore; ControlRead v; RegWrite MCAP_CONTROL (armed_control v);
      RegWrite MCAP_DATA 0x01020304; RegWrite MCAP_DATA 0x05060708;
      RegWrite MCAP_CONTROL (Z.lor restore MCAP_CTRL_DESIGN_SWITCH_MASK)].
Proof.
  assert (H : wp (bitstream_mcap (env := good_board) (5, 0) demo_length) (fun r s' =>
    r = 0 /\ bufs s' = bufs demo_shell /\
    exists restore v, mcap_log s' = mcap_log demo_shell
      ++ [ControlRead restore; ControlRead v; RegWrite MCAP_CONTROL (armed_control v)]
      ++ map (RegWrite MCAP_DATA) (be_words demo_payload)
      ++ [RegWrite MCAP_CONTROL (Z.lor restore MCAP_CTRL_DESIGN_SWITCH_MASK)]) demo_shell).
  { apply (bitstream_mcap_programs good_kmalloc demo_shell (5, 0) demo_bit demo_payload demo_rest demo_length);
      [exact demo_heap|exact demo_image|exact good_healthy]. }
  destruct (proj1 (wp_ok _ _ _) H) as (r & s' & E & -> & _ & restore & v & Hl). exists s', restore, v.
  split; [exact E|rewrite Hl; reflexivity].
Defined.

(** ** The ioctls *)

Definition idle_shell : shell := demo_shell <| clear_bitstream := 0 |> <| clear_bitstream_length := 0 |> <| bufs := ∅ |>.

Lemma idle_ok : shell_ok idle_shell.
Proof. split; [reflexivity|intros p Hp; inversion Hp|apply empty_subseteq]. Qed.

(** the download of a container through the control device runs to its end *)
Lemma download_runs :
  match char_ctrl_ioctl (env := good_board) 4 XDMA_IOCICAPDOWNLOAD download_at idle_shell with
  | Ok rc s' => rc = 0 /\ clear_bitstream s' <> 0 | Abort _ => False end.
Proof. vm_compute. split; [reflexivity|discriminate]. Qed.

(** the container's second image becomes the clearing bitstream *)
Lemma char_ctrl_ioctl_gives_back_witness :
  exists s', char_ctrl_ioctl (env := good_board) 4 XDMA_IOCICAPDOWNLOAD download_at idle_shell = Ok 0 s' /\
    clear_bitstream s' <> 0 /\ axi_gate_frozen s' = 0 /\ owned s' = ∅.
Proof.
  pose proof download_runs as Hr.
  destruct (char_ctrl_ioctl (env := good_board) 4 XDMA_IOCICAPDOWNLOAD download_at idle_shell)
    as [rc s'|] eqn:E; [|destruct Hr]. destruct Hr as [Hrc Hc]. subst rc. exists s'.
  pose proof (char_ctrl_ioctl_gives_back (env := good_board) 4 XDMA_IOCICAPDOWNLOAD download_at idle_shell 0 s'
    idle_ok eq_refl E) as (_ & Hg & Ho).
  split; [reflexivity|]. split; [exact Hc|]. split; [exact Hg|rewrite Ho; reflexivity].
Defined.

Lemma good_idle : units_idle (env := good_board) user_base.
Proof.
  intros i Hi h. cbn [answer good_board good_answer].
  change (u32 (nth 0 (if user_base + (0 + i * 0x1000) =? user_base + XHWICAP_WFV then [64]
    else if user_base + (0 + i * 0x1000) =? user_base + XHWICAP_SR then [5]
    else if user_base + (0 + i * 0x1000) =? user_base + OCL_CLKWIZ_STATUS then [1] else [0]) 0) <> 1).
  unfold user_base. change (XHWICAP_WFV) with 0x20114. change XHWICAP_SR with 0x20110.
  change OCL_CLKWIZ_STATUS with 0x50004.
  repeat match goal with |- context [?x =? ?y] => destruct (Z.eqb_spec x y); [lia|] end. discriminate.
Qed.

(** 175 MHz are asked for, 200 are set *)
Lemma freqscaling_sets_the_clock_witness :
  exists s', ocl_freqscaling_ioctl (env := good_board) scaling_at idle_shell = Ok 0 s' /\
    bar_writes s' = [ (0x40030000, 0); (0x40050200, 0x04000a01); (0x40050208, 5); (0x4005025c, 7);
      (0x4005025c, 2); (0x40030000, 2); (0x40030000, 0); (0x40030000, 2); (0x40030000, 3) ] /\
    ocl_frequency_of (input_clock 0) (base_config 0) 5 = 200.
Proof.
  assert (H : wp (ocl_freqscaling_ioctl (env := good_board) scaling_at) (fun r s' =>
    r = 0 /\ axi_gate_frozen s' = 0 /\
    let d := device (pdev_ids idle_shell) in
    exists t, zlookup frequency_table (175 / ocl_step - 1) = Some t /\ ocl t <= 175 < ocl t + 25 /\
      bar_writes s' = bar_writes idle_shell ++ [(GATE user_base, 0)] ++ clock_writes user_base (base_config d) t
        ++ gate_pulse user_base /\
      let f := ocl_frequency_of (input_clock d) (base_config d) (divide t) in
      ocl t <= f /\ (ocl t < f <-> divide_frac t <> 0)) idle_shell).
  { apply (freqscaling_sets_the_clock (env := good_board) user_base idle_shell scaling_at 175);
      [reflexivity|reflexivity| |exact good_idle| |split; discriminate].
    - intros h. reflexivity.
    - intros h. split; reflexivity. }
  destruct (proj1 (wp_ok _ _ _) H) as (r & s' & E & -> & _ & t & Et & _ & Hw & _). exists s'.
  split; [exact E|]. injection Et as <-. split; [rewrite Hw; reflexivity|reflexivity].
Defined.

Lemma idle_engines : engines_known (drv idle_shell).
Proof.
  intros i Hi.
  assert (i = 0 \/ i = 1 \/ i = 2 \/ i = 3 \/ i = 4 \/ i = 5 \/ i = 6 \/ i = 7) as Hc by lia.
  repeat (destruct Hc as [->|Hc]); try subst i; eexists; (split; [reflexivity|]); intros Hp;
    try (destruct (Hp eq_refl)). eexists. reflexivity.
Qed.

Lemma idle_heap : heap_ok idle_shell.
Proof. split; [reflexivity|intros p _; reflexivity]. Qed.

(** every word of the configuration space reads as 2; one engine *)
Lemma reset_hot_restores_configuration_witness :
  exists rc s, reset_hot_ioctl (env := good_board) idle_shell = Ok rc s /\
    seen reg_write s = [(0x1000 + offset_of engine_regs "interrupt_enable_mask", reinit_mask)] /\
    axi_gate_frozen s = 0.
Proof.
  pose proof (reset_hot_restores_configuration (env := good_board) idle_shell idle_heap ltac:(discriminate) ltac:(discriminate)
    (fun _ => ltac:(discriminate)) idle_engines) as H.
  destruct (proj1 (wp_ok _ _ _) H) as (rc & s & E & words & words' & hot & L & _ & Hr & _ & Hg). exists rc, s.
  split; [exact E|]. split; [rewrite Hr; vm_compute; reflexivity|exact Hg].
Defined.
