(* ===== verification/WitnessesTester.v ===== *)
(** * A process of a test program at a concrete input *)
From S2P Require Import Prelude Layout Kernel World Desc Engine Wz WzRing CharDev CharFacts Tester TesterFacts Demo.
#[local] Open Scope Z_scope.

(** the driver reads what the process stored, and its copies do not fault *)
#[local] Instance reader_env : Env := {|
  answer := fun h f args =>
    match f, args with
    | copy_from_user, [a; _] => [0; stored h a; stored h (a + 4)]
    | _, _ => [0]
    end;
  poll_mode := false; enable_credit_mp := 0
|}.
Lemma reader_memory : ProcessMemory 4096 8192.
Proof. split; [reflexivity|]. intros h. exists []. reflexivity. Defined.

(** two blocks are queued, the second with a header and data of 6 rows *)
Definition reader_world : world :=
  (ring_world demo_results)
    <| eng ::= (fun e => e <| running := 1 |>
         <| wz_ext ::= (fun x => x <| kfifo := [mk_block 0 1 100; mk_block 2 2 192] |>) |>) |>
    <| lro ::= (fun d => d <| lro_magic := MAGIC_DEVICE |>) |>
    <| chars := {[7 := zero_char <| c_magic := MAGIC_CHAR |> <| c_lro := true |> <| c_engine := 1 |>]} |>.
Definition reader_data (a : Z) : Z :=
  let o := a mod WZ_DMA_BUFLEN in
  if o =? 0 then 0x105 else if o =? 4 then 6 else 5 + (o - 32) / 4.

Lemma reader_attached : attached 7 reader_world.
Proof.
  split.
  - exists (zero_char <| c_magic := MAGIC_CHAR |> <| c_lro := true |> <| c_engine := 1 |>).
    split; [split; [discriminate|split; reflexivity]|split; reflexivity].
  - apply (ring_shape_queue _ _ _ (ring_world_shape demo_results)).
  - discriminate.
Defined.

Lemma reader_drains_the_queue_witness :
  exists p', for_exit 0 2 (fun _ => turn2 4096 8192 7 128 reader_data) (process0 reader_world) = Ok None p' /\
    kfifo (wz_ext (eng (krn p'))) = [] /\ tot_len p' = 192 /\ reports p' = [].
Proof.
  pose proof reader_memory as pm.
  pose proof (reader_drains_the_queue 4096 8192 7 128 (le_n _) (check_block2 reader_data)
    [mk_block 0 1 100; mk_block 2 2 192] [] (process0 reader_world) reader_attached eq_refl) as H.
  destruct (proj1 (wp_ok _ _ _) (H ltac:(repeat constructor; discriminate)))
    as (r & p' & E & -> & (Hx & _ & Ht & Hr) & _).
  exists p'. split; [exact E|]. split; [rewrite Hx; reflexivity|]. rewrite Ht, Hr. split; reflexivity.
Defined.
