(* ===== verification/WitnessesDma.v ===== *)
(** * A transfer of a user buffer at a concrete input *)
From S2P Require Import Prelude Layout Kernel World Desc Engine Sgm Transfer TransferFacts UserDma Demo.
From S2P Require Import Service ServiceFacts CharDev CharFacts BadBuffer DataFacts RunFacts PolledDma.
#[local] Open Scope Z_scope.

(** a buffer of 3000 bytes on two pages; bus addresses are physical ones, so
    that the pages follow one another, and the mapping merges them *)
#[local] Instance buffer_env : Env := {|
  answer := fun h f args =>
    match f with
    | get_user_pages_fast => [2; 100; 101]
    | pci_map_sg => [1; 100 * 4096 + 0x800; 3000]
    | dma_alloc_coherent => [1; 0x1000]
    | kzalloc | kcalloc => [1]
    | _ => [0]
    end;
  poll_mode := false; enable_credit_mp := 0
|}.
Definition physical (a : Z) : Z * Z := (a / PAGE_SIZE, a mod PAGE_SIZE).

Lemma demo_buffer : UserBuffer 0x10800 3000 [100; 101] physical.
Proof.
  assert (En : buffer_pages 0x10800 3000 = 2) by reflexivity.
  split; try reflexivity; try discriminate.
  - repeat split; (lia || discriminate).
  - intros h n. rewrite En. intros Hn. cbn [answer buffer_env nth]. unfold sizeof_xdma_desc. lia.
  - intros h sgm dir l n Hn Hl. exists [(100 * 4096 + 0x800, 3000)].
    split; [discriminate|]. split; [rewrite Hn; discriminate|]. split; [reflexivity|]. split.
    + repeat constructor; cbn; lia.
    + rewrite Hl. vm_compute. reflexivity.
Defined.

Definition buffer_world : world := (demo_world zero_ext ∅) <| lro ::= (fun d => d <| pci_dev := 1 |>) |>.

Lemma transfer_moves_the_buffer_witness :
  exists w', transfer_create 0x10800 3000 0x40 0 0 0 1 buffer_world = Ok 1000 w' /\
    moves_buffer 0x10800 3000 [100; 101] physical 1000 0x40 0 0 w'.
Proof.
  pose proof demo_buffer as ub.
  pose proof (transfer_moves_the_buffer 0x10800 3000 [100; 101] physical buffer_world 0x40 0 0 0
    eq_refl ltac:(discriminate)) as H.
  destruct (proj1 (wp_ok _ _ _) H) as (t & w' & E & -> & Hm). exists w'. split; [exact E|exact Hm].
Defined.


(** ** A read into 3000 bytes of which only the first page is mapped *)

#[local] Instance half_env : Env := {|
  answer := fun h f args =>
    match f with
    | get_user_pages_fast => [1; 100]
    | kzalloc | kcalloc => [1]
    | _ => [0]
    end;
  poll_mode := false; enable_credit_mp := 0
|}.
Definition half_world : world :=
  buffer_world <| chars := {[7 := zero_char <| c_magic := MAGIC_CHAR |> <| c_lro := true |> <| c_engine := 1 |>]} |>
    <| lro ::= (fun d => d <| lro_magic := MAGIC_DEVICE |>) |>
    <| eng ::= (fun e => e <| addr_align := 1 |> <| len_granularity := 1 |>) |>.

Lemma bad_buffer_is_a_bug_witness :
  char_sgdma_read_write (sched := demo_sched) 250 10 7 0x10800 3000 0 0 half_world = Abort BugOn.
Proof.
  apply (bad_buffer_is_a_bug (sched := demo_sched) 250 10 7
    (zero_char <| c_magic := MAGIC_CHAR |> <| c_lro := true |> <| c_engine := 1 |>) 0x10800 3000 0 0 half_world);
    [split; [discriminate|split; reflexivity]|split; reflexivity|split; [discriminate|reflexivity]|reflexivity|reflexivity
    |reflexivity| |reflexivity].
  split.
  - repeat split; (lia || discriminate).
  - reflexivity.
  - discriminate.
  - discriminate.
  - intros h u. split; [split; [discriminate|reflexivity]|reflexivity].
Defined.

(** ** A read of the same buffer in poll mode: the device counts one descriptor *)

#[local] Instance polled_env : Env := {|
  answer := fun h f args =>
    match f with
    | get_user_pages_fast => [2; 100; 101]
    | pci_map_sg => [1; 100 * 4096 + 0x800; 3000]
    | dma_alloc_coherent => [1; 0x1000]
    | kzalloc | kcalloc | poll_mode_wb => [1]
    | jiffies => [3000 * Z.of_nat (length h)]
    | _ => [0]
    end;
  poll_mode := true; enable_credit_mp := 0
|}.

Lemma after_the_limit now limit : - 2 ^ 63 <= limit - now < 0 -> time_after (u64 now) (u64 limit) = true.
Proof.
  intros H. unfold time_after, s64, u64. rewrite <- Zminus_mod.
  rewrite Zplus_mod_idemp_l, Z.mod_small by lia. apply Z.ltb_lt. lia.
Qed.

Lemma demo_polled : PolledEngine 250 10 1 0x1000 0x9000.
Proof.
  split; try reflexivity; try discriminate; try lia.
  intros h0 h Hh. cbn [answer polled_env nth]. apply after_the_limit.
  change (POLL_TIMEOUT_SECONDS * 250) with 2500. lia.
Qed.

Definition polled_world : world :=
  buffer_world <| eng ::= (fun e => e <| regs := 0x1000 |> <| poll_mode_addr_virt := 0x9000 |>) |>.

